(* ===== verification/_CoqProject ===== *)
-Q . S2P
Prelude.v
GoTime.v
GoFloat.v
GoStrings.v
GoParseFloat.v
GoDuration.v
Types.v
GoHeap.v
DeepCopy.v
Capability.v
Planner.v
Transports.v
Window.v
Contact.v
Query.v
Drift.v
Enrollment.v
Template.v
Decommission.v
Cluster.v
Unstructured.v
Liveness.v
Compose.v
Rollout.v
Delivery.v
Convergence.v
Driver.v
Vivarium.v
Habitat.v
Keeper.v
Panel.v
Mapper.v
DryRun.v
Bridge.v
BridgeRun.v
Nrf.v
Verify.v
Sinks.v
Telemetry.v
Startup.v
