(* ===== verification/Prelude.v ===== *)
(** * Torpor: a verification of the fleet controllers

    Torpor manages firmware and configuration of battery-powered devices that sleep.
    Its Go controllers (src/controller) watch devices through the Kubernetes API,
    judge from their silence whether they are alive, plan firmware rollouts against
    what each device can take, hold them back during maintenance windows, and report
    drift, credentials, enrollments and decommissions. This library is a shallow
    embedding of those controllers and of the tools beside them (the dry run, the serial
    bridge, the contract check, the simulator the controllers are tried on), of the
    KubeEdge mapper (src/mapper: the driver of one device, the panel of a node, the
    writers of its readings), and of the modem firmware at the other end of the bridge:
    every function is a function or a program here, with the same cases in the same
    order, and the theorems are about these.

    ** Files

    - [Prelude]: results, fixed-width integers, generic lists, the interfaces of
      [sort.Slice] ([SliceSort]) and of the iteration order of maps ([MapRange]).
    - [GoTime], [GoFloat], [GoStrings], [GoParseFloat], [GoDuration]: the parts of Go's time,
      float64, strings, strconv and fmt packages that the code uses. A [Time] is nanoseconds since year
      one, so the zero time is 0; a [Duration] is an int64; a [Location] is a function
      from instants to offsets.
    - [Types]: the API objects of api/v1alpha1 as records, field for field. String
      enumerations stay strings, because the empty string and unknown values reach
      the code. [GoHeap], [DeepCopy] (zz_generated.deepcopy.go): the same objects in
      memory, with their pointers, slices and maps, and the generated copies of them,
      statement by statement on a heap.
    - [Capability] (capability_types.go), [Transports] (transports.go), [Planner]
      (planner.go), [Window] and [Contact] (window.go), [Query] (query.go), [Drift]
      (drift.go), [Enrollment] (enrollment.go), [Template] (template.go) and
      [Decommission] (decommission.go): the pure decisions.
    - [Cluster]: a controller as data, a program that asks the API server and the
      clock and goes on with whatever it is answered, and the exchanges ([runs]) it
      can have. [Unstructured]: the accessors of untyped objects.
    - [Liveness] (liveness_controller.go), [Compose] (compose.go), [Rollout]
      (rollout_controller.go): the reconcilers and what composes them.
    - [Delivery]: the theorems about whole passes of the rollout controller, with a
      concrete fleet they are run on. [Convergence]: pass after pass over a fleet that
      obeys.
    - [Driver] (mapper/esphome/driver: driver.go, transport.go, devicetype.go): the
      client of one device, its cache, its transports, its codecs and its liveness.
    - [Panel] (mapper/esphome/device: device.go, devicetwin.go): the devices of a node
      as objects of a heap, their worker goroutines and the mutex, as operations that
      return, panic or block, and a step relation of the process: calls statement by
      statement where they change the tables, workers, messages, and the loop of
      DevStart, which runs beside the servers and does not take the mutex.
      [Mapper] (mapper/esphome/cmd/main.go, and the end of DevStart): what comes up
      before the servers answer, and the interrupt.
    - [Vivarium] (internal/vivarium: types.go, enclosure.go): simulated devices and
      gateways, and the life of a device as a step relation. [Habitat] (enclosure.go):
      the whole enclosure, all lives at once behind shared gateways, from connecting
      to disconnecting. [Keeper] (types.go, cmd/vivarium/main.go): the durations of the
      fleet file and the ground truth that is printed, as text.
    - [DryRun] (cmd/plan/main.go): loading a directory of manifests and every report of
      the tool, on the same planner and windows as the controllers.
    - [Bridge] (cmd/bridge/main.go): a serial port read through [bufio.Scanner], the
      publications of its lines, and commands as lines. [BridgeRun]: the process around
      them, its session and will, its two goroutines and every way to end. [Nrf]
      (firmware/nrf9160/src/main.c): both threads of the modem, with their buffers.
      [Verify] (cmd/verify/main.go): the five checks of a device and their verdict.
    - [Sinks] (mapper/esphome/data, and device.go, devicetwin.go, devicestatus.go): the
      writers of readings to MySQL, Redis, TDengine and Influx with the connections they
      share, the push methods, and the reports to the edge core. [Telemetry]
      (data/publish/otel): the provider, the gauge and the goroutine that ends them.
    - [Startup] (cmd/main.go, groupversion_info.go, cmd/vivarium/main.go): the scheme,
      the controllers that a manager runs, and the exits of the processes.

    ** How the parts interact

    The liveness controller writes a [DeviceLiveness] per device ([ReconcileLiveness]).
    The rollout controller ([ReconcileRollout]) reads those ([matchingLivenesses]),
    has [PlanRollout] sort them, asks [EvaluateWindowsFor] and [ApplyWindow] for
    permission and a budget, counts what earlier passes did ([observe]), and writes
    the desired firmware of the next devices ([dispatch_all]). Queries, drift reports
    and enrollment read the same objects ([actionable] is proved to agree with the
    planner up to battery, image size and silence, of which it asks nothing). The mapper's panel ([serve]) starts a client per device, reads a desired
    property and writes it to its device ([DeviceDataWrite]) over the first transport that is open and can carry it
    ([selectTransport]), and fills its cache from what the device publishes
    ([deliver]). The panel starts a writer per reported property
    ([start_handlers]); three of the four databases keep their handle in a package
    variable, so that writers meet in it ([World]). The dry run judges devices, checks
    windows and plans as the controllers do, from files ([reportRollout],
    [dry_liveness]). What the bridge reads is what the firmware's [pub] wrote, what it
    writes is what [rx_thread] reads, and [verify_run] hears what it publishes. A
    vivarium's organism is such a device: it publishes at its ticks
    ([tick]), takes a firmware command ([onCommand]) and flashes it later ([land]);
    the organisms of an enclosure meet in the gateways they ask ([Habitat.habitat_step]). The
    broker keeps what the bridge said last, or says for it what its will is
    ([BridgeRun]). A Go function that mutates its argument returns the new value here,
    which is sound because the client of the API server gives out copies of what it
    caches: that these share nothing with the cache is [DeepCopy.deep_copies_separate].

    ** What the theorems show

    - Whole passes ([Delivery]): over every exchange with the API server, so for every
      state of the cluster, every failed request and every interleaving with other
      writers, a device is written only with every precondition read in the same pass;
      in every pass that goes on, step, medium and window bound what is written and what
      is recorded; "Complete" implies that every eligible device of the fleet as it was
      read in the pass was read running the wanted hash; one status is written, last.
      [Liveness.ReconcileLiveness_safe] is the like for the liveness controller.
    - Progress ([Convergence]): over a fleet that obeys, with its windows open and without
      a limit of devices, more
      passes than there are eligible devices complete a rollout, whatever its canary,
      its steps and its limit are, each device dispatched to once and in order.
    - Copies ([DeepCopy]): a copy of any object of the API has its type and content,
      and no write through either shows in the other.
    - Refinement: [PlanRollout] against a declarative classification, a query's actionable
      devices against the planner's eligible ones, [RenderTemplate] against a declarative
      rendering whatever order the maps iterate in. Refusals of the planner rest on what
      a device declares, except for its battery, of which it reports the level.
    - The mapper ([Driver]): what is published goes out over a declared, open transport
      that can carry it; refusals are permanent and deferrals are not; values survive
      a write and a read. The panel ([Panel]), over every interleaving of calls, workers,
      messages and the loop of DevStart: one worker per device, serving the object the
      panel lists, unless DevStart starts a device after a call about it has begun
      ([Panel.started_twice], [Panel.start_overtaken]); a write only of what the device
      declares; and the call that blocks the panel for good.
    - The vivarium ([Vivarium]), over every interleaving of ticks, commands, flashes
      and reconnections: devices not configured to lie do not, bricked ones are
      silent, and an outage is one outage for every device behind the gateway. The
      whole enclosure ([Habitat]): at every moment the ground truth has one row per
      device, which says what that device is.
    - Ends of processes: however a bridge that started ends, the broker holds no session
      of it and keeps that its device is offline, but for the one race that the theorem
      names ([BridgeRun]); an interrupt ends the mapper whoever holds the panel's mutex,
      with every device that has its client disconnected ([Mapper]).
    - Composition ([DryRun], [Nrf], [Verify]): a rollout the dry run calls blocked is one
      no pass of the controller writes for; a command written to a bridged device comes
      back once, byte for byte, on the state topic; and a conformant image behind the
      bridge passes all five checks.
    - The bridge ends, saying that the device is gone, once its port has been silent for
      a hundred and one reads, and until then publishes exactly what the lines say. No
      input makes the firmware pass the end of a buffer.
    - Errors: loading a directory accounts for every document; and once a writer of
      MySQL, Redis or TDengine stops, every other writer of that kind is refused or
      panics until a new one is started, while those of Influx keep connections of their
      own ([Sinks]).
    - Durations ([Keeper]): every number with a unit is read exactly, days through a
      float64 included ([GoParseFloat.f_mul_exact]).
    - Functional behaviour on every branch: windows, the moments they announce (the
      earliest at which a period opens, the end of a period that is open; what is
      announced of seasons is not always so, see [Window]), cron walks, progressive steps, reports of drift, credentials, enrollment and queries.
    - Bounds: [StepSize], window budgets, requeue intervals, int32 and int64 wrap-around
      where a result depends on it.

    ** Recursion and fuel

    Loops over slices are folds or structural recursion. A call of [Scan] is given 4096
    bytes of buffer and 100 empty reads as its bounds, which are those of bufio, and the
    loop of the bridge as many rounds as its input can have lines
    ([Bridge.readLoop_ends] is the theorem that it ends). [ParseDuration] recurses on
    the length of its text, each term taking a byte at least
    ([GoDuration.parse_terms_enough]). The copy of a query's predicate recurses with a
    depth, enough as soon as it is the height of the predicate ([DeepCopy]); a predicate
    that contains itself is never copied, in Go neither. The probe of the contract check waits for the
    arrivals of its 15 seconds, which are a list. The cron walks ([cron_walk]) recurse on the number of minutes left, 2880 backwards and
    370 days forwards, which are the bounds of the Go loops themselves.

    ** What the model takes as given

    Code that is not in the repository is an interface: [time.LoadLocation] and the
    local zone (arguments), the label selectors of the API machinery
    ([LabelSelectors]), the accessors of untyped objects ([Accessors], with the laws
    they document in [AccessorLaws]), [strconv.Quote], the generator of random numbers
    ([RandSource]), the JSON decoder of radio frames and what the KubeEdge mapper
    framework converts and decodes ([MapperFramework]), the YAML decoder of the dry run
    ([YamlDecoder]), the JSON decoders of announcements ([AnnouncementDecoder]) and of
    sink configurations ([SinkDecoder]), what a database or an endpoint answers
    ([Backend]), what a serial port yields ([Port]), the types of metav1 and their copies
    ([MetaV1]), the scheme and the manager ([SchemeLib], [ManagerLib]), OpenTelemetry
    ([Telemetry]) and the file system and broker of the vivarium ([VivariumWorld]).
    The properties that rest on the laws of one have an instance of it that their
    witnesses run on. The API server, the MQTT broker and the clock
    answer anything at all.

    ** What is not modelled

    Logging and metrics; the parsing of flags, the embedded broker and the servers,
    which are libraries; the colours and columns of the dry run and of the contract
    check; the body of a video stream; the interleaving of the firmware's two threads
    within a line; and what comes between two devices that an interrupt stops.
    [PlanRollout] reads the clock once per device in Go and once per plan here. *)

From stdpp Require Export base tactics list strings gmap sorting pretty.
From Stdlib Require Export ZArith Lia.
From Stdlib Require Import Ascii.

Create HintDb torpor.
Create Rewrite HintDb torpor_count.

Declare Scope torpor_scope.
Delimit Scope torpor_scope with torpor.

(** ** Fixed-width integers *)

Module Int.
Section Width.
Context (w : Z) (Hw : (0 < w)%Z).
Local Open Scope Z_scope.

(** Two's-complement reduction of an exact integer to [w] bits. *)
Definition wrap (z : Z) : Z := (z + 2 ^ (w - 1)) mod 2 ^ w - 2 ^ (w - 1).

Definition in_range (z : Z) : Prop := - 2 ^ (w - 1) <= z < 2 ^ (w - 1).

Lemma pow_split : 2 ^ w = 2 * 2 ^ (w - 1).
Proof using Hw. rewrite <- Z.pow_succ_r by lia. f_equal. lia. Qed.

Lemma wrap_id z : in_range z -> wrap z = z.
Proof using Hw.
  unfold in_range, wrap. intros H. rewrite pow_split.
  rewrite Z.mod_small; lia.
Qed.

Lemma wrap_range z : in_range (wrap z).
Proof using Hw.
  unfold in_range, wrap.
  assert (0 < 2 ^ (w - 1)) by (apply Z.pow_pos_nonneg; lia).
  pose proof (Z.mod_pos_bound (z + 2 ^ (w - 1)) (2 ^ w)) as B.
  rewrite pow_split in *. lia.
Qed.

Lemma wrap_wrap_add a b : wrap (wrap a + b) = wrap (a + b).
Proof using Hw.
  unfold wrap. f_equal.
  replace ((a + 2 ^ (w - 1)) mod 2 ^ w - 2 ^ (w - 1) + b + 2 ^ (w - 1))
    with ((a + 2 ^ (w - 1)) mod 2 ^ w + b) by lia.
  rewrite Z.add_mod_idemp_l by (apply Z.pow_nonzero; lia). f_equal. lia.
Qed.

Lemma wrap_add_wrap a b : wrap (a + wrap b) = wrap (a + b).
Proof using Hw. rewrite Z.add_comm, wrap_wrap_add, Z.add_comm. done. Qed.
End Width.
End Int.

Abbreviation wrap32 := (Int.wrap 32).
Abbreviation wrap64 := (Int.wrap 64).
Definition MaxInt64 : Z := 9223372036854775807.
Definition MinInt64 : Z := -9223372036854775808.
Definition MinInt32 : Z := -2147483648.
Definition MaxInt32 : Z := 2147483647.

Lemma wrap32_id z : (MinInt32 <= z <= MaxInt32)%Z -> wrap32 z = z.
Proof.
  intros H. apply Int.wrap_id; [lia|]. unfold Int.in_range, MinInt32, MaxInt32 in *. lia.
Qed.
Lemma wrap64_id z : (MinInt64 <= z <= MaxInt64)%Z -> wrap64 z = z.
Proof.
  intros H. apply Int.wrap_id; [lia|]. unfold Int.in_range, MinInt64, MaxInt64 in *. lia.
Qed.
Lemma wrap32_range z : (MinInt32 <= wrap32 z <= MaxInt32)%Z.
Proof.
  pose proof (Int.wrap_range 32 ltac:(lia) z) as H.
  unfold Int.in_range, MinInt32, MaxInt32 in *. lia.
Qed.
Lemma wrap64_range z : (MinInt64 <= wrap64 z <= MaxInt64)%Z.
Proof.
  pose proof (Int.wrap_range 64 ltac:(lia) z) as H.
  unfold Int.in_range, MinInt64, MaxInt64 in *. lia.
Qed.
Lemma wrap32_succ z : wrap32 (wrap32 z + 1) = wrap32 (z + 1).
Proof. apply Int.wrap_wrap_add. lia. Qed.

#[export] Hint Rewrite wrap32_succ : torpor_count.

(** [x++] on an [int32] field. *)
Definition incr32 (z : Z) : Z := wrap32 (z + 1).

(** Go's [int32(len(s))]. *)
Definition len32 {A} (l : list A) : Z := wrap32 (Z.of_nat (length l)).

(** [n] increments from zero are the length, at width 32. *)
Lemma incr32_wrap z : incr32 (wrap32 z) = wrap32 (z + 1).
Proof. apply wrap32_succ. Qed.
#[export] Hint Rewrite incr32_wrap : torpor_count.

(** ** Results of fallible calls: Go's [(T, error)] *)

Inductive result (A E : Type) : Type :=
| Ok (a : A)
| Err (e : E).
Arguments Ok {A E} a.
Arguments Err {A E} e.

Definition result_bind {A B E} (r : result A E) (f : A -> result B E) : result B E :=
  match r with Ok a => f a | Err e => Err e end.

Notation "x <-? r ; k" := (result_bind r (fun x => k))
  (at level 20, r at level 100, k at level 200, right associativity) : torpor_scope.

Lemma result_bind_ok {A B E} (r : result A E) (f : A -> result B E) b :
  result_bind r f = Ok b <-> exists a, r = Ok a /\ f a = Ok b.
Proof. destruct r; simpl; split; [eauto|naive_solver|done|naive_solver]. Qed.

(** ** Lists *)

Section Lists.
Context {A B : Type}.

(** A loop that appends [f x] for the elements selected by [p]. *)
Lemma fold_left_snoc_filter (p : A -> bool) (f : A -> B) l acc :
  fold_left (fun acc x => if p x then acc ++ [f x] else acc) l acc =
  acc ++ map f (List.filter p l).
Proof.
  revert acc. induction l as [|x l IH]; intros acc; simpl.
  - by rewrite app_nil_r.
  - rewrite IH. destruct (p x); simpl; [by rewrite <- app_assoc | done].
Qed.

Lemma fold_left_snoc_map (f : A -> B) l acc :
  fold_left (fun acc x => acc ++ [f x]) l acc = acc ++ map f l.
Proof.
  revert acc. induction l as [|x l IH]; intros acc; simpl.
  - by rewrite app_nil_r.
  - rewrite IH. by rewrite <- app_assoc.
Qed.

(** The invariant rule for a [for] loop. *)
Lemma fold_left_invariant (P : B -> Prop) (f : B -> A -> B) l b :
  P b -> (forall b x, In x l -> P b -> P (f b x)) -> P (fold_left f l b).
Proof.
  revert b. induction l as [|x l IH]; intros b Hb Hstep; simpl; [done|].
  apply IH; [apply Hstep; [by left|done] | intros; apply Hstep; [by right|done]].
Qed.

Lemma length_filter_le (p : A -> bool) l : length (List.filter p l) <= length l.
Proof. induction l as [|x l IH]; simpl; [lia|]. destruct (p x); simpl; lia. Qed.

Lemma filter_length_split (p : A -> bool) l :
  length (List.filter p l) + length (List.filter (fun x => negb (p x)) l) = length l.
Proof. induction l as [|x l IH]; simpl; [done|]. destruct (p x); simpl; lia. Qed.

Lemma filter_split_Permutation (p : A -> bool) l :
  Permutation l (List.filter p l ++ List.filter (fun x => negb (p x)) l).
Proof.
  induction l as [|x l IH]; simpl; [done|]. destruct (p x); simpl.
  - by constructor.
  - rewrite <- Permutation_middle. by constructor.
Qed.

Lemma filter_ext_In (p q : A -> bool) l :
  (forall x, In x l -> p x = q x) -> List.filter p l = List.filter q l.
Proof.
  induction l as [|x l IH]; intros H; simpl; [done|].
  rewrite (H x (or_introl eq_refl)), IH by (intros; apply H; by right). done.
Qed.

Lemma existsb_map_In (p : A -> bool) l :
  existsb p l = true <-> exists x, In x l /\ p x = true.
Proof. apply existsb_exists. Qed.
End Lists.

#[export] Instance List_filter_Permutation {A} (p : A -> bool) :
  Proper ((≡ₚ) ==> (≡ₚ)) (List.filter p).
Proof.
  intros l l' H. induction H as [|x l l' _ IH|x y l|l l1 l2 _ IH1 _ IH2]; simpl.
  - done.
  - destruct (p x); [by constructor|done].
  - destruct (p x), (p y); try done. apply perm_swap.
  - by rewrite IH1.
Qed.

(** Reading one field of a loop's state: a counter, a list that is appended to, a
    field that no step touches. *)
Section Fields.
Context {S A : Type} (step : S -> A -> S).

Lemma fold_counter (c : S -> Z) (p : A -> bool) l s :
  (forall s x, c (step s x) = if p x then incr32 (c s) else c s) ->
  c s = 0%Z ->
  c (fold_left step l s) = wrap32 (Z.of_nat (length (List.filter p l))).
Proof.
  intros Hstep H0. induction l as [|x l IH] using rev_ind; [done|].
  rewrite fold_left_app, List.filter_app. simpl. rewrite Hstep, IH.
  destruct (p x); simpl; [|by rewrite app_nil_r].
  rewrite incr32_wrap, length_app. f_equal. simpl. lia.
Qed.

Lemma fold_appends {B} (d : S -> list B) (f : A -> list B) l s :
  (forall s x, d (step s x) = d s ++ f x) ->
  d (fold_left step l s) = d s ++ flat_map f l.
Proof.
  intros Hstep. revert s. induction l as [|x l IH]; intros s; simpl.
  - by rewrite app_nil_r.
  - by rewrite IH, Hstep, <- app_assoc.
Qed.

Lemma fold_constant {B} (d : S -> B) l s :
  (forall s x, d (step s x) = d s) -> d (fold_left step l s) = d s.
Proof.
  intros Hstep. revert s. induction l as [|x l IH]; intros s; simpl; [done|].
  by rewrite IH.
Qed.
End Fields.

Lemma flat_map_nil {A B} (f : A -> list B) l :
  flat_map f l = [] <-> forall x, In x l -> f x = [].
Proof.
  induction l as [|x l IH]; simpl; [naive_solver|]. rewrite app_nil. rewrite IH. naive_solver.
Qed.

Lemma filter_nil_In {A} (p : A -> bool) l :
  List.filter p l = [] <-> forall x, In x l -> p x = false.
Proof.
  induction l as [|x l IH]; simpl; [naive_solver|].
  destruct (p x) eqn:E; [|naive_solver]. split; [done|]. intros H.
  rewrite (H x (or_introl eq_refl)) in E. done.
Qed.

(** The three-way split of a list by two exclusive tests. *)
Lemma filter_three_way {A} (p q r : A -> bool) l :
  (forall x, (Nat.b2n (p x) + Nat.b2n (q x) + Nat.b2n (r x) = 1)%nat) ->
  (length (List.filter p l) + length (List.filter q l) + length (List.filter r l)
   = length l)%nat.
Proof.
  intros H. induction l as [|x l IH]; [done|]. simpl. specialize (H x).
  destruct (p x), (q x), (r x); simpl in *; lia.
Qed.

(** ** Interfaces of the runtime

    [sort.Slice] promises a permutation sorted by [less]; nothing about ties. *)
Class SliceSort := {
  slice_sort : forall {A : Type} (less : A -> A -> bool), list A -> list A;
  slice_sort_perm : forall {A} (less : A -> A -> bool) l,
    Permutation (slice_sort less l) l;
  slice_sort_sorted : forall {A} (less : A -> A -> bool) l,
    (forall x y, less x y = true -> less y x = false) ->
    (forall x y z, less y x = false -> less z y = false -> less z x = false) ->
    Sorted (fun x y => less y x = false) (slice_sort less l)
}.

(** [for k, v := range m] visits every entry once, in an unspecified order that
    may differ from one execution of the loop to the next ([tick]). *)
Class MapRange := {
  map_range : forall {V : Type} (tick : nat), gmap string V -> list (string * V);
  map_range_perm : forall {V} tick (m : gmap string V),
    Permutation (map_range tick m) (map_to_list m)
}.

Lemma map_range_elem `{MapRange} {V} tick (m : gmap string V) k v :
  In (k, v) (map_range tick m) <-> m !! k = Some v.
Proof.
  rewrite <- elem_of_map_to_list, <- list_elem_of_In.
  by rewrite (map_range_perm tick m).
Qed.

(** Insertion sort: an instance of the [sort.Slice] contract. *)
Fixpoint insert_by {A} (less : A -> A -> bool) (x : A) (l : list A) : list A :=
  match l with
  | [] => [x]
  | y :: l' => if less y x then y :: insert_by less x l' else x :: y :: l'
  end.

Definition sort_by {A} (less : A -> A -> bool) (l : list A) : list A :=
  fold_right (insert_by less) [] l.

Lemma insert_by_perm {A} (less : A -> A -> bool) x l :
  Permutation (insert_by less x l) (x :: l).
Proof.
  induction l as [|y l IH]; simpl; [done|]. destruct (less y x); [|done].
  rewrite IH. apply perm_swap.
Qed.

Lemma sort_by_perm {A} (less : A -> A -> bool) l : Permutation (sort_by less l) l.
Proof.
  induction l as [|x l IH]; simpl; [done|].
  rewrite insert_by_perm. by constructor.
Qed.

Lemma insert_by_sorted {A} (less : A -> A -> bool) x l :
  (forall x y, less x y = true -> less y x = false) ->
  Sorted (fun x y => less y x = false) l ->
  Sorted (fun x y => less y x = false) (insert_by less x l).
Proof.
  intros Hasym. induction l as [|y l IH]; simpl; intros Hs.
  - by repeat constructor.
  - destruct (less y x) eqn:E.
    + inversion Hs as [|? ? Hs' Hhd]; subst. constructor; [by apply IH|].
      destruct l as [|z l]; simpl; [constructor; by apply Hasym|].
      destruct (less z x); constructor; [by inversion Hhd | by apply Hasym].
    + constructor; [done|]. by constructor.
Qed.

#[export] Program Instance insertion_SliceSort : SliceSort :=
  {| slice_sort A less l := sort_by less l |}.
Next Obligation. intros. apply sort_by_perm. Qed.
Next Obligation.
  intros A less l Hasym Htrans. induction l as [|x l IH]; simpl; [constructor|].
  by apply insert_by_sorted.
Qed.

#[export] Program Instance ordered_MapRange : MapRange :=
  {| map_range V tick m := map_to_list m |}.
Next Obligation. done. Qed.

(** Pointers to values, as options: [*p] when [p != nil]. *)
Definition is_nil {A} (o : option A) : bool := match o with None => true | Some _ => false end.
