(* ===== verification/GoTime.v ===== *)
(** * Go's [time] package, as far as the controllers use it

    [time.Time] is an instant: nanoseconds since 0001-01-01T00:00:00Z, so that the
    zero value of the struct is [0] and [IsZero] is a test against it. A location is
    the offset (in nanoseconds) its rules give at an instant; [LoadLocation] reads
    the system's zone database and is a parameter of the models that call it.
    [time.Duration] is an [int64] count of nanoseconds; [Sub] saturates as
    documented, duration arithmetic wraps. *)

From S2P Require Import Prelude.
From Stdlib Require Import Ascii.
Local Open Scope Z_scope.

Definition Time := Z.
Definition Duration := Z.
Definition Location := Z -> Z.

Definition Nanosecond : Duration := 1.
Definition Millisecond : Duration := 1000000.
Definition Second : Duration := 1000000000.
Definition Minute : Duration := 60 * Second.
Definition Hour : Duration := 60 * Minute.

Definition zero_time : Time := 0.
Definition IsZero (t : Time) : bool := t =? zero_time.
Definition Before (t u : Time) : bool := t <? u.
Definition After (t u : Time) : bool := u <? t.
Definition add_time (t : Time) (d : Duration) : Time := t + d.

(** [t.Sub(u)]: saturates at the ends of [int64]. *)
Definition sub_time (t u : Time) : Duration := Z.max MinInt64 (Z.min MaxInt64 (t - u)).

(** [t.Truncate(d)] works on the absolute instant, whatever the location. *)
Definition Truncate (t : Time) (d : Duration) : Time :=
  if d <=? 0 then t else t - t mod d.

(** Seconds between 0001-01-01 and 1970-01-01. *)
Definition unix_epoch : Time := 62135596800 * Second.
Definition UnixMilli (ms : Z) : Time := unix_epoch + ms * Millisecond.
Definition UTC : Location := fun _ => 0.

(** ** The proleptic Gregorian calendar *)

Definition is_leap (y : Z) : bool :=
  ((y mod 4 =? 0) && negb (y mod 100 =? 0)) || (y mod 400 =? 0).

Definition month_lengths (y : Z) : list Z :=
  [31; if is_leap y then 29 else 28; 31; 30; 31; 30; 31; 31; 30; 31; 30; 31].

(** Days since 0001-01-01 to (year, day of the year from 0). *)
Definition year_yday (d : Z) : Z * Z :=
  let n400 := d / 146097 in
  let d := d mod 146097 in
  let n100 := Z.min 3 (d / 36524) in
  let d := d - n100 * 36524 in
  let n4 := d / 1461 in
  let d := d - n4 * 1461 in
  let n1 := Z.min 3 (d / 365) in
  (400 * n400 + 100 * n100 + 4 * n4 + n1 + 1, d - n1 * 365).

(** Day of the year to (month, day of the month), both from 1. *)
Fixpoint month_day (ms : list Z) (m yd : Z) : Z * Z :=
  match ms with
  | [] => (m - 1, yd + 1)
  | n :: ms' => if yd <? n then (m, yd + 1) else month_day ms' (m + 1) (yd - n)
  end.

(** [t.Year(), t.Month(), t.Day()] and the clock, for an instant already shifted
    by its location's offset. *)
Definition day_number (local : Z) : Z := local / (24 * Hour).
Definition Date (local : Z) : Z * Z * Z :=
  let '(y, yd) := year_yday (day_number local) in
  let '(m, d) := month_day (month_lengths y) 1 yd in
  (y, m, d).

Definition local_of (loc : Location) (t : Time) : Z := t + loc t.
Definition time_Minute (loc : Location) (t : Time) : Z := (local_of loc t / Minute) mod 60.
Definition time_Hour (loc : Location) (t : Time) : Z := (local_of loc t / Hour) mod 24.
Definition time_SecondOf (loc : Location) (t : Time) : Z := (local_of loc t / Second) mod 60.
Definition time_Day (loc : Location) (t : Time) : Z := (Date (local_of loc t)).2.
Definition time_Month (loc : Location) (t : Time) : Z := (Date (local_of loc t)).1.2.
Definition time_Year (loc : Location) (t : Time) : Z := (Date (local_of loc t)).1.1.
(** Sunday is 0; 0001-01-01 was a Monday. *)
Definition time_Weekday (loc : Location) (t : Time) : Z :=
  (day_number (local_of loc t) + 1) mod 7.

(** ** Formatting *)

Definition pad (w : nat) (z : Z) : string :=
  let s := pretty (Z.abs z) in
  let zeros := String.concat ""%string (replicate (w - String.length s) "0"%string) in
  ((if (z <? 0)%Z then "-" else "") +:+ zeros +:+ s)%string.

(** Layout "2006-01-02". *)
Definition format_date (loc : Location) (t : Time) : string :=
  (pad 4 (time_Year loc t) +:+ "-" +:+ pad 2 (time_Month loc t) +:+ "-" +:+
   pad 2 (time_Day loc t))%string.

(** Layout "15:04". *)
Definition format_clock (loc : Location) (t : Time) : string :=
  (pad 2 (time_Hour loc t) +:+ ":" +:+ pad 2 (time_Minute loc t))%string.

(** The "Z07:00" element: the offset at the instant, in whole minutes. *)
Definition format_zone (loc : Location) (t : Time) : string :=
  let o := Z.quot (loc t) Minute in
  if loc t =? 0 then "Z"%string
  else ((if (o <? 0)%Z then "-" else "+") +:+ pad 2 (Z.abs o / 60)%Z +:+ ":" +:+
        pad 2 (Z.abs o mod 60)%Z)%string.

(** [time.RFC3339]. *)
Definition format_RFC3339 (loc : Location) (t : Time) : string :=
  (format_date loc t +:+ "T" +:+ format_clock loc t +:+ ":" +:+
   pad 2 (time_SecondOf loc t) +:+ format_zone loc t)%string.

(** [fmtFrac]: the digits of [v / 10^prec], trailing zeros dropped, and the point. *)
Fixpoint fmtFrac (v : Z) (prec : nat) (print : bool) (buf : string) : string * Z :=
  match prec with
  | O => ((if print then String "."%char buf else buf), v)
  | S k =>
      let print := print || negb (v mod 10 =? 0) in
      fmtFrac (v / 10) k print (if print then (pretty (v mod 10) +:+ buf)%string else buf)
  end.

(** [Duration.String]. *)
Definition duration_String (d : Duration) : string :=
  let u := Z.abs d in
  let sub (prec : nat) (unit : string) :=
    let '(frac, v) := fmtFrac u prec false unit in (pretty v +:+ frac)%string in
  let body :=
    if u <? Second then
      if u =? 0 then "0s"%string
      else if u <? 1000 then sub 0%nat "ns"%string
      else if u <? Millisecond then sub 3%nat "µs"%string
      else sub 6%nat "ms"%string
    else
      let '(frac, v) := fmtFrac u 9 false "s"%string in
      let secs := (pretty (v mod 60) +:+ frac)%string in
      let m := v / 60 in
      if m =? 0 then secs
      else
        let mins := (pretty (m mod 60) +:+ "m" +:+ secs)%string in
        let h := m / 60 in
        if h =? 0 then mins else (pretty h +:+ "h" +:+ mins)%string in
  if d <? 0 then String "-"%char body else body.

Example duration_strings :
  map duration_String [0; 90 * Minute; 1500 * Millisecond; -(15 * Minute); 250 * Millisecond; 7]
  = ["0s"; "1h30m0s"; "1.5s"; "-15m0s"; "250ms"; "7ns"]%string.
Proof. vm_compute; reflexivity. Qed.

(** ** Building instants, for concrete inputs *)

Definition days_before_year (y : Z) : Z :=
  let p := y - 1 in 365 * p + p / 4 - p / 100 + p / 400.
Definition days_before_month (y m : Z) : Z :=
  fold_left Z.add (firstn (Z.to_nat (m - 1)) (month_lengths y)) 0.
Definition instant (y mo d h mi s : Z) : Time :=
  (days_before_year y + days_before_month y mo + (d - 1)) * (24 * Hour) +
  h * Hour + mi * Minute + s * Second.

(** ** Lemmas *)

Lemma sub_time_range t u : MinInt64 <= sub_time t u <= MaxInt64.
Proof. unfold sub_time, MinInt64, MaxInt64. lia. Qed.

Lemma sub_time_id t u : MinInt64 <= t - u <= MaxInt64 -> sub_time t u = t - u.
Proof. unfold sub_time. lia. Qed.

Lemma sub_time_pos t u : 0 < sub_time t u <-> u < t.
Proof. unfold sub_time, MinInt64, MaxInt64. lia. Qed.

Lemma sub_time_nonpos t u : sub_time t u <= 0 <-> t <= u.
Proof. unfold sub_time, MinInt64, MaxInt64. lia. Qed.

(** Saturation does not disturb a comparison with a duration that is not the
    largest one. *)
Lemma sub_time_le t u d : MinInt64 <= d < MaxInt64 -> sub_time t u <= d <-> t - u <= d.
Proof. unfold sub_time, MinInt64, MaxInt64. lia. Qed.

Lemma sub_time_lt t u d : MinInt64 < d <= MaxInt64 -> sub_time t u < d <-> t - u < d.
Proof. unfold sub_time, MinInt64, MaxInt64. lia. Qed.

Lemma sub_time_mono t t' u : t <= t' -> sub_time t u <= sub_time t' u.
Proof. unfold sub_time. lia. Qed.

Lemma Truncate_le t d : 0 < d -> Truncate t d <= t < Truncate t d + d.
Proof.
  intros H. unfold Truncate. replace (d <=? 0) with false by lia.
  pose proof (Z.mod_pos_bound t d H). lia.
Qed.

Lemma Truncate_multiple t d : 0 < d -> Truncate t d mod d = 0.
Proof.
  intros H. unfold Truncate. replace (d <=? 0) with false by lia.
  rewrite Zminus_mod, Zmod_mod, Z.sub_diag, Zmod_0_l. done.
Qed.

Lemma UnixMilli_mono a b : a <= b <-> UnixMilli a <= UnixMilli b.
Proof. unfold UnixMilli, Millisecond. lia. Qed.

(** Calendar sanity: known dates, leap days and weekdays. *)
Example instant_epoch : instant 1970 1 1 0 0 0 = unix_epoch.
Proof. reflexivity. Qed.
Example date_roundtrip_2026 :
  Date (instant 2026 8 30 2 30 0) = (2026, 8, 30) /\
  time_Weekday UTC (instant 2026 8 30 2 30 0) = 0.
Proof. split; vm_compute; reflexivity. Qed.
Example date_leap : Date (instant 2024 2 29 23 59 59) = (2024, 2, 29).
Proof. vm_compute; reflexivity. Qed.
Example date_century : Date (instant 2100 3 1 0 0 0) = (2100, 3, 1).
Proof. vm_compute; reflexivity. Qed.
Example rfc3339_example :
  format_RFC3339 UTC (instant 2026 8 30 2 30 5) = "2026-08-30T02:30:05Z"%string.
Proof. vm_compute; reflexivity. Qed.
Example rfc3339_offset :
  format_RFC3339 (fun _ => -7 * Hour) (instant 2026 8 30 2 30 5)
  = "2026-08-29T19:30:05-07:00"%string.
Proof. vm_compute; reflexivity. Qed.
