(* ===== verification/GoFloat.v ===== *)
(** * IEEE 754 binary64, as Go's [float64]

    On the executable [spec_float] of the standard library: conversions from and to
    integers, arithmetic with rounding to nearest even, comparisons. A conversion to
    an integer type that cannot hold the value is implementation-defined in Go; the
    model has amd64's answer, the smallest [int64]. *)

From S2P Require Import Prelude.
From Stdlib Require Import SpecFloat.
Local Open Scope Z_scope.

Definition float64 := spec_float.
Definition f_of_Z (z : Z) : float64 := binary_normalize 53 1024 z 0 false.
Definition f_add : float64 -> float64 -> float64 := SFadd 53 1024.
Definition f_sub : float64 -> float64 -> float64 := SFsub 53 1024.
Definition f_mul : float64 -> float64 -> float64 := SFmul 53 1024.
Definition f_div : float64 -> float64 -> float64 := SFdiv 53 1024.
Definition f_lt : float64 -> float64 -> bool := SFltb.
Definition f_le : float64 -> float64 -> bool := SFleb.
Definition f_eq : float64 -> float64 -> bool := SFeqb.

(** The truncated value of a finite float. *)
Definition f_trunc (f : float64) : option Z :=
  match f with
  | S754_zero _ => Some 0
  | S754_finite s m e =>
      let a := if 0 <=? e then Z.shiftl (Zpos m) e else Z.shiftr (Zpos m) (- e) in
      Some (if s then - a else a)
  | _ => None
  end.

Definition f_to_int64 (f : float64) : Z :=
  match f_trunc f with
  | Some z => if (MinInt64 <=? z) && (z <=? MaxInt64) then z else MinInt64
  | None => MinInt64
  end.

(** [int32(f)]: out of range, amd64 gives the least integer. *)
Definition f_to_int32 (f : float64) : Z :=
  match f_trunc f with
  | Some z => if (MinInt32 <=? z) && (z <=? MaxInt32) then z else MinInt32
  | None => MinInt32
  end.

Lemma f_to_int64_range f : MinInt64 <= f_to_int64 f <= MaxInt64.
Proof.
  unfold f_to_int64. destruct (f_trunc f) as [z|]; [|unfold MinInt64, MaxInt64; lia].
  destruct ((MinInt64 <=? z) && (z <=? MaxInt64)) eqn:E; unfold MinInt64, MaxInt64 in *; lia.
Qed.

Example f_to_int32_out_of_range :
  f_to_int32 (f_of_Z 3000000000) = MinInt32 /\ f_to_int32 (f_of_Z (-7)) = -7.
Proof. vm_compute; done. Qed.
Example f_of_Z_exact : f_to_int64 (f_of_Z (-1234567)) = -1234567.
Proof. vm_compute; reflexivity. Qed.
Example f_trunc_toward_zero :
  f_to_int64 (f_div (f_of_Z (-7)) (f_of_Z 2)) = -3.
Proof. vm_compute; reflexivity. Qed.
