(* ===== verification/GoStrings.v ===== *)
(** * Go's [strings], [strconv] and [fmt], as far as the program uses them

    A Go string is a sequence of bytes, as is [string] here. [quote] is
    [strconv.Quote] (the [%q] verb), whose table of printable runes is a parameter;
    nothing in the development depends on what it returns. *)

From S2P Require Import Prelude GoTime.
From Stdlib Require Import Ascii OrdersEx.
Local Open Scope Z_scope.

Class StrconvQuote := quote : string -> string.

(** [==] on strings. *)
Definition str_eq (a b : string) : bool := bool_decide (a = b).

Lemma str_eq_true a b : str_eq a b = true <-> a = b.
Proof. unfold str_eq. apply bool_decide_eq_true. Qed.
Lemma str_eq_false a b : str_eq a b = false <-> a <> b.
Proof. unfold str_eq. apply bool_decide_eq_false. Qed.
Lemma str_eq_refl a : str_eq a a = true.
Proof. by apply str_eq_true. Qed.
Lemma str_eq_sym a b : str_eq a b = str_eq b a.
Proof. unfold str_eq. apply bool_decide_ext. split; congruence. Qed.

Definition is_empty (s : string) : bool := str_eq s ""%string.

(** ** Bytes *)

Definition byte_code (c : ascii) : Z := Z.of_N (N_of_ascii c).
Definition is_digit (c : ascii) : bool := (48 <=? byte_code c) && (byte_code c <=? 57).
Definition digit_value (c : ascii) : Z := byte_code c - 48.

Fixpoint starts_with (codes : list Z) (s : string) : bool :=
  match codes, s with
  | [], _ => true
  | k :: ks, String c s' => (byte_code c =? k) && starts_with ks s'
  | _ :: _, EmptyString => false
  end.

(** The UTF-8 encodings of the white space of [unicode.IsSpace] past ASCII. *)
Definition wide_spaces : list (list Z) :=
  [[194; 133]; [194; 160]; [225; 154; 128]; [226; 128; 168]; [226; 128; 169];
   [226; 128; 175]; [226; 129; 159]; [227; 128; 128]] ++
  map (fun k => [226; 128; k]) [128; 129; 130; 131; 132; 133; 134; 135; 136; 137; 138].

Definition is_ascii_space (c : ascii) : bool :=
  ((9 <=? byte_code c) && (byte_code c <=? 13)) || (byte_code c =? 32).

(** Bytes taken by the space at the head of [s], 0 when there is none. *)
Definition space_width (s : string) : nat :=
  match s with
  | EmptyString => 0
  | String c _ =>
      if is_ascii_space c then 1
      else match find (fun codes => starts_with codes s) wide_spaces with
           | Some codes => length codes
           | None => 0
           end
  end.

(** ** [strings] *)

Definition flush_field (acc : string) : list string :=
  if is_empty acc then [] else [acc].

(** [strings.Fields]: [skip] counts the bytes of a multi-byte space still ahead. *)
Fixpoint fields_from (skip : nat) (s acc : string) : list string :=
  match s with
  | EmptyString => flush_field acc
  | String c s' =>
      match skip with
      | S k => fields_from k s' acc
      | O =>
          match space_width s with
          | O => fields_from 0 s' (acc +:+ String c EmptyString)%string
          | S k => flush_field acc ++ fields_from k s' ""%string
          end
      end
  end.
Definition Fields (s : string) : list string := fields_from 0 s ""%string.

Definition Join (sep : string) (l : list string) : string := String.concat sep l.

(** ** [strconv] *)

Fixpoint digits_value (acc : Z) (s : string) : option Z :=
  match s with
  | EmptyString => Some acc
  | String c s' => if is_digit c then digits_value (10 * acc + digit_value c) s' else None
  end.

Definition unsigned_value (s : string) : option Z :=
  match s with EmptyString => None | _ => digits_value 0 s end.

Definition signed_value (s : string) : option Z :=
  match s with
  | String "-"%char s' => Z.opp <$> unsigned_value s'
  | String "+"%char s' => unsigned_value s'
  | _ => unsigned_value s
  end.

(** [strconv.ParseInt(s, 10, 64)]; [strconv.Atoi] is the same on 64-bit [int]. *)
Definition ParseInt64 (s : string) : option Z :=
  match signed_value s with
  | Some z => if (MinInt64 <=? z) && (z <=? MaxInt64) then Some z else None
  | None => None
  end.
Definition Atoi (s : string) : option Z := ParseInt64 s.

(** ** [fmt] *)

Fixpoint take_digits (s : string) : string :=
  match s with
  | String c s' => if is_digit c then String c (take_digits s') else EmptyString
  | EmptyString => EmptyString
  end.

(** Spaces before a number; a newline is an error of its own for [Sscanf]. *)
Fixpoint skip_blanks (skip : nat) (s : string) : option string :=
  match s with
  | EmptyString => Some EmptyString
  | String c s' =>
      match skip with
      | S k => skip_blanks k s'
      | O =>
          if byte_code c =? 10 then None
          else if (byte_code c =? 13) && starts_with [10] s' then skip_blanks 1 s'
          else match space_width s with
               | O => Some s
               | S k => skip_blanks k s'
               end
      end
  end.

Definition scan_number (s : string) : option Z :=
  match s with
  | String "-"%char s' => ParseInt64 (String "-" (take_digits s'))
  | String "+"%char s' => ParseInt64 (take_digits s')
  | _ => ParseInt64 (take_digits s)
  end.

(** [fmt.Sscanf(s, "%d", &v)]: what is stored, [None] when [v] is left alone. *)
Definition Sscanf_d (s : string) : option Z :=
  match skip_blanks 0 s with Some s' => scan_number s' | None => None end.

(** [%v] of a string slice. *)
Definition fmt_strings (l : list string) : string := ("[" +:+ Join " " l +:+ "]")%string.

Example fields_example :
  Fields "  0 2	* *  * "%string = ["0"; "2"; "*"; "*"; "*"]%string.
Proof. reflexivity. Qed.
Example atoi_examples :
  map Atoi ["17"; "-3"; "+4"; ""; "1_0"; "9223372036854775808"]%string
  = [Some 17; Some (-3); Some 4; None; None; None].
Proof. reflexivity. Qed.
Example sscanf_examples :
  map Sscanf_d [" 12ms"; "x"; "-5"; ""]%string = [Some 12; None; Some (-5); None].
Proof. reflexivity. Qed.

(** ** Decimal output *)

Lemma digits_value_app acc s t :
  digits_value acc (s +:+ t)%string = digits_value acc s ≫= fun a => digits_value a t.
Proof.
  revert acc. induction s as [|c s IH]; intros acc; simpl; [done|].
  destruct (is_digit c); [apply IH|done].
Qed.

Lemma str_app_cons x a b : (String x a +:+ b)%string = String x (a +:+ b)%string.
Proof. done. Qed.

Lemma str_app_assoc a b c : ((a +:+ b) +:+ c)%string = (a +:+ b +:+ c)%string.
Proof. induction a as [|x a IH]; [done|]. by rewrite !str_app_cons, IH. Qed.

Lemma str_app_nil_r a : (a +:+ "")%string = a.
Proof. induction a as [|x a IH]; [done|]. by rewrite str_app_cons, IH. Qed.

Lemma length_str_app a b : String.length (a +:+ b)%string = (String.length a + String.length b)%nat.
Proof. induction a as [|c a IH]; [done|]. rewrite str_app_cons. simpl. by rewrite IH. Qed.

Lemma str_app_inj_l a b c : (a +:+ b)%string = (a +:+ c)%string -> b = c.
Proof.
  induction a as [|x a IH]; [done|]. rewrite !str_app_cons. intros H.
  injection H as H. auto.
Qed.

Lemma pretty_Z_pos i : 0 < i -> pretty i = pretty_N_go (Z.to_N i) ""%string.
Proof. destruct i as [|p|p]; try lia. done. Qed.

Lemma pretty_Z_neg i : i < 0 -> pretty i = String "-" (pretty_N_go (Z.to_N (- i)) ""%string).
Proof. destruct i as [|p|p]; try lia. done. Qed.

(** ** [<] on strings: by bytes *)

Definition str_lt (a b : string) : bool :=
  match String.compare a b with Lt => true | _ => false end.

Lemma str_lt_compare a b : str_lt a b = true <-> String.compare a b = Lt.
Proof. unfold str_lt. by destruct (String.compare a b). Qed.

Lemma str_lt_trans a b c : str_lt a b = true -> str_lt b c = true -> str_lt a c = true.
Proof.
  rewrite !str_lt_compare.
  exact (StrictOrder_Transitive (StrictOrder := OrdersEx.String_as_OT.lt_strorder) a b c).
Qed.

Lemma str_lt_irrefl a : str_lt a a = false.
Proof.
  destruct (str_lt a a) eqn:E; [|done]. apply str_lt_compare in E.
  by destruct (StrictOrder_Irreflexive (StrictOrder := OrdersEx.String_as_OT.lt_strorder) a).
Qed.

Lemma str_lt_asym a b : str_lt a b = true -> str_lt b a = false.
Proof.
  intros H. destruct (str_lt b a) eqn:E; [|done].
  pose proof (str_lt_trans _ _ _ H E) as H'. by rewrite str_lt_irrefl in H'.
Qed.

Lemma str_lt_total a b : str_lt a b = false -> str_lt b a = false -> a = b.
Proof.
  unfold str_lt. intros Ha Hb. apply String.compare_eq_iff.
  rewrite (String.compare_antisym b a) in Hb. by destruct (String.compare a b).
Qed.

Lemma str_le_trans a b c : str_lt b a = false -> str_lt c b = false -> str_lt c a = false.
Proof.
  intros Hab Hbc. destruct (str_lt c a) eqn:Hca; [|done].
  destruct (str_lt b c) eqn:Eb.
  - by rewrite (str_lt_trans _ _ _ Eb Hca) in Hab.
  - by rewrite (str_lt_total _ _ Hbc Eb) in Hca; rewrite Hca in Hab.
Qed.

(** ** Counters: [map[string]int32] *)

(** [m[key]++] on a [map[string]int32]. *)
Definition bump (key : string) (m : gmap string Z) : gmap string Z :=
  <[key := incr32 (default 0 (m !! key))]> m.

Lemma bump_lookup key m k :
  bump key m !! k = if str_eq key k then Some (incr32 (default 0 (m !! k))) else m !! k.
Proof.
  unfold bump. destruct (str_eq key k) eqn:E.
  - apply str_eq_true in E as ->. apply lookup_insert_eq.
  - apply str_eq_false in E. by apply lookup_insert_ne.
Qed.

(** How many of [l] have the key, as an [int32] counter that exists once bumped. *)
Definition tally (keys : list string) (k : string) : option Z :=
  match List.filter (str_eq k) keys with
  | [] => None
  | ks => Some (wrap32 (Z.of_nat (length ks)))
  end.

Lemma fold_bump keys k :
  fold_left (fun m key => bump key m) keys ∅ !! k = tally keys k.
Proof.
  unfold tally. induction keys as [|key keys IH] using rev_ind; [done|].
  rewrite fold_left_app, List.filter_app. simpl. rewrite bump_lookup, IH, (str_eq_sym k key).
  destruct (str_eq key k); [|by rewrite app_nil_r].
  destruct (List.filter (str_eq k) keys) as [|x xs] eqn:E; simpl; [done|].
  rewrite incr32_wrap. f_equal. f_equal. rewrite length_app. simpl. lia.
Qed.

(** ** [time.Parse(time.RFC3339, s)]

    The instant and the offset of its zone. The hour may have one digit, a fraction
    of a second may follow the seconds after a point or a comma, a leap second is
    refused, and the bounds of the offset are those of the package. *)

Definition digits (s : string) : option Z :=
  if is_empty s then None else digits_value 0 s.

(** [getnum]: two digits, or one when [fixed] is false and the second is missing. *)
Definition getnum (fixed : bool) (s : string) : option (Z * string) :=
  match s with
  | String a (String b rest) =>
      if negb (is_digit a) then None
      else if is_digit b then Some (10 * digit_value a + digit_value b, rest)
      else if fixed then None else Some (digit_value a, String b rest)
  | String a EmptyString =>
      if is_digit a && negb fixed then Some (digit_value a, EmptyString) else None
  | EmptyString => None
  end.

Definition literal (c : ascii) (s : string) : option string :=
  match s with
  | String a rest => if Ascii.eqb a c then Some rest else None
  | EmptyString => None
  end.

(** A fraction: nanoseconds (digits past the ninth are dropped) and the rest. *)
Definition fraction (s : string) : Z * string :=
  match s with
  | String p ((String d _) as s') =>
      if ((byte_code p =? 46) || (byte_code p =? 44)) && is_digit d then
        let ds := take_digits s' in
        let n := String.length ds in
        let kept := String.substring 0 9 ds in
        (default 0 (digits kept) * 10 ^ (9 - Z.of_nat (String.length kept)),
         String.substring n (String.length s' - n) s')
      else (0, s)
  | _ => (0, s)
  end.

(** The "Z07:00" element: seconds east of UTC. *)
Definition zone (s : string) : option (Z * string) :=
  match s with
  | String "Z"%char rest => Some (0, rest)
  | String sign rest =>
      '(h, r1) ← getnum true rest;
      r2 ← literal ":" r1;
      '(m, r3) ← getnum true r2;
      if (h >? 24) || (m >? 60) then None
      else let o := (h * 60 + m) * 60 in
           if Ascii.eqb sign "+" then Some (o, r3)
           else if Ascii.eqb sign "-" then Some (- o, r3) else None
  | EmptyString => None
  end.

Definition ParseRFC3339 (s : string) : option (Time * Location) :=
  y ← (if (String.length s <? 4)%nat then None else digits (String.substring 0 4 s));
  let s1 := String.substring 4 (String.length s - 4) s in
  s2 ← literal "-" s1;
  '(mo, s3) ← getnum true s2;
  s4 ← literal "-" s3;
  '(d, s5) ← getnum true s4;
  s6 ← literal "T" s5;
  '(h, s7) ← getnum false s6;
  s8 ← literal ":" s7;
  '(mi, s9) ← getnum true s8;
  s10 ← literal ":" s9;
  '(sec, s11) ← getnum true s10;
  let '(ns, s12) := fraction s11 in
  '(off, s13) ← zone s12;
  if negb (is_empty s13) then None
  else if (mo <=? 0) || (mo >? 12) || (h >=? 24) || (mi >=? 60) || (sec >=? 60) then None
  else if (d <? 1) || (d >? nth (Z.to_nat (mo - 1)) (month_lengths y) 0) then None
  else Some (instant y mo d h mi sec + ns - off * Second, fun _ => off * Second).

Example parse_rfc3339 :
  map (fun s => fst <$> ParseRFC3339 s)
    ["2026-08-30T15:47:48Z"; "2026-08-30T15:47:48.25+02:00"; "2026-02-29T00:00:00Z";
     "2026-08-30T24:00:00Z"; "2026-08-30 15:47:48Z"; "2026-08-30T15:47:48"; ""]%string
  = [Some (instant 2026 8 30 15 47 48); Some (instant 2026 8 30 13 47 48 + 250000000);
     None; None; None; None; None].
Proof. vm_compute; reflexivity. Qed.

(** ** Case, spaces and substrings *)

Definition shift_letter (lo hi delta : Z) (c : ascii) : ascii :=
  if (lo <=? byte_code c) && (byte_code c <=? hi)
  then ascii_of_N (Z.to_N (byte_code c + delta)) else c.

(** Letters one case of which is ASCII and the other not: their UTF-8 bytes, and the
    ASCII letter. *)
Definition wide_lower : list (list Z * ascii) :=
  [([196; 176], "i"%char); ([226; 132; 170], "k"%char)].
Definition wide_upper : list (list Z * ascii) :=
  [([196; 177], "I"%char); ([197; 191], "S"%char)].

Fixpoint change_case (f : ascii -> ascii) (wide : list (list Z * ascii)) (skip : nat) (s : string)
  : string :=
  match s with
  | EmptyString => EmptyString
  | String c s' =>
      match skip with
      | S k => change_case f wide k s'
      | O => match find (fun '(codes, _) => starts_with codes s) wide with
             | Some (codes, a) => String a (change_case f wide (length codes - 1) s')
             | None => String (f c) (change_case f wide 0 s')
             end
      end
  end.

(** [strings.ToLower] and [strings.ToUpper], as far as ASCII words can tell: letters
    neither case of which is ASCII stay as they are. *)
Definition ToLower : string -> string := change_case (shift_letter 65 90 32) wide_lower 0.
Definition ToUpper : string -> string := change_case (shift_letter 97 122 (-32)) wide_upper 0.

(** [strings.TrimSpace]: leading spaces by width, trailing ones by the last byte that
    is not part of a space. *)
Fixpoint drop_spaces (skip : nat) (s : string) : string :=
  match s with
  | EmptyString => EmptyString
  | String _ s' =>
      match skip with
      | S k => drop_spaces k s'
      | O => match space_width s with O => s | S k => drop_spaces k s' end
      end
  end.
Fixpoint all_spaces (skip : nat) (s : string) : bool :=
  match s with
  | EmptyString => true
  | String _ s' =>
      match skip with
      | S k => all_spaces k s'
      | O => match space_width s with O => false | S k => all_spaces k s' end
      end
  end.
Fixpoint trim_right (s : string) : string :=
  match s with
  | EmptyString => EmptyString
  | String c s' => if all_spaces 0 s then EmptyString else String c (trim_right s')
  end.
Definition TrimSpace (s : string) : string := trim_right (drop_spaces 0 s).

(** [strings.Contains]. *)
Fixpoint Contains (sub s : string) : bool :=
  String.prefix sub s || match s with EmptyString => false | String _ s' => Contains sub s' end.

(** [strings.Split], for a separator that is not empty. *)
Fixpoint split_from (sep : string) (skip : nat) (s acc : string) : list string :=
  match s with
  | EmptyString => [acc]
  | String c s' =>
      match skip with
      | S k => split_from sep k s' acc
      | O => if String.prefix sep s
             then acc :: split_from sep (String.length sep - 1) s' ""
             else split_from sep 0 s' (acc +:+ String c "")%string
      end
  end.
Definition Split (sep s : string) : list string := split_from sep 0 s "".

Example split_examples :
  map (Split ",") [""; "wifi"; "lora,,wifi"]%string = [[""]; ["wifi"]; ["lora"; ""; "wifi"]]%string.
Proof. reflexivity. Qed.
