(* ===== verification/GoParseFloat.v ===== *)
(** * Go's float64 as text: [strconv.ParseFloat] and [strconv.FormatFloat]

    The scanner is the one of strconv/atof.go, state by state; the value it scans is
    an exact rational, rounded once to nearest even, which is what the standard
    library promises. Printing with a fixed number of decimals rounds the exact value
    half to even; the shortest form is the first precision that reads back. *)

From Stdlib Require Import Ascii SpecFloat.
From S2P Require Import Prelude GoTime GoFloat GoStrings.
Local Open Scope Z_scope.

(** ** Rounding a rational *)

(** [num / den], rounded to nearest even: a quotient of at least 70 bits, with one
    sticky bit for what is left. *)
Definition round_ratio (neg : bool) (num den : Z) : float64 :=
  if num =? 0 then S754_zero neg
  else
    let k := Z.max 0 (Z.log2 den - Z.log2 num + 70) in
    let q := Z.shiftl num k / den in
    let r := Z.shiftl num k mod den in
    let m := 2 * q + (if r =? 0 then 0 else 1) in
    binary_normalize 53 1024 (if neg then - m else m) (- k - 1) neg.

(** [m * base ^ e], rounded. *)
Definition round_scaled (neg : bool) (m base e : Z) : float64 :=
  if 0 <=? e then round_ratio neg (m * base ^ e) 1 else round_ratio neg m (base ^ (- e)).

(** ** Scanning ([readFloat], [special], [underscoreOK]) *)

Definition lower (c : ascii) : Z :=
  let k := byte_code c in if (65 <=? k) && (k <=? 90) then k + 32 else k.
Definition is_hex_letter (c : ascii) : bool := (97 <=? lower c) && (lower c <=? 102).

Fixpoint same_letters (codes : list Z) (s : string) : bool :=
  match codes, s with
  | [], EmptyString => true
  | k :: ks, String c s' => (lower c =? k) && same_letters ks s'
  | _, _ => false
  end.

Definition codes_inf : list Z := [105; 110; 102].
Definition codes_infinity : list Z := [105; 110; 102; 105; 110; 105; 116; 121].
Definition codes_nan : list Z := [110; 97; 110].

(** A leading sign, and the rest. *)
Definition split_sign (s : string) : bool * bool * string :=
  match s with
  | String "-"%char s' => (true, true, s')
  | String "+"%char s' => (true, false, s')
  | _ => (false, false, s)
  end.

Definition special_float (s : string) : option float64 :=
  let '(signed, neg, s') := split_sign s in
  if same_letters codes_inf s' || same_letters codes_infinity s' then Some (S754_infinity neg)
  else if negb signed && same_letters codes_nan s' then Some S754_nan
  else None.

(** The mantissa: digits so far, their value, how many follow the point. *)
Record Mantissa := mkMantissa {
  man_dot : bool; man_digits : bool; man_value : Z; man_fraction : Z
}.

Definition push_digit (base d : Z) (m : Mantissa) : Mantissa :=
  mkMantissa (man_dot m) true (man_value m * base + d)
    (if man_dot m then man_fraction m + 1 else man_fraction m).

Fixpoint scan_mantissa (base : Z) (s : string) (m : Mantissa) : Mantissa * string :=
  match s with
  | EmptyString => (m, s)
  | String c s' =>
      if byte_code c =? 95 then scan_mantissa base s' m
      else if byte_code c =? 46 then
        if man_dot m then (m, s)
        else scan_mantissa base s' (mkMantissa true (man_digits m) (man_value m) (man_fraction m))
      else if is_digit c then scan_mantissa base s' (push_digit base (digit_value c) m)
      else if (base =? 16) && is_hex_letter c
      then scan_mantissa base s' (push_digit base (lower c - 87) m)
      else (m, s)
  end.

(** The digits of an exponent; it stops growing at ten thousand. *)
Fixpoint scan_exponent (s : string) (e : Z) : Z * string :=
  match s with
  | EmptyString => (e, s)
  | String c s' =>
      if byte_code c =? 95 then scan_exponent s' e
      else if is_digit c
      then scan_exponent s' (if e <? 10000 then e * 10 + digit_value c else e)
      else (e, s)
  end.

(** Everything after the mantissa: [None] when it is not an exponent to the end. *)
Definition exponent_of (base : Z) (s : string) : option Z :=
  match s with
  | EmptyString => if base =? 16 then None else Some 0
  | String c s' =>
      if lower c =? (if base =? 16 then 112 else 101) then
        let '(_, neg, s'') := split_sign s' in
        match s'' with
        | String d _ =>
            if is_digit d then
              let '(e, rest) := scan_exponent s'' 0 in
              if is_empty rest then Some (if neg then - e else e) else None
            else None
        | EmptyString => None
        end
      else None
  end.

Inductive Saw := SawNothing | SawDigit | SawUnderscore | SawOther.

Fixpoint underscores (hex : bool) (s : string) (saw : Saw) : bool :=
  match s with
  | EmptyString => match saw with SawUnderscore => false | _ => true end
  | String c s' =>
      if is_digit c || (hex && is_hex_letter c) then underscores hex s' SawDigit
      else if byte_code c =? 95 then
        match saw with SawDigit => underscores hex s' SawUnderscore | _ => false end
      else match saw with SawUnderscore => false | _ => underscores hex s' SawOther end
  end.

Definition underscoreOK (s : string) : bool :=
  let '(_, _, s') := split_sign s in
  match s' with
  | String "0"%char (String x s'') =>
      if (lower x =? 98) || (lower x =? 111) || (lower x =? 120)
      then underscores (lower x =? 120) s'' SawDigit
      else underscores false s' SawNothing
  | _ => underscores false s' SawNothing
  end.

Fixpoint has_underscore (s : string) : bool :=
  match s with
  | EmptyString => false
  | String c s' => (byte_code c =? 95) || has_underscore s'
  end.

(** The base, and what follows its prefix. *)
Definition base_of (s : string) : Z * string :=
  match s with
  | String "0"%char (String x (String c s')) =>
      if lower x =? 120 then (16, String c s') else (10, s)
  | _ => (10, s)
  end.

(** [strconv.ParseFloat(s, 64)]; [None] for a syntax or a range error. *)
Definition ParseFloat (s : string) : option float64 :=
  match special_float s with
  | Some f => Some f
  | None =>
      let '(_, neg, s') := split_sign s in
      let '(base, s'') := base_of s' in
      let '(m, rest) := scan_mantissa base s'' (mkMantissa false false 0 0) in
      if negb (man_digits m) then None
      else match exponent_of base rest with
           | None => None
           | Some e =>
               if has_underscore s && negb (underscoreOK s) then None
               else
                 let f := if base =? 16
                          then round_scaled neg (man_value m) 2 (e - 4 * man_fraction m)
                          else round_scaled neg (man_value m) 10 (e - man_fraction m) in
                 match f with S754_infinity _ => None | _ => Some f end
           end
  end.

(** ** Printing *)

(** The exact value of a finite float, as [num / den]. *)
Definition ratio_of (m : positive) (e : Z) : Z * Z :=
  if 0 <=? e then (Z.shiftl (Zpos m) e, 1) else (Zpos m, Z.shiftl 1 (- e)).

Definition round_half_even (num den : Z) : Z :=
  let q := num / den in
  let r := 2 * (num mod den) in
  if r <? den then q else if den <? r then q + 1 else if Z.even q then q else q + 1.

Fixpoint zeros (n : nat) : string :=
  match n with O => EmptyString | S k => String "0" (zeros k) end.

(** [n / 10 ^ prec] in decimals. *)
Definition decimals (prec : nat) (n : Z) : string :=
  let digits := pretty n in
  let padded := (zeros (S prec - String.length digits) +:+ digits)%string in
  let k := (String.length padded - prec)%nat in
  match prec with
  | O => padded
  | _ => (String.substring 0 k padded +:+ "." +:+ String.substring k prec padded)%string
  end.

(** [strconv.FormatFloat(f, 'f', prec, 64)], the [%.<prec>f] of fmt but for the sign
    of an infinity. *)
Definition FormatFixed (prec : nat) (f : float64) : string :=
  match f with
  | S754_nan => "NaN"
  | S754_infinity neg => if neg then "-Inf" else "+Inf"
  | S754_zero neg => ((if neg then "-" else "") +:+ decimals prec 0)%string
  | S754_finite neg m e =>
      let '(num, den) := ratio_of m e in
      ((if neg then "-" else "") +:+
       decimals prec (round_half_even (num * 10 ^ Z.of_nat prec) den))%string
  end.

(** The shortest decimal of [num / den] with [p] significant digits that reads back
    as [f]: the lower or the upper neighbour, the nearer one if both do. [scale] is
    the power of ten the digits count. *)
Definition neighbour (f : float64) (num den scale : Z) : option Z :=
  let num' := if 0 <=? scale then num else num * 10 ^ (- scale) in
  let den' := if 0 <=? scale then den * 10 ^ scale else den in
  let lo := num' / den' in
  let reads n := match SFcompare (round_scaled false n 10 scale) f with
                 | Some Eq => true | _ => false end in
  let hi := lo + 1 in
  match reads lo, reads hi with
  | true, true => Some (round_half_even num' den')
  | true, false => Some lo
  | false, true => Some hi
  | false, false => None
  end.

Fixpoint shortest (fuel : nat) (f : float64) (num den scale : Z) : Z * Z :=
  match fuel with
  | O => (num / den, 0)
  | S k =>
      match neighbour f num den scale with
      | Some n => (n, scale)
      | None => shortest k f num den (scale - 1)
      end
  end.

(** How many decimal digits the integer part of [num / den] can have, at most. *)
Definition top_scale (num den : Z) : Z := (Z.log2 num - Z.log2 den) * 301 / 1000 + 1.

(** Digits [n] times [10 ^ scale], without an exponent. *)
Definition plain (n scale : Z) : string :=
  if 0 <=? scale then pretty (n * 10 ^ scale) else decimals (Z.to_nat (- scale)) n.

(** [strconv.FormatFloat(f, 'f', -1, 64)]. *)
Definition FormatShortest (f : float64) : string :=
  match f with
  | S754_nan => "NaN"
  | S754_infinity neg => if neg then "-Inf" else "+Inf"
  | S754_zero neg => if neg then "-0" else "0"
  | S754_finite neg m e =>
      let '(num, den) := ratio_of m e in
      let '(n, scale) := shortest 40 (S754_finite false m e) num den (top_scale num den) in
      ((if neg then "-" else "") +:+ plain n scale)%string
  end.

(** ** On concrete text *)

Definition same_float (a b : option float64) : bool :=
  match a, b with
  | Some x, Some y => match SFcompare x y with Some Eq => true | _ => false end
  | None, None => true
  | _, _ => false
  end.

Example parse_floats :
  map (fun '(s, n, d) => same_float (ParseFloat s) (Some (round_ratio false n d)))
    [("14.00", 14, 1); ("0.1", 1, 10); ("1e3", 1000, 1); ("0x1p-2", 1, 4); (".5", 1, 2);
     ("+2.", 2, 1); ("1_0.5", 21, 2); ("1e-400", 0, 1)]%string
  = repeat true 8.
Proof. vm_compute. reflexivity. Qed.

Example parse_failures :
  map (fun s => bool_decide (is_Some (ParseFloat s)))
    [""; "."; "1e"; "x"; "1 "; "_1"; "1__0"; "1e400"; "0x1"; "infinit"; "+nan"; "1.2.3"]%string
  = repeat false 12.
Proof. vm_compute. reflexivity. Qed.

Example parse_specials :
  (ParseFloat "-Inf", ParseFloat "iNFinity", ParseFloat "nan", ParseFloat "-0")%string
  = (Some (S754_infinity true), Some (S754_infinity false), Some S754_nan, Some (S754_zero true)).
Proof. vm_compute. reflexivity. Qed.

Example half_way_cases :
  map (fun s => FormatFixed 0 (default S754_nan (ParseFloat s))) ["0.5"; "1.5"; "2.5"; "99.5"]%string
  = ["0"; "2"; "2"; "100"]%string.
Proof. vm_compute. reflexivity. Qed.

Example fixed_decimals :
  map (fun s => FormatFixed 2 (default S754_nan (ParseFloat s))) ["21.005"; "0.004"; "-3.14159"; "1e3"]%string
  = ["21.00"; "0.00"; "-3.14"; "1000.00"]%string.
Proof. vm_compute. reflexivity. Qed.

Example shortest_forms :
  map (fun s => FormatShortest (default S754_nan (ParseFloat s)))
    ["21.5"; "0.1"; "100"; "-0.30000000000000004"; "123456789.123"; "5e-324"; "1e23"; "-92"]%string
  = ["21.5"; "0.1"; "100"; "-0.30000000000000004"; "123456789.123"; decimals 324 5;
     "100000000000000000000000"; "-92"]%string.
Proof. vm_compute. reflexivity. Qed.

(** ** Lemmas: integers as text *)

Fixpoint all_bytes (p : ascii -> bool) (s : string) : bool :=
  match s with EmptyString => true | String c s' => p c && all_bytes p s' end.

Lemma all_bytes_app p s t : all_bytes p (s +:+ t)%string = all_bytes p s && all_bytes p t.
Proof. induction s as [|c s IH]; [done|]. rewrite str_app_cons. simpl. by rewrite IH, andb_assoc. Qed.

Lemma pretty_N_char_digit (d : N) :
  (d < 10)%N -> is_digit (pretty_N_char d) = true /\ digit_value (pretty_N_char d) = Z.of_N d.
Proof.
  intros H. assert (d = 0 \/ d = 1 \/ d = 2 \/ d = 3 \/ d = 4 \/ d = 5 \/ d = 6 \/ d = 7 \/ d = 8 \/
    d = 9)%N as D by lia.
  repeat destruct D as [->|D]; subst; done.
Qed.

Lemma pretty_digits n : forall s, all_bytes is_digit s = true ->
  all_bytes is_digit (pretty_N_go n s) = true.
Proof.
  induction n as [n IH] using (well_founded_induction N.lt_wf_0). intros s Hs.
  destruct (decide (n = 0)%N) as [->|Hn]; [by rewrite pretty_N_go_0|].
  rewrite pretty_N_go_step by lia. apply IH; [apply N.div_lt; lia|]. simpl.
  by destruct (pretty_N_char_digit (n mod 10) (N.mod_upper_bound n 10 ltac:(done))) as [-> _].
Qed.

Lemma scan_pretty n : forall s b f,
  scan_mantissa 10 (pretty_N_go n s) (mkMantissa false b 0 f) =
  scan_mantissa 10 s (mkMantissa false (b || negb (n =? 0)%N) (Z.of_N n) f).
Proof.
  induction n as [n IH] using (well_founded_induction N.lt_wf_0). intros s b f.
  destruct (decide (n = 0)%N) as [->|Hn]; [by rewrite pretty_N_go_0, orb_false_r|].
  rewrite pretty_N_go_step by lia. rewrite IH by (apply N.div_lt; lia).
  destruct (pretty_N_char_digit (n mod 10) (N.mod_upper_bound n 10 ltac:(done))) as [Hd Hv].
  cbn [scan_mantissa]. rewrite Hd, Hv. unfold is_digit in Hd.
  destruct (Z.eqb_spec (byte_code (pretty_N_char (n mod 10))) 95); [lia|].
  destruct (Z.eqb_spec (byte_code (pretty_N_char (n mod 10))) 46); [lia|].
  unfold push_digit. simpl. rewrite (proj2 (N.eqb_neq n 0)) by done. rewrite orb_true_r.
  do 2 f_equal. pose proof (N.div_mod n 10 ltac:(done)). lia.
Qed.

(** A text of digits is scanned as an integer. *)
Lemma digits_first s c t :
  all_bytes is_digit s = true -> s = String c t ->
  special_float s = None /\ split_sign s = (false, false, s) /\ has_underscore s = false /\
  base_of s = (10, s).
Proof.
  intros H ->. simpl in H. apply andb_true_iff in H as [Hc Ht].
  assert (has_underscore t = false) as Hu.
  { induction t as [|d t IH]; [done|]. simpl in Ht. apply andb_true_iff in Ht as [Hd Ht].
    simpl. rewrite IH by done. unfold is_digit in Hd. lia. }
  assert (is_digit c = true) as Hc' by done.
  destruct c as [[] [] [] [] [] [] [] []]; try discriminate Hc;
    (split_and!; [done|done|by simpl|]).
  all: destruct t as [|x [|y t]]; try done.
  all: cbn [base_of]; simpl in Ht; apply andb_true_iff in Ht as [Hx _].
  all: destruct x as [[] [] [] [] [] [] [] []]; try discriminate Hx; done.
Qed.

Lemma pretty_go_cons n s : (0 < n)%N -> exists c t, pretty_N_go n s = String c t.
Proof.
  revert s. induction n as [n IH] using (well_founded_induction N.lt_wf_0). intros s Hn.
  rewrite pretty_N_go_step by lia. destruct (decide (n / 10 = 0)%N) as [->|Hd].
  - rewrite pretty_N_go_0. eauto.
  - apply IH; [apply N.div_lt; lia|by apply N.neq_0_lt_0].
Qed.

Lemma digits_not_special s c t :
  all_bytes is_digit s = true -> s = String c t ->
  same_letters codes_inf s = false /\ same_letters codes_infinity s = false.
Proof.
  intros H ->. simpl in H. apply andb_true_iff in H as [Hc _].
  destruct c as [[] [] [] [] [] [] [] []]; try discriminate Hc; done.
Qed.

(** The text of a natural number, with or without a minus sign. *)
Definition signed_text (neg : bool) (n : N) : string :=
  if neg then String "-" (pretty_N_go n "") else pretty_N_go n "".

Lemma ParseFloat_digits neg n :
  (0 < n)%N ->
  ParseFloat (signed_text neg n) = match round_scaled neg (Z.of_N n) 10 0 with
                                   | S754_infinity _ => None | f => Some f end.
Proof.
  intros Hn. destruct (pretty_go_cons n "" Hn) as (c & t & E).
  pose proof (pretty_digits n "" eq_refl) as Hd.
  destruct (digits_first _ c t Hd E) as (H1 & H2 & H3 & H4).
  destruct (digits_not_special _ c t Hd E) as [H5 H6].
  assert (special_float (signed_text neg n) = None /\
    split_sign (signed_text neg n) = (neg, neg, pretty_N_go n "") /\
    has_underscore (signed_text neg n) = false) as (S1 & S2 & S3).
  { destruct neg; [|done]. split_and!; [|done|exact H3]. unfold special_float, signed_text.
    change (split_sign (String "-" (pretty_N_go n ""))) with (true, true, pretty_N_go n "").
    cbv beta iota. by rewrite H5, H6. }
  unfold ParseFloat. rewrite S1, S2, H4, scan_pretty, S3. simpl scan_mantissa.
  rewrite (proj2 (N.eqb_neq n 0)) by lia. simpl. change (0 - 0) with 0.
  by destruct (round_scaled neg (Z.of_N n) 10 0).
Qed.

Lemma pretty_signed_text z : z <> 0 -> pretty z = signed_text (z <? 0) (Z.to_N (Z.abs z)).
Proof.
  intros Hz. destruct (Z.ltb_spec z 0).
  - rewrite pretty_Z_neg, Z.abs_neq by lia. done.
  - rewrite pretty_Z_pos, Z.abs_eq by lia. done.
Qed.

(** ** Lemmas: integers of 53 bits are exact *)

Lemma digits2_log2 p : Zpos (digits2_pos p) = Z.log2 (Zpos p) + 1.
Proof.
  induction p as [p IH|p IH|]; cbn [digits2_pos]; [..|done].
  - rewrite Pos2Z.inj_succ, IH, (Pos2Z.inj_xI p), Z.log2_succ_double by lia. lia.
  - rewrite Pos2Z.inj_succ, IH, (Pos2Z.inj_xO p), Z.log2_double by lia. lia.
Qed.

Definition shift19 (q : positive) : positive := q~0~0~0~0~0~0~0~0~0~0~0~0~0~0~0~0~0~0~0.

(** A mantissa of 53 bits followed by 19 zeros is not rounded. *)
Lemma binary_round_shift19 sx q j :
  digits2_pos q = 53%positive -> 0 <= j <= 71 ->
  binary_round 53 1024 sx (shift19 q) (- j) = S754_finite sx q (19 - j).
Proof.
  intros Hq Hj.
  assert (Zpos (digits2_pos (shift19 q)) = 72) as Hd by (unfold shift19; cbn [digits2_pos]; by rewrite Hq).
  assert (forall e, -1000 <= e -> fexp 53 1024 e = e - 53) as Hf
    by (intros e He; unfold fexp, emin; lia).
  assert (shr_fexp 53 1024 (Zpos (shift19 q)) (- j) loc_Exact
          = (Build_shr_record (Zpos q) false false, 19 - j)) as H1.
  { unfold shr_fexp. change (Zdigits2 (Zpos (shift19 q))) with (Zpos (digits2_pos (shift19 q))).
    rewrite Hd, Hf by lia. replace (72 + - j - 53 - - j) with 19 by lia.
    unfold shr. f_equal. lia. }
  assert (shr_fexp 53 1024 (Zpos q) (19 - j) loc_Exact
          = (Build_shr_record (Zpos q) false false, 19 - j)) as H2.
  { unfold shr_fexp. change (Zdigits2 (Zpos q)) with (Zpos (digits2_pos q)).
    rewrite Hq, Hf by lia. by replace (53 + (19 - j) - 53 - (19 - j)) with 0 by lia. }
  unfold binary_round. rewrite Hd, Hf by lia. unfold shl_align.
  replace (72 + - j - 53 - - j) with 19 by lia. unfold binary_round_aux. rewrite H1.
  cbn [shr_m loc_of_shr_record round_nearest_even]. rewrite H2. cbn [shr_m].
  by destruct (Z.leb_spec (19 - j) (1024 - 53)); [|lia].
Qed.

(** The integer [n] is [q * 2 ^ e], for a mantissa [q] of 53 bits. *)
Definition holds (n : Z) (q : positive) (e : Z) : Prop :=
  2 ^ 52 <= Zpos q < 2 ^ 53 /\ -52 <= e <= 11 /\ n * 2 ^ 52 = Zpos q * 2 ^ (52 + e).

Lemma round_scaled_exact neg n :
  0 < n <= 2 ^ 53 ->
  exists q e, round_scaled neg n 10 0 = S754_finite neg q e /\
    f_trunc (S754_finite neg q e) = Some (if neg then - n else n) /\ holds n q e.
Proof.
  intros Hn. set (l := Z.log2 n).
  assert (0 <= l <= 53) as Hl
    by (split; [apply Z.log2_nonneg|apply (Z.log2_le_mono n (2 ^ 53)); lia]).
  pose proof (Z.log2_spec n ltac:(lia)) as Hlog. fold l in Hlog.
  set (j := 71 - l). set (q := n * 2 ^ j / 2 ^ 19).
  assert (n * 2 ^ j = q * 2 ^ 19) as Hq.
  { destruct (Z.eq_dec n (2 ^ 53)) as [En|Hne].
    - unfold q, j, l. rewrite En. reflexivity.
    - assert (l < 53) by (unfold l; apply Z.log2_lt_pow2; lia).
      unfold q. replace j with ((j - 19) + 19) by lia.
      rewrite Z.pow_add_r, Z.mul_assoc, Z.div_mul by (unfold j; lia). done. }
  assert (2 ^ 52 <= q < 2 ^ 53) as Hqb.
  { assert (2 ^ l * 2 ^ j = 2 ^ 71) by (rewrite <- Z.pow_add_r by (unfold j; lia); f_equal; unfold j; lia).
    rewrite Z.pow_succ_r in Hlog by lia. assert (0 < 2 ^ j) by (apply Z.pow_pos_nonneg; unfold j; lia).
    assert (2 ^ 71 = 2 ^ 52 * 2 ^ 19) by reflexivity. nia. }
  assert (exists p, q = Zpos p) as [p Ep] by (destruct q as [|p|p] eqn:Eq; [lia|by exists p|lia]).
  clearbody q. subst q.
  assert (Zpos (shift19 p) = Zpos p * 2 ^ 19) as Es by (unfold shift19; lia).
  assert (digits2_pos p = 53%positive) as Hd.
  { apply Pos2Z.inj. rewrite digits2_log2, (Z.log2_unique (Zpos p) 52); simpl; lia. }
  exists p, (19 - j). split.
  - unfold round_scaled, round_ratio. rewrite Z.leb_refl, Z.pow_0_r, Z.mul_1_r.
    destruct (Z.eqb_spec n 0); [lia|]. change (Z.log2 1) with 0. fold l.
    replace (Z.max 0 (0 - l + 70)) with (j - 1) by (unfold j; lia).
    rewrite Z.div_1_r, Z.mod_1_r, Z.shiftl_mul_pow2, Z.eqb_refl, Z.add_0_r by (unfold j; lia).
    replace (2 * (n * 2 ^ (j - 1))) with (Zpos (shift19 p)).
    2:{ rewrite Es, <- Hq. replace j with (Z.succ (j - 1)) at 1 by lia.
        rewrite Z.pow_succ_r by (unfold j; lia). lia. }
    replace (- (j - 1) - 1) with (- j) by lia.
    pose proof (binary_round_shift19 neg p j Hd ltac:(unfold j; lia)) as Hb.
    destruct neg; exact Hb.
  - split.
    2:{ split; [exact Hqb|]. split; [unfold j; lia|].
        apply (Z.mul_reg_r _ _ (2 ^ j)); [apply Z.pow_nonzero; unfold j; lia|].
        replace (Zpos p * 2 ^ (52 + (19 - j)) * 2 ^ j) with (Zpos p * (2 ^ (52 + (19 - j)) * 2 ^ j)) by ring.
        rewrite <- Z.pow_add_r by (unfold j; lia).
        replace (52 + (19 - j) + j) with (19 + 52) by lia.
        rewrite Z.pow_add_r, Z.mul_assoc, <- Hq by lia. ring. }
    unfold f_trunc. assert (0 < 2 ^ j) by (apply Z.pow_pos_nonneg; unfold j; lia).
    assert ((if 0 <=? 19 - j then Z.shiftl (Zpos p) (19 - j) else Z.shiftr (Zpos p) (- (19 - j))) = n)
      as ->; [|done].
    destruct (Z.leb_spec 0 (19 - j)) as [Hle|Hgt].
    + rewrite Z.shiftl_mul_pow2 by lia.
      assert (2 ^ 19 = 2 ^ (19 - j) * 2 ^ j) as E19
        by (rewrite <- Z.pow_add_r by (unfold j in *; lia); f_equal; lia). nia.
    + rewrite Z.shiftr_div_pow2 by lia. symmetry. apply Z.div_unique_exact; [|].
      * apply Z.pow_nonzero; lia.
      * replace (- (19 - j)) with (j - 19) by lia.
        assert (2 ^ j = 2 ^ (j - 19) * 2 ^ 19) as Ej
          by (rewrite <- Z.pow_add_r by lia; f_equal; lia). nia.
Qed.

(** Decimal integers of 53 bits are read exactly. *)
Lemma ParseFloat_pretty z :
  - 2 ^ 53 <= z <= 2 ^ 53 ->
  exists f, ParseFloat (pretty z) = Some f /\ f_to_int64 f = z.
Proof.
  intros Hz. destruct (Z.eq_dec z 0) as [->|Hnz]; [by exists (S754_zero false)|].
  rewrite pretty_signed_text, ParseFloat_digits by lia.
  rewrite Z2N.id by lia.
  destruct (round_scaled_exact (z <? 0) (Z.abs z) ltac:(lia)) as (q & e & -> & Ht & _).
  eexists. split; [reflexivity|]. unfold f_to_int64. rewrite Ht.
  assert ((if z <? 0 then - Z.abs z else Z.abs z) = z) as -> by (destruct (Z.ltb_spec z 0); lia).
  destruct ((MinInt64 <=? z) && (z <=? MaxInt64)) eqn:Eb; [done|].
  unfold MinInt64, MaxInt64 in Eb. lia.
Qed.

(** ** Lemmas: products that fit are exact *)

Lemma iter_shr p : forall m, 0 < m ->
  SpecFloat.iter_pos shr_1 p (Build_shr_record (m * 2 ^ Zpos p) false false) = Build_shr_record m false false.
Proof.
  assert (forall m, 0 < m -> shr_1 (Build_shr_record (m * 2) false false)
    = Build_shr_record m false false) as Hone.
  { intros [|m|m] Hm; try lia. by replace (Zpos m * 2) with (Zpos m~0) by lia. }
  induction p as [p IH|p IH|]; intros m Hm; cbn [SpecFloat.iter_pos].
  - replace (m * 2 ^ Zpos p~1) with (m * 2 ^ Zpos p * 2 ^ Zpos p * 2)
      by (replace (Zpos p~1) with (Zpos p + Zpos p + 1) by lia; rewrite !Z.pow_add_r by lia; ring).
    rewrite Hone by lia. rewrite !IH by lia. done.
  - replace (m * 2 ^ Zpos p~0) with (m * 2 ^ Zpos p * 2 ^ Zpos p)
      by (replace (Zpos p~0) with (Zpos p + Zpos p) by lia; rewrite Z.pow_add_r by lia; ring).
    rewrite !IH by lia. done.
  - by apply Hone.
Qed.

Lemma mantissa_digits q : 2 ^ 52 <= Zpos q < 2 ^ 53 -> Z.log2 (Zpos q) = 52.
Proof. intros H. apply Z.log2_unique; simpl in *; lia. Qed.

Lemma Zdigits2_log2 m : 0 < m -> Zdigits2 m = Z.log2 m + 1.
Proof. intros H. destruct m; [lia| |lia]. apply digits2_log2. Qed.

Lemma round_aux_exact sx q k e :
  2 ^ 52 <= Zpos q < 2 ^ 53 -> 0 <= k -> -1000 <= e + k <= 900 ->
  binary_round_aux 53 1024 sx (Zpos q * 2 ^ k) e loc_Exact = S754_finite sx q (e + k).
Proof.
  intros Hq Hk He. pose proof (mantissa_digits q Hq) as Hl.
  assert (forall m, 0 <= m -> -1000 <= e + m <= 900 -> 
    shr_fexp 53 1024 (Zpos q * 2 ^ m) e loc_Exact = (Build_shr_record (Zpos q) false false, e + m)) as Hs.
  { intros m Hm Hem. unfold shr_fexp. assert (0 < 2 ^ m) by (apply Z.pow_pos_nonneg; lia).
    rewrite Zdigits2_log2, Z.log2_mul_pow2, Hl by lia.
    replace (fexp 53 1024 (m + 52 + 1 + e) - e) with m by (unfold fexp, emin; lia).
    destruct m as [|m|m]; [|by simpl shr; rewrite iter_shr by lia|lia].
    rewrite Z.pow_0_r, Z.mul_1_r. cbn [shr shr_record_of_loc]. by rewrite Z.add_0_r. }
  unfold binary_round_aux. rewrite Hs by lia. cbn [shr_m loc_of_shr_record round_nearest_even].
  replace (Zpos q) with (Zpos q * 2 ^ 0) at 1 by lia.
  assert (shr_fexp 53 1024 (Zpos q) (e + k) loc_Exact
    = (Build_shr_record (Zpos q) false false, e + k)) as H2.
  { unfold shr_fexp. rewrite Zdigits2_log2, Hl by lia.
    replace (fexp 53 1024 (52 + 1 + (e + k)) - (e + k)) with 0 by (unfold fexp, emin; lia).
    reflexivity. }
  rewrite Z.pow_0_r, Z.mul_1_r, H2. cbn [shr_m].
  by destruct (Z.leb_spec (e + k) (1024 - 53)); [|lia].
Qed.

(** A positive integer held without loss. *)
Definition exactly (n : Z) (f : float64) : Prop :=
  exists q e, f = S754_finite false q e /\ holds n q e.

Lemma f_mul_exact a b f g q e :
  exactly a f -> exactly b g -> holds (a * b) q e -> exactly (a * b) (f_mul f g).
Proof.
  intros (q1 & e1 & -> & H1 & E1 & A1) (q2 & e2 & -> & H2 & E2 & A2) Hh. exists q, e. split; [|done].
  destruct Hh as (H3 & E3 & A3). set (k := e - e1 - e2).
  assert (Zpos q1 * Zpos q2 * 2 ^ (104 + e1 + e2) = Zpos q * 2 ^ (104 + e)) as Heq.
  { assert (2 ^ (104 + e1 + e2) = 2 ^ (52 + e1) * 2 ^ (52 + e2)) as ->
      by (rewrite <- Z.pow_add_r by lia; f_equal; lia).
    assert (2 ^ (104 + e) = 2 ^ 52 * 2 ^ (52 + e)) as ->
      by (rewrite <- Z.pow_add_r by lia; f_equal; lia).
    transitivity ((a * 2 ^ 52) * (b * 2 ^ 52)); [rewrite A1, A2; ring|].
    transitivity (2 ^ 52 * (a * b * 2 ^ 52)); [ring|]. rewrite A3. ring. }
  assert (0 <= k) as Hk.
  { destruct (Z_lt_le_dec k 0) as [Hlt|]; [|done]. exfalso.
    assert (2 ^ (104 + e) <= 2 ^ (104 + e1 + e2)) by (apply Z.pow_le_mono_r; unfold k in *; lia).
    assert (0 < 2 ^ (104 + e)) by (apply Z.pow_pos_nonneg; lia).
    change (2 ^ 53) with (2 * 2 ^ 52) in *. assert (2 < 2 ^ 52) by reflexivity.
    assert (2 ^ 52 * 2 ^ 52 <= Zpos q1 * Zpos q2) by (apply Z.mul_le_mono_nonneg; lia).
    assert (2 ^ 52 * 2 ^ 52 * 2 ^ (104 + e) <= Zpos q1 * Zpos q2 * 2 ^ (104 + e1 + e2))
      by (apply Z.mul_le_mono_nonneg; lia).
    assert (Zpos q * 2 ^ (104 + e) < 2 ^ 52 * 2 ^ 52 * 2 ^ (104 + e))
      by (apply Z.mul_lt_mono_pos_r; lia). lia. }
  assert (Zpos q1 * Zpos q2 = Zpos q * 2 ^ k) as Hm.
  { apply (Z.mul_reg_r _ _ (2 ^ (104 + e1 + e2))); [apply Z.pow_nonzero; lia|].
    rewrite Heq, <- Z.mul_assoc, <- Z.pow_add_r by lia. do 2 f_equal. unfold k. lia. }
  unfold f_mul, SFmul. cbn [xorb]. rewrite Pos2Z.inj_mul, Hm, round_aux_exact by (unfold k; lia).
  f_equal. unfold k. lia.
Qed.

(** Integers below 2 ^ 53 are held, and so are their multiples by powers of two. *)
Lemma holds_small n : 0 < n < 2 ^ 53 -> exists q e, holds n q e /\ e <= 0.
Proof.
  intros Hn. pose proof (Z.log2_spec n ltac:(lia)) as Hl. pose proof (Z.log2_nonneg n) as H0.
  assert (Z.log2 n < 53) as H1 by (apply Z.log2_lt_pow2; lia). set (l := Z.log2 n) in *.
  assert (0 < n * 2 ^ (52 - l)) as Hpos by (apply Z.mul_pos_pos; [lia|apply Z.pow_pos_nonneg; lia]).
  assert (2 ^ 52 = 2 ^ l * 2 ^ (52 - l)) as E52 by (rewrite <- Z.pow_add_r by lia; f_equal; lia).
  exists (Z.to_pos (n * 2 ^ (52 - l))), (l - 52). unfold holds. rewrite Z2Pos.id by done.
  rewrite Z.pow_succ_r in Hl by lia. assert (0 < 2 ^ (52 - l)) by (apply Z.pow_pos_nonneg; lia).
  split; [|lia]. split; [change (2 ^ 53) with (2 * 2 ^ 52); nia|]. split; [lia|].
  replace (52 + (l - 52)) with l by lia. rewrite E52. ring.
Qed.

Lemma holds_shift n q e k : holds n q e -> 0 <= k -> e + k <= 11 -> holds (n * 2 ^ k) q (e + k).
Proof.
  intros (H1 & H2 & H3) Hk He. split; [done|]. split; [lia|].
  replace (52 + (e + k)) with (52 + e + k) by lia. rewrite Z.pow_add_r by lia.
  transitivity (n * 2 ^ 52 * 2 ^ k); [ring|]. rewrite H3. ring.
Qed.

Lemma f_trunc_exactly n f : exactly n f -> f_trunc f = Some n.
Proof.
  intros (q & e & -> & Hq & He & Hn). unfold f_trunc. f_equal.
  destruct (Z.leb_spec 0 e).
  - rewrite Z.shiftl_mul_pow2 by lia. rewrite Z.pow_add_r in Hn by lia.
    apply (Z.mul_reg_r _ _ (2 ^ 52)); [done|]. rewrite Hn. ring.
  - rewrite Z.shiftr_div_pow2 by lia. symmetry. apply Z.div_unique_exact; [apply Z.pow_nonzero; lia|].
    apply (Z.mul_reg_r _ _ (2 ^ (52 + e))); [apply Z.pow_nonzero; lia|]. rewrite <- Hn.
    replace (2 ^ 52) with (2 ^ (- e) * 2 ^ (52 + e)) by (rewrite <- Z.pow_add_r by lia; f_equal; lia).
    ring.
Qed.

Lemma ParseFloat_exactly n :
  0 < n <= 2 ^ 53 -> exists f, ParseFloat (pretty n) = Some f /\ exactly n f.
Proof.
  intros Hn. rewrite pretty_signed_text, ParseFloat_digits, Z2N.id by lia.
  rewrite (proj2 (Z.ltb_ge n 0)), Z.abs_eq by lia.
  destruct (round_scaled_exact false n Hn) as (q & e & -> & _ & Hh).
  eexists. split; [reflexivity|]. by exists q, e.
Qed.

(** One more bit is one too many. *)
Example inexact_integer :
  (f_to_int64 <$> ParseFloat "9007199254740993")%string = Some 9007199254740992.
Proof. vm_compute. reflexivity. Qed.
