(* ===== verification/GoDuration.v ===== *)
(** * Durations as text: [time.ParseDuration], and [fmt.Sscanf] of a float

    [ParseDuration] is the loop of time/format.go, with its uint64 sums and its float
    for what follows the point; each round takes at least one byte, so the length of
    the text is fuel enough ([parse_terms_enough]). [Sscanf_f] is the token scanner of
    fmt/scan.go and the conversion of its token. *)

From Stdlib Require Import Ascii SpecFloat.
From S2P Require Import Prelude GoTime GoFloat GoStrings GoParseFloat.
Local Open Scope Z_scope.

(** ** Definitions: [time.ParseDuration] *)

Definition two63 : Z := 9223372036854775808.
Definition wrapU64 (z : Z) : Z := z mod 2 ^ 64.

(** [leadingInt]: [None] when the digits exceed 63 bits. *)
Fixpoint leadingInt (x : Z) (s : string) : option (Z * string) :=
  match s with
  | String c s' =>
      if is_digit c then
        if two63 / 10 <? x then None
        else
          let y := x * 10 + digit_value c in
          if two63 <? y then None else leadingInt y s'
      else Some (x, s)
  | EmptyString => Some (x, s)
  end.

(** [leadingFraction]: the digits that fit, and the power of ten they are over. *)
Fixpoint leadingFraction (x : Z) (scale : float64) (overflow : bool) (s : string)
  : Z * float64 * string :=
  match s with
  | String c s' =>
      if is_digit c then
        if overflow then leadingFraction x scale true s'
        else if (two63 - 1) / 10 <? x then leadingFraction x scale true s'
        else
          let y := x * 10 + digit_value c in
          if two63 <? y then leadingFraction x scale true s'
          else leadingFraction y (f_mul scale (f_of_Z 10)) false s'
      else (x, scale, s)
  | EmptyString => (x, scale, s)
  end.

(** The unit: everything up to a digit or a point. *)
Fixpoint take_unit (s : string) : string * string :=
  match s with
  | String c s' =>
      if (byte_code c =? 46) || is_digit c then (EmptyString, s)
      else let '(u, rest) := take_unit s' in (String c u, rest)
  | EmptyString => (EmptyString, EmptyString)
  end.

(** The two letters mu of Unicode are spelt as their UTF-8 bytes. *)
Definition micro_sign : string := String "194" (String "181" "s").
Definition greek_mu : string := String "206" (String "188" "s").
Definition unitMap (u : string) : option Z :=
  if str_eq u "ns" then Some Nanosecond
  else if str_eq u "us" || str_eq u micro_sign || str_eq u greek_mu then Some 1000
  else if str_eq u "ms" then Some Millisecond
  else if str_eq u "s" then Some Second
  else if str_eq u "m" then Some Minute
  else if str_eq u "h" then Some Hour
  else None.

Inductive DurationError :=
| InvalidDuration
| MissingUnit
| UnknownUnit (u : string).

(** A [float64] of at most 3.6e12 as a [uint64]. *)
Definition f_to_uint64 (f : float64) : Z := default 0 (f_trunc f).

(** One number with its unit. *)
Definition parse_term (s : string) : result (Z * string) DurationError :=
  match s with
  | EmptyString => Err InvalidDuration
  | String c _ =>
      if negb ((byte_code c =? 46) || is_digit c) then Err InvalidDuration
      else
        match leadingInt 0 s with
        | None => Err InvalidDuration
        | Some (v, s1) =>
            let pre := negb (String.length s =? String.length s1)%nat in
            let '(f, scale, s2, post) :=
              match s1 with
              | String "."%char s1' =>
                  let '(f, scale, s2) := leadingFraction 0 (f_of_Z 1) false s1' in
                  (f, scale, s2, negb (String.length s1' =? String.length s2)%nat)
              | _ => (0, f_of_Z 1, s1, false)
              end in
            if negb pre && negb post then Err InvalidDuration
            else
              let '(u, rest) := take_unit s2 in
              if is_empty u then Err MissingUnit
              else
                match unitMap u with
                | None => Err (UnknownUnit u)
                | Some unit =>
                    if two63 / unit <? v then Err InvalidDuration
                    else
                      let v := v * unit in
                      if 0 <? f then
                        let v := wrapU64 (v + f_to_uint64 (f_mul (f_of_Z f) (f_div (f_of_Z unit) scale))) in
                        if two63 <? v then Err InvalidDuration else Ok (v, rest)
                      else Ok (v, rest)
                end
        end
  end.

Fixpoint parse_terms (fuel : nat) (d : Z) (s : string) : result Z DurationError :=
  match fuel with
  | O => if is_empty s then Ok d else Err InvalidDuration
  | S k =>
      if is_empty s then Ok d
      else
        match parse_term s with
        | Err e => Err e
        | Ok (v, rest) =>
            let d := wrapU64 (d + v) in
            if two63 <? d then Err InvalidDuration else parse_terms k d rest
        end
  end.

Definition ParseDuration (s : string) : result Duration DurationError :=
  let '(_, neg, s) := split_sign s in
  if str_eq s "0" then Ok 0
  else if is_empty s then Err InvalidDuration
  else
    match parse_terms (String.length s) 0 s with
    | Err e => Err e
    | Ok d =>
        if neg then Ok (wrap64 (- wrap64 d))
        else if two63 - 1 <? d then Err InvalidDuration
        else Ok d
    end.

(** ** Definitions: [fmt.Sscanf(s, "%f", &v)] *)

Definition in_codes (codes : list Z) (c : ascii) : bool := existsb (fun k => byte_code c =? k) codes.

(** [s.accept]: one byte of a set, from the input to the token. *)
Definition accept (codes : list Z) (t : string * string) : bool * (string * string) :=
  match t.2 with
  | String c rest =>
      if in_codes codes c then (true, ((t.1 +:+ String c "")%string, rest)) else (false, t)
  | EmptyString => (false, t)
  end.

(** [s.accept(a) && s.accept(b) && ...]: what was accepted stays accepted. *)
Fixpoint accept_word (sets : list (list Z)) (t : string * string) : bool * (string * string) :=
  match sets with
  | [] => (true, t)
  | codes :: sets' =>
      let '(ok, t) := accept codes t in if ok then accept_word sets' t else (false, t)
  end.

(** [for s.accept(set) {}]. *)
Fixpoint accept_all (codes : list Z) (buf s : string) : string * string :=
  match s with
  | String c rest =>
      if in_codes codes c then accept_all codes (buf +:+ String c "")%string rest else (buf, s)
  | EmptyString => (buf, s)
  end.

Definition decimal_codes : list Z := map (fun k => 48 + Z.of_nat k) (seq 0 10).
Definition hex_codes : list Z :=
  decimal_codes ++ map (fun k => 97 + Z.of_nat k) (seq 0 6) ++ map (fun k => 65 + Z.of_nat k) (seq 0 6).
Definition underscore_code : Z := 95.
Definition sign_codes : list Z := [43; 45].

(** [floatToken]: the token and what is left. *)
Definition floatToken (s : string) : string * string :=
  let '(nan, t) := accept_word [[110; 78]; [97; 65]; [110; 78]] (EmptyString, s) in
  if nan then t
  else
    let '(_, t) := accept sign_codes t in
    let '(inf, t) := accept_word [[105; 73]; [110; 78]; [102; 70]] t in
    if inf then t
    else
      let '(hex, t) := accept_word [[48]; [120; 88]] t in
      let digits := (if hex then hex_codes else decimal_codes) ++ [underscore_code] in
      let exponent := if hex then [112; 80] else [101; 69; 112; 80] in
      let t := accept_all digits t.1 t.2 in
      let '(point, t) := accept [46] t in
      let t := if point then accept_all digits t.1 t.2 else t in
      let '(exp, t) := accept exponent t in
      if exp then
        let '(_, t) := accept sign_codes t in
        accept_all (decimal_codes ++ [underscore_code]) t.1 t.2
      else t.

(** What surrounds the first [p], and whether there is an [x]. *)
Fixpoint split_p (s : string) : option (string * string) :=
  match s with
  | String c s' =>
      if byte_code c =? 112 then Some (EmptyString, s')
      else '(a, b) ← split_p s'; Some (String c a, b)
  | EmptyString => None
  end.
Fixpoint hasX (s : string) : bool :=
  match s with
  | String c s' => (byte_code c =? 120) || (byte_code c =? 88) || hasX s'
  | EmptyString => false
  end.

(** [math.Ldexp], with the exponent in 64 bits. *)
Definition Ldexp (f : float64) (n : Z) : float64 :=
  match f with
  | S754_finite neg m e =>
      let top := Z.log2 (Zpos m) + e in
      let exp := wrap64 (n + top) in
      if exp <? -1075 then S754_zero neg
      else if 1023 <? exp then S754_infinity neg
      else binary_normalize 53 1024 (if neg then Zneg m else Zpos m) (e + (exp - top)) neg
  | _ => f
  end.

(** [convertFloat]: an exponent of two without a base prefix is its own case. *)
Definition convertFloat (tok : string) : option float64 :=
  match (if hasX tok then None else split_p tok) with
  | Some (m, e) => f ← ParseFloat m; n ← Atoi e; Some (Ldexp f n)
  | None => ParseFloat tok
  end.

(** What is stored, [None] when the scan fails; the text that is left over is not looked at. *)
Definition Sscanf_f (s : string) : option float64 :=
  match skip_blanks 0 s with
  | Some EmptyString | None => None
  | Some s' => convertFloat (floatToken s').1
  end.

(** ** Lemmas: the fuel of [ParseDuration] *)

Lemma leadingInt_shorter s : forall x v rest,
  leadingInt x s = Some (v, rest) -> (String.length rest <= String.length s)%nat.
Proof.
  induction s as [|c s IH]; intros x v rest H; cbn [leadingInt] in H; [by injection H as <- <-|].
  destruct (is_digit c); [|by injection H as <- <-].
  destruct (_ <? x); [done|]. destruct (two63 <? _); [done|].
  apply IH in H. simpl. lia.
Qed.

Lemma leadingFraction_shorter s : forall x scale o f sc rest,
  leadingFraction x scale o s = (f, sc, rest) -> (String.length rest <= String.length s)%nat.
Proof.
  induction s as [|c s IH]; intros x scale o f sc rest H; cbn [leadingFraction] in H;
    [by injection H as <- <- <-|].
  destruct (is_digit c); [|by injection H as <- <- <-].
  repeat case_match; apply IH in H; simpl; lia.
Qed.

Lemma take_unit_length s :
  (String.length (take_unit s).1 + String.length (take_unit s).2 = String.length s)%nat.
Proof.
  induction s as [|c s IH]; [done|]. cbn [take_unit].
  destruct (_ || _); [done|]. destruct (take_unit s) as [u rest]. simpl in *. lia.
Qed.

(** Every round takes something. *)
Lemma parse_term_shorter s v rest :
  parse_term s = Ok (v, rest) -> (String.length rest < String.length s)%nat.
Proof.
  unfold parse_term. destruct s as [|c s']; [done|]. set (s := String c s').
  destruct (negb (_ || _)); [done|].
  destruct (leadingInt 0 s) as [[v0 s1]|] eqn:Ei; [|done]. apply leadingInt_shorter in Ei.
  match goal with |- context [match s1 with _ => _ end] => idtac end.
  set (q := match s1 with String "."%char s1' => _ | _ => _ end).
  assert (String.length q.1.2 <= String.length s1)%nat as Hq.
  { subst q. destruct s1 as [|[[] [] [] [] [] [] [] []] s1']; try (simpl; lia).
    destruct (leadingFraction 0 (f_of_Z 1) false s1') as [[f sc] s2] eqn:E.
    apply leadingFraction_shorter in E. simpl. lia. }
  destruct q as [[[f scale] s2] post]. simpl in Hq.
  destruct (negb _ && negb post); [done|].
  pose proof (take_unit_length s2) as Hu. destruct (take_unit s2) as [u r]. simpl in Hu.
  destruct (is_empty u) eqn:Eu; [done|]. unfold is_empty in Eu. apply str_eq_false in Eu.
  assert (0 < String.length u)%nat by (destruct u; [done|simpl; lia]).
  intros Hr. repeat case_match; try done; injection Hr as <- <-; lia.
Qed.

(** The length of the text is fuel enough: more of it changes nothing. *)
Lemma parse_terms_enough n : forall k d s,
  (String.length s <= n)%nat -> parse_terms (n + k) d s = parse_terms n d s.
Proof.
  induction n as [|n IH]; intros k d s Hs.
  - destruct s; [|simpl in Hs; lia]. by destruct k.
  - cbn [Nat.add parse_terms]. destruct (is_empty s); [done|].
    destruct (parse_term s) as [[v rest]|e] eqn:E; [|done].
    apply parse_term_shorter in E. destruct (two63 <? _); [done|]. apply IH. lia.
Qed.

(** ** On concrete text *)

Example durations :
  map ParseDuration ["5m"; "1h30m"; "1.5h"; "-2s"; "0"; "100ms"; ".5s"; "3"; "2d"; ""; "1 s";
                     "9223372036854775807ns"; "9223372036854775808ns"; "-9223372036854775808ns"]%string
  = [Ok (5 * Minute); Ok (90 * Minute); Ok (90 * Minute); Ok (-2 * Second); Ok 0;
     Ok (100 * Millisecond); Ok (500 * Millisecond); Err MissingUnit; Err (UnknownUnit "d");
     Err InvalidDuration; Err (UnknownUnit " s"); Ok MaxInt64; Err InvalidDuration; Ok MinInt64].
Proof. vm_compute. reflexivity. Qed.

Example scanned_floats :
  map (fun s => f_to_int64 <$> Sscanf_f s) ["12"; " 7x"; "1h2"; "2p3"; "0x1p4"; "x"; ""; "1e2"; "-3"; "1_0"]%string
  = [Some 12; Some 7; Some 1; Some 16; Some 16; None; None; Some 100; Some (-3); Some 10].
Proof. vm_compute. reflexivity. Qed.
