(* ===== verification/Types.v ===== *)
(** * The API objects of controller/api/v1alpha1

    One record per Go struct, in the source's field order, each field under the
    struct's prefix. Pointers are options; [metav1.Duration] and [metav1.Time] are
    the durations and instants they wrap; string enumerations stay strings, with
    their constants, because nothing in Go stops another string from arriving. *)

From S2P Require Import Prelude GoTime GoFloat.
Local Open Scope Z_scope.

(** ** Objects of the Kubernetes machinery that the structs embed *)

Record ObjectMeta := mkObjectMeta {
  om_Name : string;
  om_Namespace : string;
  om_Generation : Z;
  om_Labels : gmap string string
}.

Record LabelSelectorRequirement := mkLabelSelectorRequirement {
  lsr_Key : string; lsr_Operator : string; lsr_Values : list string }.
Record LabelSelector := mkLabelSelector {
  ls_MatchLabels : gmap string string;
  ls_MatchExpressions : list LabelSelectorRequirement }.

Record Condition := mkCondition {
  cond_Type : string;
  cond_Status : string;
  cond_ObservedGeneration : Z;
  cond_LastTransitionTime : Time;
  cond_Reason : string;
  cond_Message : string
}.

Definition ConditionTrue : string := "True".
Definition ConditionFalse : string := "False".

(** ** capability_types.go *)

Record Transport := mkTransport {
  tr_Type : string;
  tr_Availability : string;
  tr_Config : bool;
  tr_OTA : bool;
  tr_MaxPayloadBytes : Z;
  tr_ThroughputBps : Z;
  tr_DutyCyclePercent : string;
  tr_OTACostMah : Z
}.

Record DeviceCapability := mkDeviceCapability {
  cap_Transports : list Transport;
  cap_ReachableVia : list string;
  cap_BatteryPercent : Z;
  cap_BatteryMah : Z;
  cap_RunningConfigHash : string
}.

(** ** firmwarerollout_types.go *)

Record FirmwareSource := mkFirmwareSource {
  src_Package : string;
  src_ConfigHash : string;
  src_SizeBytes : Z
}.

Record RolloutRequirements := mkRolloutRequirements {
  req_OTA : bool;
  req_MinBatteryPercent : Z;
  req_MaxSilentFor : option Duration
}.

Record HealthGate := mkHealthGate {
  hg_MustReportWithin : option Duration;
  hg_MustReportConfigHash : bool;
  hg_SettleFor : option Duration
}.

Record RollbackTriggers := mkRollbackTriggers {
  rb_BootLoopThreshold : Z;
  rb_HealthGateFailures : Z;
  rb_Automatic : bool
}.

Record RolloutStrategy := mkRolloutStrategy {
  strat_Canary : Z;
  strat_Steps : list Z;
  strat_HealthGate : option HealthGate;
  strat_RollbackOn : option RollbackTriggers;
  strat_MaxConcurrent : Z
}.

Record FirmwareRolloutSpec := mkFirmwareRolloutSpec {
  fr_Selector : option LabelSelector;
  fr_Source : FirmwareSource;
  fr_Requires : option RolloutRequirements;
  fr_Strategy : RolloutStrategy;
  fr_Paused : bool
}.

Definition RolloutPhase := string.
Definition PhasePending : RolloutPhase := "Pending".
Definition PhasePlanning : RolloutPhase := "Planning".
Definition PhaseCanary : RolloutPhase := "Canary".
Definition PhaseProgressing : RolloutPhase := "Progressing".
Definition PhasePaused : RolloutPhase := "Paused".
Definition PhaseWaiting : RolloutPhase := "Waiting".
Definition PhaseBlocked : RolloutPhase := "Blocked".
Definition PhaseComplete : RolloutPhase := "Complete".
Definition PhaseRolledBack : RolloutPhase := "RolledBack".

Record DeviceOutcome := mkDeviceOutcome {
  do_Device : string;
  do_Reason : string;
  do_Detail : string;
  do_Since : option Time
}.

Record FirmwareRolloutStatus := mkFirmwareRolloutStatus {
  frs_Phase : RolloutPhase;
  frs_Step : string;
  frs_Target : Z;
  frs_Eligible : Z;
  frs_Updated : Z;
  frs_Healthy : Z;
  frs_Refused : list DeviceOutcome;
  frs_Pending : list DeviceOutcome;
  frs_Failed : list DeviceOutcome;
  frs_Conditions : list Condition;
  frs_ObservedGeneration : Z;
  frs_StartedAt : option Time;
  frs_PreviousConfigHash : string;
  frs_BlockedBy : string;
  frs_BlockReason : string;
  frs_NextWindow : option Time;
  frs_DispatchedThisWindow : Z;
  frs_WindowOpenedAt : option Time
}.

Definition ReasonNoOTATransport : string := "NoOTACapableTransport".
Definition ReasonBatteryTooLow : string := "OTAExceedsBatteryBudget".
Definition ReasonArtifactTooLarge : string := "ArtifactExceedsTransportCapacity".
Definition ReasonAwaitingWindow : string := "AwaitingTransportWindow".
Definition ReasonAsleep : string := "DeviceSleeping".
Definition ReasonUnreachable : string := "DeviceUnreachable".
Definition ReasonHealthGateFail : string := "HealthGateFailed".
Definition ReasonBootLoop : string := "BootLoopDetected".

Record FirmwareRollout := mkFirmwareRollout {
  ro_Meta : ObjectMeta;
  ro_Spec : FirmwareRolloutSpec;
  ro_Status : FirmwareRolloutStatus
}.

(** ** window_types.go *)

Record WindowPeriod := mkWindowPeriod {
  wp_Cron : string;
  wp_Duration : option Duration;
  wp_From : option Time;
  wp_Until : option Time;
  wp_Reason : string
}.

Record MaintenanceWindowSpec := mkMaintenanceWindowSpec {
  mws_Selector : option LabelSelector;
  mws_Allow : list WindowPeriod;
  mws_Deny : list WindowPeriod;
  mws_Timezone : string;
  mws_AllowInFlightToComplete : option bool;
  mws_MaxDevicesPerWindow : Z
}.

Record MaintenanceWindow := mkMaintenanceWindow {
  mw_Meta : ObjectMeta;
  mw_Spec : MaintenanceWindowSpec
}.

Record ContactWindow := mkContactWindow {
  cw_Transport : string;
  cw_TypicalInterval : option Duration;
  cw_TypicalDuration : option Duration;
  cw_NextExpected : option Time;
  cw_Confidence : string;
  cw_SamplesObserved : Z
}.

Definition ConfidenceHigh : string := "High".
Definition ConfidenceMedium : string := "Medium".
Definition ConfidenceLow : string := "Low".
Definition ConfidenceNone : string := "None".

(** ** deviceliveness_types.go *)

Definition LivenessState := string.
Definition StateOnline : LivenessState := "Online".
Definition StateSleeping : LivenessState := "Sleeping".
Definition StateUnreachable : LivenessState := "Unreachable".
Definition StateUnknown : LivenessState := "Unknown".

Record DeviceLivenessSpec := mkDeviceLivenessSpec {
  dls_DeviceRef : string;
  dls_ExpectedInterval : Duration;
  dls_StaleMultiplier : Z;
  dls_Property : string
}.

Record DeviceLivenessStatus := mkDeviceLivenessStatus {
  st_State : LivenessState;
  st_Transport : string;
  st_LastSeen : option Time;
  st_SilentFor : string;
  st_NextExpectedBy : option Time;
  st_Assessment : string;
  st_Gateway : string;
  st_Capability : option DeviceCapability;
  st_ContactWindows : list ContactWindow;
  st_ObservedGeneration : Z
}.

Record DeviceLiveness := mkDeviceLiveness {
  dl_Meta : ObjectMeta;
  dl_Spec : DeviceLivenessSpec;
  dl_Status : DeviceLivenessStatus
}.
Definition dl_Name (l : DeviceLiveness) : string := om_Name (dl_Meta l).

(** ** fleetquery_types.go *)

Record StringMatch := mkStringMatch {
  sm_Equals : string;
  sm_In : list string;
  sm_NotIn : list string
}.

Inductive QueryPredicate := mkQueryPredicate {
  qp_State : option StringMatch;
  qp_Transport : option StringMatch;
  qp_ReachableVia : option StringMatch;
  qp_RunningConfigHash : option StringMatch;
  qp_OTACapable : option bool;
  qp_OTAReachable : option bool;
  qp_SilentLongerThan : option Duration;
  qp_SilentBeyondExpected : option bool;
  qp_BatteryBelowPercent : option Z;
  qp_Not : option QueryPredicate
}.

Record FleetQuerySpec := mkFleetQuerySpec {
  fq_Labels : option LabelSelector;
  fq_Where : option QueryPredicate;
  fq_Limit : Z
}.

Record QueryResult := mkQueryResult {
  qr_Device : string;
  qr_State : string;
  qr_Transport : string;
  qr_RunningConfigHash : string;
  qr_SilentFor : string;
  qr_Actionable : bool;
  qr_Reason : string
}.

Record FleetQueryStatus := mkFleetQueryStatus {
  fqs_Matched : Z;
  fqs_Evaluated : Z;
  fqs_Devices : list QueryResult;
  fqs_Truncated : bool;
  fqs_Summary : gmap string Z;
  fqs_LastEvaluated : option Time;
  fqs_Conditions : list Condition
}.

(** ** fleetdrift_types.go *)

Record DriftExpectation := mkDriftExpectation {
  de_ConfigHash : string;
  de_Properties : gmap string string
}.

Record FleetDriftSpec := mkFleetDriftSpec {
  fd_Selector : option LabelSelector;
  fd_Expect : option DriftExpectation;
  fd_GracePeriod : option Duration;
  fd_IgnoreSleeping : bool
}.

Record DriftedDevice := mkDriftedDevice {
  dd_Device : string;
  dd_Property : string;
  dd_Expected : string;
  dd_Actual : string;
  dd_DriftAge : string;
  dd_Assessment : string;
  dd_Remediable : bool
}.

Record FleetDriftStatus := mkFleetDriftStatus {
  fds_Total : Z;
  fds_Converged : Z;
  fds_Drifted : Z;
  fds_Unknown : Z;
  fds_OldestDrift : string;
  fds_Devices : list DriftedDevice;
  fds_LastChecked : option Time;
  fds_Conditions : list Condition
}.

Definition DriftWithinGrace : string := "WithinGracePeriod".
Definition DriftDeviceSleeping : string := "DriftedButSleeping".
Definition DriftNotRemediable : string := "DriftedNoCapableTransport".
Definition DriftAwaitingWindow : string := "DriftedAwaitingTransportWindow".
Definition DriftNeedsAttention : string := "DriftedAndReachable".
Definition DriftStateUnknown : string := "StateUnknown".

Record CredentialExpirySpec := mkCredentialExpirySpec {
  ce_Selector : option LabelSelector;
  ce_ExpiryProperty : string;
  ce_WarnBefore : option Duration;
  ce_RotationSizeBytes : Z;
  ce_RequiredContactWindow : option Duration
}.

Record CredentialStatus := mkCredentialStatus {
  cs_Device : string;
  cs_ExpiresAt : option Time;
  cs_TimeLeft : string;
  cs_State : string;
  cs_Rotatable : bool;
  cs_RotatableVia : list string;
  cs_Reason : string;
  cs_ActionRequired : string
}.

Record CredentialExpiryStatus := mkCredentialExpiryStatus {
  ces_Total : Z;
  ces_Healthy : Z;
  ces_Expiring : Z;
  ces_Expired : Z;
  ces_AtRisk : Z;
  ces_NextExpiry : option Time;
  ces_Devices : list CredentialStatus;
  ces_LastChecked : option Time;
  ces_Conditions : list Condition
}.

Definition CredHealthy : string := "Healthy".
Definition CredExpiring : string := "Expiring".
Definition CredAtRisk : string := "AtRisk".
Definition CredExpired : string := "Expired".
Definition CredUnknown : string := "Unknown".

(** ** enrollment_types.go *)

Record DeviceEnrollmentSpec := mkDeviceEnrollmentSpec {
  es_AnnounceTopic : string;
  es_Broker : string;
  es_AutoApprove : bool;
  es_RequireTemplate : string;
  es_AllowedModels : list string;
  es_Labels : gmap string string;
  es_NodeName : string;
  es_ExpirePendingAfter : option Duration
}.

Record DeviceAnnouncement := mkDeviceAnnouncement {
  an_Device : string;
  an_Model : string;
  an_Gateway : string;
  an_NodeID : Z;
  an_TopicPrefix : string;
  an_Transports : list string;
  an_ConfigHash : string;
  an_FirmwareVersion : string;
  an_BuildTime : string;
  an_AnnouncedAt : option Time;
  an_LastAnnouncedAt : option Time;
  an_Conflicts : list string
}.

Definition EnrollRejectUnknownModel : string := "ModelNotAllowed".
Definition EnrollRejectNotInTemplate : string := "NotInTemplate".
Definition EnrollRejectNameTaken : string := "NameAlreadyEnrolled".
Definition EnrollRejectNodeIDTaken : string := "NodeIDConflictOnGateway".
Definition EnrollRejectDecommissioned : string := "DeviceWasDecommissioned".

(** ** decommission_types.go *)

Definition DecommissionReason := string.
Definition ReasonStolen : DecommissionReason := "Stolen".
Definition ReasonFailed : DecommissionReason := "Failed".
Definition ReasonBatteryExpired : DecommissionReason := "BatteryExpired".
Definition ReasonRetired : DecommissionReason := "Retired".
Definition ReasonReplaced : DecommissionReason := "Replaced".
Definition ReasonTransferred : DecommissionReason := "Transferred".
Definition ReasonNeverDeployed : DecommissionReason := "NeverDeployed".

Definition DecommissionPhase := string.
Definition DecomPending : DecommissionPhase := "Pending".
Definition DecomComplete : DecommissionPhase := "Complete".
Definition DecomBlocked : DecommissionPhase := "Blocked".

Record DeviceDecommissionSpec := mkDeviceDecommissionSpec {
  ds_DeviceRef : string;
  ds_Reason : DecommissionReason;
  ds_Detail : string;
  ds_EffectiveFrom : option Time;
  ds_RevokeCredentials : option bool;
  ds_DeleteDeviceObject : bool;
  ds_Replacement : string
}.

Record DeviceDecommissionStatus := mkDeviceDecommissionStatus {
  dst_Phase : DecommissionPhase;
  dst_DecommissionedAt : option Time;
  dst_LastSeenAlive : option Time;
  dst_ServiceLife : string;
  dst_FinalConfigHash : string;
  dst_CredentialsRevoked : bool;
  dst_ExcludedFromQueries : bool;
  dst_Conditions : list Condition
}.

Record DeviceDecommission := mkDeviceDecommission {
  dc_Meta : ObjectMeta;
  dc_Spec : DeviceDecommissionSpec;
  dc_Status : DeviceDecommissionStatus
}.

(** ** devicetemplate_types.go *)

Record TemplateProtocol := mkTemplateProtocol {
  tp_Name : string;
  tp_ConfigData : gmap string string
}.

Record TemplateProperty := mkTemplateProperty {
  tpr_Name : string;
  tpr_CollectCycle : Z;
  tpr_ReportCycle : Z;
  tpr_ReportToCloud : bool;
  tpr_Visitors : gmap string string;
  tpr_Desired : string
}.

Record TemplateInstance := mkTemplateInstance {
  ti_Name : string;
  ti_Vars : gmap string string;
  ti_Labels : gmap string string;
  ti_Overrides : gmap string string
}.

Record DeviceTemplateSpec := mkDeviceTemplateSpec {
  dt_DeviceModelRef : string;
  dt_Protocol : option TemplateProtocol;
  dt_Properties : list TemplateProperty;
  dt_Labels : gmap string string;
  dt_Instances : list TemplateInstance;
  dt_Prune : bool
}.

Record TemplateError := mkTemplateError {
  te_Instance : string;
  te_Reason : string;
  te_Detail : string
}.

Definition TemplateErrMissingVar : string := "MissingVariable".
Definition TemplateErrBadOverride : string := "UnknownPropertyOverride".
Definition TemplateErrNameConflict : string := "NameConflictsWithUnmanagedDevice".

(** ** [interface{}]: the dynamic values the program builds and inspects *)

Inductive Value :=
| VString (s : string)
| VInt64 (z : Z)
| VFloat64 (f : float64)
| VBool (b : bool)
| VStringMap (m : gmap string string)
| VList (l : list Value)
| VMap (m : gmap string Value).
