(* ===== verification/GoHeap.v ===== *)
(** * Go objects in memory: a heap, and the statements of generated deep copies

    A struct is a value with its fields by name; pointers, slices and maps are
    references into a heap, and may be shared. What an object is, without where it
    lies, is a [tree]: [repr h v t] says that [v] stands for [t] in the heap [h], and
    holds of finite objects only. [copies] is the contract of a deep copy: the copy
    stands for the same tree in the part of the heap that is new, so that it shares
    nothing with what was there before. Each statement that controller-gen emits is a
    combinator here ([new_assign], [new_into], [call_DeepCopy], [make_copy],
    [make_into], [make_map], [into_field], [assign]) with the lemma that it copies. *)

From S2P Require Import Prelude GoStrings.
Local Open Scope nat_scope.

(** ** Definitions: values and heaps *)

Definition loc := positive.

(** A value without references; an instant and a duration are structs of one word. *)
Inductive base :=
| BString (s : string)
| BInt32 (z : Z)
| BInt64 (z : Z)
| BBool (b : bool)
| BTime (t : Z)
| BDuration (d : Z).

(** A slice is a window of a backing array: where it starts and how long it is. *)
Inductive value :=
| VBase (b : base)
| VPtr (p : option loc)
| VSlice (s : option (loc * nat * nat))
| VMap (m : option loc)
| VStruct (fs : list (string * value)).

Inductive cell :=
| CVar (v : value)
| CArray (vs : list value)
| CMap (m : gmap string base).

Abbreviation heap := (gmap loc cell).

(** ** Definitions: types *)

Inductive kind := KString | KInt32 | KInt64 | KBool | KTime | KDuration.

(** [TName] stands for a type inside its own definition. *)
Inductive GoType :=
| TBase (k : kind)
| TPtr (t : GoType)
| TSlice (t : GoType)
| TMap (k : kind)
| TStruct (fs : list (string * GoType))
| TName (name : string).

Definition kind_of (b : base) : kind :=
  match b with
  | BString _ => KString | BInt32 _ => KInt32 | BInt64 _ => KInt64
  | BBool _ => KBool | BTime _ => KTime | BDuration _ => KDuration
  end.

Definition zero_base (k : kind) : base :=
  match k with
  | KString => BString "" | KInt32 => BInt32 0 | KInt64 => BInt64 0
  | KBool => BBool false | KTime => BTime 0 | KDuration => BDuration 0
  end.

(** The zero value; a type is only inside itself behind a reference. *)
Fixpoint zero (t : GoType) : value :=
  match t with
  | TBase k => VBase (zero_base k)
  | TPtr _ => VPtr None
  | TSlice _ => VSlice None
  | TMap _ => VMap None
  | TStruct fs => VStruct ((fix go fs := match fs with
                            | [] => []
                            | (f, t) :: fs' => (f, zero t) :: go fs'
                            end) fs)
  | TName _ => VStruct []
  end.

(** No references in it: copied by assignment. *)
Fixpoint flat (t : GoType) : bool :=
  match t with
  | TBase _ => true
  | TStruct fs => (fix go fs := match fs with
                   | [] => true
                   | (_, t) :: fs' => flat t && go fs'
                   end) fs
  | _ => false
  end.

(** ** Definitions: programs over the heap

    [None] is a panic: a nil dereference, an index out of range, a stack that
    overflows, or an operation on a value of another type. *)

Definition M (A : Type) : Type := heap -> option (A * heap).
Definition ret {A} (a : A) : M A := fun h => Some (a, h).
Definition bind {A B} (m : M A) (f : A -> M B) : M B :=
  fun h => match m h with Some (a, h') => f a h' | None => None end.
Definition fail {A} : M A := fun _ => None.

Declare Scope heap_scope.
Delimit Scope heap_scope with heap.
#[local] Notation "x <~ m ;; k" := (bind m (fun x => k))
  (at level 100, m at next level, right associativity) : heap_scope.
Local Open Scope heap_scope.

Definition alloc (c : cell) : M loc :=
  fun h => let l := fresh (dom h) in Some (l, <[l := c]> h).

(** [*p], and [*p = v]. *)
Definition load_var (l : loc) : M value :=
  fun h => match h !! l with Some (CVar v) => Some (v, h) | _ => None end.
Definition store_var (l : loc) (v : value) : M unit :=
  fun h => match h !! l with Some (CVar _) => Some (tt, <[l := CVar v]> h) | _ => None end.

(** [a[i]], and [a[i] = v], of a backing array. *)
Definition load_at (l : loc) (i : nat) : M value :=
  fun h => match h !! l with
           | Some (CArray vs) => match vs !! i with Some v => Some (v, h) | None => None end
           | _ => None
           end.
Definition store_at (l : loc) (i : nat) (v : value) : M unit :=
  fun h => match h !! l with
           | Some (CArray vs) =>
               if (i <? length vs)%nat then Some (tt, <[l := CArray (<[i := v]> vs)]> h) else None
           | _ => None
           end.

Definition load_map (l : loc) : M (gmap string base) :=
  fun h => match h !! l with Some (CMap m) => Some (m, h) | _ => None end.
Definition store_map (l : loc) (m : gmap string base) : M unit :=
  fun h => match h !! l with Some (CMap _) => Some (tt, <[l := CMap m]> h) | _ => None end.

(** ** Definitions: the statements of a deep copy

    A copier takes the value of [in] or of a field of it, and gives what is left in
    [out] or in the field. *)

Definition copier := value -> M value.

(** [out.F = in.F], which [*out = *in] has already done. *)
Definition assign : copier := ret.

(** [*out = new(T); **out = **in], for a pointer that is not nil. *)
Definition new_assign (T : GoType) : copier := fun v =>
  match v with
  | VPtr None => ret v
  | VPtr (Some p) => l <~ alloc (CVar (zero T)) ;; x <~ load_var p ;; _ <~ store_var l x ;; ret (VPtr (Some l))
  | _ => fail
  end.

(** [*out = new(T); ( *in).DeepCopyInto( *out)]. *)
Definition new_into (T : GoType) (DeepCopyInto : copier) : copier := fun v =>
  match v with
  | VPtr None => ret v
  | VPtr (Some p) =>
      l <~ alloc (CVar (zero T)) ;; x <~ load_var p ;; y <~ DeepCopyInto x ;;
      _ <~ store_var l y ;; ret (VPtr (Some l))
  | _ => fail
  end.

(** [*out = ( *in).DeepCopy()]. *)
Definition call_DeepCopy (DeepCopy : copier) : copier := fun v =>
  match v with
  | VPtr None => ret v
  | VPtr (Some _) => DeepCopy v
  | _ => fail
  end.

(** [make([]T, len( *in)); copy( *out, *in)]: element by element, from the window of
    the source to the start of the new array. *)
Fixpoint copy_elements (f : copier) (src dst : loc) (from to : nat) (n : nat) : M unit :=
  match n with
  | O => ret tt
  | S k =>
      x <~ load_at src from ;; y <~ f x ;; _ <~ store_at dst to y ;;
      copy_elements f src dst (S from) (S to) k
  end.

Definition make_copy (T : GoType) : copier := fun v =>
  match v with
  | VSlice None => ret v
  | VSlice (Some (p, from, n)) =>
      l <~ alloc (CArray (replicate n (zero T))) ;; _ <~ copy_elements ret p l from 0 n ;;
      ret (VSlice (Some (l, 0, n)))
  | _ => fail
  end.

(** [make([]T, len( *in))], and [( *in)[i].DeepCopyInto(&( *out)[i])] for every [i]. *)
Definition make_into (T : GoType) (DeepCopyInto : copier) : copier := fun v =>
  match v with
  | VSlice None => ret v
  | VSlice (Some (p, from, n)) =>
      l <~ alloc (CArray (replicate n (zero T))) ;; _ <~ copy_elements DeepCopyInto p l from 0 n ;;
      ret (VSlice (Some (l, 0, n)))
  | _ => fail
  end.

(** [make(map[string]T)], and an assignment for every key. *)
Definition make_map : copier := fun v =>
  match v with
  | VMap None => ret v
  | VMap (Some p) =>
      l <~ alloc (CMap ∅) ;; m <~ load_map p ;;
      _ <~ store_map l (map_fold (fun key val out => <[key := val]> out) ∅ m) ;;
      ret (VMap (Some l))
  | _ => fail
  end.

(** [in.F.DeepCopyInto(&out.F)]. *)
Definition into_field (DeepCopyInto : copier) : copier := DeepCopyInto.

(** ** Definitions: the functions controller-gen emits *)

Fixpoint get_field (f : string) (fs : list (string * value)) : option value :=
  match fs with
  | [] => None
  | (g, v) :: fs' => if str_eq f g then Some v else get_field f fs'
  end.
Fixpoint put_field (f : string) (x : value) (fs : list (string * value)) : list (string * value) :=
  match fs with
  | [] => []
  | (g, v) :: fs' => if str_eq f g then (g, x) :: fs' else (g, v) :: put_field f x fs'
  end.

(** One statement after the other: each reads its field of [in] and writes that of [out]. *)
Fixpoint statements (ss : list (string * copier)) (fi fo : list (string * value))
  : M (list (string * value)) :=
  match ss with
  | [] => ret fo
  | (f, c) :: ss' =>
      match get_field f fi with
      | None => fail
      | Some v => x <~ c v ;; statements ss' fi (put_field f x fo)
      end
  end.

(** [DeepCopyInto]: [*out = *in], and the statements. *)
Definition into (ss : list (string * copier)) : copier := fun v =>
  match v with
  | VStruct fs => fs' <~ statements ss fs fs ;; ret (VStruct fs')
  | _ => fail
  end.

(** [DeepCopy], of a pointer. *)
Definition DeepCopy (T : GoType) (DeepCopyInto : copier) : copier := fun v =>
  match v with
  | VPtr None => ret (VPtr None)
  | VPtr (Some p) =>
      l <~ alloc (CVar (zero T)) ;; x <~ load_var p ;; y <~ DeepCopyInto x ;;
      _ <~ store_var l y ;; ret (VPtr (Some l))
  | _ => fail
  end.

(** A [runtime.Object]: nil, or a pointer with its type. *)
Definition object : Type := option (string * value).

(** [DeepCopyObject]: a copy that is nil is the nil interface, not an interface that
    holds a nil pointer. *)
Definition DeepCopyObject (name : string) (copy : copier) : value -> M object := fun v =>
  c <~ copy v ;;
  match c with
  | VPtr (Some _) => ret (Some (name, c))
  | _ => ret None
  end.

(** ** Definitions: what an object is *)

Inductive tree :=
| NBase (b : base)
| NPtr (t : option tree)
| NSlice (ts : option (list tree))
| NMap (m : option (gmap string base))
| NStruct (ts : list (string * tree)).

Inductive repr (h : heap) : value -> tree -> Prop :=
| repr_base b : repr h (VBase b) (NBase b)
| repr_nil : repr h (VPtr None) (NPtr None)
| repr_ptr l v t : h !! l = Some (CVar v) -> repr h v t -> repr h (VPtr (Some l)) (NPtr (Some t))
| repr_nil_slice : repr h (VSlice None) (NSlice None)
| repr_slice l from n vs ts :
    h !! l = Some (CArray vs) -> from + n <= length vs ->
    reprs h (take n (drop from vs)) ts -> repr h (VSlice (Some (l, from, n))) (NSlice (Some ts))
| repr_nil_map : repr h (VMap None) (NMap None)
| repr_map l m : h !! l = Some (CMap m) -> repr h (VMap (Some l)) (NMap (Some m))
| repr_struct fs ts : repr_fields h fs ts -> repr h (VStruct fs) (NStruct ts)
with reprs (h : heap) : list value -> list tree -> Prop :=
| reprs_nil : reprs h [] []
| reprs_cons v t vs ts : repr h v t -> reprs h vs ts -> reprs h (v :: vs) (t :: ts)
with repr_fields (h : heap) : list (string * value) -> list (string * tree) -> Prop :=
| repr_fields_nil : repr_fields h [] []
| repr_fields_cons f v t fs ts :
    repr h v t -> repr_fields h fs ts -> repr_fields h ((f, v) :: fs) ((f, t) :: ts).

Scheme repr_mut := Minimality for repr Sort Prop
with reprs_mut := Minimality for reprs Sort Prop
with repr_fields_mut := Minimality for repr_fields Sort Prop.
Combined Scheme repr_mutind from repr_mut, reprs_mut, repr_fields_mut.

(** A tree of a type; [env] gives the types that are inside themselves. *)
Section Typing.
Context (env : string -> option GoType).

Inductive typed : GoType -> tree -> Prop :=
| typed_base b : typed (TBase (kind_of b)) (NBase b)
| typed_nil T : typed (TPtr T) (NPtr None)
| typed_ptr T t : typed T t -> typed (TPtr T) (NPtr (Some t))
| typed_nil_slice T : typed (TSlice T) (NSlice None)
| typed_slice T ts : Forall (typed T) ts -> typed (TSlice T) (NSlice (Some ts))
| typed_nil_map k : typed (TMap k) (NMap None)
| typed_map k m : map_Forall (fun _ b => kind_of b = k) m -> typed (TMap k) (NMap (Some m))
| typed_struct fs ts : typed_fields fs ts -> typed (TStruct fs) (NStruct ts)
| typed_name name T t : env name = Some T -> typed T t -> typed (TName name) t
with typed_fields : list (string * GoType) -> list (string * tree) -> Prop :=
| typed_fields_nil : typed_fields [] []
| typed_fields_cons f T t fs ts :
    typed T t -> typed_fields fs ts -> typed_fields ((f, T) :: fs) ((f, t) :: ts).
End Typing.

(** How deep a tree is, in structs. *)
Fixpoint height (t : tree) : nat :=
  match t with
  | NBase _ => 0
  | NPtr (Some t) => height t
  | NSlice (Some ts) => (fix go ts := match ts with [] => 0 | t :: ts' => height t `max` go ts' end) ts
  | NStruct ts =>
      S ((fix go ts := match ts with [] => 0 | (_, t) :: ts' => height t `max` go ts' end) ts)
  | _ => 0
  end.

Fixpoint heights (ts : list tree) : nat :=
  match ts with [] => 0 | t :: ts' => height t `max` heights ts' end.
Fixpoint field_heights (ts : list (string * tree)) : nat :=
  match ts with [] => 0 | (_, t) :: ts' => height t `max` field_heights ts' end.

Lemma height_slice ts : height (NSlice (Some ts)) = heights ts.
Proof. reflexivity. Qed.
Lemma height_struct ts : height (NStruct ts) = S (field_heights ts).
Proof. reflexivity. Qed.

Lemma flat_struct fs : flat (TStruct fs) = forallb (fun '(_, T) => flat T) fs.
Proof. simpl. induction fs as [|[f T] fs IH]; simpl; [done|by rewrite IH]. Qed.

(** ** Lemmas: growing heaps *)

Lemma difference_grows (h h1 h2 : heap) : h1 ⊆ h2 -> h1 ∖ h ⊆ h2 ∖ h.
Proof.
  intros Hs. apply map_subseteq_spec. intros i c. rewrite !lookup_difference_Some.
  intros [Hi Hn]. split; [by eapply lookup_weaken|done].
Qed.

Lemma difference_shrinks (h h1 h2 : heap) : h ⊆ h1 -> h2 ∖ h1 ⊆ h2 ∖ h.
Proof.
  intros Hs. apply map_subseteq_spec. intros i c. rewrite !lookup_difference_Some.
  intros [Hi Hn]. split; [done|by eapply lookup_weaken_None].
Qed.

Lemma repr_mono_all h :
  (forall v t, repr h v t -> forall h', h ⊆ h' -> repr h' v t) /\
  (forall vs ts, reprs h vs ts -> forall h', h ⊆ h' -> reprs h' vs ts) /\
  (forall fs ts, repr_fields h fs ts -> forall h', h ⊆ h' -> repr_fields h' fs ts).
Proof.
  apply repr_mutind; intros; econstructor; eauto using lookup_weaken.
Qed.
Lemma repr_mono h h' v t : h ⊆ h' -> repr h v t -> repr h' v t.
Proof. intros Hs Hr. by eapply (proj1 (repr_mono_all h)). Qed.
Lemma reprs_mono h h' vs ts : h ⊆ h' -> reprs h vs ts -> reprs h' vs ts.
Proof. intros Hs Hr. by eapply (proj1 (proj2 (repr_mono_all h))). Qed.
Lemma repr_fields_mono h h' fs ts : h ⊆ h' -> repr_fields h fs ts -> repr_fields h' fs ts.
Proof. intros Hs Hr. by eapply (proj2 (proj2 (repr_mono_all h))). Qed.

(** What an object is, is determined by the heap. *)
Lemma repr_unique_all h :
  (forall v t, repr h v t -> forall t', repr h v t' -> t = t') /\
  (forall vs ts, reprs h vs ts -> forall ts', reprs h vs ts' -> ts = ts') /\
  (forall fs ts, repr_fields h fs ts -> forall ts', repr_fields h fs ts' -> ts = ts').
Proof.
  apply repr_mutind; intros; repeat match goal with
    | Hr : repr _ (_ _) _ |- _ => inversion Hr; clear Hr; subst
    | Hr : reprs _ (_ :: _) _ |- _ => inversion Hr; clear Hr; subst
    | Hr : reprs _ [] _ |- _ => inversion Hr; clear Hr; subst
    | Hr : repr_fields _ (_ :: _) _ |- _ => inversion Hr; clear Hr; subst
    | Hr : repr_fields _ [] _ |- _ => inversion Hr; clear Hr; subst
    end; simplify_eq; repeat f_equal; eauto.
Qed.
Lemma repr_unique h v t t' : repr h v t -> repr h v t' -> t = t'.
Proof. intros H1 H2. by eapply (proj1 (repr_unique_all h)). Qed.

Section Copies.
Context (env : string -> option GoType).

(** A value without references is the same in every heap. *)
Lemma flat_repr_all h :
  (forall v t, repr h v t -> forall T, flat T = true -> typed env T t -> repr ∅ v t) /\
  (forall vs ts, reprs h vs ts -> True) /\
  (forall fs ts, repr_fields h fs ts -> forall Ts, forallb (fun '(_, T) => flat T) Ts = true ->
     typed_fields env Ts ts -> repr_fields ∅ fs ts).
Proof.
  apply repr_mutind; try done.
  - by constructor.
  - intros T HT Ht. by inversion Ht; subst.
  - intros l v t _ _ _ T HT Ht. by inversion Ht; subst.
  - intros T HT Ht. by inversion Ht; subst.
  - intros l from n vs ts _ _ _ _ T HT Ht. by inversion Ht; subst.
  - intros T HT Ht. by inversion Ht; subst.
  - intros l m _ T HT Ht. by inversion Ht; subst.
  - intros fs ts _ IH T HT Ht. inversion Ht; subst; [|done].
    rewrite flat_struct in HT. constructor. eauto.
  - intros Ts _ _. constructor.
  - intros f v t fs ts _ IH1 _ IH2 Ts HTs Ht. inversion Ht; subst. simpl in HTs.
    apply andb_true_iff in HTs as [HT HTs]. constructor; eauto.
Qed.
Lemma flat_repr h v t T : flat T = true -> typed env T t -> repr h v t -> repr ∅ v t.
Proof. intros. by eapply (proj1 (flat_repr_all h)). Qed.

(** ** The contract of a copy *)

(** Of an object that is finite, no deeper than [d] and of the type: the copier
    returns; nothing that was in the heap has changed; and the copy stands for the
    same tree in what is new in the heap. *)
Definition copies (d : nat) (T : GoType) (f : copier) : Prop :=
  forall h v t, height t <= d -> repr h v t -> typed env T t ->
  exists v' h', f v h = Some (v', h') /\ h ⊆ h' /\ repr (h' ∖ h) v' t.

Lemma assign_copies d T : flat T = true -> copies d T assign.
Proof.
  intros HT h v t _ Hr Ht. exists v, h. split_and!; [done|done|].
  eapply repr_mono; [|by eapply flat_repr]. apply map_empty_subseteq.
Qed.

Lemma into_field_copies d T f : copies d T f -> copies d T (into_field f).
Proof. done. Qed.

Lemma alloc_fresh c h : exists l, alloc c h = Some (l, <[l := c]> h) /\ h !! l = None.
Proof. exists (fresh (dom h)). split; [done|]. apply not_elem_of_dom, is_fresh. Qed.

Lemma typed_ptr_inv T t : typed env (TPtr T) (NPtr (Some t)) -> typed env T t.
Proof. by inversion 1. Qed.

Lemma typed_ptr_shape T t : typed env (TPtr T) t -> t = NPtr None \/ exists t', t = NPtr (Some t').
Proof. inversion 1; eauto. Qed.

Lemma new_into_copies d Z T f : copies d T f -> copies d (TPtr T) (new_into Z f).
Proof.
  intros Hf h v t Hd Hr Ht. destruct (typed_ptr_shape T t Ht) as [->|[t' ->]].
  { inversion Hr; subst. exists (VPtr None), h. split_and!; [done|done|constructor]. }
  inversion Hr as [| |p x t0 Hp Hx| | | | |]; subst.
  apply typed_ptr_inv in Ht. simpl in Hd.
  destruct (alloc_fresh (CVar (zero Z)) h) as (l & El & Hl).
  assert (h ⊆ <[l := CVar (zero Z)]> h) as Hsub by by apply insert_subseteq.
  destruct (Hf (<[l := CVar (zero Z)]> h) x t' Hd (repr_mono _ _ _ _ Hsub Hx) Ht)
    as (y & h2 & Ef & Hs2 & Hy).
  assert (h2 !! l = Some (CVar (zero Z))) as Hl2 by (eapply lookup_weaken; [|exact Hs2]; by rewrite lookup_insert_eq).
  exists (VPtr (Some l)), (<[l := CVar y]> h2).
  assert (h ⊆ <[l := CVar y]> h2) as Hsub2 by (etrans; [apply (insert_subseteq h l (CVar y) Hl)|];
    apply insert_mono; by etrans).
  split_and!; [|done|].
  - unfold new_into, bind. rewrite El. unfold load_var at 1.
    rewrite (lookup_weaken _ _ _ _ Hp Hsub), Ef. unfold store_var. by rewrite Hl2.
  - apply repr_ptr with y; [|eapply repr_mono; [|exact Hy]].
    + apply lookup_difference_Some. by rewrite lookup_insert_eq.
    + apply map_subseteq_spec. intros i c. rewrite !lookup_difference_Some.
      intros [Hi Hn]. rewrite lookup_insert_None in Hn. destruct Hn as [Hn Hne].
      by rewrite lookup_insert_ne.
Qed.

Lemma new_assign_copies d T : flat T = true -> copies d (TPtr T) (new_assign T).
Proof.
  intros HT h v t Hd Hr Ht.
  destruct (new_into_copies d T T assign (assign_copies d T HT) h v t Hd Hr Ht) as (v' & h' & E & Hrest).
  exists v', h'. by rewrite <- E.
Qed.

Lemma DeepCopy_copies d T f : copies d T f -> copies d (TPtr T) (DeepCopy T f).
Proof.
  intros Hf h v t Hd Hr Ht.
  destruct (new_into_copies d T T f Hf h v t Hd Hr Ht) as (v' & h' & E & Hrest).
  exists v', h'. rewrite <- E. split; [|done]. by destruct v as [|[]| | |].
Qed.

Lemma call_DeepCopy_copies d T f : copies d (TPtr T) f -> copies d (TPtr T) (call_DeepCopy f).
Proof.
  intros Hf h v t Hd Hr Ht. destruct (Hf h v t Hd Hr Ht) as (v' & h' & E & Hsub & Hr').
  destruct (typed_ptr_shape T t Ht) as [->|[t' ->]]; inversion Hr; subst.
  - exists (VPtr None), h. split_and!; [done|done|constructor].
  - by exists v', h'.
Qed.

(** *** Slices *)

Lemma reprs_length h vs ts : reprs h vs ts -> length vs = length ts.
Proof. revert ts. induction vs; intros ts Hr; inversion Hr; subst; simpl; auto. Qed.

Lemma insert_middle {A} (l : list A) i x :
  i < length l ->
  take (S i) (<[i := x]> l) = take i l ++ [x] /\
  forall k, drop (S i + k) (<[i := x]> l) = drop (S i + k) l.
Proof.
  intros Hi. split.
  - rewrite (take_S_r _ _ x) by by apply list_lookup_insert_eq.
    by rewrite take_insert_ge by lia.
  - intros k. by rewrite drop_insert_lt by lia.
Qed.

(** The loop of a slice: what is done of the new array stands for the elements done,
    outside the heap [h0] that the copy began with and outside the array itself. *)
Lemma copy_elements_spec d T f src dst h0 ws n : copies d T f ->
  h0 !! src = Some (CArray ws) -> h0 !! dst = None ->
  forall from to ts H array,
    from + n <= length ws -> reprs h0 (take n (drop from ws)) ts -> heights ts <= d ->
    Forall (typed env T) ts -> h0 ⊆ H -> H !! dst = Some (CArray array) -> to + n <= length array ->
    exists H' ys, copy_elements f src dst from to n H = Some (tt, H') /\ h0 ⊆ H' /\
      H' !! dst = Some (CArray (take to array ++ ys ++ drop (to + n) array)) /\
      reprs (delete dst H' ∖ h0) ys ts /\ delete dst H ⊆ delete dst H'.
Proof.
  intros Hf Hsrc Hdst. induction n as [|n IH]; intros from to ts H array Hlen Hr Hd Ht HH Ha Hto.
  { exists H, []. simpl in Hr. inversion Hr; subst. rewrite Nat.add_0_r. simpl.
    rewrite take_drop. split_and!; try done. constructor. }
  destruct (lookup_lt_is_Some_2 ws from) as [x Hx]; [lia|].
  rewrite (drop_S _ _ _ Hx) in Hr. simpl in Hr. inversion Hr as [|x0 t vs ts' Hxt Hr']; subst.
  simpl in Hd. apply Forall_cons in Ht as [Htx Ht].
  destruct (Hf H x t ltac:(lia) (repr_mono _ _ _ _ HH Hxt) Htx) as (y & H1 & Ef & Hs1 & Hy).
  assert (H1 !! dst = Some (CArray array)) as Ha1 by (by eapply lookup_weaken).
  destruct (insert_middle array to y ltac:(lia)) as [Etake Edrop].
  set (H2 := <[dst := CArray (<[to := y]> array)]> H1).
  assert (h0 ⊆ H2) as HH2.
  { etrans; [apply (insert_subseteq h0 dst (CArray (<[to := y]> array)) Hdst)|].
    apply insert_mono. by etrans. }
  destruct (IH (S from) (S to) ts' H2 (<[to := y]> array)) as (H' & ys & E & Hs' & Ha' & Hys & Hdel).
  { lia. } { done. } { lia. } { done. } { done. } { by apply lookup_insert_eq. }
  { rewrite length_insert. lia. }
  assert (delete dst H2 = delete dst H1) as Edel by apply delete_insert_eq.
  exists H', (y :: ys). split_and!; [|done| | |].
  - cbn [copy_elements]. unfold bind, load_at, store_at.
    rewrite (lookup_weaken _ _ _ _ Hsrc HH), Hx, Ef, Ha1.
    destruct (Nat.ltb_spec to (length array)); [exact E|lia].
  - rewrite Ha', Etake. replace (S to + n) with (to + S n) by lia.
    rewrite <- app_assoc. simpl. replace (to + S n) with (S to + n) by lia. by rewrite (Edrop n).
  - constructor; [|exact Hys]. eapply repr_mono; [|exact Hy].
    etrans; [|apply difference_grows; rewrite Edel in Hdel; exact Hdel].
    apply map_subseteq_spec. intros i c. rewrite !lookup_difference_Some, lookup_delete_Some.
    intros [Hi Hn]. split_and!; [|done|].
    + intros <-. by rewrite Ha in Hn.
    + by eapply lookup_weaken_None.
  - etrans; [by apply delete_mono|]. by rewrite Edel in Hdel.
Qed.

Lemma typed_slice_shape T t :
  typed env (TSlice T) t -> t = NSlice None \/ exists ts, t = NSlice (Some ts) /\ Forall (typed env T) ts.
Proof. inversion 1; eauto. Qed.

Lemma make_into_copies d T f : copies d T f -> copies d (TSlice T) (make_into T f).
Proof.
  intros Hf h v t Hd Hr Ht. destruct (typed_slice_shape T t Ht) as [->|(ts & -> & Hts)].
  { inversion Hr; subst. exists (VSlice None), h. split_and!; [done|done|constructor]. }
  inversion Hr as [| | | |p from n ws ts0 Hp Hlen Hrs| | |]; subst.
  rewrite height_slice in Hd.
  destruct (alloc_fresh (CArray (replicate n (zero T))) h) as (l & El & Hl).
  set (h1 := <[l := CArray (replicate n (zero T))]> h) in *.
  assert (h ⊆ h1) as Hsub by by apply insert_subseteq.
  destruct (copy_elements_spec d T f p l h ws n Hf Hp Hl from 0 ts h1 (replicate n (zero T)))
    as (h2 & ys & Ec & Hs2 & Ha & Hys & _);
    try done; [by apply lookup_insert_eq|by rewrite length_replicate|].
  rewrite take_0, drop_ge, app_nil_r in Ha by (rewrite length_replicate; lia). simpl in Ha.
  exists (VSlice (Some (l, 0, n))), h2. split_and!; [|done|].
  - unfold make_into, bind. by rewrite El, Ec.
  - assert (length ys = n) as Hn.
    { apply reprs_length in Hys. apply reprs_length in Hrs. rewrite Hys, <- Hrs.
      rewrite length_take, length_drop. lia. }
    apply repr_slice with ys; [by apply lookup_difference_Some|lia|].
    rewrite drop_0, take_ge by lia. eapply reprs_mono; [|exact Hys].
    apply difference_grows, delete_subseteq.
Qed.

Lemma make_copy_copies d T : flat T = true -> copies d (TSlice T) (make_copy T).
Proof.
  intros HT h v t Hd Hr Ht.
  destruct (make_into_copies d T assign (assign_copies d T HT) h v t Hd Hr Ht) as (v' & h' & E & Hrest).
  by exists v', h'.
Qed.

(** *** Maps *)

Lemma map_fold_copy (m : gmap string base) :
  map_fold (fun key val out => <[key := val]> out) ∅ m = m.
Proof.
  apply (map_fold_weak_ind (fun out m => out = m)); [done|]. intros i x m' r _ ->. done.
Qed.

Lemma make_map_copies d k : copies d (TMap k) make_map.
Proof.
  intros h v t _ Hr Ht. inversion Ht; subst; inversion Hr; subst.
  - exists (VMap None), h. split_and!; [done|done|constructor].
  - destruct (alloc_fresh (CMap ∅) h) as (l' & El & Hl).
    exists (VMap (Some l')), (<[l' := CMap m]> (<[l' := CMap ∅]> h)). split_and!.
    + unfold make_map, bind. rewrite El. unfold load_map, store_map.
      rewrite (lookup_weaken _ (<[l' := CMap ∅]> h) _ _ ltac:(eassumption)) by by apply insert_subseteq.
      rewrite lookup_insert_eq, map_fold_copy. done.
    + rewrite insert_insert_eq. by apply insert_subseteq.
    + constructor. apply lookup_difference_Some. by rewrite lookup_insert_eq.
Qed.

(** *** Structs *)

(** A statement for every field that has references in it, in the order of the
    fields; other fields need none, as [*out = *in] copies them. *)
Inductive adequate (d : nat) : list (string * GoType) -> list (string * copier) -> Prop :=
| adequate_nil : adequate d [] []
| adequate_flat f T fs ss : flat T = true -> adequate d fs ss -> adequate d ((f, T) :: fs) ss
| adequate_stmt f T c fs ss : copies d T c -> adequate d fs ss -> adequate d ((f, T) :: fs) ((f, c) :: ss).

Lemma get_field_app f v pre fi :
  f ∉ pre.*1 -> get_field f (pre ++ (f, v) :: fi) = Some v.
Proof.
  induction pre as [|[g x] pre IH]; intros Hn; simpl; [by rewrite str_eq_refl|].
  simpl in Hn. apply not_elem_of_cons in Hn as [Hn1 Hn].
  rewrite (proj2 (str_eq_false f g)) by done. auto.
Qed.

Lemma set_field_app f v y pre fo :
  f ∉ pre.*1 -> put_field f y (pre ++ (f, v) :: fo) = pre ++ (f, y) :: fo.
Proof.
  induction pre as [|[g x] pre IH]; intros Hn; simpl; [by rewrite str_eq_refl|].
  simpl in Hn. apply not_elem_of_cons in Hn as [Hn1 Hn].
  rewrite (proj2 (str_eq_false f g)) by done. by rewrite IH.
Qed.

Lemma statements_copy d fs ss : adequate d fs ss ->
  forall pre pre' fi ts h0 h,
    pre'.*1 = pre.*1 -> NoDup (pre.*1 ++ fs.*1) -> h0 ⊆ h ->
    repr_fields h0 fi ts -> typed_fields env fs ts -> field_heights ts <= d ->
    exists fo h', statements ss (pre ++ fi) (pre' ++ fi) h = Some (pre' ++ fo, h') /\
      h ⊆ h' /\ repr_fields (h' ∖ h) fo ts.
Proof.
  induction 1 as [|f T fs ss HT Had IH|f T c fs ss Hc Had IH];
    intros pre pre' fi ts h0 h Hpre Hnd Hh Hr Ht Hd.
  - inversion Ht; subst. inversion Hr; subst. exists [], h. split_and!; [done|done|constructor].
  - inversion Ht as [|? ? t ? ts' Htt Hts]; subst. inversion Hr as [|? v ? fi' ? Hv Hfi]; subst.
    simpl in Hd.
    destruct (IH (pre ++ [(f, v)]) (pre' ++ [(f, v)]) fi' ts' h0 h) as (fo & h' & E & Hs & Hro);
      [by rewrite !fmap_app, Hpre|by rewrite fmap_app, <- app_assoc|done|done|done|lia|].
    rewrite <- !app_assoc in E. simpl in E.
    exists ((f, v) :: fo), h'. split_and!; [done|done|].
    constructor; [|done]. eapply repr_mono; [|by eapply flat_repr]. apply map_empty_subseteq.
  - inversion Ht as [|? ? t ? ts' Htt Hts]; subst. inversion Hr as [|? v ? fi' ? Hv Hfi]; subst.
    simpl in Hd.
    assert (f ∉ pre.*1) as Hn.
    { apply NoDup_app in Hnd as (_ & Hdisj & _). intros Hin. apply (Hdisj f Hin). simpl. by left. }
    destruct (Hc h v t ltac:(lia) (repr_mono _ _ _ _ Hh Hv) Htt) as (y & h1 & Ec & Hs1 & Hy).
    destruct (IH (pre ++ [(f, v)]) (pre' ++ [(f, y)]) fi' ts' h0 h1) as (fo & h' & E & Hs & Hro);
      [by rewrite !fmap_app, Hpre|by rewrite fmap_app, <- app_assoc|by etrans|done|done|lia|].
    exists ((f, y) :: fo), h'. rewrite <- !app_assoc in E. simpl in E.
    split_and!; [|by etrans|].
    + cbn [statements]. rewrite get_field_app by done. unfold bind. rewrite Ec.
      rewrite set_field_app by (by rewrite Hpre). exact E.
    + constructor.
      * eapply repr_mono; [|exact Hy]. by apply difference_grows.
      * eapply repr_fields_mono; [|exact Hro]. by apply difference_shrinks.
Qed.

Lemma into_copies_above d fs ss :
  NoDup fs.*1 -> adequate d fs ss -> copies (S d) (TStruct fs) (into ss).
Proof.
  intros Hnd Had h v t Hd Hr Ht. inversion Ht as [| | | | | | |? ts Hts|]; subst.
  inversion Hr as [| | | | | | |fi ? Hfi]; subst. rewrite height_struct in Hd.
  destruct (statements_copy d fs ss Had [] [] fi ts h h) as (fo & h' & E & Hs & Hro); try done; [lia|].
  exists (VStruct fo), h'. split_and!; [|done|by constructor].
  unfold into, bind. simpl in E. by rewrite E.
Qed.

(** What copies deep objects copies shallow ones. *)
Lemma copies_mono d d' T f : d <= d' -> copies d' T f -> copies d T f.
Proof. intros Hd Hf h v t Ht. apply Hf. lia. Qed.

Lemma into_copies d fs ss :
  NoDup fs.*1 -> adequate d fs ss -> copies d (TStruct fs) (into ss).
Proof. intros Hnd Had. eapply copies_mono, into_copies_above; [|done..]. lia. Qed.

Lemma name_copies d name T f : env name = Some T -> copies d T f -> copies d (TName name) f.
Proof.
  intros He Hf h v t Hd Hr Ht. inversion Ht; subst. apply Hf; [done|done|congruence].
Qed.
End Copies.
