(* ===== verification/DeepCopy.v ===== *)
(** * The generated deep copies: api/v1alpha1/zz_generated.deepcopy.go

    The types of the API as layouts of memory, and for each its [DeepCopyInto], its
    [DeepCopy] and, for the objects of the API, its [DeepCopyObject], statement by
    statement on the combinators of [GoHeap]. The client of the API server gives out
    copies of what is in its cache; what a controller then does to its copy must not
    show in the cache. The types of metav1 and their copies are an interface. *)

From S2P Require Import Prelude GoStrings GoHeap.
Local Open Scope nat_scope.

(** ** Definitions: metav1 *)

Class MetaV1 := {
  TypeMeta_type : GoType;
  ObjectMeta_type : GoType;
  ListMeta_type : GoType;
  LabelSelector_type : GoType;
  Condition_type : GoType;
  Time_DeepCopy : copier;
  ObjectMeta_DeepCopyInto : copier;
  ListMeta_DeepCopyInto : copier;
  LabelSelector_DeepCopyInto : copier;
  Condition_DeepCopyInto : copier
}.

(** What they document: the type of an object is two strings, and the others copy deeply. *)
Class MetaV1Laws `{MetaV1} : Prop := {
  TypeMeta_flat : flat TypeMeta_type = true;
  Time_copies env d : copies env d (TPtr (TBase KTime)) Time_DeepCopy;
  ObjectMeta_copies env d : copies env d ObjectMeta_type ObjectMeta_DeepCopyInto;
  ListMeta_copies env d : copies env d ListMeta_type ListMeta_DeepCopyInto;
  LabelSelector_copies env d : copies env d LabelSelector_type LabelSelector_DeepCopyInto;
  Condition_copies env d : copies env d Condition_type Condition_DeepCopyInto
}.

(** ** Definitions: the types and their copies *)

Section DeepCopies.
Context `{MetaV1}.

(** *** Capability (capability_types.go) *)

Definition Transport_type : GoType := TStruct [
  ("Type", TBase KString); ("Availability", TBase KString); ("Config", TBase KBool);
  ("OTA", TBase KBool); ("MaxPayloadBytes", TBase KInt64); ("ThroughputBps", TBase KInt64);
  ("DutyCyclePercent", TBase KString); ("OTACostMah", TBase KInt32)]%string.
Definition Transport_DeepCopyInto : copier := into [].
Definition Transport_DeepCopy : copier :=
  DeepCopy Transport_type Transport_DeepCopyInto.

Definition DeviceCapability_type : GoType := TStruct [
  ("Transports", TSlice Transport_type); ("ReachableVia", TSlice (TBase KString));
  ("BatteryPercent", TBase KInt32); ("BatteryMah", TBase KInt32);
  ("RunningConfigHash", TBase KString)]%string.
Definition DeviceCapability_DeepCopyInto : copier := into [
  ("Transports", make_copy Transport_type); ("ReachableVia", make_copy (TBase KString))]%string.
Definition DeviceCapability_DeepCopy : copier :=
  DeepCopy DeviceCapability_type DeviceCapability_DeepCopyInto.

(** *** Maintenance and contact windows (window_types.go) *)

Definition WindowPeriod_type : GoType := TStruct [
  ("Cron", TBase KString); ("Duration", TPtr (TBase KDuration)); ("From", TPtr (TBase KTime));
  ("Until", TPtr (TBase KTime)); ("Reason", TBase KString)]%string.
Definition WindowPeriod_DeepCopyInto : copier := into [
  ("Duration", new_assign (TBase KDuration)); ("From", call_DeepCopy Time_DeepCopy);
  ("Until", call_DeepCopy Time_DeepCopy)]%string.
Definition WindowPeriod_DeepCopy : copier :=
  DeepCopy WindowPeriod_type WindowPeriod_DeepCopyInto.

Definition MaintenanceWindowSpec_type : GoType := TStruct [
  ("Selector", TPtr LabelSelector_type); ("Allow", TSlice WindowPeriod_type);
  ("Deny", TSlice WindowPeriod_type); ("Timezone", TBase KString);
  ("AllowInFlightToComplete", TPtr (TBase KBool)); ("MaxDevicesPerWindow", TBase KInt32)]%string.
Definition MaintenanceWindowSpec_DeepCopyInto : copier := into [
  ("Selector", new_into LabelSelector_type LabelSelector_DeepCopyInto);
  ("Allow", make_into WindowPeriod_type WindowPeriod_DeepCopyInto);
  ("Deny", make_into WindowPeriod_type WindowPeriod_DeepCopyInto);
  ("AllowInFlightToComplete", new_assign (TBase KBool))]%string.
Definition MaintenanceWindowSpec_DeepCopy : copier :=
  DeepCopy MaintenanceWindowSpec_type MaintenanceWindowSpec_DeepCopyInto.

Definition MaintenanceWindowStatus_type : GoType := TStruct [
  ("Open", TBase KBool); ("NextOpen", TPtr (TBase KTime)); ("NextClose", TPtr (TBase KTime));
  ("MatchedDevices", TBase KInt32); ("Reason", TBase KString);
  ("Conditions", TSlice Condition_type)]%string.
Definition MaintenanceWindowStatus_DeepCopyInto : copier := into [
  ("NextOpen", call_DeepCopy Time_DeepCopy); ("NextClose", call_DeepCopy Time_DeepCopy);
  ("Conditions", make_into Condition_type Condition_DeepCopyInto)]%string.
Definition MaintenanceWindowStatus_DeepCopy : copier :=
  DeepCopy MaintenanceWindowStatus_type MaintenanceWindowStatus_DeepCopyInto.

Definition MaintenanceWindow_type : GoType := TStruct [
  ("TypeMeta", TypeMeta_type); ("ObjectMeta", ObjectMeta_type);
  ("Spec", MaintenanceWindowSpec_type); ("Status", MaintenanceWindowStatus_type)]%string.
Definition MaintenanceWindow_DeepCopyInto : copier := into [
  ("TypeMeta", assign); ("ObjectMeta", into_field ObjectMeta_DeepCopyInto);
  ("Spec", into_field MaintenanceWindowSpec_DeepCopyInto);
  ("Status", into_field MaintenanceWindowStatus_DeepCopyInto)]%string.
Definition MaintenanceWindow_DeepCopy : copier :=
  DeepCopy MaintenanceWindow_type MaintenanceWindow_DeepCopyInto.
Definition MaintenanceWindow_DeepCopyObject : value -> M object :=
  DeepCopyObject "MaintenanceWindow" MaintenanceWindow_DeepCopy.

Definition MaintenanceWindowList_type : GoType := TStruct [
  ("TypeMeta", TypeMeta_type); ("ListMeta", ListMeta_type);
  ("Items", TSlice MaintenanceWindow_type)]%string.
Definition MaintenanceWindowList_DeepCopyInto : copier := into [
  ("TypeMeta", assign); ("ListMeta", into_field ListMeta_DeepCopyInto);
  ("Items", make_into MaintenanceWindow_type MaintenanceWindow_DeepCopyInto)]%string.
Definition MaintenanceWindowList_DeepCopy : copier :=
  DeepCopy MaintenanceWindowList_type MaintenanceWindowList_DeepCopyInto.
Definition MaintenanceWindowList_DeepCopyObject : value -> M object :=
  DeepCopyObject "MaintenanceWindowList" MaintenanceWindowList_DeepCopy.

Definition ContactWindow_type : GoType := TStruct [
  ("Transport", TBase KString); ("TypicalInterval", TPtr (TBase KDuration));
  ("TypicalDuration", TPtr (TBase KDuration)); ("NextExpected", TPtr (TBase KTime));
  ("Confidence", TBase KString); ("SamplesObserved", TBase KInt32)]%string.
Definition ContactWindow_DeepCopyInto : copier := into [
  ("TypicalInterval", new_assign (TBase KDuration));
  ("TypicalDuration", new_assign (TBase KDuration));
  ("NextExpected", call_DeepCopy Time_DeepCopy)]%string.
Definition ContactWindow_DeepCopy : copier :=
  DeepCopy ContactWindow_type ContactWindow_DeepCopyInto.

(** *** Liveness (deviceliveness_types.go) *)

Definition DeviceLivenessSpec_type : GoType := TStruct [
  ("DeviceRef", TBase KString); ("ExpectedInterval", TBase KDuration);
  ("StaleMultiplier", TBase KInt32); ("Property", TBase KString)]%string.
Definition DeviceLivenessSpec_DeepCopyInto : copier := into [
  ("ExpectedInterval", assign)]%string.
Definition DeviceLivenessSpec_DeepCopy : copier :=
  DeepCopy DeviceLivenessSpec_type DeviceLivenessSpec_DeepCopyInto.

Definition DeviceLivenessStatus_type : GoType := TStruct [
  ("State", TBase KString); ("Transport", TBase KString); ("LastSeen", TPtr (TBase KTime));
  ("SilentFor", TBase KString); ("NextExpectedBy", TPtr (TBase KTime));
  ("Assessment", TBase KString); ("Gateway", TBase KString);
  ("Capability", TPtr DeviceCapability_type); ("ContactWindows", TSlice ContactWindow_type);
  ("ObservedGeneration", TBase KInt64)]%string.
Definition DeviceLivenessStatus_DeepCopyInto : copier := into [
  ("LastSeen", call_DeepCopy Time_DeepCopy); ("NextExpectedBy", call_DeepCopy Time_DeepCopy);
  ("Capability", new_into DeviceCapability_type DeviceCapability_DeepCopyInto);
  ("ContactWindows", make_into ContactWindow_type ContactWindow_DeepCopyInto)]%string.
Definition DeviceLivenessStatus_DeepCopy : copier :=
  DeepCopy DeviceLivenessStatus_type DeviceLivenessStatus_DeepCopyInto.

Definition DeviceLiveness_type : GoType := TStruct [
  ("TypeMeta", TypeMeta_type); ("ObjectMeta", ObjectMeta_type);
  ("Spec", DeviceLivenessSpec_type); ("Status", DeviceLivenessStatus_type)]%string.
Definition DeviceLiveness_DeepCopyInto : copier := into [
  ("TypeMeta", assign); ("ObjectMeta", into_field ObjectMeta_DeepCopyInto); ("Spec", assign);
  ("Status", into_field DeviceLivenessStatus_DeepCopyInto)]%string.
Definition DeviceLiveness_DeepCopy : copier :=
  DeepCopy DeviceLiveness_type DeviceLiveness_DeepCopyInto.
Definition DeviceLiveness_DeepCopyObject : value -> M object :=
  DeepCopyObject "DeviceLiveness" DeviceLiveness_DeepCopy.

Definition DeviceLivenessList_type : GoType := TStruct [
  ("TypeMeta", TypeMeta_type); ("ListMeta", ListMeta_type);
  ("Items", TSlice DeviceLiveness_type)]%string.
Definition DeviceLivenessList_DeepCopyInto : copier := into [
  ("TypeMeta", assign); ("ListMeta", into_field ListMeta_DeepCopyInto);
  ("Items", make_into DeviceLiveness_type DeviceLiveness_DeepCopyInto)]%string.
Definition DeviceLivenessList_DeepCopy : copier :=
  DeepCopy DeviceLivenessList_type DeviceLivenessList_DeepCopyInto.
Definition DeviceLivenessList_DeepCopyObject : value -> M object :=
  DeepCopyObject "DeviceLivenessList" DeviceLivenessList_DeepCopy.

(** *** Decommissions (decommission_types.go) *)

Definition DeviceDecommissionSpec_type : GoType := TStruct [
  ("DeviceRef", TBase KString); ("Reason", TBase KString); ("Detail", TBase KString);
  ("EffectiveFrom", TPtr (TBase KTime)); ("RevokeCredentials", TPtr (TBase KBool));
  ("DeleteDeviceObject", TBase KBool); ("Replacement", TBase KString)]%string.
Definition DeviceDecommissionSpec_DeepCopyInto : copier := into [
  ("EffectiveFrom", call_DeepCopy Time_DeepCopy);
  ("RevokeCredentials", new_assign (TBase KBool))]%string.
Definition DeviceDecommissionSpec_DeepCopy : copier :=
  DeepCopy DeviceDecommissionSpec_type DeviceDecommissionSpec_DeepCopyInto.

Definition DeviceDecommissionStatus_type : GoType := TStruct [
  ("Phase", TBase KString); ("DecommissionedAt", TPtr (TBase KTime));
  ("LastSeenAlive", TPtr (TBase KTime)); ("ServiceLife", TBase KString);
  ("FinalConfigHash", TBase KString); ("CredentialsRevoked", TBase KBool);
  ("ExcludedFromQueries", TBase KBool); ("Conditions", TSlice Condition_type)]%string.
Definition DeviceDecommissionStatus_DeepCopyInto : copier := into [
  ("DecommissionedAt", call_DeepCopy Time_DeepCopy);
  ("LastSeenAlive", call_DeepCopy Time_DeepCopy);
  ("Conditions", make_into Condition_type Condition_DeepCopyInto)]%string.
Definition DeviceDecommissionStatus_DeepCopy : copier :=
  DeepCopy DeviceDecommissionStatus_type DeviceDecommissionStatus_DeepCopyInto.

Definition DeviceDecommission_type : GoType := TStruct [
  ("TypeMeta", TypeMeta_type); ("ObjectMeta", ObjectMeta_type);
  ("Spec", DeviceDecommissionSpec_type); ("Status", DeviceDecommissionStatus_type)]%string.
Definition DeviceDecommission_DeepCopyInto : copier := into [
  ("TypeMeta", assign); ("ObjectMeta", into_field ObjectMeta_DeepCopyInto);
  ("Spec", into_field DeviceDecommissionSpec_DeepCopyInto);
  ("Status", into_field DeviceDecommissionStatus_DeepCopyInto)]%string.
Definition DeviceDecommission_DeepCopy : copier :=
  DeepCopy DeviceDecommission_type DeviceDecommission_DeepCopyInto.
Definition DeviceDecommission_DeepCopyObject : value -> M object :=
  DeepCopyObject "DeviceDecommission" DeviceDecommission_DeepCopy.

Definition DeviceDecommissionList_type : GoType := TStruct [
  ("TypeMeta", TypeMeta_type); ("ListMeta", ListMeta_type);
  ("Items", TSlice DeviceDecommission_type)]%string.
Definition DeviceDecommissionList_DeepCopyInto : copier := into [
  ("TypeMeta", assign); ("ListMeta", into_field ListMeta_DeepCopyInto);
  ("Items", make_into DeviceDecommission_type DeviceDecommission_DeepCopyInto)]%string.
Definition DeviceDecommissionList_DeepCopy : copier :=
  DeepCopy DeviceDecommissionList_type DeviceDecommissionList_DeepCopyInto.
Definition DeviceDecommissionList_DeepCopyObject : value -> M object :=
  DeepCopyObject "DeviceDecommissionList" DeviceDecommissionList_DeepCopy.

(** *** Templates (devicetemplate_types.go) *)

Definition TemplateInstance_type : GoType := TStruct [
  ("Name", TBase KString); ("Vars", TMap KString); ("Labels", TMap KString);
  ("Overrides", TMap KString)]%string.
Definition TemplateInstance_DeepCopyInto : copier := into [
  ("Vars", make_map); ("Labels", make_map); ("Overrides", make_map)]%string.
Definition TemplateInstance_DeepCopy : copier :=
  DeepCopy TemplateInstance_type TemplateInstance_DeepCopyInto.

Definition TemplateProperty_type : GoType := TStruct [
  ("Name", TBase KString); ("CollectCycle", TBase KInt64); ("ReportCycle", TBase KInt64);
  ("ReportToCloud", TBase KBool); ("Visitors", TMap KString); ("Desired", TBase KString)]%string.
Definition TemplateProperty_DeepCopyInto : copier := into [
  ("Visitors", make_map)]%string.
Definition TemplateProperty_DeepCopy : copier :=
  DeepCopy TemplateProperty_type TemplateProperty_DeepCopyInto.

Definition TemplateProtocol_type : GoType := TStruct [
  ("Name", TBase KString); ("ConfigData", TMap KString)]%string.
Definition TemplateProtocol_DeepCopyInto : copier := into [
  ("ConfigData", make_map)]%string.
Definition TemplateProtocol_DeepCopy : copier :=
  DeepCopy TemplateProtocol_type TemplateProtocol_DeepCopyInto.

Definition DeviceTemplateSpec_type : GoType := TStruct [
  ("DeviceModelRef", TBase KString); ("Protocol", TPtr TemplateProtocol_type);
  ("Properties", TSlice TemplateProperty_type); ("Labels", TMap KString);
  ("Instances", TSlice TemplateInstance_type); ("Prune", TBase KBool)]%string.
Definition DeviceTemplateSpec_DeepCopyInto : copier := into [
  ("Protocol", new_into TemplateProtocol_type TemplateProtocol_DeepCopyInto);
  ("Properties", make_into TemplateProperty_type TemplateProperty_DeepCopyInto);
  ("Labels", make_map);
  ("Instances", make_into TemplateInstance_type TemplateInstance_DeepCopyInto)]%string.
Definition DeviceTemplateSpec_DeepCopy : copier :=
  DeepCopy DeviceTemplateSpec_type DeviceTemplateSpec_DeepCopyInto.

Definition TemplateError_type : GoType := TStruct [
  ("Instance", TBase KString); ("Reason", TBase KString); ("Detail", TBase KString)]%string.
Definition TemplateError_DeepCopyInto : copier := into [].
Definition TemplateError_DeepCopy : copier :=
  DeepCopy TemplateError_type TemplateError_DeepCopyInto.

Definition DeviceTemplateStatus_type : GoType := TStruct [
  ("Instances", TBase KInt32); ("Created", TBase KInt32); ("Updated", TBase KInt32);
  ("Orphaned", TBase KInt32); ("Drifted", TSlice (TBase KString));
  ("Errors", TSlice TemplateError_type); ("LastApplied", TPtr (TBase KTime));
  ("Conditions", TSlice Condition_type)]%string.
Definition DeviceTemplateStatus_DeepCopyInto : copier := into [
  ("Drifted", make_copy (TBase KString)); ("Errors", make_copy TemplateError_type);
  ("LastApplied", call_DeepCopy Time_DeepCopy);
  ("Conditions", make_into Condition_type Condition_DeepCopyInto)]%string.
Definition DeviceTemplateStatus_DeepCopy : copier :=
  DeepCopy DeviceTemplateStatus_type DeviceTemplateStatus_DeepCopyInto.

Definition DeviceTemplate_type : GoType := TStruct [
  ("TypeMeta", TypeMeta_type); ("ObjectMeta", ObjectMeta_type);
  ("Spec", DeviceTemplateSpec_type); ("Status", DeviceTemplateStatus_type)]%string.
Definition DeviceTemplate_DeepCopyInto : copier := into [
  ("TypeMeta", assign); ("ObjectMeta", into_field ObjectMeta_DeepCopyInto);
  ("Spec", into_field DeviceTemplateSpec_DeepCopyInto);
  ("Status", into_field DeviceTemplateStatus_DeepCopyInto)]%string.
Definition DeviceTemplate_DeepCopy : copier :=
  DeepCopy DeviceTemplate_type DeviceTemplate_DeepCopyInto.
Definition DeviceTemplate_DeepCopyObject : value -> M object :=
  DeepCopyObject "DeviceTemplate" DeviceTemplate_DeepCopy.

Definition DeviceTemplateList_type : GoType := TStruct [
  ("TypeMeta", TypeMeta_type); ("ListMeta", ListMeta_type);
  ("Items", TSlice DeviceTemplate_type)]%string.
Definition DeviceTemplateList_DeepCopyInto : copier := into [
  ("TypeMeta", assign); ("ListMeta", into_field ListMeta_DeepCopyInto);
  ("Items", make_into DeviceTemplate_type DeviceTemplate_DeepCopyInto)]%string.
Definition DeviceTemplateList_DeepCopy : copier :=
  DeepCopy DeviceTemplateList_type DeviceTemplateList_DeepCopyInto.
Definition DeviceTemplateList_DeepCopyObject : value -> M object :=
  DeepCopyObject "DeviceTemplateList" DeviceTemplateList_DeepCopy.

(** *** Enrollment (enrollment_types.go) *)

Definition DeviceEnrollmentSpec_type : GoType := TStruct [
  ("AnnounceTopic", TBase KString); ("Broker", TBase KString); ("AutoApprove", TBase KBool);
  ("RequireTemplate", TBase KString); ("AllowedModels", TSlice (TBase KString));
  ("Labels", TMap KString); ("NodeName", TBase KString);
  ("ExpirePendingAfter", TPtr (TBase KDuration))]%string.
Definition DeviceEnrollmentSpec_DeepCopyInto : copier := into [
  ("AllowedModels", make_copy (TBase KString)); ("Labels", make_map);
  ("ExpirePendingAfter", new_assign (TBase KDuration))]%string.
Definition DeviceEnrollmentSpec_DeepCopy : copier :=
  DeepCopy DeviceEnrollmentSpec_type DeviceEnrollmentSpec_DeepCopyInto.

Definition DeviceAnnouncement_type : GoType := TStruct [
  ("Device", TBase KString); ("Model", TBase KString); ("Gateway", TBase KString);
  ("NodeID", TBase KInt64); ("TopicPrefix", TBase KString);
  ("Transports", TSlice (TBase KString)); ("ConfigHash", TBase KString);
  ("FirmwareVersion", TBase KString); ("BuildTime", TBase KString);
  ("AnnouncedAt", TPtr (TBase KTime)); ("LastAnnouncedAt", TPtr (TBase KTime));
  ("Conflicts", TSlice (TBase KString))]%string.
Definition DeviceAnnouncement_DeepCopyInto : copier := into [
  ("Transports", make_copy (TBase KString)); ("AnnouncedAt", call_DeepCopy Time_DeepCopy);
  ("LastAnnouncedAt", call_DeepCopy Time_DeepCopy); ("Conflicts", make_copy (TBase KString))]%string.
Definition DeviceAnnouncement_DeepCopy : copier :=
  DeepCopy DeviceAnnouncement_type DeviceAnnouncement_DeepCopyInto.

Definition DeviceEnrollmentStatus_type : GoType := TStruct [
  ("Pending", TSlice DeviceAnnouncement_type); ("Rejected", TSlice DeviceAnnouncement_type);
  ("Enrolled", TBase KInt32); ("PendingCount", TBase KInt32); ("RejectedCount", TBase KInt32);
  ("LastAnnouncement", TPtr (TBase KTime)); ("Conditions", TSlice Condition_type)]%string.
Definition DeviceEnrollmentStatus_DeepCopyInto : copier := into [
  ("Pending", make_into DeviceAnnouncement_type DeviceAnnouncement_DeepCopyInto);
  ("Rejected", make_into DeviceAnnouncement_type DeviceAnnouncement_DeepCopyInto);
  ("LastAnnouncement", call_DeepCopy Time_DeepCopy);
  ("Conditions", make_into Condition_type Condition_DeepCopyInto)]%string.
Definition DeviceEnrollmentStatus_DeepCopy : copier :=
  DeepCopy DeviceEnrollmentStatus_type DeviceEnrollmentStatus_DeepCopyInto.

Definition DeviceEnrollment_type : GoType := TStruct [
  ("TypeMeta", TypeMeta_type); ("ObjectMeta", ObjectMeta_type);
  ("Spec", DeviceEnrollmentSpec_type); ("Status", DeviceEnrollmentStatus_type)]%string.
Definition DeviceEnrollment_DeepCopyInto : copier := into [
  ("TypeMeta", assign); ("ObjectMeta", into_field ObjectMeta_DeepCopyInto);
  ("Spec", into_field DeviceEnrollmentSpec_DeepCopyInto);
  ("Status", into_field DeviceEnrollmentStatus_DeepCopyInto)]%string.
Definition DeviceEnrollment_DeepCopy : copier :=
  DeepCopy DeviceEnrollment_type DeviceEnrollment_DeepCopyInto.
Definition DeviceEnrollment_DeepCopyObject : value -> M object :=
  DeepCopyObject "DeviceEnrollment" DeviceEnrollment_DeepCopy.

Definition DeviceEnrollmentList_type : GoType := TStruct [
  ("TypeMeta", TypeMeta_type); ("ListMeta", ListMeta_type);
  ("Items", TSlice DeviceEnrollment_type)]%string.
Definition DeviceEnrollmentList_DeepCopyInto : copier := into [
  ("TypeMeta", assign); ("ListMeta", into_field ListMeta_DeepCopyInto);
  ("Items", make_into DeviceEnrollment_type DeviceEnrollment_DeepCopyInto)]%string.
Definition DeviceEnrollmentList_DeepCopy : copier :=
  DeepCopy DeviceEnrollmentList_type DeviceEnrollmentList_DeepCopyInto.
Definition DeviceEnrollmentList_DeepCopyObject : value -> M object :=
  DeepCopyObject "DeviceEnrollmentList" DeviceEnrollmentList_DeepCopy.

(** *** Rollouts (firmwarerollout_types.go) *)

Definition FirmwareSource_type : GoType := TStruct [
  ("Package", TBase KString); ("ConfigHash", TBase KString); ("SizeBytes", TBase KInt64)]%string.
Definition FirmwareSource_DeepCopyInto : copier := into [].
Definition FirmwareSource_DeepCopy : copier :=
  DeepCopy FirmwareSource_type FirmwareSource_DeepCopyInto.

Definition RolloutRequirements_type : GoType := TStruct [
  ("OTA", TBase KBool); ("MinBatteryPercent", TBase KInt32);
  ("MaxSilentFor", TPtr (TBase KDuration))]%string.
Definition RolloutRequirements_DeepCopyInto : copier := into [
  ("MaxSilentFor", new_assign (TBase KDuration))]%string.
Definition RolloutRequirements_DeepCopy : copier :=
  DeepCopy RolloutRequirements_type RolloutRequirements_DeepCopyInto.

Definition HealthGate_type : GoType := TStruct [
  ("MustReportWithin", TPtr (TBase KDuration)); ("MustReportConfigHash", TBase KBool);
  ("SettleFor", TPtr (TBase KDuration))]%string.
Definition HealthGate_DeepCopyInto : copier := into [
  ("MustReportWithin", new_assign (TBase KDuration));
  ("SettleFor", new_assign (TBase KDuration))]%string.
Definition HealthGate_DeepCopy : copier :=
  DeepCopy HealthGate_type HealthGate_DeepCopyInto.

Definition RollbackTriggers_type : GoType := TStruct [
  ("BootLoopThreshold", TBase KInt32); ("HealthGateFailures", TBase KInt32);
  ("Automatic", TBase KBool)]%string.
Definition RollbackTriggers_DeepCopyInto : copier := into [].
Definition RollbackTriggers_DeepCopy : copier :=
  DeepCopy RollbackTriggers_type RollbackTriggers_DeepCopyInto.

Definition RolloutStrategy_type : GoType := TStruct [
  ("Canary", TBase KInt32); ("Steps", TSlice (TBase KInt32));
  ("HealthGate", TPtr HealthGate_type); ("RollbackOn", TPtr RollbackTriggers_type);
  ("MaxConcurrent", TBase KInt32)]%string.
Definition RolloutStrategy_DeepCopyInto : copier := into [
  ("Steps", make_copy (TBase KInt32));
  ("HealthGate", new_into HealthGate_type HealthGate_DeepCopyInto);
  ("RollbackOn", new_assign RollbackTriggers_type)]%string.
Definition RolloutStrategy_DeepCopy : copier :=
  DeepCopy RolloutStrategy_type RolloutStrategy_DeepCopyInto.

Definition FirmwareRolloutSpec_type : GoType := TStruct [
  ("Selector", TPtr LabelSelector_type); ("Source", FirmwareSource_type);
  ("Requires", TPtr RolloutRequirements_type); ("Strategy", RolloutStrategy_type);
  ("Paused", TBase KBool)]%string.
Definition FirmwareRolloutSpec_DeepCopyInto : copier := into [
  ("Selector", new_into LabelSelector_type LabelSelector_DeepCopyInto); ("Source", assign);
  ("Requires", new_into RolloutRequirements_type RolloutRequirements_DeepCopyInto);
  ("Strategy", into_field RolloutStrategy_DeepCopyInto)]%string.
Definition FirmwareRolloutSpec_DeepCopy : copier :=
  DeepCopy FirmwareRolloutSpec_type FirmwareRolloutSpec_DeepCopyInto.

Definition DeviceOutcome_type : GoType := TStruct [
  ("Device", TBase KString); ("Reason", TBase KString); ("Detail", TBase KString);
  ("Since", TPtr (TBase KTime))]%string.
Definition DeviceOutcome_DeepCopyInto : copier := into [
  ("Since", call_DeepCopy Time_DeepCopy)]%string.
Definition DeviceOutcome_DeepCopy : copier :=
  DeepCopy DeviceOutcome_type DeviceOutcome_DeepCopyInto.

Definition FirmwareRolloutStatus_type : GoType := TStruct [
  ("Phase", TBase KString); ("Step", TBase KString); ("Target", TBase KInt32);
  ("Eligible", TBase KInt32); ("Updated", TBase KInt32); ("Healthy", TBase KInt32);
  ("Refused", TSlice DeviceOutcome_type); ("Pending", TSlice DeviceOutcome_type);
  ("Failed", TSlice DeviceOutcome_type); ("Conditions", TSlice Condition_type);
  ("ObservedGeneration", TBase KInt64); ("StartedAt", TPtr (TBase KTime));
  ("PreviousConfigHash", TBase KString); ("BlockedBy", TBase KString);
  ("BlockReason", TBase KString); ("NextWindow", TPtr (TBase KTime));
  ("DispatchedThisWindow", TBase KInt32); ("WindowOpenedAt", TPtr (TBase KTime))]%string.
Definition FirmwareRolloutStatus_DeepCopyInto : copier := into [
  ("Refused", make_into DeviceOutcome_type DeviceOutcome_DeepCopyInto);
  ("Pending", make_into DeviceOutcome_type DeviceOutcome_DeepCopyInto);
  ("Failed", make_into DeviceOutcome_type DeviceOutcome_DeepCopyInto);
  ("Conditions", make_into Condition_type Condition_DeepCopyInto);
  ("StartedAt", call_DeepCopy Time_DeepCopy); ("NextWindow", call_DeepCopy Time_DeepCopy);
  ("WindowOpenedAt", call_DeepCopy Time_DeepCopy)]%string.
Definition FirmwareRolloutStatus_DeepCopy : copier :=
  DeepCopy FirmwareRolloutStatus_type FirmwareRolloutStatus_DeepCopyInto.

Definition FirmwareRollout_type : GoType := TStruct [
  ("TypeMeta", TypeMeta_type); ("ObjectMeta", ObjectMeta_type);
  ("Spec", FirmwareRolloutSpec_type); ("Status", FirmwareRolloutStatus_type)]%string.
Definition FirmwareRollout_DeepCopyInto : copier := into [
  ("TypeMeta", assign); ("ObjectMeta", into_field ObjectMeta_DeepCopyInto);
  ("Spec", into_field FirmwareRolloutSpec_DeepCopyInto);
  ("Status", into_field FirmwareRolloutStatus_DeepCopyInto)]%string.
Definition FirmwareRollout_DeepCopy : copier :=
  DeepCopy FirmwareRollout_type FirmwareRollout_DeepCopyInto.
Definition FirmwareRollout_DeepCopyObject : value -> M object :=
  DeepCopyObject "FirmwareRollout" FirmwareRollout_DeepCopy.

Definition FirmwareRolloutList_type : GoType := TStruct [
  ("TypeMeta", TypeMeta_type); ("ListMeta", ListMeta_type);
  ("Items", TSlice FirmwareRollout_type)]%string.
Definition FirmwareRolloutList_DeepCopyInto : copier := into [
  ("TypeMeta", assign); ("ListMeta", into_field ListMeta_DeepCopyInto);
  ("Items", make_into FirmwareRollout_type FirmwareRollout_DeepCopyInto)]%string.
Definition FirmwareRolloutList_DeepCopy : copier :=
  DeepCopy FirmwareRolloutList_type FirmwareRolloutList_DeepCopyInto.
Definition FirmwareRolloutList_DeepCopyObject : value -> M object :=
  DeepCopyObject "FirmwareRolloutList" FirmwareRolloutList_DeepCopy.

(** *** Drift and credentials (fleetdrift_types.go) *)

Definition DriftExpectation_type : GoType := TStruct [
  ("ConfigHash", TBase KString); ("Properties", TMap KString)]%string.
Definition DriftExpectation_DeepCopyInto : copier := into [
  ("Properties", make_map)]%string.
Definition DriftExpectation_DeepCopy : copier :=
  DeepCopy DriftExpectation_type DriftExpectation_DeepCopyInto.

Definition FleetDriftSpec_type : GoType := TStruct [
  ("Selector", TPtr LabelSelector_type); ("Expect", TPtr DriftExpectation_type);
  ("GracePeriod", TPtr (TBase KDuration)); ("IgnoreSleeping", TBase KBool)]%string.
Definition FleetDriftSpec_DeepCopyInto : copier := into [
  ("Selector", new_into LabelSelector_type LabelSelector_DeepCopyInto);
  ("Expect", new_into DriftExpectation_type DriftExpectation_DeepCopyInto);
  ("GracePeriod", new_assign (TBase KDuration))]%string.
Definition FleetDriftSpec_DeepCopy : copier :=
  DeepCopy FleetDriftSpec_type FleetDriftSpec_DeepCopyInto.

Definition DriftedDevice_type : GoType := TStruct [
  ("Device", TBase KString); ("Property", TBase KString); ("Expected", TBase KString);
  ("Actual", TBase KString); ("DriftAge", TBase KString); ("Assessment", TBase KString);
  ("Remediable", TBase KBool)]%string.
Definition DriftedDevice_DeepCopyInto : copier := into [].
Definition DriftedDevice_DeepCopy : copier :=
  DeepCopy DriftedDevice_type DriftedDevice_DeepCopyInto.

Definition FleetDriftStatus_type : GoType := TStruct [
  ("Total", TBase KInt32); ("Converged", TBase KInt32); ("Drifted", TBase KInt32);
  ("Unknown", TBase KInt32); ("OldestDrift", TBase KString);
  ("Devices", TSlice DriftedDevice_type); ("LastChecked", TPtr (TBase KTime));
  ("Conditions", TSlice Condition_type)]%string.
Definition FleetDriftStatus_DeepCopyInto : copier := into [
  ("Devices", make_copy DriftedDevice_type); ("LastChecked", call_DeepCopy Time_DeepCopy);
  ("Conditions", make_into Condition_type Condition_DeepCopyInto)]%string.
Definition FleetDriftStatus_DeepCopy : copier :=
  DeepCopy FleetDriftStatus_type FleetDriftStatus_DeepCopyInto.

Definition FleetDrift_type : GoType := TStruct [
  ("TypeMeta", TypeMeta_type); ("ObjectMeta", ObjectMeta_type); ("Spec", FleetDriftSpec_type);
  ("Status", FleetDriftStatus_type)]%string.
Definition FleetDrift_DeepCopyInto : copier := into [
  ("TypeMeta", assign); ("ObjectMeta", into_field ObjectMeta_DeepCopyInto);
  ("Spec", into_field FleetDriftSpec_DeepCopyInto);
  ("Status", into_field FleetDriftStatus_DeepCopyInto)]%string.
Definition FleetDrift_DeepCopy : copier :=
  DeepCopy FleetDrift_type FleetDrift_DeepCopyInto.
Definition FleetDrift_DeepCopyObject : value -> M object :=
  DeepCopyObject "FleetDrift" FleetDrift_DeepCopy.

Definition FleetDriftList_type : GoType := TStruct [
  ("TypeMeta", TypeMeta_type); ("ListMeta", ListMeta_type); ("Items", TSlice FleetDrift_type)]%string.
Definition FleetDriftList_DeepCopyInto : copier := into [
  ("TypeMeta", assign); ("ListMeta", into_field ListMeta_DeepCopyInto);
  ("Items", make_into FleetDrift_type FleetDrift_DeepCopyInto)]%string.
Definition FleetDriftList_DeepCopy : copier :=
  DeepCopy FleetDriftList_type FleetDriftList_DeepCopyInto.
Definition FleetDriftList_DeepCopyObject : value -> M object :=
  DeepCopyObject "FleetDriftList" FleetDriftList_DeepCopy.

Definition CredentialExpirySpec_type : GoType := TStruct [
  ("Selector", TPtr LabelSelector_type); ("ExpiryProperty", TBase KString);
  ("WarnBefore", TPtr (TBase KDuration)); ("RotationSizeBytes", TBase KInt64);
  ("RequiredContactWindow", TPtr (TBase KDuration))]%string.
Definition CredentialExpirySpec_DeepCopyInto : copier := into [
  ("Selector", new_into LabelSelector_type LabelSelector_DeepCopyInto);
  ("WarnBefore", new_assign (TBase KDuration));
  ("RequiredContactWindow", new_assign (TBase KDuration))]%string.
Definition CredentialExpirySpec_DeepCopy : copier :=
  DeepCopy CredentialExpirySpec_type CredentialExpirySpec_DeepCopyInto.

Definition CredentialStatus_type : GoType := TStruct [
  ("Device", TBase KString); ("ExpiresAt", TPtr (TBase KTime)); ("TimeLeft", TBase KString);
  ("State", TBase KString); ("Rotatable", TBase KBool);
  ("RotatableVia", TSlice (TBase KString)); ("Reason", TBase KString);
  ("ActionRequired", TBase KString)]%string.
Definition CredentialStatus_DeepCopyInto : copier := into [
  ("ExpiresAt", call_DeepCopy Time_DeepCopy); ("RotatableVia", make_copy (TBase KString))]%string.
Definition CredentialStatus_DeepCopy : copier :=
  DeepCopy CredentialStatus_type CredentialStatus_DeepCopyInto.

Definition CredentialExpiryStatus_type : GoType := TStruct [
  ("Total", TBase KInt32); ("Healthy", TBase KInt32); ("Expiring", TBase KInt32);
  ("Expired", TBase KInt32); ("AtRisk", TBase KInt32); ("NextExpiry", TPtr (TBase KTime));
  ("Devices", TSlice CredentialStatus_type); ("LastChecked", TPtr (TBase KTime));
  ("Conditions", TSlice Condition_type)]%string.
Definition CredentialExpiryStatus_DeepCopyInto : copier := into [
  ("NextExpiry", call_DeepCopy Time_DeepCopy);
  ("Devices", make_into CredentialStatus_type CredentialStatus_DeepCopyInto);
  ("LastChecked", call_DeepCopy Time_DeepCopy);
  ("Conditions", make_into Condition_type Condition_DeepCopyInto)]%string.
Definition CredentialExpiryStatus_DeepCopy : copier :=
  DeepCopy CredentialExpiryStatus_type CredentialExpiryStatus_DeepCopyInto.

Definition CredentialExpiry_type : GoType := TStruct [
  ("TypeMeta", TypeMeta_type); ("ObjectMeta", ObjectMeta_type);
  ("Spec", CredentialExpirySpec_type); ("Status", CredentialExpiryStatus_type)]%string.
Definition CredentialExpiry_DeepCopyInto : copier := into [
  ("TypeMeta", assign); ("ObjectMeta", into_field ObjectMeta_DeepCopyInto);
  ("Spec", into_field CredentialExpirySpec_DeepCopyInto);
  ("Status", into_field CredentialExpiryStatus_DeepCopyInto)]%string.
Definition CredentialExpiry_DeepCopy : copier :=
  DeepCopy CredentialExpiry_type CredentialExpiry_DeepCopyInto.
Definition CredentialExpiry_DeepCopyObject : value -> M object :=
  DeepCopyObject "CredentialExpiry" CredentialExpiry_DeepCopy.

Definition CredentialExpiryList_type : GoType := TStruct [
  ("TypeMeta", TypeMeta_type); ("ListMeta", ListMeta_type);
  ("Items", TSlice CredentialExpiry_type)]%string.
Definition CredentialExpiryList_DeepCopyInto : copier := into [
  ("TypeMeta", assign); ("ListMeta", into_field ListMeta_DeepCopyInto);
  ("Items", make_into CredentialExpiry_type CredentialExpiry_DeepCopyInto)]%string.
Definition CredentialExpiryList_DeepCopy : copier :=
  DeepCopy CredentialExpiryList_type CredentialExpiryList_DeepCopyInto.
Definition CredentialExpiryList_DeepCopyObject : value -> M object :=
  DeepCopyObject "CredentialExpiryList" CredentialExpiryList_DeepCopy.

(** *** Queries (fleetquery_types.go) *)

Definition StringMatch_type : GoType := TStruct [
  ("Equals", TBase KString); ("In", TSlice (TBase KString)); ("NotIn", TSlice (TBase KString))]%string.
Definition StringMatch_DeepCopyInto : copier := into [
  ("In", make_copy (TBase KString)); ("NotIn", make_copy (TBase KString))]%string.
Definition StringMatch_DeepCopy : copier :=
  DeepCopy StringMatch_type StringMatch_DeepCopyInto.

Definition QueryPredicate_type : GoType := TStruct [
  ("State", TPtr StringMatch_type); ("Transport", TPtr StringMatch_type);
  ("ReachableVia", TPtr StringMatch_type); ("RunningConfigHash", TPtr StringMatch_type);
  ("OTACapable", TPtr (TBase KBool)); ("OTAReachable", TPtr (TBase KBool));
  ("SilentLongerThan", TPtr (TBase KDuration)); ("SilentBeyondExpected", TPtr (TBase KBool));
  ("BatteryBelowPercent", TPtr (TBase KInt32)); ("Not", TPtr (TName "QueryPredicate"))]%string.
(** A predicate may hold a predicate, so that its copy is as deep as the stack is. *)
Fixpoint QueryPredicate_DeepCopyInto (depth : nat) : copier :=
  match depth with
  | O => fun _ => fail
  | S d => into [
    ("State", new_into StringMatch_type StringMatch_DeepCopyInto);
    ("Transport", new_into StringMatch_type StringMatch_DeepCopyInto);
    ("ReachableVia", new_into StringMatch_type StringMatch_DeepCopyInto);
    ("RunningConfigHash", new_into StringMatch_type StringMatch_DeepCopyInto);
    ("OTACapable", new_assign (TBase KBool)); ("OTAReachable", new_assign (TBase KBool));
    ("SilentLongerThan", new_assign (TBase KDuration));
    ("SilentBeyondExpected", new_assign (TBase KBool));
    ("BatteryBelowPercent", new_assign (TBase KInt32));
    ("Not", new_into QueryPredicate_type (QueryPredicate_DeepCopyInto d))]%string
  end.
Definition QueryPredicate_DeepCopy (depth : nat) : copier :=
  DeepCopy QueryPredicate_type (QueryPredicate_DeepCopyInto depth).

Definition FleetQuerySpec_type : GoType := TStruct [
  ("Labels", TPtr LabelSelector_type); ("Where", TPtr QueryPredicate_type);
  ("Limit", TBase KInt32)]%string.
Definition FleetQuerySpec_DeepCopyInto (depth : nat) : copier := into [
  ("Labels", new_into LabelSelector_type LabelSelector_DeepCopyInto);
  ("Where", new_into QueryPredicate_type (QueryPredicate_DeepCopyInto depth))]%string.
Definition FleetQuerySpec_DeepCopy (depth : nat) : copier :=
  DeepCopy FleetQuerySpec_type (FleetQuerySpec_DeepCopyInto depth).

Definition QueryResult_type : GoType := TStruct [
  ("Device", TBase KString); ("State", TBase KString); ("Transport", TBase KString);
  ("RunningConfigHash", TBase KString); ("SilentFor", TBase KString);
  ("Actionable", TBase KBool); ("Reason", TBase KString)]%string.
Definition QueryResult_DeepCopyInto : copier := into [].
Definition QueryResult_DeepCopy : copier :=
  DeepCopy QueryResult_type QueryResult_DeepCopyInto.

Definition FleetQueryStatus_type : GoType := TStruct [
  ("Matched", TBase KInt32); ("Evaluated", TBase KInt32); ("Devices", TSlice QueryResult_type);
  ("Truncated", TBase KBool); ("Summary", TMap KInt32); ("LastEvaluated", TPtr (TBase KTime));
  ("Conditions", TSlice Condition_type)]%string.
Definition FleetQueryStatus_DeepCopyInto : copier := into [
  ("Devices", make_copy QueryResult_type); ("Summary", make_map);
  ("LastEvaluated", call_DeepCopy Time_DeepCopy);
  ("Conditions", make_into Condition_type Condition_DeepCopyInto)]%string.
Definition FleetQueryStatus_DeepCopy : copier :=
  DeepCopy FleetQueryStatus_type FleetQueryStatus_DeepCopyInto.

Definition FleetQuery_type : GoType := TStruct [
  ("TypeMeta", TypeMeta_type); ("ObjectMeta", ObjectMeta_type); ("Spec", FleetQuerySpec_type);
  ("Status", FleetQueryStatus_type)]%string.
Definition FleetQuery_DeepCopyInto (depth : nat) : copier := into [
  ("TypeMeta", assign); ("ObjectMeta", into_field ObjectMeta_DeepCopyInto);
  ("Spec", into_field (FleetQuerySpec_DeepCopyInto depth));
  ("Status", into_field FleetQueryStatus_DeepCopyInto)]%string.
Definition FleetQuery_DeepCopy (depth : nat) : copier :=
  DeepCopy FleetQuery_type (FleetQuery_DeepCopyInto depth).
Definition FleetQuery_DeepCopyObject (depth : nat) : value -> M object :=
  DeepCopyObject "FleetQuery" (FleetQuery_DeepCopy depth).

Definition FleetQueryList_type : GoType := TStruct [
  ("TypeMeta", TypeMeta_type); ("ListMeta", ListMeta_type); ("Items", TSlice FleetQuery_type)]%string.
Definition FleetQueryList_DeepCopyInto (depth : nat) : copier := into [
  ("TypeMeta", assign); ("ListMeta", into_field ListMeta_DeepCopyInto);
  ("Items", make_into FleetQuery_type (FleetQuery_DeepCopyInto depth))]%string.
Definition FleetQueryList_DeepCopy (depth : nat) : copier :=
  DeepCopy FleetQueryList_type (FleetQueryList_DeepCopyInto depth).
Definition FleetQueryList_DeepCopyObject (depth : nat) : value -> M object :=
  DeepCopyObject "FleetQueryList" (FleetQueryList_DeepCopy depth).

(** ** Definitions: all of them *)

Definition deep_copies (depth : nat) : list (string * GoType * copier) := [
  ("Transport", Transport_type, Transport_DeepCopy);
  ("DeviceCapability", DeviceCapability_type, DeviceCapability_DeepCopy);
  ("WindowPeriod", WindowPeriod_type, WindowPeriod_DeepCopy);
  ("MaintenanceWindowSpec", MaintenanceWindowSpec_type, MaintenanceWindowSpec_DeepCopy);
  ("MaintenanceWindowStatus", MaintenanceWindowStatus_type, MaintenanceWindowStatus_DeepCopy);
  ("MaintenanceWindow", MaintenanceWindow_type, MaintenanceWindow_DeepCopy);
  ("MaintenanceWindowList", MaintenanceWindowList_type, MaintenanceWindowList_DeepCopy);
  ("ContactWindow", ContactWindow_type, ContactWindow_DeepCopy);
  ("DeviceLivenessSpec", DeviceLivenessSpec_type, DeviceLivenessSpec_DeepCopy);
  ("DeviceLivenessStatus", DeviceLivenessStatus_type, DeviceLivenessStatus_DeepCopy);
  ("DeviceLiveness", DeviceLiveness_type, DeviceLiveness_DeepCopy);
  ("DeviceLivenessList", DeviceLivenessList_type, DeviceLivenessList_DeepCopy);
  ("DeviceDecommissionSpec", DeviceDecommissionSpec_type, DeviceDecommissionSpec_DeepCopy);
  ("DeviceDecommissionStatus", DeviceDecommissionStatus_type, DeviceDecommissionStatus_DeepCopy);
  ("DeviceDecommission", DeviceDecommission_type, DeviceDecommission_DeepCopy);
  ("DeviceDecommissionList", DeviceDecommissionList_type, DeviceDecommissionList_DeepCopy);
  ("TemplateInstance", TemplateInstance_type, TemplateInstance_DeepCopy);
  ("TemplateProperty", TemplateProperty_type, TemplateProperty_DeepCopy);
  ("TemplateProtocol", TemplateProtocol_type, TemplateProtocol_DeepCopy);
  ("DeviceTemplateSpec", DeviceTemplateSpec_type, DeviceTemplateSpec_DeepCopy);
  ("TemplateError", TemplateError_type, TemplateError_DeepCopy);
  ("DeviceTemplateStatus", DeviceTemplateStatus_type, DeviceTemplateStatus_DeepCopy);
  ("DeviceTemplate", DeviceTemplate_type, DeviceTemplate_DeepCopy);
  ("DeviceTemplateList", DeviceTemplateList_type, DeviceTemplateList_DeepCopy);
  ("DeviceEnrollmentSpec", DeviceEnrollmentSpec_type, DeviceEnrollmentSpec_DeepCopy);
  ("DeviceAnnouncement", DeviceAnnouncement_type, DeviceAnnouncement_DeepCopy);
  ("DeviceEnrollmentStatus", DeviceEnrollmentStatus_type, DeviceEnrollmentStatus_DeepCopy);
  ("DeviceEnrollment", DeviceEnrollment_type, DeviceEnrollment_DeepCopy);
  ("DeviceEnrollmentList", DeviceEnrollmentList_type, DeviceEnrollmentList_DeepCopy);
  ("FirmwareSource", FirmwareSource_type, FirmwareSource_DeepCopy);
  ("RolloutRequirements", RolloutRequirements_type, RolloutRequirements_DeepCopy);
  ("HealthGate", HealthGate_type, HealthGate_DeepCopy);
  ("RollbackTriggers", RollbackTriggers_type, RollbackTriggers_DeepCopy);
  ("RolloutStrategy", RolloutStrategy_type, RolloutStrategy_DeepCopy);
  ("FirmwareRolloutSpec", FirmwareRolloutSpec_type, FirmwareRolloutSpec_DeepCopy);
  ("DeviceOutcome", DeviceOutcome_type, DeviceOutcome_DeepCopy);
  ("FirmwareRolloutStatus", FirmwareRolloutStatus_type, FirmwareRolloutStatus_DeepCopy);
  ("FirmwareRollout", FirmwareRollout_type, FirmwareRollout_DeepCopy);
  ("FirmwareRolloutList", FirmwareRolloutList_type, FirmwareRolloutList_DeepCopy);
  ("DriftExpectation", DriftExpectation_type, DriftExpectation_DeepCopy);
  ("FleetDriftSpec", FleetDriftSpec_type, FleetDriftSpec_DeepCopy);
  ("DriftedDevice", DriftedDevice_type, DriftedDevice_DeepCopy);
  ("FleetDriftStatus", FleetDriftStatus_type, FleetDriftStatus_DeepCopy);
  ("FleetDrift", FleetDrift_type, FleetDrift_DeepCopy);
  ("FleetDriftList", FleetDriftList_type, FleetDriftList_DeepCopy);
  ("CredentialExpirySpec", CredentialExpirySpec_type, CredentialExpirySpec_DeepCopy);
  ("CredentialStatus", CredentialStatus_type, CredentialStatus_DeepCopy);
  ("CredentialExpiryStatus", CredentialExpiryStatus_type, CredentialExpiryStatus_DeepCopy);
  ("CredentialExpiry", CredentialExpiry_type, CredentialExpiry_DeepCopy);
  ("CredentialExpiryList", CredentialExpiryList_type, CredentialExpiryList_DeepCopy);
  ("StringMatch", StringMatch_type, StringMatch_DeepCopy);
  ("QueryPredicate", QueryPredicate_type, QueryPredicate_DeepCopy depth);
  ("FleetQuerySpec", FleetQuerySpec_type, FleetQuerySpec_DeepCopy depth);
  ("QueryResult", QueryResult_type, QueryResult_DeepCopy);
  ("FleetQueryStatus", FleetQueryStatus_type, FleetQueryStatus_DeepCopy);
  ("FleetQuery", FleetQuery_type, FleetQuery_DeepCopy depth);
  ("FleetQueryList", FleetQueryList_type, FleetQueryList_DeepCopy depth)]%string.

Definition deep_copy_objects (depth : nat) : list (string * (value -> M object)) := [
  ("MaintenanceWindow", MaintenanceWindow_DeepCopyObject);
  ("MaintenanceWindowList", MaintenanceWindowList_DeepCopyObject);
  ("DeviceLiveness", DeviceLiveness_DeepCopyObject);
  ("DeviceLivenessList", DeviceLivenessList_DeepCopyObject);
  ("DeviceDecommission", DeviceDecommission_DeepCopyObject);
  ("DeviceDecommissionList", DeviceDecommissionList_DeepCopyObject);
  ("DeviceTemplate", DeviceTemplate_DeepCopyObject);
  ("DeviceTemplateList", DeviceTemplateList_DeepCopyObject);
  ("DeviceEnrollment", DeviceEnrollment_DeepCopyObject);
  ("DeviceEnrollmentList", DeviceEnrollmentList_DeepCopyObject);
  ("FirmwareRollout", FirmwareRollout_DeepCopyObject);
  ("FirmwareRolloutList", FirmwareRolloutList_DeepCopyObject);
  ("FleetDrift", FleetDrift_DeepCopyObject); ("FleetDriftList", FleetDriftList_DeepCopyObject);
  ("CredentialExpiry", CredentialExpiry_DeepCopyObject);
  ("CredentialExpiryList", CredentialExpiryList_DeepCopyObject);
  ("FleetQuery", FleetQuery_DeepCopyObject depth);
  ("FleetQueryList", FleetQueryList_DeepCopyObject depth)]%string.

(** The one type that is inside itself. *)
Definition recursive (name : string) : option GoType :=
  if str_eq name "QueryPredicate" then Some QueryPredicate_type else None.
End DeepCopies.

(** ** Lemmas: every statement copies, and every type has its statements *)

Create HintDb deepcopy.
Create HintDb api_copies discriminated.
#[export] Hint Resolve new_into_copies new_assign_copies make_into_copies make_copy_copies
  make_map_copies call_DeepCopy_copies into_field_copies assign_copies Time_copies
  ObjectMeta_copies ListMeta_copies LabelSelector_copies Condition_copies TypeMeta_flat : deepcopy.
#[export] Hint Extern 1 (flat _ = true) => reflexivity : deepcopy.

(** Field by field: its statement if it has one, or no references in it. *)
Ltac adequate_fields :=
  repeat first
    [ apply adequate_nil
    | apply adequate_stmt; [solve [eauto with deepcopy]|]
    | apply adequate_flat; [solve [eauto with deepcopy]|] ].

Ltac distinct_fields := apply (bool_decide_unpack _); vm_compute; exact I.
Ltac copy_struct := apply into_copies; [distinct_fields|adequate_fields].

Section Copied.
Context `{MetaV1Laws}.

Lemma Transport_copies d : copies recursive d Transport_type Transport_DeepCopyInto.
Proof. copy_struct. Qed.
#[local] Hint Resolve Transport_copies : deepcopy api_copies.
Lemma DeviceCapability_copies d : copies recursive d DeviceCapability_type DeviceCapability_DeepCopyInto.
Proof. copy_struct. Qed.
#[local] Hint Resolve DeviceCapability_copies : deepcopy api_copies.
Lemma WindowPeriod_copies d : copies recursive d WindowPeriod_type WindowPeriod_DeepCopyInto.
Proof. copy_struct. Qed.
#[local] Hint Resolve WindowPeriod_copies : deepcopy api_copies.
Lemma MaintenanceWindowSpec_copies d : copies recursive d MaintenanceWindowSpec_type MaintenanceWindowSpec_DeepCopyInto.
Proof. copy_struct. Qed.
#[local] Hint Resolve MaintenanceWindowSpec_copies : deepcopy api_copies.
Lemma MaintenanceWindowStatus_copies d : copies recursive d MaintenanceWindowStatus_type MaintenanceWindowStatus_DeepCopyInto.
Proof. copy_struct. Qed.
#[local] Hint Resolve MaintenanceWindowStatus_copies : deepcopy api_copies.
Lemma MaintenanceWindow_copies d : copies recursive d MaintenanceWindow_type MaintenanceWindow_DeepCopyInto.
Proof. copy_struct. Qed.
#[local] Hint Resolve MaintenanceWindow_copies : deepcopy api_copies.
Lemma MaintenanceWindowList_copies d : copies recursive d MaintenanceWindowList_type MaintenanceWindowList_DeepCopyInto.
Proof. copy_struct. Qed.
#[local] Hint Resolve MaintenanceWindowList_copies : deepcopy api_copies.
Lemma ContactWindow_copies d : copies recursive d ContactWindow_type ContactWindow_DeepCopyInto.
Proof. copy_struct. Qed.
#[local] Hint Resolve ContactWindow_copies : deepcopy api_copies.
Lemma DeviceLivenessSpec_copies d : copies recursive d DeviceLivenessSpec_type DeviceLivenessSpec_DeepCopyInto.
Proof. copy_struct. Qed.
#[local] Hint Resolve DeviceLivenessSpec_copies : deepcopy api_copies.
Lemma DeviceLivenessStatus_copies d : copies recursive d DeviceLivenessStatus_type DeviceLivenessStatus_DeepCopyInto.
Proof. copy_struct. Qed.
#[local] Hint Resolve DeviceLivenessStatus_copies : deepcopy api_copies.
Lemma DeviceLiveness_copies d : copies recursive d DeviceLiveness_type DeviceLiveness_DeepCopyInto.
Proof. copy_struct. Qed.
#[local] Hint Resolve DeviceLiveness_copies : deepcopy api_copies.
Lemma DeviceLivenessList_copies d : copies recursive d DeviceLivenessList_type DeviceLivenessList_DeepCopyInto.
Proof. copy_struct. Qed.
#[local] Hint Resolve DeviceLivenessList_copies : deepcopy api_copies.
Lemma DeviceDecommissionSpec_copies d : copies recursive d DeviceDecommissionSpec_type DeviceDecommissionSpec_DeepCopyInto.
Proof. copy_struct. Qed.
#[local] Hint Resolve DeviceDecommissionSpec_copies : deepcopy api_copies.
Lemma DeviceDecommissionStatus_copies d : copies recursive d DeviceDecommissionStatus_type DeviceDecommissionStatus_DeepCopyInto.
Proof. copy_struct. Qed.
#[local] Hint Resolve DeviceDecommissionStatus_copies : deepcopy api_copies.
Lemma DeviceDecommission_copies d : copies recursive d DeviceDecommission_type DeviceDecommission_DeepCopyInto.
Proof. copy_struct. Qed.
#[local] Hint Resolve DeviceDecommission_copies : deepcopy api_copies.
Lemma DeviceDecommissionList_copies d : copies recursive d DeviceDecommissionList_type DeviceDecommissionList_DeepCopyInto.
Proof. copy_struct. Qed.
#[local] Hint Resolve DeviceDecommissionList_copies : deepcopy api_copies.
Lemma TemplateInstance_copies d : copies recursive d TemplateInstance_type TemplateInstance_DeepCopyInto.
Proof. copy_struct. Qed.
#[local] Hint Resolve TemplateInstance_copies : deepcopy api_copies.
Lemma TemplateProperty_copies d : copies recursive d TemplateProperty_type TemplateProperty_DeepCopyInto.
Proof. copy_struct. Qed.
#[local] Hint Resolve TemplateProperty_copies : deepcopy api_copies.
Lemma TemplateProtocol_copies d : copies recursive d TemplateProtocol_type TemplateProtocol_DeepCopyInto.
Proof. copy_struct. Qed.
#[local] Hint Resolve TemplateProtocol_copies : deepcopy api_copies.
Lemma DeviceTemplateSpec_copies d : copies recursive d DeviceTemplateSpec_type DeviceTemplateSpec_DeepCopyInto.
Proof. copy_struct. Qed.
#[local] Hint Resolve DeviceTemplateSpec_copies : deepcopy api_copies.
Lemma TemplateError_copies d : copies recursive d TemplateError_type TemplateError_DeepCopyInto.
Proof. copy_struct. Qed.
#[local] Hint Resolve TemplateError_copies : deepcopy api_copies.
Lemma DeviceTemplateStatus_copies d : copies recursive d DeviceTemplateStatus_type DeviceTemplateStatus_DeepCopyInto.
Proof. copy_struct. Qed.
#[local] Hint Resolve DeviceTemplateStatus_copies : deepcopy api_copies.
Lemma DeviceTemplate_copies d : copies recursive d DeviceTemplate_type DeviceTemplate_DeepCopyInto.
Proof. copy_struct. Qed.
#[local] Hint Resolve DeviceTemplate_copies : deepcopy api_copies.
Lemma DeviceTemplateList_copies d : copies recursive d DeviceTemplateList_type DeviceTemplateList_DeepCopyInto.
Proof. copy_struct. Qed.
#[local] Hint Resolve DeviceTemplateList_copies : deepcopy api_copies.
Lemma DeviceEnrollmentSpec_copies d : copies recursive d DeviceEnrollmentSpec_type DeviceEnrollmentSpec_DeepCopyInto.
Proof. copy_struct. Qed.
#[local] Hint Resolve DeviceEnrollmentSpec_copies : deepcopy api_copies.
Lemma DeviceAnnouncement_copies d : copies recursive d DeviceAnnouncement_type DeviceAnnouncement_DeepCopyInto.
Proof. copy_struct. Qed.
#[local] Hint Resolve DeviceAnnouncement_copies : deepcopy api_copies.
Lemma DeviceEnrollmentStatus_copies d : copies recursive d DeviceEnrollmentStatus_type DeviceEnrollmentStatus_DeepCopyInto.
Proof. copy_struct. Qed.
#[local] Hint Resolve DeviceEnrollmentStatus_copies : deepcopy api_copies.
Lemma DeviceEnrollment_copies d : copies recursive d DeviceEnrollment_type DeviceEnrollment_DeepCopyInto.
Proof. copy_struct. Qed.
#[local] Hint Resolve DeviceEnrollment_copies : deepcopy api_copies.
Lemma DeviceEnrollmentList_copies d : copies recursive d DeviceEnrollmentList_type DeviceEnrollmentList_DeepCopyInto.
Proof. copy_struct. Qed.
#[local] Hint Resolve DeviceEnrollmentList_copies : deepcopy api_copies.
Lemma FirmwareSource_copies d : copies recursive d FirmwareSource_type FirmwareSource_DeepCopyInto.
Proof. copy_struct. Qed.
#[local] Hint Resolve FirmwareSource_copies : deepcopy api_copies.
Lemma RolloutRequirements_copies d : copies recursive d RolloutRequirements_type RolloutRequirements_DeepCopyInto.
Proof. copy_struct. Qed.
#[local] Hint Resolve RolloutRequirements_copies : deepcopy api_copies.
Lemma HealthGate_copies d : copies recursive d HealthGate_type HealthGate_DeepCopyInto.
Proof. copy_struct. Qed.
#[local] Hint Resolve HealthGate_copies : deepcopy api_copies.
Lemma RollbackTriggers_copies d : copies recursive d RollbackTriggers_type RollbackTriggers_DeepCopyInto.
Proof. copy_struct. Qed.
#[local] Hint Resolve RollbackTriggers_copies : deepcopy api_copies.
Lemma RolloutStrategy_copies d : copies recursive d RolloutStrategy_type RolloutStrategy_DeepCopyInto.
Proof. copy_struct. Qed.
#[local] Hint Resolve RolloutStrategy_copies : deepcopy api_copies.
Lemma FirmwareRolloutSpec_copies d : copies recursive d FirmwareRolloutSpec_type FirmwareRolloutSpec_DeepCopyInto.
Proof. copy_struct. Qed.
#[local] Hint Resolve FirmwareRolloutSpec_copies : deepcopy api_copies.
Lemma DeviceOutcome_copies d : copies recursive d DeviceOutcome_type DeviceOutcome_DeepCopyInto.
Proof. copy_struct. Qed.
#[local] Hint Resolve DeviceOutcome_copies : deepcopy api_copies.
Lemma FirmwareRolloutStatus_copies d : copies recursive d FirmwareRolloutStatus_type FirmwareRolloutStatus_DeepCopyInto.
Proof. copy_struct. Qed.
#[local] Hint Resolve FirmwareRolloutStatus_copies : deepcopy api_copies.
Lemma FirmwareRollout_copies d : copies recursive d FirmwareRollout_type FirmwareRollout_DeepCopyInto.
Proof. copy_struct. Qed.
#[local] Hint Resolve FirmwareRollout_copies : deepcopy api_copies.
Lemma FirmwareRolloutList_copies d : copies recursive d FirmwareRolloutList_type FirmwareRolloutList_DeepCopyInto.
Proof. copy_struct. Qed.
#[local] Hint Resolve FirmwareRolloutList_copies : deepcopy api_copies.
Lemma DriftExpectation_copies d : copies recursive d DriftExpectation_type DriftExpectation_DeepCopyInto.
Proof. copy_struct. Qed.
#[local] Hint Resolve DriftExpectation_copies : deepcopy api_copies.
Lemma FleetDriftSpec_copies d : copies recursive d FleetDriftSpec_type FleetDriftSpec_DeepCopyInto.
Proof. copy_struct. Qed.
#[local] Hint Resolve FleetDriftSpec_copies : deepcopy api_copies.
Lemma DriftedDevice_copies d : copies recursive d DriftedDevice_type DriftedDevice_DeepCopyInto.
Proof. copy_struct. Qed.
#[local] Hint Resolve DriftedDevice_copies : deepcopy api_copies.
Lemma FleetDriftStatus_copies d : copies recursive d FleetDriftStatus_type FleetDriftStatus_DeepCopyInto.
Proof. copy_struct. Qed.
#[local] Hint Resolve FleetDriftStatus_copies : deepcopy api_copies.
Lemma FleetDrift_copies d : copies recursive d FleetDrift_type FleetDrift_DeepCopyInto.
Proof. copy_struct. Qed.
#[local] Hint Resolve FleetDrift_copies : deepcopy api_copies.
Lemma FleetDriftList_copies d : copies recursive d FleetDriftList_type FleetDriftList_DeepCopyInto.
Proof. copy_struct. Qed.
#[local] Hint Resolve FleetDriftList_copies : deepcopy api_copies.
Lemma CredentialExpirySpec_copies d : copies recursive d CredentialExpirySpec_type CredentialExpirySpec_DeepCopyInto.
Proof. copy_struct. Qed.
#[local] Hint Resolve CredentialExpirySpec_copies : deepcopy api_copies.
Lemma CredentialStatus_copies d : copies recursive d CredentialStatus_type CredentialStatus_DeepCopyInto.
Proof. copy_struct. Qed.
#[local] Hint Resolve CredentialStatus_copies : deepcopy api_copies.
Lemma CredentialExpiryStatus_copies d : copies recursive d CredentialExpiryStatus_type CredentialExpiryStatus_DeepCopyInto.
Proof. copy_struct. Qed.
#[local] Hint Resolve CredentialExpiryStatus_copies : deepcopy api_copies.
Lemma CredentialExpiry_copies d : copies recursive d CredentialExpiry_type CredentialExpiry_DeepCopyInto.
Proof. copy_struct. Qed.
#[local] Hint Resolve CredentialExpiry_copies : deepcopy api_copies.
Lemma CredentialExpiryList_copies d : copies recursive d CredentialExpiryList_type CredentialExpiryList_DeepCopyInto.
Proof. copy_struct. Qed.
#[local] Hint Resolve CredentialExpiryList_copies : deepcopy api_copies.
Lemma StringMatch_copies d : copies recursive d StringMatch_type StringMatch_DeepCopyInto.
Proof. copy_struct. Qed.
#[local] Hint Resolve StringMatch_copies : deepcopy api_copies.
Lemma QueryPredicate_copies d : copies recursive d QueryPredicate_type (QueryPredicate_DeepCopyInto d).
Proof.
  induction d as [|d IH].
  { intros h v t Hd _ Ht. inversion Ht; subst. rewrite height_struct in Hd. lia. }
  apply into_copies_above; [distinct_fields|].
  assert (copies recursive d (TName "QueryPredicate") (QueryPredicate_DeepCopyInto d)) as Hn
    by (by eapply name_copies).
  adequate_fields.
Qed.
#[local] Hint Resolve QueryPredicate_copies : deepcopy api_copies.
Lemma FleetQuerySpec_copies d : copies recursive d FleetQuerySpec_type (FleetQuerySpec_DeepCopyInto d).
Proof. copy_struct. Qed.
#[local] Hint Resolve FleetQuerySpec_copies : deepcopy api_copies.
Lemma QueryResult_copies d : copies recursive d QueryResult_type QueryResult_DeepCopyInto.
Proof. copy_struct. Qed.
#[local] Hint Resolve QueryResult_copies : deepcopy api_copies.
Lemma FleetQueryStatus_copies d : copies recursive d FleetQueryStatus_type FleetQueryStatus_DeepCopyInto.
Proof. copy_struct. Qed.
#[local] Hint Resolve FleetQueryStatus_copies : deepcopy api_copies.
Lemma FleetQuery_copies d : copies recursive d FleetQuery_type (FleetQuery_DeepCopyInto d).
Proof. copy_struct. Qed.
#[local] Hint Resolve FleetQuery_copies : deepcopy api_copies.
Lemma FleetQueryList_copies d : copies recursive d FleetQueryList_type (FleetQueryList_DeepCopyInto d).
Proof. copy_struct. Qed.
#[local] Hint Resolve FleetQueryList_copies : deepcopy api_copies.

(** Every type of the API is copied, by one proof per type. *)
Lemma all_copy depth :
  Forall (fun '(_, T, copy) => copies recursive depth (TPtr T) copy) (deep_copies depth).
Proof.
  unfold deep_copies.
  repeat (apply List.Forall_cons; [apply DeepCopy_copies; solve [trivial with nocore api_copies]|]).
  constructor.
Qed.

Lemma deep_copy_copies depth name T copy :
  In (name, T, copy) (deep_copies depth) -> copies recursive depth (TPtr T) copy.
Proof. intros Hin. by apply (proj1 (List.Forall_forall _ _) (all_copy depth) _ Hin). Qed.

(** The copy of a nil pointer. *)
Lemma nil_copy depth name T copy h :
  In (name, T, copy) (deep_copies depth) -> copy (VPtr None) h = Some (VPtr None, h).
Proof.
  assert (Forall (fun '(_, _, copy) => copy (VPtr None) h = Some (VPtr None, h)) (deep_copies depth)) as Hall
    by (unfold deep_copies; repeat (apply List.Forall_cons; [reflexivity|]); constructor).
  intros Hin. by apply (proj1 (List.Forall_forall _ _) Hall _ Hin).
Qed.

(** The objects of the API are those of the copies that are asked for as objects. *)
Lemma deep_copy_object_of depth name f :
  In (name, f) (deep_copy_objects depth) ->
  exists T copy, In (name, T, copy) (deep_copies depth) /\ f = DeepCopyObject name copy.
Proof.
  assert (Forall (fun '(name, f) => exists T copy,
    In (name, T, copy) (deep_copies depth) /\ f = DeepCopyObject name copy) (deep_copy_objects depth)) as Hall.
  { unfold deep_copy_objects.
    repeat (apply List.Forall_cons;
      [do 2 eexists; split; [unfold deep_copies; repeat first [apply in_eq | apply in_cons]|reflexivity]|]).
    constructor. }
  intros Hin. by apply (proj1 (List.Forall_forall _ _) Hall _ Hin).
Qed.
End Copied.

(** ** Theorems *)

(** C7. The copies of the API are deep. Whatever object of the API a pointer leads to,
    of its type and finite, its DeepCopy returns a pointer to a new object of the same
    type that is the same; the cells that were there before are as they were; whatever
    is written to those cells later does not show in the copy, and whatever is done to
    the copy, and to anything that can be reached from it, does not show in the
    original. A nil pointer is copied as nil, and its copy as an object is the nil
    interface. *)
Theorem deep_copies_separate `{MetaV1Laws} depth name T copy h p t :
  In (name, T, copy) (deep_copies depth) ->
  height t <= depth -> repr h (VPtr (Some p)) (NPtr (Some t)) -> typed recursive T t ->
  (exists q h', copy (VPtr (Some p)) h = Some (VPtr (Some q), h') /\ h !! q = None /\ h ⊆ h' /\
     (forall later, h' ∖ h ⊆ later -> repr later (VPtr (Some q)) (NPtr (Some t))) /\
     (forall later, h ⊆ later -> repr later (VPtr (Some p)) (NPtr (Some t)))) /\
  copy (VPtr None) h = Some (VPtr None, h) /\
  (forall f, In (name, f) (deep_copy_objects depth) -> f (VPtr None) h = Some (None, h)).
Proof.
  intros Hin Hd Hr Ht.
  split; [|split; [by eapply nil_copy|]].
  - destruct (deep_copy_copies depth name T copy Hin h (VPtr (Some p)) (NPtr (Some t)) Hd Hr)
      as (v' & h' & E & Hs & Hr'); [by constructor|].
    inversion Hr' as [| |q v t0 Hq Hv| | | | |]; subst.
    exists q, h'. apply lookup_difference_Some in Hq as [_ Hq]. split_and!; try done.
    + intros later Hl. by eapply repr_mono.
    + intros later Hl. by eapply repr_mono.
  - intros f Hf. apply deep_copy_object_of in Hf as (T' & copy' & Hin' & ->).
    unfold DeepCopyObject, bind. by rewrite (nil_copy depth name T' copy').
Qed.

(** A predicate that is its own negation is never copied: no stack is deep enough. *)
Section Cyclic.
Context `{MetaV1}.

Definition self_negating (l : loc) : value :=
  VStruct [("State", VPtr None); ("Transport", VPtr None); ("ReachableVia", VPtr None);
    ("RunningConfigHash", VPtr None); ("OTACapable", VPtr None); ("OTAReachable", VPtr None);
    ("SilentLongerThan", VPtr None); ("SilentBeyondExpected", VPtr None);
    ("BatteryBelowPercent", VPtr None); ("Not", VPtr (Some l))]%string.

Lemma statement_unchanged f c ss fi fo v h :
  get_field f fi = Some v -> c v h = Some (v, h) ->
  statements ((f, c) :: ss) fi fo h = statements ss fi (put_field f v fo) h.
Proof. intros Hf Hc. cbn [statements]. rewrite Hf. unfold bind. by rewrite Hc. Qed.

Lemma cyclic_never_copied depth : forall h l,
  h !! l = Some (CVar (self_negating l)) ->
  QueryPredicate_DeepCopyInto depth (self_negating l) h = None.
Proof.
  induction depth as [|d IH]; intros h l Hl; [done|].
  unfold self_negating. cbn [QueryPredicate_DeepCopyInto into]. unfold bind.
  do 9 (erewrite statement_unchanged; [|reflexivity|reflexivity]).
  cbn [statements]. change (get_field "Not" _) with (Some (VPtr (Some l))).
  unfold bind, new_into, bind. unfold alloc, load_var.
  set (l' := fresh (dom h)).
  assert (l <> l') as Hne by (intros ->; apply (is_fresh (dom h)); by apply elem_of_dom).
  rewrite lookup_insert_ne, Hl by done. by rewrite (IH _ l) by (by rewrite lookup_insert_ne).
Qed.
End Cyclic.

(** ** On concrete objects *)

(** Metav1 as far as the examples need it. *)
#[local] Instance small_meta : MetaV1 := {|
  TypeMeta_type := TStruct [("Kind", TBase KString); ("APIVersion", TBase KString)]%string;
  ObjectMeta_type := TStruct [("Name", TBase KString); ("Labels", TMap KString)]%string;
  ListMeta_type := TStruct [("ResourceVersion", TBase KString)]%string;
  LabelSelector_type := TStruct [("MatchLabels", TMap KString)]%string;
  Condition_type := TStruct [("Type", TBase KString); ("Status", TBase KString)]%string;
  Time_DeepCopy := DeepCopy (TBase KTime) assign;
  ObjectMeta_DeepCopyInto := into [("Labels", make_map)]%string;
  ListMeta_DeepCopyInto := into [];
  LabelSelector_DeepCopyInto := into [("MatchLabels", make_map)]%string;
  Condition_DeepCopyInto := into []
|}.

#[local] Instance small_meta_laws : MetaV1Laws.
Proof.
  split; intros; try reflexivity;
    try (apply DeepCopy_copies, assign_copies; reflexivity);
    copy_struct.
Defined.

(** A contact window as a cache holds it, with an interval that something else also
    points to. *)
Definition cached_window : value :=
  VStruct [("Transport", VBase (BString "lora")); ("TypicalInterval", VPtr (Some 2));
    ("TypicalDuration", VPtr None); ("NextExpected", VPtr (Some 3));
    ("Confidence", VBase (BString "High")); ("SamplesObserved", VBase (BInt32 12))]%string%positive.
Definition api_cache : heap :=
  {[1 := CVar cached_window; 2 := CVar (VBase (BDuration 3600)); 3 := CVar (VBase (BTime 99))]}%positive.
Definition window_tree : tree :=
  NStruct [("Transport", NBase (BString "lora")); ("TypicalInterval", NPtr (Some (NBase (BDuration 3600))));
    ("TypicalDuration", NPtr None); ("NextExpected", NPtr (Some (NBase (BTime 99))));
    ("Confidence", NBase (BString "High")); ("SamplesObserved", NBase (BInt32 12))]%string.

Lemma window_cached : repr api_cache (VPtr (Some 1%positive)) (NPtr (Some window_tree)).
Proof. repeat (econstructor; try reflexivity). Defined.

Lemma window_typed : typed recursive ContactWindow_type window_tree.
Proof.
  repeat first [ apply typed_struct | apply typed_fields_nil | apply typed_fields_cons
    | apply typed_nil | apply typed_ptr | apply (typed_base _ (BString _))
    | apply (typed_base _ (BInt32 _)) | apply (typed_base _ (BDuration _)) | apply (typed_base _ (BTime _)) ].
Defined.

(** The copy, and what a write through its interval changes. *)
Example window_copied :
  match ContactWindow_DeepCopy (VPtr (Some 1%positive)) api_cache with
  | Some (VPtr (Some q), h) =>
      match h !! q with
      | Some (CVar (VStruct fs)) =>
          (get_field "TypicalInterval" fs, get_field "TypicalDuration" fs, h !! 2%positive)
          = (Some (VPtr (Some 5%positive)), Some (VPtr None), Some (CVar (VBase (BDuration 3600))))
      | _ => False
      end
  | _ => False
  end.
Proof. vm_compute. reflexivity. Qed.

Lemma deep_copies_separate_witness :
  exists q h', ContactWindow_DeepCopy (VPtr (Some 1%positive)) api_cache = Some (VPtr (Some q), h') /\
    repr (<[2%positive := CVar (VBase (BDuration 1))]> h') (VPtr (Some q)) (NPtr (Some window_tree)).
Proof.
  destruct (deep_copies_separate 1 "ContactWindow" ContactWindow_type ContactWindow_DeepCopy api_cache 1%positive
    window_tree) as [(q & h' & E & Hq & Hs & Hcopy & _) _].
  - unfold deep_copies. repeat first [apply in_eq | apply in_cons].
  - apply le_n.
  - exact window_cached.
  - exact window_typed.
  - exists q, h'. split; [exact E|]. apply Hcopy.
    apply map_subseteq_spec. intros i c [Hi Hn]%lookup_difference_Some.
    rewrite lookup_insert_ne; [exact Hi|]. intros <-. discriminate Hn.
Defined.
