(* ===== verification/Capability.v ===== *)
(** * What a device can do: capability_types.go, and the helpers the controllers
    share from liveness_controller.go

    [CanAcceptOTA] is the permanent question, [reachableOverOTA] the momentary one. *)

From S2P Require Import Prelude GoTime GoFloat GoStrings Types.
From Stdlib Require Import Ascii.
Local Open Scope Z_scope.

(** ** Definitions *)

Definition MaxWriteBytes (t : Transport) : Z := tr_MaxPayloadBytes t.

(** [join]: written out with a loop, as in the source. *)
Definition join (s : list string) (sep : string) : string :=
  (fold_left (fun '(i, out) v =>
     (i + 1, ((if i >? 0 then out +:+ sep else out) +:+ v)%string)) s (0, ""%string)).2.

Definition digit_char (z : Z) : ascii := ascii_of_N (Z.to_N (48 + z)).

(** The loop of [itoa]: an [int32] has at most ten digits. *)
Fixpoint itoa_loop (fuel : nat) (i : Z) (b : string) : string :=
  match fuel with
  | O => b
  | S k => if i >? 0 then itoa_loop k (Z.quot i 10) (String (digit_char (Z.rem i 10)) b)
           else b
  end.

Definition itoa (i : Z) : string :=
  if i =? 0 then "0"%string
  else
    let neg := i <? 0 in
    let i := if neg then wrap32 (- i) else i in
    let b := itoa_loop 10 i ""%string in
    if neg then String "-" b else b.

(** A transport that can take an image of this size. *)
Definition carries (sizeBytes : Z) (t : Transport) : bool :=
  tr_OTA t &&
  negb ((sizeBytes >? 0) && (tr_MaxPayloadBytes t >? 0) &&
        (sizeBytes >? tr_MaxPayloadBytes t)).

(** The loop of [CanAcceptOTA]: [inl] when it returned, [inr names] when it fell
    through. *)
Fixpoint accept_loop (sizeBytes : Z) (ts : list Transport) (names : list string)
  : unit + list string :=
  match ts with
  | [] => inr names
  | t :: ts' =>
      let names := names ++ [tr_Type t] in
      if negb (tr_OTA t) then accept_loop sizeBytes ts' names
      else if (sizeBytes >? 0) && (tr_MaxPayloadBytes t >? 0) &&
              (sizeBytes >? tr_MaxPayloadBytes t)
      then accept_loop sizeBytes ts' names
      else inl tt
  end.

Definition CanAcceptOTA (c : DeviceCapability) (sizeBytes : Z) : bool * string * string :=
  match cap_Transports c with
  | [] => (false, ReasonNoOTATransport, "no transports declared"%string)
  | ts =>
      match accept_loop sizeBytes ts [] with
      | inl _ => (true, ""%string, ""%string)
      | inr names =>
          let detail := ("transports: " +:+ join names ", " +:+
                         " — none can carry firmware")%string in
          if sizeBytes >? 0 then (false, ReasonArtifactTooLarge, detail)
          else (false, ReasonNoOTATransport, detail)
      end
  end.

(** The dearest transfer over a firmware-capable transport. *)
Definition ota_cost (ts : list Transport) : Z :=
  fold_left (fun cost t => if tr_OTA t && (tr_OTACostMah t >? cost) then tr_OTACostMah t
                           else cost) ts 0.

Definition OTAAffordable (c : DeviceCapability) (minPercentAfter : Z) : bool * string :=
  if (cap_BatteryPercent c =? 0) || (minPercentAfter =? 0) then (true, ""%string)
  else if cap_BatteryPercent c <? minPercentAfter then
    (false, (itoa (cap_BatteryPercent c) +:+ "% remaining, floor is " +:+
             itoa minPercentAfter +:+ "%")%string)
  else
    let cost := ota_cost (cap_Transports c) in
    if (cost =? 0) || (cap_BatteryMah c =? 0) then (true, ""%string)
    else
      let costPercent := wrap32 (Z.quot (wrap32 (cost * 100)) (cap_BatteryMah c)) in
      if wrap32 (cap_BatteryPercent c - costPercent) <? minPercentAfter then
        (false, (itoa cost +:+ " mAh of " +:+ itoa (cap_BatteryMah c) +:+
                 " mAh remaining (" +:+ itoa costPercent +:+ "%)")%string)
      else (true, ""%string).

(** [reachableOverOTA] (planner.go): two nested loops with an early return. *)
Definition reachableOverOTA (c : DeviceCapability) : bool :=
  match cap_ReachableVia c with
  | [] => true
  | vias => existsb (fun via =>
              existsb (fun t => str_eq (tr_Type t) via && tr_OTA t) (cap_Transports c)) vias
  end.

(** [contains] (liveness_controller.go). *)
Definition contains (s : list string) (v : string) : bool :=
  existsb (fun x => str_eq x v) s.

Definition hasTransport (c : DeviceCapability) (name : string) : bool :=
  existsb (fun t => str_eq (tr_Type t) name) (cap_Transports c).

(** [d.Seconds()], [d.Minutes()], [d.Hours()]: whole units plus the fraction. *)
Definition float_units (d unit : Duration) : float64 :=
  f_add (f_of_Z (Z.quot d unit)) (f_div (f_of_Z (Z.rem d unit)) (f_of_Z unit)).
Definition int_units (d unit : Duration) : Z := f_to_int64 (float_units d unit).

(** [shortDuration] (liveness_controller.go). *)
Definition shortDuration (d : Duration) : string :=
  let seconds := int_units d Second in
  let minutes := int_units d Minute in
  let hours := int_units d Hour in
  if d <? Minute then (pretty seconds +:+ "s")%string
  else if d <? Hour then
    (pretty minutes +:+ "m" +:+ pretty (Z.rem seconds 60) +:+ "s")%string
  else if d <? 24 * Hour then
    (pretty hours +:+ "h" +:+ pretty (Z.rem minutes 60) +:+ "m")%string
  else
    (pretty (Z.quot hours 24) +:+ "d" +:+ pretty (Z.rem hours 24) +:+ "h")%string.

(** ** Lemmas *)

Lemma carries_unfold sizeBytes t :
  carries sizeBytes t = true <->
  tr_OTA t = true /\ (sizeBytes <= 0 \/ tr_MaxPayloadBytes t <= 0 \/
                      sizeBytes <= tr_MaxPayloadBytes t).
Proof.
  unfold carries.
  destruct (tr_OTA t); simpl; [|naive_solver].
  destruct (Z.gtb_spec sizeBytes 0), (Z.gtb_spec (tr_MaxPayloadBytes t) 0),
    (Z.gtb_spec sizeBytes (tr_MaxPayloadBytes t)); simpl; split; (lia || naive_solver lia).
Qed.

Lemma accept_loop_spec sizeBytes ts names :
  accept_loop sizeBytes ts names =
  if existsb (carries sizeBytes) ts then inl tt else inr (names ++ map tr_Type ts).
Proof.
  revert names. induction ts as [|t ts IH]; intros names; simpl.
  - by rewrite app_nil_r.
  - rewrite !IH, <- app_assoc. unfold carries.
    destruct (tr_OTA t); simpl; [|done].
    by destruct ((sizeBytes >? 0) && (tr_MaxPayloadBytes t >? 0) &&
              (sizeBytes >? tr_MaxPayloadBytes t)).
Qed.

(** The answer, read off the transports. *)
Lemma CanAcceptOTA_verdict c sizeBytes :
  (CanAcceptOTA c sizeBytes).1.1 = existsb (carries sizeBytes) (cap_Transports c).
Proof.
  unfold CanAcceptOTA. destruct (cap_Transports c) as [|t ts] eqn:E; [done|].
  rewrite accept_loop_spec. destruct (existsb _ _); [done|].
  by destruct (sizeBytes >? 0).
Qed.

Lemma CanAcceptOTA_accepts c sizeBytes :
  (CanAcceptOTA c sizeBytes).1.1 = true <->
  exists t, In t (cap_Transports c) /\ carries sizeBytes t = true.
Proof. rewrite CanAcceptOTA_verdict. apply existsb_exists. Qed.

Lemma CanAcceptOTA_refusal c sizeBytes :
  (CanAcceptOTA c sizeBytes).1.1 = false ->
  (CanAcceptOTA c sizeBytes).1.2 =
  if (negb (is_nil (head (cap_Transports c)))) && (sizeBytes >? 0)
  then ReasonArtifactTooLarge else ReasonNoOTATransport.
Proof.
  unfold CanAcceptOTA. destruct (cap_Transports c) as [|t ts]; [done|].
  destruct (accept_loop sizeBytes (t :: ts) []); [done|]. simpl.
  by destruct (sizeBytes >? 0).
Qed.

Lemma reachableOverOTA_spec c :
  reachableOverOTA c = true <->
  cap_ReachableVia c = [] \/
  exists t, In t (cap_Transports c) /\ tr_OTA t = true /\ In (tr_Type t) (cap_ReachableVia c).
Proof.
  unfold reachableOverOTA. destruct (cap_ReachableVia c) as [|v vs]; [naive_solver|].
  rewrite existsb_exists. setoid_rewrite existsb_exists.
  setoid_rewrite andb_true_iff. setoid_rewrite str_eq_true. split.
  - intros (via & Hvia & t & Ht & <- & Hota). right. eauto.
  - intros [?|(t & Ht & Hota & Hin)]; [done|]. eauto 10.
Qed.

Lemma contains_In s v : contains s v = true <-> In v s.
Proof.
  unfold contains. rewrite existsb_exists. setoid_rewrite str_eq_true. naive_solver.
Qed.

Lemma contains_false s v : contains s v = false <-> ~ In v s.
Proof. rewrite <- contains_In. by destruct (contains s v). Qed.

Lemma hasTransport_spec c name :
  hasTransport c name = true <-> In name (map tr_Type (cap_Transports c)).
Proof.
  unfold hasTransport. rewrite existsb_exists, in_map_iff.
  setoid_rewrite str_eq_true. naive_solver.
Qed.

(** [join] is the library's. *)
Lemma join_aux sep s i out :
  0 <= i ->
  (fold_left (fun '(i, out) v =>
     (i + 1, ((if i >? 0 then out +:+ sep else out) +:+ v)%string)) s (i, out)).2 =
  match s with
  | [] => out
  | _ => ((if i >? 0 then out +:+ sep else out) +:+ Join sep s)%string
  end.
Proof.
  revert i out. induction s as [|v s IH]; intros i out Hi; [done|]. simpl fold_left.
  rewrite IH by lia. destruct s as [|w s]; [done|].
  replace (i + 1 >? 0) with true by lia.
  change (Join sep (v :: w :: s)) with (v +:+ sep +:+ Join sep (w :: s))%string.
  destruct (i >? 0); by rewrite !str_app_assoc.
Qed.

Lemma join_Join s sep : join s sep = Join sep s.
Proof. unfold join. rewrite join_aux by lia. by destruct s. Qed.

Lemma ota_cost_max ts acc :
  let cost := fold_left (fun cost t => if tr_OTA t && (tr_OTACostMah t >? cost)
                                       then tr_OTACostMah t else cost) ts acc in
  acc <= cost /\ (forall t, In t ts -> tr_OTA t = true -> tr_OTACostMah t <= cost).
Proof.
  revert acc. induction ts as [|t ts IH]; intros acc; simpl; [split; [lia|done]|].
  set (acc' := if tr_OTA t && (tr_OTACostMah t >? acc) then _ else acc).
  destruct (IH acc') as [H1 H2].
  assert (acc <= acc' /\ (tr_OTA t = true -> tr_OTACostMah t <= acc')) as [A B].
  { unfold acc'. destruct (tr_OTA t); simpl; [|split; [lia|done]].
    destruct (Z.gtb_spec (tr_OTACostMah t) acc); split; intros; lia. }
  split; [lia|]. intros u [->|Hu] Hota; [specialize (B Hota); lia|auto].
Qed.

Lemma ota_cost_ge ts t :
  In t ts -> tr_OTA t = true -> tr_OTACostMah t <= ota_cost ts.
Proof. apply (ota_cost_max ts 0). Qed.

Lemma ota_cost_nonneg ts : 0 <= ota_cost ts.
Proof. apply (ota_cost_max ts 0). Qed.

(** [itoa] against the decimal printer. *)
Lemma digit_char_pretty z : 0 <= z < 10 -> digit_char z = pretty_N_char (Z.to_N z).
Proof.
  intros H. assert (z = 0 \/ z = 1 \/ z = 2 \/ z = 3 \/ z = 4 \/ z = 5 \/ z = 6 \/ z = 7
    \/ z = 8 \/ z = 9) as D by lia.
  repeat destruct D as [->|D]; subst; reflexivity.
Qed.

Lemma itoa_loop_pretty fuel i b :
  0 <= i < 10 ^ Z.of_nat fuel -> itoa_loop fuel i b = pretty_N_go (Z.to_N i) b.
Proof.
  revert i b. induction fuel as [|k IH]; intros i b H.
  - simpl in H. assert (i = 0) as -> by lia. simpl. by rewrite pretty_N_go_0.
  - simpl. destruct (Z.gtb_spec i 0) as [Hi|Hi].
    + rewrite Z.quot_div_nonneg, Z.rem_mod_nonneg by lia.
      rewrite IH.
      * rewrite (pretty_N_go_step (Z.to_N i)) by lia.
        rewrite digit_char_pretty by (apply Z.mod_pos_bound; lia).
        by rewrite Z2N.inj_div, Z2N.inj_mod by lia.
      * rewrite Nat2Z.inj_succ, Z.pow_succ_r in H by lia.
        split; [apply Z.div_pos; lia|]. apply Z.div_lt_upper_bound; lia.
    + assert (i = 0) as -> by lia. by rewrite pretty_N_go_0.
Qed.

(** ** Properties *)

(** [itoa] prints every [int32] in decimal except the smallest one, whose
    negation wraps to itself and leaves no digits: it prints as a bare minus. *)
Theorem itoa_decimal i :
  MinInt32 <= i <= MaxInt32 ->
  itoa i = if i =? MinInt32 then "-"%string else pretty i.
Proof.
  intros H. destruct (Z.eqb_spec i MinInt32) as [->|Hne]; [reflexivity|].
  unfold MinInt32, MaxInt32 in *. unfold itoa.
  destruct (Z.eqb_spec i 0) as [->|H0]; [reflexivity|].
  destruct (Z.ltb_spec i 0).
  - rewrite wrap32_id by (unfold MinInt32, MaxInt32; lia).
    rewrite itoa_loop_pretty by lia. by rewrite pretty_Z_neg.
  - rewrite itoa_loop_pretty by lia. by rewrite pretty_Z_pos by lia.
Qed.

Lemma itoa_decimal_witness : itoa (-2147483647) = "-2147483647"%string.
Proof. rewrite (itoa_decimal (-2147483647)); [reflexivity|]. split; discriminate. Defined.

(** The specification of [CanAcceptOTA]: which verdict goes with which reason. *)
Definition accepts_ota_spec (c : DeviceCapability) (sizeBytes : Z) (ok : bool)
    (reason : string) : Prop :=
  match ok with
  | true => reason = ""%string /\
            exists t, In t (cap_Transports c) /\ tr_OTA t = true /\
              (0 < sizeBytes -> 0 < tr_MaxPayloadBytes t -> sizeBytes <= tr_MaxPayloadBytes t)
  | false => (forall t, In t (cap_Transports c) -> tr_OTA t = true ->
                0 < tr_MaxPayloadBytes t < sizeBytes) /\
             reason = (if negb (is_nil (head (cap_Transports c))) && (sizeBytes >? 0)
                       then ReasonArtifactTooLarge else ReasonNoOTATransport)
  end.

(** C8. [CanAcceptOTA] accepts exactly when some declared transport is firmware
    capable and large enough (unknown sizes never refuse), and a refusal says that
    every firmware-capable transport is too small; the reason it gives is
    [ArtifactExceedsTransportCapacity] whenever the size is known and a transport
    is declared, even if no transport is firmware capable at all. *)
Theorem CanAcceptOTA_meets_spec c sizeBytes :
  let '(ok, reason, _) := CanAcceptOTA c sizeBytes in
  accepts_ota_spec c sizeBytes ok reason.
Proof.
  pose proof (CanAcceptOTA_accepts c sizeBytes) as Hacc.
  pose proof (CanAcceptOTA_refusal c sizeBytes) as Href.
  destruct (CanAcceptOTA c sizeBytes) as [[ok reason] detail] eqn:E; simpl in *.
  destruct ok; simpl.
  - split.
    + unfold CanAcceptOTA in E. destruct (cap_Transports c); [done|].
      destruct (accept_loop _ _ _); [by injection E|]. by destruct (sizeBytes >? 0).
    + destruct Hacc as [(t & Ht & [Hota Hsz]%carries_unfold) _]; [done|].
      exists t. split_and!; [done|done|]. intros. lia.
  - split; [|by apply Href]. intros t Ht Hota.
    destruct (carries sizeBytes t) eqn:C; [naive_solver|].
    destruct (decide (0 < tr_MaxPayloadBytes t < sizeBytes)); [done|].
    enough (carries sizeBytes t = true) by congruence.
    apply carries_unfold. split; [done|lia].
Qed.

(** C9. [OTAAffordable] is sound while its [int32] product does not wrap: when it
    approves a device of known charge and capacity, the battery is at or above
    the floor now, and still is after the transfer over any firmware-capable
    transport (in the whole percents the code counts). *)
Theorem OTAAffordable_sound c minPercentAfter t :
  fst (OTAAffordable c minPercentAfter) = true ->
  0 < minPercentAfter <= 100 -> 0 < cap_BatteryPercent c <= 100 ->
  0 < cap_BatteryMah c ->
  (forall u, In u (cap_Transports c) -> tr_OTACostMah u * 100 <= MaxInt32) ->
  In t (cap_Transports c) -> tr_OTA t = true ->
  minPercentAfter <= cap_BatteryPercent c /\
  minPercentAfter <= cap_BatteryPercent c - tr_OTACostMah t * 100 / cap_BatteryMah c.
Proof.
  intros Hok Hmin Hpct Hmah Hfit Ht Hota. unfold OTAAffordable in Hok.
  pose proof (ota_cost_ge _ _ Ht Hota) as Hge.
  pose proof (ota_cost_nonneg (cap_Transports c)) as Hnn.
  assert (ota_cost (cap_Transports c) * 100 <= MaxInt32) as Hcap.
  { unfold ota_cost. apply (fold_left_invariant (fun x => x * 100 <= MaxInt32)); [done|].
    intros b x Hx Hb. destruct (_ && _); [by apply Hfit|done]. }
  set (cost := ota_cost (cap_Transports c)) in *.
  replace (cap_BatteryPercent c =? 0) with false in Hok by lia.
  replace (minPercentAfter =? 0) with false in Hok by lia. simpl in Hok.
  destruct (Z.ltb_spec (cap_BatteryPercent c) minPercentAfter); [done|].
  split; [done|].
  assert (tr_OTACostMah t * 100 / cap_BatteryMah c <= cost * 100 / cap_BatteryMah c) as Hle
    by (apply Z.div_le_mono; lia).
  replace (cap_BatteryMah c =? 0) with false in Hok by lia.
  destruct (Z.eqb_spec cost 0) as [E0|E0]; simpl in Hok.
  - rewrite E0, Z.mul_0_l, Z.div_0_l in Hle by lia. lia.
  - rewrite (wrap32_id (cost * 100)) in Hok by (unfold MinInt32, MaxInt32 in *; lia).
    rewrite Z.quot_div_nonneg in Hok by lia.
    assert (0 <= cost * 100 / cap_BatteryMah c <= cost * 100).
    { split; [apply Z.div_pos; lia|]. rewrite <- (Z.div_1_r (cost * 100)) at 2.
      apply Z.div_le_compat_l; lia. }
    rewrite (wrap32_id (cost * 100 / _)) in Hok by (unfold MinInt32, MaxInt32 in *; lia).
    rewrite wrap32_id in Hok by (unfold MinInt32, MaxInt32 in *; lia).
    destruct (Z.ltb_spec (cap_BatteryPercent c - cost * 100 / cap_BatteryMah c)
                minPercentAfter); [done|lia].
Qed.

Lemma OTAAffordable_sound_witness :
  let t := mkTransport "wifi" "" false true 0 0 "" 100 in
  30 <= 50 - tr_OTACostMah t * 100 / 1000.
Proof.
  set (t := mkTransport "wifi" "" false true 0 0 "" 100). cbv zeta.
  apply (OTAAffordable_sound (mkDeviceCapability [t] [] 50 1000 "") 30 t);
    [vm_compute; reflexivity | simpl; lia | simpl; lia | simpl; lia | | by left | reflexivity].
  intros u [<-|[]]. vm_compute. discriminate.
Defined.
