(* ===== verification/Planner.v ===== *)
(** * The planner: internal/planner.go

    [PlanRollout] sorts a fleet into eligible, refused and pending devices;
    [StepSize] turns a cumulative percentage into a device count. *)

From S2P Require Import Prelude GoTime GoStrings Types Capability.
Local Open Scope Z_scope.

(** ** Definitions *)

Record Plan := mkPlan {
  plan_Eligible : list string;
  plan_Refused : list DeviceOutcome;
  plan_Pending : list DeviceOutcome
}.

Definition empty_Plan : Plan := mkPlan [] [] [].

Definition outcome (device reason detail : string) : DeviceOutcome :=
  mkDeviceOutcome device reason detail None.

Definition outcomeSince (device reason detail : string) (since : option Time) : DeviceOutcome :=
  mkDeviceOutcome device reason detail since.

Definition add_refused (p : Plan) (o : DeviceOutcome) : Plan :=
  mkPlan (plan_Eligible p) (plan_Refused p ++ [o]) (plan_Pending p).
Definition add_pending (p : Plan) (o : DeviceOutcome) : Plan :=
  mkPlan (plan_Eligible p) (plan_Refused p) (plan_Pending p ++ [o]).
Definition add_eligible (p : Plan) (n : string) : Plan :=
  mkPlan (plan_Eligible p ++ [n]) (plan_Refused p) (plan_Pending p).

(** [StepSize]: an [int] product, a floor of one device, a ceiling of all of them. *)
Definition StepSize (eligible percent : Z) : Z :=
  let n := Z.quot (wrap64 (eligible * percent)) 100 in
  let n := if (n <? 1) && (percent >? 0) then 1 else n in
  if n >? eligible then eligible else n.

Section Planner.
(** The process's local zone (for printing) and the reading of its clock. *)
Context (Local : Location) (now : Time).

Definition fmtTime (t : option Time) : string :=
  match t with None => "unknown" | Some t => format_RFC3339 Local t end.

(** The first half of the loop body: [Some o] when the device is refused. *)
Definition refuse (req : option RolloutRequirements) (size : Z) (l : DeviceLiveness)
  : option DeviceOutcome :=
  let name := dl_Name l in
  match req with
  | Some r =>
      if req_OTA r then
        match st_Capability (dl_Status l) with
        | None => Some (outcome name ReasonNoOTATransport
                          "no capability recorded for this device")
        | Some cap =>
            match CanAcceptOTA cap size with
            | (false, reason, detail) => Some (outcome name reason detail)
            | (true, _, _) =>
                if req_MinBatteryPercent r >? 0 then
                  match OTAAffordable cap (req_MinBatteryPercent r) with
                  | (false, detail) => Some (outcome name ReasonBatteryTooLow detail)
                  | (true, _) => None
                  end
                else None
            end
        end
      else None
  | None => None
  end.

(** The second half: [Some o] when the device has to wait. *)
Definition postpone (req : option RolloutRequirements) (l : DeviceLiveness)
  : option DeviceOutcome :=
  let name := dl_Name l in
  let s := dl_Status l in
  if str_eq (st_State s) StateUnreachable then
    Some (outcomeSince name ReasonUnreachable
            ("no report for " +:+ st_SilentFor s)%string (st_LastSeen s))
  else if str_eq (st_State s) StateSleeping then
    Some (outcomeSince name ReasonAsleep
            ("silent " +:+ st_SilentFor s +:+ ", next expected by " +:+
             fmtTime (st_NextExpectedBy s))%string (st_LastSeen s))
  else if str_eq (st_State s) StateUnknown then
    Some (outcome name ReasonUnreachable "never reported")
  else
    match req with
    | None => None
    | Some r =>
        let stranded :=
          match st_Capability s with
          | Some cap => if req_OTA r && negb (reachableOverOTA cap) then Some cap else None
          | None => None
          end in
        match stranded with
        | Some cap =>
            Some (outcome name ReasonAwaitingWindow
                    ("reachable via " +:+ fmt_strings (cap_ReachableVia cap) +:+
                     ", none OTA-capable")%string)
        | None =>
            match req_MaxSilentFor r, st_LastSeen s with
            | Some limit, Some seen =>
                if sub_time now seen >? limit then
                  Some (outcomeSince name ReasonUnreachable
                          ("silent " +:+ st_SilentFor s +:+ ", limit " +:+
                           duration_String limit)%string (st_LastSeen s))
                else None
            | _, _ => None
            end
        end
    end.

Definition plan_step (rollout : FirmwareRollout) (p : Plan) (l : DeviceLiveness) : Plan :=
  let req := fr_Requires (ro_Spec rollout) in
  let size := src_SizeBytes (fr_Source (ro_Spec rollout)) in
  match refuse req size l with
  | Some o => add_refused p o
  | None =>
      match postpone req l with
      | Some o => add_pending p o
      | None => add_eligible p (dl_Name l)
      end
  end.

Definition PlanRollout (rollout : FirmwareRollout) (livenesses : list DeviceLiveness) : Plan :=
  fold_left (plan_step rollout) livenesses empty_Plan.
End Planner.

(** ** Specification

    What the two halves of the loop body decide, without its control flow. *)

(** The device can take the update at all: its declaration, and its battery as reported. *)
Definition can_take (req : option RolloutRequirements) (size : Z)
    (cap : option DeviceCapability) : Prop :=
  forall r, req = Some r -> req_OTA r = true ->
  exists c, cap = Some c /\
    (exists t, In t (cap_Transports c) /\ carries size t = true) /\
    (0 < req_MinBatteryPercent r -> fst (OTAAffordable c (req_MinBatteryPercent r)) = true).

(** The device can take it now. *)
Definition ready (now : Time) (req : option RolloutRequirements) (s : DeviceLivenessStatus)
  : Prop :=
  ~ In (st_State s) [StateUnreachable; StateSleeping; StateUnknown] /\
  forall r, req = Some r ->
    (forall c, req_OTA r = true -> st_Capability s = Some c ->
       cap_ReachableVia c = [] \/
       exists t, In t (cap_Transports c) /\ tr_OTA t = true /\
                 In (tr_Type t) (cap_ReachableVia c)) /\
    (forall limit seen, req_MaxSilentFor r = Some limit -> st_LastSeen s = Some seen ->
       sub_time now seen <= limit).

(** ** Lemmas *)

Section Lemmas.
Context (Local : Location) (now : Time).

Lemma refuse_None req size l :
  refuse req size l = None <-> can_take req size (st_Capability (dl_Status l)).
Proof.
  unfold refuse, can_take. destruct req as [r|]; [|done].
  destruct (req_OTA r) eqn:Hota; [|by split; [intros _ ? [= <-]; congruence|]].
  destruct (st_Capability (dl_Status l)) as [c|].
  2:{ split; [done|]. intros H. by destruct (H r eq_refl Hota) as (? & ? & _). }
  pose proof (CanAcceptOTA_accepts c size) as Hacc.
  destruct (CanAcceptOTA c size) as [[ok reason] detail]; simpl in Hacc.
  destruct ok.
  2:{ split; [done|]. intros H.
      destruct (H r eq_refl Hota) as (c' & [= <-] & Hc & _). by apply Hacc in Hc. }
  destruct (proj1 Hacc eq_refl) as (t & Ht & Hc).
  destruct (Z.gtb_spec (req_MinBatteryPercent r) 0) as [Hb|Hb].
  - destruct (OTAAffordable c (req_MinBatteryPercent r)) as [[] d] eqn:E; split; intros H;
      try done.
    + intros ? [= <-] _. exists c. rewrite E. naive_solver.
    + destruct (H r eq_refl Hota) as (? & [= <-] & _ & Haff).
      rewrite E in Haff. discriminate Haff. lia.
  - split; [|done]. intros _ ? [= <-] _. exists c. split_and!; [done|by apply Hacc|lia].
Qed.

Lemma postpone_None req l :
  postpone Local now req l = None <-> ready now req (dl_Status l).
Proof.
  unfold postpone, ready. set (s := dl_Status l). simpl In.
  destruct (str_eq (st_State s) StateUnreachable) eqn:E1;
    [apply str_eq_true in E1; naive_solver|].
  destruct (str_eq (st_State s) StateSleeping) eqn:E2;
    [apply str_eq_true in E2; naive_solver|].
  destruct (str_eq (st_State s) StateUnknown) eqn:E3;
    [apply str_eq_true in E3; naive_solver|].
  apply str_eq_false in E1, E2, E3.
  assert (~ (StateUnreachable = st_State s \/ StateSleeping = st_State s \/
             StateUnknown = st_State s \/ False)) as Hst by naive_solver.
  destruct req as [r|]; [|naive_solver].
  assert (forall c, st_Capability s = Some c ->
    reachableOverOTA c = true <-> cap_ReachableVia c = [] \/
     exists t, In t (cap_Transports c) /\ tr_OTA t = true /\
               In (tr_Type t) (cap_ReachableVia c)) as Hreach
    by (intros; apply reachableOverOTA_spec).
  assert (match req_MaxSilentFor r, st_LastSeen s with
          | Some limit, Some seen =>
              if sub_time now seen >? limit then
                Some (outcomeSince (dl_Name l) ReasonUnreachable
                  ("silent " +:+ st_SilentFor s +:+ ", limit " +:+
                   duration_String limit)%string (st_LastSeen s)) else None
          | _, _ => None end = None <->
          forall limit seen, req_MaxSilentFor r = Some limit -> st_LastSeen s = Some seen ->
            sub_time now seen <= limit) as Hsil.
  { destruct (req_MaxSilentFor r) as [limit|], (st_LastSeen s) as [seen|];
      [|naive_solver..].
    destruct (Z.gtb_spec (sub_time now seen) limit); [|naive_solver].
    split; [done|]. intros H'. specialize (H' _ _ eq_refl eq_refl). lia. }
  destruct (st_Capability s) as [c|]; [|naive_solver].
  specialize (Hreach c eq_refl).
  destruct (req_OTA r) eqn:Hota, (reachableOverOTA c); simpl; naive_solver.
Qed.
End Lemmas.

#[export] Instance can_take_dec req size cap : Decision (can_take req size cap).
Proof.
  set (l := mkDeviceLiveness (mkObjectMeta "" "" 0 ∅) (mkDeviceLivenessSpec "" 0 0 "")
    (mkDeviceLivenessStatus "" "" None "" None "" "" cap [] 0)).
  destruct (refuse req size l) as [o|] eqn:E.
  - right. intros H. apply (refuse_None req size l) in H. congruence.
  - left. by apply (refuse_None req size l).
Defined.

#[export] Instance ready_dec now req s : Decision (ready now req s).
Proof.
  set (l := mkDeviceLiveness (mkObjectMeta "" "" 0 ∅) (mkDeviceLivenessSpec "" 0 0 "") s).
  destruct (postpone UTC now req l) as [o|] eqn:E.
  - right. intros H. apply (postpone_None UTC now req l) in H. congruence.
  - left. by apply (postpone_None UTC now req l).
Defined.

Section Lists.
Context (Local : Location) (now : Time) (rollout : FirmwareRollout).
#[local] Abbreviation req := (fr_Requires (ro_Spec rollout)).
#[local] Abbreviation size := (src_SizeBytes (fr_Source (ro_Spec rollout))).

Definition takes (l : DeviceLiveness) : Prop :=
  can_take req size (st_Capability (dl_Status l)).
Definition is_ready (l : DeviceLiveness) : Prop := ready now req (dl_Status l).

#[export] Instance takes_dec l : Decision (takes l).
Proof. unfold takes. apply _. Defined.
#[export] Instance is_ready_dec l : Decision (is_ready l).
Proof. unfold is_ready. apply _. Defined.

Lemma refuse_name l o : refuse req size l = Some o -> do_Device o = dl_Name l.
Proof.
  unfold refuse. destruct req as [r|]; [|done]. destruct (req_OTA r); [|done].
  destruct (st_Capability (dl_Status l)) as [c|]; [|by intros [= <-]].
  destruct (CanAcceptOTA c size) as [[[] reason] detail]; [|by intros [= <-]].
  destruct (_ >? 0); [|done].
  destruct (OTAAffordable c _) as [[] d]; [done|by intros [= <-]].
Qed.

Lemma postpone_name l o : postpone Local now req l = Some o -> do_Device o = dl_Name l.
Proof.
  unfold postpone.
  repeat (case_match; try done; try (intros [= <-]; done)).
Qed.

(** The three lists, read off the fleet. *)
Lemma plan_fold ls p :
  fold_left (plan_step Local now rollout) ls p =
  mkPlan
    (plan_Eligible p ++ map dl_Name (filter (fun l => takes l /\ is_ready l) ls))
    (plan_Refused p ++ omap (refuse req size) ls)
    (plan_Pending p ++ omap (fun l => match refuse req size l with
                                      | Some _ => None
                                      | None => postpone Local now req l end) ls).
Proof.
  revert p. induction ls as [|l ls IH]; intros p; simpl fold_left.
  - destruct p; simpl. by rewrite !app_nil_r.
  - rewrite IH. unfold plan_step. csimpl. rewrite filter_cons.
    pose proof (refuse_None req size l) as HR.
    pose proof (postpone_None Local now req l) as HP.
    fold (takes l) in HR. fold (is_ready l) in HP.
    destruct (refuse req size l) as [o|] eqn:ER; simpl.
    { rewrite decide_False by naive_solver. by rewrite <- app_assoc. }
    destruct (postpone Local now req l) as [o|] eqn:EP; simpl.
    { rewrite decide_False by naive_solver. by rewrite <- app_assoc. }
    rewrite decide_True by naive_solver. simpl. by rewrite <- app_assoc.
Qed.

Lemma omap_names (f : DeviceLiveness -> option DeviceOutcome) (P : DeviceLiveness -> Prop)
    `{!forall l, Decision (P l)} ls :
  (forall l, f l = None <-> ~ P l) ->
  (forall l o, f l = Some o -> do_Device o = dl_Name l) ->
  map do_Device (omap f ls) = map dl_Name (filter P ls).
Proof.
  intros HN Hname. induction ls as [|l ls IH]; [done|]. csimpl. rewrite filter_cons.
  specialize (HN l). destruct (f l) as [o|] eqn:E; simpl.
  - rewrite decide_True by (destruct (decide (P l)); naive_solver).
    simpl. f_equal; [by apply Hname|done].
  - by rewrite decide_False by naive_solver.
Qed.
End Lists.

(** ** Properties *)

(** C10. [PlanRollout] refines the declarative classification: in fleet order, the
    eligible devices are exactly those that can take the update and are ready, the
    refused ones exactly those that cannot take it, and the pending ones those
    that can but are not ready now. *)
Theorem PlanRollout_classifies Local now rollout ls :
  let p := PlanRollout Local now rollout ls in
  plan_Eligible p
    = map dl_Name (filter (fun l => takes rollout l /\ is_ready now rollout l) ls) /\
  map do_Device (plan_Refused p) = map dl_Name (filter (fun l => ~ takes rollout l) ls) /\
  map do_Device (plan_Pending p)
    = map dl_Name (filter (fun l => takes rollout l /\ ~ is_ready now rollout l) ls).
Proof.
  unfold PlanRollout. rewrite plan_fold. simpl. split_and!; [done|..].
  - apply omap_names; [|intros; by eapply refuse_name].
    intros l. rewrite refuse_None. fold (takes rollout l).
    destruct (decide (takes rollout l)); naive_solver.
  - apply omap_names.
    + intros l. pose proof (refuse_None (fr_Requires (ro_Spec rollout))
        (src_SizeBytes (fr_Source (ro_Spec rollout))) l) as HR.
      pose proof (postpone_None Local now (fr_Requires (ro_Spec rollout)) l) as HP.
      fold (takes rollout l) in HR. fold (is_ready now rollout l) in HP.
      destruct (decide (is_ready now rollout l));
        destruct (refuse _ _ l); naive_solver.
    + intros l o. destruct (refuse _ _ l); [done|]. apply postpone_name.
Qed.

(** Nobody is lost and nobody is counted twice: the three lists together are a
    rearrangement of the fleet. *)
Theorem PlanRollout_partition Local now rollout ls :
  let p := PlanRollout Local now rollout ls in
  plan_Eligible p ++ map do_Device (plan_Refused p) ++ map do_Device (plan_Pending p)
  ≡ₚ map dl_Name ls.
Proof.
  unfold PlanRollout. rewrite plan_fold. simpl.
  induction ls as [|l ls IH]; [done|]. csimpl. rewrite filter_cons.
  pose proof (refuse_None (fr_Requires (ro_Spec rollout))
    (src_SizeBytes (fr_Source (ro_Spec rollout))) l) as HR.
  pose proof (postpone_None Local now (fr_Requires (ro_Spec rollout)) l) as HP.
  fold (takes rollout l) in HR. fold (is_ready now rollout l) in HP.
  destruct (refuse _ _ l) as [o|] eqn:ER.
  - rewrite decide_False by naive_solver. simpl. rewrite (refuse_name _ _ _ ER).
    rewrite <- Permutation_middle. by constructor.
  - destruct (postpone _ _ _ l) as [o|] eqn:EP; simpl.
    + rewrite decide_False by naive_solver. rewrite (postpone_name _ _ _ _ _ EP).
      rewrite app_assoc, <- Permutation_middle, <- app_assoc. by constructor.
    + rewrite decide_True by naive_solver. simpl. by constructor.
Qed.

(** Two observations of one device: same name, same declared transports. Its liveness,
    the transports it is on, what it runs and what is left in its battery may differ. *)
Definition same_declaration (l l' : DeviceLiveness) : Prop :=
  dl_Name l = dl_Name l' /\
  (cap_Transports <$> st_Capability (dl_Status l)) =
    (cap_Transports <$> st_Capability (dl_Status l')).

(** It also reports the same battery. *)
Definition same_battery (l l' : DeviceLiveness) : Prop :=
  (cap_BatteryPercent <$> st_Capability (dl_Status l)) =
    (cap_BatteryPercent <$> st_Capability (dl_Status l')) /\
  (cap_BatteryMah <$> st_Capability (dl_Status l)) =
    (cap_BatteryMah <$> st_Capability (dl_Status l')).

(** Refused for what its battery was reported to hold. *)
Definition by_battery (o : DeviceOutcome) : bool := str_eq (do_Reason o) ReasonBatteryTooLow.

Lemma CanAcceptOTA_same c c' size :
  cap_Transports c = cap_Transports c' -> CanAcceptOTA c size = CanAcceptOTA c' size.
Proof. unfold CanAcceptOTA. by intros ->. Qed.

Lemma CanAcceptOTA_reason c size reason detail :
  CanAcceptOTA c size = (false, reason, detail) -> str_eq reason ReasonBatteryTooLow = false.
Proof. unfold CanAcceptOTA. repeat case_match; by intros [= <- _]. Qed.

(** What a refusal for the battery rests on. *)
Lemma refuse_by_battery req size l o :
  refuse req size l = Some o -> by_battery o = true ->
  exists r c, req = Some r /\ req_OTA r = true /\ 0 < req_MinBatteryPercent r /\
    st_Capability (dl_Status l) = Some c /\ (CanAcceptOTA c size).1.1 = true /\
    (OTAAffordable c (req_MinBatteryPercent r)).1 = false /\ do_Device o = dl_Name l.
Proof.
  unfold refuse. destruct req as [r|]; [|done]. destruct (req_OTA r) eqn:Er; [|done].
  destruct (st_Capability (dl_Status l)) as [c|]; [|by intros [= <-]].
  destruct (CanAcceptOTA c size) as [[[] reason] detail] eqn:Ec.
  - destruct (Z.gtb_spec (req_MinBatteryPercent r) 0); [|done].
    destruct (OTAAffordable c _) as [[] d] eqn:Ea; [done|]. intros [= <-] _.
    exists r, c. rewrite Ec, Ea. by split_and!.
  - intros [= <-]. unfold by_battery. simpl. by rewrite (CanAcceptOTA_reason _ _ _ _ Ec).
Qed.

(** A refusal for anything else is a fact of the declaration. *)
Lemma refuse_by_declaration req size l l' o :
  same_declaration l l' -> refuse req size l = Some o -> by_battery o = false ->
  refuse req size l' = Some o.
Proof.
  intros (Hn & Ht). unfold refuse. rewrite Hn.
  destruct req as [r|]; [|done]. destruct (req_OTA r); [|done].
  destruct (st_Capability (dl_Status l)) as [c|], (st_Capability (dl_Status l')) as [c'|]; try done.
  simpl in Ht. injection Ht as Ht. rewrite (CanAcceptOTA_same c c' size Ht).
  destruct (CanAcceptOTA c' size) as [[[] reason] detail]; [|done].
  destruct (req_MinBatteryPercent r >? 0); [|done].
  destruct (OTAAffordable c _) as [[] d]; [done|]. by intros [= <-].
Qed.

Lemma refuse_same req size l l' :
  same_declaration l l' ->
  same_battery l l' \/ (forall r, req = Some r -> req_MinBatteryPercent r <= 0) ->
  refuse req size l = refuse req size l'.
Proof.
  intros (Hn & Ht) Hb. unfold refuse. rewrite Hn.
  destruct req as [r|]; [|done]. destruct (req_OTA r); [|done].
  unfold same_battery in Hb.
  destruct (st_Capability (dl_Status l)) as [c|], (st_Capability (dl_Status l')) as [c'|]; try done.
  simpl in Ht. injection Ht as Ht. rewrite (CanAcceptOTA_same c c' size Ht).
  destruct (CanAcceptOTA c' size) as [[[] reason] detail]; [|done].
  destruct (Z.gtb_spec (req_MinBatteryPercent r) 0); [|done].
  destruct Hb as [(Hp & Hm)|Hb]; [|specialize (Hb r eq_refl); lia].
  simpl in Hp, Hm. injection Hp as Hp. injection Hm as Hm.
  unfold OTAAffordable. by rewrite Ht, Hp, Hm.
Qed.

(** C11. What is permanent about a refusal is what was declared. Two passes at different
    times, over a fleet whose liveness, current transports, running firmware and
    batteries may all have changed, refuse the same devices for the same reasons, in the
    same order, but for refusals for the battery. Those are momentary, as they rest on the
    level that the device reported, of a device whose transports could carry the image;
    a fleet that reports the same levels, or a rollout that asks for none, has the very
    same refusals. *)
Theorem PlanRollout_refusal_permanent Local Local' now now' rollout ls ls' :
  Forall2 same_declaration ls ls' ->
  let refused := plan_Refused (PlanRollout Local now rollout ls) in
  let refused' := plan_Refused (PlanRollout Local' now' rollout ls') in
  let size := src_SizeBytes (fr_Source (ro_Spec rollout)) in
  List.filter (fun o => negb (by_battery o)) refused
    = List.filter (fun o => negb (by_battery o)) refused' /\
  (forall o, In o refused -> by_battery o = true ->
     exists l c r, In l ls /\ dl_Name l = do_Device o /\ st_Capability (dl_Status l) = Some c /\
       fr_Requires (ro_Spec rollout) = Some r /\ 0 < req_MinBatteryPercent r /\
       existsb (carries size) (cap_Transports c) = true /\
       (OTAAffordable c (req_MinBatteryPercent r)).1 = false) /\
  (Forall2 same_battery ls ls' \/
   (forall r, fr_Requires (ro_Spec rollout) = Some r -> req_MinBatteryPercent r <= 0) ->
   refused = refused').
Proof.
  intros Hd. cbv zeta. unfold PlanRollout. rewrite !plan_fold. cbn [plan_Refused app empty_Plan].
  split_and!.
  - induction Hd as [|l l' ls ls' Hl _ IH]; [done|]. csimpl.
    assert (same_declaration l' l) as Hl' by (destruct Hl; by split).
    pose proof (refuse_by_declaration (fr_Requires (ro_Spec rollout))
      (src_SizeBytes (fr_Source (ro_Spec rollout)))) as D.
    destruct (refuse _ _ l) as [o|] eqn:E1; [destruct (by_battery o) eqn:B1|].
    2:{ rewrite (D l l' o Hl E1 B1). cbn [List.filter]. rewrite B1. cbn [negb]. by f_equal. }
    all: destruct (refuse _ _ l') as [o'|] eqn:E2; [destruct (by_battery o') eqn:B2|].
    all: try (specialize (D l' l o' Hl' E2 B2); congruence).
    all: cbn [List.filter]; rewrite ?B1, ?B2; cbn [negb]; exact IH.
  - intros o (l & Hl & Ho)%list_elem_of_In%list_elem_of_omap Hb. apply list_elem_of_In in Hl.
    destruct (refuse_by_battery _ _ _ _ Ho Hb) as (r & c & ? & ? & ? & ? & Hc & ? & ?).
    rewrite CanAcceptOTA_verdict in Hc. exists l, c, r. by split_and!.
  - intros Hb. induction Hd as [|l l' ls ls' Hl _ IH]; [done|]. csimpl.
    rewrite (refuse_same _ _ l l' Hl)
      by (destruct Hb as [Hb|?]; [left; by apply Forall2_cons in Hb as [? _]|by right]).
    assert (Forall2 same_battery ls ls' \/
      (forall r, fr_Requires (ro_Spec rollout) = Some r -> req_MinBatteryPercent r <= 0)) as Hb'
      by (destruct Hb as [Hb|?]; [left; by apply Forall2_cons in Hb as [_ ?]|by right]).
    rewrite (IH Hb'). done.
Qed.

Section Concrete.
Definition wifi : Transport := mkTransport "wifi" "always" true true 0 0 "" 40.
Definition lora : Transport := mkTransport "lora" "always" true false 222 0 "1" 0.
Definition liveness (name state : string) (cap : DeviceCapability) (seen : option Time)
  : DeviceLiveness :=
  mkDeviceLiveness (mkObjectMeta name "default" 1 ∅) (mkDeviceLivenessSpec name Minute 3 "")
    (mkDeviceLivenessStatus state "" seen "5m0s" None "" "" (Some cap) [] 1).
Definition sample_rollout (steps : list Z) : FirmwareRollout :=
  mkFirmwareRollout (mkObjectMeta "fw" "default" 1 ∅)
    (mkFirmwareRolloutSpec None (mkFirmwareSource "pkg" "abc" 500000)
      (Some (mkRolloutRequirements true 20 (Some Hour)))
      (mkRolloutStrategy 0 steps None None 0) false)
    (mkFirmwareRolloutStatus "" "" 0 0 0 0 [] [] [] [] 0 None "" "" "" None 0 None).
End Concrete.

(** A battery that runs down between two passes: the refusal of the first device stays,
    and the second one gains one. *)
Lemma PlanRollout_refusal_permanent_witness :
  let fleet state level := [liveness "a" state (mkDeviceCapability [lora] ["lora"%string] level 1000 "") None;
                            liveness "b" state (mkDeviceCapability [wifi] [] level 1000 "x") None] in
  let refused now ls := plan_Refused (PlanRollout UTC now (sample_rollout []) ls) in
  List.filter (fun o => negb (by_battery o)) (refused 0 (fleet StateOnline 90))
    = List.filter (fun o => negb (by_battery o)) (refused Hour (fleet StateSleeping 10)) /\
  map do_Device (refused 0 (fleet StateOnline 90)) = ["a"%string] /\
  map do_Device (refused Hour (fleet StateSleeping 10)) = ["a"; "b"]%string.
Proof.
  cbv zeta. split; [|vm_compute; done].
  apply (PlanRollout_refusal_permanent UTC UTC 0 Hour (sample_rollout [])). repeat constructor.
Defined.

(** "Cannot" and "not yet" never share a vocabulary: every refusal carries one of
    the three permanent reasons, and every pending outcome one of the three
    temporary ones. *)
Theorem PlanRollout_reasons Local now rollout ls :
  let p := PlanRollout Local now rollout ls in
  Forall (fun o => In (do_Reason o)
    [ReasonNoOTATransport; ReasonArtifactTooLarge; ReasonBatteryTooLow]) (plan_Refused p) /\
  Forall (fun o => In (do_Reason o)
    [ReasonUnreachable; ReasonAsleep; ReasonAwaitingWindow]) (plan_Pending p).
Proof.
  unfold PlanRollout. rewrite plan_fold. simpl. split; apply Forall_forall.
  - intros o (l & _ & H)%list_elem_of_omap. unfold refuse in H.
    destruct (fr_Requires _) as [r|]; [|done]. destruct (req_OTA r); [|done].
    destruct (st_Capability (dl_Status l)) as [c|]; [|injection H as <-; simpl; tauto].
    pose proof (CanAcceptOTA_refusal c (src_SizeBytes (fr_Source (ro_Spec rollout)))) as HR.
    destruct (CanAcceptOTA c _) as [[[] reason] detail]; simpl in *.
    + destruct (_ >? 0); [|done].
      destruct (OTAAffordable c _) as [[] d]; [done|injection H as <-; simpl; tauto].
    + injection H as <-. simpl. rewrite HR by done. by case_match; tauto.
  - intros o (l & _ & H)%list_elem_of_omap. destruct (refuse _ _ l); [done|].
    unfold postpone in H. repeat (case_match; try done; try (injection H as <-; simpl; tauto)).
Qed.

(** [StepSize] stays within the fleet, reaches somebody for every positive
    percentage of a non-empty fleet, is everybody from 100% on, grows with the
    percentage, and otherwise rounds the exact share down, never up past one
    device. *)
Theorem StepSize_bounds eligible p p' :
  0 <= eligible -> 0 <= p <= p' -> eligible * p' <= MaxInt64 ->
  0 <= StepSize eligible p <= eligible /\
  StepSize eligible p <= StepSize eligible p' /\
  (0 < p -> 0 < eligible -> 1 <= StepSize eligible p) /\
  (100 <= p -> StepSize eligible p = eligible) /\
  (1 < StepSize eligible p -> 100 * StepSize eligible p <= eligible * p).
Proof.
  intros He Hp Hfit. unfold StepSize.
  assert (eligible * p <= eligible * p') by (apply Z.mul_le_mono_nonneg_l; lia).
  assert (0 <= eligible * p) by (apply Z.mul_nonneg_nonneg; lia).
  rewrite !wrap64_id by (unfold MinInt64, MaxInt64 in *; lia).
  rewrite !Z.quot_div_nonneg by lia.
  assert (eligible * p / 100 <= eligible * p' / 100) by (apply Z.div_le_mono; lia).
  assert (0 <= eligible * p / 100) by (apply Z.div_pos; lia).
  assert (100 <= p -> eligible <= eligible * p / 100) as H100.
  { intros. apply Z.div_le_lower_bound; nia. }
  pose proof (Z.mul_div_le (eligible * p) 100 ltac:(lia)).
  destruct (Z.ltb_spec (eligible * p / 100) 1), (Z.ltb_spec (eligible * p' / 100) 1),
    (Z.gtb_spec p 0), (Z.gtb_spec p' 0); simpl;
    repeat (match goal with |- context [?a >? ?b] => destruct (Z.gtb_spec a b) end);
    split_and!; intros; nia.
Qed.

Lemma StepSize_bounds_witness :
  StepSize 30 10 = 3 /\ StepSize 30 10 <= StepSize 30 50.
Proof.
  split; [reflexivity|].
  apply (StepSize_bounds 30 10 50); unfold MaxInt64; lia.
Defined.
