(* ===== verification/Transports.v ===== *)
(** * The protocol matrix: internal/transports.go

    What each transport is assumed to be able to do when nobody has said. *)

From S2P Require Import Prelude GoTime GoStrings Types Capability.
Local Open Scope Z_scope.

(** ** Definitions *)

(** The keys of the map literal are its entries' own [Type]. *)
Definition transport_rows : list Transport :=
  [ mkTransport "wifi" "always" true true (Z.shiftl 16 20) 10000000 "" 2;
    mkTransport "ethernet" "always" true true (Z.shiftl 64 20) 100000000 "" 0;
    mkTransport "thread" "always" true true (Z.shiftl 1 20) 50000 "" 34;
    mkTransport "lora" "always" true false 240 1760 "1.0" 0;
    mkTransport "ble" "opportunistic" true false 512 700000 "" 0;
    mkTransport "zigbee" "always" true false 82 20000 "" 0;
    mkTransport "modbus" "always" true false 252 115200 "" 0;
    mkTransport "cellular" "always" true true (Z.shiftl 16 20) 1000000 "" 120 ].

Definition transportDefaults : gmap string Transport :=
  list_to_map (map (fun t => (tr_Type t, t)) transport_rows).

Definition defaultTransport (name : string) : Transport :=
  match transportDefaults !! name with
  | Some t => t
  | None => mkTransport name "always" true false 0 0 "" 0
  end.

(** ** Lemmas *)

Lemma transportDefaults_lookup name t :
  transportDefaults !! name = Some t -> In t transport_rows /\ tr_Type t = name.
Proof.
  unfold transportDefaults. intros H%elem_of_list_to_map_2%list_elem_of_In%in_map_iff.
  destruct H as (u & [= <- <-] & Hin). done.
Qed.

Lemma defaultTransport_cases name :
  (In (defaultTransport name) transport_rows /\ tr_Type (defaultTransport name) = name) \/
  defaultTransport name = mkTransport name "always" true false 0 0 "" 0.
Proof.
  unfold defaultTransport. destruct (transportDefaults !! name) as [t|] eqn:E; [|by right].
  left. by apply transportDefaults_lookup.
Qed.

Lemma defaultTransport_type name : tr_Type (defaultTransport name) = name.
Proof. by destruct (defaultTransport_cases name) as [[_ ?]| ->]. Qed.

Definition firmware_transports : list string := ["wifi"; "ethernet"; "thread"; "cellular"].

Lemma defaultTransport_OTA name :
  tr_OTA (defaultTransport name) = true <-> In name firmware_transports.
Proof.
  split.
  - destruct (defaultTransport_cases name) as [[Hin Ht]| ->]; [|done]. rewrite <- Ht at 2.
    revert Hin. generalize (defaultTransport name). intros t Hin.
    repeat (destruct Hin as [<-|Hin]; [simpl; tauto || discriminate|]). done.
  - intros [<-|[<-|[<-|[<-|[]]]]]; vm_compute; reflexivity.
Qed.

Lemma firmware_sized name :
  In name firmware_transports -> 0 < tr_MaxPayloadBytes (defaultTransport name).
Proof. intros [<-|[<-|[<-|[<-|[]]]]]; vm_compute; reflexivity. Qed.

(** ** Properties *)

(** A device described only by the table can take a firmware image of known
    size exactly when one of its transports is WiFi, Ethernet, Thread or cellular
    and the image fits its row; LoRa, BLE, Zigbee, Modbus and every unknown name
    never admit one. *)
Theorem defaults_firmware names reach bat mah hash size :
  0 < size ->
  fst (fst (CanAcceptOTA
    (mkDeviceCapability (map defaultTransport names) reach bat mah hash) size)) = true <->
  exists n, In n names /\ In n firmware_transports /\
    size <= tr_MaxPayloadBytes (defaultTransport n).
Proof.
  intros Hs. rewrite CanAcceptOTA_accepts. simpl. setoid_rewrite in_map_iff.
  setoid_rewrite carries_unfold. split.
  - intros (t & (n & <- & Hn) & Hota & Hsz). exists n.
    apply defaultTransport_OTA in Hota as Hin. split_and!; [done..|].
    apply firmware_sized in Hin. lia.
  - intros (n & Hn & Hin & Hsz). exists (defaultTransport n).
    split; [eauto|]. split; [by apply defaultTransport_OTA|]. tauto.
Qed.

Lemma defaults_firmware_witness :
  fst (fst (CanAcceptOTA (mkDeviceCapability (map defaultTransport ["lora"; "thread"]%string)
    [] 0 0 "") 200000)) = true.
Proof.
  apply (defaults_firmware ["lora"; "thread"]%string [] 0 0 "" 200000); [lia|].
  exists "thread"%string. split_and!; [simpl; tauto|simpl; tauto|vm_compute; discriminate].
Defined.
