(* ===== verification/Window.v ===== *)
(** * Maintenance windows: internal/window.go, first half

    Cron expressions, the periods they open, and the verdict of a window. *)

From S2P Require Import Prelude GoTime GoStrings Types.
Local Open Scope Z_scope.

(** ** Definitions *)

Record WindowState := mkWindowState {
  ws_Open : bool;
  ws_Reason : string;
  ws_NextOpen : option Time;
  ws_NextClose : option Time
}.

(** [-1] means any. *)
Record cronSpec := mkCronSpec {
  cron_min : Z; cron_hour : Z; cron_dom : Z; cron_month : Z; cron_dow : Z }.

Fixpoint parse_fields (f : list string) : option (list Z) :=
  match f with
  | [] => Some []
  | s :: f' =>
      if str_eq s "*" then cons (-1) <$> parse_fields f'
      else match Atoi s with
           | Some n => cons n <$> parse_fields f'
           | None => None
           end
  end.

Definition parseCron (expr : string) : option cronSpec :=
  match parse_fields (Fields expr) with
  | Some [v0; v1; v2; v3; v4] => Some (mkCronSpec v0 v1 v2 v3 v4)
  | _ => None
  end.

Section Cron.
Context (loc : Location).

Definition matches (c : cronSpec) (t : Time) : bool :=
  ((cron_min c =? -1) || (cron_min c =? time_Minute loc t)) &&
  ((cron_hour c =? -1) || (cron_hour c =? time_Hour loc t)) &&
  ((cron_dom c =? -1) || (cron_dom c =? time_Day loc t)) &&
  ((cron_month c =? -1) || (cron_month c =? time_Month loc t)) &&
  ((cron_dow c =? -1) || (cron_dow c =? time_Weekday loc t)).

(** The search loops: [fuel] is the loop's bound. *)
Fixpoint cron_walk (c : cronSpec) (step : Duration) (fuel : nat) (t : Time) : option Time :=
  match fuel with
  | O => None
  | S k => if matches c t then Some t else cron_walk c step k (add_time t step)
  end.

Definition lastCronFire (expr : string) (now : Time) : option Time :=
  match parseCron expr with
  | None => None
  | Some c => cron_walk c (- Minute) (Z.to_nat (60 * 24 * 2)) (Truncate now Minute)
  end.

Definition nextCronFire (expr : string) (now : Time) : option Time :=
  match parseCron expr with
  | None => None
  | Some c => cron_walk c Minute (Z.to_nat (60 * 24 * 370))
                (add_time (Truncate now Minute) Minute)
  end.

Definition period_length (p : WindowPeriod) : Duration :=
  match wp_Duration p with Some d => d | None => Hour end.

Definition inPeriod (p : WindowPeriod) (now : Time) : bool :=
  if match wp_From p with Some f => Before now f | None => false end then false
  else if match wp_Until p with Some u => After now u | None => false end then false
  else if is_empty (wp_Cron p) then negb (is_nil (wp_From p)) || negb (is_nil (wp_Until p))
  else match lastCronFire (wp_Cron p) now with
       | None => false
       | Some start => Before now (add_time start (period_length p))
       end.

Definition periodEnd (p : WindowPeriod) (now : Time) : option Time :=
  match wp_Until p with
  | Some t => Some t
  | None =>
      if is_empty (wp_Cron p) then None
      else match lastCronFire (wp_Cron p) now with
           | None => None
           | Some start => Some (add_time start (period_length p))
           end
  end.

Definition better (best : option Time) (t : Time) : option Time :=
  match best with
  | None => Some t
  | Some b => if Before t b then Some t else best
  end.

Definition opening_step (now : Time) (best : option Time) (p : WindowPeriod) : option Time :=
  match wp_From p with
  | Some f =>
      if Before now f then better best f
      else if is_empty (wp_Cron p) then best
      else match nextCronFire (wp_Cron p) now with Some t => better best t | None => best end
  | None =>
      if is_empty (wp_Cron p) then best
      else match nextCronFire (wp_Cron p) now with Some t => better best t | None => best end
  end.

Definition nextOpening (periods : list WindowPeriod) (now : Time) : option Time :=
  fold_left (opening_step now) periods None.
End Cron.

Definition reasonOr (p : WindowPeriod) (fallback : string) : string :=
  if negb (is_empty (wp_Reason p)) then wp_Reason p else fallback.

Section Evaluate.
(** The zone database of the system. *)
Context (LoadLocation : string -> option Location).

Definition window_location (spec : MaintenanceWindowSpec) : Location :=
  if is_empty (mws_Timezone spec) then UTC
  else match LoadLocation (mws_Timezone spec) with Some l => l | None => UTC end.

Definition EvaluateWindow (spec : MaintenanceWindowSpec) (now : Time) : WindowState :=
  let loc := window_location spec in
  match find (fun d => inPeriod loc d now) (mws_Deny spec) with
  | Some d =>
      mkWindowState false (reasonOr d "denied by policy") (periodEnd loc d now) None
  | None =>
      match mws_Allow spec with
      | [] => mkWindowState true "no schedule configured" None None
      | allow =>
          match find (fun a => inPeriod loc a now) allow with
          | Some a =>
              mkWindowState true (reasonOr a "within allowed window") None
                (periodEnd loc a now)
          | None =>
              mkWindowState false "outside all allowed windows"
                (nextOpening loc allow now) None
          end
      end
  end.
End Evaluate.

(** ** Lemmas *)

(** Instants a cron expression is tried at. *)
Definition on_minute (t : Time) : Prop := t mod Minute = 0.

Lemma cron_walk_spec loc c step fuel t :
  match cron_walk loc c step fuel t with
  | Some u => exists n, (n < fuel)%nat /\ u = t + Z.of_nat n * step /\
                matches loc c u = true /\
                forall m, (m < n)%nat -> matches loc c (t + Z.of_nat m * step) = false
  | None => forall m, (m < fuel)%nat -> matches loc c (t + Z.of_nat m * step) = false
  end.
Proof.
  revert t. induction fuel as [|k IH]; intros t; simpl; [intros; lia|].
  destruct (matches loc c t) eqn:E.
  - exists 0%nat. rewrite Z.mul_0_l, Z.add_0_r. split_and!; [lia|done|done|intros; lia].
  - specialize (IH (add_time t step)). unfold add_time in *.
    assert (forall m, t + Z.of_nat (S m) * step = t + step + Z.of_nat m * step) as Hm by lia.
    destruct (cron_walk loc c step k (t + step)) as [u|].
    + destruct IH as (n & Hn & Hu & Hmatch & Hno). exists (S n).
      rewrite Hm. split_and!; [lia|done|done|]. intros [|m] Hlt.
      * by rewrite Z.mul_0_l, Z.add_0_r.
      * rewrite Hm. apply Hno. lia.
    + intros [|m] Hlt; [by rewrite Z.mul_0_l, Z.add_0_r|]. rewrite Hm. apply IH. lia.
Qed.

Lemma on_minute_steps t u :
  on_minute t -> on_minute u -> exists k, u = t + k * Minute.
Proof.
  unfold on_minute. intros Ht Hu. exists (u / Minute - t / Minute).
  pose proof (Z.div_mod t Minute ltac:(done)). pose proof (Z.div_mod u Minute ltac:(done)). lia.
Qed.

Lemma on_minute_plus t k : on_minute t -> on_minute (t + k * Minute).
Proof. unfold on_minute. intros H. by rewrite Z.mod_add. Qed.

Lemma on_minute_Truncate t : on_minute (Truncate t Minute).
Proof. by apply Truncate_multiple. Qed.

Lemma on_minute_le_Truncate t u : on_minute u -> u <= t <-> u <= Truncate t Minute.
Proof.
  intros Hu. pose proof (Truncate_le t Minute ltac:(done)).
  destruct (on_minute_steps _ _ (on_minute_Truncate t) Hu) as (k & ->).
  change Minute with 60000000000 in *. nia.
Qed.

(** [inPeriod], without its early returns. *)
Definition covers (loc : Location) (p : WindowPeriod) (now : Time) : Prop :=
  (forall f, wp_From p = Some f -> f <= now) /\
  (forall u, wp_Until p = Some u -> now <= u) /\
  (if is_empty (wp_Cron p) then wp_From p <> None \/ wp_Until p <> None
   else exists s, lastCronFire loc (wp_Cron p) now = Some s /\ now < s + period_length p).

Lemma before_bound (o : option Time) (bad : Time -> bool) (ok : Time -> Prop) :
  (forall t, bad t = false <-> ok t) ->
  match o with Some t => bad t | None => false end = false <->
  forall t, o = Some t -> ok t.
Proof. intros H. destruct o as [t|]; [rewrite H|]; naive_solver. Qed.

Lemma inPeriod_covers loc p now : inPeriod loc p now = true <-> covers loc p now.
Proof.
  unfold inPeriod, covers.
  pose proof (before_bound (wp_From p) (Before now) (fun f => f <= now)) as HF.
  pose proof (before_bound (wp_Until p) (After now) (fun u => now <= u)) as HU.
  unfold Before, After in *. setoid_rewrite Z.ltb_ge in HF. setoid_rewrite Z.ltb_ge in HU.
  rewrite <- HF, <- HU by done. clear HF HU.
  destruct (match wp_From p with Some f => now <? f | None => false end); [naive_solver|].
  destruct (match wp_Until p with Some u => u <? now | None => false end); [naive_solver|].
  destruct (is_empty (wp_Cron p)).
  - destruct (wp_From p), (wp_Until p); naive_solver.
  - destruct (lastCronFire loc (wp_Cron p) now) as [s|]; [|naive_solver].
    unfold add_time. rewrite Z.ltb_lt. naive_solver.
Qed.

Lemma find_In {A} (p : A -> bool) l x : find p l = Some x -> In x l /\ p x = true.
Proof. apply find_some. Qed.

Lemma find_None_all {A} (p : A -> bool) l :
  find p l = None <-> forall x, In x l -> p x = false.
Proof.
  split; [apply find_none|]. induction l as [|x l IH]; intros H; [done|]. simpl.
  rewrite (H x (or_introl eq_refl)). apply IH. intros. apply H. by right.
Qed.

(** An announced end is not in the past. *)
Lemma periodEnd_future loc p now t :
  inPeriod loc p now = true -> periodEnd loc p now = Some t -> now <= t.
Proof.
  intros (_ & Hu & Hc)%inPeriod_covers. unfold periodEnd.
  destruct (wp_Until p) as [u|]; [intros [= <-]; by apply Hu|].
  destruct (is_empty (wp_Cron p)); [done|].
  destruct Hc as (s & -> & Hlt). unfold add_time. intros [= <-]. lia.
Qed.

(** The instant a period would next open, as [nextOpening] sees it. *)
Definition opens_at (loc : Location) (now : Time) (p : WindowPeriod) : option Time :=
  match wp_From p with
  | Some f => if now <? f then Some f
              else if is_empty (wp_Cron p) then None else nextCronFire loc (wp_Cron p) now
  | None => if is_empty (wp_Cron p) then None else nextCronFire loc (wp_Cron p) now
  end.

Lemma opening_step_opens_at loc now best p :
  opening_step loc now best p =
  match opens_at loc now p with Some t => better best t | None => best end.
Proof.
  unfold opening_step, opens_at, Before. destruct (wp_From p) as [f|].
  - destruct (now <? f); [done|]. by destruct (is_empty _).
  - by destruct (is_empty _).
Qed.

Lemma better_min best t :
  exists m, better best t = Some m /\ m <= t /\ (forall b, best = Some b -> m <= b) /\
            (m = t \/ best = Some m).
Proof.
  unfold better, Before. destruct best as [b|]; [|exists t; split_and!; try done; lia || auto].
  destruct (Z.ltb_spec t b); [exists t|exists b]; split_and!; try done; try lia;
    try (intros ? [= <-]; lia); auto.
Qed.

Lemma nextOpening_fold loc now ps best :
  match fold_left (opening_step loc now) ps best with
  | Some t => (best = Some t \/ exists p, In p ps /\ opens_at loc now p = Some t) /\
              (forall b, best = Some b -> t <= b) /\
              (forall p u, In p ps -> opens_at loc now p = Some u -> t <= u)
  | None => best = None /\ forall p, In p ps -> opens_at loc now p = None
  end.
Proof.
  revert best. induction ps as [|p ps IH]; intros best; simpl.
  - destruct best; naive_solver lia.
  - specialize (IH (opening_step loc now best p)).
    rewrite opening_step_opens_at in *.
    destruct (opens_at loc now p) as [u|] eqn:Eu.
    + destruct (better_min best u) as (m & Em & Hmu & Hmb & Hm). rewrite Em in *.
      destruct (fold_left _ ps (Some m)) as [t|]; [|by destruct IH].
      destruct IH as (Hor & Hb & Hall). specialize (Hb m eq_refl). split_and!.
      * destruct Hor as [[= ->]|(q & Hq & Hq')]; [|right; eauto].
        destruct Hm as [->| ->]; eauto.
      * intros b Hbb. specialize (Hmb b Hbb). lia.
      * intros q v [<-|Hq] Hv; [|eauto]. rewrite Eu in Hv. injection Hv as <-. lia.
    + destruct (fold_left _ ps best) as [t|]; [|naive_solver].
      destruct IH as (Hor & Hb & Hall). split_and!; [naive_solver|done|].
      intros q v [<-|Hq] Hv; [congruence|eauto].
Qed.

(** ** Properties *)

(** [lastCronFire] finds the latest minute, at or before now and less than two
    days back, at which the expression matches; it fails only when the expression
    does not parse or no minute of those two days matches. *)
Lemma lastCronFire_latest loc expr now :
  match lastCronFire loc expr now with
  | Some u =>
      exists c, parseCron expr = Some c /\ on_minute u /\ u <= now < u + 48 * Hour /\
        matches loc c u = true /\
        forall v, on_minute v -> u < v <= now -> matches loc c v = false
  | None =>
      forall c v, parseCron expr = Some c -> on_minute v -> v <= now < v + 48 * Hour ->
        matches loc c v = false
  end.
Proof.
  unfold lastCronFire. destruct (parseCron expr) as [c|]; [|done].
  pose proof (cron_walk_spec loc c (- Minute) (Z.to_nat (60 * 24 * 2)) (Truncate now Minute)) as H.
  pose proof (Truncate_le now Minute ltac:(done)) as HT.
  pose proof (on_minute_Truncate now) as HM.
  assert (48 * Hour = 2880 * Minute) as H48 by reflexivity. rewrite H48.
  assert (forall v, on_minute v -> v <= now ->
    exists m : nat, v = Truncate now Minute + Z.of_nat m * - Minute) as Hsteps.
  { intros v Hv Hle. apply on_minute_le_Truncate in Hle; [|done].
    destruct (on_minute_steps _ _ HM Hv) as (k & ->). exists (Z.to_nat (- k)).
    change Minute with 60000000000 in *. nia. }
  set (t0 := Truncate now Minute) in *.
  destruct (cron_walk loc c (- Minute) (Z.to_nat (60 * 24 * 2)) t0) as [u|].
  - destruct H as (n & Hn & Hu & Hmatch & Hno). exists c.
    replace (Z.of_nat n * - Minute) with (- Z.of_nat n * Minute) in Hu by lia.
    split_and!; try done.
    + subst u. by apply on_minute_plus.
    + change Minute with 60000000000 in *. lia.
    + change Minute with 60000000000 in *. lia.
    + intros v Hv Hr. destruct (Hsteps v Hv ltac:(lia)) as (m & ->).
      apply Hno. change Minute with 60000000000 in *. lia.
  - intros c' v [= <-] Hv Hr. destruct (Hsteps v Hv ltac:(lia)) as (m & ->).
    apply H. change Minute with 60000000000 in *. lia.
Qed.

(** [nextCronFire] finds the earliest minute after now at which the expression
    matches, looking 370 days ahead: past that horizon it gives up, and only
    then. *)
Lemma nextCronFire_earliest loc expr now :
  match nextCronFire loc expr now with
  | Some u =>
      exists c, parseCron expr = Some c /\ on_minute u /\ now < u <= now + 370 * 24 * Hour /\
        matches loc c u = true /\
        forall v, on_minute v -> now < v < u -> matches loc c v = false
  | None =>
      forall c v, parseCron expr = Some c -> on_minute v ->
        now < v <= now + 370 * 24 * Hour -> matches loc c v = false
  end.
Proof.
  unfold nextCronFire. destruct (parseCron expr) as [c|]; [|done].
  pose proof (cron_walk_spec loc c Minute (Z.to_nat (60 * 24 * 370))
    (add_time (Truncate now Minute) Minute)) as H.
  pose proof (Truncate_le now Minute ltac:(done)) as HT.
  pose proof (on_minute_Truncate now) as HM.
  assert (370 * 24 * Hour = 532800 * Minute) as HH by reflexivity. rewrite HH.
  unfold add_time in *.
  assert (forall v, on_minute v -> now < v ->
    exists m : nat, v = Truncate now Minute + Minute + Z.of_nat m * Minute) as Hsteps.
  { intros v Hv Hlt. destruct (on_minute_steps _ _ HM Hv) as (k & ->).
    exists (Z.to_nat (k - 1)). change Minute with 60000000000 in *. nia. }
  set (t0 := Truncate now Minute) in *.
  assert (Z.to_nat (60 * 24 * 370) = Z.to_nat 532800) as E by (f_equal; reflexivity).
  rewrite E in *. clear E.
  destruct (cron_walk loc c Minute (Z.to_nat 532800) (t0 + Minute)) as [u|].
  - destruct H as (n & Hn & Hu & Hmatch & Hno). exists c. split_and!; try done.
    + subst u. replace (t0 + Minute + Z.of_nat n * Minute)
        with (t0 + (1 + Z.of_nat n) * Minute) by lia. by apply on_minute_plus.
    + change Minute with 60000000000 in *. lia.
    + change Minute with 60000000000 in *. lia.
    + intros v Hv Hr. destruct (Hsteps v Hv ltac:(lia)) as (m & ->).
      apply Hno. change Minute with 60000000000 in *. lia.
  - intros c' v [= <-] Hv Hr. destruct (Hsteps v Hv ltac:(lia)) as (m & ->).
    apply H. change Minute with 60000000000 in *. lia.
Qed.

(** The instants that a period announces as its next opening: its start, if that is still
    to come, or else the first minute within 370 days at which its expression matches. *)
Inductive opening (loc : Location) (now : Time) (p : WindowPeriod) : Time -> Prop :=
| opens_from f : wp_From p = Some f -> now < f -> opening loc now p f
| opens_fire c t :
    (forall f, wp_From p = Some f -> f <= now) -> parseCron (wp_Cron p) = Some c ->
    on_minute t -> now < t <= now + 370 * 24 * Hour -> matches loc c t = true ->
    (forall v, on_minute v -> now < v < t -> matches loc c v = false) -> opening loc now p t.

(** What a period that covers now does until [t], the end it announces: it goes on
    covering, and when it covers again it has fired again. A cron expression with a last
    day is left out of the first, as it announces the day; and the search goes back
    two days only. *)
Record runs_until (loc : Location) (p : WindowPeriod) (now t : Time) : Prop := {
  ru_now : covers loc p now;
  ru_meanwhile : wp_Until p = None \/ wp_Cron p = ""%string ->
    forall v, now <= v < t ->
      (forall s, lastCronFire loc (wp_Cron p) now = Some s -> v < s + 48 * Hour) -> covers loc p v;
  ru_after : forall v, t <= v -> covers loc p v ->
    wp_Until p = Some v \/ exists s, now < s /\ lastCronFire loc (wp_Cron p) v = Some s
}.

Lemma nextCronFire_iff loc expr now t :
  nextCronFire loc expr now = Some t <->
  exists c, parseCron expr = Some c /\ on_minute t /\ now < t <= now + 370 * 24 * Hour /\
    matches loc c t = true /\ forall v, on_minute v -> now < v < t -> matches loc c v = false.
Proof.
  pose proof (nextCronFire_earliest loc expr now) as HN. split.
  - intros E. by rewrite E in HN.
  - intros (c & Hc & Hm & Hr & Hmatch & Hno).
    destruct (nextCronFire loc expr now) as [u|].
    + destruct HN as (c' & Hc' & Hm' & Hr' & Hmatch' & Hno'). rewrite Hc in Hc'. injection Hc' as <-.
      f_equal. destruct (Z.lt_trichotomy u t) as [Hlt|[->|Hlt]]; [|done|].
      * rewrite (Hno u) in Hmatch' by (done || lia). done.
      * rewrite (Hno' t) in Hmatch by (done || lia). done.
    + rewrite (HN c t Hc Hm) in Hmatch by lia. done.
Qed.

Lemma opens_at_opening loc now p t : opens_at loc now p = Some t <-> opening loc now p t.
Proof.
  unfold opens_at.
  assert ((forall f, wp_From p = Some f -> f <= now) ->
    (if is_empty (wp_Cron p) then None else nextCronFire loc (wp_Cron p) now) = Some t <->
    opening loc now p t) as Hfire.
  { intros Hf. destruct (is_empty (wp_Cron p)) eqn:Ee.
    - split; [done|]. intros [f Hf' Hlt|c t' _ Hc _ _ _ _]; [apply Hf in Hf'; lia|].
      by destruct (wp_Cron p).
    - rewrite nextCronFire_iff. split.
      + intros (c & ? & ? & ? & ? & ?). by eapply opens_fire.
      + intros [f Hf' Hlt|c t' _ ? ? ? ? ?]; [apply Hf in Hf'; lia|]. by exists c. }
  destruct (wp_From p) as [f|] eqn:Ef; [|by apply Hfire].
  destruct (Z.ltb_spec now f) as [Hlt|Hge].
  - split; [intros [= <-]; by apply opens_from|].
    intros [f' Hf' _|c t' Hf' _ _ _ _ _]; [congruence|]. specialize (Hf' f Ef). lia.
  - apply Hfire. intros ? [= <-]. lia.
Qed.

(** The last fire at two moments, with none in between. *)
Lemma lastCronFire_back loc expr now v s :
  lastCronFire loc expr v = Some s -> s <= now <= v -> lastCronFire loc expr now = Some s.
Proof.
  intros Hv Hr. pose proof (lastCronFire_latest loc expr v) as LV. rewrite Hv in LV.
  destruct LV as (c & Hc & Hm & Hsv & Hmatch & Hno).
  pose proof (lastCronFire_latest loc expr now) as LN. destruct (lastCronFire loc expr now) as [s'|].
  - destruct LN as (c' & Hc' & Hm' & Hsn & Hmatch' & Hno'). rewrite Hc in Hc'. injection Hc' as <-.
    f_equal. destruct (Z.lt_trichotomy s s') as [Hlt|[->|Hlt]]; [|done|].
    + rewrite (Hno s') in Hmatch' by (done || lia). done.
    + rewrite (Hno' s) in Hmatch by (done || lia). done.
  - rewrite (LN c s Hc Hm) in Hmatch by lia. done.
Qed.

(** A period that does not cover now covers nothing before the opening it announces. *)
Lemma covers_not_before loc p now v :
  ~ covers loc p now -> now < v <= now + 370 * 24 * Hour ->
  (forall u, opening loc now p u -> v < u) -> ~ covers loc p v.
Proof.
  intros Hnow Hv Hop (Hf & Hu & Hc). apply Hnow.
  assert (forall f, wp_From p = Some f -> f <= now) as Hf'.
  { intros f Ef. specialize (Hf f Ef). destruct (Z.le_gt_cases f now); [done|].
    enough (v < f) by lia. apply Hop. by apply opens_from. }
  split; [done|]. split; [intros u Eu; specialize (Hu u Eu); lia|].
  destruct (is_empty (wp_Cron p)); [done|]. destruct Hc as (s & Hs & Hlen).
  pose proof (lastCronFire_latest loc (wp_Cron p) v) as LV. rewrite Hs in LV.
  destruct LV as (c & Hc & Hm & Hsv & Hmatch & _).
  destruct (Z.le_gt_cases s now) as [Hle|Hgt].
  - exists s. split; [|lia]. eapply lastCronFire_back; [exact Hs|lia].
  - exfalso. pose proof (nextCronFire_earliest loc (wp_Cron p) now) as HN.
    destruct (nextCronFire loc (wp_Cron p) now) as [u|] eqn:Eu.
    + destruct HN as (c' & Hc' & Hm' & Hr' & Hmatch' & Hno'). rewrite Hc in Hc'. injection Hc' as <-.
      assert (v < u) by (apply Hop; by eapply opens_fire).
      rewrite (Hno' s) in Hmatch by (done || lia). done.
    + rewrite (HN c s Hc Hm) in Hmatch by lia. done.
Qed.

(** And it covers the opening it announces, if its last day permits and that instant is
    one at which its expression fires, or it has none. *)
Lemma opening_covers loc now p t :
  opening loc now p t -> (forall u, wp_Until p = Some u -> t <= u) -> 0 < period_length p ->
  (wp_From p = Some t -> wp_Cron p = ""%string) -> covers loc p t.
Proof.
  intros Ho Hu Hlen Hcron. destruct Ho as [f Hf Hlt|c t Hf Hc Hm Hr Hmatch Hno].
  - split; [intros ? E; rewrite Hf in E; injection E as <-; lia|]. split; [done|].
    rewrite (Hcron Hf). simpl. left. by rewrite Hf.
  - split; [intros f E; specialize (Hf f E); lia|]. split; [done|].
    destruct (is_empty (wp_Cron p)) eqn:Ee; [by destruct (wp_Cron p)|].
    exists t. split; [|lia]. pose proof (lastCronFire_latest loc (wp_Cron p) t) as HL.
    destruct (lastCronFire loc (wp_Cron p) t) as [s|].
    + destruct HL as (c' & Hc' & Hm' & Hr' & Hmatch' & Hno'). rewrite Hc in Hc'. injection Hc' as <-.
      destruct (decide (s = t)) as [->|Hne]; [done|]. rewrite (Hno' t) in Hmatch by (done || lia). done.
    + rewrite (HL c t Hc Hm) in Hmatch by (change (48 * Hour) with 172800000000000; lia). done.
Qed.

Lemma periodEnd_runs_until loc p now t :
  covers loc p now -> periodEnd loc p now = Some t -> runs_until loc p now t.
Proof.
  intros Hnow E. pose proof Hnow as (Hf & Hu & Hc). split; [done|..].
  - intros Hplain v Hv H48. split; [intros f Ef; specialize (Hf f Ef); lia|]. unfold periodEnd in E.
    destruct (wp_Until p) as [u|] eqn:Eu.
    + injection E as <-. destruct Hplain as [?|Hcron]; [done|]. split; [intros ? [= <-]; lia|].
      by rewrite Hcron in Hc |- *.
    + split; [done|]. destruct (is_empty (wp_Cron p)); [done|]. destruct Hc as (s & Hs & _).
      rewrite Hs in E. injection E as <-. specialize (H48 s Hs). unfold add_time in Hv.
      pose proof (lastCronFire_latest loc (wp_Cron p) now) as LN. rewrite Hs in LN.
      destruct LN as (c & Hc & Hm & Hsn & Hmatch & _).
      pose proof (lastCronFire_latest loc (wp_Cron p) v) as LV.
      destruct (lastCronFire loc (wp_Cron p) v) as [s'|].
      * exists s'. split; [done|]. destruct LV as (c' & Hc' & _ & _ & _ & Hno'). rewrite Hc in Hc'. injection Hc' as <-.
        destruct (Z.le_gt_cases s s') as [Hle|Hgt]; [lia|]. rewrite (Hno' s) in Hmatch by (done || lia). done.
      * rewrite (LV c s Hc Hm) in Hmatch by lia. done.
  - intros v Hv (_ & Hu' & Hc'). unfold periodEnd in E. destruct (wp_Until p) as [u|] eqn:Eu.
    + injection E as <-. left. specialize (Hu' u eq_refl). f_equal. lia.
    + right. destruct (is_empty (wp_Cron p)); [done|]. destruct Hc as (s & Hs & Hlt).
      rewrite Hs in E. injection E as <-. unfold add_time in Hv. destruct Hc' as (s' & Hs' & Hlt').
      exists s'. split; [|done]. destruct (Z.le_gt_cases s' now) as [Hle|?]; [|done].
      rewrite (lastCronFire_back _ _ now v s' Hs') in Hs by lia. injection Hs as ->. lia.
Qed.

(** C14. The two searches of cron expressions are exact. [lastCronFire] is the latest
    minute, at or before now and less than two days back, at which the expression
    matches; [nextCronFire] is the earliest one after now within 370 days. Each gives
    up only when the expression does not parse or no minute of its horizon matches. *)
Theorem cronFire_exact loc expr now :
  match lastCronFire loc expr now with
  | Some u =>
      exists c, parseCron expr = Some c /\ on_minute u /\ u <= now < u + 48 * Hour /\
        matches loc c u = true /\
        forall v, on_minute v -> u < v <= now -> matches loc c v = false
  | None =>
      forall c v, parseCron expr = Some c -> on_minute v -> v <= now < v + 48 * Hour ->
        matches loc c v = false
  end /\
  match nextCronFire loc expr now with
  | Some u =>
      exists c, parseCron expr = Some c /\ on_minute u /\ now < u <= now + 370 * 24 * Hour /\
        matches loc c u = true /\
        forall v, on_minute v -> now < v < u -> matches loc c v = false
  | None =>
      forall c v, parseCron expr = Some c -> on_minute v ->
        now < v <= now + 370 * 24 * Hour -> matches loc c v = false
  end.
Proof. split; [apply lastCronFire_latest|apply nextCronFire_earliest]. Qed.

(** C12. Deny beats Allow: a window is open exactly when no deny period covers the
    moment and either nothing is scheduled or an allow period covers it. *)
Theorem EvaluateWindow_open LoadLocation spec now :
  ws_Open (EvaluateWindow LoadLocation spec now) = true <->
  (forall d, In d (mws_Deny spec) -> ~ covers (window_location LoadLocation spec) d now) /\
  (mws_Allow spec = [] \/
   exists a, In a (mws_Allow spec) /\ covers (window_location LoadLocation spec) a now).
Proof.
  unfold EvaluateWindow. set (loc := window_location LoadLocation spec).
  destruct (find _ (mws_Deny spec)) as [d|] eqn:Ed.
  - apply find_In in Ed as [Hd Hc%inPeriod_covers]. naive_solver.
  - assert (forall d, In d (mws_Deny spec) -> ~ covers loc d now) as Hdeny.
    { intros d Hd Hc%inPeriod_covers.
      rewrite (proj1 (find_None_all _ _) Ed d Hd) in Hc. done. }
    destruct (mws_Allow spec) as [|a0 al]; [naive_solver|].
    destruct (find _ (a0 :: al)) as [a|] eqn:Ea.
    + apply find_In in Ea as [Ha Hc%inPeriod_covers]. naive_solver.
    + split; [done|]. intros [_ [?|(a & Ha & Hc%inPeriod_covers)]]; [done|].
      rewrite (proj1 (find_None_all _ _) Ea a Ha) in Hc. done.
Qed.

Lemma nextOpening_earliest loc now ps :
  match nextOpening loc ps now with
  | Some t => (exists a, In a ps /\ opening loc now a t) /\
              (forall a u, In a ps -> opening loc now a u -> t <= u)
  | None => forall a u, In a ps -> ~ opening loc now a u
  end.
Proof.
  pose proof (nextOpening_fold loc now ps None) as HF. unfold nextOpening.
  destruct (fold_left _ ps None) as [t|].
  - destruct HF as ([?|(p & Hp & Hop)] & _ & Hall); [done|]. split.
    + exists p. split; [done|]. by apply opens_at_opening.
    + intros a u Ha Hu%opens_at_opening. by apply (Hall a).
  - destruct HF as [_ Hnone]. intros a u Ha Hu%opens_at_opening. by rewrite (Hnone a Ha) in Hu.
Qed.

Lemma EvaluateWindow_closed LoadLocation spec v :
  mws_Allow spec <> [] ->
  (forall a, In a (mws_Allow spec) -> ~ covers (window_location LoadLocation spec) a v) ->
  ws_Open (EvaluateWindow LoadLocation spec v) = false.
Proof.
  intros Hne Hno. unfold EvaluateWindow. destruct (find _ (mws_Deny spec)); [done|].
  destruct (mws_Allow spec) as [|a0 al]; [done|].
  destruct (find _ (a0 :: al)) as [a|] eqn:Ea; [|done].
  apply find_In in Ea as [Ha Hc%inPeriod_covers]. by destruct (Hno a Ha).
Qed.

(** C13. What a window announces. An open window announces no opening and a closed one no
    closing, and no announced time is in the past. A period opens next at its start, if
    that is to come, or else at the next match of its expression within 370 days; a
    window closed by its schedule announces the earliest of these over its periods, and
    nothing if there is none. Until then, or for 370 days, it stays closed; and then it is
    an allowed moment, if the period lasts, is not over by then, and, should it recur, is
    not merely starting then. A window that a freeze closes announces the end of a freeze
    in force now, and an open one that of a period that allows now. After that end the
    period does not cover anything, but for the very instant of its last day, until it has
    fired again; and until that end it goes on, for two days at the longest if it recurs,
    and unless it recurs and has a last day, which is then what is announced. *)
Theorem EvaluateWindow_announces LoadLocation spec now :
  let loc := window_location LoadLocation spec in
  let w := EvaluateWindow LoadLocation spec in
  let denied := exists d, In d (mws_Deny spec) /\ covers loc d now in
  (ws_Open (w now) = true -> ws_NextOpen (w now) = None) /\
  (ws_Open (w now) = false -> ws_NextClose (w now) = None) /\
  (forall t, ws_NextOpen (w now) = Some t \/ ws_NextClose (w now) = Some t -> now <= t) /\
  (ws_Open (w now) = false -> ~ denied ->
   (forall t, ws_NextOpen (w now) = Some t <->
      (exists a, In a (mws_Allow spec) /\ opening loc now a t) /\
      (forall a u, In a (mws_Allow spec) -> opening loc now a u -> t <= u)) /\
   (forall v, now < v <= now + 370 * 24 * Hour ->
      (forall t, ws_NextOpen (w now) = Some t -> v < t) -> ws_Open (w v) = false) /\
   (forall a t, In a (mws_Allow spec) -> opening loc now a t -> ws_NextOpen (w now) = Some t ->
      (forall u, wp_Until a = Some u -> t <= u) -> 0 < period_length a ->
      (wp_From a = Some t -> wp_Cron a = ""%string) -> covers loc a t)) /\
  (forall t, denied -> ws_NextOpen (w now) = Some t ->
     exists d, In d (mws_Deny spec) /\ runs_until loc d now t) /\
  (forall t, ws_NextClose (w now) = Some t ->
     exists a, In a (mws_Allow spec) /\ runs_until loc a now t).
Proof.
  intros loc w denied.
  destruct (find (fun d => inPeriod loc d now) (mws_Deny spec)) as [d|] eqn:Ed.
  { assert (w now = mkWindowState false (reasonOr d "denied by policy") (periodEnd loc d now) None) as ->
      by (unfold w, EvaluateWindow; fold loc; by rewrite Ed).
    apply find_In in Ed as [Hd Hin]. pose proof (proj1 (inPeriod_covers _ _ _) Hin) as Hcov.
    simpl. split_and!; try done.
    - intros t [Ht|Ht]; [by eapply periodEnd_future|done].
    - intros _ []. by exists d.
    - intros t _ Ht. exists d. split; [done|]. by apply periodEnd_runs_until. }
  assert (~ denied) as Hnd.
  { intros (d & Hd & Hc%inPeriod_covers). by rewrite (proj1 (find_None_all _ _) Ed d Hd) in Hc. }
  destruct (mws_Allow spec) as [|a0 al] eqn:Eal.
  { assert (w now = mkWindowState true "no schedule configured" None None) as ->
      by (unfold w, EvaluateWindow; fold loc; by rewrite Ed, Eal). simpl. naive_solver. }
  rewrite <- Eal. destruct (find (fun a => inPeriod loc a now) (mws_Allow spec)) as [a|] eqn:Ea.
  { assert (w now = mkWindowState true (reasonOr a "within allowed window") None (periodEnd loc a now)) as ->
      by (unfold w, EvaluateWindow; fold loc; rewrite Ed, Eal; rewrite Eal in Ea; by rewrite Ea).
    apply find_In in Ea as [Ha Hin]. pose proof (proj1 (inPeriod_covers _ _ _) Hin) as Hcov.
    simpl. split_and!; try done.
    - intros t [Ht|Ht]; [done|by eapply periodEnd_future].
    - intros t Ht. exists a. split; [done|]. by apply periodEnd_runs_until. }
  assert (w now = mkWindowState false "outside all allowed windows" (nextOpening loc (mws_Allow spec) now) None) as ->
    by (unfold w, EvaluateWindow; fold loc; rewrite Ed, Eal; rewrite Eal in Ea; by rewrite Ea).
  assert (forall a, In a (mws_Allow spec) -> ~ covers loc a now) as Hna.
  { intros a Ha Hc%inPeriod_covers. by rewrite (proj1 (find_None_all _ _) Ea a Ha) in Hc. }
  simpl. pose proof (nextOpening_earliest loc now (mws_Allow spec)) as HF.
  split_and!; try done.
  - intros t [Ht|?]; [|done]. rewrite Ht in HF. destruct HF as [(a & _ & Ho) _]. destruct Ho; lia.
  - intros _ _. split_and!.
    + intros t. destruct (nextOpening loc (mws_Allow spec) now) as [t'|].
      * destruct HF as [(p & Hp & Hop) Hall]. split; [intros [= <-]; split; [by exists p|done]|].
        intros [(a & Ha & Hoa) Hmin]. f_equal. specialize (Hmin p t' Hp Hop).
        specialize (Hall a t Ha Hoa). lia.
      * split; [done|]. intros [(a & Ha & Hoa) _]. by destruct (HF a t Ha).
    + intros v Hv Hbefore. apply EvaluateWindow_closed; [by rewrite Eal|]. intros a Ha.
      apply (covers_not_before loc a now v (Hna a Ha) Hv). intros u Hu.
      destruct (nextOpening loc (mws_Allow spec) now) as [t|]; [|by destruct (HF a u Ha)].
      destruct HF as [_ Hall]. specialize (Hall a u Ha Hu). specialize (Hbefore t eq_refl). lia.
    + intros a t _ Ho _. by apply (opening_covers loc now).
Qed.

(** However long its [Duration], a cron period stays open for at most two days
    after it fires, because that is how far back the search goes: past that, a
    longer allow window is shut and a longer freeze is lifted early. *)
Theorem inPeriod_two_day_cap loc p now s :
  is_empty (wp_Cron p) = false ->
  inPeriod loc p now = true -> lastCronFire loc (wp_Cron p) now = Some s ->
  s <= now < s + 48 * Hour /\ now < s + period_length p.
Proof.
  intros Hc Hin Hs. apply inPeriod_covers in Hin as (_ & _ & Hper). rewrite Hc in Hper.
  destruct Hper as (s' & Hs' & Hlt). rewrite Hs in Hs'. injection Hs' as <-.
  pose proof (lastCronFire_latest loc (wp_Cron p) now) as H. rewrite Hs in H.
  destruct H as (c & _ & _ & Hr & _). done.
Qed.

(** From Saturday midnight for three days, asked on Saturday and on Monday noon. *)
Definition long_weekend : WindowPeriod :=
  mkWindowPeriod "0 0 * * 6" (Some (72 * Hour)) None None "stocktaking".

Example long_weekend_ends_early :
  inPeriod UTC long_weekend (instant 2026 8 29 12 0 0) = true /\
  inPeriod UTC long_weekend (instant 2026 8 31 12 0 0) = false /\
  instant 2026 8 31 12 0 0 < instant 2026 8 29 0 0 0 + period_length long_weekend.
Proof. split_and!; vm_compute; reflexivity. Qed.

Lemma inPeriod_two_day_cap_witness :
  instant 2026 8 29 12 0 0 < instant 2026 8 29 0 0 0 + 48 * Hour.
Proof.
  apply (inPeriod_two_day_cap UTC long_weekend (instant 2026 8 29 12 0 0)
           (instant 2026 8 29 0 0 0)); vm_compute; reflexivity.
Defined.

(** The nightly schedule with a holiday freeze of window_test.go. *)
Definition nightly : MaintenanceWindowSpec :=
  mkMaintenanceWindowSpec None
    [mkWindowPeriod "0 2 * * *" (Some (2 * Hour)) None None "nightly maintenance"]
    [mkWindowPeriod "" None (Some (instant 2026 12 20 0 0 0)) (Some (instant 2027 1 5 0 0 0))
       "holiday change freeze"] "UTC" None 0.

Example nightly_verdicts :
  map (fun t => ws_Open (EvaluateWindow (fun _ => Some UTC) nightly t))
    [instant 2026 8 30 2 30 0; instant 2026 8 30 4 30 0; instant 2026 8 30 14 0 0;
     instant 2026 12 25 2 30 0] = [true; false; false; false].
Proof. vm_compute; reflexivity. Qed.
Example nightly_next_opening :
  ws_NextOpen (EvaluateWindow (fun _ => Some UTC) nightly (instant 2026 8 30 14 0 0))
  = Some (instant 2026 8 31 2 0 0).
Proof. vm_compute; reflexivity. Qed.

(** Announcements that are not so: a schedule with a last day announces the day as
    tonight's end, and goes on announcing openings once it is past; and one with a first
    day announces that day, at an hour at which it does not open. *)
Definition season (from until : option Time) : MaintenanceWindowSpec :=
  mkMaintenanceWindowSpec None [mkWindowPeriod "0 2 * * *" (Some (2 * Hour)) from until "season"] [] "UTC" None 0.
Definition in_season (from until : option Time) (t : Time) : WindowState :=
  EvaluateWindow (fun _ => Some UTC) (season from until) t.

Example season_closes_tonight :
  let until := Some (instant 2027 1 5 0 0 0) in
  ws_NextClose (in_season None until (instant 2026 8 30 2 30 0)) = until /\
  ws_Open (in_season None until (instant 2026 8 30 4 30 0)) = false.
Proof. vm_compute; done. Qed.
Example season_over :
  let until := Some (instant 2026 8 1 0 0 0) in
  ws_NextOpen (in_season None until (instant 2026 8 30 14 0 0)) = Some (instant 2026 8 31 2 0 0) /\
  ws_Open (in_season None until (instant 2026 8 31 2 0 0)) = false.
Proof. vm_compute; done. Qed.
Example season_to_come :
  let from := Some (instant 2026 9 1 12 0 0) in
  ws_NextOpen (in_season from None (instant 2026 8 30 14 0 0)) = from /\
  ws_Open (in_season from None (instant 2026 9 1 12 0 0)) = false.
Proof. vm_compute; done. Qed.
