(* ===== verification/Contact.v ===== *)
(** * Contact windows: internal/window.go, second half

    What a device's past contacts say about its next one. The gaps, their mean and
    the coefficient of variation are computed with Go's [int64] and [float64]. *)

From S2P Require Import Prelude GoTime GoFloat GoStrings Types Capability.
Local Open Scope Z_scope.

(** ** Definitions *)

(** [contacts[i].Sub(contacts[i-1])] for every [i], the positive ones. *)
Fixpoint contact_gaps (contacts : list Time) : list Duration :=
  match contacts with
  | a :: ((b :: _) as rest) =>
      let g := sub_time b a in
      if g >? 0 then g :: contact_gaps rest else contact_gaps rest
  | _ => []
  end.

Definition sum_wrap64 (l : list Duration) : Duration :=
  fold_left (fun total g => wrap64 (total + g)) l 0.

(** [sqrt]: twenty rounds of Newton's method from [x]. *)
Definition newton_step (x z : float64) : float64 :=
  f_div (f_add z (f_div x z)) (f_of_Z 2).

Definition sqrt (x : float64) : float64 :=
  if f_le x (f_of_Z 0) then f_of_Z 0 else Nat.iter 20 (newton_step x) x.

(** Decimal constants: the quotient is rounded to the nearest float, as the
    literal is. *)
Definition f_hundredths (n : Z) : float64 := f_div (f_of_Z n) (f_of_Z 100).

Definition square_sum (mean : Duration) (gaps : list Duration) : float64 :=
  fold_left (fun s g => let d := f_of_Z (wrap64 (g - mean)) in f_add s (f_mul d d))
    gaps (f_of_Z 0).

Definition variation (mean : Duration) (gaps : list Duration) : float64 :=
  let stddev := f_to_int64 (sqrt (f_div (square_sum mean gaps)
                                        (f_of_Z (Z.of_nat (length gaps))))) in
  if mean >? 0 then f_div (f_of_Z stddev) (f_of_Z mean) else f_of_Z 1.

Definition confidence_of (n : Z) (cv : float64) : string :=
  if (n >=? 10) && f_lt cv (f_hundredths 15) then ConfidenceHigh
  else if (n >=? 5) && f_lt cv (f_hundredths 35) then ConfidenceMedium
  else if n >=? 3 then ConfidenceLow
  else ConfidenceNone.

Definition LearnContactWindow (transport : string) (contacts : list Time) (now : Time)
  : ContactWindow :=
  let w := mkContactWindow transport None None None ConfidenceNone (len32 contacts) in
  if (length contacts <? 2)%nat then w
  else
    let gaps := contact_gaps contacts in
    match gaps with
    | [] => w
    | _ =>
        let n := Z.of_nat (length gaps) in
        let mean := Z.quot (sum_wrap64 gaps) n in
        let confidence := confidence_of n (variation mean gaps) in
        let next := add_time (List.last contacts zero_time) mean in
        let expected :=
          if negb (str_eq confidence ConfidenceNone) && After next now then Some next else None in
        mkContactWindow transport (Some mean) None expected confidence (len32 contacts)
    end.

Definition CanCompleteInWindow (w : option ContactWindow) (need : Duration) : bool * string :=
  match w ≫= cw_TypicalDuration with
  | None => (true, ""%string)
  | Some d =>
      if d >=? need then (true, ""%string)
      else (false, ("contact lasts ~" +:+ shortDuration d +:+ ", transfer needs ~" +:+
                    shortDuration need +:+
                    " — will never complete on this transport")%string)
  end.

(** ** Lemmas *)

Lemma contact_gaps_positive contacts : Forall (fun g => 0 < g <= MaxInt64) (contact_gaps contacts).
Proof.
  induction contacts as [|a rest IH]; [constructor|]. destruct rest as [|b rest]; [constructor|].
  change (contact_gaps (a :: b :: rest)) with
    (if sub_time b a >? 0 then sub_time b a :: contact_gaps (b :: rest)
     else contact_gaps (b :: rest)).
  pose proof (sub_time_range b a).
  destruct (Z.gtb_spec (sub_time b a) 0); [constructor; [lia|done]|done].
Qed.

Lemma contact_gaps_length contacts : (length (contact_gaps contacts) <= length contacts - 1)%nat.
Proof.
  induction contacts as [|a rest IH]; [simpl; lia|]. destruct rest as [|b rest]; [simpl; lia|].
  change (contact_gaps (a :: b :: rest)) with
    (if sub_time b a >? 0 then sub_time b a :: contact_gaps (b :: rest)
     else contact_gaps (b :: rest)).
  destruct (_ >? 0); simpl in *; lia.
Qed.

Lemma sum_wrap64_exact l acc :
  Forall (fun g => 0 <= g) l -> 0 <= acc -> acc + fold_right Z.add 0 l <= MaxInt64 ->
  fold_left (fun total g => wrap64 (total + g)) l acc = acc + fold_right Z.add 0 l.
Proof.
  intros Hl. revert acc. induction Hl as [|g l Hg Hl IH]; intros acc Hacc Hmax; simpl in *; [lia|].
  assert (0 <= fold_right Z.add 0 l) by (clear -Hl; induction Hl; simpl; lia).
  rewrite wrap64_id by (unfold MinInt64, MaxInt64 in *; lia).
  rewrite IH; lia.
Qed.

(** The mean of gaps that all lie in an interval lies in it. *)
Lemma mean_between lo hi l :
  0 <= lo -> l <> [] -> Forall (fun g => lo <= g <= hi) l ->
  fold_right Z.add 0 l <= MaxInt64 ->
  lo <= Z.quot (sum_wrap64 l) (Z.of_nat (length l)) <= hi.
Proof.
  intros Hlo Hne Hl Hmax.
  assert (Forall (fun g => 0 <= g) l) as Hpos by (eapply Forall_impl; [exact Hl|simpl; lia]).
  unfold sum_wrap64. rewrite sum_wrap64_exact by (done || lia).
  assert (Z.of_nat (length l) * lo <= fold_right Z.add 0 l <= Z.of_nat (length l) * hi) as Hb.
  { clear -Hl. induction Hl; simpl fold_right; simpl length; lia. }
  assert (0 < Z.of_nat (length l)) by (destruct l; [done|simpl; lia]).
  assert (0 <= fold_right Z.add 0 l) by (clear -Hpos; induction Hpos; simpl; lia).
  rewrite Z.add_0_l, Z.quot_div_nonneg by lia. split.
  - apply Z.div_le_lower_bound; lia.
  - apply Z.div_le_upper_bound; lia.
Qed.

Lemma confidence_of_evidence n cv :
  (confidence_of n cv = ConfidenceHigh -> 10 <= n /\ f_lt cv (f_hundredths 15) = true) /\
  (confidence_of n cv = ConfidenceMedium -> 5 <= n /\ f_lt cv (f_hundredths 35) = true) /\
  (confidence_of n cv = ConfidenceLow -> 3 <= n) /\
  (confidence_of n cv = ConfidenceNone -> n < 3).
Proof.
  unfold confidence_of.
  destruct (Z.geb_spec n 10), (f_lt cv (f_hundredths 15)), (Z.geb_spec n 5),
    (f_lt cv (f_hundredths 35)), (Z.geb_spec n 3); simpl; split_and!; try done; try lia.
Qed.

Lemma confidence_of_few n cv : n < 3 -> confidence_of n cv = ConfidenceNone.
Proof.
  intros H. unfold confidence_of. replace (n >=? 10) with false by lia.
  replace (n >=? 5) with false by lia. by replace (n >=? 3) with false by lia.
Qed.

(** Without the early returns: they are the case of no positive gap. *)
Lemma LearnContactWindow_unfold transport contacts now :
  LearnContactWindow transport contacts now =
  let gaps := contact_gaps contacts in
  let n := Z.of_nat (length gaps) in
  let mean := Z.quot (sum_wrap64 gaps) n in
  let confidence := confidence_of n (variation mean gaps) in
  let next := add_time (List.last contacts zero_time) mean in
  if is_nil (head gaps)
  then mkContactWindow transport None None None ConfidenceNone (len32 contacts)
  else mkContactWindow transport (Some mean) None
         (if negb (str_eq confidence ConfidenceNone) && After next now then Some next else None)
         confidence (len32 contacts).
Proof.
  unfold LearnContactWindow. destruct (Nat.ltb_spec (length contacts) 2) as [Hlt|_].
  - pose proof (contact_gaps_length contacts).
    assert (contact_gaps contacts = []) as -> by (apply length_zero_iff_nil; lia). done.
  - by destruct (contact_gaps contacts).
Qed.

(** ** Properties *)

(** A prediction needs evidence and is a prediction: a rating of High needs at
    least ten positive gaps between contacts and a coefficient of variation under
    0.15, Medium five and 0.35, Low three; and a next contact is announced only
    with some confidence, lies in the future, and is the last contact plus the
    typical interval. *)
Theorem LearnContactWindow_evidence transport contacts now :
  let w := LearnContactWindow transport contacts now in
  let gaps := contact_gaps contacts in
  let n := Z.of_nat (length gaps) in
  let cv := variation (Z.quot (sum_wrap64 gaps) n) gaps in
  (cw_Confidence w = ConfidenceHigh -> 10 <= n /\ f_lt cv (f_hundredths 15) = true) /\
  (cw_Confidence w = ConfidenceMedium -> 5 <= n /\ f_lt cv (f_hundredths 35) = true) /\
  (cw_Confidence w = ConfidenceLow -> 3 <= n) /\
  (forall t, cw_NextExpected w = Some t ->
     3 <= n /\ now < t /\
     exists mean, cw_TypicalInterval w = Some mean /\ t = List.last contacts zero_time + mean).
Proof.
  intros w gaps n cv. subst w. rewrite LearnContactWindow_unfold.
  cbv zeta. fold gaps. fold n. fold cv.
  destruct (is_nil (head gaps)); simpl; [by split_and!|].
  pose proof (confidence_of_evidence n cv) as (H1 & H2 & H3 & _).
  split_and!; try done. intros t.
  destruct (str_eq (confidence_of n cv) ConfidenceNone) eqn:E; [done|]. simpl.
  unfold After, add_time. case_match eqn:Hlt; [|done]. apply Z.ltb_lt in Hlt.
  intros [= <-]. split_and!; [|done|eexists; done].
  apply str_eq_false in E. destruct (Z.lt_ge_cases n 3) as [Hn|Hn]; [|done].
  by destruct E; apply confidence_of_few.
Qed.

(** The typical interval is a mean: while the gaps sum to an [int64], it lies
    between the shortest and the longest positive gap observed. *)
Theorem LearnContactWindow_interval transport contacts now lo hi mean :
  0 <= lo -> Forall (fun g => lo <= g <= hi) (contact_gaps contacts) ->
  fold_right Z.add 0 (contact_gaps contacts) <= MaxInt64 ->
  cw_TypicalInterval (LearnContactWindow transport contacts now) = Some mean ->
  lo <= mean <= hi.
Proof.
  intros Hlo Hl Hmax. rewrite LearnContactWindow_unfold. cbv zeta.
  destruct (contact_gaps contacts) as [|g gs] eqn:Eg; [done|].
  intros [= <-]. by apply mean_between.
Qed.

(** Contacts every four hours, and the erratic ones of window_test.go. *)
Definition regular_contacts : list Time :=
  map (fun i => instant 2026 8 30 0 0 0 + Z.of_nat i * (4 * Hour)) (seq 0 12).
Definition erratic_contacts : list Time :=
  map (fun h => instant 2026 8 30 0 0 0 + h * Hour) [0; 1; 9; 10].

Lemma LearnContactWindow_interval_witness :
  1 * Hour <= (10 * Hour) / 3 <= 8 * Hour.
Proof.
  apply (LearnContactWindow_interval "wifi" erratic_contacts (instant 2026 9 1 2 0 0)).
  - vm_compute. discriminate.
  - replace (contact_gaps erratic_contacts) with [Hour; 8 * Hour; Hour]
      by (vm_compute; reflexivity).
    repeat constructor; vm_compute; discriminate.
  - vm_compute. discriminate.
  - vm_compute. reflexivity.
Defined.

Example contact_confidence :
  map (fun c => cw_Confidence (LearnContactWindow "wifi" c (instant 2026 9 1 2 0 0)))
    [regular_contacts; erratic_contacts; [instant 2026 8 30 0 0 0]]
  = [ConfidenceHigh; ConfidenceLow; ConfidenceNone].
Proof. vm_compute; reflexivity. Qed.

Example transfer_does_not_fit :
  fst (CanCompleteInWindow (Some (mkContactWindow "wifi" None (Some (30 * Second)) None "" 0))
         (2 * Minute)) = false.
Proof. reflexivity. Qed.
