(* ===== verification/Query.v ===== *)
(** * Fleet queries: internal/query.go

    Predicates over derived state, and the status a query reports. *)

From S2P Require Import Prelude GoTime GoStrings Types Capability Planner.
Local Open Scope Z_scope.

(** ** Definitions *)

Definition strMatch (m : StringMatch) (v : string) : bool :=
  if negb (is_empty (sm_Equals m)) && negb (str_eq v (sm_Equals m)) then false
  else if negb (is_nil (head (sm_In m))) && negb (contains (sm_In m) v) then false
  else if negb (is_nil (head (sm_NotIn m))) && contains (sm_NotIn m) v then false
  else true.

Definition anyMatch (m : StringMatch) (vals : list string) : bool :=
  if negb (is_nil (head (sm_NotIn m))) && existsb (contains (sm_NotIn m)) vals then false
  else if is_empty (sm_Equals m) && is_nil (head (sm_In m)) then true
  else existsb (fun v => (negb (is_empty (sm_Equals m)) && str_eq v (sm_Equals m)) ||
                         (negb (is_nil (head (sm_In m))) && contains (sm_In m) v)) vals.

Definition actionable (l : DeviceLiveness) : bool * string :=
  let state := st_State (dl_Status l) in
  if str_eq state StateUnreachable then (false, "unreachable"%string)
  else if str_eq state StateUnknown then (false, "never reported"%string)
  else if str_eq state StateSleeping then (false, "sleeping"%string)
  else match st_Capability (dl_Status l) with
       | None => (false, "capability unknown"%string)
       | Some c =>
           if negb (fst (fst (CanAcceptOTA c 0))) then (false, "no ota-capable transport"%string)
           else if negb (reachableOverOTA c) then (false, "ota transport not up"%string)
           else (true, ""%string)
       end.

(** A test that an absent field passes. *)
Definition when {A} (o : option A) (test : A -> bool) : bool :=
  match o with None => true | Some a => test a end.

(** [matches]: the source's chain of early [return false]s is a conjunction. *)
Fixpoint matches (p : QueryPredicate) (l : DeviceLiveness) (now : Time) : bool :=
  let st := dl_Status l in
  let cap := st_Capability st in
  let of_cap {A} (absent : A) (f : DeviceCapability -> A) :=
    match cap with None => absent | Some c => f c end in
  negb (match qp_Not p with Some q => matches q l now | None => false end) &&
  when (qp_State p) (fun m => strMatch m (st_State st)) &&
  when (qp_Transport p) (fun m =>
    anyMatch m (of_cap [] (fun c => map tr_Type (cap_Transports c)))) &&
  when (qp_ReachableVia p) (fun m => anyMatch m (of_cap [] cap_ReachableVia)) &&
  when (qp_RunningConfigHash p) (fun m =>
    strMatch m (of_cap ""%string cap_RunningConfigHash)) &&
  when (qp_OTACapable p) (fun want =>
    Bool.eqb (of_cap false (fun c => fst (fst (CanAcceptOTA c 0)))) want) &&
  when (qp_OTAReachable p) (fun want =>
    Bool.eqb (of_cap false (fun c => fst (fst (CanAcceptOTA c 0)) && reachableOverOTA c)) want) &&
  when (qp_SilentLongerThan p) (fun d =>
    match st_LastSeen st with
    | None => false
    | Some seen => negb (sub_time now seen <? d)
    end) &&
  when (qp_SilentBeyondExpected p) (fun want =>
    Bool.eqb (str_eq (st_State st) StateUnreachable) want) &&
  when (qp_BatteryBelowPercent p) (fun pct =>
    of_cap false (fun c => if cap_BatteryPercent c =? 0 then false
                           else negb (cap_BatteryPercent c >=? pct))).

Definition query_result (l : DeviceLiveness) : QueryResult :=
  let '(act, reason) := actionable l in
  mkQueryResult (dl_Name l) (st_State (dl_Status l)) (st_Transport (dl_Status l))
    (match st_Capability (dl_Status l) with
     | Some c => cap_RunningConfigHash c | None => ""%string end)
    (st_SilentFor (dl_Status l)) act reason.

Definition summary_key (r : QueryResult) : string :=
  if qr_Actionable r then "actionable"%string else qr_Reason r.

Definition selected (spec : FleetQuerySpec) (now : Time) (l : DeviceLiveness) : bool :=
  when (fq_Where spec) (fun p => matches p l now).

Definition query_step (spec : FleetQuerySpec) (now : Time) (limit : Z)
    (out : FleetQueryStatus) (l : DeviceLiveness) : FleetQueryStatus :=
  if negb (selected spec now l) then out
  else
    let r := query_result l in
    let room := Z.of_nat (length (fqs_Devices out)) <? limit in
    mkFleetQueryStatus (incr32 (fqs_Matched out)) (fqs_Evaluated out)
      (if room then fqs_Devices out ++ [r] else fqs_Devices out)
      (if room then fqs_Truncated out else true)
      (bump (summary_key r) (fqs_Summary out))
      (fqs_LastEvaluated out) (fqs_Conditions out).

Definition query_limit (spec : FleetQuerySpec) : Z :=
  if fq_Limit spec <=? 0 then 100 else fq_Limit spec.

Definition EvaluateQuery (spec : FleetQuerySpec) (livenesses : list DeviceLiveness) (now : Time)
  : FleetQueryStatus :=
  let out := fold_left (query_step spec now (query_limit spec)) livenesses
    (mkFleetQueryStatus 0 (len32 livenesses) [] false ∅ None []) in
  mkFleetQueryStatus (fqs_Matched out) (fqs_Evaluated out) (fqs_Devices out)
    (fqs_Truncated out) (fqs_Summary out) (Some now) (fqs_Conditions out).

Definition QuerySummaryLine (st : FleetQueryStatus) : string :=
  let act := default 0 (fqs_Summary st !! "actionable"%string) in
  (pretty (fqs_Matched st) +:+ " matched, " +:+ pretty act +:+ " actionable now, " +:+
   pretty (wrap32 (fqs_Matched st - act)) +:+ " need something else")%string.

(** ** Lemmas *)

Section Fold.
Context (spec : FleetQuerySpec) (now : Time) (limit : Z) (Hlimit : 0 <= limit).

(** The status after a prefix of the fleet. *)
Lemma query_fold ls total :
  fold_left (query_step spec now limit) ls (mkFleetQueryStatus 0 total [] false ∅ None []) =
  let sel := List.filter (selected spec now) ls in
  mkFleetQueryStatus (wrap32 (Z.of_nat (length sel))) total
    (firstn (Z.to_nat limit) (map query_result sel))
    (bool_decide (limit < Z.of_nat (length sel)))
    (fold_left (fun m key => bump key m) (map summary_key (map query_result sel)) ∅) None [].
Proof using Hlimit.
  cbv zeta. induction ls as [|l ls IH] using rev_ind.
  - simpl. rewrite firstn_nil. f_equal. by rewrite bool_decide_eq_false_2 by lia.
  - rewrite fold_left_app, List.filter_app, IH. simpl. unfold query_step.
    destruct (selected spec now l); simpl; [|by rewrite app_nil_r].
    set (sel := List.filter (selected spec now) ls).
    rewrite !map_app, fold_left_app, length_app. simpl.
    rewrite length_firstn, length_map.
    destruct (Z.ltb_spec (Z.of_nat (Z.to_nat limit `min` length sel)) limit) as [Hr|Hr].
    + assert (Z.of_nat (length sel) < limit) by lia. f_equal.
      * rewrite incr32_wrap. f_equal. lia.
      * rewrite !firstn_all2; [done|rewrite length_app|]; rewrite length_map; simpl; lia.
      * rewrite !bool_decide_eq_false_2; [done|lia..].
    + f_equal.
      * rewrite incr32_wrap. f_equal. lia.
      * rewrite firstn_app, length_map.
        replace (Z.to_nat limit - length sel)%nat with 0%nat by lia.
        simpl. by rewrite app_nil_r.
      * rewrite bool_decide_eq_true_2; [done|lia].
Qed.
End Fold.

(** ** Specification of the predicates *)

Definition str_ok (m : StringMatch) (v : string) : Prop :=
  (sm_Equals m <> ""%string -> v = sm_Equals m) /\
  (sm_In m <> [] -> In v (sm_In m)) /\ ~ In v (sm_NotIn m).

Definition any_ok (m : StringMatch) (vals : list string) : Prop :=
  (forall v, In v vals -> ~ In v (sm_NotIn m)) /\
  ((sm_Equals m = ""%string /\ sm_In m = []) \/
   exists v, In v vals /\ ((sm_Equals m <> ""%string /\ v = sm_Equals m) \/ In v (sm_In m))).

Lemma nonempty_In (l : list string) v :
  negb (is_nil (head l)) && contains l v = contains l v.
Proof. by destruct l. Qed.

Lemma is_nil_head (l : list string) : is_nil (head l) = true <-> l = [].
Proof. by destruct l. Qed.

Lemma is_empty_spec s : is_empty s = true <-> s = ""%string.
Proof. apply str_eq_true. Qed.
Lemma is_empty_false s : is_empty s = false <-> s <> ""%string.
Proof. apply str_eq_false. Qed.

Lemma unless_spec (b c : bool) (P Q : Prop) :
  (b = true <-> P) -> (c = true <-> Q) -> {P} + {~ P} ->
  b || c = true <-> (~ P -> Q).
Proof. intros HP HQ [?|?]; rewrite orb_true_iff; tauto. Qed.

Lemma strMatch_ok m v : strMatch m v = true <-> str_ok m v.
Proof.
  transitivity ((is_empty (sm_Equals m) || str_eq v (sm_Equals m)) &&
    ((is_nil (head (sm_In m)) || contains (sm_In m) v) && negb (contains (sm_NotIn m) v)) = true).
  - unfold strMatch. rewrite nonempty_In.
    destruct (is_empty (sm_Equals m)), (str_eq v (sm_Equals m)), (is_nil (head (sm_In m))),
      (contains (sm_In m) v), (contains (sm_NotIn m) v); done.
  - unfold str_ok. rewrite !andb_true_iff, negb_true_iff, contains_false.
    f_equiv; [apply unless_spec; [apply is_empty_spec|apply str_eq_true|exact (decide _)]|].
    f_equiv. apply unless_spec; [apply is_nil_head|apply contains_In|exact (decide _)].
Qed.

Lemma anyMatch_ok m vals : anyMatch m vals = true <-> any_ok m vals.
Proof.
  unfold anyMatch, any_ok.
  assert (negb (is_nil (head (sm_NotIn m))) && existsb (contains (sm_NotIn m)) vals
          = existsb (contains (sm_NotIn m)) vals) as ->.
  { destruct (sm_NotIn m); [|done]. simpl. symmetry. apply not_true_is_false.
    rewrite existsb_exists. by intros (v & _ & H). }
  destruct (existsb (contains (sm_NotIn m)) vals) eqn:Eno.
  { apply existsb_exists in Eno as (v & Hv & Hc%contains_In). naive_solver. }
  assert (forall v, In v vals -> ~ In v (sm_NotIn m)) as Hno.
  { intros v Hv Hin%contains_In. apply not_true_iff_false in Eno. apply Eno.
    apply existsb_exists. eauto. }
  destruct (is_empty (sm_Equals m) && is_nil (head (sm_In m))) eqn:E0.
  { apply andb_true_iff in E0 as [He%is_empty_spec Hi%is_nil_head]. tauto. }
  assert (~ (sm_Equals m = ""%string /\ sm_In m = [])) as Hsome.
  { intros [He%is_empty_spec Hi]. by rewrite He, Hi in E0. }
  rewrite existsb_exists. setoid_rewrite nonempty_In. setoid_rewrite orb_true_iff.
  setoid_rewrite andb_true_iff. setoid_rewrite negb_true_iff. setoid_rewrite is_empty_false.
  setoid_rewrite str_eq_true. setoid_rewrite contains_In. naive_solver.
Qed.

(** Everything a predicate asks except its negation. *)
Definition holds_here (p : QueryPredicate) (l : DeviceLiveness) (now : Time) : Prop :=
  let st := dl_Status l in
  let cap := st_Capability st in
  let firmware := exists c t, cap = Some c /\ In t (cap_Transports c) /\ tr_OTA t = true in
  let firmware_up := exists c, cap = Some c /\
    (exists t, In t (cap_Transports c) /\ tr_OTA t = true) /\ reachableOverOTA c = true in
  (forall m, qp_State p = Some m -> str_ok m (st_State st)) /\
  (forall m, qp_Transport p = Some m ->
     any_ok m (from_option (fun c => map tr_Type (cap_Transports c)) [] cap)) /\
  (forall m, qp_ReachableVia p = Some m -> any_ok m (from_option cap_ReachableVia [] cap)) /\
  (forall m, qp_RunningConfigHash p = Some m ->
     str_ok m (from_option cap_RunningConfigHash ""%string cap)) /\
  (forall want, qp_OTACapable p = Some want -> want = true <-> firmware) /\
  (forall want, qp_OTAReachable p = Some want -> want = true <-> firmware_up) /\
  (forall d, qp_SilentLongerThan p = Some d ->
     exists seen, st_LastSeen st = Some seen /\ d <= sub_time now seen) /\
  (forall want, qp_SilentBeyondExpected p = Some want ->
     want = true <-> st_State st = StateUnreachable) /\
  (forall pct, qp_BatteryBelowPercent p = Some pct ->
     exists c, cap = Some c /\ cap_BatteryPercent c <> 0 /\ cap_BatteryPercent c < pct).

Lemma when_forall {A} (o : option A) (test : A -> bool) (P : A -> Prop) :
  (forall a, test a = true <-> P a) ->
  when o test = true <-> forall a, o = Some a -> P a.
Proof. intros H. destruct o as [a|]; simpl; [rewrite H|]; naive_solver. Qed.

Lemma eqb_want (b want : bool) (P : Prop) :
  (b = true <-> P) -> Bool.eqb b want = true <-> (want = true <-> P).
Proof. destruct b, want; simpl; naive_solver. Qed.

Lemma CanAcceptOTA_any c :
  fst (fst (CanAcceptOTA c 0)) = true <-> exists t, In t (cap_Transports c) /\ tr_OTA t = true.
Proof.
  rewrite CanAcceptOTA_accepts. setoid_rewrite carries_unfold.
  split; intros (t & Ht & H); exists t; split; try done; [tauto|split; [done|lia]].
Qed.

(** ** Properties *)

(** A predicate is the conjunction of the fields it sets, [notIn] means none of
    these, an unknown battery is never below anything, an unseen device is never
    silent for longer than anything, and [not] is the negation of the predicate it
    holds. *)
Theorem matches_conjunction p l now :
  matches p l now = true <->
  (forall q, qp_Not p = Some q -> matches q l now = false) /\ holds_here p l now.
Proof.
  destruct p as [pst ptr pvia phash pcap preach psil pbey pbat pnot].
  unfold holds_here. simpl. rewrite !andb_true_iff, !Logic.and_assoc.
  set (cap := st_Capability (dl_Status l)).
  f_equiv; [destruct pnot as [q|]; [rewrite negb_true_iff|]; naive_solver|].
  f_equiv; [by apply when_forall; intros; apply strMatch_ok|].
  f_equiv; [apply when_forall; intros; by rewrite anyMatch_ok; destruct cap|].
  f_equiv; [apply when_forall; intros; by rewrite anyMatch_ok; destruct cap|].
  f_equiv; [apply when_forall; intros; by rewrite strMatch_ok; destruct cap|].
  f_equiv; [apply when_forall; intros; apply eqb_want; destruct cap as [c|];
            [rewrite CanAcceptOTA_any|]; naive_solver|].
  f_equiv; [apply when_forall; intros; apply eqb_want; destruct cap as [c|];
            [rewrite andb_true_iff, CanAcceptOTA_any|]; naive_solver|].
  f_equiv; [apply when_forall; intros d; destruct (st_LastSeen (dl_Status l)) as [seen|];
            [rewrite negb_true_iff, Z.ltb_ge|]; naive_solver|].
  f_equiv; [apply when_forall; intros; by apply eqb_want, str_eq_true|].
  apply when_forall. intros pct. destruct cap as [c|]; [|naive_solver].
  destruct (Z.eqb_spec (cap_BatteryPercent c) 0); [naive_solver|].
  rewrite negb_true_iff, Z.geb_leb, Z.leb_gt. naive_solver.
Qed.

(** C25. What a query reports: the counts cover every matching device even when the
    list is cut, the list is the first [limit] matches in fleet order, it says it
    is truncated exactly when it is, and each summary entry counts the matching
    devices with its key (counters are [int32]). *)
Theorem EvaluateQuery_report spec ls now :
  let out := EvaluateQuery spec ls now in
  let sel := List.filter (selected spec now) ls in
  let results := map query_result sel in
  fqs_Evaluated out = len32 ls /\
  fqs_Matched out = wrap32 (Z.of_nat (length sel)) /\
  fqs_Devices out = firstn (Z.to_nat (query_limit spec)) results /\
  (fqs_Truncated out = true <-> query_limit spec < Z.of_nat (length sel)) /\
  (forall k, fqs_Summary out !! k = tally (map summary_key results) k) /\
  fqs_LastEvaluated out = Some now.
Proof.
  unfold EvaluateQuery. rewrite query_fold.
  - cbv zeta. simpl. split_and!; try done.
    + apply bool_decide_eq_true.
    + intros k. apply fold_bump.
  - unfold query_limit. destruct (Z.leb_spec (fq_Limit spec) 0); lia.
Qed.

(** What a rollout asks of a device beyond being able to act now: that a transport takes
    the image, that the battery affords it, and that the device has been heard of. *)
Definition clears (now : Time) (r : RolloutRequirements) (size : Z) (l : DeviceLiveness) : bool :=
  match st_Capability (dl_Status l) with
  | None => false
  | Some c =>
      existsb (carries size) (cap_Transports c) &&
      ((req_MinBatteryPercent r <=? 0) || (OTAAffordable c (req_MinBatteryPercent r)).1) &&
      match req_MaxSilentFor r, st_LastSeen (dl_Status l) with
      | Some limit, Some seen => sub_time now seen <=? limit
      | _, _ => true
      end
  end.

Lemma actionable_true l :
  (actionable l).1 = true <->
  ~ In (st_State (dl_Status l)) [StateUnreachable; StateSleeping; StateUnknown] /\
  exists c, st_Capability (dl_Status l) = Some c /\ existsb (carries 0) (cap_Transports c) = true /\
    reachableOverOTA c = true.
Proof.
  unfold actionable. set (st := dl_Status l). simpl In.
  destruct (str_eq (st_State st) StateUnreachable) eqn:E1; [apply str_eq_true in E1; naive_solver|].
  destruct (str_eq (st_State st) StateUnknown) eqn:E2; [apply str_eq_true in E2; naive_solver|].
  destruct (str_eq (st_State st) StateSleeping) eqn:E3; [apply str_eq_true in E3; naive_solver|].
  apply str_eq_false in E1, E2, E3.
  destruct (st_Capability st) as [c|]; [|naive_solver].
  rewrite CanAcceptOTA_verdict.
  destruct (existsb (carries 0) (cap_Transports c)) eqn:E4, (reachableOverOTA c) eqn:E5; simpl; naive_solver.
Qed.

(** A transport for a sized image is one for an image of unknown size. *)
Lemma carries_any size ts : existsb (carries size) ts = true -> existsb (carries 0) ts = true.
Proof.
  rewrite !existsb_exists. intros (t & Ht & [Hc _]%carries_unfold). exists t. split; [done|].
  apply carries_unfold. split; [done|]. lia.
Qed.

Lemma eligible_actionable now rollout r l :
  fr_Requires (ro_Spec rollout) = Some r -> req_OTA r = true ->
  (takes rollout l /\ is_ready now rollout l) <->
  (actionable l).1 && clears now r (src_SizeBytes (fr_Source (ro_Spec rollout))) l = true.
Proof.
  intros Hr Ho. set (size := src_SizeBytes _). rewrite andb_true_iff, actionable_true.
  unfold takes, can_take, is_ready, ready, clears. rewrite Hr. fold size.
  destruct (st_Capability (dl_Status l)) as [c|].
  2:{ split; [|naive_solver]. intros [Ht _]. by destruct (Ht r eq_refl Ho) as (? & ? & _). }
  rewrite !andb_true_iff, orb_true_iff, Z.leb_le.
  assert ((match req_MaxSilentFor r, st_LastSeen (dl_Status l) with
           | Some limit, Some seen => sub_time now seen <=? limit | _, _ => true end) = true <->
    forall limit seen, req_MaxSilentFor r = Some limit -> st_LastSeen (dl_Status l) = Some seen ->
      sub_time now seen <= limit) as ->.
  { destruct (req_MaxSilentFor r), (st_LastSeen (dl_Status l)); rewrite ?Z.leb_le; naive_solver. }
  pose proof (reachableOverOTA_spec c) as Hre. pose proof (carries_any size (cap_Transports c)) as Hany.
  pose proof (existsb_exists (carries size) (cap_Transports c)) as Hex. split.
  - intros [Ht [Hs Hq]]. destruct (Ht r eq_refl Ho) as (c' & [= <-] & Hc & Hb).
    destruct (Hq r eq_refl) as [Hv Hsil]. split_and!; try done.
    + exists c. split_and!; [done|by apply Hany, Hex|]. apply Hre. by apply Hv.
    + by apply Hex.
    + destruct (Z.le_gt_cases (req_MinBatteryPercent r) 0); [by left|right]. apply Hb. lia.
  - intros [[Hs (c' & [= <-] & _ & Hv)] [[Hc Hb] Hsil]]. split; [|split; [done|]].
    + intros r' [= <-] _. exists c. split_and!; [done|by apply Hex|]. intros Hpos. destruct Hb as [?|?]; [lia|done].
    + intros r' [= <-]. split; [|done]. intros c' _ [= <-]. by apply Hre.
Qed.

(** C26. "Eligible" is "actionable", and what the rollout asks for on top. For every fleet
    and every rollout over the air, the devices the planner would update are those that a
    query calls actionable at the same moment and that clear what the rollout asks for:
    a transport for an image of that size, the battery and the silence; in particular no
    device is eligible that a query calls not actionable. With an image of unknown size
    and no battery or silence requirement the two are the same. *)
Theorem actionable_iff_eligible Local now rollout r ls :
  fr_Requires (ro_Spec rollout) = Some r -> req_OTA r = true ->
  let size := src_SizeBytes (fr_Source (ro_Spec rollout)) in
  let eligible := plan_Eligible (PlanRollout Local now rollout ls) in
  eligible = map dl_Name (List.filter (fun l => (actionable l).1 && clears now r size l) ls) /\
  (size <= 0 -> req_MinBatteryPercent r <= 0 -> req_MaxSilentFor r = None ->
   eligible = map dl_Name (List.filter (fun l => (actionable l).1) ls)).
Proof.
  intros Hr Ho. cbv zeta.
  assert (plan_Eligible (PlanRollout Local now rollout ls) = map dl_Name (List.filter
    (fun l => (actionable l).1 && clears now r (src_SizeBytes (fr_Source (ro_Spec rollout))) l) ls)) as E.
  { unfold PlanRollout. rewrite plan_fold. cbn [plan_Eligible empty_Plan app]. f_equal.
    induction ls as [|l ls IH]; [done|]. rewrite filter_cons. cbn [List.filter].
    pose proof (eligible_actionable now rollout r l Hr Ho) as Hl.
    destruct (_ && _); [rewrite decide_True by by apply Hl|rewrite decide_False by by rewrite Hl];
      by rewrite IH. }
  split; [exact E|]. intros Hs Hb Hm. rewrite E. f_equal. apply filter_ext. intros l.
  destruct (actionable l).1 eqn:Ea; [|done]. apply actionable_true in Ea as (_ & c & Hc & Hany & _).
  unfold clears. rewrite Hc, Hm, (proj2 (Z.leb_le _ _) Hb), andb_true_r, andb_true_r.
  apply existsb_exists in Hany as (t & Ht & [Ho' _]%carries_unfold).
  apply existsb_exists. exists t. split; [done|]. apply carries_unfold. split; [done|]. lia.
Qed.

(** A rollout of a sized image over one device that can take it and one that can act but
    cannot take that much. *)
Lemma actionable_iff_eligible_witness :
  let big := mkTransport "wifi" "always" true true 0 0 "" 40 in
  let small := mkTransport "ble" "always" true true 1000 0 "" 4 in
  let ls := [liveness "a" StateOnline (mkDeviceCapability [big] ["wifi"%string] 90 1000 "") (Some 0);
             liveness "b" StateOnline (mkDeviceCapability [small] ["ble"%string] 90 1000 "") (Some 0)] in
  plan_Eligible (PlanRollout UTC Minute (sample_rollout []) ls) = ["a"%string] /\
  map dl_Name (List.filter (fun l => (actionable l).1) ls) = ["a"; "b"]%string.
Proof.
  cbv zeta. split; [|vm_compute; reflexivity].
  erewrite (proj1 (actionable_iff_eligible UTC Minute (sample_rollout []) _ _ eq_refl eq_refl)).
  vm_compute. reflexivity.
Defined.
