(* ===== verification/Drift.v ===== *)
(** * Drift and credential expiry: internal/drift.go

    What a fleet is running against what it should be, and which credentials lapse
    before their replacement can be delivered. *)

From S2P Require Import Prelude GoTime GoStrings Types Capability.
Local Open Scope Z_scope.

(** ** Definitions: drift *)

Definition running_hash_property : string := "running_config_hash".

Definition in_grace (spec : FleetDriftSpec) (expectSetAt now : Time) : bool :=
  match fd_GracePeriod spec with
  | Some g => if IsZero expectSetAt then false else sub_time now expectSetAt <? g
  | None => false
  end.

Definition drift_want (spec : FleetDriftSpec) : string :=
  match fd_Expect spec with Some e => de_ConfigHash e | None => ""%string end.

(** The hash a device reports, [None] when it reports none. *)
Definition reported_hash (l : DeviceLiveness) : option DeviceCapability :=
  match st_Capability (dl_Status l) with
  | Some c => if is_empty (cap_RunningConfigHash c) then None else Some c
  | None => None
  end.

Definition drift_age (now : Time) (l : DeviceLiveness) : Duration :=
  match st_LastSeen (dl_Status l) with Some seen => sub_time now seen | None => 0 end.

(** The [switch] that names the drift. *)
Definition drift_assessment (c : DeviceCapability) (state : LivenessState) : string :=
  let ok := fst (fst (CanAcceptOTA c 0)) in
  if negb ok then DriftNotRemediable
  else if negb (reachableOverOTA c) then DriftAwaitingWindow
  else if str_eq state StateSleeping || str_eq state StateUnreachable then DriftDeviceSleeping
  else DriftNeedsAttention.

Definition drifted_row (want : string) (now : Time) (l : DeviceLiveness) (c : DeviceCapability)
  : DriftedDevice :=
  mkDriftedDevice (dl_Name l) running_hash_property want (cap_RunningConfigHash c)
    (shortDuration (drift_age now l))
    (drift_assessment c (st_State (dl_Status l)))
    (fst (fst (CanAcceptOTA c 0)) && reachableOverOTA c).

Definition unknown_row (l : DeviceLiveness) : DriftedDevice :=
  mkDriftedDevice (dl_Name l) running_hash_property "" "" "" DriftStateUnknown false.

(** What one device adds to the status: the three ways round the loop. *)
Inductive DriftClass :=
| IsUnknown
| IsConverged
| IsDrifted (c : DeviceCapability).

Definition drift_class (spec : FleetDriftSpec) (inGrace : bool) (l : DeviceLiveness) : DriftClass :=
  match reported_hash l with
  | None => IsUnknown
  | Some c =>
      if is_empty (drift_want spec) || str_eq (cap_RunningConfigHash c) (drift_want spec)
      then IsConverged
      else if inGrace then IsConverged
      else if fd_IgnoreSleeping spec && str_eq (st_State (dl_Status l)) StateSleeping
      then IsConverged
      else IsDrifted c
  end.

Definition drift_step (spec : FleetDriftSpec) (inGrace : bool) (now : Time)
    (s : FleetDriftStatus * Duration) (l : DeviceLiveness) : FleetDriftStatus * Duration :=
  let '(out, oldest) := s in
  match drift_class spec inGrace l with
  | IsUnknown =>
      (mkFleetDriftStatus (fds_Total out) (fds_Converged out) (fds_Drifted out)
         (incr32 (fds_Unknown out)) (fds_OldestDrift out)
         (fds_Devices out ++ [unknown_row l]) (fds_LastChecked out) (fds_Conditions out), oldest)
  | IsConverged =>
      (mkFleetDriftStatus (fds_Total out) (incr32 (fds_Converged out)) (fds_Drifted out)
         (fds_Unknown out) (fds_OldestDrift out)
         (fds_Devices out) (fds_LastChecked out) (fds_Conditions out), oldest)
  | IsDrifted c =>
      let age := drift_age now l in
      (mkFleetDriftStatus (fds_Total out) (fds_Converged out) (incr32 (fds_Drifted out))
         (fds_Unknown out) (fds_OldestDrift out)
         (fds_Devices out ++ [drifted_row (drift_want spec) now l c])
         (fds_LastChecked out) (fds_Conditions out),
       if age >? oldest then age else oldest)
  end.

Definition AssessDriftSince (spec : FleetDriftSpec) (livenesses : list DeviceLiveness)
    (expectSetAt now : Time) : FleetDriftStatus :=
  let inGrace := in_grace spec expectSetAt now in
  let '(out, oldest) := fold_left (drift_step spec inGrace now) livenesses
    (mkFleetDriftStatus (len32 livenesses) 0 0 0 "" [] None [], 0) in
  mkFleetDriftStatus (fds_Total out) (fds_Converged out) (fds_Drifted out) (fds_Unknown out)
    (if oldest >? 0 then shortDuration oldest else fds_OldestDrift out)
    (fds_Devices out) (Some now) (fds_Conditions out).

Definition AssessDrift (spec : FleetDriftSpec) (livenesses : list DeviceLiveness) (now : Time)
  : FleetDriftStatus := AssessDriftSince spec livenesses zero_time now.

(** ** Definitions: credentials *)

Definition rotates_over (size : Z) (t : Transport) : bool :=
  if negb (tr_Config t) && negb (tr_OTA t) then false
  else if (size >? 0) && (MaxWriteBytes t >? 0) && (size >? MaxWriteBytes t) then false
  else true.

Definition rotation_transports (size : Z) (l : DeviceLiveness) : list string :=
  match st_Capability (dl_Status l) with
  | None => []
  | Some c => fold_left (fun via t => if rotates_over size t then via ++ [tr_Type t] else via)
                (cap_Transports c) []
  end.

Definition warn_before (spec : CredentialExpirySpec) : Duration :=
  match ce_WarnBefore spec with Some d => d | None => 30 * 24 * Hour end.

Section Credentials.
(** The zone expiry dates are printed in. *)
Context (Local : Location).

(** The [switch]: state, reason, action. *)
Definition credential_verdict (spec : CredentialExpirySpec) (via : list string)
    (exp now : Time) : string * string * string :=
  let left := sub_time exp now in
  if left <=? 0 then
    (CredExpired, "credential expired"%string,
     "device is unreachable; site visit required"%string)
  else if is_nil (head via) then
    (CredAtRisk,
     ("no transport can carry a " +:+ pretty (ce_RotationSizeBytes spec) +:+
      " byte credential")%string,
     ("schedule site visit before " +:+ format_date Local exp)%string)
  else if left <=? warn_before spec then
    (CredExpiring, ("rotatable via " +:+ fmt_strings via)%string,
     ("rotate before " +:+ format_date Local exp)%string)
  else (CredHealthy, ""%string, ""%string).

Definition credential_row (spec : CredentialExpirySpec) (expiries : gmap string Time)
    (now : Time) (l : DeviceLiveness) : CredentialStatus :=
  match expiries !! dl_Name l with
  | None =>
      mkCredentialStatus (dl_Name l) None "" CredUnknown false []
        "device has never reported a credential expiry"
        "verify the device reports its expiry property"
  | Some exp =>
      let via := rotation_transports (ce_RotationSizeBytes spec) l in
      let '(state, reason, action) := credential_verdict spec via exp now in
      mkCredentialStatus (dl_Name l) (Some exp) (shortDuration (sub_time exp now)) state
        (negb (is_nil (head via))) via reason action
  end.

Definition count_if (b : bool) (n : Z) : Z := if b then incr32 n else n.

Definition credential_step (spec : CredentialExpirySpec) (expiries : gmap string Time)
    (now : Time) (s : CredentialExpiryStatus * Time) (l : DeviceLiveness)
  : CredentialExpiryStatus * Time :=
  let '(out, next) := s in
  let cs := credential_row spec expiries now l in
  let is_state x := str_eq (cs_State cs) x in
  (mkCredentialExpiryStatus (ces_Total out)
     (count_if (is_state CredHealthy) (ces_Healthy out))
     (count_if (is_state CredExpiring) (ces_Expiring out))
     (count_if (is_state CredExpired) (ces_Expired out))
     (count_if (is_state CredAtRisk) (ces_AtRisk out))
     (ces_NextExpiry out) (ces_Devices out ++ [cs]) (ces_LastChecked out) (ces_Conditions out),
   match expiries !! dl_Name l with
   | None => next
   | Some exp => if IsZero next || Before exp next then exp else next
   end).

Definition AssessCredentials (spec : CredentialExpirySpec) (livenesses : list DeviceLiveness)
    (expiries : gmap string Time) (now : Time) : CredentialExpiryStatus :=
  let '(out, next) := fold_left (credential_step spec expiries now) livenesses
    (mkCredentialExpiryStatus (len32 livenesses) 0 0 0 0 None [] None [], zero_time) in
  mkCredentialExpiryStatus (ces_Total out) (ces_Healthy out) (ces_Expiring out)
    (ces_Expired out) (ces_AtRisk out)
    (if IsZero next then ces_NextExpiry out else Some next)
    (ces_Devices out) (Some now) (ces_Conditions out).
End Credentials.

(** ** Lemmas *)

Definition is_unknown (k : DriftClass) : bool :=
  match k with IsUnknown => true | _ => false end.
Definition is_converged (k : DriftClass) : bool :=
  match k with IsConverged => true | _ => false end.
Definition is_drifted (k : DriftClass) : bool :=
  match k with IsDrifted _ => true | _ => false end.

Section DriftFold.
Context (spec : FleetDriftSpec) (g : bool) (now : Time).
#[local] Abbreviation class := (drift_class spec g).
#[local] Abbreviation start ls := (mkFleetDriftStatus (len32 ls) 0 0 0 "" [] None [], 0).

Definition drift_rows (l : DeviceLiveness) : list DriftedDevice :=
  match class l with
  | IsUnknown => [unknown_row l]
  | IsConverged => []
  | IsDrifted c => [drifted_row (drift_want spec) now l c]
  end.

Lemma drift_step_fields s l :
  let s' := drift_step spec g now s l in
  fds_Unknown s'.1 = (if is_unknown (class l) then incr32 (fds_Unknown s.1) else fds_Unknown s.1) /\
  fds_Converged s'.1
    = (if is_converged (class l) then incr32 (fds_Converged s.1) else fds_Converged s.1) /\
  fds_Drifted s'.1 = (if is_drifted (class l) then incr32 (fds_Drifted s.1) else fds_Drifted s.1) /\
  fds_Devices s'.1 = fds_Devices s.1 ++ drift_rows l /\
  fds_Total s'.1 = fds_Total s.1 /\ fds_OldestDrift s'.1 = fds_OldestDrift s.1 /\
  fds_Conditions s'.1 = fds_Conditions s.1.
Proof.
  destruct s as [out oldest]. unfold drift_step, drift_rows.
  destruct (class l); simpl; rewrite ?app_nil_r; done.
Qed.

(** The largest age seen, zero when none is positive. *)
Lemma drift_oldest ls s :
  let oldest := (fold_left (drift_step spec g now) ls s).2 in
  s.2 <= oldest /\
  (forall l, In l ls -> is_drifted (class l) = true -> drift_age now l <= oldest) /\
  (oldest = s.2 \/ exists l, In l ls /\ is_drifted (class l) = true /\ drift_age now l = oldest).
Proof.
  revert s. induction ls as [|l ls IH]; intros s; simpl; [split_and!; [lia|done|auto]|].
  specialize (IH (drift_step spec g now s l)).
  set (s' := drift_step spec g now s l) in *. destruct IH as (H1 & H2 & H3).
  assert (s.2 <= s'.2 /\ (is_drifted (class l) = true -> drift_age now l <= s'.2) /\
          (s'.2 = s.2 \/ (is_drifted (class l) = true /\ drift_age now l = s'.2)))
    as (A & B & C).
  { unfold s'. destruct s as [out oldest]. unfold drift_step.
    destruct (class l) as [| |c]; simpl; [split_and!; auto; lia || done..|].
    destruct (Z.gtb_spec (drift_age now l) oldest); split_and!; auto; lia. }
  split_and!; [lia| |].
  - intros k [<-|Hk] Hd; [specialize (B Hd); lia|auto].
  - destruct H3 as [->|(k & Hk & Hd & Hage)]; [|right; eauto].
    destruct C as [->|[Hd Hage]]; [auto|right; eauto].
Qed.
End DriftFold.

Lemma CanAcceptOTA_reports_firmware c : Bool.reflect
  (exists t, In t (cap_Transports c) /\ tr_OTA t = true) (fst (fst (CanAcceptOTA c 0))).
Proof.
  apply iff_reflect. rewrite CanAcceptOTA_accepts. setoid_rewrite carries_unfold.
  split; intros (t & Ht & H); exists t; split; try done; [split; [done|lia]|tauto].
Qed.

Lemma AssessDriftSince_rows spec ls expectSetAt now :
  fds_Devices (AssessDriftSince spec ls expectSetAt now) =
  flat_map (drift_rows spec (in_grace spec expectSetAt now) now) ls.
Proof.
  unfold AssessDriftSince. set (g := in_grace spec expectSetAt now).
  set (s0 := (mkFleetDriftStatus (len32 ls) 0 0 0 "" [] None [], 0)).
  pose proof (fold_appends (drift_step spec g now) (fun s => fds_Devices s.1)
    (drift_rows spec g now) ls s0
    ltac:(intros; by destruct (drift_step_fields spec g now s x) as (_ & _ & _ & ? & _))) as HR.
  by destruct (fold_left (drift_step spec g now) ls s0).
Qed.

(** ** Properties: drift *)

(** Every device is counted once: as unknown, converged or drifted, by the
    classification of what it reports; the rows are those of the unknown and the
    drifted ones in fleet order; and the oldest drift is the greatest age among
    the drifted devices. *)
Theorem AssessDriftSince_report spec ls expectSetAt now :
  let out := AssessDriftSince spec ls expectSetAt now in
  let class := drift_class spec (in_grace spec expectSetAt now) in
  let count p := Z.of_nat (length (List.filter (fun l => p (class l)) ls)) in
  fds_Total out = len32 ls /\
  fds_Unknown out = wrap32 (count is_unknown) /\
  fds_Converged out = wrap32 (count is_converged) /\
  fds_Drifted out = wrap32 (count is_drifted) /\
  count is_unknown + count is_converged + count is_drifted = Z.of_nat (length ls) /\
  fds_Devices out = flat_map (drift_rows spec (in_grace spec expectSetAt now) now) ls /\
  exists oldest, fds_OldestDrift out = (if oldest >? 0 then shortDuration oldest else ""%string) /\
    (forall l, In l ls -> is_drifted (class l) = true -> drift_age now l <= oldest) /\
    (oldest = 0 \/ exists l, In l ls /\ is_drifted (class l) = true /\ drift_age now l = oldest).
Proof.
  unfold AssessDriftSince. set (g := in_grace spec expectSetAt now).
  set (s0 := (mkFleetDriftStatus (len32 ls) 0 0 0 "" [] None [], 0)).
  pose proof (drift_oldest spec g now ls s0) as (_ & Hmax & Hwit).
  pose proof (drift_step_fields spec g now) as HF.
  pose proof (fold_counter (drift_step spec g now) (fun s => fds_Unknown s.1)
    (fun l => is_unknown (drift_class spec g l)) ls s0 ltac:(intros; apply HF) eq_refl) as HU.
  pose proof (fold_counter (drift_step spec g now) (fun s => fds_Converged s.1)
    (fun l => is_converged (drift_class spec g l)) ls s0 ltac:(intros; apply HF) eq_refl) as HC.
  pose proof (fold_counter (drift_step spec g now) (fun s => fds_Drifted s.1)
    (fun l => is_drifted (drift_class spec g l)) ls s0 ltac:(intros; apply HF) eq_refl) as HD.
  pose proof (AssessDriftSince_rows spec ls expectSetAt now) as HR.
  unfold AssessDriftSince in HR. fold g s0 in HR.
  pose proof (fold_constant (drift_step spec g now) (fun s => fds_Total s.1)
    ls s0 ltac:(intros; apply HF)) as HT.
  pose proof (fold_constant (drift_step spec g now) (fun s => fds_OldestDrift s.1)
    ls s0 ltac:(intros; apply HF)) as HO.
  destruct (fold_left (drift_step spec g now) ls s0) as [out oldest]. simpl in *.
  split_and!; try done.
  - rewrite <- !Nat2Z.inj_add. f_equal. apply filter_three_way. intros l.
    by destruct (drift_class spec g l).
  - exists oldest. rewrite HO. done.
Qed.

(** A row never contradicts itself: a drifted device is remediable exactly when
    its assessment is "drifted and reachable" or "drifted but sleeping", that is
    when it has a firmware transport and one is up, and an unreachable or sleeping
    device is never said to need attention. *)
Theorem AssessDrift_rows_coherent spec ls expectSetAt now row :
  In row (fds_Devices (AssessDriftSince spec ls expectSetAt now)) ->
  (dd_Remediable row = true <->
     In (dd_Assessment row) [DriftNeedsAttention; DriftDeviceSleeping]) /\
  exists l, In l ls /\ dd_Device row = dl_Name l /\
    (dd_Remediable row = true ->
       exists c t, st_Capability (dl_Status l) = Some c /\ In t (cap_Transports c) /\
         tr_OTA t = true /\ reachableOverOTA c = true) /\
    (dd_Assessment row = DriftNeedsAttention ->
       st_State (dl_Status l) <> StateSleeping /\ st_State (dl_Status l) <> StateUnreachable).
Proof.
  pose proof (AssessDriftSince_rows spec ls expectSetAt now) as ->.
  intros (l & Hl & Hrow)%in_flat_map. unfold drift_rows in Hrow.
  destruct (drift_class spec _ l) as [| |c] eqn:Ec; [|done|];
    destruct Hrow as [<-|[]]; simpl.
  { split; [split; [done|intros [|[|[]]]; discriminate]|].
    exists l. by split_and!. }
  assert (st_Capability (dl_Status l) = Some c) as Hcap.
  { unfold drift_class, reported_hash in Ec. repeat (case_match; try done). congruence. }
  unfold drift_assessment.
  destruct (CanAcceptOTA_reports_firmware c) as [(t & Ht & Hota)|_], (reachableOverOTA c) eqn:Er;
    simpl; split;
    try (split; [done|intros [|[|[]]]; discriminate]); try (exists l; by split_and!).
  - destruct (str_eq _ StateSleeping || _); tauto.
  - exists l. split_and!; try done; [intros _; by exists c, t|].
    destruct (str_eq _ StateSleeping) eqn:E1; [done|].
    destruct (str_eq _ StateUnreachable) eqn:E2; [done|]. intros _.
    split; by apply str_eq_false.
Qed.

(** An online pump on WiFi that still runs the old configuration. *)
Definition old_cap : DeviceCapability :=
  mkDeviceCapability [mkTransport "wifi" "" true true 0 0 "" 0] ["wifi"%string] 0 0 "old".
Definition old_pump : DeviceLiveness :=
  mkDeviceLiveness (mkObjectMeta "pump" "" 0 ∅) (mkDeviceLivenessSpec "pump" Minute 3 "")
    (mkDeviceLivenessStatus StateOnline "" (Some 0) "" None "" "" (Some old_cap) [] 0).
Definition expect_new : FleetDriftSpec :=
  mkFleetDriftSpec None (Some (mkDriftExpectation "new" ∅)) (Some Hour) false.

Lemma AssessDrift_rows_coherent_witness :
  let row := drifted_row "new" Minute old_pump old_cap in
  In row (fds_Devices (AssessDriftSince expect_new [old_pump] 0 Minute)) /\
  (dd_Remediable row = true <->
     In (dd_Assessment row) [DriftNeedsAttention; DriftDeviceSleeping]).
Proof.
  assert (In (drifted_row "new" Minute old_pump old_cap)
    (fds_Devices (AssessDriftSince expect_new [old_pump] 0 Minute))) as Hin
    by (vm_compute; left; reflexivity).
  split; [exact Hin|].
  exact (proj1 (AssessDrift_rows_coherent expect_new [old_pump] 0 Minute _ Hin)).
Defined.

(** Through [AssessDrift], which passes the zero time for the moment the
    expectation was set, a grace period has no effect at all: the assessment is the
    one without it. *)
Theorem AssessDrift_grace_ignored spec grace ls now :
  AssessDrift spec ls now =
  AssessDrift (mkFleetDriftSpec (fd_Selector spec) (fd_Expect spec) grace
                 (fd_IgnoreSleeping spec)) ls now.
Proof.
  unfold AssessDrift, AssessDriftSince, in_grace. simpl.
  assert (forall b : option Duration, match b with Some _ => false | None => false end = false)
    as Hf by (by intros []).
  by destruct (fd_GracePeriod spec), grace.
Qed.

Example AssessDriftSince_grace_works :
  fds_Drifted (AssessDriftSince expect_new [old_pump] Minute (2 * Minute)) = 0 /\
  fds_Drifted (AssessDrift expect_new [old_pump] (2 * Minute)) = 1.
Proof. split; vm_compute; reflexivity. Qed.

(** ** Lemmas: credentials *)

Lemma rotation_transports_filter size l :
  rotation_transports size l =
  match st_Capability (dl_Status l) with
  | None => []
  | Some c => map tr_Type (List.filter (rotates_over size) (cap_Transports c))
  end.
Proof.
  unfold rotation_transports. destruct (st_Capability (dl_Status l)) as [c|]; [|done].
  apply (fold_left_snoc_filter (rotates_over size) tr_Type).
Qed.

(** A transport the replacement credential fits through. *)
Definition fits (size : Z) (t : Transport) : Prop :=
  (tr_Config t = true \/ tr_OTA t = true) /\
  (size <= 0 \/ MaxWriteBytes t <= 0 \/ size <= MaxWriteBytes t).

Lemma rotates_over_fits size t : rotates_over size t = true <-> fits size t.
Proof.
  unfold rotates_over, fits. destruct (tr_Config t), (tr_OTA t); simpl;
  destruct (Z.gtb_spec size 0), (Z.gtb_spec (MaxWriteBytes t) 0),
    (Z.gtb_spec size (MaxWriteBytes t)); simpl; intuition (done || lia).
Qed.

Lemma rotatable_spec size l :
  is_nil (head (rotation_transports size l)) = false <->
  exists c t, st_Capability (dl_Status l) = Some c /\ In t (cap_Transports c) /\ fits size t.
Proof.
  rewrite rotation_transports_filter. destruct (st_Capability (dl_Status l)) as [c|];
    [|naive_solver]. setoid_rewrite <- rotates_over_fits.
  destruct (List.filter (rotates_over size) (cap_Transports c)) as [|t ts] eqn:E; simpl.
  - split; [done|]. intros (? & t & [= <-] & Ht & Hf).
    assert (In t []) as []. rewrite <- E. by apply filter_In.
  - split; [|done]. intros _. exists c, t.
    assert (In t (t :: ts)) as Ht by by left. rewrite <- E in Ht.
    apply filter_In in Ht as [??]. done.
Qed.

Section CredentialFold.
Context (Local : Location) (spec : CredentialExpirySpec) (expiries : gmap string Time).
Context (now : Time).
#[local] Abbreviation step := (credential_step Local spec expiries now).
#[local] Abbreviation row := (credential_row Local spec expiries now).

Definition in_state (x : string) (l : DeviceLiveness) : bool := str_eq (cs_State (row l)) x.

Lemma credential_step_fields s l :
  ces_Healthy (step s l).1
    = (if in_state CredHealthy l then incr32 (ces_Healthy s.1) else ces_Healthy s.1) /\
  ces_Expiring (step s l).1
    = (if in_state CredExpiring l then incr32 (ces_Expiring s.1) else ces_Expiring s.1) /\
  ces_Expired (step s l).1
    = (if in_state CredExpired l then incr32 (ces_Expired s.1) else ces_Expired s.1) /\
  ces_AtRisk (step s l).1
    = (if in_state CredAtRisk l then incr32 (ces_AtRisk s.1) else ces_AtRisk s.1) /\
  ces_Devices (step s l).1 = ces_Devices s.1 ++ [row l] /\
  ces_Total (step s l).1 = ces_Total s.1 /\ ces_NextExpiry (step s l).1 = ces_NextExpiry s.1.
Proof. by destruct s. Qed.

(** The running minimum: zero stands for none yet. *)
Lemma credential_next ls s :
  (forall l (e : Time), In l ls -> expiries !! dl_Name l = Some e -> e <> zero_time) ->
  let next := (fold_left step ls s).2 in
  (s.2 <> zero_time -> next <> zero_time /\ next <= s.2) /\
  (forall l (e : Time), In l ls -> expiries !! dl_Name l = Some e -> next <> zero_time /\ next <= e) /\
  (next = s.2 \/ exists l, In l ls /\ expiries !! dl_Name l = Some next).
Proof.
  revert s. induction ls as [|l ls IH]; intros s Hnz; simpl; [naive_solver lia|].
  specialize (IH (step s l) ltac:(intros; eapply Hnz; [by right|done])).
  set (s' := step s l) in *. destruct IH as (H1 & H2 & H3).
  assert ((s.2 <> zero_time -> s'.2 <> zero_time /\ s'.2 <= s.2) /\
    (forall e, expiries !! dl_Name l = Some e -> s'.2 <> zero_time /\ s'.2 <= e) /\
    (s'.2 = s.2 \/ expiries !! dl_Name l = Some s'.2)) as (A & B & C).
  { unfold s'. destruct s as [out next]. simpl.
    destruct (expiries !! dl_Name l) as [e|] eqn:E; [|naive_solver lia].
    pose proof (Hnz l e (or_introl eq_refl) E) as He. unfold IsZero, Before.
    destruct (Z.eqb_spec next zero_time), (Z.ltb_spec e next); simpl;
      split_and!; intros; simplify_eq; auto; split; done || lia. }
  split_and!.
  - intros Hs. destruct (A Hs) as [Hs' ?]. destruct (H1 Hs'). split; [done|lia].
  - intros k e [<-|Hk] He; [|eauto]. destruct (B e He) as [Hs' ?].
    destruct (H1 Hs'). split; [done|lia].
  - destruct H3 as [H3|(k & Hk & Hk')]; [|right; eauto].
    rewrite H3. destruct C as [->|C]; [auto|right; eauto].
Qed.
End CredentialFold.

(** ** Properties: credentials *)

(** The credential report has one row per device in fleet order, its counters
    count the rows in each state, and every device is healthy, expiring, expired,
    at risk or unknown. *)
Theorem AssessCredentials_report Local spec ls expiries now :
  let out := AssessCredentials Local spec ls expiries now in
  let rows := map (credential_row Local spec expiries now) ls in
  let count x := wrap32 (Z.of_nat (length (List.filter (fun r => str_eq (cs_State r) x) rows))) in
  ces_Devices out = rows /\ ces_Total out = len32 ls /\
  ces_Healthy out = count CredHealthy /\ ces_Expiring out = count CredExpiring /\
  ces_Expired out = count CredExpired /\ ces_AtRisk out = count CredAtRisk /\
  Forall (fun r => In (cs_State r)
    [CredHealthy; CredExpiring; CredExpired; CredAtRisk; CredUnknown]) rows.
Proof.
  unfold AssessCredentials.
  set (s0 := (mkCredentialExpiryStatus (len32 ls) 0 0 0 0 None [] None [], zero_time)).
  set (step := credential_step Local spec expiries now).
  pose proof (credential_step_fields Local spec expiries now) as HF. fold step in HF.
  assert (forall x, List.length (List.filter (fun r => str_eq (cs_State r) x)
    (map (credential_row Local spec expiries now) ls)) =
    List.length (List.filter (in_state Local spec expiries now x) ls)) as Hlen.
  { intros x. induction ls as [|l ls' IH]; simpl; [done|]. unfold in_state at 1.
    by destruct (str_eq _ x); simpl; rewrite IH. }
  pose proof (fold_counter step (fun s => ces_Healthy s.1) _ ls s0 ltac:(intros; apply HF) eq_refl) as H1.
  pose proof (fold_counter step (fun s => ces_Expiring s.1) _ ls s0 ltac:(intros; apply HF) eq_refl) as H2.
  pose proof (fold_counter step (fun s => ces_Expired s.1) _ ls s0 ltac:(intros; apply HF) eq_refl) as H3.
  pose proof (fold_counter step (fun s => ces_AtRisk s.1) _ ls s0 ltac:(intros; apply HF) eq_refl) as H4.
  pose proof (fold_appends step (fun s => ces_Devices s.1)
    (fun l => [credential_row Local spec expiries now l]) ls s0 ltac:(intros; apply HF)) as H5.
  pose proof (fold_constant step (fun s => ces_Total s.1) ls s0 ltac:(intros; apply HF)) as H6.
  destruct (fold_left step ls s0) as [out next]. cbv zeta. simpl in *.
  rewrite !Hlen. split_and!; try done.
  apply Forall_forall. intros r (l & -> & _)%list_elem_of_fmap.
  unfold credential_row, credential_verdict. repeat case_match; simplify_eq; simpl; tauto.
Qed.

(** The verdict on one device with a known expiry: expired from the moment of
    expiry on, at risk when it is still valid but nothing the device declares can
    carry the replacement, expiring when it can be rotated and the warning period
    has begun, healthy otherwise. *)
Theorem credential_row_verdict Local spec expiries now l (exp : Time) :
  expiries !! dl_Name l = Some exp ->
  let r := credential_row Local spec expiries now l in
  let deliverable := exists c t, st_Capability (dl_Status l) = Some c /\
    In t (cap_Transports c) /\ fits (ce_RotationSizeBytes spec) t in
  (cs_State r = CredExpired <-> exp <= now) /\
  (cs_State r = CredAtRisk <-> now < exp /\ ~ deliverable) /\
  (cs_State r = CredExpiring <->
     now < exp /\ deliverable /\ sub_time exp now <= warn_before spec) /\
  (cs_State r = CredHealthy <->
     now < exp /\ deliverable /\ warn_before spec < sub_time exp now) /\
  (cs_Rotatable r = true <-> deliverable).
Proof.
  intros Hexp r deliverable.
  pose proof (rotatable_spec (ce_RotationSizeBytes spec) l) as HR. fold deliverable in HR.
  subst r. unfold credential_row, credential_verdict. rewrite Hexp.
  pose proof (sub_time_nonpos exp now) as HL.
  destruct (is_nil (head (rotation_transports (ce_RotationSizeBytes spec) l)));
    destruct (Z.leb_spec (sub_time exp now) 0) as [Hz|Hz];
    destruct (Z.leb_spec (sub_time exp now) (warn_before spec)) as [Hw|Hw]; simpl;
    split_and!; split; intros; try discriminate; try (split_and!; [lia|tauto..]); try tauto;
    try lia; try (destruct_and?; lia || (exfalso; tauto)); intuition (done || lia).
Qed.

(** The next expiry is the earliest one known among the fleet's devices (dates
    other than the zero time), and none is announced exactly when none is known. *)
Theorem AssessCredentials_next_expiry Local spec ls expiries now :
  (forall l (e : Time), In l ls -> expiries !! dl_Name l = Some e -> e <> zero_time) ->
  match ces_NextExpiry (AssessCredentials Local spec ls expiries now) with
  | Some t =>
      (exists l, In l ls /\ expiries !! dl_Name l = Some t) /\
      (forall l (e : Time), In l ls -> expiries !! dl_Name l = Some e -> t <= e)
  | None => forall l, In l ls -> expiries !! dl_Name l = None
  end.
Proof.
  intros Hnz. unfold AssessCredentials.
  set (s0 := (mkCredentialExpiryStatus (len32 ls) 0 0 0 0 None [] None [], zero_time)).
  pose proof (credential_next Local spec expiries now ls s0 Hnz) as (_ & Hmin & Hwit).
  pose proof (fold_constant (credential_step Local spec expiries now)
    (fun s => ces_NextExpiry s.1) ls s0 ltac:(intros; apply credential_step_fields)) as HN.
  destruct (fold_left _ ls s0) as [out next]. simpl in *. unfold IsZero.
  destruct (Z.eqb_spec next zero_time) as [->|Hz].
  - rewrite HN. intros l Hl. destruct (expiries !! dl_Name l) as [e|] eqn:E; [|done].
    by destruct (Hmin l e Hl E).
  - destruct Hwit as [?|?]; [done|]. split; [done|]. intros l e Hl He. by eapply Hmin.
Qed.

Definition sample_expiries : gmap string Time := {[ "pump"%string := 10 * Hour ]}.
Definition cert_policy : CredentialExpirySpec := mkCredentialExpirySpec None "" None 2048 None.

Lemma credential_row_verdict_witness :
  cs_State (credential_row UTC cert_policy sample_expiries (10 * Hour) old_pump) = CredExpired.
Proof.
  apply (credential_row_verdict UTC cert_policy sample_expiries (10 * Hour) old_pump (10 * Hour)).
  - reflexivity.
  - vm_compute. discriminate.
Defined.

Lemma AssessCredentials_next_expiry_witness :
  exists l, In l [old_pump] /\ sample_expiries !! dl_Name l = Some (10 * Hour).
Proof.
  pose proof (AssessCredentials_next_expiry UTC cert_policy [old_pump] sample_expiries 0) as H.
  apply H. intros l e [<-|[]] [= <-]. discriminate.
Defined.
