(* ===== verification/Enrollment.v ===== *)
(** * Enrollment: internal/enrollment.go

    What to do with devices that announce themselves. Every announcement is a claim
    from an unauthenticated source. *)

From S2P Require Import Prelude GoTime GoStrings Types Capability.
From Stdlib Require Import Ascii.
Local Open Scope Z_scope.

(** ** Definitions *)

Record EnrollmentDecision := mkEnrollmentDecision {
  ed_Announcement : DeviceAnnouncement;
  ed_Approve : bool;
  ed_Reject : bool;
  ed_Reason : string;
  ed_Detail : string
}.

(** [m[k]] on a [map[string]bool]. *)
Definition flag (m : gmap string bool) (k : string) : bool := default false (m !! k).

(** [fmt.Sprintf("%s/%d", a.Gateway, a.NodeID)]. *)
Definition node_key (a : DeviceAnnouncement) : string :=
  (an_Gateway a +:+ "/" +:+ pretty (an_NodeID a))%string.

Definition claims_node (a : DeviceAnnouncement) : bool :=
  negb (is_empty (an_Gateway a)) && negb (an_NodeID a =? 0).

(** The first loop: who claimed each node first. *)
Definition seen_step (seen : gmap string string) (a : DeviceAnnouncement) : gmap string string :=
  if negb (claims_node a) then seen
  else match seen !! node_key a with
       | Some first => if negb (str_eq first (an_Device a)) then seen
                       else <[node_key a := an_Device a]> seen
       | None => <[node_key a := an_Device a]> seen
       end.

Definition first_claims (announcements : list DeviceAnnouncement) : gmap string string :=
  fold_left seen_step announcements ∅.

Section Enrollment.
Context `{SliceSort} `{StrconvQuote}.

(** The [switch] of the second loop, [None] for its [continue]. *)
Definition decide_claim (spec : DeviceEnrollmentSpec)
    (existing decommissioned templateInstances : gmap string bool)
    (seen : gmap string string) (a : DeviceAnnouncement) : option EnrollmentDecision :=
  let holder := default ""%string (seen !! node_key a) in
  if flag decommissioned (an_Device a) then
    Some (mkEnrollmentDecision a false true EnrollRejectDecommissioned
      "this name was decommissioned; use a new name or revoke the decommission")
  else if flag existing (an_Device a) then None
  else if negb (is_nil (head (es_AllowedModels spec))) &&
          negb (contains (es_AllowedModels spec) (an_Model a)) then
    Some (mkEnrollmentDecision a false true EnrollRejectUnknownModel
      ("claims model " +:+ quote (an_Model a) +:+ "; allowed: " +:+
       fmt_strings (es_AllowedModels spec))%string)
  else if negb (is_empty (es_RequireTemplate spec)) &&
          negb (flag templateInstances (an_Device a)) then
    Some (mkEnrollmentDecision a false true EnrollRejectNotInTemplate
      ("not an instance of template " +:+ quote (es_RequireTemplate spec))%string)
  else if claims_node a && negb (str_eq holder (an_Device a)) then
    Some (mkEnrollmentDecision a false true EnrollRejectNodeIDTaken
      ("node " +:+ pretty (an_NodeID a) +:+ " on gateway " +:+ an_Gateway a +:+
       " is claimed by " +:+ holder)%string)
  else if es_AutoApprove spec then Some (mkEnrollmentDecision a true false "autoApprove" "")
  else Some (mkEnrollmentDecision a false false "awaiting approval" "").

Definition by_device (x y : EnrollmentDecision) : bool :=
  str_lt (an_Device (ed_Announcement x)) (an_Device (ed_Announcement y)).

Definition AssessEnrollment (spec : DeviceEnrollmentSpec)
    (announcements : list DeviceAnnouncement)
    (existing decommissioned templateInstances : gmap string bool) (now : Time)
  : list EnrollmentDecision :=
  let seen := first_claims announcements in
  let out := fold_left (fun out a =>
    match decide_claim spec existing decommissioned templateInstances seen a with
    | Some d => out ++ [d]
    | None => out
    end) announcements [] in
  slice_sort by_device out.
End Enrollment.

Definition FlagConflicts (a : DeviceAnnouncement) (expectedHash : string) (minBuildTime : Time)
  : list string :=
  let out :=
    if negb (is_empty expectedHash) && negb (is_empty (an_ConfigHash a)) &&
       negb (str_eq (an_ConfigHash a) expectedHash)
    then [("announces " +:+ an_ConfigHash a +:+ " while the fleet expects " +:+ expectedHash +:+
           " — will enroll already drifted")%string] else [] in
  let out := out ++
    (if negb (IsZero minBuildTime) && negb (is_empty (an_BuildTime a)) then
       match ParseRFC3339 (an_BuildTime a) with
       | Some (t, loc) =>
           if Before t minBuildTime then
             [("built " +:+ format_date loc t +:+ " " +:+ format_clock loc t +:+
               ", before the current firmware — flashed from a stale cache?")%string]
           else []
       | None => []
       end
     else []) in
  out ++
    (if is_empty (an_Gateway a) && is_empty (an_TopicPrefix a)
     then ["claims neither a gateway nor a topic prefix; unreachable as declared"%string]
     else []).

Definition last_announced (a : DeviceAnnouncement) : option Time :=
  match an_LastAnnouncedAt a with Some t => Some t | None => an_AnnouncedAt a end.

Definition is_stale (after : Duration) (now : Time) (a : DeviceAnnouncement) : bool :=
  match last_announced a with Some t => sub_time now t >? after | None => false end.

Definition ExpirePending (pending : list DeviceAnnouncement) (after : Duration) (now : Time)
  : list DeviceAnnouncement * Z :=
  if after <=? 0 then (pending, 0)
  else fold_left (fun '(kept, dropped) a =>
         if is_stale after now a then (kept, dropped + 1) else (kept ++ [a], dropped))
         pending ([], 0).

(** The [range] over [spec.Labels] writes distinct keys into an empty map: the
    result is the map itself, whatever the order. *)
Definition enrolled_labels (a : DeviceAnnouncement) (spec : DeviceEnrollmentSpec)
  : gmap string string :=
  let labels := es_Labels spec in
  if negb (is_empty (an_Model a)) then <["model"%string := an_Model a]> labels else labels.

Definition enrolled_config (a : DeviceAnnouncement) (broker : string) : gmap string Value :=
  let cfg := {[ "broker"%string := VString broker ]} in
  let cfg := if negb (is_empty (an_Gateway a))
             then <["nodeID"%string := VInt64 (an_NodeID a)]>
                    (<["gateway"%string := VString (an_Gateway a)]> cfg)
             else cfg in
  if negb (is_empty (an_TopicPrefix a))
  then <["topicPrefix"%string := VString (an_TopicPrefix a)]> cfg else cfg.

Definition BuildDeviceFromAnnouncement (a : DeviceAnnouncement) (spec : DeviceEnrollmentSpec)
    (broker : string) : gmap string Value :=
  <["name"%string := VString (an_Device a)]>
  (<["labels"%string := VStringMap (enrolled_labels a spec)]>
  (<["nodeName"%string := VString (es_NodeName spec)]>
  {[ "configData"%string := VMap (enrolled_config a broker) ]})).

Definition EnrollmentSummary (decisions : list EnrollmentDecision) : string :=
  let '(approve, pending, reject) :=
    fold_left (fun '(a, p, r) d =>
      if ed_Approve d then (a + 1, p, r)
      else if ed_Reject d then (a, p, r + 1) else (a, p + 1, r)) decisions (0, 0, 0) in
  (pretty approve +:+ " to approve, " +:+ pretty pending +:+ " pending, " +:+
   pretty reject +:+ " rejected")%string.

(** ** Lemmas *)

(** A node key determines the gateway and the node: a number prints no slash. *)
Fixpoint no_slash (s : string) : bool :=
  match s with
  | EmptyString => true
  | String c s' => negb (Ascii.eqb c "/"%char) && no_slash s'
  end.

Lemma no_slash_app a b : no_slash (a +:+ b)%string = no_slash a && no_slash b.
Proof.
  induction a as [|c a IH]; [done|]. rewrite str_app_cons. simpl.
  by rewrite IH, andb_assoc.
Qed.

Lemma no_slash_digits n : forall s, no_slash s = true -> no_slash (pretty_N_go n s) = true.
Proof.
  induction n as [n IH] using (well_founded_induction N.lt_wf_0). intros s Hs.
  destruct (decide (n = 0)%N) as [->|Hn]; [by rewrite pretty_N_go_0|].
  rewrite pretty_N_go_step by lia. apply IH; [apply N.div_lt; lia|]. simpl.
  rewrite Hs, andb_true_r. pose proof (N.mod_upper_bound n 10 ltac:(done)) as Hm.
  revert Hm. generalize (n `mod` 10)%N. intros m Hm.
  assert (m = 0 \/ m = 1 \/ m = 2 \/ m = 3 \/ m = 4 \/ m = 5 \/ m = 6 \/ m = 7 \/ m = 8 \/
    m = 9)%N as D by lia.
  by repeat destruct D as [->|D]; subst.
Qed.

Lemma no_slash_pretty (z : Z) : no_slash (pretty z) = true.
Proof.
  destruct (Z.lt_trichotomy z 0) as [H|[->|H]]; [| done |].
  - rewrite pretty_Z_neg by done. simpl. by apply no_slash_digits.
  - rewrite pretty_Z_pos by done. by apply no_slash_digits.
Qed.

Lemma split_slash g1 g2 p1 p2 :
  no_slash p1 = true -> no_slash p2 = true ->
  (g1 +:+ String "/" p1)%string = (g2 +:+ String "/" p2)%string -> g1 = g2 /\ p1 = p2.
Proof.
  assert (forall g p, no_slash (g +:+ String "/" p)%string = false) as Hslash.
  { intros g p. rewrite no_slash_app. apply andb_false_r. }
  intros H1 H2. revert g2. induction g1 as [|c g1 IH]; intros [|c' g2] E.
  - by injection E.
  - rewrite str_app_cons in E. injection E as _ E. by rewrite E, Hslash in H1.
  - rewrite str_app_cons in E. injection E as _ E. by rewrite <- E, Hslash in H2.
  - rewrite !str_app_cons in E. injection E as <- E. by destruct (IH _ E) as [-> ->].
Qed.

Lemma node_key_inj a b :
  node_key a = node_key b -> an_Gateway a = an_Gateway b /\ an_NodeID a = an_NodeID b.
Proof.
  unfold node_key. intros H.
  destruct (split_slash _ _ _ _ (no_slash_pretty _) (no_slash_pretty _) H) as [Hg Hp].
  split; [done|]. by apply (inj pretty).
Qed.

(** A node's holder is its first claimant. *)
Definition claims_key (k : string) (a : DeviceAnnouncement) : bool :=
  claims_node a && str_eq (node_key a) k.

Lemma seen_step_lookup seen a k :
  seen_step seen a !! k =
  match seen !! k with
  | Some d => Some d
  | None => if claims_key k a then Some (an_Device a) else None
  end.
Proof.
  unfold seen_step, claims_key. destruct (claims_node a); simpl; [|by destruct (seen !! k)].
  destruct (seen !! node_key a) as [first|] eqn:Ef; simpl.
  - destruct (str_eq first (an_Device a)) eqn:Ed; simpl.
    + apply str_eq_true in Ed as ->. destruct (str_eq (node_key a) k) eqn:Ek.
      * apply str_eq_true in Ek as <-. by rewrite lookup_insert_eq, Ef.
      * apply str_eq_false in Ek. rewrite lookup_insert_ne by done. by destruct (seen !! k).
    + destruct (str_eq (node_key a) k) eqn:Ek; [|by destruct (seen !! k)].
      apply str_eq_true in Ek as <-. by rewrite Ef.
  - destruct (str_eq (node_key a) k) eqn:Ek.
    + apply str_eq_true in Ek as <-. by rewrite lookup_insert_eq, Ef.
    + apply str_eq_false in Ek. rewrite lookup_insert_ne by done. by destruct (seen !! k).
Qed.

Lemma first_claims_lookup anns k :
  first_claims anns !! k = an_Device <$> find (claims_key k) anns.
Proof.
  unfold first_claims.
  assert (forall seen, fold_left seen_step anns seen !! k =
    match seen !! k with Some d => Some d
    | None => an_Device <$> find (claims_key k) anns end) as H.
  { induction anns as [|a anns IH]; intros seen; simpl; [by destruct (seen !! k)|].
    rewrite IH, seen_step_lookup. destruct (seen !! k); [done|].
    by destruct (claims_key k a). }
  by rewrite H, lookup_empty.
Qed.

Section Decisions.
Context `{SliceSort} `{StrconvQuote}.
Context (spec : DeviceEnrollmentSpec) (existing decommissioned templates : gmap string bool).

#[local] Abbreviation decide_with := (decide_claim spec existing decommissioned templates).

Lemma AssessEnrollment_perm anns now :
  AssessEnrollment spec anns existing decommissioned templates now
  ≡ₚ omap (decide_with (first_claims anns)) anns.
Proof.
  unfold AssessEnrollment. rewrite slice_sort_perm.
  assert (forall l acc, fold_left (fun out a =>
    match decide_with (first_claims anns) a with Some d => out ++ [d] | None => out end) l acc
    = acc ++ omap (decide_with (first_claims anns)) l) as ->.
  { induction l as [|a l IH]; intros acc; csimpl; [by rewrite app_nil_r|].
    rewrite IH. by destruct (decide_with _ a); [rewrite <- app_assoc|]. }
  done.
Qed.

Lemma AssessEnrollment_In anns now d :
  In d (AssessEnrollment spec anns existing decommissioned templates now) <->
  exists a, In a anns /\ decide_with (first_claims anns) a = Some d.
Proof.
  rewrite <- !list_elem_of_In, AssessEnrollment_perm, list_elem_of_omap.
  by setoid_rewrite list_elem_of_In.
Qed.

Lemma decide_claim_announcement seen a d :
  decide_with seen a = Some d -> ed_Announcement d = a.
Proof. unfold decide_claim. intros Hd. by repeat case_match; simplify_eq. Qed.

Lemma decide_claim_silent seen a :
  decide_with seen a = None <->
  flag decommissioned (an_Device a) = false /\ flag existing (an_Device a) = true.
Proof. unfold decide_claim. repeat case_match; naive_solver. Qed.
End Decisions.

(** What a claim needs so that nothing automatic refuses it. *)
Definition admissible (spec : DeviceEnrollmentSpec) (decommissioned templates : gmap string bool)
    (anns : list DeviceAnnouncement) (a : DeviceAnnouncement) : Prop :=
  flag decommissioned (an_Device a) = false /\
  (es_AllowedModels spec = [] \/ In (an_Model a) (es_AllowedModels spec)) /\
  (es_RequireTemplate spec = ""%string \/ flag templates (an_Device a) = true) /\
  (claims_node a = true ->
   an_Device <$> find (claims_key (node_key a)) anns = Some (an_Device a)).

Lemma guarded_list (l : list string) (b : bool) :
  negb (is_nil (head l)) && negb b = false <-> l = [] \/ b = true.
Proof. destruct l, b; simpl; naive_solver. Qed.

Lemma guarded_string (s : string) (b : bool) :
  negb (is_empty s) && negb b = false <-> s = ""%string \/ b = true.
Proof.
  unfold is_empty. destruct (str_eq s "") eqn:E; [apply str_eq_true in E|apply str_eq_false in E];
    destruct b; simpl; naive_solver.
Qed.

Lemma claims_key_self a : claims_node a = true -> claims_key (node_key a) a = true.
Proof. unfold claims_key. intros ->. apply str_eq_refl. Qed.

Section Verdicts.
Context `{SliceSort} `{StrconvQuote}.
Context (spec : DeviceEnrollmentSpec) (existing decommissioned templates : gmap string bool).

Lemma holder_is_first anns a :
  In a anns -> claims_node a = true ->
  (str_eq (default ""%string (first_claims anns !! node_key a)) (an_Device a) = true <->
   an_Device <$> find (claims_key (node_key a)) anns = Some (an_Device a)).
Proof.
  intros Ha Hc. rewrite first_claims_lookup, str_eq_true.
  destruct (find (claims_key (node_key a)) anns) as [b|] eqn:E; simpl; [by split; [intros ->|intros [= ->]]|].
  eapply find_none in E; [|exact Ha]. by rewrite claims_key_self in E.
Qed.

Lemma decide_claim_verdict anns a d :
  In a anns ->
  decide_claim spec existing decommissioned templates (first_claims anns) a = Some d ->
  (ed_Reject d = false <-> admissible spec decommissioned templates anns a) /\
  (ed_Approve d = true <-> es_AutoApprove spec = true /\ ed_Reject d = false).
Proof.
  intros Ha. unfold decide_claim, admissible. pose proof (holder_is_first anns a Ha) as Hh.
  rewrite <- contains_In.
  destruct (flag decommissioned (an_Device a)); [intros [= <-]; simpl; naive_solver|].
  destruct (flag existing (an_Device a)); [done|].
  rewrite <- guarded_list.
  destruct (negb (is_nil (head (es_AllowedModels spec))) && _);
    [intros [= <-]; simpl; naive_solver|].
  rewrite <- guarded_string.
  destruct (negb (is_empty (es_RequireTemplate spec)) && _);
    [intros [= <-]; simpl; naive_solver|].
  destruct (claims_node a); simpl.
  - specialize (Hh eq_refl). destruct (str_eq _ (an_Device a)); simpl.
    + destruct (es_AutoApprove spec); intros [= <-]; simpl; naive_solver.
    + intros [= <-]; simpl; naive_solver.
  - destruct (es_AutoApprove spec); intros [= <-]; simpl; naive_solver.
Qed.

Lemma by_device_laws :
  (forall x y, by_device x y = true -> by_device y x = false) /\
  (forall x y z, by_device y x = false -> by_device z y = false -> by_device z x = false).
Proof.
  unfold by_device. split; [intros; by apply str_lt_asym|intros; by eapply str_le_trans].
Qed.
End Verdicts.

(** ** Properties *)

(** Every announcement gets exactly one decision, except those of devices that
    are already enrolled and were not decommissioned, which get none; and the
    decisions come sorted by device name, whatever the sorting algorithm does with
    equal names. *)
Theorem AssessEnrollment_decides `{SliceSort} `{StrconvQuote}
    spec anns existing decommissioned templates now :
  let out := AssessEnrollment spec anns existing decommissioned templates now in
  map ed_Announcement out ≡ₚ
    List.filter (fun a => flag decommissioned (an_Device a) || negb (flag existing (an_Device a)))
      anns /\
  Sorted (fun x y => by_device y x = false) out.
Proof.
  split.
  - rewrite AssessEnrollment_perm. generalize (first_claims anns). intros seen.
    induction anns as [|a anns IH]; [done|]. csimpl.
    pose proof (decide_claim_silent spec existing decommissioned templates seen a) as Hs.
    destruct (decide_claim spec existing decommissioned templates seen a) as [d|] eqn:E.
    + apply decide_claim_announcement in E as Ea. simpl.
      destruct (flag decommissioned (an_Device a)), (flag existing (an_Device a)); simpl;
        try (rewrite Ea; by constructor). naive_solver.
    + destruct (proj1 Hs eq_refl) as [-> ->]. done.
  - apply slice_sort_sorted; apply by_device_laws.
Qed.

(** C27. A machine only grants what the operator allowed: an announcement is not
    rejected exactly when its name was not decommissioned, its model is allowed, it
    is in the required template and nobody else claimed its node first; and it is
    approved, rather than left pending, exactly when it is not rejected and
    automatic approval is on. *)
Theorem AssessEnrollment_grants `{SliceSort} `{StrconvQuote}
    spec anns existing decommissioned templates now d :
  In d (AssessEnrollment spec anns existing decommissioned templates now) ->
  (ed_Reject d = false <-> admissible spec decommissioned templates anns (ed_Announcement d)) /\
  (ed_Approve d = true <-> es_AutoApprove spec = true /\ ed_Reject d = false).
Proof.
  intros (a & Ha & Hd)%AssessEnrollment_In.
  rewrite (decide_claim_announcement _ _ _ _ _ _ _ Hd). by eapply decide_claim_verdict.
Qed.

(** C28. No node is given twice: two decisions that are not rejections and claim the
    same node behind the same gateway are about the same device. *)
Theorem AssessEnrollment_node_unique `{SliceSort} `{StrconvQuote}
    spec anns existing decommissioned templates now d1 d2 :
  let out := AssessEnrollment spec anns existing decommissioned templates now in
  In d1 out -> In d2 out -> ed_Reject d1 = false -> ed_Reject d2 = false ->
  claims_node (ed_Announcement d1) = true ->
  an_Gateway (ed_Announcement d1) = an_Gateway (ed_Announcement d2) ->
  an_NodeID (ed_Announcement d1) = an_NodeID (ed_Announcement d2) ->
  an_Device (ed_Announcement d1) = an_Device (ed_Announcement d2).
Proof.
  intros out (a & Ha & Hd1)%AssessEnrollment_In (b & Hb & Hd2)%AssessEnrollment_In Hr1 Hr2.
  rewrite (decide_claim_announcement _ _ _ _ _ _ _ Hd1),
    (decide_claim_announcement _ _ _ _ _ _ _ Hd2).
  intros Hc Hg Hn.
  apply (decide_claim_verdict _ _ _ _ _ _ _ Ha) in Hd1 as [HA _].
  apply (decide_claim_verdict _ _ _ _ _ _ _ Hb) in Hd2 as [HB _].
  destruct (proj1 HA Hr1) as (_ & _ & _ & Fa). destruct (proj1 HB Hr2) as (_ & _ & _ & Fb).
  assert (node_key a = node_key b) as Hk by (unfold node_key; by rewrite Hg, Hn).
  assert (claims_node b = true) as Hcb by (unfold claims_node in *; by rewrite <- Hg, <- Hn).
  specialize (Fa Hc). specialize (Fb Hcb). rewrite Hk, Fb in Fa. by injection Fa.
Qed.

(** [ExpirePending] keeps, in order, exactly the announcements that are not older
    than the limit (those without any date are never dropped), and reports how many
    it dropped; without a limit it drops nothing. *)
Theorem ExpirePending_splits pending after now :
  let '(kept, dropped) := ExpirePending pending after now in
  kept = List.filter (fun a => (after <=? 0) || negb (is_stale after now a)) pending /\
  Z.of_nat (length kept) + dropped = Z.of_nat (length pending).
Proof.
  unfold ExpirePending. destruct (Z.leb_spec after 0) as [Ha|Ha]; simpl.
  - split; [|lia]. symmetry. clear Ha. induction pending as [|a l IH]; simpl; congruence.
  - assert (forall l kept dropped,
      fold_left (fun '(kept, dropped) a =>
        if is_stale after now a then (kept, dropped + 1) else (kept ++ [a], dropped)) l
        (kept, dropped)
      = (kept ++ List.filter (fun a => negb (is_stale after now a)) l,
         dropped + Z.of_nat (length (List.filter (is_stale after now) l)))) as ->.
    { induction l as [|a l IH]; intros kept dropped; simpl.
      - by rewrite app_nil_r, Z.add_0_r.
      - destruct (is_stale after now a); simpl; rewrite IH.
        + f_equal. lia.
        + by rewrite <- app_assoc. }
    simpl. split; [done|].
    pose proof (filter_length_split (is_stale after now) pending). lia.
Qed.

(** The labels of an enrolled device are the operator's, with one exception: a
    claimed model is written over whatever the operator set for "model". *)
Theorem enrolled_labels_sources a spec k :
  enrolled_labels a spec !! k =
  if str_eq k "model" && negb (is_empty (an_Model a)) then Some (an_Model a)
  else es_Labels spec !! k.
Proof.
  unfold enrolled_labels. destruct (is_empty (an_Model a)); simpl; [by rewrite andb_false_r|].
  rewrite andb_true_r. destruct (str_eq k "model") eqn:E.
  - apply str_eq_true in E as ->. apply lookup_insert_eq.
  - apply str_eq_false in E. by apply lookup_insert_ne.
Qed.

(** ** The scenario of enrollment_test.go *)

#[local] Instance plain_quote : StrconvQuote := fun s => s.

Definition ann (dev model gw : string) (node : Z) : DeviceAnnouncement :=
  mkDeviceAnnouncement dev model gw node "" [] "v41" "" "" (Some 0) (Some 0) [].

Definition gate : DeviceEnrollmentSpec :=
  mkDeviceEnrollmentSpec "" "" false "north-ridge-sensors" ["heltec-v3"; "meshnology-w10"]%string
    ∅ "" None.

Definition gate_anns : list DeviceAnnouncement :=
  [ann "field-01" "heltec-v3" "gw-north" 2; ann "field-02" "heltec-v3" "gw-north" 2;
   ann "field-03" "heltec-v3" "gw-north" 4; ann "field-99" "heltec-v3" "gw-north" 5;
   ann "rogue-01" "unknown-board" "gw-north" 6; ann "field-22" "heltec-v3" "gw-north" 7;
   ann "field-01" "meshnology-w10" "gw-north" 2].
Definition gate_existing : gmap string bool := {[ "field-03"%string := true ]}.
Definition gate_decommissioned : gmap string bool := {[ "field-22"%string := true ]}.
Definition gate_instances : gmap string bool :=
  list_to_map [("field-01"%string, true); ("field-02"%string, true); ("field-03"%string, true)].
Definition gate_decisions : list EnrollmentDecision :=
  AssessEnrollment gate gate_anns gate_existing gate_decommissioned gate_instances 0.

(** Of the two devices that claim node 2 only the second is flagged. *)
Example gate_outcome :
  map (fun d => (an_Device (ed_Announcement d), ed_Reject d, ed_Reason d)) gate_decisions =
  [("field-01", false, "awaiting approval"); ("field-01", false, "awaiting approval");
   ("field-02", true, EnrollRejectNodeIDTaken);
   ("field-22", true, EnrollRejectDecommissioned); ("field-99", true, EnrollRejectNotInTemplate);
   ("rogue-01", true, EnrollRejectUnknownModel)]%string.
Proof. vm_compute; reflexivity. Qed.

(** A claim that is itself refused still holds its node against the legitimate
    device that announces after it. *)
Example rogue_claim_blocks :
  map (fun d => (an_Device (ed_Announcement d), ed_Reject d, ed_Reason d))
    (AssessEnrollment gate
      [ann "rogue-01" "unknown-board" "gw-north" 2; ann "field-01" "heltec-v3" "gw-north" 2]
      ∅ ∅ {[ "field-01"%string := true ]} 0) =
  [("field-01", true, EnrollRejectNodeIDTaken); ("rogue-01", true, EnrollRejectUnknownModel)]%string.
Proof. vm_compute; reflexivity. Qed.

Definition pending_decision (model : string) : EnrollmentDecision :=
  mkEnrollmentDecision (ann "field-01" model "gw-north" 2) false false "awaiting approval" "".

Lemma pending_decision_In model :
  model = "heltec-v3"%string \/ model = "meshnology-w10"%string ->
  In (pending_decision model) gate_decisions.
Proof. intros [-> | ->]; vm_compute; tauto. Qed.

Lemma AssessEnrollment_grants_witness :
  ed_Approve (pending_decision "heltec-v3") = true <->
  es_AutoApprove gate = true /\ ed_Reject (pending_decision "heltec-v3") = false.
Proof.
  exact (proj2 (AssessEnrollment_grants gate gate_anns gate_existing gate_decommissioned
    gate_instances 0 _ (pending_decision_In _ (or_introl eq_refl)))).
Defined.

Lemma AssessEnrollment_node_unique_witness :
  an_Device (ed_Announcement (pending_decision "heltec-v3")) =
  an_Device (ed_Announcement (pending_decision "meshnology-w10")).
Proof.
  apply (AssessEnrollment_node_unique gate gate_anns gate_existing gate_decommissioned
    gate_instances 0 _ _ (pending_decision_In _ (or_introl eq_refl))
    (pending_decision_In _ (or_intror eq_refl))); reflexivity.
Defined.
