(* ===== verification/Template.v ===== *)
(** * Device templates: internal/template.go

    Substitution of [{{ .name }}], instantiation of a template, and the comparison
    of a live device with what its template would produce. Go iterates over maps in
    an unspecified order that changes from one loop to the next: every [range] over
    a map goes through [map_range], with a tick of its own. *)

From S2P Require Import Prelude GoTime GoStrings Types.
From Stdlib Require Import Ascii.
Local Open Scope Z_scope.

(** ** Definitions: the variable reference *)

Definition is_letter (c : ascii) : bool :=
  ((65 <=? byte_code c) && (byte_code c <=? 90)) ||
  ((97 <=? byte_code c) && (byte_code c <=? 122)) || (byte_code c =? 95).
Definition is_word (c : ascii) : bool := is_letter c || is_digit c.
(** [\s] of the regular expression syntax: no vertical tab. *)
Definition is_blank (c : ascii) : bool :=
  (byte_code c =? 9) || (byte_code c =? 10) || (byte_code c =? 12) ||
  (byte_code c =? 13) || (byte_code c =? 32).

Fixpoint span (p : ascii -> bool) (s : string) : string * string :=
  match s with
  | String c s' => if p c then let '(a, b) := span p s' in (String c a, b) else (EmptyString, s)
  | EmptyString => (EmptyString, EmptyString)
  end.

Fixpoint strip_prefix (pre s : string) : option string :=
  match pre, s with
  | EmptyString, _ => Some s
  | String a pre', String b s' => if Ascii.eqb a b then strip_prefix pre' s' else None
  | String _ _, EmptyString => None
  end.

(** [varRef] at the head of [s]: the variable's name, the text matched, the rest.
    The classes around each star are disjoint from what follows, so greedy
    matching is the only way to match. *)
Definition match_ref (s : string) : option (string * string * string) :=
  s1 ← strip_prefix "{{" s;
  let '(b1, s2) := span is_blank s1 in
  s3 ← strip_prefix "." s2;
  match s3 with
  | String c _ =>
      if is_letter c then
        let '(name, s4) := span is_word s3 in
        let '(b2, s5) := span is_blank s4 in
        s6 ← strip_prefix "}}" s5;
        Some (name, ("{{" +:+ b1 +:+ "." +:+ name +:+ b2 +:+ "}}")%string, s6)
      else None
  | EmptyString => None
  end.

(** A string cut at its leftmost, non-overlapping references. *)
Inductive Piece :=
| Byte (c : ascii)
| Ref (name text : string).

Fixpoint pieces_from (skip : nat) (s : string) : list Piece :=
  match s with
  | EmptyString => []
  | String c s' =>
      match skip with
      | S k => pieces_from k s'
      | O =>
          match match_ref s with
          | Some (name, text, _) => Ref name text :: pieces_from (String.length text - 1) s'
          | None => Byte c :: pieces_from 0 s'
          end
      end
  end.
Definition pieces (s : string) : list Piece := pieces_from 0 s.

(** [substitute]: the callback of [ReplaceAllStringFunc] appends to [missing]. *)
Definition substitute_step (vars : gmap string string) (s : string * list string) (p : Piece)
  : string * list string :=
  let '(out, missing) := s in
  match p with
  | Byte c => ((out +:+ String c EmptyString)%string, missing)
  | Ref name text =>
      match vars !! name with
      | Some v => ((out +:+ v)%string, missing)
      | None => ((out +:+ text)%string, missing ++ [name])
      end
  end.

Definition substitute (in_ : string) (vars : gmap string string) : string * list string :=
  fold_left (substitute_step vars) (pieces in_) (""%string, []).

Fixpoint dedupe_from (seen : gmap string bool) (s : list string) : list string :=
  match s with
  | [] => []
  | v :: s' => if default false (seen !! v) then dedupe_from seen s'
               else v :: dedupe_from (<[v := true]> seen) s'
  end.
Definition dedupe (s : list string) : list string := dedupe_from ∅ s.

(** ** Definitions: instantiation *)

Record RenderedProperty := mkRenderedProperty {
  rp_Name : string;
  rp_CollectCycle : Z;
  rp_ReportCycle : Z;
  rp_ReportToCloud : bool;
  rp_Visitors : gmap string string;
  rp_Desired : string;
  rp_Overridden : bool
}.

Record RenderedDevice := mkRenderedDevice {
  rd_Name : string;
  rd_Labels : gmap string string;
  rd_Protocol : string;
  rd_ConfigData : gmap string string;
  rd_Properties : list RenderedProperty
}.

Section Render.
Context `{MapRange} `{SliceSort} `{StrconvQuote}.

(** [for k, v := range src { dst[k] = v }]. *)
Definition copy_into (tick : nat) (src dst : gmap string string) : gmap string string :=
  fold_left (fun m '(k, v) => <[k := v]> m) (map_range tick src) dst.

(** [for k, v := range src { rendered, miss := substitute(v, vars); ... }]. *)
Definition render_map (tick : nat) (vars src : gmap string string)
    (s : gmap string string * list string) : gmap string string * list string :=
  fold_left (fun '(dst, missing) '(k, v) =>
    let '(rendered, miss) := substitute v vars in
    (<[k := rendered]> dst, missing ++ miss)) (map_range tick src) s.

Definition render_property (tick : nat) (inst : TemplateInstance)
    (s : list RenderedProperty * list string) (p : TemplateProperty)
  : list RenderedProperty * list string :=
  let '(props, missing) := s in
  let '(visitors, missing) := render_map tick (ti_Vars inst) (tpr_Visitors p) (∅, missing) in
  match ti_Overrides inst !! tpr_Name p with
  | Some ov =>
      let '(rendered, miss) := substitute ov (ti_Vars inst) in
      (props ++ [mkRenderedProperty (tpr_Name p) (tpr_CollectCycle p) (tpr_ReportCycle p)
                   (tpr_ReportToCloud p) visitors rendered true], missing ++ miss)
  | None =>
      (props ++ [mkRenderedProperty (tpr_Name p) (tpr_CollectCycle p) (tpr_ReportCycle p)
                   (tpr_ReportToCloud p) visitors (tpr_Desired p) false], missing)
  end.

Definition known_properties (spec : DeviceTemplateSpec) : gmap string bool :=
  fold_left (fun known p => <[tpr_Name p := true]> known) (dt_Properties spec) ∅.

Definition override_errors (tick : nat) (known : gmap string bool) (inst : TemplateInstance)
    (errs : list TemplateError) : list TemplateError :=
  fold_left (fun errs '(name, _) =>
    if negb (default false (known !! name)) then
      errs ++ [mkTemplateError (ti_Name inst) TemplateErrBadOverride
        ("override for " +:+ quote name +:+ ", which the template does not define")%string]
    else errs) (map_range tick (ti_Overrides inst)) errs.

Definition missing_error (inst : TemplateInstance) (missing : list string) : list TemplateError :=
  match missing with
  | [] => []
  | _ => [mkTemplateError (ti_Name inst) TemplateErrMissingVar
            ("unset: " +:+ Join ", " (dedupe (slice_sort str_lt missing)))%string]
  end.

(** One instance: [i] numbers it, so that its loops have ticks of their own. *)
Definition render_instance (spec : DeviceTemplateSpec) (i : nat) (inst : TemplateInstance)
    (errs : list TemplateError) : RenderedDevice * list TemplateError :=
  let tick (j : nat) : nat := encode_nat (i, j) in
  let labels := copy_into (tick 1%nat) (ti_Labels inst) (copy_into (tick 0%nat) (dt_Labels spec) ∅) in
  let '(protocol, (config, missing)) :=
    match dt_Protocol spec with
    | Some p => (tp_Name p, render_map (tick 2%nat) (ti_Vars inst) (tp_ConfigData p) (∅, []))
    | None => (""%string, (∅, []))
    end in
  let '(props, missing) :=
    fold_left (fun s '(j, p) => render_property (tick (4 + j)%nat) inst s p)
      (imap pair (dt_Properties spec)) ([], missing) in
  let errs := override_errors (tick 3%nat) (known_properties spec) inst errs in
  (mkRenderedDevice (ti_Name inst) labels protocol config props,
   errs ++ missing_error inst missing).

Definition RenderTemplate (spec : DeviceTemplateSpec)
  : list RenderedDevice * list TemplateError :=
  fold_left (fun '(out, errs) '(i, inst) =>
    let '(rd, errs) := render_instance spec i inst errs in (out ++ [rd], errs))
    (imap pair (dt_Instances spec)) ([], []).

Definition config_diff (live : gmap string string) (kv : string * string) : list string :=
  let '(k, v) := kv in
  match live !! k with
  | Some got => if negb (str_eq got v)
                then [("protocol." +:+ k +:+ ": " +:+ quote got +:+ " != " +:+ quote v)%string]
                else []
  | None => []
  end.

Definition desired_diff (live : gmap string string) (p : RenderedProperty) : list string :=
  if is_empty (rp_Desired p) then []
  else match live !! rp_Name p with
       | Some got => if negb (str_eq got (rp_Desired p))
                     then [(rp_Name p +:+ ": " +:+ quote got +:+ " != " +:+ quote (rp_Desired p))%string]
                     else []
       | None => []
       end.

Definition DiffRendered (want : RenderedDevice) (liveConfig liveDesired : gmap string string)
  : list string :=
  let diffs := fold_left (fun diffs kv => diffs ++ config_diff liveConfig kv)
    (map_range 0%nat (rd_ConfigData want)) [] in
  let diffs := fold_left (fun diffs p => diffs ++ desired_diff liveDesired p)
    (rd_Properties want) diffs in
  slice_sort str_lt diffs.
End Render.

(** ** Lemmas: references *)

Lemma span_app p s a b : span p s = (a, b) -> s = (a +:+ b)%string.
Proof.
  revert a b. induction s as [|c s IH]; intros a b; simpl; [by intros [= <- <-]|].
  destruct (p c); [|by intros [= <- <-]].
  destruct (span p s) as [a' b']. intros [= <- <-]. by rewrite str_app_cons, (IH a' b').
Qed.

Lemma strip_prefix_app pre s rest : strip_prefix pre s = Some rest -> s = (pre +:+ rest)%string.
Proof.
  revert s. induction pre as [|a pre IH]; intros s; simpl; [by intros [= ->]|].
  destruct s as [|b s]; [done|]. destruct (Ascii.eqb_spec a b) as [->|]; [|done].
  intros H. by rewrite str_app_cons, (IH s H).
Qed.

Lemma match_ref_app s name text rest :
  match_ref s = Some (name, text, rest) ->
  s = (text +:+ rest)%string /\ exists t, text = String "{" t.
Proof.
  unfold match_ref. intros H.
  apply bind_Some in H as (s1 & H1%strip_prefix_app & H).
  destruct (span is_blank s1) as [b1 s2] eqn:E1. apply span_app in E1.
  apply bind_Some in H as (s3 & H3%strip_prefix_app & H).
  destruct s3 as [|c s3]; [done|]. destruct (is_letter c); [|done].
  destruct (span is_word (String c s3)) as [nm s4] eqn:E2. apply span_app in E2.
  destruct (span is_blank s4) as [b2 s5] eqn:E3. apply span_app in E3.
  apply bind_Some in H as (s6 & H6%strip_prefix_app & [= <- <- <-]).
  split; [|by eexists].
  rewrite H1, E1, H3, E2, E3, H6. by rewrite !str_app_assoc.
Qed.

Lemma pieces_skip a b : pieces_from (String.length a) (a +:+ b)%string = pieces b.
Proof. induction a as [|c a IH]; [done|]. rewrite str_app_cons. simpl. apply IH. Qed.

(** The cut, without the skip counter. *)
Lemma pieces_unfold s :
  pieces s =
  match s with
  | EmptyString => []
  | String c s' =>
      match match_ref s with
      | Some (name, text, rest) => Ref name text :: pieces rest
      | None => Byte c :: pieces s'
      end
  end.
Proof.
  destruct s as [|c s]; [done|]. unfold pieces at 1. simpl pieces_from.
  destruct (match_ref (String c s)) as [[[name text] rest]|] eqn:E; [|done].
  apply match_ref_app in E as (Hs & t & ->). rewrite str_app_cons in Hs.
  injection Hs as _ ->. f_equal. simpl. rewrite Nat.sub_0_r. apply pieces_skip.
Qed.

Definition piece_text (p : Piece) : string :=
  match p with Byte c => String c EmptyString | Ref _ text => text end.

Definition piece_value (vars : gmap string string) (p : Piece) : string :=
  match p with
  | Byte c => String c EmptyString
  | Ref name text => default text (vars !! name)
  end.

Definition piece_missing (vars : gmap string string) (p : Piece) : list string :=
  match p with
  | Byte _ => []
  | Ref name _ => if is_nil (vars !! name) then [name] else []
  end.

Definition concat_strings (l : list string) : string := fold_right String.append ""%string l.

Lemma str_length_app a b : String.length (a +:+ b)%string = (String.length a + String.length b)%nat.
Proof. induction a as [|c a IH]; [done|]. rewrite str_app_cons. simpl. by rewrite IH. Qed.

Lemma pieces_text s : concat_strings (map piece_text (pieces s)) = s.
Proof.
  induction s as [s IH] using (induction_ltof1 _ String.length). unfold ltof in IH.
  rewrite pieces_unfold. destruct s as [|c s]; [done|].
  destruct (match_ref (String c s)) as [[[name text] rest]|] eqn:E.
  - apply match_ref_app in E as (Hs & t & ->). simpl. rewrite IH; [by rewrite Hs|].
    rewrite Hs, str_length_app. simpl. lia.
  - simpl. rewrite IH by (simpl; lia). done.
Qed.

Lemma substitute_pieces s vars :
  substitute s vars = (concat_strings (map (piece_value vars) (pieces s)),
                       flat_map (piece_missing vars) (pieces s)).
Proof.
  unfold substitute.
  assert (forall ps out missing, fold_left (substitute_step vars) ps (out, missing) =
    ((out +:+ concat_strings (map (piece_value vars) ps))%string,
     missing ++ flat_map (piece_missing vars) ps)) as H.
  { induction ps as [|p ps IH]; intros out missing; simpl.
    - by rewrite str_app_nil_r, app_nil_r.
    - destruct p as [c|name text]; simpl.
      + by rewrite IH, str_app_assoc.
      + destruct (vars !! name) as [v|]; simpl; rewrite IH, ?str_app_assoc; [done|].
        by rewrite <- app_assoc. }
  apply H.
Qed.

(** ** Lemmas: maps in any order *)

Lemma fold_insert_list {A B} (f : A -> B) (l : list (string * A)) (d : gmap string B) :
  NoDup l.*1 ->
  fold_left (fun m '(k, v) => <[k := f v]> m) l d = (f <$> list_to_map l) ∪ d.
Proof.
  revert d. induction l as [|[k v] l IH]; intros d Hnd; simpl.
  - by rewrite fmap_empty, (left_id_L ∅ (∪)).
  - inversion Hnd as [|? ? Hk Hnd']; subst. rewrite IH by done.
    rewrite fmap_insert, <- insert_union_l. symmetry. apply insert_union_r.
    rewrite lookup_fmap. by rewrite (not_elem_of_list_to_map_1 l k Hk).
Qed.

Section Order.
Context `{MapRange}.

Lemma map_range_keys {V} tick (m : gmap string V) : NoDup (map_range tick m).*1.
Proof. rewrite (map_range_perm tick m). apply NoDup_fst_map_to_list. Qed.

Lemma map_range_list_to_map {V} tick (m : gmap string V) :
  list_to_map (map_range tick m) = m.
Proof.
  rewrite <- (list_to_map_to_list m) at 2. apply list_to_map_proper; [|apply map_range_perm].
  apply map_range_keys.
Qed.

Lemma copy_into_union tick src dst : copy_into tick src dst = src ∪ dst.
Proof.
  unfold copy_into. rewrite (fold_insert_list id) by apply map_range_keys.
  by rewrite map_range_list_to_map, map_fmap_id.
Qed.

(** References left unset in the values of a map, in the order of its list. *)
Definition map_missing (vars src : gmap string string) : list string :=
  flat_map (fun kv => (substitute kv.2 vars).2) (map_to_list src).

Lemma render_map_spec tick vars src dst missing :
  (render_map tick vars src (dst, missing)).1
    = ((fun v => (substitute v vars).1) <$> src) ∪ dst /\
  (render_map tick vars src (dst, missing)).2 ≡ₚ missing ++ map_missing vars src.
Proof.
  unfold render_map, map_missing. rewrite <- (map_range_perm tick src).
  pose proof (map_range_keys tick src) as Hnd.
  assert (forall l dst missing,
    fold_left (fun '(dst, missing) '(k, v) =>
      let '(rendered, miss) := substitute v vars in (<[k := rendered]> dst, missing ++ miss))
      l (dst, missing)
    = (fold_left (fun m '(k, v) => <[k := (substitute v vars).1]> m) l dst,
       missing ++ flat_map (fun kv : string * string => (substitute kv.2 vars).2) l)) as ->.
  { clear. induction l as [|[k v] l IH]; intros dst missing; simpl; [by rewrite app_nil_r|].
    destruct (substitute v vars) as [r miss]. simpl. by rewrite IH, <- app_assoc. }
  simpl. split; [|done].
  rewrite (fold_insert_list (fun v => (substitute v vars).1)) by done.
  by rewrite map_range_list_to_map.
Qed.
End Order.

(** Sorting strings has one result. *)
Lemma sort_strings_unique `{SliceSort} l l' :
  l ≡ₚ l' -> slice_sort str_lt l = sort_by str_lt l'.
Proof.
  intros Hp. set (R := fun x y => str_lt y x = false).
  assert (Transitive R) by (intros x y z; apply str_le_trans).
  assert (AntiSymm (=) R) by (intros x y Hx Hy; by apply str_lt_total).
  apply (Sorted_unique R).
  - apply slice_sort_sorted; [apply str_lt_asym|apply str_le_trans].
  - apply (slice_sort_sorted (SliceSort := insertion_SliceSort));
      [apply str_lt_asym|apply str_le_trans].
  - by rewrite slice_sort_perm, sort_by_perm.
Qed.

Lemma dedupe_from_spec s : forall seen,
  NoDup (dedupe_from seen s) /\
  forall x, x ∈ dedupe_from seen s <-> x ∈ s /\ default false (seen !! x) = false.
Proof.
  induction s as [|v s IH]; intros seen; simpl.
  - split; [constructor|]. intros x. set_solver.
  - destruct (default false (seen !! v)) eqn:E.
    + destruct (IH seen) as [Hnd Hin]. split; [done|]. intros x. rewrite Hin.
      rewrite elem_of_cons. split; [tauto|]. intros [[->|?] ?]; [congruence|done].
    + destruct (IH (<[v := true]> seen)) as [Hnd Hin].
      assert (forall x, default false (<[v := true]> seen !! x) = false <->
                        x <> v /\ default false (seen !! x) = false) as Hins.
      { intros x. destruct (decide (x = v)) as [->|Hne].
        - rewrite lookup_insert_eq. naive_solver.
        - rewrite lookup_insert_ne by done. naive_solver. }
      split.
      * constructor; [|done]. rewrite Hin, Hins. naive_solver.
      * intros x. rewrite !elem_of_cons, Hin, Hins.
        destruct (decide (x = v)) as [->|]; naive_solver.
Qed.

(** ** Specification: what a template means, without loops or orders *)

Definition instance_property (inst : TemplateInstance) (p : TemplateProperty)
  : RenderedProperty :=
  let render v := (substitute v (ti_Vars inst)).1 in
  let override := ti_Overrides inst !! tpr_Name p in
  mkRenderedProperty (tpr_Name p) (tpr_CollectCycle p) (tpr_ReportCycle p) (tpr_ReportToCloud p)
    (render <$> tpr_Visitors p)
    (match override with Some ov => render ov | None => tpr_Desired p end)
    (negb (is_nil override)).

Definition property_missing (inst : TemplateInstance) (p : TemplateProperty) : list string :=
  map_missing (ti_Vars inst) (tpr_Visitors p) ++
  match ti_Overrides inst !! tpr_Name p with
  | Some ov => (substitute ov (ti_Vars inst)).2
  | None => []
  end.

Definition template_config (spec : DeviceTemplateSpec) : gmap string string :=
  match dt_Protocol spec with Some p => tp_ConfigData p | None => ∅ end.

Definition instance_device (spec : DeviceTemplateSpec) (inst : TemplateInstance) : RenderedDevice :=
  mkRenderedDevice (ti_Name inst) (ti_Labels inst ∪ dt_Labels spec)
    (match dt_Protocol spec with Some p => tp_Name p | None => ""%string end)
    ((fun v => (substitute v (ti_Vars inst)).1) <$> template_config spec)
    (map (instance_property inst) (dt_Properties spec)).

Definition instance_missing (spec : DeviceTemplateSpec) (inst : TemplateInstance) : list string :=
  map_missing (ti_Vars inst) (template_config spec) ++
  flat_map (property_missing inst) (dt_Properties spec).

Definition defines (spec : DeviceTemplateSpec) (name : string) : bool :=
  existsb (fun p => str_eq (tpr_Name p) name) (dt_Properties spec).

Section Errors.
Context `{StrconvQuote}.

Definition bad_override (inst : TemplateInstance) (name : string) : TemplateError :=
  mkTemplateError (ti_Name inst) TemplateErrBadOverride
    ("override for " +:+ quote name +:+ ", which the template does not define")%string.

Definition instance_errors (spec : DeviceTemplateSpec) (inst : TemplateInstance)
  : list TemplateError :=
  map (bad_override inst)
    (List.filter (fun name => negb (defines spec name)) (map_to_list (ti_Overrides inst)).*1) ++
  match instance_missing spec inst with
  | [] => []
  | _ =>
      [mkTemplateError (ti_Name inst) TemplateErrMissingVar
         ("unset: " +:+ Join ", " (dedupe (sort_by str_lt (instance_missing spec inst))))%string]
  end.
End Errors.

(** ** Lemmas: instantiation *)

Lemma known_properties_defines spec name :
  default false (known_properties spec !! name) = defines spec name.
Proof.
  unfold known_properties, defines.
  assert (forall ps (known : gmap string bool),
    default false (fold_left (fun known p => <[tpr_Name p := true]> known) ps known !! name) =
    default false (known !! name) || existsb (fun p => str_eq (tpr_Name p) name) ps) as ->.
  { induction ps as [|p ps IH]; intros known; simpl; [by rewrite orb_false_r|].
    rewrite IH. destruct (str_eq (tpr_Name p) name) eqn:E; simpl.
    - apply str_eq_true in E as ->. rewrite lookup_insert_eq. by rewrite orb_true_r.
    - apply str_eq_false in E. by rewrite lookup_insert_ne. }
  by rewrite lookup_empty.
Qed.

Lemma imap_pair_snd {A} (l : list A) : (imap pair l).*2 = l.
Proof.
  rewrite fmap_imap. change (imap (fun n => snd ∘ pair n) l) with (imap (const id) l).
  rewrite imap_const. apply list_fmap_id.
Qed.

Section Instance.
Context `{MapRange} `{SliceSort} `{StrconvQuote}.

Lemma render_property_spec tick inst s p :
  (render_property tick inst s p).1 = s.1 ++ [instance_property inst p] /\
  (render_property tick inst s p).2 ≡ₚ s.2 ++ property_missing inst p.
Proof.
  destruct s as [props missing]. unfold render_property, instance_property, property_missing.
  pose proof (render_map_spec tick (ti_Vars inst) (tpr_Visitors p) ∅ missing) as [Hd Hm].
  destruct (render_map _ _ _ _) as [visitors missing']. simpl in Hd, Hm.
  rewrite (right_id_L ∅ (∪)) in Hd. subst visitors.
  destruct (ti_Overrides inst !! tpr_Name p) as [ov|]; simpl.
  - destruct (substitute ov (ti_Vars inst)) as [r miss]. simpl.
    split; [done|]. by rewrite Hm, <- app_assoc.
  - split; [done|]. by rewrite app_nil_r.
Qed.

Lemma render_properties_spec (tick : nat -> nat) inst l s :
  let s' := fold_left (fun s '(j, p) => render_property (tick j) inst s p) l s in
  s'.1 = s.1 ++ map (instance_property inst) l.*2 /\
  s'.2 ≡ₚ s.2 ++ flat_map (property_missing inst) l.*2.
Proof.
  revert s. induction l as [|[j p] l IH]; intros s; simpl; [by rewrite !app_nil_r|].
  destruct (render_property_spec (tick j) inst s p) as [HP HM].
  destruct (IH (render_property (tick j) inst s p)) as [IP IM].
  rewrite IP, IM, HP, HM. by rewrite <- !app_assoc.
Qed.

Lemma override_errors_spec tick spec inst errs :
  override_errors tick (known_properties spec) inst errs ≡ₚ
  errs ++ map (bad_override inst)
    (List.filter (fun name => negb (defines spec name)) (map_to_list (ti_Overrides inst)).*1).
Proof.
  unfold override_errors. rewrite <- (map_range_perm tick (ti_Overrides inst)).
  generalize (map_range tick (ti_Overrides inst)). intros l. revert errs.
  induction l as [|[name ov] l IH]; intros errs; simpl; [by rewrite app_nil_r|].
  rewrite IH, known_properties_defines. fold (bad_override inst name).
  destruct (defines spec name); simpl; [done|]. by rewrite <- app_assoc.
Qed.

Lemma missing_error_spec inst missing missing' :
  missing ≡ₚ missing' ->
  missing_error inst missing =
  match missing' with
  | [] => []
  | _ => [mkTemplateError (ti_Name inst) TemplateErrMissingVar
            ("unset: " +:+ Join ", " (dedupe (sort_by str_lt missing')))%string]
  end.
Proof.
  intros Hp. unfold missing_error. rewrite (sort_strings_unique _ _ Hp).
  destruct missing as [|x xs].
  - by rewrite (Permutation_nil Hp).
  - destruct missing' as [|y ys]; [|done]. by apply Permutation_sym, Permutation_nil in Hp.
Qed.

Lemma render_instance_spec spec i inst errs :
  (render_instance spec i inst errs).1 = instance_device spec inst /\
  (render_instance spec i inst errs).2 ≡ₚ errs ++ instance_errors spec inst.
Proof.
  unfold render_instance. rewrite !copy_into_union, (right_id_L ∅ (∪)).
  set (start := match dt_Protocol spec with
    | Some p => (tp_Name p, render_map (encode_nat (i, 2%nat)) (ti_Vars inst) (tp_ConfigData p) (∅, []))
    | None => (""%string, (∅, [])) end).
  assert (start.1 = match dt_Protocol spec with Some p => tp_Name p | None => ""%string end /\
    start.2.1 = (fun v => (substitute v (ti_Vars inst)).1) <$> template_config spec /\
    start.2.2 ≡ₚ map_missing (ti_Vars inst) (template_config spec)) as (Hp & Hc & Hm).
  { unfold start, template_config. destruct (dt_Protocol spec) as [p|]; simpl.
    - pose proof (render_map_spec (encode_nat (i, 2%nat)) (ti_Vars inst) (tp_ConfigData p) ∅ [])
        as [Hd Hm]. rewrite Hd, (right_id_L ∅ (∪)). done.
    - unfold map_missing. by rewrite fmap_empty, map_to_list_empty. }
  destruct start as [protocol [config missing]]. simpl in Hp, Hc, Hm. subst protocol config.
  pose proof (render_properties_spec (fun j => encode_nat (i, (4 + j)%nat)) inst
    (imap pair (dt_Properties spec)) ([], missing)) as [HP HM].
  destruct (fold_left _ (imap pair (dt_Properties spec)) ([], missing)) as [props missing'].
  simpl in HP, HM. rewrite imap_pair_snd in HP, HM. subst props. simpl.
  split; [done|]. unfold instance_errors. rewrite override_errors_spec.
  rewrite (missing_error_spec inst missing' (instance_missing spec inst)).
  - by rewrite <- app_assoc.
  - unfold instance_missing. by rewrite HM, Hm.
Qed.
End Instance.

Lemma RenderTemplate_fold `{MapRange} `{SliceSort} `{StrconvQuote} spec l s :
  let s' := fold_left (fun '(out, errs) '(i, inst) =>
    let '(rd, errs) := render_instance spec i inst errs in (out ++ [rd], errs)) l s in
  s'.1 = s.1 ++ map (instance_device spec) l.*2 /\
  s'.2 ≡ₚ s.2 ++ flat_map (instance_errors spec) l.*2.
Proof.
  revert s. induction l as [|[i inst] l IH]; intros [out errs]; simpl; [by rewrite !app_nil_r|].
  pose proof (render_instance_spec spec i inst errs) as [HD HE].
  destruct (render_instance spec i inst errs) as [rd errs']. simpl in HD, HE. subst rd.
  destruct (IH (out ++ [instance_device spec inst], errs')) as [IO IE].
  rewrite IO, IE. simpl. rewrite HE. by rewrite <- !app_assoc.
Qed.

Lemma RenderTemplate_errors `{MapRange} `{SliceSort} `{StrconvQuote} spec :
  (RenderTemplate spec).2 ≡ₚ flat_map (instance_errors spec) (dt_Instances spec).
Proof.
  pose proof (RenderTemplate_fold spec (imap pair (dt_Instances spec)) ([], [])) as [_ HE].
  by rewrite imap_pair_snd in HE.
Qed.

Lemma instance_errors_nil `{StrconvQuote} spec inst :
  instance_errors spec inst = [] <->
  List.filter (fun name => negb (defines spec name)) (map_to_list (ti_Overrides inst)).*1 = [] /\
  instance_missing spec inst = [].
Proof.
  unfold instance_errors. rewrite app_nil.
  destruct (List.filter _ _); simpl; destruct (instance_missing spec inst); naive_solver.
Qed.

Lemma defines_In spec name :
  defines spec name = true <-> exists p, In p (dt_Properties spec) /\ tpr_Name p = name.
Proof. unfold defines. rewrite existsb_exists. by setoid_rewrite str_eq_true. Qed.

Lemma overrides_known spec inst :
  List.filter (fun name => negb (defines spec name)) (map_to_list (ti_Overrides inst)).*1 = [] <->
  forall name ov, ti_Overrides inst !! name = Some ov ->
    exists p, In p (dt_Properties spec) /\ tpr_Name p = name.
Proof.
  rewrite filter_nil_In. setoid_rewrite negb_false_iff. setoid_rewrite defines_In.
  setoid_rewrite <- elem_of_map_to_list. split.
  - intros Hall name ov Hov. apply Hall. apply list_elem_of_In, list_elem_of_fmap.
    by exists (name, ov).
  - intros Hall name Hin%list_elem_of_In%list_elem_of_fmap.
    destruct Hin as ([n ov] & -> & Hov). by eapply Hall.
Qed.

(** ** Properties *)

(** [substitute] cuts its input into bytes and references without losing
    anything, replaces each reference by its variable, keeps the text of a
    reference whose variable is unset, and reports exactly those names, in order. *)
Theorem substitute_renders s vars :
  let ps := pieces s in
  concat_strings (map piece_text ps) = s /\
  (substitute s vars).1 = concat_strings (map (piece_value vars) ps) /\
  (forall name, In name (substitute s vars).2 <->
     vars !! name = None /\ exists text, In (Ref name text) ps).
Proof.
  rewrite substitute_pieces. cbv zeta. split_and!; [apply pieces_text|done|].
  intros name. simpl. rewrite in_flat_map. split.
  - intros ([c|n text] & Hp & Hin); simpl in Hin; [done|].
    destruct (vars !! n) eqn:E; simpl in Hin; [done|]. destruct Hin as [<-|[]]. eauto.
  - intros (Hn & text & Hp). exists (Ref name text). split; [done|]. simpl. rewrite Hn. by left.
Qed.

(** C29. [RenderTemplate] refines the declarative meaning of a template, whatever
    orders Go's maps are traversed in and whatever sorting it uses: every instance
    is rendered, in order, to the same device, and the errors are those of the
    instances, up to the order the overrides of one instance are visited in. *)
Theorem RenderTemplate_refines `{MapRange} `{SliceSort} `{StrconvQuote} spec :
  (RenderTemplate spec).1 = map (instance_device spec) (dt_Instances spec) /\
  (RenderTemplate spec).2 ≡ₚ flat_map (instance_errors spec) (dt_Instances spec).
Proof.
  split; [|apply RenderTemplate_errors].
  pose proof (RenderTemplate_fold spec (imap pair (dt_Instances spec)) ([], [])) as [HD _].
  by rewrite imap_pair_snd in HD.
Qed.

(** No error means nothing was silently wrong: the error list is empty exactly
    when every override of every instance names a property of the template and
    every reference rendered for it is to a variable the instance sets. *)
Theorem RenderTemplate_silent_success `{MapRange} `{SliceSort} `{StrconvQuote} spec :
  (RenderTemplate spec).2 = [] <->
  forall inst, In inst (dt_Instances spec) ->
    (forall name ov, ti_Overrides inst !! name = Some ov ->
       exists p, In p (dt_Properties spec) /\ tpr_Name p = name) /\
    instance_missing spec inst = [].
Proof.
  pose proof (RenderTemplate_errors spec) as Hp.
  transitivity (flat_map (instance_errors spec) (dt_Instances spec) = []).
  { split; intros E; [rewrite E in Hp; by apply Permutation_nil in Hp|].
    rewrite E in Hp. by apply Permutation_sym, Permutation_nil in Hp. }
  rewrite flat_map_nil. setoid_rewrite instance_errors_nil.
  by setoid_rewrite overrides_known.
Qed.

(** [DiffRendered] is the sorted list of disagreements: one line for every
    configuration key and every property the live device has with another value, in
    an order that no map traversal or sorting algorithm can change; keys the live
    device lacks and properties without a desired value are not compared. *)
Theorem DiffRendered_report `{MapRange} `{SliceSort} `{StrconvQuote} want liveConfig liveDesired :
  DiffRendered want liveConfig liveDesired =
  sort_by str_lt (flat_map (config_diff liveConfig) (map_to_list (rd_ConfigData want)) ++
                  flat_map (desired_diff liveDesired) (rd_Properties want)).
Proof.
  unfold DiffRendered. apply sort_strings_unique.
  rewrite (fold_appends _ (fun s => s) (desired_diff liveDesired)) by done.
  rewrite (fold_appends _ (fun s => s) (config_diff liveConfig)) by done.
  by rewrite (map_range_perm 0%nat (rd_ConfigData want)).
Qed.

(** [dedupe] keeps one copy of every element and nothing else. *)
Theorem dedupe_spec s : NoDup (dedupe s) /\ forall x, In x (dedupe s) <-> In x s.
Proof.
  destruct (dedupe_from_spec s ∅) as [Hnd Hin]. split; [done|]. intros x.
  unfold dedupe. rewrite <- !list_elem_of_In, Hin, lookup_empty. naive_solver.
Qed.

(** ** The scenario of template_test.go *)

#[local] Instance bare_quote : StrconvQuote := fun s => s.

Definition strs (l : list (string * string)) : gmap string string := list_to_map l.

Definition ridge : DeviceTemplateSpec :=
  mkDeviceTemplateSpec "lora-sensor"
    (Some (mkTemplateProtocol "esphome-mqtt"
       (strs [("broker", "tcp://192.168.68.113:1883"); ("gateway", "{{ .gateway }}");
              ("nodeID", "{{ .nodeID }}")]%string)))
    [mkTemplateProperty "temperature" 10000 0 true (strs [("topic", "temperature")]%string) "";
     mkTemplateProperty "sample_interval" 0 0 false ∅ "300"]
    (strs [("role", "field-sensor")]%string)
    [mkTemplateInstance "field-01" (strs [("gateway", "w10-a"); ("nodeID", "2")]%string)
       (strs [("site", "north")]%string) ∅;
     mkTemplateInstance "field-02" (strs [("gateway", "w10-a"); ("nodeID", "3")]%string) ∅
       (strs [("sample_interval", "60")]%string);
     mkTemplateInstance "field-03" (strs [("gateway", "w10-a")]%string) ∅ ∅;
     mkTemplateInstance "field-04" (strs [("gateway", "w10-a"); ("nodeID", "5")]%string) ∅
       (strs [("smaple_interval", "60")]%string)] false.

Example ridge_rendered :
  map (fun d => (rd_Name d, rd_ConfigData d !! "nodeID"%string,
                 map (fun p => (rp_Desired p, rp_Overridden p)) (rd_Properties d)))
    (RenderTemplate ridge).1 =
  [("field-01", Some "2", [("", false); ("300", false)]);
   ("field-02", Some "3", [("", false); ("60", true)]);
   ("field-03", Some "{{ .nodeID }}", [("", false); ("300", false)]);
   ("field-04", Some "5", [("", false); ("300", false)])]%string.
Proof. vm_compute; reflexivity. Qed.

Example ridge_errors :
  map (fun e => (te_Instance e, te_Reason e, te_Detail e)) (RenderTemplate ridge).2 =
  [("field-03", TemplateErrMissingVar, "unset: nodeID");
   ("field-04", TemplateErrBadOverride,
    "override for smaple_interval, which the template does not define")]%string.
Proof. vm_compute; reflexivity. Qed.
