(* ===== verification/Decommission.v ===== *)
(** * Decommissioning: internal/decommission.go

    The devices that no longer count, and what is kept of them. *)

From S2P Require Import Prelude GoTime GoStrings Types Capability.
Local Open Scope Z_scope.

(** ** Definitions *)

Abbreviation DecommissionSet := (gmap string DeviceDecommission).

Definition is_complete (d : DeviceDecommission) : bool :=
  str_eq (dst_Phase (dc_Status d)) DecomComplete.

Definition NewDecommissionSet (items : list DeviceDecommission) : DecommissionSet :=
  fold_left (fun s d => if is_complete d then <[ds_DeviceRef (dc_Spec d) := d]> s else s) items ∅.

Definition Has (s : DecommissionSet) (device : string) : bool := negb (is_nil (s !! device)).

Definition Filter (s : DecommissionSet) (in_ : list DeviceLiveness) : list DeviceLiveness :=
  if (size s =? 0)%nat then in_
  else fold_left (fun out l => if negb (Has s (dl_Name l)) then out ++ [l] else out) in_ [].

Definition BuildDecommissionStatus (spec : DeviceDecommissionSpec) (live : option DeviceLiveness)
    (firstSeen : option Time) (now : Time) : DeviceDecommissionStatus :=
  let at_ := match ds_EffectiveFrom spec with Some t => t | None => now end in
  let seen := live ≫= fun l => st_LastSeen (dl_Status l) in
  let life := match seen, firstSeen with
              | Some ls, Some first => shortDuration (sub_time ls first)
              | _, _ => ""%string
              end in
  let hash := match live ≫= fun l => st_Capability (dl_Status l) with
              | Some c => cap_RunningConfigHash c
              | None => ""%string
              end in
  let revoke := match ds_RevokeCredentials spec with Some b => b | None => true end in
  mkDeviceDecommissionStatus DecomComplete (Some at_) seen life hash revoke true [].

(** A rollout still under way that has the device pending blocks, once per row. *)
Definition rollout_blockers (device : string) (ro : FirmwareRollout) : list string :=
  let phase := frs_Phase (ro_Status ro) in
  if str_eq phase PhaseComplete || str_eq phase PhaseRolledBack then []
  else fold_left (fun bs o =>
         if str_eq (do_Device o) device
         then bs ++ [("rollout " +:+ om_Name (ro_Meta ro) +:+ " has this device pending")%string]
         else bs) (frs_Pending (ro_Status ro)) [].

Definition template_blockers (device : string) (entry : string * list string) : list string :=
  let '(tmpl, instances) := entry in
  fold_left (fun bs name =>
    if str_eq name device
    then bs ++ [("template " +:+ tmpl +:+
                 " would recreate this device; remove the instance first")%string]
    else bs) instances [].

Definition CheckDecommissionBlockers `{MapRange} (device : string)
    (activeRollouts : list FirmwareRollout) (templateInstances : gmap string (list string))
  : list string :=
  let blockers := fold_left (fun bs ro => bs ++ rollout_blockers device ro) activeRollouts [] in
  fold_left (fun bs entry => bs ++ template_blockers device entry)
    (map_range 0%nat templateInstances) blockers.

Definition DecommissionSummary (items : list DeviceDecommission) : gmap string Z :=
  fold_left (fun out d => if negb (is_complete d) then out
                          else bump (ds_Reason (dc_Spec d)) out) items ∅.

(** ** Lemmas *)

Lemma NewDecommissionSet_Has items device :
  Has (NewDecommissionSet items) device = true <->
  exists d, In d items /\ is_complete d = true /\ ds_DeviceRef (dc_Spec d) = device.
Proof.
  unfold NewDecommissionSet, Has.
  assert (forall (s : gmap string DeviceDecommission),
    negb (is_nil (fold_left (fun s d => if is_complete d
      then <[ds_DeviceRef (dc_Spec d) := d]> s else s) items s !! device)) =
    negb (is_nil (s !! device)) ||
    existsb (fun d => is_complete d && str_eq (ds_DeviceRef (dc_Spec d)) device) items) as ->.
  { induction items as [|d items IH]; intros s; simpl; [by rewrite orb_false_r|].
    rewrite IH. destruct (is_complete d); simpl; [|done].
    destruct (str_eq (ds_DeviceRef (dc_Spec d)) device) eqn:E; simpl.
    - apply str_eq_true in E as <-. rewrite lookup_insert_eq. by rewrite orb_true_r.
    - apply str_eq_false in E. by rewrite lookup_insert_ne. }
  rewrite lookup_empty. simpl. rewrite existsb_exists.
  setoid_rewrite andb_true_iff. by setoid_rewrite str_eq_true.
Qed.

Lemma Filter_filter s ls :
  Filter s ls = List.filter (fun l => negb (Has s (dl_Name l))) ls.
Proof.
  unfold Filter. destruct (Nat.eqb_spec (size s) 0) as [E|E].
  - apply map_size_empty_inv in E as ->. unfold Has.
    induction ls as [|l ls IH]; simpl; [done|]. rewrite lookup_empty. simpl. congruence.
  - transitivity (map (fun l => l) (List.filter (fun l => negb (Has s (dl_Name l))) ls)).
    + exact (fold_left_snoc_filter (fun l => negb (Has s (dl_Name l))) (fun l => l) ls []).
    + apply map_id.
Qed.

Lemma rollout_blockers_nonempty device ro :
  rollout_blockers device ro <> [] <->
  frs_Phase (ro_Status ro) <> PhaseComplete /\ frs_Phase (ro_Status ro) <> PhaseRolledBack /\
  In device (map do_Device (frs_Pending (ro_Status ro))).
Proof.
  unfold rollout_blockers.
  pose proof (fold_left_snoc_filter (fun o => str_eq (do_Device o) device)
    (fun _ => ("rollout " +:+ om_Name (ro_Meta ro) +:+ " has this device pending")%string)
    (frs_Pending (ro_Status ro)) []) as ->. simpl. destruct (str_eq _ PhaseComplete) eqn:E1; simpl;
    [apply str_eq_true in E1; naive_solver|apply str_eq_false in E1].
  destruct (str_eq _ PhaseRolledBack) eqn:E2; simpl;
    [apply str_eq_true in E2; naive_solver|apply str_eq_false in E2].
  transitivity (In device (map do_Device (frs_Pending (ro_Status ro)))); [|tauto].
  rewrite in_map_iff. split.
  - destruct (List.filter _ _) as [|o os] eqn:E; [done|]. intros _.
    assert (In o (o :: os)) as Ho by by left. rewrite <- E in Ho.
    apply filter_In in Ho as [Ho Heq%str_eq_true]. eauto.
  - intros (o & <- & Ho). destruct (List.filter _ _) eqn:E; [|done].
    assert (In o []) as []. rewrite <- E. apply filter_In. by rewrite str_eq_refl.
Qed.

Lemma template_blockers_nonempty device tmpl instances :
  template_blockers device (tmpl, instances) <> [] <-> In device instances.
Proof.
  unfold template_blockers.
  pose proof (fold_left_snoc_filter (fun name => str_eq name device)
    (fun _ => ("template " +:+ tmpl +:+
               " would recreate this device; remove the instance first")%string)
    instances []) as ->. simpl. split.
  - destruct (List.filter _ _) as [|o os] eqn:E; [done|]. intros _.
    assert (In o (o :: os)) as Ho by by left. rewrite <- E in Ho.
    by apply filter_In in Ho as [Ho ->%str_eq_true].
  - intros Ho. destruct (List.filter _ _) eqn:E; [|done].
    assert (In device []) as []. rewrite <- E. apply filter_In. by rewrite str_eq_refl.
Qed.

(** ** Properties *)

(** A decommissioned device is out of every derived count: what a controller is
    left with is exactly the devices, in order, that no completed decommission
    names; a decommission that is pending or blocked removes nothing. *)
Theorem Filter_live_fleet items ls l :
  (In l (Filter (NewDecommissionSet items) ls) <->
   In l ls /\ ~ exists d, In d items /\ dst_Phase (dc_Status d) = DecomComplete /\
                          ds_DeviceRef (dc_Spec d) = dl_Name l) /\
  Filter (NewDecommissionSet items) ls `sublist_of` ls.
Proof.
  rewrite Filter_filter. split.
  - rewrite filter_In, negb_true_iff, <- not_true_iff_false, NewDecommissionSet_Has.
    unfold is_complete. by setoid_rewrite str_eq_true.
  - induction ls as [|x ls IH]; simpl; [constructor|].
    destruct (negb _); by constructor.
Qed.

(** Nothing blocks a decommission exactly when no unfinished rollout has the
    device pending and no template would recreate it. *)
Theorem CheckDecommissionBlockers_clear `{MapRange} device rollouts templates :
  CheckDecommissionBlockers device rollouts templates = [] <->
  (forall ro, In ro rollouts -> frs_Phase (ro_Status ro) <> PhaseComplete ->
     frs_Phase (ro_Status ro) <> PhaseRolledBack ->
     ~ In device (map do_Device (frs_Pending (ro_Status ro)))) /\
  (forall tmpl instances, templates !! tmpl = Some instances -> ~ In device instances).
Proof.
  unfold CheckDecommissionBlockers.
  rewrite (fold_appends _ (fun s => s) (template_blockers device)) by done.
  rewrite (fold_appends _ (fun s => s) (rollout_blockers device)) by done.
  simpl. rewrite app_nil, !flat_map_nil. f_equiv.
  - split.
    + intros Hall ro Hro H1 H2 Hin. apply (proj2 (rollout_blockers_nonempty device ro)); auto.
    + intros Hall ro Hro. destruct (rollout_blockers device ro) eqn:E; [done|].
      exfalso. destruct (proj1 (rollout_blockers_nonempty device ro)) as (H1 & H2 & H3);
        [congruence|]. by eapply Hall.
  - split.
    + intros Hall tmpl instances Hl Hin.
      apply (proj2 (template_blockers_nonempty device tmpl instances) Hin).
      apply Hall. by apply map_range_elem.
    + intros Hall [tmpl instances] Hin%map_range_elem.
      destruct (template_blockers device (tmpl, instances)) eqn:E; [done|]. exfalso.
      eapply Hall; [exact Hin|]. apply (template_blockers_nonempty device tmpl).
      congruence.
Qed.

(** The summary counts, per reason, the completed decommissions. *)
Theorem DecommissionSummary_counts items reason :
  DecommissionSummary items !! reason =
  tally (map (fun d => ds_Reason (dc_Spec d)) (List.filter is_complete items)) reason.
Proof.
  rewrite <- fold_bump. unfold DecommissionSummary. f_equal.
  generalize (∅ : gmap string Z). induction items as [|d items IH]; intros m; simpl; [done|].
  rewrite IH. by destruct (is_complete d).
Qed.
