(* ===== verification/Cluster.v ===== *)
(** * What the controllers ask of their surroundings

    The API server (controller-runtime's client) and the clock are not code of this
    repository: a controller is a program that asks and goes on with whatever it is
    answered. [prog] is that program as data, one [Call] per request; [runs p t a]
    says that [p] can return [a] after the exchange [t]. Theorems quantify over every
    exchange, so over every state of the cluster, every failure of a request and
    every interleaving with other writers. *)

From S2P Require Import Prelude GoTime GoStrings Types.
Local Open Scope Z_scope.

(** ** Objects and requests *)

Inductive ApiError := NotFound | OtherError (msg : string).

Record Key := mkKey { key_Namespace : string; key_Name : string }.

(** [unstructured.Unstructured]: the parts of it the controllers look at. *)
Record Unstructured := mkUnstructured {
  u_Name : string;
  u_Namespace : string;
  u_UID : string;
  u_Labels : gmap string string;
  u_Object : gmap string Value
}.

Record OwnerReference := mkOwnerReference {
  or_APIVersion : string; or_Kind : string; or_Name : string; or_UID : string }.

Inductive Effect : Type -> Type :=
| GetDevice (k : Key) : Effect (result Unstructured ApiError)
| GetDeviceStatus (k : Key) : Effect (result Unstructured ApiError)
| GetLiveness (k : Key) : Effect (result DeviceLiveness ApiError)
| GetRollout (k : Key) : Effect (result FirmwareRollout ApiError)
| ListDevices (ns : string) : Effect (result (list Unstructured) ApiError)
| ListWindows (ns : string) : Effect (result (list MaintenanceWindow) ApiError)
| CreateLiveness (l : DeviceLiveness) (owner : OwnerReference)
    : Effect (result DeviceLiveness ApiError)
| UpdateLivenessStatus (l : DeviceLiveness) : Effect (option ApiError)
| UpdateRolloutStatus (ro : FirmwareRollout) : Effect (option ApiError)
| UpdateDevice (d : Unstructured) : Effect (option ApiError)
| Now : Effect Time.

(** ** Programs *)

Inductive prog (A : Type) : Type :=
| Ret (a : A)
| Call {R : Type} (e : Effect R) (k : R -> prog A).
Arguments Ret {A} a.
Arguments Call {A R} e k.

Fixpoint bind {A B} (p : prog A) (f : A -> prog B) : prog B :=
  match p with
  | Ret a => f a
  | Call e k => Call e (fun r => bind (k r) f)
  end.

Definition call {R} (e : Effect R) : prog R := Call e Ret.

Notation "x <~ p ;; k" := (bind p (fun x => k))
  (at level 20, p at level 99, k at level 200, right associativity) : torpor_scope.
Notation "' pat <~ p ;; k" := (bind p (fun x => match x with pat => k end))
  (at level 20, pat pattern, p at level 99, k at level 200, right associativity) : torpor_scope.

(** A [for] loop whose body asks things. *)
Fixpoint foldM {A S} (f : S -> A -> prog S) (l : list A) (s : S) : prog S :=
  match l with
  | [] => Ret s
  | x :: l' => bind (f s x) (foldM f l')
  end.

(** ** Exchanges *)

Inductive event : Type :=
| Event (R : Type) (e : Effect R) (r : R).
Arguments Event {R} e r.

Inductive runs {A} : prog A -> list event -> A -> Prop :=
| runs_ret a : runs (Ret a) [] a
| runs_call {R} (e : Effect R) (k : R -> prog A) r t a :
    runs (k r) t a -> runs (Call e k) (Event e r :: t) a.

Definition is_device_update (ev : event) : bool :=
  match ev with Event (UpdateDevice _) _ => true | _ => false end.
Definition is_rollout_update (ev : event) : bool :=
  match ev with Event (UpdateRolloutStatus _) _ => true | _ => false end.

(** The device writes of an exchange that the API server accepted. *)
Definition accepted_update (ev : event) : bool :=
  match ev with
  | Event (UpdateDevice _) r => is_nil r
  | _ => false
  end.

Definition writes (t : list event) : nat := length (List.filter is_device_update t).

(** ** Lemmas *)

Section Inversion.
Context {A : Type}.

(** How an exchange of a program starts. *)
Definition runs_shape (p : prog A) (t : list event) (a : A) : Prop :=
  match p with
  | Ret a' => t = [] /\ a = a'
  | Call e k => exists r t', t = Event e r :: t' /\ runs (k r) t' a
  end.

Lemma runs_inv p t a : runs p t a -> runs_shape p t a.
Proof. intros [a'|R e k r t' a' H]; simpl; eauto. Qed.

Lemma runs_ret_inv (a' : A) t a : runs (Ret a') t a -> t = [] /\ a = a'.
Proof. apply (runs_inv (Ret a')). Qed.

Lemma runs_call_inv {R} (e : Effect R) (k : R -> prog A) t a :
  runs (Call e k) t a -> exists r t', t = Event e r :: t' /\ runs (k r) t' a.
Proof. apply (runs_inv (Call e k)). Qed.
End Inversion.

Lemma runs_bind_inv {A B} (p : prog A) (f : A -> prog B) t b :
  runs (bind p f) t b -> exists t1 a t2, t = t1 ++ t2 /\ runs p t1 a /\ runs (f a) t2 b.
Proof.
  revert t. induction p as [a|R e k IH]; intros t H; simpl in H.
  - exists [], a, t. split_and!; [done|constructor|done].
  - apply runs_call_inv in H as (r & t' & -> & H).
    destruct (IH r t' H) as (t1 & a & t2 & -> & H1 & H2).
    exists (Event e r :: t1), a, t2. split_and!; [done|by constructor|done].
Qed.

Lemma runs_bind {A B} (p : prog A) (f : A -> prog B) t1 a t2 b :
  runs p t1 a -> runs (f a) t2 b -> runs (bind p f) (t1 ++ t2) b.
Proof. intros H1 H2. induction H1; simpl; [done|constructor; auto]. Qed.

Lemma runs_call_bind {R B} (e : Effect R) (f : R -> prog B) t b :
  runs (bind (call e) f) t b -> exists r t', t = Event e r :: t' /\ runs (f r) t' b.
Proof. apply (runs_call_inv e f). Qed.

(** The invariant rule for a loop: [Q] relates the state, what is still to be
    visited, and the exchange so far. *)
Lemma runs_foldM {A S} (f : S -> A -> prog S) (Q : list event -> S -> Prop) l s t s' :
  runs (foldM f l s) t s' ->
  (forall t0 s x t1 s1, In x l -> Q t0 s -> runs (f s x) t1 s1 -> Q (t0 ++ t1) s1) ->
  forall t0, Q t0 s -> Q (t0 ++ t) s'.
Proof.
  revert s t. induction l as [|x l IH]; intros s t H Hstep t0 HQ; simpl in H.
  - apply runs_ret_inv in H as [-> ->]. by rewrite app_nil_r.
  - apply runs_bind_inv in H as (t1 & s1 & t2 & -> & H1 & H2).
    rewrite app_assoc. eapply IH; [exact H2| |].
    + intros. eapply Hstep; [by right|done|done].
    + eapply Hstep; [by left|done|done].
Qed.

(** Exchanges in which nothing is written to a device. *)
Definition quiet (t : list event) : Prop := Forall (fun ev => is_device_update ev = false) t.

Lemma quiet_app t1 t2 : quiet (t1 ++ t2) <-> quiet t1 /\ quiet t2.
Proof. apply Forall_app. Qed.

Lemma writes_app t1 t2 : writes (t1 ++ t2) = (writes t1 + writes t2)%nat.
Proof. unfold writes. by rewrite List.filter_app, length_app. Qed.

Lemma writes_quiet t : quiet t <-> writes t = 0%nat.
Proof.
  unfold quiet, writes. rewrite length_zero_iff_nil, filter_nil_In, Forall_forall.
  by setoid_rewrite list_elem_of_In.
Qed.

(** Exchanges in which nothing is written at all. *)
Definition is_write (ev : event) : bool :=
  match ev with
  | Event (UpdateDevice _) _ | Event (UpdateRolloutStatus _) _
  | Event (UpdateLivenessStatus _) _ | Event (CreateLiveness _ _) _ => true
  | _ => false
  end.
Definition silent (t : list event) : Prop := Forall (fun ev => is_write ev = false) t.

Lemma silent_app t1 t2 : silent (t1 ++ t2) <-> silent t1 /\ silent t2.
Proof. apply Forall_app. Qed.

Lemma silent_quiet t : silent t -> quiet t.
Proof. intros H. eapply Forall_impl; [exact H|]. intros [R e r]. by destruct e. Qed.

Lemma silent_writes t : silent t -> writes t = 0%nat.
Proof. intros H. by apply writes_quiet, silent_quiet. Qed.

(** A program that never writes, whatever it is answered. *)
Fixpoint read_only {A} (p : prog A) : Prop :=
  match p with
  | Ret _ => True
  | @Call _ R e k =>
      match e with
      | UpdateDevice _ | UpdateRolloutStatus _ | UpdateLivenessStatus _ | CreateLiveness _ _ => False
      | _ => True
      end /\ forall r, read_only (k r)
  end.

Lemma read_only_silent {A} (p : prog A) t a : read_only p -> runs p t a -> silent t.
Proof.
  intros Hro H. induction H as [a|R e k r t a H IH]; [constructor|].
  destruct Hro as [He Hk]. constructor; [by destruct e|apply IH, Hk].
Qed.

Lemma read_only_bind {A B} (p : prog A) (f : A -> prog B) :
  read_only p -> (forall a, read_only (f a)) -> read_only (bind p f).
Proof.
  intros Hp Hf. induction p as [a|R e k IH]; simpl; [apply Hf|].
  destruct Hp as [He Hk]. split; [done|]. intros r. apply IH, Hk.
Qed.

Lemma read_only_foldM {A S} (f : S -> A -> prog S) l s :
  (forall s x, read_only (f s x)) -> read_only (foldM f l s).
Proof.
  intros Hf. revert s. induction l as [|x l IH]; intros s; simpl; [done|].
  apply read_only_bind; auto.
Qed.

(** ** Running a program against a fixed set of answers *)

Section Exec.
Context (answer : forall R, Effect R -> R).

Fixpoint exec {A} (p : prog A) : list event * A :=
  match p with
  | Ret a => ([], a)
  | Call e k => let '(t, a) := exec (k (answer _ e)) in (Event e (answer _ e) :: t, a)
  end.

Lemma exec_runs {A} (p : prog A) : runs p (fst (exec p)) (snd (exec p)).
Proof.
  induction p as [a|R e k IH]; simpl; [constructor|].
  specialize (IH (answer R e)). destruct (exec (k (answer R e))) as [t a]. by constructor.
Qed.
End Exec.
