(* ===== verification/Unstructured.v ===== *)
(** * Dynamic objects

    [k8s.io/apimachinery]'s accessors for unstructured objects are not code of this
    repository; they are an interface here. [tree_Accessors] is an instance that
    follows paths in the obvious way, to run the controllers on concrete objects. *)

From S2P Require Import Prelude GoTime GoFloat GoStrings Types Cluster.
Local Open Scope Z_scope.

(** ** The interface *)

(** An absent field and a field of another type are told apart only where the
    code looks at the error. *)
Class Accessors := {
  NestedMap : gmap string Value -> list string -> option (gmap string Value);
  NestedSlice : gmap string Value -> list string -> result (option (list Value)) string;
  NestedString : gmap string Value -> list string -> option string;
  SetNestedField : gmap string Value -> Value -> list string -> result (gmap string Value) string;
  SetNestedSlice : gmap string Value -> list Value -> list string -> result (gmap string Value) string
}.


(** ** Definitions *)

(** [x, _, _ := NestedSlice(...)] and [x, _, _ := NestedString(...)]: nil and the
    empty string when there is nothing. *)
Definition slice_at `{Accessors} (obj : gmap string Value) (path : list string) : list Value :=
  match NestedSlice obj path with Ok (Some l) => l | _ => [] end.
Definition string_at `{Accessors} (obj : gmap string Value) (path : list string) : string :=
  default ""%string (NestedString obj path).
Definition map_at `{Accessors} (obj : gmap string Value) (path : list string)
  : gmap string Value := default ∅ (NestedMap obj path).

(** [v.(map[string]interface{})]. *)
Definition as_map (v : Value) : option (gmap string Value) :=
  match v with VMap m => Some m | _ => None end.

Definition config_path : list string := ["spec"; "protocol"; "configData"]%string.
Definition twins_path : list string := ["status"; "twins"]%string.
Definition properties_path : list string := ["spec"; "properties"]%string.

(** [toInt64]. *)
Definition toInt64 (v : option Value) : option Z :=
  match v with
  | Some (VInt64 n) => Some n
  | Some (VFloat64 f) => Some (f_to_int64 f)
  | Some (VString s) => ParseInt64 s
  | _ => None
  end.

(** ** An instance *)

Fixpoint lookup_path (v : Value) (path : list string) : option Value :=
  match path with
  | [] => Some v
  | k :: ks => match v with
               | VMap m => m !! k ≫= fun v' => lookup_path v' ks
               | _ => None
               end
  end.

Fixpoint set_path (m : gmap string Value) (v : Value) (path : list string)
  : result (gmap string Value) string :=
  match path with
  | [] => Err "no field"%string
  | [k] => Ok (<[k := v]> m)
  | k :: ks =>
      match m !! k with
      | Some (VMap m') =>
          match set_path m' v ks with Ok m'' => Ok (<[k := VMap m'']> m) | Err e => Err e end
      | Some _ => Err "not a map"%string
      | None => match set_path ∅ v ks with Ok m'' => Ok (<[k := VMap m'']> m) | Err e => Err e end
      end
  end.

Definition tree_Accessors : Accessors := {|
  NestedMap m path :=
    match lookup_path (VMap m) path with Some (VMap m') => Some m' | _ => None end;
  NestedSlice m path :=
    match lookup_path (VMap m) path with
    | None => Ok None | Some (VList l) => Ok (Some l) | Some _ => Err "not a slice"%string end;
  NestedString m path :=
    match lookup_path (VMap m) path with Some (VString s) => Some s | _ => None end;
  SetNestedField := set_path;
  SetNestedSlice m l path := set_path m (VList l) path |}.


(** ** What the accessors document

    A field just set reads back; fields under another key are as they were; nothing
    is found in an empty object. *)
Class AccessorLaws `{Accessors} : Prop := {
  read_set_string m v path m' :
    SetNestedField m (VString v) path = Ok m' -> NestedString m' path = Some v;
  read_set_other m v k path m' k' path' :
    k <> k' -> SetNestedField m v (k :: path) = Ok m' ->
    NestedString m' (k' :: path') = NestedString m (k' :: path');
  read_set_slice m l path m' :
    SetNestedSlice m l path = Ok m' -> NestedSlice m' path = Ok (Some l);
  read_empty path : NestedString ∅ path = None
}.

Lemma set_path_cons m v k ks m' :
  set_path m v (k :: ks) = Ok m' -> exists v', m' = <[k := v']> m /\ lookup_path v' ks = Some v.
Proof.
  revert m k m'. induction ks as [|k2 ks IH]; intros m k m' H.
  - injection H as <-. by exists v.
  - assert (forall m0, match set_path m0 v (k2 :: ks) with
                       | Ok m'' => Ok (<[k := VMap m'']> m) | Err e => Err e end = Ok m' ->
      exists v', m' = <[k := v']> m /\ lookup_path v' (k2 :: ks) = Some v) as Hstep.
    { intros m0 H0. destruct (set_path m0 v (k2 :: ks)) as [m''|e] eqn:E; [|done].
      injection H0 as <-. apply IH in E as (v' & -> & Hv). exists (VMap (<[k2 := v']> m0)).
      split; [done|]. simpl. by rewrite lookup_insert_eq. }
    change (match m !! k with
            | Some (VMap m1) => match set_path m1 v (k2 :: ks) with
                | Ok m'' => Ok (<[k := VMap m'']> m) | Err e => Err e end
            | Some _ => Err "not a map"%string
            | None => match set_path ∅ v (k2 :: ks) with
                | Ok m'' => Ok (<[k := VMap m'']> m) | Err e => Err e end
            end = Ok m') in H.
    destruct (m !! k) as [[]|]; try done; by apply Hstep in H.
Qed.

#[export] Instance tree_AccessorLaws : @AccessorLaws tree_Accessors.
Proof.
  split; simpl.
  - intros m v [|k ks] m' H; [done|]. apply set_path_cons in H as (v' & -> & Hv).
    simpl. rewrite lookup_insert_eq. simpl. by rewrite Hv.
  - intros m v k path m' k' path' Hne H. apply set_path_cons in H as (v' & -> & _).
    simpl. by rewrite lookup_insert_ne.
  - intros m l [|k ks] m' H; [done|]. apply set_path_cons in H as (v' & -> & Hv).
    simpl. rewrite lookup_insert_eq. simpl. by rewrite Hv.
  - intros [|k ks]; simpl; by rewrite ?lookup_empty.
Qed.
