(* ===== verification/Liveness.v ===== *)
(** * The liveness controller: internal/liveness_controller.go

    It reads timestamps and writes an opinion: what a device can do, when it last
    reported, and whether its silence is what it was deployed to do. *)

From S2P Require Import Prelude GoTime GoFloat GoStrings GoParseFloat Types Capability Transports Cluster.
From S2P Require Import Unstructured.
Local Open Scope Z_scope.
Local Open Scope torpor_scope.

(** ** Definitions *)

Definition defaultExpectedInterval : Duration := 60 * Second.
Definition defaultStaleMultiplier : Z := 3.

(** [ctrl.Result] and the error. *)
Record Result := mkResult { RequeueAfter : Duration }.
Definition Outcome := result Result ApiError.

Section Liveness.
Context `{Accessors}.

Definition thresholds (live : DeviceLiveness) (dev : Unstructured) : Duration * Z :=
  let cfg := map_at (u_Object dev) config_path in
  let interval := dls_ExpectedInterval (dl_Spec live) in
  let mult := dls_StaleMultiplier (dl_Spec live) in
  let interval :=
    if interval =? 0 then
      match toInt64 (cfg !! "expectedIntervalSeconds"%string) with
      | Some secs => if secs >? 0 then wrap64 (secs * Second) else interval
      | None => interval
      end
    else interval in
  let mult :=
    if mult =? 0 then
      match toInt64 (cfg !! "staleMultiplier"%string) with
      | Some m => if m >? 0 then wrap32 m else mult
      | None => mult
      end
    else mult in
  (if interval =? 0 then defaultExpectedInterval else interval,
   if mult =? 0 then defaultStaleMultiplier else mult).

(** The loop of [lastReport]. *)
Definition newest_step (only : string) (newest : Time) (v : Value) : Time :=
  match as_map v with
  | None => newest
  | Some tw =>
      if negb (is_empty only) && negb (str_eq (string_at tw ["propertyName"%string]) only)
      then newest
      else match NestedString tw ["reported"; "metadata"; "timestamp"]%string with
           | None => newest
           | Some raw =>
               match ParseInt64 raw with
               | None => newest
               | Some ms => if After (UnixMilli ms) newest then UnixMilli ms else newest
               end
           end
  end.

Definition newest_report (only : string) (twins : list Value) : Time :=
  fold_left (newest_step only) twins zero_time.

Definition lastReport (key : Key) (only : string) : prog (option Time) :=
  ds <~ call (GetDeviceStatus key);;
  match ds with
  | Err _ => Ret None
  | Ok ds =>
      let newest := newest_report only (slice_at (u_Object ds) twins_path) in
      Ret (if IsZero newest then None else Some newest)
  end.

(** The loop of [reportedProperty]: the first twin of that name decides. *)
Fixpoint reported_value (name : string) (twins : list Value) : string :=
  match twins with
  | [] => ""%string
  | v :: twins' =>
      match as_map v with
      | None => reported_value name twins'
      | Some tw =>
          if str_eq (string_at tw ["propertyName"%string]) name
          then string_at tw ["reported"; "value"]%string
          else reported_value name twins'
      end
  end.

Definition reportedProperty (key : Key) (name : string) : prog string :=
  ds <~ call (GetDeviceStatus key);;
  Ret (match ds with
       | Err _ => ""%string
       | Ok ds => reported_value name (slice_at (u_Object ds) twins_path)
       end).

(** One entry of an explicit [transports] block. *)
Definition positive_or (v : option Z) (old : Z) : Z :=
  match v with Some n => if n >? 0 then n else old | None => old end.

Definition declared_transport (m : gmap string Value) : Transport :=
  let t := defaultTransport (string_at m ["type"%string]) in
  let ota := match m !! "ota"%string with Some (VBool b) => b | _ => tr_OTA t end in
  let config := match m !! "config"%string with Some (VBool b) => b | _ => tr_Config t end in
  let availability := match m !! "availability"%string with
                      | Some (VString s) => if negb (is_empty s) then s else tr_Availability t
                      | _ => tr_Availability t end in
  let cost := match toInt64 (m !! "otaCostMah"%string) with
              | Some n => if n >? 0 then wrap32 n else tr_OTACostMah t
              | None => tr_OTACostMah t end in
  let payload := positive_or (toInt64 (m !! "maxPayloadBytes"%string))
                   (positive_or (toInt64 (m !! "maxWriteBytes"%string)) (tr_MaxPayloadBytes t)) in
  mkTransport (tr_Type t) availability config ota payload (tr_ThroughputBps t)
    (tr_DutyCyclePercent t) cost.

Definition declared_transports (cfg : gmap string Value) : list Transport :=
  fold_left (fun ts item => match as_map item with
                            | Some m => ts ++ [declared_transport m]
                            | None => ts
                            end) (slice_at cfg ["transports"%string]) [].

Definition implied_transport (cfg : gmap string Value) (labels : gmap string string) : Transport :=
  if negb (is_nil (cfg !! "gateway"%string)) then defaultTransport "lora"
  else let name := default ""%string (labels !! "transport"%string) in
       defaultTransport (if is_empty name then "wifi" else name).

Definition DeriveCapabilityFrom (cfg : gmap string Value) (labels : gmap string string)
  : DeviceCapability :=
  let declared := declared_transports cfg in
  let ts := match declared with [] => [implied_transport cfg labels] | _ => declared end in
  let via := fold_left (fun via t => if str_eq (tr_Availability t) "always"
                                     then via ++ [tr_Type t] else via) ts [] in
  mkDeviceCapability ts via 0 0 "".

Definition battery (v : string) (old : Z) : Z :=
  if is_empty v then old
  else match ParseFloat v with Some n => f_to_int32 n | None => old end.

Definition deriveCapability (key : Key) (dev : Unstructured) : prog DeviceCapability :=
  let cap := DeriveCapabilityFrom (map_at (u_Object dev) config_path) (u_Labels dev) in
  hash <~ reportedProperty key "running_config_hash";;
  percent <~ reportedProperty key "battery_percent";;
  mah <~ reportedProperty key "battery_mah";;
  Ret (mkDeviceCapability (cap_Transports cap) (cap_ReachableVia cap)
         (battery percent (cap_BatteryPercent cap)) (battery mah (cap_BatteryMah cap)) hash).

(** The [switch] of [assess]. *)
Definition judge (silent interval : Duration) (mult : Z) : LivenessState * string :=
  if silent <=? interval then (StateOnline, "ReportingOnSchedule"%string)
  else if silent <=? wrap64 (interval * mult) then
    (StateSleeping, "WithinExpectedWakeInterval"%string)
  else (StateUnreachable, ("NoReportFor" +:+ shortDuration silent)%string).

Definition assess (key : Key) (dev : Unstructured) (live : DeviceLiveness)
    (interval : Duration) (mult : Z) : prog DeviceLivenessStatus :=
  let label := default ""%string (u_Labels dev !! "transport"%string) in
  let transport := if is_empty label then "wifi"%string else label in
  let gateway := match map_at (u_Object dev) config_path !! "gateway"%string with
                 | Some (VString s) => s | _ => ""%string end in
  cap <~ deriveCapability key dev;;
  last <~ lastReport key (dls_Property (dl_Spec live));;
  match last with
  | None =>
      Ret (mkDeviceLivenessStatus StateUnknown transport None "" None "NeverReported" gateway
             (Some cap) [] 0)
  | Some last =>
      now <~ call Now;;
      let silent := sub_time now last in
      let '(state, assessment) := judge silent interval mult in
      Ret (mkDeviceLivenessStatus state transport (Some last) (shortDuration silent)
             (Some (add_time last interval)) assessment gateway (Some cap) [] 0)
  end.

Definition requeue_after (interval : Duration) : Duration :=
  let r := Z.quot interval 3 in
  let r := if r <? 5 * Second then 5 * Second else r in
  if r >? 5 * Minute then 5 * Minute else r.

Definition new_liveness (key : Key) : DeviceLiveness :=
  mkDeviceLiveness (mkObjectMeta (key_Name key) (key_Namespace key) 0 ∅)
    (mkDeviceLivenessSpec (key_Name key) 0 0 "")
    (mkDeviceLivenessStatus "" "" None "" None "" "" None [] 0).

Definition owner_of (dev : Unstructured) : OwnerReference :=
  mkOwnerReference "devices.kubeedge.io/v1beta1" "Device" (u_Name dev) (u_UID dev).

(** The status with its observed generation, as it is written. *)
Definition with_generation (g : Z) (s : DeviceLivenessStatus) : DeviceLivenessStatus :=
  mkDeviceLivenessStatus (st_State s) (st_Transport s) (st_LastSeen s) (st_SilentFor s)
    (st_NextExpectedBy s) (st_Assessment s) (st_Gateway s) (st_Capability s)
    (st_ContactWindows s) g.

(** From the thresholds on. *)
Definition judge_device (key : Key) (dev : Unstructured) (live : DeviceLiveness) : prog Outcome :=
  let '(interval, mult) := thresholds live dev in
  status <~ assess key dev live interval mult;;
  e <~ call (UpdateLivenessStatus (mkDeviceLiveness (dl_Meta live) (dl_Spec live)
         (with_generation (om_Generation (dl_Meta live)) status)));;
  match e with
  | Some err => Ret (Err err)
  | None => Ret (Ok (mkResult (requeue_after interval)))
  end.

Definition ReconcileLiveness (key : Key) : prog Outcome :=
  dev <~ call (GetDevice key);;
  match dev with
  | Err NotFound => Ret (Ok (mkResult 0))
  | Err e => Ret (Err e)
  | Ok dev =>
      live <~ call (GetLiveness key);;
      match live with
      | Err NotFound =>
          created <~ call (CreateLiveness (new_liveness key) (owner_of dev));;
          match created with
          | Err e => Ret (Err e)
          | Ok live => judge_device key dev live
          end
      | Err e => Ret (Err e)
      | Ok live => judge_device key dev live
      end
  end.
End Liveness.

(** ** Lemmas *)

Section Facts.
Context `{Accessors}.

(** The timestamps that count as evidence of life. *)
Definition evidence (only : string) (v : Value) : option Time :=
  tw ← as_map v;
  if negb (is_empty only) && negb (str_eq (string_at tw ["propertyName"%string]) only)
  then None
  else raw ← NestedString tw ["reported"; "metadata"; "timestamp"]%string;
       ms ← ParseInt64 raw;
       Some (UnixMilli ms).

Lemma newest_step_evidence only newest v :
  newest_step only newest v =
  match evidence only v with Some ts => Z.max newest ts | None => newest end.
Proof.
  unfold newest_step, evidence. destruct (as_map v) as [tw|]; simpl; [|done].
  destruct (negb (is_empty only) && _); simpl; [done|].
  destruct (NestedString tw _) as [raw|]; simpl; [|done].
  destruct (ParseInt64 raw) as [ms|]; simpl; [|done].
  unfold After. destruct (Z.ltb_spec newest (UnixMilli ms)); lia.
Qed.

Lemma newest_fold only twins t0 :
  let newest := fold_left (newest_step only) twins t0 in
  t0 <= newest /\
  (forall v ts, In v twins -> evidence only v = Some ts -> ts <= newest) /\
  (newest = t0 \/ exists v, In v twins /\ evidence only v = Some newest).
Proof.
  revert t0. induction twins as [|v twins IH]; intros t0; simpl; [split_and!; [lia|done|auto]|].
  rewrite newest_step_evidence.
  destruct (IH (match evidence only v with Some ts => Z.max t0 ts | None => t0 end)) as (A & B & C).
  destruct (evidence only v) as [ts|] eqn:E.
  - split_and!; [lia| |].
    + intros w u [<-|Hw] Hu; [|eauto]. rewrite E in Hu. injection Hu as <-. lia.
    + destruct C as [C|(w & Hw & Hw')]; [|right; eauto].
      rewrite C. destruct (Z.max_spec t0 ts) as [[? ->]|[? ->]]; [right; eauto|auto].
  - split_and!; [lia| |].
    + intros w u [<-|Hw] Hu; [congruence|eauto].
    + destruct C as [C|(w & Hw & Hw')]; [auto|right; eauto].
Qed.

Lemma requeue_after_bounds interval : 5 * Second <= requeue_after interval <= 5 * Minute.
Proof.
  unfold requeue_after. set (r := if Z.quot interval 3 <? 5 * Second then _ else _).
  assert (5 * Second <= r).
  { unfold r. destruct (Z.ltb_spec (Z.quot interval 3) (5 * Second)); lia. }
  destruct (Z.gtb_spec r (5 * Minute)); [|lia].
  unfold Minute, Second in *. lia.
Qed.

Lemma DeriveCapability_transports cfg labels :
  cap_Transports (DeriveCapabilityFrom cfg labels) <> [].
Proof. unfold DeriveCapabilityFrom. simpl. by destruct (declared_transports cfg). Qed.

Lemma DeriveCapability_reachable cfg labels :
  cap_ReachableVia (DeriveCapabilityFrom cfg labels) =
  map tr_Type (List.filter (fun t => str_eq (tr_Availability t) "always")
                 (cap_Transports (DeriveCapabilityFrom cfg labels))).
Proof.
  unfold DeriveCapabilityFrom. simpl.
  exact (fold_left_snoc_filter (fun t => str_eq (tr_Availability t) "always") tr_Type _ []).
Qed.

(** What [assess] writes is well formed. *)
Definition status_ok (interval : Duration) (mult : Z) (s : DeviceLivenessStatus) : Prop :=
  (exists c, st_Capability s = Some c /\ cap_Transports c <> []) /\
  match st_LastSeen s with
  | None => st_State s = StateUnknown /\ st_NextExpectedBy s = None
  | Some last =>
      st_NextExpectedBy s = Some (last + interval) /\
      exists now, st_State s = fst (judge (sub_time now last) interval mult) /\
                  st_SilentFor s = shortDuration (sub_time now last)
  end.

Definition is_liveness_update (ev : event) : bool :=
  match ev with Event (UpdateLivenessStatus _) _ => true | _ => false end.

Lemma deriveCapability_runs key dev t c :
  runs (deriveCapability key dev) t c ->
  cap_Transports c <> [] /\ Forall (fun ev => is_liveness_update ev = false) t.
Proof.
  unfold deriveCapability, reportedProperty. intros Hr.
  apply runs_call_inv in Hr as (r1 & t1 & -> & Hr). simpl in Hr.
  apply runs_call_inv in Hr as (r2 & t2 & -> & Hr). simpl in Hr.
  apply runs_call_inv in Hr as (r3 & t3 & -> & Hr). simpl in Hr.
  apply runs_ret_inv in Hr as [-> ->]. split.
  - apply DeriveCapability_transports.
  - repeat constructor.
Qed.

Lemma assess_runs key dev live interval mult t s :
  runs (assess key dev live interval mult) t s ->
  status_ok interval mult s /\ Forall (fun ev => is_liveness_update ev = false) t.
Proof.
  unfold assess. intros Hr.
  apply runs_bind_inv in Hr as (t1 & c & t2 & -> & Hc & Hr).
  apply deriveCapability_runs in Hc as [Hc Hq]. unfold lastReport in Hr. simpl in Hr.
  apply runs_call_inv in Hr as (ds & t3 & -> & Hr).
  apply runs_bind_inv in Hr as (t4 & last & t5 & -> & Hl & Hr).
  assert (t4 = []) as -> by (destruct ds; by apply runs_ret_inv in Hl as [-> _]).
  rewrite Forall_app, Forall_cons. unfold status_ok.
  destruct last as [last|].
  - simpl in Hr. apply runs_call_inv in Hr as (now & t6 & -> & Hr).
    destruct (judge (sub_time now last) interval mult) as [state assessment] eqn:E.
    apply runs_ret_inv in Hr as [-> ->]. simpl. split; [|by repeat constructor].
    split; [eauto|]. split; [done|]. exists now. by rewrite E.
  - apply runs_ret_inv in Hr as [-> ->]. simpl. split; [|by repeat constructor].
    split; [eauto|done].
Qed.

Lemma judge_device_runs key dev live t out :
  runs (judge_device key dev live) t out ->
  exists t0 s e,
    t = t0 ++ [Event (UpdateLivenessStatus (mkDeviceLiveness (dl_Meta live) (dl_Spec live)
                  (with_generation (om_Generation (dl_Meta live)) s))) e] /\
    Forall (fun ev => is_liveness_update ev = false) t0 /\
    status_ok (fst (thresholds live dev)) (snd (thresholds live dev)) s /\
    out = match e with
          | Some err => Err err
          | None => Ok (mkResult (requeue_after (fst (thresholds live dev))))
          end.
Proof.
  unfold judge_device. destruct (thresholds live dev) as [interval mult]. intros Hr. simpl.
  apply runs_bind_inv in Hr as (t0 & s & t2 & -> & Hs & Hr).
  apply assess_runs in Hs as [Hs Hq].
  apply runs_call_inv in Hr as (e & t3 & -> & Hr).
  exists t0, s, e. destruct e; by apply runs_ret_inv in Hr as [-> ->].
Qed.
End Facts.

Lemma judge_device_write `{Accessors} key dev live t pre out :
  Forall (fun ev => is_liveness_update ev = false) pre ->
  runs (judge_device key dev live) t out ->
  exists dev' t0 live' s e,
    Event (GetDevice key) (Ok dev) :: pre ++ t = t0 ++ [Event (UpdateLivenessStatus live') e] /\
    hd_error t0 = Some (Event (GetDevice key) (Ok dev')) /\
    Forall (fun ev => is_liveness_update ev = false) t0 /\
    dl_Status live' = with_generation (om_Generation (dl_Meta live')) s /\
    status_ok (thresholds live' dev').1 (thresholds live' dev').2 s /\
    match e with
    | Some err => out = Err err
    | None => exists r, out = Ok r /\ 5 * Second <= RequeueAfter r <= 5 * Minute
    end.
Proof.
  intros Hpre Hr. apply judge_device_runs in Hr as (t0 & s & e & -> & Hq & Hok & ->).
  exists dev, (Event (GetDevice key) (Ok dev) :: pre ++ t0). eexists. exists s, e.
  split_and!; [by rewrite <- app_comm_cons, app_assoc|done| |reflexivity|exact Hok|].
  - constructor; [done|]. by apply Forall_app.
  - destruct e; [done|]. eexists. split; [done|]. apply requeue_after_bounds.
Qed.

(** ** Properties *)

(** The last report is the newest parsable timestamp of the twins that count
    (those of one property when one is named), and there is none only when no
    such timestamp is later than the zero time. *)
Theorem newest_report_max `{Accessors} only twins :
  let newest := newest_report only twins in
  (forall v ts, In v twins -> evidence only v = Some ts -> ts <= newest) /\
  (newest <> zero_time -> exists v, In v twins /\ evidence only v = Some newest).
Proof.
  destruct (newest_fold only twins zero_time) as (_ & HB & HC). split; [exact HB|].
  intros Hne. by destruct HC.
Qed.

(** How bad a state is. *)
Definition gravity (s : LivenessState) : Z :=
  if str_eq s StateOnline then 0 else if str_eq s StateSleeping then 1 else 2.

(** Silence only ever makes things look worse: without a new report a device goes
    from online to sleeping to unreachable and never back, whatever its thresholds,
    and even where their product wraps. *)
Theorem judge_monotone silent silent' interval mult :
  silent <= silent' ->
  gravity (fst (judge silent interval mult)) <= gravity (fst (judge silent' interval mult)).
Proof.
  intros Hle. unfold judge.
  destruct (Z.leb_spec silent interval), (Z.leb_spec silent' interval),
    (Z.leb_spec silent (wrap64 (interval * mult))),
    (Z.leb_spec silent' (wrap64 (interval * mult)));
    simpl; try lia; vm_compute; discriminate.
Qed.

Lemma judge_monotone_witness :
  gravity (fst (judge (5 * Minute) (2 * Minute) 3)) <= gravity (fst (judge Hour (2 * Minute) 3)).
Proof. apply judge_monotone. vm_compute. discriminate. Defined.

(** A derived capability always declares a transport, and is reachable over
    exactly the types of its transports that are always available. *)
Theorem DeriveCapabilityFrom_sound `{Accessors} cfg labels :
  let c := DeriveCapabilityFrom cfg labels in
  cap_Transports c <> [] /\
  (forall name, In name (cap_ReachableVia c) <->
     exists t, In t (cap_Transports c) /\ tr_Availability t = "always"%string /\
               tr_Type t = name).
Proof.
  split; [apply DeriveCapability_transports|]. intros name.
  rewrite DeriveCapability_reachable, in_map_iff. setoid_rewrite filter_In.
  setoid_rewrite str_eq_true. naive_solver.
Qed.

(** A device whose only transports come and go is derived as reachable over
    nothing, which [reachableOverOTA] reads as nothing observed, so as reachable. *)
Lemma DeriveCapability_opportunistic `{Accessors} cfg labels :
  (forall t, In t (cap_Transports (DeriveCapabilityFrom cfg labels)) ->
     tr_Availability t <> "always"%string) ->
  reachableOverOTA (DeriveCapabilityFrom cfg labels) = true.
Proof.
  intros Hnone. apply reachableOverOTA_spec. left. rewrite DeriveCapability_reachable.
  replace (List.filter _ _) with (@nil Transport); [done|]. symmetry.
  apply filter_nil_In. intros t Ht. by apply str_eq_false, Hnone.
Qed.

(** C30. Whatever the API server answers, one pass over a device writes at most one
    liveness status, as its last request; what it writes is coherent (a state judged
    from the last report it names, the next report due one interval after it,
    unknown exactly without one, a capability with a transport); the pass reports
    success only after that write is accepted, and then asks to run again within
    five seconds to five minutes, or when the device is gone. *)
Theorem ReconcileLiveness_safe `{Accessors} key t out :
  runs (ReconcileLiveness key) t out ->
  (Forall (fun ev => is_liveness_update ev = false) t /\
   (forall r, out = Ok r -> RequeueAfter r = 0 /\
      t = [Event (GetDevice key) (Err NotFound)])) \/
  (exists dev t0 live s e,
     t = t0 ++ [Event (UpdateLivenessStatus live) e] /\
     hd_error t0 = Some (Event (GetDevice key) (Ok dev)) /\
     Forall (fun ev => is_liveness_update ev = false) t0 /\
     dl_Status live = with_generation (om_Generation (dl_Meta live)) s /\
     status_ok (thresholds live dev).1 (thresholds live dev).2 s /\
     match e with
     | Some err => out = Err err
     | None => exists r, out = Ok r /\ 5 * Second <= RequeueAfter r <= 5 * Minute
     end).
Proof.
  unfold ReconcileLiveness. intros Hr.
  apply runs_call_inv in Hr as (dev & t1 & -> & Hr).
  destruct dev as [dev|e]; [|left; destruct e; apply runs_ret_inv in Hr as [-> ->];
    (split; [by repeat constructor|]); intros r [= <-]; done].
  apply runs_call_inv in Hr as (live & t2 & -> & Hr).
  destruct live as [live|[|msg]].
  - right. apply (judge_device_write key dev live _ [Event (GetLiveness key) (Ok live)]) in Hr;
      [exact Hr|repeat constructor].
  - apply runs_call_inv in Hr as (created & t3 & -> & Hr).
    destruct created as [live|e].
    + right. apply (judge_device_write key dev live _ [Event (GetLiveness key) (Err NotFound);
        Event (CreateLiveness (new_liveness key) (owner_of dev)) (Ok live)]) in Hr;
        [exact Hr|repeat constructor].
    + left. apply runs_ret_inv in Hr as [-> ->]. split; [by repeat constructor|done].
  - left. apply runs_ret_inv in Hr as [-> ->]. split; [by repeat constructor|done].
Qed.

(** A LoRa node that last reported two minutes before it is looked at. *)
Definition sample_twin (name value : string) (ms : Z) : Value :=
  VMap {[ "propertyName"%string := VString name;
          "reported"%string := VMap {[ "value"%string := VString value;
            "metadata"%string := VMap {[ "timestamp"%string := VString (pretty ms) ]} ]} ]}.
Definition sample_device : Unstructured :=
  mkUnstructured "field-01" "default" "uid-1" ∅
    {[ "spec"%string := VMap {[ "protocol"%string := VMap {[ "configData"%string :=
         VMap {[ "gateway"%string := VString "w10-a" ]} ]} ]} ]}.
Definition sample_status : Unstructured :=
  mkUnstructured "field-01" "default" "uid-1" ∅
    {[ "status"%string := VMap {[ "twins"%string :=
         VList [sample_twin "temperature" "21" 1700000000000] ]} ]}.
Definition sample_answers (R : Type) (e : Effect R) : R :=
  match e in Effect R return R with
  | GetDevice _ => Ok sample_device
  | GetDeviceStatus _ => Ok sample_status
  | GetLiveness k => Ok (new_liveness k)
  | GetRollout _ => Err NotFound
  | ListDevices _ => Ok []
  | ListWindows _ => Ok []
  | CreateLiveness l _ => Ok l
  | UpdateLivenessStatus _ => None
  | UpdateRolloutStatus _ => None
  | UpdateDevice _ => None
  | Now => UnixMilli 1700000120000
  end.
Definition sample_pass : list event * Outcome :=
  exec sample_answers
    (ReconcileLiveness (H := tree_Accessors)
       (mkKey "default" "field-01")).

Example sample_pass_state :
  map (fun ev => match ev with Event (UpdateLivenessStatus l) _ => st_State (dl_Status l)
                 | _ => ""%string end) (fst sample_pass)
  = [""; ""; ""; ""; ""; ""; ""; StateSleeping]%string.
Proof. vm_compute. reflexivity. Qed.

Lemma ReconcileLiveness_safe_witness :
  exists r, snd sample_pass = Ok r /\ 5 * Second <= RequeueAfter r <= 5 * Minute.
Proof.
  exists (mkResult (20 * Second)). split; [vm_compute; reflexivity|].
  destruct (ReconcileLiveness_safe (H := tree_Accessors)
    (mkKey "default" "field-01") (fst sample_pass) (snd sample_pass) (exec_runs _ _))
    as [[_ Hgone]|(dev & t0 & live & s & e & _ & _ & _ & _ & _ & He)].
  - destruct (Hgone (mkResult (20 * Second))) as [H0 _]; [vm_compute; reflexivity|].
    vm_compute in H0. discriminate H0.
  - assert (snd sample_pass = Ok (mkResult (20 * Second))) as E by (vm_compute; reflexivity).
    rewrite E in He. destruct e as [err|]; [discriminate He|].
    destruct He as (r & Hr & Hb). injection Hr as <-. exact Hb.
Defined.
