(* ===== verification/Compose.v ===== *)
(** * How windows and rollouts compose: internal/compose.go

    A maintenance window and a rollout meet through the labels of devices. *)

From S2P Require Import Prelude GoTime GoStrings Types Cluster Window.
Local Open Scope Z_scope.
Local Open Scope torpor_scope.

(** ** Label selectors

    [metav1.LabelSelectorAsSelector] and [labels.Selector] are the API machinery's. *)
Class LabelSelectors := {
  Selector : Type;
  LabelSelectorAsSelector : option LabelSelector -> result Selector ApiError;
  Matches : Selector -> gmap string string -> bool
}.

(** An instance: equality of labels, and nothing for no selector. *)
Definition equality_LabelSelectors : LabelSelectors := {|
  Selector := option (gmap string string);
  LabelSelectorAsSelector s := Ok (ls_MatchLabels <$> s);
  Matches s labels := match s with
                      | None => false
                      | Some want => bool_decide (want ⊆ labels)
                      end |}.

(** ** Field updates of a rollout's status *)

Definition set_status (ro : FirmwareRollout) (s : FirmwareRolloutStatus) : FirmwareRollout :=
  mkFirmwareRollout (ro_Meta ro) (ro_Spec ro) s.

Definition with_phase (p : RolloutPhase) (s : FirmwareRolloutStatus) : FirmwareRolloutStatus :=
  mkFirmwareRolloutStatus p (frs_Step s) (frs_Target s) (frs_Eligible s) (frs_Updated s)
    (frs_Healthy s) (frs_Refused s) (frs_Pending s) (frs_Failed s) (frs_Conditions s)
    (frs_ObservedGeneration s) (frs_StartedAt s) (frs_PreviousConfigHash s) (frs_BlockedBy s)
    (frs_BlockReason s) (frs_NextWindow s) (frs_DispatchedThisWindow s) (frs_WindowOpenedAt s).

Definition with_conditions (c : list Condition) (s : FirmwareRolloutStatus)
  : FirmwareRolloutStatus :=
  mkFirmwareRolloutStatus (frs_Phase s) (frs_Step s) (frs_Target s) (frs_Eligible s)
    (frs_Updated s) (frs_Healthy s) (frs_Refused s) (frs_Pending s) (frs_Failed s) c
    (frs_ObservedGeneration s) (frs_StartedAt s) (frs_PreviousConfigHash s) (frs_BlockedBy s)
    (frs_BlockReason s) (frs_NextWindow s) (frs_DispatchedThisWindow s) (frs_WindowOpenedAt s).

Definition with_block (by_ reason : string) (next : option Time) (s : FirmwareRolloutStatus)
  : FirmwareRolloutStatus :=
  mkFirmwareRolloutStatus (frs_Phase s) (frs_Step s) (frs_Target s) (frs_Eligible s)
    (frs_Updated s) (frs_Healthy s) (frs_Refused s) (frs_Pending s) (frs_Failed s)
    (frs_Conditions s) (frs_ObservedGeneration s) (frs_StartedAt s) (frs_PreviousConfigHash s)
    by_ reason next (frs_DispatchedThisWindow s) (frs_WindowOpenedAt s).

Definition with_window (opened : option Time) (dispatched : Z) (s : FirmwareRolloutStatus)
  : FirmwareRolloutStatus :=
  mkFirmwareRolloutStatus (frs_Phase s) (frs_Step s) (frs_Target s) (frs_Eligible s)
    (frs_Updated s) (frs_Healthy s) (frs_Refused s) (frs_Pending s) (frs_Failed s)
    (frs_Conditions s) (frs_ObservedGeneration s) (frs_StartedAt s) (frs_PreviousConfigHash s)
    (frs_BlockedBy s) (frs_BlockReason s) (frs_NextWindow s) dispatched opened.

(** ** Conditions ([setCondition], rollout_controller.go) *)

(** The loop: the first condition of the type decides. *)
Fixpoint put_condition (cond : Condition) (l : list Condition) : list Condition :=
  match l with
  | [] => [cond]
  | c :: l' =>
      if str_eq (cond_Type c) (cond_Type cond) then
        if str_eq (cond_Status c) (cond_Status cond) && str_eq (cond_Reason c) (cond_Reason cond)
        then l else cond :: l'
      else c :: put_condition cond l'
  end.

Definition setCondition (ro : FirmwareRollout) (typ status reason msg : string)
  : prog FirmwareRollout :=
  now <~ call Now;;
  let cond := mkCondition typ status (om_Generation (ro_Meta ro)) now reason msg in
  Ret (set_status ro (with_conditions (put_condition cond (frs_Conditions (ro_Status ro)))
                        (ro_Status ro))).

(** ** The decision *)

Record WindowDecision := mkWindowDecision {
  wd_Open : bool;
  wd_Window : string;
  wd_Reason : string;
  wd_NextOpen : option Time;
  wd_MaxDevices : Z
}.

Section Compose.
Context `{LabelSelectors} (LoadLocation : string -> option Location).

Definition windowSelectsAny (mw : MaintenanceWindow) (deviceLabels : list (gmap string string))
  : bool :=
  match mws_Selector (mw_Spec mw) with
  | None => true
  | Some s =>
      match LabelSelectorAsSelector (Some s) with
      | Err _ => false
      | Ok sel => existsb (Matches sel) deviceLabels
      end
  end.

(** The loop: the decision so far and [earliestOpen]. *)
Definition window_step (deviceLabels : list (gmap string string)) (now : Time)
    (s : WindowDecision * option Time) (mw : MaintenanceWindow) : WindowDecision * option Time :=
  let '(decision, earliestOpen) := s in
  if negb (windowSelectsAny mw deviceLabels) then s
  else
    let st := EvaluateWindow LoadLocation (mw_Spec mw) now in
    if ws_Open st then
      if wd_Open decision
      then (mkWindowDecision true (om_Name (mw_Meta mw)) (ws_Reason st) None
              (mws_MaxDevicesPerWindow (mw_Spec mw)), earliestOpen)
      else s
    else
      let earliestOpen :=
        match ws_NextOpen st, earliestOpen with
        | Some n, None => Some n
        | Some n, Some e => if After n e then Some n else earliestOpen
        | None, _ => earliestOpen
        end in
      (mkWindowDecision false (om_Name (mw_Meta mw)) (ws_Reason st) earliestOpen 0, earliestOpen).

Definition combine_windows (items : list MaintenanceWindow)
    (deviceLabels : list (gmap string string)) (now : Time) : WindowDecision :=
  match items with
  | [] => mkWindowDecision true "" "no maintenance window configured" None 0
  | _ =>
      fst (fold_left (window_step deviceLabels now) items
        (mkWindowDecision true "" "no window selects these devices" None 0, None))
  end.

Definition EvaluateWindowsFor (namespace : string) (deviceLabels : list (gmap string string))
    (now : Time) : prog (result WindowDecision ApiError) :=
  items <~ call (ListWindows namespace);;
  Ret (items <-? items; Ok (combine_windows items deviceLabels now)).

(** [DeviceLabelsFor]. *)
Definition matching_labels (sel : Selector) (devs : list Unstructured)
  : list (gmap string string) :=
  fold_left (fun out d => if Matches sel (u_Labels d) then out ++ [u_Labels d] else out) devs [].

Definition DeviceLabelsFor (ro : FirmwareRollout)
  : prog (result (list (gmap string string)) ApiError) :=
  match LabelSelectorAsSelector (fr_Selector (ro_Spec ro)) with
  | Err e => Ret (Err e)
  | Ok sel =>
      devs <~ call (ListDevices (om_Namespace (ro_Meta ro)));;
      Ret (devs <-? devs; Ok (matching_labels sel devs))
  end.
End Compose.

(** ** Folding a decision into a rollout *)

(** The status once a window is open: nothing blocks, and the window's count starts
    again when the code thinks the window is a new one. The block is cleared before
    it is compared with the window's name. *)
Definition enter_window (d : WindowDecision) (now : Time) (s : FirmwareRolloutStatus)
  : FirmwareRolloutStatus :=
  let s := with_block "" "" None s in
  if match frs_WindowOpenedAt s with
     | None => true
     | Some opened =>
         negb (is_empty (wd_Window d)) && negb (str_eq (frs_BlockedBy s) (wd_Window d)) &&
         (frs_DispatchedThisWindow s >? 0) && Before opened (add_time now (- Hour))
     end
  then with_window (Some now) 0 s else s.

Definition ApplyWindow (ro : FirmwareRollout) (d : WindowDecision) (now : Time)
  : prog (FirmwareRollout * (bool * Z)) :=
  if negb (wd_Open d) then
    let s := with_phase PhaseBlocked (ro_Status ro) in
    let s := with_block (wd_Window d) (wd_Reason d)
               (match wd_NextOpen d with Some t => Some t | None => frs_NextWindow s end) s in
    ro <~ setCondition (set_status ro s) "Progressing" ConditionFalse "MaintenanceWindowClosed"
            (wd_Window d +:+ ": " +:+ wd_Reason d)%string;;
    Ret (ro, (false, 0))
  else
    let s := enter_window d now (ro_Status ro) in
    if wd_MaxDevices d >? 0 then
      let remaining := wrap32 (wd_MaxDevices d - frs_DispatchedThisWindow s) in
      if remaining <=? 0 then
        ro <~ setCondition (set_status ro (with_phase PhaseWaiting s)) "Progressing" ConditionFalse
                "WindowBudgetExhausted"
                (pretty (frs_DispatchedThisWindow s) +:+
                 " devices already dispatched this window (limit " +:+
                 pretty (wd_MaxDevices d) +:+ ")")%string;;
        Ret (ro, (false, 0))
      else Ret (set_status ro s, (true, remaining))
    else Ret (set_status ro s, (true, -1)).

(** ** Lemmas *)

Section Combine.
Context `{LabelSelectors} (LoadLocation : string -> option Location).
Context (labels : list (gmap string string)) (now : Time).
#[local] Abbreviation verdict mw := (EvaluateWindow LoadLocation (mw_Spec mw) now).
#[local] Abbreviation step := (window_step LoadLocation labels now).

(** A window that selects the fleet and is closed. *)
Definition blocks (mw : MaintenanceWindow) : bool :=
  windowSelectsAny mw labels && negb (ws_Open (verdict mw)).

Definition latest (a b : option Time) : option Time :=
  match a, b with
  | Some x, Some y => Some (Z.max x y)
  | Some x, None => Some x
  | None, _ => b
  end.

Lemma window_step_open s mw : wd_Open (step s mw).1 = wd_Open s.1 && negb (blocks mw).
Proof.
  destruct s as [d e]. unfold window_step, blocks.
  destruct (windowSelectsAny mw labels); simpl; [|by rewrite andb_true_r].
  destruct (ws_Open (verdict mw)); simpl; [|by rewrite andb_false_r].
  rewrite andb_true_r. by destruct (wd_Open d) eqn:E; simpl; rewrite ?E.
Qed.

Lemma window_step_next s mw :
  (step s mw).2 = (if blocks mw then latest s.2 (ws_NextOpen (verdict mw)) else s.2) /\
  wd_NextOpen (step s mw).1 =
    (if blocks mw then (step s mw).2
     else if windowSelectsAny mw labels && wd_Open s.1 then None else wd_NextOpen s.1).
Proof.
  destruct s as [d e]. unfold window_step, blocks.
  destruct (windowSelectsAny mw labels); simpl; [|done].
  destruct (ws_Open (verdict mw)); simpl; [by destruct (wd_Open d)|].
  split; [|done]. unfold After.
  destruct (ws_NextOpen (verdict mw)) as [n|], e as [t|]; simpl; try done.
  destruct (Z.ltb_spec t n); f_equal; lia.
Qed.

Lemma combine_fold items s :
  wd_Open (fold_left step items s).1 = wd_Open s.1 && negb (existsb blocks items).
Proof.
  revert s. induction items as [|mw items IH]; intros s; simpl; [by rewrite andb_true_r|].
  by rewrite IH, window_step_open, negb_orb, andb_assoc.
Qed.

(** The second component is the latest opening of the blocking windows. *)
Lemma combine_latest items s :
  (fold_left step items s).2 =
  fold_left latest (map (fun mw => ws_NextOpen (verdict mw)) (List.filter blocks items)) s.2.
Proof.
  revert s. induction items as [|mw items IH]; intros s; [done|]. simpl fold_left at 1.
  rewrite IH. destruct (window_step_next s mw) as [-> _]. simpl.
  by destruct (blocks mw).
Qed.

Lemma combine_next items s :
  (wd_Open s.1 = false -> wd_NextOpen s.1 = s.2) -> (wd_Open s.1 = true -> s.2 = None) ->
  (wd_Open s.1 = true -> wd_NextOpen s.1 = None) ->
  let r := fold_left step items s in
  wd_NextOpen r.1 = if wd_Open r.1 then None else r.2.
Proof.
  revert s. induction items as [|mw items IH]; intros s H1 H2 H3; simpl.
  - destruct (wd_Open s.1); auto.
  - apply IH; rewrite window_step_open; destruct (window_step_next s mw) as [E2 E1];
      rewrite ?E1, ?E2; destruct (blocks mw); simpl; rewrite ?andb_false_r, ?andb_true_r;
      intros Ho; try done; rewrite ?Ho, ?andb_false_r in *; auto.
    destruct (windowSelectsAny mw labels); simpl; auto.
Qed.

Lemma fold_latest l a :
  match fold_left latest l a with
  | Some t => (a = Some t \/ In (Some t) l) /\
              (forall u, a = Some u \/ In (Some u) l -> u <= t)
  | None => a = None /\ forall u, ~ In (Some u) l
  end.
Proof.
  revert a. induction l as [|b l IH]; intros a; simpl.
  - destruct a; naive_solver lia.
  - specialize (IH (latest a b)). destruct (fold_left latest l (latest a b)) as [t|].
    + destruct IH as [Hin Hmax].
      assert (forall u, a = Some u \/ b = Some u -> u <= t) as Hab.
      { intros u Hu. destruct a as [x|], b as [y|]; simpl in Hmax;
          try (specialize (Hmax _ (or_introl eq_refl))); naive_solver lia. }
      split; [|naive_solver]. destruct Hin as [Hin|Hin]; [|auto].
      destruct a as [x|], b as [y|]; simpl in Hin; auto.
      destruct (Z.max_spec x y) as [[_ E]|[_ E]]; rewrite E in Hin; auto.
    + destruct IH as [Hn Hno]. destruct a, b; simpl in Hn; naive_solver.
Qed.
End Combine.

Lemma setCondition_runs ro typ status reason msg t ro' :
  runs (setCondition ro typ status reason msg) t ro' ->
  silent t /\ ro_Meta ro' = ro_Meta ro /\ ro_Spec ro' = ro_Spec ro /\
  exists conds, ro_Status ro' = with_conditions conds (ro_Status ro).
Proof.
  unfold setCondition. intros Hr. apply runs_call_inv in Hr as (now & t1 & -> & Hr).
  apply runs_ret_inv in Hr as [-> ->]. simpl. split_and!; [by repeat constructor|done..|eauto].
Qed.

(** ** Properties *)

(** C6. A fleet may be touched exactly when every window that selects it is open: a
    policy cannot be escaped by adding another one. When it may not, the opening
    announced is the latest one that any blocking window announces. *)
Theorem combine_windows_restrictive `{LabelSelectors} LoadLocation items labels now :
  let d := combine_windows LoadLocation items labels now in
  let closed mw := windowSelectsAny mw labels = true /\
                   ws_Open (EvaluateWindow LoadLocation (mw_Spec mw) now) = false in
  let announces mw t := ws_NextOpen (EvaluateWindow LoadLocation (mw_Spec mw) now) = Some t in
  (wd_Open d = true <-> forall mw, In mw items -> ~ closed mw) /\
  match wd_NextOpen d with
  | Some t => (exists mw, In mw items /\ closed mw /\ announces mw t) /\
              (forall mw u, In mw items -> closed mw -> announces mw u -> u <= t)
  | None => forall mw u, In mw items -> closed mw -> ~ announces mw u
  end.
Proof.
  intros d closed announces.
  assert (forall mw, blocks LoadLocation labels now mw = true <-> closed mw) as Hb.
  { intros mw. unfold blocks, closed. by rewrite andb_true_iff, negb_true_iff. }
  destruct items as [|mw0 items0] eqn:E; [naive_solver|]. rewrite <- E in *.
  set (s0 := (mkWindowDecision true "" "no window selects these devices" None 0, @None Time)).
  assert (d = (fold_left (window_step LoadLocation labels now) items s0).1) as Hd
    by (unfold d, combine_windows; by rewrite E).
  pose proof (combine_fold LoadLocation labels now items s0) as Hopen.
  pose proof (combine_next LoadLocation labels now items s0 ltac:(done) ltac:(done)
    ltac:(done)) as Hnext.
  cbv zeta in Hnext. rewrite (combine_latest LoadLocation labels now items s0) in Hnext.
  pose proof (fold_latest (map (fun mw => ws_NextOpen (EvaluateWindow LoadLocation (mw_Spec mw)
    now)) (List.filter (blocks LoadLocation labels now) items)) None) as HL.
  simpl in Hnext. rewrite <- Hd in Hopen, Hnext.
  simpl in Hopen.
  assert (wd_Open d = true <-> forall mw, In mw items -> ~ closed mw) as Ho.
  { rewrite Hopen, negb_true_iff, <- not_true_iff_false, existsb_exists.
    setoid_rewrite Hb. naive_solver. }
  split; [exact Ho|]. rewrite Hnext.
  assert (forall u, In (Some u) (map (fun mw => ws_NextOpen (EvaluateWindow LoadLocation
    (mw_Spec mw) now)) (List.filter (blocks LoadLocation labels now) items)) <->
    exists mw, In mw items /\ closed mw /\ announces mw u) as Hin.
  { intros u. rewrite in_map_iff. setoid_rewrite filter_In. setoid_rewrite Hb. naive_solver. }
  destruct (wd_Open d).
  - intros mw u Hmw Hc. by destruct (proj1 Ho eq_refl mw Hmw).
  - destruct (fold_left latest _ None) as [t|].
    + destruct HL as [[?|Ht%Hin] Hmax]; [done|]. split; [exact Ht|].
      intros mw u Hmw Hc Hu. apply Hmax. right. apply Hin. eauto.
    + destruct HL as [_ Hno]. intros mw u Hmw Hc Hu. apply (Hno u), Hin. eauto.
Qed.

(** The budget a window leaves is what the status says: when a rollout may
    proceed under a limit, its budget is positive and the limit is never exceeded by
    the budget and what the window is recorded to have dispatched; when it may not,
    its phase says why; and nothing is written anywhere while deciding. *)
Theorem ApplyWindow_budget ro d now t ro' proceed budget :
  0 <= frs_DispatchedThisWindow (ro_Status ro) <= MaxInt32 -> wd_MaxDevices d <= MaxInt32 ->
  runs (ApplyWindow ro d now) t (ro', (proceed, budget)) ->
  silent t /\
  (proceed = true ->
     wd_Open d = true /\
     (if wd_MaxDevices d >? 0
      then 0 < budget /\ budget + frs_DispatchedThisWindow (ro_Status ro') = wd_MaxDevices d
      else budget = -1)) /\
  (proceed = false ->
     budget = 0 /\
     frs_Phase (ro_Status ro') = (if wd_Open d then PhaseWaiting else PhaseBlocked)).
Proof.
  intros Hdisp Hmax. unfold ApplyWindow.
  destruct (wd_Open d); simpl negb; cbv iota.
  2:{ intros Hr. apply runs_bind_inv in Hr as (t1 & ro1 & t2 & -> & Hc & Hr).
      apply setCondition_runs in Hc as (Hq & _ & _ & conds & Hs).
      apply runs_ret_inv in Hr as [-> [= -> -> ->]]. rewrite app_nil_r, Hs. done. }
  set (s := enter_window d now (ro_Status ro)).
  assert (0 <= frs_DispatchedThisWindow s <= MaxInt32) as Hs.
  { unfold s, enter_window. case_match; simpl; [unfold MaxInt32; lia|done]. }
  destruct (Z.gtb_spec (wd_MaxDevices d) 0) as [Hpos|Hpos].
  - rewrite wrap32_id by (unfold MinInt32, MaxInt32 in *; lia).
    destruct (Z.leb_spec (wd_MaxDevices d - frs_DispatchedThisWindow s) 0) as [Hz|Hz]; intros Hr.
    + apply runs_bind_inv in Hr as (t1 & ro1 & t2 & -> & Hc & Hr).
      apply setCondition_runs in Hc as (Hq & _ & _ & conds & Hs1).
      apply runs_ret_inv in Hr as [-> [= -> -> ->]]. rewrite app_nil_r, Hs1. done.
    + apply runs_ret_inv in Hr as [-> [= -> -> ->]]. simpl.
      split_and!; [constructor| |done]. intros _. split_and!; [done|lia..].
  - intros Hr. apply runs_ret_inv in Hr as [-> [= -> -> ->]]. split_and!; [constructor|done|done].
Qed.

(** The counter also starts again in the middle of a window: whichever window
    dispatched the devices counted so far, an hour after it was counted as opened
    the count is zero. *)
Lemma enter_window_hourly d now s opened :
  frs_WindowOpenedAt s = Some opened -> is_empty (wd_Window d) = false ->
  0 < frs_DispatchedThisWindow s -> opened < now - Hour ->
  frs_DispatchedThisWindow (enter_window d now s) = 0.
Proof.
  intros Ho Hw Hd Hlt. unfold enter_window. simpl. rewrite Ho, Hw.
  assert (str_eq "" (wd_Window d) = false) as -> by (rewrite str_eq_sym; exact Hw).
  assert ((frs_DispatchedThisWindow s >? 0) = true) as -> by lia.
  unfold Before, add_time. assert ((opened <? now + - Hour) = true) as -> by lia. done.
Qed.

(** ** Concrete windows *)

Definition bare_status : FirmwareRolloutStatus :=
  mkFirmwareRolloutStatus "" "" 0 0 0 0 [] [] [] [] 0 None "" "" "" None 0 None.
Definition bare_rollout (s : FirmwareRolloutStatus) : FirmwareRollout :=
  mkFirmwareRollout (mkObjectMeta "fw" "default" 1 ∅)
    (mkFirmwareRolloutSpec None (mkFirmwareSource "pkg" "abc" 0) None
       (mkRolloutStrategy 0 [] None None 0) false) s.

(** Ten devices dispatched since two in the morning, the limit of the window. *)
Definition spent : FirmwareRolloutStatus :=
  with_window (Some (instant 2026 8 30 2 0 0)) 10 bare_status.
Definition night : WindowDecision :=
  mkWindowDecision true "night" "within allowed window" None 10.
Definition clock_only (now : Time) (R : Type) (e : Effect R) : R :=
  match e in Effect R return R with
  | GetDevice _ | GetDeviceStatus _ => Err NotFound
  | GetLiveness _ => Err NotFound
  | GetRollout _ => Err NotFound
  | ListDevices _ => Ok []
  | ListWindows _ => Ok []
  | CreateLiveness l _ => Ok l
  | UpdateLivenessStatus _ | UpdateRolloutStatus _ | UpdateDevice _ => None
  | Now => now
  end.
Definition apply_night (now : Time) : list event * (FirmwareRollout * (bool * Z)) :=
  exec (clock_only now) (ApplyWindow (bare_rollout spent) night now).

(** At three the limit holds; a second later the same window grants it again. *)
Example night_budget_returns :
  snd (snd (apply_night (instant 2026 8 30 3 0 0))) = (false, 0) /\
  snd (snd (apply_night (instant 2026 8 30 3 0 1))) = (true, 10).
Proof. split; vm_compute; reflexivity. Qed.

Lemma ApplyWindow_budget_witness :
  let p := ApplyWindow (bare_rollout spent) night (instant 2026 8 30 3 0 1) in
  let r := exec (clock_only (instant 2026 8 30 3 0 1)) p in
  fst (snd (snd r)) = true /\ 0 < snd (snd (snd r)).
Proof.
  set (p := ApplyWindow (bare_rollout spent) night (instant 2026 8 30 3 0 1)).
  set (r := exec (clock_only (instant 2026 8 30 3 0 1)) p).
  assert (fst (snd (snd r)) = true) as Ht by (vm_compute; reflexivity).
  split; [exact Ht|].
  assert (runs p (fst r) (fst (snd r), (fst (snd (snd r)), snd (snd (snd r))))) as Hr.
  { pose proof (exec_runs (clock_only (instant 2026 8 30 3 0 1)) p) as Hr. fold r in Hr.
    destruct r as [t [ro' [b n]]]. exact Hr. }
  destruct (ApplyWindow_budget (bare_rollout spent) night (instant 2026 8 30 3 0 1)
    (fst r) (fst (snd r)) (fst (snd (snd r))) (snd (snd (snd r)))) as (_ & Hp & _).
  - vm_compute. split; discriminate.
  - vm_compute. discriminate.
  - exact Hr.
  - destruct (Hp Ht) as [_ Hb]. exact (proj1 Hb).
Defined.

(** Two open windows select the same fleet: the last one's limit is taken, not the
    smaller. *)
Definition open_window (name : string) (limit : Z) : MaintenanceWindow :=
  mkMaintenanceWindow (mkObjectMeta name "default" 1 ∅)
    (mkMaintenanceWindowSpec None [] [] "" None limit).
Example budget_of_the_last_window :
  wd_MaxDevices (combine_windows (H := equality_LabelSelectors) (fun _ => None)
    [open_window "careful" 2; open_window "relaxed" 50] [] 0) = 50.
Proof. vm_compute. reflexivity. Qed.
