(* ===== verification/Rollout.v ===== *)
(** * The rollout controller: internal/rollout_controller.go

    One pass plans, checks the windows, observes what earlier passes did, and then
    dispatches to at most as many devices as the step, the medium and the window
    allow. *)

From Stdlib Require Import Ascii.
From S2P Require Import Prelude GoTime GoStrings Types Capability Planner Cluster Unstructured.
From S2P Require Import Window Liveness Compose.
Local Open Scope Z_scope.
Local Open Scope torpor_scope.

(** ** Definitions: status fields this file sets *)

Definition with_plan (target : Z) (p : Plan) (generation : Z) (s : FirmwareRolloutStatus)
  : FirmwareRolloutStatus :=
  mkFirmwareRolloutStatus (frs_Phase s) (frs_Step s) target (len32 (plan_Eligible p))
    (frs_Updated s) (frs_Healthy s) (plan_Refused p) (plan_Pending p) (frs_Failed s)
    (frs_Conditions s) generation (frs_StartedAt s) (frs_PreviousConfigHash s) (frs_BlockedBy s)
    (frs_BlockReason s) (frs_NextWindow s) (frs_DispatchedThisWindow s) (frs_WindowOpenedAt s).

Definition with_start (t : Time) (s : FirmwareRolloutStatus) : FirmwareRolloutStatus :=
  mkFirmwareRolloutStatus (frs_Phase s) (frs_Step s) (frs_Target s) (frs_Eligible s)
    (frs_Updated s) (frs_Healthy s) (frs_Refused s) (frs_Pending s) (frs_Failed s)
    (frs_Conditions s) (frs_ObservedGeneration s) (Some t) (frs_PreviousConfigHash s)
    (frs_BlockedBy s) (frs_BlockReason s) (frs_NextWindow s) (frs_DispatchedThisWindow s)
    (frs_WindowOpenedAt s).

Definition with_observation (updated healthy : Z) (failed : list DeviceOutcome)
    (s : FirmwareRolloutStatus) : FirmwareRolloutStatus :=
  mkFirmwareRolloutStatus (frs_Phase s) (frs_Step s) (frs_Target s) (frs_Eligible s) updated
    healthy (frs_Refused s) (frs_Pending s) failed (frs_Conditions s) (frs_ObservedGeneration s)
    (frs_StartedAt s) (frs_PreviousConfigHash s) (frs_BlockedBy s) (frs_BlockReason s)
    (frs_NextWindow s) (frs_DispatchedThisWindow s) (frs_WindowOpenedAt s).

Definition with_step (step : string) (s : FirmwareRolloutStatus) : FirmwareRolloutStatus :=
  mkFirmwareRolloutStatus (frs_Phase s) step (frs_Target s) (frs_Eligible s) (frs_Updated s)
    (frs_Healthy s) (frs_Refused s) (frs_Pending s) (frs_Failed s) (frs_Conditions s)
    (frs_ObservedGeneration s) (frs_StartedAt s) (frs_PreviousConfigHash s) (frs_BlockedBy s)
    (frs_BlockReason s) (frs_NextWindow s) (frs_DispatchedThisWindow s) (frs_WindowOpenedAt s).

Definition with_dispatched (n : Z) (s : FirmwareRolloutStatus) : FirmwareRolloutStatus :=
  with_window (frs_WindowOpenedAt s) n s.

Definition update_status (f : FirmwareRolloutStatus -> FirmwareRolloutStatus)
    (ro : FirmwareRollout) : FirmwareRollout := set_status ro (f (ro_Status ro)).

(** ** Definitions: pure decisions *)

Definition propFirmwareURL : string := "firmware_url".
Definition propRunningHash : string := "running_config_hash".
Definition propBootCount : string := "boot_count".

Fixpoint step_loop (eligible healthy : Z) (i : Z) (steps : list Z) : option (Z * Z) :=
  match steps with
  | [] => None
  | pct :: steps' =>
      let allowed := StepSize eligible pct in
      if healthy <? allowed then Some (i, allowed)
      else step_loop eligible healthy (i + 1) steps'
  end.

Definition currentStep (ro : FirmwareRollout) (steps : list Z) (eligible healthy : Z) : Z * Z :=
  let c := strat_Canary (fr_Strategy (ro_Spec ro)) in
  if (c >? 0) && (healthy <? c) then (0, c)
  else match step_loop eligible healthy 0 steps with
       | Some r => r
       | None => (Z.of_nat (length steps) - 1, eligible)
       end.

(** The loop of [nextDevices]: [out] is its length so far. *)
Fixpoint next_loop (done : gmap string bool) (budget : Z) (out : Z) (eligible : list string)
  : list string :=
  match eligible with
  | [] => []
  | e :: eligible' =>
      if out >=? budget then []
      else if negb (default false (done !! e)) then e :: next_loop done budget (out + 1) eligible'
      else next_loop done budget out eligible'
  end.

Definition nextDevices (eligible updated : list string) (budget : Z) : list string :=
  let done := fold_left (fun done u => <[u := true]> done) updated ∅ in
  next_loop done budget 0 eligible.

Definition failureTolerance (ro : FirmwareRollout) : Z :=
  match strat_RollbackOn (fr_Strategy (ro_Spec ro)) with
  | Some rb => if rb_HealthGateFailures rb >? 0 then rb_HealthGateFailures rb else 1
  | None => 1
  end.

(** The ceilings on one pass, in the order the code applies them. *)
Definition dispatch_budget (ro : FirmwareRollout) (allowed updated windowBudget : Z) : Z :=
  let budget := allowed - updated in
  let mc := strat_MaxConcurrent (fr_Strategy (ro_Spec ro)) in
  let budget := if (mc >? 0) && (budget >? mc) then mc else budget in
  if (windowBudget >=? 0) && (budget >? windowBudget) then windowBudget else budget.

Definition rollout_steps (ro : FirmwareRollout) : list Z :=
  match strat_Steps (fr_Strategy (ro_Spec ro)) with [] => [100] | steps => steps end.

Definition blocked_requeue (now : Time) (next : option Time) : Duration :=
  match next with
  | None => Minute
  | Some t =>
      let d := sub_time t now in
      if d >? Minute then (if d >? 30 * Minute then 30 * Minute else d) else Minute
  end.

(** ** Definitions: reading and writing devices *)

Section Rollout.
Context `{Accessors} `{SliceSort} `{LabelSelectors}.

Definition entry (v : Value) : gmap string Value := default ∅ (as_map v).

Fixpoint desired_in (name : string) (props : list Value) : string :=
  match props with
  | [] => ""%string
  | p :: props' =>
      if str_eq (string_at (entry p) ["name"%string]) name
      then string_at (entry p) ["desired"; "value"]%string
      else desired_in name props'
  end.

Fixpoint reported_in (name : string) (twins : list Value) : string :=
  match twins with
  | [] => ""%string
  | t :: twins' =>
      if str_eq (string_at (entry t) ["propertyName"%string]) name
      then string_at (entry t) ["reported"; "value"]%string
      else reported_in name twins'
  end.

Definition desiredValue (k : Key) (name : string) : prog string :=
  dev <~ call (GetDevice k);;
  Ret (match dev with
       | Err _ => ""%string
       | Ok dev => desired_in name (slice_at (u_Object dev) properties_path)
       end).

Definition reportedValue (k : Key) (name : string) : prog string :=
  ds <~ call (GetDeviceStatus k);;
  Ret (match ds with
       | Err _ => ""%string
       | Ok ds => reported_in name (slice_at (u_Object ds) twins_path)
       end).

Definition reportedInt (k : Key) (name : string) : prog Z :=
  s <~ reportedValue k name;;
  Ret (default 0 (Sscanf_d s)).

Fixpoint dispatch_stamp (twins : list Value) : Time :=
  match twins with
  | [] => zero_time
  | t :: twins' =>
      if negb (str_eq (string_at (entry t) ["propertyName"%string]) propFirmwareURL)
      then dispatch_stamp twins'
      else match NestedString (entry t) ["observedDesired"; "metadata"; "timestamp"]%string with
           | None => zero_time
           | Some raw => UnixMilli (default 0 (Sscanf_d raw))
           end
  end.

Definition dispatchedAt (k : Key) : prog Time :=
  ds <~ call (GetDeviceStatus k);;
  Ret (match ds with
       | Err _ => zero_time
       | Ok ds => dispatch_stamp (slice_at (u_Object ds) twins_path)
       end).

(** The loop of [dispatch]: the first property of that name gets the value. *)
Fixpoint set_desired (value : string) (props : list Value) : result (option (list Value)) ApiError :=
  match props with
  | [] => Ok None
  | p :: props' =>
      let continue :=
        match set_desired value props' with
        | Ok (Some l) => Ok (Some (p :: l)) | Ok None => Ok None | Err e => Err e end in
      match as_map p with
      | None => continue
      | Some pm =>
          if negb (str_eq (string_at pm ["name"%string]) propFirmwareURL) then continue
          else match SetNestedField pm (VString value) ["desired"; "value"]%string with
               | Err msg => Err (OtherError msg)
               | Ok pm' => Ok (Some (VMap pm' :: props'))
               end
      end
  end.

Definition firmware_value (ro : FirmwareRollout) : string :=
  (src_ConfigHash (fr_Source (ro_Spec ro)) +:+ "|" +:+ src_Package (fr_Source (ro_Spec ro)))%string.

Definition with_object (dev : Unstructured) (obj : gmap string Value) : Unstructured :=
  mkUnstructured (u_Name dev) (u_Namespace dev) (u_UID dev) (u_Labels dev) obj.

(** [%q] of a plain constant puts it between quotation marks. *)
Definition quotation_mark : ascii := "034"%char.

(** The device as [dispatch] writes it back. *)
Definition dispatched_object (ro : FirmwareRollout) (device : string) (dev : Unstructured)
  : result Unstructured ApiError :=
  match NestedSlice (u_Object dev) properties_path with
  | Err msg => Err (OtherError msg)
  | Ok props =>
      match set_desired (firmware_value ro) (default [] props) with
      | Err e => Err e
      | Ok None =>
          Err (OtherError ("device " +:+ device +:+ " has no " +:+
                 String quotation_mark (propFirmwareURL +:+ String quotation_mark
                 " property; add it to the DeviceModel"))%string)
      | Ok (Some props') =>
          match SetNestedSlice (u_Object dev) props' properties_path with
          | Err msg => Err (OtherError msg)
          | Ok obj => Ok (with_object dev obj)
          end
      end
  end.

Definition dispatch (ro : FirmwareRollout) (device : string) : prog (option ApiError) :=
  dev <~ call (GetDevice (mkKey (om_Namespace (ro_Meta ro)) device));;
  match dev with
  | Err e => Ret (Some e)
  | Ok dev =>
      match dispatched_object ro device dev with
      | Err e => Ret (Some e)
      | Ok dev' => call (UpdateDevice dev')
      end
  end.

(** ** Definitions: observation *)

Record Observed := mkObserved {
  ob_updated : list string;
  ob_healthy : list string;
  ob_failed : list DeviceOutcome
}.

Definition boot_threshold (ro : FirmwareRollout) : option Z :=
  match strat_HealthGate (fr_Strategy (ro_Spec ro)), strat_RollbackOn (fr_Strategy (ro_Spec ro)) with
  | Some _, Some rb => if rb_BootLoopThreshold rb >? 0 then Some (rb_BootLoopThreshold rb) else None
  | _, _ => None
  end.

Definition observe_step (ro : FirmwareRollout) (o : Observed) (name : string) : prog Observed :=
  let key := mkKey (om_Namespace (ro_Meta ro)) name in
  let want := src_ConfigHash (fr_Source (ro_Spec ro)) in
  desired <~ desiredValue key propFirmwareURL;;
  if is_empty desired then Ret o
  else
    let o := mkObserved (ob_updated o ++ [name]) (ob_healthy o) (ob_failed o) in
    let healthy := mkObserved (ob_updated o) (ob_healthy o ++ [name]) (ob_failed o) in
    let fail out := mkObserved (ob_updated o) (ob_healthy o) (ob_failed o ++ [out]) in
    running <~ reportedValue key propRunningHash;;
    if str_eq running want then
      match boot_threshold ro with
      | None => Ret healthy
      | Some threshold =>
          boots <~ reportedInt key propBootCount;;
          if boots >? threshold then
            Ret (fail (mkDeviceOutcome name ReasonBootLoop
                         (pretty boots +:+ " boots since update")%string None))
          else Ret healthy
      end
    else
      match strat_HealthGate (fr_Strategy (ro_Spec ro)) ≫= hg_MustReportWithin with
      | None => Ret o
      | Some limit =>
          since <~ dispatchedAt key;;
          if IsZero since then Ret o
          else
            now <~ call Now;;
            if sub_time now since >? limit then
              Ret (fail (mkDeviceOutcome name ReasonHealthGateFail
                ("did not report hash " +:+ want +:+ " within " +:+ duration_String limit)%string
                (Some since)))
            else Ret o
      end.

Definition observe (ro : FirmwareRollout) (eligible : list string) : prog Observed :=
  foldM (observe_step ro) eligible (mkObserved [] [] []).

(** ** Definitions: the fleet a rollout selects *)

Definition unknown_liveness (d : Unstructured) : DeviceLiveness :=
  mkDeviceLiveness (mkObjectMeta (u_Name d) (u_Namespace d) 0 ∅) (mkDeviceLivenessSpec "" 0 0 "")
    (mkDeviceLivenessStatus StateUnknown "" None "" None "" "" None [] 0).

Fixpoint liveness_loop (sel : Selector) (devs : list Unstructured)
  : prog (result (list DeviceLiveness) ApiError) :=
  match devs with
  | [] => Ret (Ok [])
  | d :: devs' =>
      if negb (Matches sel (u_Labels d)) then liveness_loop sel devs'
      else
        l <~ call (GetLiveness (mkKey (u_Namespace d) (u_Name d)));;
        match l with
        | Err (OtherError msg) => Ret (Err (OtherError msg))
        | _ =>
            let l := match l with Ok l => l | Err _ => unknown_liveness d end in
            rest <~ liveness_loop sel devs';;
            Ret (rest <-? rest; Ok (l :: rest))
        end
  end.

Definition by_name (x y : DeviceLiveness) : bool := str_lt (dl_Name x) (dl_Name y).

Definition matchingLivenesses (ro : FirmwareRollout)
  : prog (result (list DeviceLiveness) ApiError) :=
  match LabelSelectorAsSelector (fr_Selector (ro_Spec ro)) with
  | Err e => Ret (Err e)
  | Ok sel =>
      devs <~ call (ListDevices (om_Namespace (ro_Meta ro)));;
      match devs with
      | Err e => Ret (Err e)
      | Ok devs =>
          out <~ liveness_loop sel devs;;
          Ret (out <-? out; Ok (slice_sort by_name out))
      end
  end.

(** ** Definitions: one pass *)

Definition finish (ro : FirmwareRollout) (requeue : Duration) : prog Outcome :=
  e <~ call (UpdateRolloutStatus ro);;
  Ret (match e with Some err => Err err | None => Ok (mkResult requeue) end).

Definition dispatch_all (ro : FirmwareRollout) (devices : list string) : prog Z :=
  foldM (fun n dev => e <~ dispatch ro dev;; Ret (if is_nil e then n + 1 else n)) devices 0.

(** From "advance" on. *)
Definition advance (ro : FirmwareRollout) (plan : Plan) (o : Observed) (windowBudget : Z)
  : prog Outcome :=
  let eligible := Z.of_nat (length (plan_Eligible plan)) in
  let updated := Z.of_nat (length (ob_updated o)) in
  let healthy := Z.of_nat (length (ob_healthy o)) in
  let steps := rollout_steps ro in
  let '(stepIdx, allowed) := currentStep ro steps eligible healthy in
  let ro := update_status (with_step (pretty (stepIdx + 1) +:+ "/" +:+
                                      pretty (Z.of_nat (length steps)))%string) ro in
  let ro := update_status (with_phase
    (if (stepIdx =? 0) && (strat_Canary (fr_Strategy (ro_Spec ro)) >? 0)
     then PhaseCanary else PhaseProgressing)) ro in
  if updated >=? allowed then
    ro <~ setCondition ro "Progressing" ConditionTrue "AwaitingHealth"
            (pretty updated +:+ " updated, " +:+ pretty healthy +:+ " healthy, step allows " +:+
             pretty allowed)%string;;
    finish ro (15 * Second)
  else
    let budget := dispatch_budget ro allowed updated windowBudget in
    dispatched <~ dispatch_all ro (nextDevices (plan_Eligible plan) (ob_updated o) budget);;
    let s := ro_Status ro in
    finish (update_status (with_dispatched
              (wrap32 (frs_DispatchedThisWindow s + wrap32 dispatched))) ro) (15 * Second).

(** From "observe" on. *)
Definition observe_and_advance (ro : FirmwareRollout) (plan : Plan) (windowBudget : Z)
  : prog Outcome :=
  o <~ observe ro (plan_Eligible plan);;
  let updated := Z.of_nat (length (ob_updated o)) in
  let healthy := Z.of_nat (length (ob_healthy o)) in
  let failed := Z.of_nat (length (ob_failed o)) in
  let eligible := Z.of_nat (length (plan_Eligible plan)) in
  let refused := Z.of_nat (length (plan_Refused plan)) in
  let pending := Z.of_nat (length (plan_Pending plan)) in
  let ro := update_status (with_observation (wrap32 updated) (wrap32 healthy) (ob_failed o)) ro in
  let tol := failureTolerance ro in
  if failed >=? tol then
    ro <~ setCondition (update_status (with_phase PhasePaused) ro) "Progressing" ConditionFalse
            ReasonHealthGateFail
            (pretty failed +:+ " device(s) failed, tolerance " +:+ pretty tol)%string;;
    finish ro Minute
  else if eligible =? 0 then
    ro <~ setCondition (update_status (with_phase PhaseWaiting) ro) "Progressing" ConditionFalse
            "NoEligibleDevices"
            (pretty refused +:+ " refused, " +:+ pretty pending +:+ " pending")%string;;
    finish ro Minute
  else if healthy >=? eligible then
    ro <~ setCondition (update_status (with_step "done")
                          (update_status (with_phase PhaseComplete) ro))
            "Complete" ConditionTrue "AllEligibleHealthy"
            (pretty healthy +:+ "/" +:+ pretty eligible +:+ " healthy, " +:+ pretty refused +:+
             " refused")%string;;
    finish ro 0
  else advance ro plan o windowBudget.

Context (LoadLocation : string -> option Location) (Local : Location).

(** From "window" on. *)
Definition window_and_on (ro : FirmwareRollout) (plan : Plan) : prog Outcome :=
  labels <~ DeviceLabelsFor ro;;
  match labels with
  | Err e => Ret (Err e)
  | Ok labels =>
      now <~ call Now;;
      decision <~ EvaluateWindowsFor LoadLocation (om_Namespace (ro_Meta ro)) labels now;;
      match decision with
      | Err e => Ret (Err e)
      | Ok decision =>
          now <~ call Now;;
          '(ro, (proceed, windowBudget)) <~ ApplyWindow ro decision now;;
          if negb proceed then
            match wd_NextOpen decision with
            | None => finish ro Minute
            | Some t =>
                now <~ call Now;;
                finish ro (blocked_requeue now (Some t))
            end
          else observe_and_advance ro plan windowBudget
      end
  end.

Definition terminal (p : RolloutPhase) : bool :=
  str_eq p PhaseComplete || str_eq p PhaseRolledBack.

(** The clock that [PlanRollout] reads device by device is read once. *)
Definition ReconcileRollout (key : Key) : prog Outcome :=
  ro <~ call (GetRollout key);;
  match ro with
  | Err NotFound => Ret (Ok (mkResult 0))
  | Err e => Ret (Err e)
  | Ok ro =>
      if terminal (frs_Phase (ro_Status ro)) then Ret (Ok (mkResult 0))
      else
        ls <~ matchingLivenesses ro;;
        match ls with
        | Err e => Ret (Err e)
        | Ok ls =>
            now <~ call Now;;
            let plan := PlanRollout Local now ro ls in
            let ro := update_status (with_plan (len32 ls) plan (om_Generation (ro_Meta ro))) ro in
            ro <~ match frs_StartedAt (ro_Status ro) with
                  | Some _ => Ret ro
                  | None => t <~ call Now;; Ret (update_status (with_start t) ro)
                  end;;
            if fr_Paused (ro_Spec ro)
            then finish (update_status (with_phase PhasePaused) ro) (30 * Second)
            else window_and_on ro plan
        end
  end.
End Rollout.

(** ** Lemmas: pure decisions *)

Lemma step_loop_spec eligible healthy i steps :
  match step_loop eligible healthy i steps with
  | Some (j, allowed) =>
      exists n pct, j = i + Z.of_nat n /\ steps !! n = Some pct /\
        allowed = StepSize eligible pct /\ healthy < allowed /\
        forall m p, (m < n)%nat -> steps !! m = Some p -> StepSize eligible p <= healthy
  | None => forall m p, steps !! m = Some p -> StepSize eligible p <= healthy
  end.
Proof.
  revert i. induction steps as [|pct steps IH]; intros i; simpl; [done|].
  destruct (Z.ltb_spec healthy (StepSize eligible pct)) as [Hlt|Hge].
  - exists 0%nat, pct. split_and!; [lia|done|done|done|lia].
  - specialize (IH (i + 1)). destruct (step_loop eligible healthy (i + 1) steps) as [[j allowed]|].
    + destruct IH as (n & p & -> & Hn & -> & Hlt & Hall). exists (S n), p.
      split_and!; [lia|done|done|done|]. intros [|m] q Hm Hq; simpl in Hq.
      * by injection Hq as <-.
      * eapply Hall; [|exact Hq]. lia.
    + intros [|m] q Hq; simpl in Hq; [by injection Hq as <-|eauto].
Qed.

Lemma done_lookup updated e :
  default false (fold_left (fun done u => <[u := true]> done) updated (∅ : gmap string bool) !! e)
  = bool_decide (e ∈ updated).
Proof.
  enough (forall m : gmap string bool,
    default false (fold_left (fun done u => <[u := true]> done) updated m !! e)
    = bool_decide (e ∈ updated) || default false (m !! e)) as ->
    by by rewrite lookup_empty, orb_false_r.
  induction updated as [|u updated IH]; intros m; simpl; [done|].
  rewrite IH. destruct (decide (u = e)) as [->|Hne].
  - rewrite lookup_insert_eq. simpl. rewrite orb_true_r.
    by rewrite bool_decide_eq_true_2 by (by left).
  - rewrite lookup_insert_ne by done. f_equal. apply bool_decide_ext. set_solver.
Qed.

(** [nextDevices], without counters or maps. *)
Lemma nextDevices_spec eligible updated budget :
  nextDevices eligible updated budget =
  firstn (Z.to_nat budget) (List.filter (fun e => negb (bool_decide (e ∈ updated))) eligible).
Proof.
  unfold nextDevices.
  set (done := fold_left _ updated _).
  assert (forall e, default false (done !! e) = bool_decide (e ∈ updated)) as Hd
    by (intros; apply done_lookup).
  enough (forall out, next_loop done budget out eligible =
    firstn (Z.to_nat (budget - out))
      (List.filter (fun e => negb (bool_decide (e ∈ updated))) eligible)) as ->
    by (do 2 f_equal; lia).
  induction eligible as [|e eligible IH]; intros out; simpl; [by rewrite firstn_nil|].
  destruct (Z.geb_spec out budget) as [Hge|Hlt].
  - by replace (Z.to_nat (budget - out)) with 0%nat by lia.
  - rewrite Hd, !IH. destruct (bool_decide (e ∈ updated)); simpl; [done|].
    replace (Z.to_nat (budget - out)) with (S (Z.to_nat (budget - (out + 1)))) by lia. done.
Qed.

Lemma nextDevices_In eligible updated budget e :
  In e (nextDevices eligible updated budget) -> In e eligible /\ ~ In e updated.
Proof.
  rewrite nextDevices_spec. intros He.
  assert (In e (List.filter (fun e => negb (bool_decide (e ∈ updated))) eligible)) as Hf.
  { rewrite <- (firstn_skipn (Z.to_nat budget)). apply in_app_iff. by left. }
  apply filter_In in Hf as [Hin Hn%negb_true_iff%bool_decide_eq_false].
  split; [done|]. by rewrite <- list_elem_of_In.
Qed.

Lemma nextDevices_length eligible updated budget :
  Z.of_nat (length (nextDevices eligible updated budget)) <= Z.max 0 budget.
Proof. rewrite nextDevices_spec, length_firstn. lia. Qed.

Lemma dispatch_budget_ceilings ro allowed updated windowBudget :
  let b := dispatch_budget ro allowed updated windowBudget in
  let mc := strat_MaxConcurrent (fr_Strategy (ro_Spec ro)) in
  b <= allowed - updated /\ (0 < mc -> b <= mc) /\ (0 <= windowBudget -> b <= windowBudget).
Proof.
  unfold dispatch_budget. cbv zeta.
  set (mc := strat_MaxConcurrent (fr_Strategy (ro_Spec ro))).
  destruct (Z.gtb_spec mc 0), (Z.gtb_spec (allowed - updated) mc), (Z.geb_spec windowBudget 0);
    simpl; repeat match goal with |- context [?a >? ?b] => destruct (Z.gtb_spec a b) end; lia.
Qed.

(** ** Properties: pure decisions *)

(** Progressive delivery: the step that is open is the first one whose share of
    the eligible devices is not yet healthy, so every earlier step is fully
    healthy; a configured canary comes before them all; and after the last step
    everybody is allowed. *)
Theorem currentStep_progressive ro steps eligible healthy :
  let canary := strat_Canary (fr_Strategy (ro_Spec ro)) in
  let '(i, allowed) := currentStep ro steps eligible healthy in
  (0 < canary /\ healthy < canary /\ i = 0 /\ allowed = canary) \/
  ((0 < canary -> canary <= healthy) /\
   (forall m p, Z.of_nat m < i -> steps !! m = Some p -> StepSize eligible p <= healthy) /\
   ((exists pct, steps !! Z.to_nat i = Some pct /\ 0 <= i /\
       allowed = StepSize eligible pct /\ healthy < allowed) \/
    (i = Z.of_nat (length steps) - 1 /\ allowed = eligible /\
     forall m p, steps !! m = Some p -> StepSize eligible p <= healthy))).
Proof.
  unfold currentStep. set (c := strat_Canary (fr_Strategy (ro_Spec ro))).
  assert (forall j allowed, step_loop eligible healthy 0 steps = Some (j, allowed) ->
    (forall m p, Z.of_nat m < j -> steps !! m = Some p -> StepSize eligible p <= healthy) /\
    exists pct, steps !! Z.to_nat j = Some pct /\ 0 <= j /\
      allowed = StepSize eligible pct /\ healthy < allowed) as HSome.
  { intros j allowed E. pose proof (step_loop_spec eligible healthy 0 steps) as HS.
    rewrite E in HS. destruct HS as (n & pct & -> & Hn & -> & Hlt & Hall).
    split; [intros m p Hm; apply Hall; lia|]. exists pct.
    rewrite Z.add_0_l, Nat2Z.id. split_and!; [done|lia|done|done]. }
  pose proof (step_loop_spec eligible healthy 0 steps) as HNone.
  destruct (step_loop eligible healthy 0 steps) as [[j allowed]|] eqn:E.
  - destruct (HSome j allowed eq_refl). clear HNone HSome.
    destruct (Z.gtb_spec c 0), (Z.ltb_spec healthy c); simpl;
      [left; lia|right..]; (split; [lia|split; [done|by left]]).
  - clear HSome. destruct (Z.gtb_spec c 0), (Z.ltb_spec healthy c); simpl;
      [left; lia|right..]; (split; [lia|split; [by intros m p _; apply HNone|by right]]).
Qed.

(** Who is next: the devices chosen are the first eligible ones, in the stable
    order of the plan, that were not dispatched before, as many as the budget allows
    and never more; with names that are distinct, none is chosen twice. *)
Theorem nextDevices_first eligible updated budget :
  let next := nextDevices eligible updated budget in
  next = firstn (Z.to_nat budget)
           (List.filter (fun e => negb (bool_decide (e ∈ updated))) eligible) /\
  Z.of_nat (length next) <= Z.max 0 budget /\
  (forall e, In e next -> In e eligible /\ ~ In e updated) /\
  (NoDup eligible -> NoDup next).
Proof.
  cbv zeta. split_and!; [apply nextDevices_spec|apply nextDevices_length|
    intros e; apply nextDevices_In|].
  intros Hnd. rewrite nextDevices_spec. eapply sublist_NoDup; [|apply sublist_take].
    eapply sublist_NoDup; [exact Hnd|]. clear.
    induction eligible as [|x l IH]; simpl; [done|].
    destruct (negb _); by constructor.
Qed.
