(* ===== verification/Delivery.v ===== *)
(** * What a pass of the rollout controller guarantees

    Facts about the parts of a pass (what [dispatch] writes, what [observe] counts,
    what the windows allow), and the theorems about whole passes that follow:
    every exchange with the API server is covered, whatever it answered. *)

From S2P Require Import Prelude GoTime GoStrings Types Capability Planner Cluster Unstructured.
From S2P Require Import Window Liveness Compose Rollout.
Local Open Scope Z_scope.
Local Open Scope torpor_scope.

(** ** Definitions: what an answer shows *)

Section Answers.
Context `{Accessors}.

(** The desired and the reported value a [Get] was answered with. *)
Definition shown_desired (name : string) (r : result Unstructured ApiError) : string :=
  match r with
  | Err _ => ""%string
  | Ok dev => desired_in name (slice_at (u_Object dev) properties_path)
  end.

Definition shown_reported (name : string) (r : result Unstructured ApiError) : string :=
  match r with
  | Err _ => ""%string
  | Ok ds => reported_in name (slice_at (u_Object ds) twins_path)
  end.

(** The exchange read the desired firmware of a device as [v]. *)
Definition read_desired (t : list event) (k : Key) (v : string) : Prop :=
  exists r, In (Event (GetDevice k) r) t /\ shown_desired propFirmwareURL r = v.

(** The exchange read the running hash of a device as [v]. *)
Definition read_running (t : list event) (k : Key) (v : string) : Prop :=
  exists r, In (Event (GetDeviceStatus k) r) t /\ shown_reported propRunningHash r = v.
End Answers.

(** ** Lemmas: events *)

Definition device_write (ev : event) : option (Unstructured * option ApiError) :=
  match ev with Event (UpdateDevice d) r => Some (d, r) | _ => None end.
Definition rollout_write (ev : event) : option (FirmwareRollout * option ApiError) :=
  match ev with Event (UpdateRolloutStatus ro) r => Some (ro, r) | _ => None end.

Definition rollout_read (ev : option event) : option FirmwareRollout :=
  match ev with Some (Event (GetRollout _) (Ok ro)) => Some ro | _ => None end.

Lemma device_write_inj d r d' r' :
  Event (UpdateDevice d) r = Event (UpdateDevice d') r' -> d = d' /\ r = r'.
Proof. intros E%(f_equal device_write). by injection E as -> ->. Qed.

Lemma rollout_write_inj ro r ro' r' :
  Event (UpdateRolloutStatus ro) r = Event (UpdateRolloutStatus ro') r' -> ro = ro' /\ r = r'.
Proof. intros E%(f_equal rollout_write). by injection E as -> ->. Qed.

(** ** Lemmas: what a dispatch writes *)

Section Dispatch.
Context `{AccessorLaws}.

Lemma set_desired_spec value props props' :
  set_desired value props = Ok (Some props') ->
  desired_in propFirmwareURL props' = value /\
  (forall name, name <> propFirmwareURL -> desired_in name props' = desired_in name props) /\
  length props' = length props.
Proof.
  revert props'. induction props as [|p props IH]; intros props'; simpl; [done|].
  assert (forall rest, match rest with
      | Ok (Some l) => Ok (Some (p :: l)) | Ok None => Ok None | Err e => Err e end
      = Ok (Some props') -> rest = set_desired value props ->
      str_eq (string_at (entry p) ["name"%string]) propFirmwareURL = false ->
      desired_in propFirmwareURL props' = value /\
      (forall name, name <> propFirmwareURL -> desired_in name props' =
        (if str_eq (string_at (entry p) ["name"%string]) name
         then string_at (entry p) ["desired"; "value"]%string else desired_in name props)) /\
      length props' = S (length props)) as Hskip.
  { intros rest E -> Hn. destruct (set_desired value props) as [[l|]|]; try done.
    injection E as <-. destruct (IH l eq_refl) as (I1 & I2 & I3). simpl. rewrite Hn.
    split_and!; [done| |by rewrite I3].
    intros name Hne. by rewrite I2. }
  destruct (as_map p) as [pm|] eqn:Ep.
  - assert (entry p = pm) as Een by (unfold entry; by rewrite Ep).
    rewrite Een in *. destruct (str_eq (string_at pm ["name"%string]) propFirmwareURL) eqn:En; simpl.
    + destruct (SetNestedField pm (VString value) ["desired"; "value"]%string) as [pm'|msg]
        eqn:Es; [|done]. intros [= <-]. simpl.
      assert (string_at pm' ["name"%string] = string_at pm ["name"%string]) as Hname
        by (unfold string_at; f_equal; eapply read_set_other; [|exact Es]; discriminate).
      change (entry (VMap pm')) with pm'. rewrite Hname, En. split; [|split; [intros name Hne|done]].
      * unfold string_at. by rewrite (read_set_string _ _ _ _ Es).
      * apply str_eq_true in En. rewrite En.
        by assert (str_eq propFirmwareURL name = false) as -> by (apply str_eq_false; congruence).
    + intros E. by eapply Hskip.
  - intros E. eapply Hskip; [exact E|done|].
    unfold entry, string_at. rewrite Ep. simpl. by rewrite read_empty.
Qed.

Lemma firmware_value_nonempty ro : is_empty (firmware_value ro) = false.
Proof.
  unfold firmware_value. apply str_eq_false. by destruct (src_ConfigHash _).
Qed.

Lemma dispatched_object_spec ro device dev dev' :
  dispatched_object ro device dev = Ok dev' ->
  (u_Name dev', u_Namespace dev', u_UID dev', u_Labels dev')
    = (u_Name dev, u_Namespace dev, u_UID dev, u_Labels dev) /\
  shown_desired propFirmwareURL (Ok dev') = firmware_value ro /\
  forall name, name <> propFirmwareURL -> shown_desired name (Ok dev') = shown_desired name (Ok dev).
Proof.
  unfold dispatched_object, shown_desired, slice_at.
  destruct (NestedSlice (u_Object dev) properties_path) as [props|msg] eqn:Ep; [|done].
  assert (match props with Some l => l | None => [] end = default [] props) as Hd
    by by destruct props.
  destruct (set_desired (firmware_value ro) (default [] props)) as [[props'|]|e] eqn:E; try done.
  destruct (SetNestedSlice (u_Object dev) props' properties_path) as [obj|msg] eqn:Es; [|done].
  intros [= <-]. simpl. rewrite (read_set_slice _ _ _ _ Es), Hd.
  apply set_desired_spec in E as (E1 & E2 & _). done.
Qed.
End Dispatch.

(** ** Properties: what a dispatch writes *)

(** What [dispatch] sends to a device, when it sends anything: the same object, in
    which the desired firmware property reads as the hash and the package of this
    rollout, and every other property's desired value reads as before. A device so
    written is never read as "not dispatched yet" again. *)
Theorem dispatch_sets_firmware `{AccessorLaws} ro device t e d r :
  runs (dispatch ro device) t e -> In (Event (UpdateDevice d) r) t ->
  exists dev,
    In (Event (GetDevice (mkKey (om_Namespace (ro_Meta ro)) device)) (Ok dev)) t /\
    (u_Name d, u_Namespace d, u_UID d, u_Labels d)
      = (u_Name dev, u_Namespace dev, u_UID dev, u_Labels dev) /\
    shown_desired propFirmwareURL (Ok d) = firmware_value ro /\
    is_empty (shown_desired propFirmwareURL (Ok d)) = false /\
    (forall name, name <> propFirmwareURL ->
       shown_desired name (Ok d) = shown_desired name (Ok dev)) /\
    e = r.
Proof.
  unfold dispatch. intros Hr Hin. apply runs_call_inv in Hr as (dev & t1 & -> & Hr).
  destruct Hin as [[=]|Hin].
  destruct dev as [dev|err]; [|apply runs_ret_inv in Hr as [-> _]; done].
  destruct (dispatched_object ro device dev) as [dev'|err] eqn:E;
    [|apply runs_ret_inv in Hr as [-> _]; done].
  apply runs_call_inv in Hr as (r' & t2 & -> & Hr). apply runs_ret_inv in Hr as [-> ->].
  destruct Hin as [[-> ->]%device_write_inj|[]]. exists dev. split; [by left|].
  apply dispatched_object_spec in E as (E1 & E2 & E3).
  rewrite E2. split_and!; try done. apply firmware_value_nonempty.
Qed.

(** ** Lemmas: what an observation counts *)

Section Observe.
Context `{Accessors} (ro : FirmwareRollout).
#[local] Abbreviation key name := (mkKey (om_Namespace (ro_Meta ro)) name).
#[local] Abbreviation want := (src_ConfigHash (fr_Source (ro_Spec ro))).

(** Why a device is counted as failed. *)
Definition failed_because (t : list event) (out : DeviceOutcome) : Prop :=
  (do_Reason out = ReasonBootLoop /\ read_running t (key (do_Device out)) want /\
   exists threshold r, boot_threshold ro = Some threshold /\
     In (Event (GetDeviceStatus (key (do_Device out))) r) t /\
     threshold < default 0 (Sscanf_d (shown_reported propBootCount r))) \/
  (do_Reason out = ReasonHealthGateFail /\
   exists running limit since now,
     read_running t (key (do_Device out)) running /\ running <> want /\
     strat_HealthGate (fr_Strategy (ro_Spec ro)) ≫= hg_MustReportWithin = Some limit /\
     do_Since out = Some since /\ IsZero since = false /\
     In (Event Now now) t /\ limit < sub_time now since).

(** What one turn of the loop adds. *)
Inductive turn (t : list event) (name : string) (o : Observed) : Observed -> Prop :=
| turn_skip : read_desired t (key name) "" -> turn t name o o
| turn_wait v : read_desired t (key name) v -> is_empty v = false ->
    turn t name o (mkObserved (ob_updated o ++ [name]) (ob_healthy o) (ob_failed o))
| turn_healthy v : read_desired t (key name) v -> is_empty v = false ->
    read_running t (key name) want ->
    turn t name o (mkObserved (ob_updated o ++ [name]) (ob_healthy o ++ [name]) (ob_failed o))
| turn_failed v out : read_desired t (key name) v -> is_empty v = false ->
    do_Device out = name -> failed_because t out ->
    turn t name o (mkObserved (ob_updated o ++ [name]) (ob_healthy o) (ob_failed o ++ [out])).

Lemma read_desired_mono t t' k v : incl t t' -> read_desired t k v -> read_desired t' k v.
Proof. intros Hi (r & Hr & E). exists r. auto. Qed.

Lemma read_running_mono t t' k v : incl t t' -> read_running t k v -> read_running t' k v.
Proof. intros Hi (r & Hr & E). exists r. auto. Qed.

Lemma failed_because_mono t t' out : incl t t' -> failed_because t out -> failed_because t' out.
Proof.
  intros Hi [(E & Hr & th & r & H1 & H2 & H3)|(E & ru & li & si & no & H1 & H2 & H3 & H4 & H5 & H6 & H7)].
  - left. split_and!; [done|by eapply read_running_mono|]. exists th, r. auto.
  - right. split; [done|]. exists ru, li, si, no. split_and!; auto. by eapply read_running_mono.
Qed.

Lemma desiredValue_runs k name t v :
  runs (desiredValue k name) t v ->
  exists r, t = [Event (GetDevice k) r] /\ v = shown_desired name r.
Proof.
  intros Hr. apply runs_call_inv in Hr as (r & t1 & -> & Hr).
  apply runs_ret_inv in Hr as [-> ->]. by exists r.
Qed.

Lemma reportedValue_runs k name t v :
  runs (reportedValue k name) t v ->
  exists r, t = [Event (GetDeviceStatus k) r] /\ v = shown_reported name r.
Proof.
  intros Hr. apply runs_call_inv in Hr as (r & t1 & -> & Hr).
  apply runs_ret_inv in Hr as [-> ->]. by exists r.
Qed.

Lemma reportedInt_runs k name t n :
  runs (reportedInt k name) t n ->
  exists r, t = [Event (GetDeviceStatus k) r] /\ n = default 0 (Sscanf_d (shown_reported name r)).
Proof.
  intros Hr. apply runs_bind_inv in Hr as (t1 & v & t2 & -> & Hv & Hr).
  apply reportedValue_runs in Hv as (r & -> & ->).
  apply runs_ret_inv in Hr as [-> ->]. by exists r.
Qed.

Lemma dispatchedAt_runs k t since :
  runs (dispatchedAt k) t since -> exists r, t = [Event (GetDeviceStatus k) r].
Proof.
  intros Hr. apply runs_call_inv in Hr as (r & t1 & -> & Hr).
  apply runs_ret_inv in Hr as [-> _]. by exists r.
Qed.

Lemma observe_step_runs o name t o' :
  runs (observe_step ro o name) t o' -> silent t /\ turn t name o o'.
Proof.
  unfold observe_step. intros Hr.
  apply runs_bind_inv in Hr as (t1 & v & t' & -> & Hv & Hr).
  apply desiredValue_runs in Hv as (rd & -> & ->).
  set (ev1 := Event (GetDevice (key name)) rd).
  assert (forall t2, read_desired ([ev1] ++ t2) (key name) (shown_desired propFirmwareURL rd))
    as Hd by (intros t2; exists rd; split; [by left|done]).
  destruct (is_empty (shown_desired propFirmwareURL rd)) eqn:Ee.
  { apply runs_ret_inv in Hr as [-> ->]. split; [by repeat constructor|].
    apply turn_skip. apply str_eq_true in Ee. rewrite <- Ee. apply Hd. }
  apply runs_bind_inv in Hr as (t2 & running & t3 & -> & Hv & Hr).
  apply reportedValue_runs in Hv as (rr & -> & ->).
  set (ev2 := Event (GetDeviceStatus (key name)) rr).
  assert (forall t4, read_running ([ev1] ++ [ev2] ++ t4) (key name)
    (shown_reported propRunningHash rr)) as Hrun
    by (intros t4; exists rr; split; [right; by left|done]).
  destruct (str_eq (shown_reported propRunningHash rr) want) eqn:Ew.
  - apply str_eq_true in Ew. rewrite Ew in Hrun.
    destruct (boot_threshold ro) as [threshold|] eqn:Eb.
    2:{ apply runs_ret_inv in Hr as [-> ->]. split; [by repeat constructor|].
        eapply (turn_healthy _ name o); eauto. }
    apply runs_bind_inv in Hr as (t4 & boots & t5 & -> & Hv & Hr).
    apply reportedInt_runs in Hv as (rb & -> & ->).
    destruct (Z.gtb_spec (default 0 (Sscanf_d (shown_reported propBootCount rb))) threshold)
      as [Hgt|Hle]; apply runs_ret_inv in Hr as [-> ->]; (split; [by repeat constructor|]).
    + eapply (turn_failed _ name o); [apply Hd|exact Ee|done|]. left. simpl.
      split_and!; [done|apply Hrun|]. exists threshold, rb. split_and!; [done| |lia].
      right. right. by left.
    + eapply (turn_healthy _ name o); eauto.
  - apply str_eq_false in Ew.
    match type of Hr with
    | runs (match ?m with Some _ => _ | None => _ end) _ _ => destruct m as [limit|] eqn:El
    end.
    2:{ apply runs_ret_inv in Hr as [-> ->]. split; [by repeat constructor|].
        eapply (turn_wait _ name o); eauto. }
    apply runs_bind_inv in Hr as (t4 & since & t5 & -> & Hv & Hr).
    apply dispatchedAt_runs in Hv as (rs & ->).
    destruct (IsZero since) eqn:Ez.
    { apply runs_ret_inv in Hr as [-> ->]. split; [by repeat constructor|].
      eapply (turn_wait _ name o); eauto. }
    apply runs_call_inv in Hr as (now & t6 & -> & Hr).
    destruct (Z.gtb_spec (sub_time now since) limit) as [Hgt|Hle];
      apply runs_ret_inv in Hr as [-> ->]; (split; [by repeat constructor|]).
    + eapply (turn_failed _ name o); [apply Hd|exact Ee|done|]. right. simpl. split; [done|].
      exists (shown_reported propRunningHash rr), limit, since, now.
      split_and!; try done; [apply Hrun|]. do 3 right. by left.
    + eapply (turn_wait _ name o); eauto.
Qed.

(** An account of an observation against its exchange. *)
Record account (t : list event) (names : list string) (o : Observed) : Prop := {
  acc_updated : sublist (ob_updated o) names;
  acc_healthy : sublist (ob_healthy o) (ob_updated o);
  acc_failed : sublist (map do_Device (ob_failed o)) (ob_updated o);
  acc_disjoint : (length (ob_healthy o) + length (ob_failed o) <= length (ob_updated o))%nat;
  acc_dispatched : forall n, In n (ob_updated o) ->
    exists v, read_desired t (key n) v /\ is_empty v = false;
  acc_rest : forall n, In n names -> ~ In n (ob_updated o) -> read_desired t (key n) "";
  acc_running : forall n, In n (ob_healthy o) -> read_running t (key n) want;
  acc_reasons : forall out, In out (ob_failed o) -> failed_because t out
}.

Lemma account_turn t names o t1 name o' :
  account t names o -> turn t1 name o o' -> account (t ++ t1) (names ++ [name]) o'.
Proof.
  intros [A1 A2 A3 A4 A5 A6 A7 A8] Ht.
  assert (incl t (t ++ t1)) as Hl by apply incl_appl, incl_refl.
  assert (incl t1 (t ++ t1)) as Hr by apply incl_appr, incl_refl.
  assert (forall l l' : list string, sublist l l' -> sublist l (l' ++ [name])) as Hsub
    by (intros; by apply sublist_inserts_r).
  assert (forall l l' : list string, sublist l l' -> sublist (l ++ [name]) (l' ++ [name])) as Happ
    by (intros; by apply sublist_app).
  assert (forall n v, read_desired t (key n) v -> read_desired (t ++ t1) (key n) v) as M1
    by (intros; by apply (read_desired_mono t)).
  assert (forall n v, read_running t (key n) v -> read_running (t ++ t1) (key n) v) as M2
    by (intros; by apply (read_running_mono t)).
  assert (forall out, failed_because t out -> failed_because (t ++ t1) out) as M3
    by (intros; by apply (failed_because_mono t)).
  assert (forall v, read_desired t1 (key name) v -> read_desired (t ++ t1) (key name) v) as N1
    by (intros; by apply (read_desired_mono t1)).
  assert (forall v, read_running t1 (key name) v -> read_running (t ++ t1) (key name) v) as N2
    by (intros; by apply (read_running_mono t1)).
  destruct Ht as [Hd|v Hd Hv|v Hd Hv Hrun|v out Hd Hv Hn Hf]; split; simpl; auto.
  all: try (rewrite map_app; subst; by apply Happ).
  all: try (rewrite !length_app; simpl; lia).
  all: intros n Hin; rewrite ?in_app_iff in *.
  all: try solve [destruct Hin as [Hin|[<-|[]]]; auto].
  all: try solve [destruct Hin as [Hin|[<-|[]]]; [|by eauto];
                  destruct (A5 _ Hin) as (w & ? & ?); eauto].
  all: try solve [destruct (A5 _ Hin) as (w & ? & ?); eauto].
  all: try (destruct Hin as [Hin|[<-|[]]]; [by auto|by apply (failed_because_mono t1)]).
  all: intros Hno; destruct Hin as [Hin|[<-|[]]]; [|destruct Hno; right; by left].
  all: apply M1, A6; [done|]; intros ?; apply Hno; auto.
Qed.

Lemma observe_account_from l pre t0 o t o' :
  account t0 pre o -> runs (foldM (observe_step ro) l o) t o' ->
  silent t /\ account (t0 ++ t) (pre ++ l) o'.
Proof.
  revert pre t0 o t. induction l as [|name l IH]; intros pre t0 o t HA Hr.
  - apply (runs_ret_inv o) in Hr as [-> ->]. rewrite !app_nil_r. split; [constructor|done].
  - apply (runs_bind_inv (observe_step ro o name) (foldM (observe_step ro) l)) in Hr
      as (t1 & o1 & t2 & -> & H1 & H2).
    apply observe_step_runs in H1 as [Hs1 Ht].
    eapply account_turn in HA; [|exact Ht].
    destruct (IH _ _ _ _ HA H2) as [Hs2 HA2].
    rewrite <- !app_assoc in HA2. rewrite silent_app. auto.
Qed.

(** The whole fleet, from nothing. *)
Lemma observe_account eligible t o :
  runs (observe ro eligible) t o -> silent t /\ account t eligible o.
Proof.
  intros Hr. apply (observe_account_from eligible [] [] (mkObserved [] [] [])) in Hr; [done|].
  split; simpl; try done; apply sublist_nil_l || lia.
Qed.
End Observe.

(** ** Properties: what an observation counts *)

(** An observation is exactly what the devices showed: nothing is written; a
    device is counted as updated when its desired firmware was read as set, and one
    that is not counted was read as unset; a healthy device was read running the
    wanted hash; a failed one either boots more often than the threshold or was
    given longer than the gate allows; and no device is both. *)
Theorem observe_accounts `{Accessors} ro eligible t o :
  runs (observe ro eligible) t o -> silent t /\ account ro t eligible o.
Proof. apply observe_account. Qed.

(** ** Lemmas: what a pass sends out *)

(** The device writes the API server accepted. *)
Definition accepted (t : list event) : nat := length (List.filter accepted_update t).

Lemma accepted_app t1 t2 : accepted (t1 ++ t2) = (accepted t1 + accepted t2)%nat.
Proof. unfold accepted. by rewrite List.filter_app, length_app. Qed.


(** No status of a rollout is written. *)
Definition statusless (t : list event) : Prop :=
  Forall (fun ev => is_rollout_update ev = false) t.

Lemma silent_statusless t : silent t -> statusless t.
Proof. intros H. eapply Forall_impl; [exact H|]. intros [R e r]. by destruct e. Qed.

Lemma silent_no_device_write t d r : silent t -> ~ In (Event (UpdateDevice d) r) t.
Proof.
  intros H Hin. apply list_elem_of_In in Hin.
  by apply (proj1 (Forall_forall _ _) H) in Hin.
Qed.

Lemma statusless_no_rollout_write t ro r :
  statusless t -> ~ In (Event (UpdateRolloutStatus ro) r) t.
Proof.
  intros H Hin. apply list_elem_of_In in Hin.
  by apply (proj1 (Forall_forall _ _) H) in Hin.
Qed.

Section Sending.
Context `{Accessors} (ro : FirmwareRollout).
#[local] Abbreviation key name := (mkKey (om_Namespace (ro_Meta ro)) name).

(** Every device write of the exchange is one [dispatch] computed for a named device. *)
Definition sent_to (names : list string) (t : list event) : Prop :=
  forall d r, In (Event (UpdateDevice d) r) t -> exists name dev,
    In name names /\ In (Event (GetDevice (key name)) (Ok dev)) t /\
    dispatched_object ro name dev = Ok d.

Lemma sent_to_app names1 names2 t1 t2 :
  sent_to names1 t1 -> sent_to names2 t2 -> sent_to (names1 ++ names2) (t1 ++ t2).
Proof.
  intros H1 H2 d r [Hin|Hin]%in_app_iff;
    [destruct (H1 _ _ Hin) as (n & dv & ? & ? & ?)|destruct (H2 _ _ Hin) as (n & dv & ? & ? & ?)];
    exists n, dv; rewrite !in_app_iff; auto.
Qed.

Lemma dispatch_runs name t e :
  runs (dispatch ro name) t e ->
  statusless t /\ (writes t <= 1)%nat /\ accepted t = (if is_nil e then 1 else 0)%nat /\
  sent_to [name] t.
Proof.
  unfold dispatch. intros Hr. apply runs_call_inv in Hr as (dev & t1 & -> & Hr).
  assert (forall err, runs (Ret (Some err)) t1 e ->
    let t := Event (GetDevice (key name)) dev :: t1 in
    statusless t /\ (writes t <= 1)%nat /\ accepted t = (if is_nil e then 1 else 0)%nat /\
    sent_to [name] t) as Herr.
  { intros err [-> ->]%runs_ret_inv. split_and!; [by repeat constructor|unfold writes; simpl; lia|done|].
    intros d r [[=]|[]]. }
  destruct dev as [dev|err]; [|by eapply Herr].
  destruct (dispatched_object ro name dev) as [d'|err] eqn:E; [|by eapply Herr].
  apply runs_call_inv in Hr as (r' & t2 & -> & Hr). apply runs_ret_inv in Hr as [-> ->].
  split_and!; [by repeat constructor|unfold writes; simpl; lia|by destruct r'|].
  intros d r [[=]|[[-> ->]%device_write_inj|[]]]. exists name, dev.
  split_and!; [by left|by left|done].
Qed.

Lemma dispatch_all_from names n t n' :
  runs (foldM (fun n dev => e <~ dispatch ro dev;; Ret (if is_nil e then n + 1 else n)) names n)
    t n' ->
  statusless t /\ (writes t <= length names)%nat /\ n' = n + Z.of_nat (accepted t) /\
  sent_to names t.
Proof.
  revert n t. induction names as [|name names IH]; intros n t Hr.
  - apply (runs_ret_inv n) in Hr as [-> ->].
    split_and!; [constructor|unfold writes; simpl; lia|unfold accepted; simpl; lia|].
    intros d r [].
  - apply (runs_bind_inv (e <~ dispatch ro name;; Ret (if is_nil e then n + 1 else n))) in Hr
      as (t1 & n1 & t2 & -> & H1 & H2).
    apply (runs_bind_inv (dispatch ro name)) in H1 as (t3 & e & t4 & -> & H1 & H3).
    apply runs_ret_inv in H3 as [-> ->]. rewrite app_nil_r in *.
    apply dispatch_runs in H1 as (A1 & A2 & A3 & A4).
    apply IH in H2 as (B1 & B2 & -> & B4).
    rewrite writes_app, accepted_app, A3. split_and!.
    + apply Forall_app. auto.
    + simpl. lia.
    + destruct (is_nil e); lia.
    + by apply (sent_to_app [name]).
Qed.

Lemma dispatch_all_runs names t n :
  runs (dispatch_all ro names) t n ->
  statusless t /\ (writes t <= length names)%nat /\ n = Z.of_nat (accepted t) /\ sent_to names t.
Proof. apply dispatch_all_from. Qed.
End Sending.

(** ** Lemmas: what a pass reads before it sends *)

Section Reading.
Context `{Accessors} `{SliceSort} `{LabelSelectors}.

Lemma DeviceLabelsFor_runs ro t labels :
  runs (DeviceLabelsFor ro) t labels ->
  silent t /\ forall l, labels = Ok l ->
    exists sel devs, LabelSelectorAsSelector (fr_Selector (ro_Spec ro)) = Ok sel /\
      In (Event (ListDevices (om_Namespace (ro_Meta ro))) (Ok devs)) t /\
      l = matching_labels sel devs.
Proof.
  unfold DeviceLabelsFor. destruct (LabelSelectorAsSelector _) as [sel|e].
  2:{ intros [-> ->]%runs_ret_inv. split; [constructor|done]. }
  intros Hr. apply runs_call_inv in Hr as (devs & t1 & -> & Hr).
  apply runs_ret_inv in Hr as [-> ->]. split; [by repeat constructor|].
  destruct devs as [devs|e]; intros l [= <-]. exists sel, devs. split_and!; [done|by left|done].
Qed.

Lemma EvaluateWindowsFor_runs LoadLocation ns labels now t d :
  runs (EvaluateWindowsFor LoadLocation ns labels now) t d ->
  silent t /\ forall d', d = Ok d' ->
    exists items, In (Event (ListWindows ns) (Ok items)) t /\
      d' = combine_windows LoadLocation items labels now.
Proof.
  intros Hr. apply runs_call_inv in Hr as (items & t1 & -> & Hr).
  apply runs_ret_inv in Hr as [-> ->]. split; [by repeat constructor|].
  destruct items as [items|e]; intros d' [= <-]. exists items. split; [by left|done].
Qed.

Lemma ApplyWindow_runs ro d now t ro' proceed budget :
  runs (ApplyWindow ro d now) t (ro', (proceed, budget)) ->
  silent t /\ ro_Meta ro' = ro_Meta ro /\ ro_Spec ro' = ro_Spec ro /\
  if proceed then
    wd_Open d = true /\ frs_Phase (ro_Status ro') = frs_Phase (ro_Status ro) /\
    ro_Status ro' = enter_window d now (ro_Status ro) /\
    (if wd_MaxDevices d >? 0
     then budget = wrap32 (wd_MaxDevices d - frs_DispatchedThisWindow (ro_Status ro')) /\ 0 < budget
     else budget = -1)
  else In (frs_Phase (ro_Status ro')) [PhaseWaiting; PhaseBlocked].
Proof.
  unfold ApplyWindow. intros Hr.
  assert (forall ro0 reason msg, ro_Meta ro0 = ro_Meta ro -> ro_Spec ro0 = ro_Spec ro ->
    In (frs_Phase (ro_Status ro0)) [PhaseWaiting; PhaseBlocked] ->
    runs (ro <~ setCondition ro0 "Progressing" ConditionFalse reason msg;; Ret (ro, (false, 0)))
      t (ro', (proceed, budget)) ->
    silent t /\ ro_Meta ro' = ro_Meta ro /\ ro_Spec ro' = ro_Spec ro /\ proceed = false /\
    In (frs_Phase (ro_Status ro')) [PhaseWaiting; PhaseBlocked]) as Hcond.
  { intros ro0 reason msg Hm Hs Hp Hr0.
    apply (runs_bind_inv (setCondition _ _ _ _ _)) in Hr0 as (t1 & ro1 & t2 & -> & Hc & Hr0).
    apply setCondition_runs in Hc as (Hq & Em & Es & conds & Est).
    apply runs_ret_inv in Hr0 as [-> [= -> -> ->]].
    rewrite app_nil_r, Em, Es, Est. split_and!; done. }
  destruct (wd_Open d); simpl negb in Hr; cbv iota in Hr.
  2:{ apply Hcond in Hr as (? & ? & ? & -> & ?); [done|done|done|simpl; auto]. }
  destruct (wd_MaxDevices d >? 0) eqn:Eg.
  2:{ apply runs_ret_inv in Hr as [-> [= -> -> ->]].
      split_and!; [constructor|done|done|done| |done|done]. simpl. unfold enter_window. by case_match. }
  destruct (Z.leb_spec (wrap32 (wd_MaxDevices d - frs_DispatchedThisWindow
    (enter_window d now (ro_Status ro)))) 0) as [Hz|Hz].
  - apply Hcond in Hr as (? & ? & ? & -> & ?); [done|done|done|simpl; auto].
  - apply runs_ret_inv in Hr as [-> [= -> -> ->]].
    split_and!; [constructor|done|done|done| |done|done|lia]. simpl. unfold enter_window. by case_match.
Qed.

(** What the answer to a request for the liveness of a device stands for: the object, an
    unknown state where there is none, and nothing if the request failed. *)
Definition shown_liveness (d : Unstructured) (r : result DeviceLiveness ApiError) : option DeviceLiveness :=
  match r with Ok l => Some l | Err NotFound => Some (unknown_liveness d) | Err _ => None end.
Definition liveness_asked (row : Unstructured * result DeviceLiveness ApiError) : event :=
  Event (GetLiveness (mkKey (u_Namespace row.1) (u_Name row.1))) row.2.

(** The exchange that reads a fleet: the devices of the namespace, and the liveness of
    every one of them that the selector matches, in order; [ls] is what was read. *)
Definition fleet_read (ro : FirmwareRollout) (t : list event) (ls : list DeviceLiveness) : Prop :=
  exists sel devs rows shown,
    LabelSelectorAsSelector (fr_Selector (ro_Spec ro)) = Ok sel /\
    map fst rows = List.filter (fun d => Matches sel (u_Labels d)) devs /\
    t = Event (ListDevices (om_Namespace (ro_Meta ro))) (Ok devs) :: map liveness_asked rows /\
    Forall2 (fun row l => shown_liveness row.1 row.2 = Some l) rows shown /\
    ls = slice_sort by_name shown.

Lemma liveness_loop_runs sel devs t out :
  runs (liveness_loop sel devs) t out ->
  silent t /\ forall ls, out = Ok ls -> exists rows,
    map fst rows = List.filter (fun d => Matches sel (u_Labels d)) devs /\ t = map liveness_asked rows /\
    Forall2 (fun row l => shown_liveness row.1 row.2 = Some l) rows ls.
Proof.
  revert t out. induction devs as [|d devs IH]; intros t out Hr; simpl in Hr.
  { apply runs_ret_inv in Hr as [-> ->]. split; [constructor|]. intros ls [= <-]. by exists []. }
  cbn [List.filter]. destruct (Matches sel (u_Labels d)); simpl in Hr; [|by apply IH].
  apply runs_call_inv in Hr as (r & t1 & -> & Hr).
  destruct (shown_liveness d r) as [l|] eqn:El.
  2:{ destruct r as [|[|msg]]; try done. apply runs_ret_inv in Hr as [-> ->].
      split; [by repeat constructor|done]. }
  assert (runs (rest <~ liveness_loop sel devs;; Ret (rest <-? rest; Ok (l :: rest))) t1 out) as Hr'
    by (destruct r as [|[|msg]]; simpl in El; [| |done]; by injection El as <-).
  apply runs_bind_inv in Hr' as (t2 & rest & t3 & -> & Hl & Hr').
  apply runs_ret_inv in Hr' as [-> ->]. rewrite app_nil_r. apply IH in Hl as [Hs Hl].
  split; [by constructor|]. destruct rest as [rest|e]; [|done]. intros ls [= <-].
  destruct (Hl rest eq_refl) as (rows & E1 & -> & H2). exists ((d, r) :: rows).
  split_and!; [by rewrite <- E1|done|by constructor].
Qed.

Lemma matchingLivenesses_runs ro t out :
  runs (matchingLivenesses ro) t out ->
  silent t /\ forall ls, out = Ok ls -> fleet_read ro t ls.
Proof.
  unfold matchingLivenesses, fleet_read. destruct (LabelSelectorAsSelector _) as [sel|e].
  2:{ intros [-> ->]%runs_ret_inv. split; [constructor|done]. }
  intros Hr. apply runs_call_inv in Hr as (devs & t1 & -> & Hr).
  destruct devs as [devs|e]; [|apply runs_ret_inv in Hr as [-> ->]; split; [by repeat constructor|done]].
  apply runs_bind_inv in Hr as (t2 & out' & t3 & -> & Hl & Hr).
  apply runs_ret_inv in Hr as [-> ->]. rewrite app_nil_r.
  apply liveness_loop_runs in Hl as [Hs Hl]. split; [by constructor|].
  destruct out' as [ls'|e]; intros ls [= <-].
  destruct (Hl ls' eq_refl) as (rows & E1 & -> & H2). by exists sel, devs, rows, ls'.
Qed.

(** Every liveness of it was read, or stands for a device that has none. *)
Lemma fleet_read_In ro t ls l :
  fleet_read ro t ls -> In l ls ->
  (exists k, In (Event (GetLiveness k) (Ok l)) t) \/ exists d, l = unknown_liveness d.
Proof.
  intros (sel & devs & rows & shown & _ & _ & -> & H2 & ->) Hin.
  assert (In l shown) as Hin' by (eapply Permutation_in; [apply slice_sort_perm|done]).
  apply list_elem_of_In, list_elem_of_lookup in Hin' as [i Hi].
  destruct (Forall2_lookup_r _ _ _ _ _ H2 Hi) as ([d r] & Hrow & E). simpl in E.
  destruct r as [l'|[|msg]]; simpl in E; [injection E as ->|injection E as <-; right; by exists d|done].
  left. exists (mkKey (u_Namespace d) (u_Name d)). right.
  apply in_map_iff. exists (d, Ok l). split; [done|]. apply list_elem_of_In. by eapply list_elem_of_lookup_2.
Qed.
End Reading.

(** ** Lemmas: how a pass ends *)

Lemma set_status_same ro ro' :
  ro_Meta ro' = ro_Meta ro -> ro_Spec ro' = ro_Spec ro -> ro' = set_status ro (ro_Status ro').
Proof. destruct ro, ro'. simpl. by intros -> ->. Qed.

Section Passes.
Context `{Accessors} `{SliceSort} `{LabelSelectors}.
Context (LoadLocation : string -> option Location) (Local : Location) (ro : FirmwareRollout).

(** The plan of the exchange [t] that follows reading the rollout: of the whole fleet that
    it read first, at the time it read next. *)
Definition planned (t : list event) (eligible : list string) : Prop :=
  exists t1 now t2 ls, t = t1 ++ Event Now now :: t2 /\ fleet_read ro t1 ls /\
    eligible = plan_Eligible (PlanRollout Local now ro ls).

(** The windows of the exchange, all open for the devices the rollout selects. *)
Definition window_open (t : list event) (d : WindowDecision) : Prop :=
  exists sel devs items now,
    LabelSelectorAsSelector (fr_Selector (ro_Spec ro)) = Ok sel /\
    In (Event (ListDevices (om_Namespace (ro_Meta ro))) (Ok devs)) t /\
    In (Event (ListWindows (om_Namespace (ro_Meta ro))) (Ok items)) t /\
    In (Event Now now) t /\
    d = combine_windows LoadLocation items (matching_labels sel devs) now /\ wd_Open d = true.


Definition allowance (eligible : list string) (o : Observed) : Z :=
  (currentStep ro (rollout_steps ro) (Z.of_nat (length eligible))
     (Z.of_nat (length (ob_healthy o)))).2.

(** The window's limit after [base] devices. *)
Definition window_left (d : WindowDecision) (base wb : Z) : Prop :=
  if wd_MaxDevices d >? 0 then wb = wrap32 (wd_MaxDevices d - base) /\ 0 < wb else wb = -1.

(** The devices the pass turns to. *)
Definition chosen (eligible : list string) (o : Observed) (wb : Z) : list string :=
  nextDevices eligible (ob_updated o)
    (dispatch_budget ro (allowance eligible o) (Z.of_nat (length (ob_updated o))) wb).

(** What a pass has established, in [t0], before it looks at the devices in [t1]. *)
Record established (t0 t1 : list event) (eligible : list string) (o : Observed) : Prop := {
  est_silent0 : silent t0;
  est_silent1 : silent t1;
  est_running : fr_Paused (ro_Spec ro) = false;
  est_planned : planned t0 eligible;
  est_observed : runs (observe ro eligible) t1 o;
  est_account : account ro t1 eligible o
}.

(** And what one that goes on has, before it turns to the devices. *)
Record advancing (t0 t1 : list event) (eligible : list string) (o : Observed)
    (d : WindowDecision) (base wb : Z) : Prop := {
  adv_established : established t0 t1 eligible o;
  adv_window : window_open t0 d;
  adv_left : window_left d base wb;
  adv_base : In base [frs_DispatchedThisWindow (ro_Status ro); 0];
  adv_tolerated : Z.of_nat (length (ob_failed o)) < failureTolerance ro
}.

(** The exchange between reading the rollout and writing its status [s]. *)
Inductive pass_end (t : list event) (s : FirmwareRolloutStatus) : Prop :=
| held : silent t -> In (frs_Phase s) [PhasePaused; PhaseWaiting; PhaseBlocked] -> pass_end t s
| completed eligible o t0 t1 t2 :
    t = t0 ++ t1 ++ t2 -> established t0 t1 eligible o -> silent t2 -> frs_Phase s = PhaseComplete ->
    eligible <> [] -> (length eligible <= length (ob_healthy o))%nat -> pass_end t s
| advanced eligible o d base wb t0 t1 t2 :
    t = t0 ++ t1 ++ t2 -> advancing t0 t1 eligible o d base wb ->
    statusless t2 -> In (frs_Phase s) [PhaseCanary; PhaseProgressing] ->
    (writes t2 <= length (chosen eligible o wb))%nat -> sent_to ro (chosen eligible o wb) t2 ->
    (frs_DispatchedThisWindow s = base /\ writes t2 = 0%nat \/
     frs_DispatchedThisWindow s = wrap32 (base + wrap32 (Z.of_nat (accepted t2)))) ->
    pass_end t s.

(** The rollout's status is written once, last. *)
Definition ends (t0 t : list event) : Prop :=
  exists t1 s e, t = t1 ++ [Event (UpdateRolloutStatus (set_status ro s)) e] /\
    pass_end (t0 ++ t1) s.

Lemma finish_runs ro' d t out :
  runs (finish ro' d) t out -> exists e, t = [Event (UpdateRolloutStatus ro') e].
Proof.
  intros Hr. apply runs_call_inv in Hr as (e & t1 & -> & Hr).
  apply runs_ret_inv in Hr as [-> _]. by exists e.
Qed.

(** A condition, then the status. *)
Lemma condition_finish_runs st typ status reason msg d t out :
  runs (ro' <~ setCondition (set_status ro st) typ status reason msg;; finish ro' d) t out ->
  exists t1 s e, t = t1 ++ [Event (UpdateRolloutStatus (set_status ro s)) e] /\ silent t1 /\
    frs_Phase s = frs_Phase st /\ frs_DispatchedThisWindow s = frs_DispatchedThisWindow st.
Proof.
  intros Hr. apply (runs_bind_inv (setCondition _ _ _ _ _)) in Hr as (t1 & ro1 & t2 & -> & Hc & Hr).
  apply setCondition_runs in Hc as (Hq & Em & Es & conds & Est).
  apply finish_runs in Hr as [e ->].
  exists t1, (ro_Status ro1), e. rewrite Est.
  split_and!; [|done|done|done]. do 3 f_equal.
  by rewrite (set_status_same ro ro1) at 1; [rewrite Est|..].
Qed.

Lemma planned_app t t' elig : planned t elig -> planned (t ++ t') elig.
Proof.
  intros (t1 & now & t2 & ls & -> & Hf & ->). exists t1, now, (t2 ++ t'), ls.
  by rewrite <- app_assoc.
Qed.

Lemma window_open_mono t t' d : incl t t' -> window_open t d -> window_open t' d.
Proof.
  intros Hi (sel & devs & items & now & ? & ? & ? & ? & ? & ?).
  exists sel, devs, items, now. split_and!; auto.
Qed.

Lemma account_mono t t' names o : incl t t' -> account ro t names o -> account ro t' names o.
Proof.
  intros Hi [A1 A2 A3 A4 A5 A6 A7 A8]. split; auto.
  - intros n Hn. destruct (A5 n Hn) as (v & Hv & E). exists v. split; [|done].
    by apply (read_desired_mono t).
  - intros n Hn Hno. apply (read_desired_mono t); auto.
  - intros n Hn. apply (read_running_mono t); auto.
  - intros out Ho. apply (failed_because_mono ro t); auto.
Qed.

Lemma advance_runs st plan o d base wb t0 t1 t out :
  advancing t0 t1 (plan_Eligible plan) o d base wb -> frs_DispatchedThisWindow st = base ->
  runs (advance (set_status ro st) plan o wb) t out -> ends (t0 ++ t1) t.
Proof.
  intros Hadv Hb. unfold advance.
  change (currentStep (set_status ro st)) with (currentStep ro).
  change (rollout_steps (set_status ro st)) with (rollout_steps ro).
  pose proof (eq_refl (allowance (plan_Eligible plan) o)) as Hal. unfold allowance at 1 in Hal.
  destruct (currentStep ro (rollout_steps ro) _ _) as [i allowed]. simpl in Hal.
  set (ph := if _ : bool then PhaseCanary else PhaseProgressing).
  assert (In ph [PhaseCanary; PhaseProgressing]) as Hph by (unfold ph; case_match; simpl; auto).
  destruct (Z.geb_spec (Z.of_nat (length (ob_updated o))) allowed) as [Hge|Hlt]; intros Hr.
  - apply condition_finish_runs in Hr as (t2 & s & e & -> & Hs & Ep & Ed).
    exists t2, s, e. split; [done|].
    apply (advanced _ _ (plan_Eligible plan) o d base wb t0 t1 t2);
      [by rewrite app_assoc|done|by apply silent_statusless|by rewrite Ep| | |].
    + rewrite (silent_writes _ Hs). lia.
    + intros d' r Hin. by apply silent_no_device_write in Hin.
    + left. rewrite Ed. split; [done|by apply silent_writes].
  - apply (runs_bind_inv (dispatch_all _ _)) in Hr as (t2 & n & t3 & -> & Hda & Hr).
    apply finish_runs in Hr as [e ->].
    apply (dispatch_all_runs ro (nextDevices (plan_Eligible plan) (ob_updated o)
      (dispatch_budget ro allowed (Z.of_nat (length (ob_updated o))) wb)) t2 n) in Hda
      as (A1 & A2 & -> & A4).
    eexists t2, _, e. split; [reflexivity|].
    apply (advanced _ _ (plan_Eligible plan) o d base wb t0 t1 t2);
      [by rewrite app_assoc|done|done|done| | |right; simpl; by rewrite Hb]; unfold chosen; by rewrite <- Hal.
Qed.

Lemma observe_and_advance_runs st plan d base wb t0 t out :
  silent t0 -> fr_Paused (ro_Spec ro) = false -> planned t0 (plan_Eligible plan) ->
  window_open t0 d -> window_left d base wb -> frs_DispatchedThisWindow st = base ->
  In base [frs_DispatchedThisWindow (ro_Status ro); 0] ->
  runs (observe_and_advance (set_status ro st) plan wb) t out -> ends t0 t.
Proof.
  intros Hs0 Hpa Hpl Hwo Hwl Hb Hbase Hr.
  apply (runs_bind_inv (observe _ _)) in Hr as (t1 & o & t2 & -> & Ho & Hr).
  change (runs (observe ro (plan_Eligible plan)) t1 o) in Ho.
  pose proof Ho as Hac. apply (observe_account ro (plan_Eligible plan)) in Hac as [Hs1 Hac].
  assert (established t0 t1 (plan_Eligible plan) o) as Hest by done.
  assert (ends (t0 ++ t1) t2 -> ends t0 (t1 ++ t2)) as Hends.
  { intros (t3 & s & e & -> & He). exists (t1 ++ t3), s, e. by rewrite !app_assoc. }
  apply Hends. clear Hends.
  assert (forall t3 s, silent t3 -> In (frs_Phase s) [PhasePaused; PhaseWaiting; PhaseBlocked] ->
    pass_end ((t0 ++ t1) ++ t3) s) as Hheld
    by (intros t3 s Hs Hp; apply held; [by rewrite !silent_app|done]).
  cbv zeta beta in Hr.
  change (failureTolerance (update_status _ (set_status ro st))) with (failureTolerance ro) in Hr.
  destruct (Z.geb_spec (Z.of_nat (length (ob_failed o))) (failureTolerance ro)) as [Hge|Hlt].
  { apply condition_finish_runs in Hr as (t3 & s & e & -> & Hs & Ep & _).
    exists t3, s, e. split; [done|]. apply Hheld; [done|]. rewrite Ep. by left. }
  destruct (Z.eqb_spec (Z.of_nat (length (plan_Eligible plan))) 0) as [Hz|Hnz].
  { apply condition_finish_runs in Hr as (t3 & s & e & -> & Hs & Ep & _).
    exists t3, s, e. split; [done|]. apply Hheld; [done|]. rewrite Ep. right. by left. }
  destruct (Z.geb_spec (Z.of_nat (length (ob_healthy o))) (Z.of_nat (length (plan_Eligible plan))))
    as [Hh|Hh].
  { apply condition_finish_runs in Hr as (t3 & s & e & -> & Hs & Ep & _).
    exists t3, s, e. split; [done|].
    apply (completed _ _ (plan_Eligible plan) o t0 t1 t3);
      [by rewrite app_assoc|done|done|by rewrite Ep| |lia]. intros E. by rewrite E in Hnz. }
  by eapply advance_runs in Hr.
Qed.

Lemma ends_prefix t0 t1 t : ends (t0 ++ t1) t -> ends t0 (t1 ++ t).
Proof.
  intros (t2 & s & e & -> & He). exists (t1 ++ t2), s, e. by rewrite !app_assoc.
Qed.

Lemma enter_window_count d now s :
  In (frs_DispatchedThisWindow (enter_window d now s)) [frs_DispatchedThisWindow s; 0].
Proof. unfold enter_window. case_match; simpl; auto. Qed.

(** The rollout is held: its status is written and nothing else. *)
Lemma held_end t0 t1 s d t out :
  silent t0 -> silent t1 -> In (frs_Phase s) [PhasePaused; PhaseWaiting; PhaseBlocked] ->
  runs (finish (set_status ro s) d) t out -> ends t0 (t1 ++ t).
Proof.
  intros Hs0 Hs1 Hp [e ->]%finish_runs. exists t1, s, e. split; [done|].
  apply held; [by rewrite silent_app|done].
Qed.

Lemma window_and_on_runs st plan t0 t out :
  silent t0 -> fr_Paused (ro_Spec ro) = false -> planned t0 (plan_Eligible plan) ->
  frs_DispatchedThisWindow st = frs_DispatchedThisWindow (ro_Status ro) ->
  runs (window_and_on LoadLocation (set_status ro st) plan) t out ->
  silent t \/ ends t0 t.
Proof.
  intros Hs0 Hpa Hpl Hst Hr.
  apply (runs_bind_inv (DeviceLabelsFor _)) in Hr as (t1 & labels & t2 & -> & Hl & Hr).
  apply DeviceLabelsFor_runs in Hl as [Hs1 Hl].
  destruct labels as [labels|e].
  2:{ apply runs_ret_inv in Hr as [-> _]. left. by rewrite app_nil_r. }
  destruct (Hl labels eq_refl) as (sel & devs & Hsel & Hdevs & Hlab). clear Hl.
  apply runs_call_bind in Hr as (now & t3 & -> & Hr).
  apply (runs_bind_inv (EvaluateWindowsFor _ _ _ _)) in Hr as (t4 & d & t5 & -> & Hd & Hr).
  apply EvaluateWindowsFor_runs in Hd as [Hs4 Hd].
  destruct d as [d|e].
  2:{ apply runs_ret_inv in Hr as [-> _]. left. rewrite app_nil_r.
      apply silent_app. split; [done|]. by constructor. }
  destruct (Hd d eq_refl) as (items & Hitems & Hdec). clear Hd.
  apply runs_call_bind in Hr as (now2 & t6 & -> & Hr).
  apply (runs_bind_inv (ApplyWindow _ _ _)) in Hr as (t7 & [ro1 [proceed wb]] & t8 & -> & Ha & Hr).
  apply ApplyWindow_runs in Ha as (Hs7 & Em & Es & Ha).
  rewrite (set_status_same ro ro1) in Hr by done.
  set (before := t1 ++ Event Now now :: t4 ++ Event Now now2 :: t7).
  assert (silent before) as Hsb.
  { unfold before. rewrite !silent_app. split; [done|]. constructor; [done|].
    apply silent_app. split; [done|]. by constructor. }
  replace (t1 ++ Event Now now :: t4 ++ Event Now now2 :: t7 ++ t8) with (before ++ t8)
    by (unfold before; rewrite <- app_assoc; simpl; by rewrite <- app_assoc).
  right. destruct proceed; simpl in Hr.
  - destruct Ha as (Hopen & _ & Est & Hwb). apply ends_prefix.
    eapply (observe_and_advance_runs _ plan d (frs_DispatchedThisWindow (ro_Status ro1)) wb);
      [by apply silent_app|done| | |exact Hwb|reflexivity| |exact Hr].
    + by apply planned_app.
    + exists sel, devs, items, now. unfold before. rewrite Hlab in Hdec.
      split_and!; try done; repeat (rewrite in_app_iff || simpl); auto 10.
    + rewrite Est, <- Hst. apply enter_window_count.
  - assert (In (frs_Phase (ro_Status ro1)) [PhasePaused; PhaseWaiting; PhaseBlocked]) as Hp
      by (destruct Ha as [<-|[<-|[]]]; simpl; auto).
    destruct (wd_NextOpen d) as [next|]; [|by eapply held_end].
    apply runs_call_bind in Hr as (now3 & t9 & -> & Hr).
    change (Event Now now3 :: t9) with ([Event Now now3] ++ t9). rewrite app_assoc.
    eapply held_end; [done| |exact Hp|exact Hr]. apply silent_app. split; [done|by repeat constructor].
Qed.
End Passes.

(** One pass, start to end. *)
Lemma ReconcileRollout_runs `{Accessors} `{SliceSort} `{LabelSelectors}
    LoadLocation Local key t out :
  runs (ReconcileRollout LoadLocation Local key) t out ->
  silent t \/
  exists ro t0 s e,
    t = Event (GetRollout key) (Ok ro) ::
        t0 ++ [Event (UpdateRolloutStatus (set_status ro s)) e] /\
    terminal (frs_Phase (ro_Status ro)) = false /\
    pass_end LoadLocation Local ro t0 s.
Proof.
  intros Hr. apply runs_call_bind in Hr as (ro & t1 & -> & Hr).
  destruct ro as [ro|e].
  2:{ left. destruct e; apply runs_ret_inv in Hr as [-> _]; by repeat constructor. }
  destruct (terminal (frs_Phase (ro_Status ro))) eqn:Ht.
  { left. apply runs_ret_inv in Hr as [-> _]. by repeat constructor. }
  apply (runs_bind_inv (matchingLivenesses _)) in Hr as (t2 & ls & t3 & -> & Hl & Hr).
  apply matchingLivenesses_runs in Hl as [Hs2 Hl].
  destruct ls as [ls|e].
  2:{ left. apply runs_ret_inv in Hr as [-> _]. rewrite app_nil_r. by constructor. }
  apply runs_call_bind in Hr as (now & t4 & -> & Hr). cbv zeta in Hr.
  set (plan := PlanRollout Local now ro ls) in *.
  apply runs_bind_inv in Hr as (t5 & ro1 & t6 & -> & Hstart & Hr).
  assert (silent t5 /\ exists st, ro1 = set_status ro st /\
    frs_DispatchedThisWindow st = frs_DispatchedThisWindow (ro_Status ro)) as (Hs5 & st & -> & Est).
  { destruct (frs_StartedAt _).
    - apply runs_ret_inv in Hstart as [-> ->]. split; [constructor|by eexists].
    - apply runs_call_bind in Hstart as (t & t7 & -> & Hstart).
      apply runs_ret_inv in Hstart as [-> ->]. split; [by repeat constructor|by eexists]. }
  set (before := t2 ++ Event Now now :: t5).
  assert (silent before) as Hsb by (apply silent_app; split; [done|by constructor]).
  assert (planned Local ro before (plan_Eligible plan)) as Hpl.
  { exists t2, now, t5, ls. by split_and!; [|apply Hl|]. }
  replace (t2 ++ Event Now now :: t5 ++ t6) with (before ++ t6)
    by (unfold before; by rewrite <- app_assoc).
  assert (ends LoadLocation Local ro before t6 -> exists t0 s e,
    Event (GetRollout key) (Ok ro) :: before ++ t6 = Event (GetRollout key) (Ok ro) ::
      t0 ++ [Event (UpdateRolloutStatus (set_status ro s)) e] /\
    pass_end LoadLocation Local ro t0 s) as Hends.
  { intros (t7 & s & e & -> & He). exists (before ++ t7), s, e. by rewrite app_assoc. }
  change (fr_Paused (ro_Spec (set_status ro st))) with (fr_Paused (ro_Spec ro)) in Hr.
  destruct (fr_Paused (ro_Spec ro)) eqn:Ep.
  - right. exists ro. destruct Hends as (t0 & s & e & -> & He); [|eauto 10].
    eapply (held_end _ _ _ _ [] (with_phase PhasePaused st)); [done|constructor|simpl; auto|exact Hr].
  - eapply window_and_on_runs in Hr as [Hs6|He]; [..|exact Hsb|done|exact Hpl|exact Est].
    + left. constructor; [done|]. by apply silent_app.
    + right. exists ro. destruct (Hends He) as (t0 & s & e & -> & He'). eauto 10.
Qed.

(** ** Lemmas: consequences *)

Lemma established_silent `{Accessors} `{SliceSort} `{LabelSelectors} Local ro t0 t1 eligible o :
  established Local ro t0 t1 eligible o -> silent (t0 ++ t1).
Proof. intros [? ? _ _ _ _]. by apply silent_app. Qed.

Lemma pass_end_statusless `{Accessors} `{SliceSort} `{LabelSelectors} LoadLocation Local ro t s :
  pass_end LoadLocation Local ro t s -> statusless t.
Proof.
  intros [Hs _|el o t0 t1 t2 -> Hest Hs _ _ _|el o d base wb t0 t1 t2 -> [Hest _ _ _ _] Hs _ _ _ _];
    [by apply silent_statusless| |]; apply established_silent in Hest; rewrite app_assoc; apply Forall_app;
    (split; [by apply silent_statusless|]); [by apply silent_statusless|done].
Qed.

(** A device is written after everything is established, and it is one of the chosen. *)
Lemma pass_end_write `{Accessors} `{SliceSort} `{LabelSelectors} LoadLocation Local ro t s d r :
  pass_end LoadLocation Local ro t s -> In (Event (UpdateDevice d) r) t ->
  exists eligible o wd base wb t0 t1 t2 name dev,
    t = t0 ++ t1 ++ t2 /\ advancing LoadLocation Local ro t0 t1 eligible o wd base wb /\
    In name (chosen ro eligible o wb) /\
    In (Event (GetDevice (mkKey (om_Namespace (ro_Meta ro)) name)) (Ok dev)) t2 /\
    dispatched_object ro name dev = Ok d.
Proof.
  intros He Hin.
  destruct He as [Hs _|el o t0 t1 t2 -> Hest Hs _ _ _|el o wd base wb t0 t1 t2 -> Hadv _ _ _ Hsent _].
  - by apply silent_no_device_write in Hin.
  - apply silent_no_device_write in Hin; [done|]. rewrite app_assoc. apply silent_app.
    split; [by eapply established_silent|done].
  - rewrite app_assoc in Hin. apply in_app_iff in Hin as [Hin|Hin].
    { apply silent_no_device_write in Hin; [done|]. eapply established_silent, Hadv. }
    destruct (Hsent d r Hin) as (name & dev & ? & ? & ?).
    by exists el, o, wd, base, wb, t0, t1, t2, name, dev.
Qed.

Lemma planned_ready `{Accessors} `{SliceSort} `{LabelSelectors} Local ro t eligible name :
  planned Local ro t eligible -> In name eligible ->
  exists l k now, In (Event (GetLiveness k) (Ok l)) t /\ In (Event Now now) t /\
    dl_Name l = name /\ takes ro l /\ is_ready now ro l.
Proof.
  intros (t1 & now & t2 & ls & -> & Hl & ->) Hin.
  unfold PlanRollout in Hin. rewrite plan_fold in Hin. simpl in Hin.
  apply in_map_iff in Hin as (l & Hn & Hin). apply list_elem_of_In in Hin.
  apply list_elem_of_filter in Hin as [[Ht Hr] Hin]. apply list_elem_of_In in Hin.
  destruct (fleet_read_In _ _ _ _ Hl Hin) as [[k Hk]|[d ->]].
  - exists l, k, now. split_and!; [by apply in_or_app; left|apply in_or_app; right; by left|done..].
  - destruct Hr as [Hst _]. simpl in Hst. tauto.
Qed.


Lemma sublist_all {A} (l1 l2 : list A) :
  sublist l1 l2 -> (length l2 <= length l1)%nat -> l1 = l2.
Proof.
  intros Hs Hl. induction Hs as [|x l1 l2 Hs IH|x l1 l2 Hs IH]; simpl in *; [done| |].
  - f_equal. apply IH. lia.
  - apply sublist_length in Hs. lia.
Qed.






(** ** Properties: whole passes *)

Section Theorems.
Context `{Accessors} `{SliceSort} `{LabelSelectors}.
Context (LoadLocation : string -> option Location) (Local : Location).

(** C1. No device is touched without every reason to: whenever a pass writes a device,
    the rollout it read was neither finished nor paused, every window that selects
    the fleet was open, a liveness read in this very pass shows that the device can
    take the update and is ready for it, its desired firmware was read as unset, and
    what is written is that device with the firmware of this rollout. *)
Theorem ReconcileRollout_gated key t out d r :
  runs (ReconcileRollout LoadLocation Local key) t out -> In (Event (UpdateDevice d) r) t ->
  exists ro name dev,
    hd_error t = Some (Event (GetRollout key) (Ok ro)) /\
    terminal (frs_Phase (ro_Status ro)) = false /\ fr_Paused (ro_Spec ro) = false /\
    (exists wd, window_open LoadLocation ro t wd) /\
    (exists l k now, In (Event (GetLiveness k) (Ok l)) t /\ In (Event Now now) t /\
       dl_Name l = name /\ takes ro l /\ is_ready now ro l) /\
    read_desired t (mkKey (om_Namespace (ro_Meta ro)) name) "" /\
    In (Event (GetDevice (mkKey (om_Namespace (ro_Meta ro)) name)) (Ok dev)) t /\
    dispatched_object ro name dev = Ok d.
Proof.
  intros Hr Hin. apply ReconcileRollout_runs in Hr as [Hs|(ro & t0 & s & e & -> & Ht & He)];
    [by apply silent_no_device_write in Hin|].
  destruct Hin as [[=]|[Hin|[[=]|[]]]%in_app_iff].
  assert (incl t0 (Event (GetRollout key) (Ok ro) :: t0 ++
    [Event (UpdateRolloutStatus (set_status ro s)) e])) as Hi
    by (apply incl_tl, incl_appl, incl_refl).
  destruct (pass_end_write _ _ _ _ _ _ _ He Hin)
    as (eligible & o & wd & base & wb & t1 & t2 & t3 & name & dev & -> & Hadv & Hname & Hdev & Hd).
  destruct Hadv as [[_ _ Hpa Hpl _ Hac] Hwo _ _ _].
  apply nextDevices_In in Hname as [Hel Hno].
  assert (incl t1 (t1 ++ t2 ++ t3)) as I1 by apply incl_appl, incl_refl.
  assert (incl t2 (t1 ++ t2 ++ t3)) as I2 by apply incl_appr, incl_appl, incl_refl.
  assert (incl t3 (t1 ++ t2 ++ t3)) as I3 by apply incl_appr, incl_appr, incl_refl.
  exists ro, name, dev. split_and!; [done|done|done| | | |by apply Hi, I3|done].
  - exists wd. eapply window_open_mono; [|exact Hwo]. exact (incl_tran I1 Hi).
  - destruct (planned_ready _ _ _ _ _ Hpl Hel) as (l & k & now & ? & ? & ?).
    exists l, k, now. split_and!; [by apply Hi, I1|by apply Hi, I1|tauto..].
  - eapply read_desired_mono; [exact (incl_tran I2 Hi)|]. by apply (acc_rest _ _ _ _ Hac).
Qed.


(** C3. "Complete" means complete: when a pass writes that phase, it first read the whole
    fleet, every device that the rollout selects, and planned over it; there was somebody
    to update; and then every single eligible device of that plan was read, in this very
    pass, as dispatched to and running the wanted hash. *)
Theorem ReconcileRollout_complete key t out ro' e :
  runs (ReconcileRollout LoadLocation Local key) t out ->
  In (Event (UpdateRolloutStatus ro') e) t -> frs_Phase (ro_Status ro') = PhaseComplete ->
  exists ro t0 t1 t2 eligible o,
    t = Event (GetRollout key) (Ok ro) :: t0 ++ t1 ++ t2 ++ [Event (UpdateRolloutStatus ro') e] /\
    silent (t0 ++ t1 ++ t2) /\ ro_Spec ro' = ro_Spec ro /\ ro_Meta ro' = ro_Meta ro /\
    planned Local ro t0 eligible /\ eligible <> [] /\ runs (observe ro eligible) t1 o /\
    ob_healthy o = eligible /\ ob_failed o = [] /\
    forall name, In name eligible ->
      let k := mkKey (om_Namespace (ro_Meta ro)) name in
      (exists v, read_desired t1 k v /\ is_empty v = false) /\
      read_running t1 k (src_ConfigHash (fr_Source (ro_Spec ro))).
Proof.
  intros Hr Hin Hphase. apply ReconcileRollout_runs in Hr as [Hs|(ro & t' & s & e0 & -> & Ht & He)].
  { apply silent_statusless in Hs. by apply statusless_no_rollout_write in Hin. }
  destruct Hin as [[=]|[Hin|[[<- <-]%rollout_write_inj|[]]]%in_app_iff].
  { by apply statusless_no_rollout_write in Hin; [|eapply pass_end_statusless]. }
  simpl in Hphase.
  destruct He as [_ Hp|eligible o t0 t1 t2 -> Hest Hs2 _ Hne Hle|? ? ? ? ? ? ? ? _ _ _ Hp].
  1,3: rewrite Hphase in Hp; simpl in Hp; intuition discriminate.
  pose proof (established_silent _ _ _ _ _ _ Hest) as Hs01. destruct Hest as [_ _ _ Hpl Hob Hac].
  exists ro, t0, t1, t2, eligible, o.
  destruct Hac as [A1 A2 A3 A4 A5 A6 A7 A8].
  assert (ob_healthy o = eligible) as Eh by (apply sublist_all; [by etrans|done]).
  split_and!; [by rewrite <- !app_assoc|rewrite app_assoc; by apply silent_app|done|done|done|done|done|done| |].
  - apply length_zero_iff_nil. apply sublist_length in A1. lia.
  - intros name Hn. split; [|apply A7; by rewrite Eh]. apply A5.
    rewrite <- Eh in Hn. apply list_elem_of_In in Hn. apply list_elem_of_In.
    by eapply elem_of_submseteq; [exact Hn|apply sublist_submseteq].
Qed.

(** C4. One status per pass, last, and only of the rollout that was read: its spec and
    metadata go back unchanged, a finished rollout is never written again, and
    whatever wrote a device also reports. *)
Theorem ReconcileRollout_reports key t out :
  runs (ReconcileRollout LoadLocation Local key) t out ->
  (silent t /\ forall ro, hd_error t = Some (Event (GetRollout key) (Ok ro)) ->
     terminal (frs_Phase (ro_Status ro)) = true -> t = [Event (GetRollout key) (Ok ro)]) \/
  exists ro t0 s e,
    t = Event (GetRollout key) (Ok ro) :: t0 ++ [Event (UpdateRolloutStatus (set_status ro s)) e] /\
    statusless t0 /\ terminal (frs_Phase (ro_Status ro)) = false /\
    frs_Phase s <> PhaseRolledBack /\
    (writes t0 <> 0%nat -> In (frs_Phase s) [PhaseCanary; PhaseProgressing]).
Proof.
  intros Hr. pose proof Hr as Hr0.
  apply ReconcileRollout_runs in Hr as [Hs|(ro & t0 & s & e & -> & Ht & He)].
  - left. split; [done|]. intros ro Hhd Ht.
    apply runs_call_bind in Hr0 as (r & t1 & -> & Hr0).
    apply (f_equal rollout_read) in Hhd. simpl in Hhd.
    destruct r as [ro1|err]; [injection Hhd as ->|discriminate Hhd].
    rewrite Ht in Hr0. by apply runs_ret_inv in Hr0 as [-> _].
  - right. exists ro, t0, s, e. split_and!; [done|by eapply pass_end_statusless|done| |].
    + intros E. destruct He as [_ Hp|? ? ? ? ? _ _ _ Hp|? ? ? ? ? ? ? ? _ _ _ Hp]; rewrite E in Hp;
        simpl in Hp; intuition discriminate.
    + intros Hw. destruct He as [Hs _|el o t1 t2 t3 -> Hest Hs _ _ _|]; [by rewrite (silent_writes _ Hs) in Hw| |done].
      destruct Hw. apply silent_writes. rewrite app_assoc. apply silent_app.
      split; [by eapply established_silent|done].
Qed.
End Theorems.

(** With every device holding some firmware, of this rollout or of an earlier one,
    nothing is ever dispatched: [observe] takes any value for its own. *)
Lemma ReconcileRollout_stale `{Accessors} `{SliceSort} `{LabelSelectors}
    LoadLocation Local key t out :
  runs (ReconcileRollout LoadLocation Local key) t out ->
  (forall k r, In (Event (GetDevice k) r) t -> is_empty (shown_desired propFirmwareURL r) = false) ->
  writes t = 0%nat.
Proof.
  intros Hr Hall. apply writes_quiet, Forall_forall. intros ev Hev%list_elem_of_In.
  destruct ev as [R [] r]; try done.
  apply ReconcileRollout_runs in Hr as [Hs|(ro & t0 & s & e & -> & Ht & He)];
    [by apply silent_no_device_write in Hev|].
  destruct Hev as [[=]|[Hev|[[=]|[]]]%in_app_iff].
  destruct (pass_end_write _ _ _ _ _ _ _ He Hev)
    as (eligible & o & wd & base & wb & t1 & t2 & t3 & name & dev & -> & Hadv & Hname & _ & _).
  destruct Hadv as [[_ _ _ _ _ Hac] _ _ _ _].
  apply nextDevices_In in Hname as [Hel Hno].
  destruct (acc_rest _ _ _ _ Hac name Hel Hno) as (r0 & Hin & E).
  specialize (Hall (mkKey (om_Namespace (ro_Meta ro)) name) r0).
  rewrite E in Hall. enough (is_empty EmptyString = false) by done.
  apply Hall. right. apply in_or_app. left. apply in_or_app. right. apply in_or_app. by left.
Qed.

(** The health gate is its deadline: how long health has to hold, whether the hash has
    to be reported and whether to roll back by itself change no observation. *)
Definition with_gate (gate : option HealthGate) (rb : option RollbackTriggers)
    (ro : FirmwareRollout) : FirmwareRollout :=
  let sp := ro_Spec ro in let st := fr_Strategy sp in
  mkFirmwareRollout (ro_Meta ro)
    (mkFirmwareRolloutSpec (fr_Selector sp) (fr_Source sp) (fr_Requires sp)
       (mkRolloutStrategy (strat_Canary st) (strat_Steps st) gate rb (strat_MaxConcurrent st))
       (fr_Paused sp)) (ro_Status ro).

Lemma observe_ignores_settling `{Accessors} ro within rep rep' settle settle' loops fails auto_ auto' :
  observe (with_gate (Some (mkHealthGate within rep settle))
             (Some (mkRollbackTriggers loops fails auto_)) ro) =
  observe (with_gate (Some (mkHealthGate within rep' settle'))
             (Some (mkRollbackTriggers loops fails auto')) ro).
Proof. reflexivity. Qed.

(** A stamp that is not a number reads as the epoch, which is not the zero time: the
    deadline of such a device is long over. *)
Example unreadable_stamp :
  let twin := VMap {[ "propertyName"%string := VString propFirmwareURL;
                      "observedDesired"%string := VMap {[ "metadata"%string :=
                         VMap {[ "timestamp"%string := VString "soon" ]} ]} ]} in
  IsZero (dispatch_stamp (H := tree_Accessors) [twin]) = false /\
  400000 * Hour < sub_time (UnixMilli 1700000000000) (dispatch_stamp (H := tree_Accessors) [twin]).
Proof. vm_compute. done. Qed.

(** ** A concrete fleet

    Three plugs, online, in a namespace with one window that is always open and
    permits two devices. *)

Section Fleet.
Context (phase : RolloutPhase) (desired running : string).

Definition fleet_device (name : string) : Unstructured :=
  mkUnstructured name "default" ("uid-" +:+ name)%string ∅
    {[ "spec"%string := VMap {[ "properties"%string :=
         VList [VMap {[ "name"%string := VString propFirmwareURL;
                        "desired"%string := VMap {[ "value"%string := VString desired ]} ]}] ]} ]}.

Definition fleet_status (name : string) : Unstructured :=
  mkUnstructured name "default" ("uid-" +:+ name)%string ∅
    {[ "status"%string := VMap {[ "twins"%string := VList
         [VMap {[ "propertyName"%string := VString propRunningHash;
                  "reported"%string := VMap {[ "value"%string := VString running ]} ]}] ]} ]}.

Definition fleet_liveness (k : Key) : DeviceLiveness :=
  mkDeviceLiveness (mkObjectMeta (key_Name k) (key_Namespace k) 1 ∅)
    (mkDeviceLivenessSpec (key_Name k) 0 0 "")
    (mkDeviceLivenessStatus StateOnline "" None "" None "" "" None [] 1).

Definition fleet_rollout : FirmwareRollout :=
  mkFirmwareRollout (mkObjectMeta "fw" "default" 1 ∅)
    (mkFirmwareRolloutSpec (Some (mkLabelSelector ∅ [])) (mkFirmwareSource "pkg" "new" 0) None
       (mkRolloutStrategy 0 [100] None None 0) false) (with_phase phase bare_status).

Definition fleet_answers (R : Type) (e : Effect R) : R :=
  match e in Effect R return R with
  | GetDevice k => Ok (fleet_device (key_Name k))
  | GetDeviceStatus k => Ok (fleet_status (key_Name k))
  | GetLiveness k => Ok (fleet_liveness k)
  | GetRollout _ => Ok fleet_rollout
  | ListDevices _ => Ok (map fleet_device ["c"; "a"; "b"]%string)
  | ListWindows _ => Ok [open_window "night" 2]
  | CreateLiveness l _ => Ok l
  | UpdateLivenessStatus _ | UpdateRolloutStatus _ | UpdateDevice _ => None
  | Now => UnixMilli 1700000000000
  end.

Definition fleet_program : prog Outcome :=
  ReconcileRollout (H := tree_Accessors) (H1 := equality_LabelSelectors)
    (fun _ => None) UTC (mkKey "default" "fw").
Definition fleet_pass : list event * Outcome := exec fleet_answers fleet_program.

Lemma fleet_runs : runs fleet_program (fst fleet_pass) (snd fleet_pass).
Proof. apply exec_runs. Qed.
End Fleet.

Definition written (t : list event) : list (string * string) :=
  omap (fun ev => match device_write ev with
    | Some (d, _) => Some (u_Name d, shown_desired (H := tree_Accessors) propFirmwareURL (Ok d))
    | None => None end) t.
Definition reported_status (t : list event) : list (string * Z) :=
  omap (fun ev => match rollout_write ev with
    | Some (ro, _) => Some (frs_Phase (ro_Status ro), frs_DispatchedThisWindow (ro_Status ro))
    | None => None end) t.

(** The limit of the window, the first devices by name, the wanted firmware. *)
Example fresh_fleet :
  written (fst (fleet_pass "" "" "")) = [("a", "new|pkg"); ("b", "new|pkg")]%string /\
  reported_status (fst (fleet_pass "" "" "")) = [(PhaseProgressing, 2)].
Proof. vm_compute. done. Qed.

(** Firmware of an earlier rollout: everything counts as updated, nothing is sent. *)
Example stale_fleet :
  written (fst (fleet_pass "" "old|pkg" "old")) = [] /\
  reported_status (fst (fleet_pass "" "old|pkg" "old")) = [(PhaseProgressing, 0)].
Proof. vm_compute. done. Qed.

Example updated_fleet :
  reported_status (fst (fleet_pass "" "new|pkg" "new")) = [(PhaseComplete, 0)].
Proof. vm_compute. done. Qed.

(** ** The theorems on the concrete fleet *)

Lemma In_device_write t d r :
  In (d, r) (omap device_write t) -> In (Event (UpdateDevice d) r) t.
Proof.
  rewrite <- list_elem_of_In, list_elem_of_omap. intros (ev & Hin & E).
  apply list_elem_of_In in Hin. destruct ev as [R [] r0]; simpl in E; try discriminate E.
  by injection E as -> ->.
Qed.

Lemma In_rollout_write t ro r :
  In (ro, r) (omap rollout_write t) -> In (Event (UpdateRolloutStatus ro) r) t.
Proof.
  rewrite <- list_elem_of_In, list_elem_of_omap. intros (ev & Hin & E).
  apply list_elem_of_In in Hin. destruct ev as [R [] r0]; simpl in E; try discriminate E.
  by injection E as -> ->.
Qed.

(** The first device a pass writes, and the status it writes. *)
Definition first_write (t : list event) : Unstructured * option ApiError :=
  default (fleet_device "" "", None) (head (omap device_write t)).
Definition last_status (t : list event) : FirmwareRollout * option ApiError :=
  default (fleet_rollout "", None) (last (omap rollout_write t)).

Definition one_dispatch : list event * option ApiError :=
  exec (fleet_answers "" "" "") (dispatch (H := tree_Accessors) (fleet_rollout "") "a").

Lemma dispatch_sets_firmware_witness :
  shown_desired (H := tree_Accessors) propFirmwareURL (Ok (fst (first_write (fst one_dispatch))))
    = "new|pkg"%string /\ snd one_dispatch = None.
Proof.
  destruct (dispatch_sets_firmware (H := tree_Accessors) (fleet_rollout "") "a"
    (fst one_dispatch) (snd one_dispatch) (fst (first_write (fst one_dispatch)))
    (snd (first_write (fst one_dispatch)))) as (dev & _ & _ & E & _ & _ & Ee).
  - apply exec_runs.
  - apply In_device_write. vm_compute. left. reflexivity.
  - split; [exact E|exact Ee].
Defined.

Definition one_observation : list event * Observed :=
  exec (fleet_answers "" "new|pkg" "new")
    (observe (H := tree_Accessors) (fleet_rollout "") ["a"; "b"]%string).

Lemma observe_accounts_witness :
  ob_healthy (snd one_observation) = ["a"; "b"]%string /\
  read_running (H := tree_Accessors) (fst one_observation) (mkKey "default" "b") "new".
Proof.
  assert (ob_healthy (snd one_observation) = ["a"; "b"]%string) as E by (vm_compute; reflexivity).
  split; [exact E|].
  destruct (observe_accounts (H := tree_Accessors) (fleet_rollout "") ["a"; "b"]%string
    (fst one_observation) (snd one_observation) (exec_runs _ _)) as [_ Hac].
  apply (acc_running (H := tree_Accessors) _ _ _ _ Hac "b"%string).
  rewrite E. right. left. reflexivity.
Defined.

Definition fresh : list event := fst (fleet_pass "" "" "").

Lemma ReconcileRollout_gated_witness :
  exists name, read_desired (H := tree_Accessors) fresh (mkKey "default" name) "" /\
    In (Event (UpdateDevice (fst (first_write fresh))) (snd (first_write fresh))) fresh.
Proof.
  assert (In (Event (UpdateDevice (fst (first_write fresh))) (snd (first_write fresh))) fresh) as Hin
    by (apply In_device_write; vm_compute; left; reflexivity).
  destruct (ReconcileRollout_gated (H := tree_Accessors) (H1 := equality_LabelSelectors)
    (fun _ => None) UTC (mkKey "default" "fw") fresh _ _ _ (fleet_runs "" "" "") Hin)
    as (ro & name & dev & Hhd & _ & _ & _ & _ & Hread & _).
  exists name. split; [|exact Hin].
  assert (Some (fleet_rollout "") = Some ro) as Ero
    by (change (Some (fleet_rollout "")) with (rollout_read (hd_error fresh));
        rewrite Hhd; reflexivity).
  injection Ero as <-. exact Hread.
Defined.



Definition done_pass : list event := fst (fleet_pass "" "new|pkg" "new").

Lemma ReconcileRollout_complete_witness :
  exists ro t1 eligible, hd_error done_pass = Some (Event (GetRollout (mkKey "default" "fw")) (Ok ro)) /\
    incl t1 done_pass /\ eligible <> [] /\ forall name, In name eligible ->
      read_running (H := tree_Accessors) t1 (mkKey (om_Namespace (ro_Meta ro)) name)
        (src_ConfigHash (fr_Source (ro_Spec ro))).
Proof.
  destruct (ReconcileRollout_complete (H := tree_Accessors) (H1 := equality_LabelSelectors)
    (fun _ => None) UTC (mkKey "default" "fw") done_pass _
    (fst (last_status done_pass)) (snd (last_status done_pass))
    (fleet_runs "" "new|pkg" "new")) as (ro & t0 & t1 & t2 & el & o & Et & _ & _ & _ & _ & Hne & _ & _ & _ & Hall).
  - apply In_rollout_write. vm_compute. left. reflexivity.
  - vm_compute. reflexivity.
  - exists ro, t1, el. rewrite Et. split; [reflexivity|]. split.
    { intros x Hx. right. apply in_or_app. right. apply in_or_app. by left. }
    split; [exact Hne|]. intros name Hn. apply (Hall name Hn).
Defined.

Lemma ReconcileRollout_reports_witness :
  exists ro t0 s e, fresh = Event (GetRollout (mkKey "default" "fw")) (Ok ro) ::
      t0 ++ [Event (UpdateRolloutStatus (set_status ro s)) e] /\ statusless t0.
Proof.
  destruct (ReconcileRollout_reports (H := tree_Accessors) (H1 := equality_LabelSelectors)
    (fun _ => None) UTC (mkKey "default" "fw") fresh _ (fleet_runs "" "" ""))
    as [[Hs _]|(ro & t0 & s & e & E & Hs & _)].
  - apply silent_writes in Hs. vm_compute in Hs. discriminate Hs.
  - exists ro, t0, s, e. split; [exact E|exact Hs].
Defined.
