(* ===== verification/Convergence.v ===== *)
(** * Rollouts that end

    Pass after pass of the rollout controller over a fleet that does what it is told: the
    devices take what is dispatched to them before the next pass, the windows are open
    and limit no number of devices, and the API server shows what is stored and accepts what is written. The answers of a
    pass are a function; what one pass writes is what the next one is answered. *)

From S2P Require Import Prelude GoTime GoStrings Types Capability Planner Cluster Unstructured.
From S2P Require Import Window Liveness Compose Rollout Delivery.
Local Open Scope Z_scope.
Local Open Scope torpor_scope.

(** ** Definitions: passes over a fleet *)

(** What a pass writes: the devices, by name, and the rollouts. *)
Definition dispatched (t : list event) : list string :=
  omap (fun ev => u_Name ∘ fst <$> device_write ev) t.
Definition statuses (t : list event) : list FirmwareRollout :=
  omap (fun ev => fst <$> rollout_write ev) t.

Section Convergence.
Context `{AccessorLaws} `{SliceSort} `{LabelSelectors}.
Context (LoadLocation : string -> option Location) (Local : Location) (rollout : Key).

Definition Answers : Type := forall R, Effect R -> R.

Definition pass (ans : Answers) : list event * Outcome :=
  exec ans (ReconcileRollout LoadLocation Local rollout).

#[local] Abbreviation key ro name := (mkKey (om_Namespace (ro_Meta ro)) name).
#[local] Abbreviation want ro := (src_ConfigHash (fr_Source (ro_Spec ro))).

(** Answers of a fleet in which [names] are eligible and those of [D] have been
    dispatched to and have obeyed. *)
Record obliging (ans : Answers) (ro : FirmwareRollout) (names : list string) (D : gset string) : Prop := {
  ob_rollout : ans _ (GetRollout rollout) = Ok ro;
  ob_plan : exists ls, snd (exec ans (matchingLivenesses ro)) = Ok ls /\
    plan_Eligible (PlanRollout Local (ans _ Now) ro ls) = names;
  ob_windows : exists labels items, snd (exec ans (DeviceLabelsFor ro)) = Ok labels /\
    ans _ (ListWindows (om_Namespace (ro_Meta ro))) = Ok items /\
    let d := combine_windows LoadLocation items labels (ans _ Now) in
    wd_Open d = true /\ wd_MaxDevices d <= 0;
  ob_device : forall name, In name names -> exists dev dev',
    ans _ (GetDevice (key ro name)) = Ok dev /\ u_Name dev = name /\
    is_empty (shown_desired propFirmwareURL (Ok dev)) = negb (bool_decide (name ∈ D)) /\
    dispatched_object ro name dev = Ok dev';
  ob_running : forall name, In name names -> name ∈ D ->
    shown_reported propRunningHash (ans _ (GetDeviceStatus (key ro name))) = want ro;
  ob_boots : forall name threshold, In name names -> boot_threshold ro = Some threshold ->
    default 0 (Sscanf_d (shown_reported propBootCount (ans _ (GetDeviceStatus (key ro name))))) <= threshold;
  ob_accepts : (forall d, ans _ (UpdateDevice d) = None) /\ forall ro', ans _ (UpdateRolloutStatus ro') = None
}.

(** Passes in a row: what is dispatched in one has been obeyed by the next, which reads
    the rollout as it was last written. [ws] is everything that was dispatched. *)
Inductive passes (names : list string)
  : nat -> FirmwareRollout -> gset string -> list string -> FirmwareRollout -> gset string -> Prop :=
| no_pass ro D : passes names 0 ro D [] ro D
| one_more n ans ro D ws ro' D' :
    obliging ans ro names D ->
    passes names n (default ro (last (statuses (pass ans).1))) (D ∪ list_to_set (dispatched (pass ans).1))
      ws ro' D' ->
    passes names (S n) ro D (dispatched (pass ans).1 ++ ws) ro' D'.

(** ** Lemmas: what a program does to a fleet *)

Lemma exec_bind {A B} ans (p : prog A) (f : A -> prog B) :
  exec ans (bind p f) =
  ((exec ans p).1 ++ (exec ans (f (exec ans p).2)).1, (exec ans (f (exec ans p).2)).2).
Proof.
  induction p as [a|R e k IH]; simpl; [by destruct (exec ans (f a))|].
  rewrite IH. by destruct (exec ans (k (ans R e))).
Qed.

(** The devices and the rollouts a program writes, and its value. *)
Definition effect {A} (ans : Answers) (p : prog A) : list string * list FirmwareRollout * A :=
  (dispatched (exec ans p).1, statuses (exec ans p).1, (exec ans p).2).

Definition after {A B} (x : list string * list FirmwareRollout * A)
    (f : A -> list string * list FirmwareRollout * B) : list string * list FirmwareRollout * B :=
  let '(ws, ros, a) := x in let '(ws', ros', b) := f a in (ws ++ ws', ros ++ ros', b).

Lemma effect_bind {A B} ans (p : prog A) (f : A -> prog B) :
  effect ans (bind p f) = after (effect ans p) (fun a => effect ans (f a)).
Proof.
  unfold effect, after, dispatched, statuses. rewrite exec_bind. cbn [fst snd]. by rewrite !omap_app.
Qed.

Lemma effect_read_only {A} ans (p : prog A) :
  read_only p -> effect ans p = ([], [], (exec ans p).2).
Proof.
  intros Hp. pose proof (read_only_silent p _ _ Hp (exec_runs ans p)) as Hs.
  unfold effect. induction Hs as [|[R e r] t He _ IH]; [done|].
  unfold dispatched, statuses in *. cbn [omap list_omap].
  destruct e; try discriminate He; exact IH.
Qed.

Lemma after_nothing {A B} a (f : A -> list string * list FirmwareRollout * B) :
  after ([], [], a) f = f a.
Proof. unfold after. by destruct (f a) as [[? ?] ?]. Qed.

Lemma effect_read_bind {A B} ans (p : prog A) (f : A -> prog B) :
  read_only p -> effect ans (bind p f) = effect ans (f (exec ans p).2).
Proof. intros Hp. by rewrite effect_bind, effect_read_only, after_nothing. Qed.

(** *** What only reads *)

Lemma setCondition_read_only ro typ status reason msg : read_only (setCondition ro typ status reason msg).
Proof. done. Qed.

Lemma liveness_loop_read_only sel devs : read_only (liveness_loop sel devs).
Proof.
  induction devs as [|d devs IH]; simpl; [done|]. destruct (negb _); [exact IH|].
  split; [done|]. intros [l|[|msg]]; simpl; try done; by apply read_only_bind.
Qed.

Lemma matchingLivenesses_read_only ro : read_only (matchingLivenesses ro).
Proof.
  unfold matchingLivenesses. destruct (LabelSelectorAsSelector _) as [sel|]; simpl; [|done].
  split; [done|]. intros [devs|]; simpl; [|done].
  apply read_only_bind; [apply liveness_loop_read_only|done].
Qed.

Lemma DeviceLabelsFor_read_only ro : read_only (DeviceLabelsFor ro).
Proof. unfold DeviceLabelsFor. by destruct (LabelSelectorAsSelector _). Qed.

Lemma ApplyWindow_read_only ro d now : read_only (ApplyWindow ro d now).
Proof.
  unfold ApplyWindow. cbv zeta. by repeat case_match.
Qed.

Lemma observe_step_read_only ro o name : read_only (observe_step ro o name).
Proof.
  unfold observe_step, desiredValue, reportedValue, reportedInt, dispatchedAt. simpl.
  split; [done|]. intros dev. destruct (is_empty _); [done|]. split; [done|]. intros ds.
  destruct (str_eq _ _).
  - destruct (boot_threshold ro); [|done]. split; [done|]. intros ds'. by case_match.
  - case_match; [|done]. split; [done|]. intros ds'. destruct (IsZero _); [done|].
    split; [done|]. intros now. by case_match.
Qed.

Lemma observe_read_only ro names : read_only (observe ro names).
Proof. apply read_only_foldM. intros. apply observe_step_read_only. Qed.

(** *** Observing a fleet that obeys *)

Section Observing.
Context (ans : Answers) (ro : FirmwareRollout) (names : list string) (D : gset string).
Context (Hob : obliging ans ro names D).

Lemma observe_step_obliging o name :
  In name names ->
  (exec ans (observe_step ro o name)).2 =
  if bool_decide (name ∈ D)
  then mkObserved (ob_updated o ++ [name]) (ob_healthy o ++ [name]) (ob_failed o) else o.
Proof using Hob.
  intros Hin. destruct (ob_device _ _ _ _ Hob name Hin) as (dev & dev' & Hdev & _ & Hd & _).
  unfold observe_step, desiredValue, reportedInt, reportedValue. simpl. rewrite Hdev.
  change (desired_in propFirmwareURL (slice_at (u_Object dev) properties_path))
    with (shown_desired propFirmwareURL (Ok dev)).
  rewrite Hd. destruct (bool_decide (name ∈ D)) eqn:Ed; simpl; [|done].
  apply bool_decide_eq_true in Ed. pose proof (ob_running _ _ _ _ Hob name Hin Ed) as Hrun.
  unfold shown_reported in Hrun. rewrite Hrun, str_eq_refl.
  destruct (boot_threshold ro) as [threshold|] eqn:Eb; [|done]. simpl.
  pose proof (ob_boots _ _ _ _ Hob name threshold Hin Eb) as Hboot.
  unfold shown_reported in Hboot. by destruct (Z.gtb_spec (default 0 (Sscanf_d (match ans _ (GetDeviceStatus (key ro name)) with
    | Ok ds => reported_in propBootCount (slice_at (u_Object ds) twins_path) | Err _ => ""%string end))) threshold); [lia|].
Qed.

(** Those that have been dispatched to, and those that have not. *)
Definition told (l : list string) : list string := List.filter (fun n => bool_decide (n ∈ D)) l.
Definition untold (l : list string) : list string := List.filter (fun n => negb (bool_decide (n ∈ D))) l.

Lemma observe_obliging :
  (exec ans (observe ro names)).2 = mkObserved (told names) (told names) [].
Proof using Hob.
  unfold observe. pose proof (incl_refl names) as Hi. revert Hi.
  change (mkObserved (told names) (told names) []) with (mkObserved ([] ++ told names) ([] ++ told names) []).
  generalize (@nil string) as pre. generalize names at 1 3 4 5 as l.
  induction l as [|name l IH]; intros pre Hi; cbn [foldM]; [by rewrite app_nil_r|].
  rewrite exec_bind. cbn [snd]. rewrite observe_step_obliging by (apply Hi; by left).
  unfold told at 1 2. cbn [List.filter ob_updated ob_healthy ob_failed].
  destruct (bool_decide (name ∈ D)); rewrite IH by (intros x Hx; apply Hi; by right); [|done].
  by rewrite <- !app_assoc.
Qed.

(** *** Dispatching to a fleet that obeys *)

Lemma dispatch_obliging name :
  In name names -> effect ans (dispatch ro name) = ([name], [], None).
Proof using H0 Hob.
  intros Hin. destruct (ob_device _ _ _ _ Hob name Hin) as (dev & dev' & Hdev & Hname & _ & Hd).
  unfold effect, dispatch, dispatched, statuses. simpl. rewrite Hdev, Hd. simpl.
  rewrite (proj1 (ob_accepts _ _ _ _ Hob)). apply dispatched_object_spec in Hd as ([= En _ _ _] & _).
  by rewrite En, Hname.
Qed.

Lemma dispatch_all_obliging l :
  incl l names -> effect ans (dispatch_all ro l) = (l, [], Z.of_nat (length l)).
Proof using H0 Hob.
  intros Hi. unfold dispatch_all.
  change (Z.of_nat (length l)) with (0 + Z.of_nat (length l)). generalize 0 as n.
  induction l as [|name l IH]; intros n; cbn [foldM]; [by rewrite Z.add_0_r|].
  rewrite !effect_bind, dispatch_obliging by (apply Hi; by left).
  unfold after at 2. cbn [effect exec fst snd dispatched statuses omap list_omap is_nil app].
  unfold after. rewrite IH by (intros x Hx; apply Hi; by right). cbn [app length]. f_equal. lia.
Qed.

(** *** One pass *)

Lemma told_untold l : (length (told l) + length (untold l) = length l)%nat.
Proof. apply filter_length_split. Qed.

(** There is always something to dispatch while somebody has not been told. *)
Lemma budget_positive :
  (length (told names) < length names)%nat ->
  let allowed := (currentStep ro (rollout_steps ro) (Z.of_nat (length names)) (Z.of_nat (length (told names)))).2 in
  Z.of_nat (length (told names)) < allowed /\
  1 <= dispatch_budget ro allowed (Z.of_nat (length (told names))) (-1).
Proof using.
  intros Hlt allowed. assert (Z.of_nat (length (told names)) < allowed) as Ha.
  { unfold allowed, currentStep. destruct (_ && _) eqn:Ec.
    - apply andb_true_iff in Ec as [_ Ec%Z.ltb_lt]. exact Ec.
    - pose proof (step_loop_spec (Z.of_nat (length names)) (Z.of_nat (length (told names))) 0
        (rollout_steps ro)) as Hs.
      destruct (step_loop _ _ _ _) as [[j al]|]; simpl; [|lia].
      by destruct Hs as (? & ? & _ & _ & _ & ? & _). }
  split; [done|]. unfold dispatch_budget. cbn.
  destruct (Z.gtb_spec (strat_MaxConcurrent (fr_Strategy (ro_Spec ro))) 0);
    destruct (Z.gtb_spec (allowed - Z.of_nat (length (told names)))
      (strat_MaxConcurrent (fr_Strategy (ro_Spec ro)))); simpl; lia.
Qed.

Lemma finish_obliging ro' d : exists out, effect ans (finish ro' d) = ([], [ro'], out).
Proof using. eexists. unfold effect, finish. simpl. reflexivity. Qed.

Lemma condition_finish_obliging st typ status reason msg d :
  exists s out, effect ans (ro' <~ setCondition (set_status ro st) typ status reason msg;; finish ro' d)
    = ([], [set_status ro s], out) /\ frs_Phase s = frs_Phase st.
Proof using.
  rewrite effect_read_bind by apply setCondition_read_only.
  destruct (finish_obliging (exec ans (setCondition (set_status ro st) typ status reason msg)).2 d) as [out ->].
  do 2 eexists. by split.
Qed.

Lemma nextDevices_told b :
  nextDevices names (told names) b = firstn (Z.to_nat b) (untold names).
Proof using.
  rewrite nextDevices_spec. f_equal. apply filter_ext_In. intros e He. f_equal.
  apply bool_decide_ext. rewrite list_elem_of_In. unfold told. rewrite filter_In, bool_decide_eq_true.
  tauto.
Qed.

Lemma advance_obliging st plan :
  plan_Eligible plan = names -> (length (told names) < length names)%nat ->
  exists b s out, (1 <= b)%nat /\ In (frs_Phase s) [PhaseCanary; PhaseProgressing] /\
    effect ans (advance (set_status ro st) plan (mkObserved (told names) (told names) []) (-1)) =
    (firstn b (untold names), [set_status ro s], out).
Proof using H0 Hob.
  intros Hplan Hlt. destruct (budget_positive Hlt) as [Ha Hb]. unfold advance.
  change (currentStep (set_status ro st)) with (currentStep ro).
  change (rollout_steps (set_status ro st)) with (rollout_steps ro).
  rewrite Hplan. cbn [ob_updated ob_healthy].
  destruct (currentStep ro _ _ _) as [i allowed]. cbn [snd] in Ha, Hb.
  set (ph := if _ : bool then PhaseCanary else PhaseProgressing).
  assert (In ph [PhaseCanary; PhaseProgressing]) as Hph by (unfold ph; case_match; simpl; auto).
  destruct (Z.geb_spec (Z.of_nat (length (told names))) allowed) as [Hge|_]; [lia|].
  rewrite nextDevices_told, effect_bind.
  set (budget := dispatch_budget _ _ _ _).
  assert (budget = dispatch_budget ro allowed (Z.of_nat (length (told names))) (-1)) as Eb by done.
  rewrite <- Eb in Hb. clearbody budget. exists (Z.to_nat budget).
  set (b := Z.to_nat budget). set (ro2 := update_status (with_phase ph) _).
  change (dispatch_all ro2) with (dispatch_all ro). rewrite dispatch_all_obliging.
  2:{ intros x Hx. apply (incl_filter (fun n => negb (bool_decide (n ∈ D)))).
      change (In x (untold names)). rewrite <- (firstn_skipn b (untold names)). apply in_or_app. by left. }
  set (n := wrap32 (frs_DispatchedThisWindow (ro_Status ro2) + wrap32 (Z.of_nat (length (firstn b (untold names)))))).
  destruct (finish_obliging (set_status ro (with_dispatched n (ro_Status ro2))) (15 * Second)) as [out Hf].
  exists (with_dispatched n (ro_Status ro2)), out. split; [lia|]. split; [exact Hph|].
  unfold after. change (update_status ?f ro2) with (set_status ro (f (ro_Status ro2))).
  fold n. rewrite Hf. by rewrite app_nil_r.
Qed.

(** The rest of a pass that is not terminal, paused or blocked: the rollout is complete,
    or some of those that have not been told are, in their order. *)
Lemma observe_and_advance_obliging st plan :
  plan_Eligible plan = names -> names <> [] ->
  exists ws s out, effect ans (observe_and_advance (set_status ro st) plan (-1)) = (ws, [set_status ro s], out) /\
    ((untold names = [] /\ ws = [] /\ frs_Phase s = PhaseComplete) \/
     (exists b, (1 <= b)%nat /\ ws = firstn b (untold names) /\ untold names <> [] /\
        In (frs_Phase s) [PhaseCanary; PhaseProgressing])).
Proof using H0 Hob.
  intros Hplan Hne. unfold observe_and_advance.
  rewrite effect_read_bind by apply observe_read_only.
  change (observe (set_status ro st)) with (observe ro). rewrite Hplan, observe_obliging.
  cbn [ob_updated ob_healthy ob_failed length].
  set (ro1 := update_status _ (set_status ro st)).
  assert ((Z.of_nat 0 >=? failureTolerance ro1) = false) as ->.
  { unfold failureTolerance. case_match; [|done].
    destruct (Z.gtb_spec (rb_HealthGateFailures r) 0); destruct (Z.geb_spec (Z.of_nat 0) (rb_HealthGateFailures r));
      done || lia. }
  destruct (Z.eqb_spec (Z.of_nat (length names)) 0) as [Hz|_]; [by destruct names|].
  pose proof (told_untold names) as Hsum.
  destruct (Z.geb_spec (Z.of_nat (length (told names))) (Z.of_nat (length names))) as [Hall|Hlt].
  - change (update_status ?f (update_status ?g ro1)) with (set_status ro (f (g (ro_Status ro1)))).
    destruct (condition_finish_obliging (with_step "done" (with_phase PhaseComplete (ro_Status ro1)))
      "Complete" ConditionTrue "AllEligibleHealthy"
      (pretty (Z.of_nat (length (told names))) +:+ "/" +:+ pretty (Z.of_nat (length names)) +:+
       " healthy, " +:+ pretty (Z.of_nat (length (plan_Refused plan))) +:+ " refused")%string 0)
      as (s & out & E & Hp).
    exists [], s, out. split; [exact E|]. left. split_and!; [|done|by rewrite Hp].
    apply length_zero_iff_nil. lia.
  - destruct (advance_obliging (ro_Status ro1) plan Hplan) as (b & s & out & Hb & Hp & E); [lia|].
    exists (firstn b (untold names)), s, out. split; [exact E|]. right.
    exists b. split_and!; [done|done| |done]. intros En. rewrite En in Hsum. simpl in Hsum. lia.
Qed.

Lemma window_and_on_obliging st plan :
  plan_Eligible plan = names -> names <> [] ->
  exists ws s out, effect ans (window_and_on LoadLocation (set_status ro st) plan) = (ws, [set_status ro s], out) /\
    ((untold names = [] /\ ws = [] /\ frs_Phase s = PhaseComplete) \/
     (exists b, (1 <= b)%nat /\ ws = firstn b (untold names) /\ untold names <> [] /\
        In (frs_Phase s) [PhaseCanary; PhaseProgressing])).
Proof using H0 Hob.
  intros Hplan Hne.
  destruct (ob_windows _ _ _ _ Hob) as (labels & items & Hlabels & Hitems & Hopen & Hmax).
  unfold window_and_on. change (DeviceLabelsFor (set_status ro st)) with (DeviceLabelsFor ro).
  rewrite effect_read_bind by apply DeviceLabelsFor_read_only. rewrite Hlabels.
  rewrite effect_read_bind by done. cbn [exec snd call].
  rewrite effect_read_bind by done.
  assert ((exec ans (EvaluateWindowsFor LoadLocation (om_Namespace (ro_Meta (set_status ro st))) labels (ans _ Now))).2
    = Ok (combine_windows LoadLocation items labels (ans _ Now))) as ->
    by (unfold EvaluateWindowsFor; simpl; by rewrite Hitems).
  rewrite effect_read_bind by done. cbn [exec snd call].
  rewrite effect_read_bind by apply ApplyWindow_read_only.
  set (d := combine_windows _ _ _ _) in *.
  assert ((exec ans (ApplyWindow (set_status ro st) d (ans _ Now))).2 =
    (set_status ro (enter_window d (ans _ Now) st), (true, -1))) as ->.
  { unfold ApplyWindow. rewrite Hopen. cbn [negb].
    by destruct (Z.gtb_spec (wd_MaxDevices d) 0); [lia|]. }
  by apply observe_and_advance_obliging.
Qed.

(** A whole pass of a rollout that is not over and not paused. *)
Lemma pass_obliging :
  names <> [] -> terminal (frs_Phase (ro_Status ro)) = false -> fr_Paused (ro_Spec ro) = false ->
  exists s, statuses (pass ans).1 = [set_status ro s] /\
    ((untold names = [] /\ dispatched (pass ans).1 = [] /\ frs_Phase s = PhaseComplete) \/
     (exists b, (1 <= b)%nat /\ dispatched (pass ans).1 = firstn b (untold names) /\ untold names <> [] /\
        In (frs_Phase s) [PhaseCanary; PhaseProgressing])).
Proof using H0 Hob.
  intros Hne Ht Hpa.
  destruct (ob_plan _ _ _ _ Hob) as (ls & Hls & Hplan).
  enough (exists ws s out, effect ans (ReconcileRollout LoadLocation Local rollout) = (ws, [set_status ro s], out) /\
    ((untold names = [] /\ ws = [] /\ frs_Phase s = PhaseComplete) \/
     (exists b, (1 <= b)%nat /\ ws = firstn b (untold names) /\ untold names <> [] /\
        In (frs_Phase s) [PhaseCanary; PhaseProgressing]))) as (ws & s & out & [= <- E2 E3] & H')
    by (exists s; by split).
  unfold ReconcileRollout. rewrite effect_read_bind by done. cbn [exec snd call].
  rewrite (ob_rollout _ _ _ _ Hob), Ht.
  rewrite effect_read_bind by apply matchingLivenesses_read_only. rewrite Hls.
  rewrite effect_read_bind by done. cbn [exec snd call].
  set (plan := PlanRollout Local (ans _ Now) ro ls) in *. cbv zeta.
  set (ro1 := update_status _ ro).
  rewrite effect_read_bind by (by case_match).
  match goal with |- context [(exec ans ?p).2] =>
    assert (exists st, (exec ans p).2 = set_status ro st) as [st ->]
      by (case_match; eexists; reflexivity) end.
  change (fr_Paused (ro_Spec (set_status ro st))) with (fr_Paused (ro_Spec ro)). rewrite Hpa.
  by apply window_and_on_obliging.
Qed.
End Observing.

(** *** Pass after pass *)

Lemma untold_In D names e : In e (untold D names) <-> In e names /\ e ∉ D.
Proof. unfold untold. by rewrite filter_In, negb_true_iff, bool_decide_eq_false. Qed.

Lemma untold_NoDup D names : NoDup names -> NoDup (untold D names).
Proof. intros Hn. apply NoDup_ListNoDup, List.NoDup_filter. by apply NoDup_ListNoDup. Qed.

Lemma untold_union D X names :
  untold (D ∪ list_to_set X) names = List.filter (fun n => negb (bool_decide (n ∈ X))) (untold D names).
Proof.
  unfold untold. induction names as [|n names IH]; [done|]. cbn [List.filter].
  destruct (decide (n ∈ D)) as [Hd|Hd].
  - rewrite !bool_decide_eq_true_2 by set_solver. exact IH.
  - rewrite (bool_decide_eq_false_2 (n ∈ D)) by done. cbn [negb List.filter].
    rewrite IH, (bool_decide_ext (n ∈ D ∪ list_to_set X) (n ∈ X)) by set_solver. done.
Qed.

Lemma filter_firstn b (L : list string) :
  NoDup L -> List.filter (fun n => negb (bool_decide (n ∈ firstn b L))) L = skipn b L.
Proof.
  intros HL. revert b. induction HL as [|x L Hx HL IH]; intros [|b]; [done|done| |].
  - cbn [firstn skipn]. clear. induction (x :: L) as [|y l IH]; [done|]. cbn [List.filter].
    rewrite bool_decide_eq_false_2 by set_solver. cbn [negb]. by rewrite IH.
  - cbn [firstn skipn List.filter]. rewrite bool_decide_eq_true_2 by left. cbn [negb].
    rewrite <- (IH b). apply filter_ext_In. intros n Hn%list_elem_of_In. f_equal.
    apply bool_decide_ext. set_solver.
Qed.

(** Those left once a prefix has been told. *)
Lemma untold_told D names b :
  NoDup names ->
  untold (D ∪ list_to_set (firstn b (untold D names))) names = skipn b (untold D names).
Proof. intros Hn. rewrite untold_union. apply filter_firstn. by apply untold_NoDup. Qed.

(** A rollout that is over is left alone. *)
Lemma passes_terminal names n ro D ws ro' D' :
  passes names n ro D ws ro' D' -> terminal (frs_Phase (ro_Status ro)) = true ->
  ws = [] /\ ro' = ro /\ D' ≡ D.
Proof.
  intros Hp Ht. induction Hp as [|n ans ro D ws ro' D' Hob _ IH]; [done|].
  assert (dispatched (pass ans).1 = [] /\ statuses (pass ans).1 = []) as [E1 E2].
  { unfold pass, ReconcileRollout. rewrite exec_bind. cbn [exec snd fst call].
    rewrite (ob_rollout _ _ _ _ Hob), Ht. done. }
  rewrite E1, E2 in *. destruct (IH Ht) as (-> & -> & E). split_and!; [done|done|]. set_solver.
Qed.

Lemma passes_progress names n ro D ws ro' D' :
  passes names n ro D ws ro' D' -> NoDup names -> names <> [] ->
  terminal (frs_Phase (ro_Status ro)) = false -> fr_Paused (ro_Spec ro) = false ->
  (exists b, ws = firstn b (untold D names)) /\ D' ≡ D ∪ list_to_set ws /\
  (frs_Phase (ro_Status ro') = PhaseComplete -> ws = untold D names) /\
  ((length (untold D names) < n)%nat -> frs_Phase (ro_Status ro') = PhaseComplete).
Proof.
  intros Hp Hn Hne Ht Hpa.
  induction Hp as [ro D|n ans ro D ws ro' D' Hob Hp IH].
  { split_and!; [by exists 0%nat|set_solver| |lia]. intros E. by rewrite E in Ht. }
  destruct (pass_obliging ans ro names D Hob Hne Ht Hpa) as (s & Es & [(Hu & Ed & Hph)|(b & Hb & Ed & Hu & Hph)]).
  - rewrite Es, Ed in *. cbn [last default] in Hp.
    destruct (passes_terminal _ _ _ _ _ _ _ Hp) as (-> & -> & E); [simpl; by rewrite Hph|].
    rewrite Hu. split_and!; [by exists 0%nat|set_solver|done|done].
  - rewrite Es in *. cbn [last default from_option] in *. rewrite Ed in *.
    assert (terminal (frs_Phase s) = false) as Ht' by (by destruct Hph as [<-|[<-|[]]]).
    destruct (IH Ht' Hpa) as ((b' & Hws) & HD & Hall & Hend).
    rewrite untold_told in * by done.
    split_and!.
    + exists (b + b')%nat. rewrite Hws. by rewrite take_take_drop.
    + rewrite HD, list_to_set_app. set_solver.
    + intros E. rewrite (Hall E). apply firstn_skipn.
    + intros Hlt. apply Hend. rewrite length_skipn.
      assert (length (untold D names) <> 0%nat) by (by intros ?%length_zero_iff_nil). lia.
Qed.
End Convergence.

(** ** Theorems *)

(** C5. A rollout ends. Over a fleet that obeys, with the windows open and setting no limit
    of devices, and the API server doing as it documents, after more passes than there are eligible devices the rollout
    is complete, whatever its canary, its steps and its limit of concurrency are, with
    each device that had not been dispatched to before dispatched to once, in the order
    of the plan, and no other; and at no pass before has a device been dispatched to
    twice. *)
Theorem rollout_converges `{AccessorLaws} `{SliceSort} `{LabelSelectors} LoadLocation Local rollout
    names n ro D ws ro' D' :
  NoDup names -> names <> [] ->
  terminal (frs_Phase (ro_Status ro)) = false -> fr_Paused (ro_Spec ro) = false ->
  passes LoadLocation Local rollout names n ro D ws ro' D' ->
  (exists b, ws = firstn b (untold D names)) /\
  ((length names < n)%nat ->
     frs_Phase (ro_Status ro') = PhaseComplete /\ ws = untold D names /\
     forall name, In name names -> name ∈ D').
Proof.
  intros Hn Hne Ht Hpa Hp.
  destruct (passes_progress _ _ _ _ _ _ _ _ _ _ Hp Hn Hne Ht Hpa) as (Hpre & HD & Hall & Hend).
  split; [done|]. intros Hlt. pose proof (told_untold D names) as Hsum.
  assert (frs_Phase (ro_Status ro') = PhaseComplete) as Hc by (apply Hend; lia).
  split_and!; [done|by apply Hall|]. intros name Hin. rewrite HD, (Hall Hc).
  destruct (decide (name ∈ D)) as [?|Hd]; [set_solver|].
  apply elem_of_union_r, elem_of_list_to_set, list_elem_of_In. by apply untold_In.
Qed.

(** ** A fleet that obeys

    Two plugs, online, no window; a canary of one device, a gate on the count of boots,
    one device at a time. *)

Definition obedient_rollout : FirmwareRollout :=
  mkFirmwareRollout (mkObjectMeta "fw" "default" 1 ∅)
    (mkFirmwareRolloutSpec (Some (mkLabelSelector ∅ [])) (mkFirmwareSource "pkg" "new" 0) None
       (mkRolloutStrategy 1 [50; 100] (Some (mkHealthGate None false None))
          (Some (mkRollbackTriggers 2 1 false)) 1) false) bare_status.

Definition obedient_answers (D : gset string) (ro : FirmwareRollout) (R : Type) (e : Effect R) : R :=
  let obeyed {A} (name : string) (yes no : A) := if bool_decide (name ∈ D) then yes else no in
  match e in Effect R return R with
  | GetDevice k => Ok (fleet_device (obeyed (key_Name k) "new|pkg"%string ""%string) (key_Name k))
  | GetDeviceStatus k => Ok (fleet_status (obeyed (key_Name k) "new"%string "old"%string) (key_Name k))
  | GetLiveness k => Ok (fleet_liveness k)
  | GetRollout _ => Ok ro
  | ListDevices _ => Ok (map (fleet_device "") ["b"; "a"]%string)
  | ListWindows _ => Ok []
  | CreateLiveness l _ => Ok l
  | UpdateLivenessStatus _ | UpdateRolloutStatus _ | UpdateDevice _ => None
  | Now => UnixMilli 1700000000000
  end.

Section Obedient.
#[local] Existing Instance tree_Accessors.
#[local] Existing Instance equality_LabelSelectors.
#[local] Existing Instance insertion_SliceSort.

Definition plugs : list string := ["a"; "b"]%string.
Abbreviation obedient_state st := (set_status obedient_rollout st).

Lemma obedient_obliging (D : gset string) st :
  obliging (fun _ => None) UTC (mkKey "default" "fw") (obedient_answers D (obedient_state st)) (obedient_state st) plugs D.
Proof.
  split; [done| | | | | |done].
  - exists (map (fun n => fleet_liveness (mkKey "default" n)) plugs). split; vm_compute; reflexivity.
  - do 2 eexists. split; [reflexivity|]. split; [reflexivity|]. by vm_compute.
  - intros name Hin.
    assert (exists d d', obedient_answers D (obedient_state st) _ (GetDevice (mkKey "default" name)) = Ok d /\
      u_Name d = name /\ is_empty (shown_desired propFirmwareURL (Ok d)) = negb (bool_decide (name ∈ D)) /\
      dispatched_object obedient_rollout name d = Ok d') as (d & d' & ? & ? & ? & ?);
      [|by exists d, d'].
    simpl obedient_answers. destruct Hin as [<-|[<-|[]]]; case_bool_decide;
      do 2 eexists; (split; [reflexivity|]); split_and!; vm_compute; reflexivity.
  - intros name Hin Hd. unfold shown_reported. simpl obedient_answers.
    rewrite bool_decide_eq_true_2 by done. destruct Hin as [<-|[<-|[]]]; vm_compute; reflexivity.
  - intros name threshold Hin [= <-]. unfold shown_reported. simpl obedient_answers.
    destruct Hin as [<-|[<-|[]]]; case_bool_decide; vm_compute; done.
Qed.

(** There are as many passes over it as one likes. *)
Lemma obedient_passes n D st :
  exists ws ro' D', passes (fun _ => None) UTC (mkKey "default" "fw") plugs n (obedient_state st) D ws ro' D'.
Proof.
  revert D st. induction n as [|n IH]; intros D st; [by do 3 eexists; constructor|].
  pose proof (obedient_obliging D st) as Hob.
  set (p := pass (fun _ => None) UTC (mkKey "default" "fw") (obedient_answers D (obedient_state st))).
  assert (exists st', default (obedient_state st) (last (statuses p.1)) = obedient_state st') as [st' Est].
  { destruct (terminal (frs_Phase st)) eqn:Et.
    - exists st. unfold p, pass, ReconcileRollout. rewrite exec_bind. cbn [exec snd fst call obedient_answers].
      change (ro_Status (obedient_state st)) with st. by rewrite Et.
    - destruct (pass_obliging _ _ _ _ (obedient_state st) plugs D Hob ltac:(done) Et ltac:(done))
        as (s & Es & _).
      exists s. unfold p. by rewrite Es. }
  destruct (IH (D ∪ list_to_set (dispatched p.1)) st') as (ws & ro' & D' & Hp).
  exists (dispatched p.1 ++ ws), ro', D'. eapply one_more; [exact Hob|]. fold p. by rewrite Est.
Qed.

Lemma rollout_converges_witness :
  exists ws ro' D', passes (fun _ => None) UTC (mkKey "default" "fw") plugs 3 obedient_rollout ∅ ws ro' D' /\
    frs_Phase (ro_Status ro') = PhaseComplete /\ ws = plugs.
Proof.
  destruct (obedient_passes 3 ∅ bare_status) as (ws & ro' & D' & Hp).
  exists ws, ro', D'.
  destruct (rollout_converges (fun _ => None) UTC (mkKey "default" "fw") plugs 3 obedient_rollout ∅ ws ro' D')
    as (_ & Hend); [repeat constructor; set_solver|done|reflexivity|reflexivity|exact Hp|].
  destruct (Hend ltac:(simpl; lia)) as (Hc & Hws & _). split_and!; [exact Hp|exact Hc|exact Hws].
Defined.
End Obedient.
