(* ===== verification/Driver.v ===== *)
(** * The mapper's driver: mapper/esphome/driver

    A device has several doors. The driver keeps, per device, the last payload of
    every topic and the last traffic of every transport, and chooses a door for each
    write. The MQTT client, the JSON decoder and the status names of the KubeEdge
    framework are outside; every handler runs under the lock of the cache, so it is
    one function from client to client. *)

From Stdlib Require Import Ascii.
From S2P Require Import Prelude GoTime GoFloat GoStrings GoParseFloat.
Local Open Scope Z_scope.

(** ** Definitions: configuration (devicetype.go) *)

Record TransportConfig := mkTransportConfig {
  tc_Type : string;
  tc_TopicPrefix : string;
  tc_Gateway : string;
  tc_NodeID : Z;
  tc_OTA : bool;
  tc_Config : bool;
  tc_MaxWriteBytes : Z;
  tc_StaleAfterSeconds : Z
}.

Record ConfigData := mkConfigData {
  cd_Broker : string;
  cd_TopicPrefix : string;
  cd_ClientID : string;
  cd_Username : string;
  cd_Password : string;
  cd_StatusTopic : string;
  cd_Transports : list TransportConfig;
  cd_Gateway : string;
  cd_NodeID : Z;
  cd_ExpectedIntervalSeconds : Z;
  cd_StaleMultiplier : Z;
  cd_ConnectTimeoutSeconds : Z
}.

Record VisitorConfig := mkVisitorConfig {
  vc_DataType : string;
  vc_Topic : string;
  vc_CommandTopic : string;
  vc_AbsoluteTopic : bool;
  vc_RequiresTransport : string;
  vc_MinBytes : Z;
  vc_Retain : bool;
  vc_QoS : Z
}.

(** The client of one device, less its connection and its locks. *)
Record CustomizedClient := mkCustomizedClient {
  cc_Config : ConfigData;
  cc_values : gmap string string;
  cc_stamps : gmap string Time;
  cc_status : string;
  cc_lastFrame : Time;
  cc_lastSeenPer : gmap string Time
}.

(** The status names of the KubeEdge framework. *)
Class DeviceStatuses := {
  DeviceStatusUnknown : string;
  DeviceStatusOK : string;
  DeviceStatusOffline : string;
  DeviceStatusDisCONN : string
}.

(** What a property can hold once the framework has converted it. *)
Inductive Datum :=
| DBool (b : bool)
| DString (s : string)
| DInt64 (n : Z)
| DFloat64 (f : float64).

(** ** Definitions: text *)

Definition TrimPrefix_slash (s : string) : string :=
  match s with String "/"%char s' => s' | _ => s end.

(** ** Definitions: naming (driver.go) *)

Definition NewClient `{DeviceStatuses} (cfg : ConfigData) : CustomizedClient :=
  mkCustomizedClient cfg ∅ ∅ DeviceStatusUnknown zero_time ∅.

Definition statusTopic (c : CustomizedClient) : string :=
  if is_empty (cd_StatusTopic (cc_Config c))
  then (cd_TopicPrefix (cc_Config c) +:+ "/status")%string
  else cd_StatusTopic (cc_Config c).

Definition resolve (c : CustomizedClient) (v : VisitorConfig) (topic : string) : string :=
  if is_empty topic then ""%string
  else if vc_AbsoluteTopic v then topic
  else (cd_TopicPrefix (cc_Config c) +:+ "/" +:+ TrimPrefix_slash topic)%string.

Definition subject (c : CustomizedClient) : string :=
  if is_empty (cd_Gateway (cc_Config c)) then cd_TopicPrefix (cc_Config c)
  else ("node" +:+ pretty (cd_NodeID (cc_Config c)) +:+ "@" +:+ cd_Gateway (cc_Config c))%string.

(** ** Definitions: the transport ladder (transport.go) *)

Definition effectiveTransports (c : CustomizedClient) : list TransportConfig :=
  let cfg := cc_Config c in
  match cd_Transports cfg with
  | [] =>
      if negb (is_empty (cd_Gateway cfg))
      then [mkTransportConfig "lora" "" (cd_Gateway cfg) (cd_NodeID cfg) false true 240
              (wrap64 (cd_ExpectedIntervalSeconds cfg * 3))]
      else [mkTransportConfig "wifi" (cd_TopicPrefix cfg) "" 0 true true 0 0]
  | ts => ts
  end.

Definition isUp (now : Time) (c : CustomizedClient) (t : TransportConfig) : bool :=
  if tc_StaleAfterSeconds t <=? 0 then true
  else match cc_lastSeenPer c !! tc_Type t with
       | None => true
       | Some seen => sub_time now seen <? wrap64 (tc_StaleAfterSeconds t * Second)
       end.

Definition markSeen (now : Time) (transport : string) (c : CustomizedClient) : CustomizedClient :=
  mkCustomizedClient (cc_Config c) (cc_values c) (cc_stamps c) (cc_status c) (cc_lastFrame c)
    (<[transport := now]> (cc_lastSeenPer c)).

(** The errors of a write, and what they say. *)
Inductive WriteError :=
| ReadOnly (propertyName : string)
| NoTransports
| CannotCarry (payloadSize : Z) (names : list string)
| NoneUp (names : list string)
| NoDownlink (t : TransportConfig)
| WriteRefused (propertyName : string) (e : WriteError)
| PublishTimeout (topic : string)
| PublishFailed (topic err : string).

Fixpoint error_text `{StrconvQuote} (c : CustomizedClient) (e : WriteError) : string :=
  match e with
  | ReadOnly p => "esphome-mqtt: property " +:+ quote p +:+ " has no commandTopic; it is read-only"
  | NoTransports => "esphome-mqtt: " +:+ subject c +:+ " has no transports declared"
  | CannotCarry n names =>
      "esphome-mqtt: " +:+ subject c +:+ " cannot carry a " +:+ pretty n +:+
      " byte write on any transport (have: " +:+ Join ", " names +:+
      ") — this property is unavailable on this device"
  | NoneUp names =>
      "esphome-mqtt: " +:+ subject c +:+ " is capable over " +:+ Join ", " names +:+
      " but none are up right now — deferring until next in range"
  | NoDownlink t =>
      "esphome-mqtt: transport " +:+ tc_Type t +:+ " reaches " +:+ subject c +:+
      " through gateway " +:+ tc_Gateway t +:+ ", which has no downlink path"
  | WriteRefused p e' => "write " +:+ quote p +:+ ": " +:+ error_text c e'
  | PublishTimeout topic => "esphome-mqtt: timed out publishing to " +:+ topic
  | PublishFailed topic err => "esphome-mqtt: publish to " +:+ topic +:+ ": " +:+ err
  end%string.

(** The loop body: whether a transport could carry the write, in principle. *)
Definition could_carry (v : VisitorConfig) (payloadSize : Z) (t : TransportConfig) : bool :=
  if negb (is_empty (vc_RequiresTransport v)) && negb (str_eq (tc_Type t) (vc_RequiresTransport v))
  then false
  else if negb (tc_Config t) && negb (tc_OTA t) then false
  else if str_eq (vc_RequiresTransport v) "ota" && negb (tc_OTA t) then false
  else if (tc_MaxWriteBytes t >? 0) && (payloadSize >? tc_MaxWriteBytes t) then false
  else true.

Definition selectTransport (now : Time) (c : CustomizedClient) (v : VisitorConfig)
    (payloadSize : Z) : result TransportConfig WriteError :=
  let transports := effectiveTransports c in
  if is_nil (head transports) then Err NoTransports
  else
    let '(capable, names) :=
      fold_left (fun '(capable, names) t =>
        (if could_carry v payloadSize t then capable ++ [t] else capable, names ++ [tc_Type t]))
        transports ([], []) in
    match capable with
    | [] => Err (CannotCarry payloadSize names)
    | _ =>
        match find (isUp now c) capable with
        | Some t => Ok t
        | None => Err (NoneUp (map tc_Type capable))
        end
    end.

(** What goes to the broker, and how the broker answers. *)
Record Publication := mkPublication {
  pub_Topic : string; pub_QoS : Z; pub_Retain : bool; pub_Payload : string }.
Inductive Token := TokenDone | TokenTimeout | TokenError (err : string).

(** [writeVia]: the publication, if any, and the outcome. *)
Definition writeVia (broker : Publication -> Token) (t : TransportConfig) (v : VisitorConfig)
    (payload : string) : option Publication * option WriteError :=
  if is_empty (tc_TopicPrefix t) then (None, Some (NoDownlink t))
  else
    let topic := (tc_TopicPrefix t +:+ "/" +:+ TrimPrefix_slash (vc_CommandTopic v))%string in
    let p := mkPublication topic (vc_QoS v) (vc_Retain v) payload in
    (Some p, match broker p with
             | TokenDone => None
             | TokenTimeout => Some (PublishTimeout topic)
             | TokenError err => Some (PublishFailed topic err)
             end).

(** ** Definitions: codecs (driver.go) *)

(** [%v] of a [float64]: the shortest digits, with an exponent below 1e-4 and from
    1e6 on. *)
Definition exponent_text (x : Z) : string :=
  ((if (x <? 0)%Z then "e-" else "e+") +:+ (if (Z.abs x <? 10)%Z then "0" else "") +:+ pretty (Z.abs x))%string.
Definition scientific (n scale : Z) : string :=
  let digits := pretty n in
  let x := Z.of_nat (String.length digits) - 1 + scale in
  match digits with
  | String d EmptyString => (String d EmptyString +:+ exponent_text x)%string
  | String d rest => (String d EmptyString +:+ "." +:+ rest +:+ exponent_text x)%string
  | EmptyString => EmptyString
  end.
Definition FormatV (f : float64) : string :=
  match f with
  | SpecFloat.S754_finite neg m e =>
      let '(num, den) := ratio_of m e in
      let '(n, scale) := shortest 40 (SpecFloat.S754_finite false m e) num den (top_scale num den) in
      let x := Z.of_nat (String.length (pretty n)) - 1 + scale in
      ((if neg then "-" else "") +:+
       (if ((x <? -4) || (6 <=? x))%Z then scientific n scale else plain n scale))%string
  | _ => FormatShortest f
  end.

Definition format (data : Datum) : string :=
  match data with
  | DBool b => if b then "ON" else "OFF"
  | DString v =>
      let s := ToUpper (TrimSpace v) in
      if str_eq s "TRUE" then "ON" else if str_eq s "FALSE" then "OFF" else v
  | DInt64 n => pretty n
  | DFloat64 f => FormatV f
  end%string.

Inductive ReadError :=
| NoTopic
| NoValueYet (topic : string)
| NotAnInt (s : string)
| NotAFloat (s : string)
| NotABoolean (s : string).

Definition one_of (words : list string) (s : string) : bool := existsb (str_eq s) words.

Definition convert (raw dataType : string) : result Datum ReadError :=
  let s := TrimSpace raw in
  let ty := ToLower dataType in
  if one_of ["int"; "integer"; "int64"]%string ty then
    match ParseFloat s with
    | Some f => Ok (DInt64 (f_to_int64 f))
    | None => Err (NotAnInt s)
    end
  else if one_of ["float"; "double"; "float64"]%string ty then
    match ParseFloat s with
    | Some f => Ok (DFloat64 f)
    | None => Err (NotAFloat s)
    end
  else if one_of ["boolean"; "bool"]%string ty then
    if one_of ["ON"; "TRUE"; "1"]%string (ToUpper s) then Ok (DBool true)
    else if one_of ["OFF"; "FALSE"; "0"]%string (ToUpper s) then Ok (DBool false)
    else Err (NotABoolean s)
  else Ok (DString s).

(** [DeviceDataWrite]. *)
Definition DeviceDataWrite (broker : Publication -> Token) (now : Time) (c : CustomizedClient)
    (v : VisitorConfig) (propertyName : string) (data : Datum)
  : option Publication * option WriteError :=
  if is_empty (vc_CommandTopic v) then (None, Some (ReadOnly propertyName))
  else
    let payload := format data in
    match selectTransport now c v (Z.of_nat (String.length payload)) with
    | Err e => (None, Some (WriteRefused propertyName e))
    | Ok t => writeVia broker t v payload
    end.

Definition SetDeviceData (broker : Publication -> Token) (now : Time) (c : CustomizedClient)
    (data : Datum) (v : VisitorConfig) : option Publication * option WriteError :=
  DeviceDataWrite broker now c v ""%string data.

(** ** Definitions: what arrives (driver.go) *)

Definition cache (key payload : string) (now : Time) (c : CustomizedClient) : CustomizedClient :=
  mkCustomizedClient (cc_Config c) (<[key := payload]> (cc_values c))
    (<[key := now]> (cc_stamps c)) (cc_status c) (cc_lastFrame c) (cc_lastSeenPer c).

Definition set_conn_status (s : string) (c : CustomizedClient) : CustomizedClient :=
  mkCustomizedClient (cc_Config c) (cc_values c) (cc_stamps c) s (cc_lastFrame c)
    (cc_lastSeenPer c).

Definition set_lastFrame (now : Time) (c : CustomizedClient) : CustomizedClient :=
  mkCustomizedClient (cc_Config c) (cc_values c) (cc_stamps c) (cc_status c) now
    (cc_lastSeenPer c).

Definition onMessage (now : Time) (topic payload : string) (c : CustomizedClient)
  : CustomizedClient :=
  let c' := cache topic payload now c in
  if str_eq topic (statusTopic c) then set_conn_status payload c' else c'.

Record loRaFrame := mkloRaFrame {
  lf_Type : Z; lf_From : Z;
  lf_RSSI : option float64; lf_SNR : option float64;
  lf_Temperature : option float64; lf_Humidity : option float64; lf_Satellites : option float64
}.

(** The closure [set]. *)
Definition set_field (now : Time) (c : CustomizedClient) (kv : string * option float64)
  : CustomizedClient :=
  match kv with
  | (_, None) => c
  | (key, Some v) => cache key (FormatShortest v) now c
  end.

Definition frame_fields (f : loRaFrame) : list (string * option float64) :=
  [("temperature", lf_Temperature f); ("humidity", lf_Humidity f);
   ("satellites", lf_Satellites f); ("rssi", lf_RSSI f); ("snr", lf_SNR f)]%string.

(** [frame] is the payload as [json.Unmarshal] decoded it, [None] for an error; the
    two readings of the clock are one. *)
Definition onLoRaFrameFrom (now : Time) (t : TransportConfig) (frame : option loRaFrame)
    (c : CustomizedClient) : CustomizedClient :=
  match frame with
  | None => c
  | Some f =>
      let want := if tc_NodeID t =? 0 then cd_NodeID (cc_Config c) else tc_NodeID t in
      if negb (lf_From f =? want) then c
      else set_lastFrame now (fold_left (set_field now) (frame_fields f) (markSeen now (tc_Type t) c))
  end.

Definition onLoRaFrame (now : Time) (frame : option loRaFrame) (c : CustomizedClient)
  : CustomizedClient :=
  onLoRaFrameFrom now
    (mkTransportConfig "lora" "" "" (cd_NodeID (cc_Config c)) false false 0 0) frame c.

(** Losing the broker says nothing about the device. *)
Definition onConnectionLost `{DeviceStatuses} (c : CustomizedClient) : CustomizedClient :=
  set_conn_status DeviceStatusUnknown c.

Definition GetDeviceData (c : CustomizedClient) (v : VisitorConfig) : result Datum ReadError :=
  let topic := if is_empty (cd_Gateway (cc_Config c)) then resolve c v (vc_Topic v)
               else vc_Topic v in
  if is_empty topic then Err NoTopic
  else match cc_values c !! topic with
       | None => Err (NoValueYet topic)
       | Some raw => convert raw (vc_DataType v)
       end.

Definition GetDeviceStates `{DeviceStatuses} (connected : bool) (now : Time)
    (c : CustomizedClient) : string :=
  let cfg := cc_Config c in
  if negb connected then DeviceStatusUnknown
  else if negb (is_empty (cd_Gateway cfg)) then
    if IsZero (cc_lastFrame c) then DeviceStatusUnknown
    else
      let expected := wrap64 (cd_ExpectedIntervalSeconds cfg * Second) in
      let expected := if expected <=? 0 then 60 * Second else expected in
      let mult := if cd_StaleMultiplier cfg <=? 0 then 3 else cd_StaleMultiplier cfg in
      if sub_time now (cc_lastFrame c) >? wrap64 (expected * mult) then DeviceStatusDisCONN
      else DeviceStatusOK
  else
    let s := ToLower (TrimSpace (cc_status c)) in
    if str_eq s "online" then DeviceStatusOK
    else if str_eq s "offline" then DeviceStatusOffline
    else DeviceStatusUnknown.

(** ** Definitions: connecting (driver.go) *)

Inductive ConnectError :=
| BrokerRequired
| NoAddress
| GatewayWithoutNode (gateway : string)
| ConnectTimeout (broker : string) (timeout : Duration)
| ConnectFailed (broker err : string).

(** What listens on a subscription. *)
Inductive Subscription :=
| Direct (filter : string) (t : TransportConfig)
| Relayed (filter : string) (t : TransportConfig).

Definition subscription (t : TransportConfig) : option Subscription :=
  if negb (is_empty (tc_TopicPrefix t)) then Some (Direct (tc_TopicPrefix t +:+ "/#") t)
  else if negb (is_empty (tc_Gateway t)) then Some (Relayed (tc_Gateway t +:+ "/lora/rx") t)
  else None.

Record Connection := mkConnection {
  con_Broker : string; con_ClientID : string; con_Credentials : option (string * string);
  con_Subscriptions : list Subscription
}.

Definition connect_timeout (cfg : ConfigData) : Duration :=
  let t := wrap64 (cd_ConnectTimeoutSeconds cfg * Second) in
  if t <=? 0 then 10 * Second else t.

(** [InitDevice]: what is connected with, or why nothing is. *)
Definition InitDevice (broker : Connection -> Token) (c : CustomizedClient)
  : result Connection ConnectError :=
  let cfg := cc_Config c in
  if is_empty (cd_Broker cfg) then Err BrokerRequired
  else if is_empty (cd_Gateway cfg) && is_empty (cd_TopicPrefix cfg) then Err NoAddress
  else if negb (is_empty (cd_Gateway cfg)) && (cd_NodeID cfg =? 0)
  then Err (GatewayWithoutNode (cd_Gateway cfg))
  else
    let clientID :=
      if is_empty (cd_ClientID cfg) then
        if negb (is_empty (cd_Gateway cfg))
        then "torpor-mapper-" +:+ subject c +:+ "-via-" +:+ cd_Gateway cfg
        else "torpor-mapper-" +:+ cd_TopicPrefix cfg
      else cd_ClientID cfg in
    let con := mkConnection (cd_Broker cfg) clientID%string
      (if is_empty (cd_Username cfg) then None else Some (cd_Username cfg, cd_Password cfg))
      (omap subscription (effectiveTransports c)) in
    match broker con with
    | TokenDone => Ok con
    | TokenTimeout => Err (ConnectTimeout (cd_Broker cfg) (connect_timeout cfg))
    | TokenError err => Err (ConnectFailed (cd_Broker cfg) err)
    end.

(** What a message does to the client, by the subscription it came in on. *)
Definition deliver (decode : string -> option loRaFrame) (now : Time) (s : Subscription)
    (topic payload : string) (c : CustomizedClient) : CustomizedClient :=
  match s with
  | Direct _ t => onMessage now topic payload (markSeen now (tc_Type t) c)
  | Relayed _ t => onLoRaFrameFrom now t (decode payload) c
  end.

(** ** Lemmas *)

Lemma effectiveTransports_nonempty c : effectiveTransports c <> [].
Proof. unfold effectiveTransports. destruct (cd_Transports _); [by case_match|done]. Qed.

Lemma select_fold v n ts capable names :
  fold_left (fun '(capable, names) t =>
    (if could_carry v n t then capable ++ [t] else capable, names ++ [tc_Type t])) ts (capable, names)
  = (capable ++ List.filter (could_carry v n) ts, names ++ map tc_Type ts).
Proof.
  revert capable names. induction ts as [|t ts IH]; intros; simpl; [by rewrite !app_nil_r|].
  rewrite IH. destruct (could_carry v n t); by rewrite <- !app_assoc.
Qed.

(** [selectTransport], without its accumulators. *)
Lemma selectTransport_unfold now c v n :
  selectTransport now c v n =
  let able := List.filter (could_carry v n) (effectiveTransports c) in
  match able with
  | [] => Err (CannotCarry n (map tc_Type (effectiveTransports c)))
  | _ => match find (isUp now c) able with
         | Some t => Ok t
         | None => Err (NoneUp (map tc_Type able))
         end
  end.
Proof.
  unfold selectTransport. rewrite select_fold. simpl.
  pose proof (effectiveTransports_nonempty c). by destruct (effectiveTransports c).
Qed.

Lemma find_first {A} (f g : A -> bool) l x :
  find g (List.filter f l) = Some x ->
  exists l1 l2, l = l1 ++ x :: l2 /\ f x = true /\ g x = true /\
    forall y, In y l1 -> f y = true -> g y = false.
Proof.
  induction l as [|y l IH]; simpl; [done|]. destruct (f y) eqn:Ef; simpl.
  - destruct (g y) eqn:Eg.
    + intros [= ->]. by exists [], l.
    + intros (l1 & l2 & -> & ? & ? & Hall)%IH. exists (y :: l1), l2.
      split_and!; [done|done|done|]. intros z [<-|Hz] Hf; auto.
  - intros (l1 & l2 & -> & ? & ? & Hall)%IH. exists (y :: l1), l2.
    split_and!; [done|done|done|]. intros z [<-|Hz] Hf; [congruence|auto].
Qed.

Lemma could_carry_spec v n t :
  could_carry v n t = true <->
  (vc_RequiresTransport v = ""%string \/ vc_RequiresTransport v = tc_Type t) /\
  (tc_Config t = true \/ tc_OTA t = true) /\
  (vc_RequiresTransport v = "ota"%string -> tc_OTA t = true) /\
  (tc_MaxWriteBytes t <= 0 \/ n <= tc_MaxWriteBytes t).
Proof.
  assert (could_carry v n t =
    (is_empty (vc_RequiresTransport v) || str_eq (tc_Type t) (vc_RequiresTransport v)) &&
    (tc_Config t || tc_OTA t) &&
    (negb (str_eq (vc_RequiresTransport v) "ota") || tc_OTA t) &&
    (negb (tc_MaxWriteBytes t >? 0) || negb (n >? tc_MaxWriteBytes t))) as ->.
  { unfold could_carry. destruct (is_empty _), (str_eq (tc_Type t) _), (tc_Config t), (tc_OTA t),
      (str_eq (vc_RequiresTransport v) "ota"), (tc_MaxWriteBytes t >? 0); simpl; try done;
      by destruct (n >? _). }
  unfold is_empty. rewrite !andb_true_iff, !orb_true_iff, !negb_true_iff, !str_eq_true, str_eq_false.
  rewrite !Z.gtb_ltb, !Z.ltb_ge.
  assert ((vc_RequiresTransport v <> "ota"%string \/ tc_OTA t = true) <->
          (vc_RequiresTransport v = "ota"%string -> tc_OTA t = true)) as <-
    by (destruct (decide (vc_RequiresTransport v = "ota"%string)); naive_solver).
  split; intros (((H1 & ?) & ?) & ?) || intros (H1 & ? & ? & ?); split_and!; try done;
    destruct H1; auto.
Qed.

(** Staleness, without wrap-around: a declared limit that fits into a duration. *)
Definition stale_fits (t : TransportConfig) : Prop :=
  0 < tc_StaleAfterSeconds t * Second <= MaxInt64.

Lemma isUp_marked now c t :
  stale_fits t -> isUp now (markSeen now (tc_Type t) c) t = true.
Proof.
  unfold stale_fits. intros Hs. unfold isUp, markSeen. simpl.
  destruct (Z.leb_spec (tc_StaleAfterSeconds t) 0); [done|].
  rewrite lookup_insert_eq, wrap64_id by (unfold MinInt64, MaxInt64 in *; lia).
  apply Z.ltb_lt. replace (sub_time now now) with 0; [lia|].
  unfold sub_time. by rewrite Z.sub_diag.
Qed.

(** ** Properties: choosing a door *)

(** The choice of a transport, on every branch: the first declared one that could
    carry the write and is up; or a refusal naming every transport, exactly when none
    could ever carry it; or a deferral naming those that could, exactly when none of
    them is up. *)
Theorem selectTransport_decides now c v n :
  let ts := effectiveTransports c in
  match selectTransport now c v n with
  | Ok t =>
      could_carry v n t = true /\ isUp now c t = true /\
      exists l1 l2, ts = l1 ++ t :: l2 /\
        forall u, In u l1 -> could_carry v n u = true -> isUp now c u = false
  | Err (CannotCarry k names) =>
      k = n /\ names = map tc_Type ts /\ forall t, In t ts -> could_carry v n t = false
  | Err (NoneUp names) =>
      names = map tc_Type (List.filter (could_carry v n) ts) /\
      (exists t, In t ts /\ could_carry v n t = true) /\
      forall t, In t ts -> could_carry v n t = true -> isUp now c t = false
  | Err _ => False
  end.
Proof.
  cbv zeta. rewrite selectTransport_unfold. cbv zeta.
  set (ts := effectiveTransports c).
  destruct (List.filter (could_carry v n) ts) as [|t0 able] eqn:Ea.
  - split_and!; [done|done|]. intros t Ht. by apply (proj1 (filter_nil_In _ _) Ea).
  - rewrite <- Ea. destruct (find (isUp now c) (List.filter (could_carry v n) ts)) as [t|] eqn:E.
    + apply find_first in E as (l1 & l2 & -> & ? & ? & ?). split_and!; [done|done|by exists l1, l2].
    + split_and!; [done| |].
      * exists t0. apply filter_In. rewrite Ea. by left.
      * intros t Ht Hc. apply (find_none _ _ E). by apply filter_In.
Qed.

(** C15. Refusals are permanent, deferrals are not: a write that cannot be carried
    cannot be carried at any time and after any traffic, under the same
    configuration; and one that is deferred is accepted the moment anything arrives
    over a transport that could carry it. *)
Theorem selectTransport_permanence now now' c c' v n :
  cc_Config c' = cc_Config c ->
  (forall names, selectTransport now c v n = Err (CannotCarry n names) <->
                 selectTransport now' c' v n = Err (CannotCarry n names)) /\
  (forall names t, selectTransport now c v n = Err (NoneUp names) ->
     In t (effectiveTransports c) -> could_carry v n t = true -> stale_fits t ->
     exists u, selectTransport now' (markSeen now' (tc_Type t) c) v n = Ok u).
Proof.
  intros Hc.
  assert (forall c'', cc_Config c'' = cc_Config c ->
    effectiveTransports c'' = effectiveTransports c) as Hts
    by (intros c'' E; unfold effectiveTransports; by rewrite E).
  rewrite !selectTransport_unfold, (Hts c' Hc). cbv zeta. split.
  - intros names. destruct (List.filter _ _) as [|t0 able]; [done|].
    destruct (find (isUp now c) _), (find (isUp now' c') _); split; intros E; discriminate E.
  - intros names t _ Ht Hcan Hfit. rewrite selectTransport_unfold. cbv zeta. rewrite (Hts (markSeen now' (tc_Type t) c) eq_refl).
    assert (In t (List.filter (could_carry v n) (effectiveTransports c))) as Hin
      by by apply filter_In.
    destruct (List.filter _ _) as [|t0 able] eqn:Ea; [by destruct Hin|]. rewrite <- Ea in *.
    destruct (find _ _) as [u|] eqn:E; [by exists u|].
    apply (find_none _ _ E) in Hin. by rewrite isUp_marked in Hin.
Qed.

(** C16. Whatever is published goes out through an open door that could carry it: the
    property is writable, the topic is under the prefix of a declared transport that
    is up, the payload is the formatted value and fits, and a demanded transport is
    the one used. *)
Theorem DeviceDataWrite_safe broker now c v property data p outcome :
  DeviceDataWrite broker now c v property data = (Some p, outcome) ->
  is_empty (vc_CommandTopic v) = false /\ pub_Payload p = format data /\
  exists t, In t (effectiveTransports c) /\ isUp now c t = true /\
    could_carry v (Z.of_nat (String.length (pub_Payload p))) t = true /\
    pub_Topic p = (tc_TopicPrefix t +:+ "/" +:+ TrimPrefix_slash (vc_CommandTopic v))%string /\
    tc_TopicPrefix t <> ""%string /\
    (0 < tc_MaxWriteBytes t -> Z.of_nat (String.length (pub_Payload p)) <= tc_MaxWriteBytes t) /\
    (vc_RequiresTransport v = ""%string \/ vc_RequiresTransport v = tc_Type t).
Proof.
  unfold DeviceDataWrite. destruct (is_empty (vc_CommandTopic v)); [done|].
  pose proof (selectTransport_unfold now c v (Z.of_nat (String.length (format data)))) as Hsel.
  destruct (selectTransport now c v _) as [t|e]; [|done].
  unfold writeVia. destruct (is_empty (tc_TopicPrefix t)) eqn:Ep; [done|].
  intros [= <- <-]. simpl. split_and!; [done|done|]. exists t.
  cbv zeta in Hsel. destruct (List.filter _ _) as [|t0 able] eqn:Ea; [done|]. rewrite <- Ea in Hsel.
  destruct (find _ _) as [u|] eqn:E; [|done]. injection Hsel as ->.
  apply find_some in E as [[Hin Hcan]%filter_In Hup].
  pose proof (proj1 (could_carry_spec _ _ _) Hcan) as (Hreq & _ & _ & Hmax).
  split_and!; try done; [by apply str_eq_false|lia].
Qed.

(** A transport behind a gateway is chosen like any other and then refused, whatever
    else is up. *)
Lemma relayed_first_blocks broker now c v property data t ts :
  is_empty (vc_CommandTopic v) = false -> effectiveTransports c = t :: ts ->
  could_carry v (Z.of_nat (String.length (format data))) t = true -> isUp now c t = true ->
  tc_TopicPrefix t = ""%string ->
  DeviceDataWrite broker now c v property data = (None, Some (NoDownlink t)).
Proof.
  intros Hc Ht Hcan Hup Hp. unfold DeviceDataWrite. rewrite Hc, selectTransport_unfold, Ht.
  simpl. rewrite Hcan. simpl. rewrite Hup. unfold writeVia. by rewrite Hp.
Qed.

(** A demand for "ota" is a demand for a transport of that name. *)
Lemma requires_ota_by_name now c v n :
  vc_RequiresTransport v = "ota"%string ->
  (forall t, In t (effectiveTransports c) -> tc_Type t <> "ota"%string) ->
  selectTransport now c v n = Err (CannotCarry n (map tc_Type (effectiveTransports c))).
Proof.
  intros Hr Hno. rewrite selectTransport_unfold. cbv zeta.
  destruct (List.filter _ _) as [|t able] eqn:E; [done|].
  assert (In t (List.filter (could_carry v n) (effectiveTransports c))) as [Hin Hc]%filter_In
    by (rewrite E; by left).
  apply could_carry_spec in Hc as ([Hq|Hq] & _); [congruence|].
  destruct (Hno t Hin). congruence.
Qed.

(** ** Lemmas: frames *)

Lemma set_field_values now c kv key :
  cc_values (set_field now c kv) !! key =
  match kv with
  | (k, Some v) => if decide (k = key) then Some (FormatShortest v) else cc_values c !! key
  | (_, None) => cc_values c !! key
  end.
Proof.
  destruct kv as [k [v|]]; simpl; [|done]. destruct (decide (k = key)) as [->|Hne].
  - by rewrite lookup_insert_eq.
  - by rewrite lookup_insert_ne.
Qed.

Lemma set_field_frame now c kv :
  cc_Config (set_field now c kv) = cc_Config c /\
  cc_status (set_field now c kv) = cc_status c /\
  cc_lastSeenPer (set_field now c kv) = cc_lastSeenPer c.
Proof. by destruct kv as [k [v|]]. Qed.

Lemma set_fields_frame now l c :
  let c' := fold_left (set_field now) l c in
  cc_Config c' = cc_Config c /\ cc_status c' = cc_status c /\
  cc_lastSeenPer c' = cc_lastSeenPer c.
Proof.
  revert c. induction l as [|kv l IH]; intros c; simpl; [done|].
  destruct (IH (set_field now c kv)) as (-> & -> & ->), (set_field_frame now c kv) as (-> & -> & ->).
  done.
Qed.

(** The last payload under [key] after the fields of a frame. *)
Fixpoint field_value (l : list (string * option float64)) (key : string) : option string :=
  match l with
  | [] => None
  | (k, v) :: l' =>
      match field_value l' key with
      | Some s => Some s
      | None => if str_eq k key then FormatShortest <$> v else None
      end
  end.

Lemma set_fields_values now l c key :
  cc_values (fold_left (set_field now) l c) !! key =
  match field_value l key with Some s => Some s | None => cc_values c !! key end.
Proof.
  revert c. induction l as [|[k v] l IH]; intros c; cbn [fold_left field_value]; [done|].
  rewrite IH. destruct (field_value l key); [done|].
  rewrite set_field_values. destruct v as [v|]; [|by destruct (str_eq k key)].
  destruct (decide (k = key)) as [->|Hne]; [by rewrite str_eq_refl|].
  by rewrite (proj2 (str_eq_false k key) Hne).
Qed.

(** ** Properties: what arrives *)

(** A message touches only what it is about: never the configuration, and never
    another transport's traffic. A direct one leaves exactly its payload under its
    topic, and the status if it is the status topic. A relayed one that does not
    decode or comes from another node changes nothing at all; one of the device's own
    is proof of life and leaves exactly the fields it carries. *)
Theorem deliver_effects decode now s topic payload c :
  let c' := deliver decode now s topic payload c in
  let t := match s with Direct _ t | Relayed _ t => t end in
  cc_Config c' = cc_Config c /\
  (forall ty, ty <> tc_Type t -> cc_lastSeenPer c' !! ty = cc_lastSeenPer c !! ty) /\
  match s with
  | Direct _ t =>
      cc_lastSeenPer c' !! tc_Type t = Some now /\
      (forall k, cc_values c' !! k = if str_eq k topic then Some payload else cc_values c !! k) /\
      cc_status c' = if str_eq topic (statusTopic c) then payload else cc_status c
  | Relayed _ t =>
      let own := if tc_NodeID t =? 0 then cd_NodeID (cc_Config c) else tc_NodeID t in
      match decode payload with
      | Some f =>
          if lf_From f =? own then
            cc_lastSeenPer c' !! tc_Type t = Some now /\ cc_lastFrame c' = now /\
            cc_status c' = cc_status c /\
            forall k, cc_values c' !! k = match field_value (frame_fields f) k with
                                          | Some v => Some v | None => cc_values c !! k end
          else c' = c
      | None => c' = c
      end
  end.
Proof.
  destruct s as [filter t|filter t]; simpl.
  - unfold onMessage. change (statusTopic (markSeen now (tc_Type t) c)) with (statusTopic c).
    assert (forall k, (<[topic:=payload]> (cc_values c)) !! k =
      if str_eq k topic then Some payload else cc_values c !! k) as Hv.
    { intros k. destruct (str_eq k topic) eqn:E.
      - apply str_eq_true in E as ->. by rewrite lookup_insert_eq.
      - apply str_eq_false in E. by rewrite lookup_insert_ne. }
    destruct (str_eq topic (statusTopic c)); simpl;
      (split_and!; [done|intros; by rewrite lookup_insert_ne|by rewrite lookup_insert_eq|done|done]).
  - unfold onLoRaFrameFrom. destruct (decode payload) as [f|]; [|done].
    destruct (lf_From f =? _); simpl negb; cbv iota; [|done].
    destruct (set_fields_frame now (frame_fields f) (markSeen now (tc_Type t) c)) as (E1 & E2 & E3).
    cbv beta iota delta [set_lastFrame cc_Config cc_values cc_status cc_lastFrame cc_lastSeenPer]
      in E1, E2, E3 |- *.
    split_and!; try done.
    + intros ty Hne. fold (cc_lastSeenPer c). etrans; [|exact (lookup_insert_ne (cc_lastSeenPer c) (tc_Type t) ty now ltac:(done))].
      exact (f_equal (fun m : gmap string Time => m !! ty) E3).
    + etrans; [exact (f_equal (fun m : gmap string Time => m !! tc_Type t) E3)|].
      exact (lookup_insert_eq (cc_lastSeenPer c) (tc_Type t) now).
    + intros k. exact (set_fields_values now (frame_fields f) (markSeen now (tc_Type t) c) k).
Qed.

(** ** Properties: liveness *)

(** The silence a relayed device is allowed. *)
Definition allowed_silence (cfg : ConfigData) : Z :=
  (if cd_ExpectedIntervalSeconds cfg <=? 0 then 60 else cd_ExpectedIntervalSeconds cfg) * Second *
  (if cd_StaleMultiplier cfg <=? 0 then 3 else cd_StaleMultiplier cfg).

(** The state of a device, on every branch: nothing is known without a broker; a
    relayed device is unknown until its first frame, then fine exactly as long as its
    silence is within its interval times its multiplier, with a minute and three for
    those that are not set; a direct device is what its birth or will message says. *)
Theorem GetDeviceStates_verdict `{DeviceStatuses} connected now c :
  let cfg := cc_Config c in
  0 <= cd_ExpectedIntervalSeconds cfg * Second <= MaxInt64 -> allowed_silence cfg <= MaxInt64 ->
  GetDeviceStates connected now c =
  if negb connected then DeviceStatusUnknown
  else if is_empty (cd_Gateway cfg) then
    let s := ToLower (TrimSpace (cc_status c)) in
    if str_eq s "online" then DeviceStatusOK
    else if str_eq s "offline" then DeviceStatusOffline else DeviceStatusUnknown
  else if IsZero (cc_lastFrame c) then DeviceStatusUnknown
  else if sub_time now (cc_lastFrame c) <=? allowed_silence cfg then DeviceStatusOK
  else DeviceStatusDisCONN.
Proof.
  intros cfg He Ha. unfold GetDeviceStates. fold cfg.
  destruct connected; [|done]. simpl negb at 1. cbv iota.
  destruct (is_empty (cd_Gateway cfg)); [done|]. simpl negb. cbv iota.
  destruct (IsZero (cc_lastFrame c)); [done|].
  rewrite (wrap64_id (cd_ExpectedIntervalSeconds cfg * Second))
    by (unfold MinInt64, MaxInt64 in *; lia).
  assert ((if cd_ExpectedIntervalSeconds cfg * Second <=? 0 then 60 * Second
           else cd_ExpectedIntervalSeconds cfg * Second) *
          (if cd_StaleMultiplier cfg <=? 0 then 3 else cd_StaleMultiplier cfg) = allowed_silence cfg)
    as ->.
  { unfold allowed_silence. assert (0 < Second) by done.
    destruct (Z.leb_spec (cd_ExpectedIntervalSeconds cfg * Second) 0),
      (Z.leb_spec (cd_ExpectedIntervalSeconds cfg) 0); nia. }
  assert (0 <= allowed_silence cfg).
  { unfold allowed_silence. assert (0 < Second) by done.
    destruct (Z.leb_spec (cd_ExpectedIntervalSeconds cfg) 0),
      (Z.leb_spec (cd_StaleMultiplier cfg) 0); nia. }
  rewrite wrap64_id by (unfold MinInt64, MaxInt64 in *; lia).
  rewrite Z.gtb_ltb. destruct (Z.ltb_spec (allowed_silence cfg) (sub_time now (cc_lastFrame c))),
    (Z.leb_spec (sub_time now (cc_lastFrame c)) (allowed_silence cfg)); done || lia.
Qed.

(** ** Lemmas: numbers are not trimmed *)

Definition number_byte (c : ascii) : bool := is_digit c || (byte_code c =? 45).

Lemma number_byte_width c s : number_byte c = true -> space_width (String c s) = 0%nat.
Proof.
  intros H. destruct c as [[] [] [] [] [] [] [] []]; try discriminate H; reflexivity.
Qed.

Lemma TrimSpace_number s : all_bytes number_byte s = true -> TrimSpace s = s.
Proof.
  intros H. assert (drop_spaces 0 s = s) as E.
  { destruct s as [|c s]; [done|]. simpl in H. apply andb_true_iff in H as [Hc _].
    cbn [drop_spaces]. by rewrite number_byte_width. }
  unfold TrimSpace. rewrite E. clear E. induction s as [|c s IH]; [done|].
  simpl in H. apply andb_true_iff in H as [Hc Hs]. cbn [trim_right all_spaces].
  rewrite number_byte_width by done. by rewrite IH.
Qed.

Lemma all_bytes_weaken (p q : ascii -> bool) s :
  (forall c, p c = true -> q c = true) -> all_bytes p s = true -> all_bytes q s = true.
Proof.
  intros Hpq. induction s as [|c s IH]; [done|]. simpl.
  intros [Hc Hs]%andb_true_iff. by rewrite (Hpq c Hc), IH.
Qed.

Lemma pretty_number (z : Z) : all_bytes number_byte (pretty z) = true.
Proof.
  assert (forall n, all_bytes number_byte (pretty_N_go n "") = true) as Hd.
  { intros n. apply (all_bytes_weaken is_digit); [|by apply pretty_digits].
    intros c Hc. unfold number_byte. by rewrite Hc. }
  destruct (Z.eq_dec z 0) as [->|Hz]; [done|]. rewrite pretty_signed_text by done.
  unfold signed_text. destruct (z <? 0); [|apply Hd]. simpl. apply Hd.
Qed.

(** ** Properties: codecs *)

Definition int_type (ty : string) : Prop :=
  one_of ["int"; "integer"; "int64"]%string (ToLower ty) = true.
Definition bool_type (ty : string) : Prop :=
  one_of ["boolean"; "bool"]%string (ToLower ty) = true.
Definition text_type (ty : string) : Prop :=
  one_of ["int"; "integer"; "int64"; "float"; "double"; "float64"; "boolean"; "bool"]%string
    (ToLower ty) = false.

(** C17. What a write sends is what a read of it returns: booleans, under any spelling
    of their type; integers, as long as a float64 holds them, since the text is read
    as a float; and text that has no space around it and does not spell a boolean. *)
Theorem convert_format_roundtrip ty :
  (forall b, bool_type ty -> convert (format (DBool b)) ty = Ok (DBool b)) /\
  (forall n, int_type ty -> - 2 ^ 53 <= n <= 2 ^ 53 ->
     convert (format (DInt64 n)) ty = Ok (DInt64 n)) /\
  (forall s, text_type ty -> TrimSpace s = s ->
     ~ In (ToUpper s) ["TRUE"; "FALSE"]%string ->
     convert (format (DString s)) ty = Ok (DString s)).
Proof.
  unfold convert, bool_type, int_type, text_type. split_and!.
  - intros b Hb.
    assert (one_of ["int"; "integer"; "int64"]%string (ToLower ty) = false /\
            one_of ["float"; "double"; "float64"]%string (ToLower ty) = false) as [-> ->].
    { unfold one_of in *. simpl in Hb. rewrite orb_false_r in Hb.
      apply orb_true_iff in Hb as [->%str_eq_true| ->%str_eq_true]; done. }
    rewrite Hb. by destruct b.
  - intros n Hn Hr. rewrite Hn. simpl format. rewrite TrimSpace_number by apply pretty_number.
    destruct (ParseFloat_pretty n Hr) as (f & -> & <-). done.
  - intros s Ht Htrim Hno. unfold one_of in *. cbn [existsb] in *.
    rewrite !orb_false_iff in Ht. destruct Ht as (-> & -> & -> & -> & -> & -> & -> & -> & _).
    simpl. rewrite Htrim. simpl in Hno.
    destruct (str_eq (ToUpper s) "TRUE") eqn:E1; [apply str_eq_true in E1; naive_solver|].
    destruct (str_eq (ToUpper s) "FALSE") eqn:E2; [apply str_eq_true in E2; naive_solver|].
    by rewrite Htrim.
Qed.

(** ** Concrete devices *)

#[local] Instance plain_statuses : DeviceStatuses :=
  {| DeviceStatusUnknown := "unknown"; DeviceStatusOK := "ok";
     DeviceStatusOffline := "offline"; DeviceStatusDisCONN := "disconnected" |}.

(** manifests/field-01-multitransport.yaml: LoRa always, WiFi when a truck is there. *)
Definition lora_door : TransportConfig := mkTransportConfig "lora" "" "w10-a" 7 false true 240 90.
Definition wifi_door : TransportConfig := mkTransportConfig "wifi" "w10-b" "" 0 true true 0 60.
Definition field_config : ConfigData :=
  mkConfigData "tcp://broker:1883" "" "" "" "" "" [lora_door; wifi_door] "w10-a" 7 30 0 0.
Definition field_client (seen : gmap string Time) : CustomizedClient :=
  mkCustomizedClient field_config ∅ ∅ "unknown" (UnixMilli 1700000000000) seen.
Definition tone : VisitorConfig :=
  mkVisitorConfig "string" "text/tone/state" "text/tone/command" false "" 32 false 0.
Definition firmware : VisitorConfig :=
  mkVisitorConfig "string" "text/fw/state" "text/fw/command" false "wifi" 128 false 0.
Definition both_up : gmap string Time :=
  {[ "lora"%string := UnixMilli 1700000000000; "wifi"%string := UnixMilli 1700000000000 ]}.
Definition wifi_gone : gmap string Time :=
  {[ "lora"%string := UnixMilli 1700000000000; "wifi"%string := UnixMilli 1600000000000 ]}.
Definition noon : Time := UnixMilli 1700000030000.

(** With both doors open a small write goes to the radio, which cannot carry it down. *)
Example small_write_blocked :
  DeviceDataWrite (fun _ => TokenDone) noon (field_client both_up) tone "tone" (DString "440")
  = (None, Some (NoDownlink lora_door)).
Proof. vm_compute. reflexivity. Qed.

Example firmware_deferred :
  DeviceDataWrite (fun _ => TokenDone) noon (field_client wifi_gone) firmware "firmware_url"
    (DString "abc|pkg") = (None, Some (WriteRefused "firmware_url" (NoneUp ["wifi"%string]))).
Proof. vm_compute. reflexivity. Qed.

Lemma DeviceDataWrite_safe_witness :
  exists t, In t (effectiveTransports (field_client both_up)) /\ isUp noon (field_client both_up) t = true /\
    "w10-b/text/fw/command"%string = (tc_TopicPrefix t +:+ "/" +:+ "text/fw/command")%string.
Proof.
  destruct (DeviceDataWrite_safe (fun _ => TokenDone) noon (field_client both_up) firmware
    "firmware_url" (DString "abc|pkg")
    (mkPublication "w10-b/text/fw/command" 0 false "abc|pkg") None)
    as (_ & _ & t & Hin & Hup & _ & Htopic & _).
  - vm_compute. reflexivity.
  - exists t. split; [exact Hin|]. split; [exact Hup|exact Htopic].
Defined.

Lemma selectTransport_permanence_witness :
  selectTransport noon (field_client wifi_gone) firmware 7 = Err (NoneUp ["wifi"%string]) /\
  exists u, selectTransport noon (markSeen noon "wifi" (field_client wifi_gone)) firmware 7 = Ok u.
Proof.
  assert (selectTransport noon (field_client wifi_gone) firmware 7 = Err (NoneUp ["wifi"%string]))
    as E by (vm_compute; reflexivity).
  split; [exact E|].
  destruct (selectTransport_permanence noon noon (field_client wifi_gone) (field_client wifi_gone)
    firmware 7 eq_refl) as [_ Hrec].
  apply (Hrec _ wifi_door E); [right; left; reflexivity|vm_compute; reflexivity|].
  unfold stale_fits. vm_compute. split; [reflexivity|discriminate].
Defined.

Lemma GetDeviceStates_verdict_witness :
  GetDeviceStates true (UnixMilli 1700000091000) (field_client ∅) = "disconnected"%string /\
  GetDeviceStates true (UnixMilli 1700000090000) (field_client ∅) = "ok"%string.
Proof.
  split; (etrans; [apply (GetDeviceStates_verdict true); vm_compute; try split; discriminate|
    vm_compute; reflexivity]).
Defined.

Lemma convert_format_roundtrip_witness :
  convert (format (DInt64 (-42))) "INT" = Ok (DInt64 (-42)) /\
  convert (format (DBool true)) "Boolean" = Ok (DBool true).
Proof.
  split.
  - destruct (convert_format_roundtrip "INT") as (_ & Hint & _). apply Hint; vm_compute.
    + reflexivity.
    + split; discriminate.
  - destruct (convert_format_roundtrip "Boolean") as (Hbool & _). apply Hbool.
    vm_compute. reflexivity.
Defined.

(** Beyond that a write and a read disagree. *)
Example integer_lost :
  convert (format (DInt64 9007199254740993)) "int" = Ok (DInt64 9007199254740992).
Proof. vm_compute. reflexivity. Qed.

Example float_texts :
  map (fun s => match ParseFloat s with Some f => format (DFloat64 f) | None => "" end)
    ["21.50"; "1e21"; "0.00001"; "123456789"; "-2.5e-7"]%string
  = ["21.5"; "1e+21"; "1e-05"; "1.23456789e+08"; "-2.5e-07"]%string.
Proof. vm_compute. reflexivity. Qed.
