(* ===== verification/Vivarium.v ===== *)
(** * The vivarium: controller/internal/vivarium

    An enclosure of organisms that speak like devices and fail like them. An organism
    reports at its ticks, takes commands, and flashes firmware in the background: a
    command leaves a pending flash, and pending flashes land in any order. The random
    generator is an interface (a state and a draw); the MQTT client is what its
    [IsConnected] says, and whether [Disconnect] has closed it for good. A handler is one step: [onCommand] and the flashes
    hold the organism's lock, and [tick] decides what to say under it and publishes
    after it, so that a flash
    landing in between is taken to land after the tick. *)

From Stdlib Require Import Ascii.
From S2P Require Import Prelude GoTime GoFloat GoStrings GoParseFloat.
Local Open Scope Z_scope.

(** ** Definitions: the description of a fleet (types.go) *)

Definition FailureMode := string.
Definition FailNone : FailureMode := "".
Definition FailReportsWithoutRunning : FailureMode := "reportsWithoutRunning".
Definition FailBootLoop : FailureMode := "bootLoop".
Definition FailBricks : FailureMode := "bricks".
Definition FailIgnores : FailureMode := "ignores".
Definition FailWrongHash : FailureMode := "wrongHash".
Definition FailIntermittent : FailureMode := "intermittent".

Record Behaviour := mkBehaviour {
  bh_PacketLoss : float64;
  bh_Jitter : float64;
  bh_OnFirmware : FailureMode;
  bh_FirmwareDelay : Duration;
  bh_FailChance : float64
}.

Record Device := mkDevice {
  dv_Name : string;
  dv_TopicPrefix : string;
  dv_Gateway : string;
  dv_NodeID : Z;
  dv_Cohort : string;
  dv_ReportEvery : Duration;
  dv_ConfigHash : string;
  dv_Battery : float64;
  dv_BatteryDrainPerDay : float64;
  dv_Behaviour : Behaviour
}.

Record Cohort := mkCohort {
  co_Name : string;
  co_FirmwareFailsFor : list string;
  co_FailureMode : FailureMode
}.

Record Gateway := mkGateway {
  gw_Name : string; gw_OutageEvery : Duration; gw_OutageFor : Duration }.

Record Fleet := mkFleet {
  fl_Seed : Z;
  fl_Speed : float64;
  fl_Cohorts : list Cohort;
  fl_Gateways : list Gateway;
  fl_Devices : list Device
}.

Definition Or (d def : Duration) : Duration := if d =? 0 then def else d.

(** ** Definitions: randomness *)

(** A generator of math/rand: [Float64] draws from the half-open unit interval. *)
Class RandSource := {
  Rand : Type;
  NewSource : Z -> Rand;
  Float64 : Rand -> float64 * Rand
}.

(** The runes of a string, as [range] yields them: a byte that starts no well-formed
    sequence is the replacement character. *)
Definition continuation (lo hi c : Z) : bool := (lo <=? c) && (c <=? hi).
Definition tail_bits (c : Z) : Z := c - 128.

Definition decode_rune (codes : list Z) : Z * nat :=
  match codes with
  | [] => (65533, 1%nat)
  | a :: rest =>
      if a <? 128 then (a, 1%nat)
      else match rest with
      | b :: rest =>
          if continuation 194 223 a && continuation 128 191 b
          then ((a - 192) * 64 + tail_bits b, 2%nat)
          else match rest with
          | c :: rest =>
              let blo := if a =? 224 then 160 else 128 in
              let bhi := if a =? 237 then 159 else 191 in
              if continuation 224 239 a && continuation blo bhi b && continuation 128 191 c
              then ((a - 224) * 4096 + tail_bits b * 64 + tail_bits c, 3%nat)
              else match rest with
              | d :: _ =>
                  let blo := if a =? 240 then 144 else 128 in
                  let bhi := if a =? 244 then 143 else 191 in
                  if continuation 240 244 a && continuation blo bhi b &&
                     continuation 128 191 c && continuation 128 191 d
                  then ((a - 240) * 262144 + tail_bits b * 4096 + tail_bits c * 64 + tail_bits d, 4%nat)
                  else (65533, 1%nat)
              | [] => (65533, 1%nat)
              end
          | [] => (65533, 1%nat)
          end
      | [] => (65533, 1%nat)
      end
  end.

Fixpoint bytes_of (s : string) : list Z :=
  match s with EmptyString => [] | String c s' => byte_code c :: bytes_of s' end.

Fixpoint runes_from (skip : nat) (codes : list Z) : list Z :=
  match codes with
  | [] => []
  | _ :: codes' =>
      match skip with
      | S k => runes_from k codes'
      | O => let '(r, width) := decode_rune codes in r :: runes_from (width - 1) codes'
      end
  end.
Definition runes (s : string) : list Z := runes_from 0 (bytes_of s).

(** [rngFor]: FNV-1a over the runes, in 64 bits. *)
Definition fnv_step (h c : Z) : Z := (Z.lxor h c * 1099511628211) mod 2 ^ 64.
Definition fnv (name : string) : Z := fold_left fnv_step (runes name) 14695981039346656037.

Definition rngFor `{RandSource} (seed : Z) (name : string) : Rand :=
  NewSource (Z.lxor seed (wrap64 (fnv name))).

(** ** Definitions: time (enclosure.go) *)

Record Clock := mkClock { ck_start : Time; ck_speed : float64 }.

(** [time.Duration(float64(d) * x)] and the quotient. *)
Definition scale_by (op : float64 -> float64 -> float64) (d : Duration) (x : float64) : Duration :=
  f_to_int64 (op (f_of_Z d) x).

(** [wall] is what [time.Now] returns. *)
Definition clock_now (c : Clock) (wall : Time) : Time :=
  if f_le (ck_speed c) (f_of_Z 1) then wall
  else add_time (ck_start c) (scale_by f_mul (sub_time wall (ck_start c)) (ck_speed c)).

Definition Scale (c : Clock) (d : Duration) : Duration :=
  if f_le (ck_speed c) (f_of_Z 1) then d else scale_by f_div d (ck_speed c).

(** [d.Hours()]. *)
Definition Hours (d : Duration) : float64 :=
  f_add (f_of_Z (Z.quot d Hour)) (f_div (f_of_Z (Z.rem d Hour)) (f_of_Z 3600000000000)).

(** ** Definitions: gateways *)

Record gatewayState := mkgatewayState {
  gs_cfg : Gateway; gs_down : bool; gs_nextAt : Time; gs_until : Time }.

Definition isDown (now : Time) (g : gatewayState) : bool * gatewayState :=
  let cfg := gs_cfg g in
  if gw_OutageEvery cfg =? 0 then (false, g)
  else
    let g := if gs_down g && After now (gs_until g)
             then mkgatewayState cfg false (add_time now (gw_OutageEvery cfg)) (gs_until g) else g in
    let g := if negb (gs_down g) && negb (IsZero (gs_nextAt g)) && After now (gs_nextAt g)
             then mkgatewayState cfg true (gs_nextAt g)
                    (add_time now (Or (gw_OutageFor cfg) (10 * Minute))) else g in
    let g := if IsZero (gs_nextAt g)
             then mkgatewayState cfg (gs_down g) (add_time now (gw_OutageEvery cfg)) (gs_until g)
             else g in
    (gs_down g, g).

(** ** Definitions: organisms *)

Section Organism.
Context `{RandSource} `{StrconvQuote}.

Record organism := mkorganism {
  og_dev : Device;
  og_cohort : option Cohort;
  og_rng : Rand;
  og_connected : bool;
  og_stopped : bool;
  og_runningHash : string;
  og_reportedHash : string;
  og_battery : float64;
  og_bootCount : Z;
  og_silentUntil : Time;
  og_bricked : bool
}.

Record Enclosure := mkEnclosure {
  en_clock : Clock;
  en_organs : list organism;
  en_gws : gmap string gatewayState
}.

(** The loop over the cohorts has no break: the last one of that name. *)
Definition cohort_of (cohorts : list Cohort) (name : string) : option Cohort :=
  fold_left (fun found c => if str_eq (co_Name c) name then Some c else found) cohorts None.

Definition hatch (seed : Z) (cohorts : list Cohort) (d : Device) : organism :=
  mkorganism d (cohort_of cohorts (dv_Cohort d)) (rngFor seed (dv_Name d)) false false
    (dv_ConfigHash d) (dv_ConfigHash d)
    (if f_eq (dv_Battery d) (f_of_Z 0) then f_of_Z 100 else dv_Battery d) 0 zero_time false.

Definition New (wall : Time) (f : Fleet) : Enclosure :=
  let speed := if f_le (fl_Speed f) (f_of_Z 0) then f_of_Z 1 else fl_Speed f in
  mkEnclosure (mkClock wall speed)
    (fold_left (fun os d => os ++ [hatch (fl_Seed f) (fl_Cohorts f) d]) (fl_Devices f) [])
    (fold_left (fun gws g => <[gw_Name g := mkgatewayState g false zero_time zero_time]> gws)
       (fl_Gateways f) ∅).

Definition topicPrefix (o : organism) : string :=
  if is_empty (dv_TopicPrefix (og_dev o)) then dv_Name (og_dev o) else dv_TopicPrefix (og_dev o).

Definition Message : Type := string * string.

Definition with_rng (r : Rand) (o : organism) : organism :=
  mkorganism (og_dev o) (og_cohort o) r (og_connected o) (og_stopped o) (og_runningHash o)
    (og_reportedHash o) (og_battery o) (og_bootCount o) (og_silentUntil o) (og_bricked o).
Definition with_battery (b : float64) (o : organism) : organism :=
  mkorganism (og_dev o) (og_cohort o) (og_rng o) (og_connected o) (og_stopped o)
    (og_runningHash o) (og_reportedHash o) b (og_bootCount o) (og_silentUntil o) (og_bricked o).
Definition with_hashes (running reported : string) (o : organism) : organism :=
  mkorganism (og_dev o) (og_cohort o) (og_rng o) (og_connected o) (og_stopped o) running reported
    (og_battery o) (og_bootCount o) (og_silentUntil o) (og_bricked o).
Definition with_boots (n : Z) (o : organism) : organism :=
  mkorganism (og_dev o) (og_cohort o) (og_rng o) (og_connected o) (og_stopped o)
    (og_runningHash o) (og_reportedHash o) (og_battery o) n (og_silentUntil o) (og_bricked o).
Definition with_silence (t : Time) (o : organism) : organism :=
  mkorganism (og_dev o) (og_cohort o) (og_rng o) (og_connected o) (og_stopped o)
    (og_runningHash o) (og_reportedHash o) (og_battery o) (og_bootCount o) t (og_bricked o).
Definition with_connection (connected stopped : bool) (o : organism) : organism :=
  mkorganism (og_dev o) (og_cohort o) (og_rng o) connected stopped (og_runningHash o)
    (og_reportedHash o) (og_battery o) (og_bootCount o) (og_silentUntil o) (og_bricked o).
Definition brick (o : organism) : organism :=
  mkorganism (og_dev o) (og_cohort o) (og_rng o) (og_connected o) (og_stopped o)
    (og_runningHash o) (og_reportedHash o) (og_battery o) (og_bootCount o) (og_silentUntil o) true.

Definition draw (o : organism) : float64 * organism :=
  let '(x, r) := Float64 (og_rng o) in (x, with_rng r o).

Definition pubAs (o : organism) (topic val : string) : list Message :=
  if og_connected o then [(topic, val)] else [].

(** A message may be dropped: one more draw. *)
Definition pub (topic val : string) (o : organism) : list Message * organism :=
  let loss := bh_PacketLoss (dv_Behaviour (og_dev o)) in
  if f_lt (f_of_Z 0) loss then
    let '(x, o) := draw o in
    (if f_lt x loss then [] else pubAs o topic val, o)
  else (pubAs o topic val, o).

(** Text with its quotation marks written as apostrophes. *)
Fixpoint quoted (s : string) : string :=
  match s with
  | EmptyString => EmptyString
  | String c s' => String (if byte_code c =? 39 then "034"%char else c) (quoted s')
  end.

(** [base + draw * range], the reading of a sensor. *)
Definition reading (base range x : float64) : float64 := f_add base (f_mul x range).

(** A formatted reading, published: one draw for its value, one for its loss. *)
Definition pub_reading (topic : string) (prec : nat) (base range : Z) (o : organism)
  : list Message * organism :=
  let '(x, o) := draw o in
  pub topic (FormatFixed prec (reading (f_of_Z base) (f_of_Z range) x)) o.

Definition drain (now start : Time) (o : organism) : organism :=
  let d := dv_BatteryDrainPerDay (og_dev o) in
  if f_lt (f_of_Z 0) d then
    let b := f_sub (dv_Battery (og_dev o))
               (f_mul d (f_div (Hours (sub_time now start)) (f_of_Z 24))) in
    with_battery (if f_lt b (f_of_Z 0) then f_of_Z 0 else b) o
  else o.

(** The gateway an organism is behind, asked whether it is down. *)
Definition gateway_down (now : Time) (o : organism) (gws : gmap string gatewayState)
  : bool * gmap string gatewayState :=
  if is_empty (dv_Gateway (og_dev o)) then (false, gws)
  else match gws !! dv_Gateway (og_dev o) with
       | None => (false, gws)
       | Some g => let '(down, g') := isDown now g in (down, <[dv_Gateway (og_dev o) := g']> gws)
       end.

(** What a relayed device adds to its gateway's stream; not subject to loss. *)
Definition relay (o : organism) : list Message * organism :=
  if is_empty (dv_Gateway (og_dev o)) then ([], o)
  else
    let '(rssi, o) := draw o in
    let '(snr, o) := draw o in
    let '(temp, o) := draw o in
    let '(hum, o) := draw o in
    (pubAs o (dv_Gateway (og_dev o) +:+ "/lora/rx")%string
       (quoted "{'type':2,'from':" +:+ pretty (dv_NodeID (og_dev o)) +:+
        quoted ",'rssi':" +:+ FormatFixed 0 (f_sub (f_of_Z (-60)) (f_mul rssi (f_of_Z 40))) +:+
        quoted ",'snr':" +:+ FormatFixed 1 (reading (f_of_Z 8) (f_of_Z 4) snr) +:+
        quoted ",'temperature':" +:+ FormatFixed 1 (reading (f_of_Z 20) (f_of_Z 10) temp) +:+
        quoted ",'humidity':" +:+ FormatFixed 0 (reading (f_of_Z 35) (f_of_Z 15) hum) +:+ "}")%string, o).

(** [tick] at the fleet's time [now]: what is published, and who is left. *)
Definition tick (now start : Time) (o : organism) (gws : gmap string gatewayState)
  : list Message * organism * gmap string gatewayState :=
  if og_bricked o then ([], o, gws)
  else if Before now (og_silentUntil o) then ([], o, gws)
  else
    let o := drain now start o in
    let '(batt, hash, boots) := (og_battery o, og_reportedHash o, og_bootCount o) in
    let '(down, gws) := gateway_down now o gws in
    if down then ([], o, gws)
    else
      let p := topicPrefix o in
      let '(m1, o) := pub_reading (p +:+ "/sensor/temperature/state")%string 2 20 10 o in
      let '(m2, o) := pub_reading (p +:+ "/sensor/humidity/state")%string 2 35 15 o in
      let '(m3, o) := pub (p +:+ "/sensor/battery_percent/state")%string (FormatFixed 0 batt) o in
      let '(m4, o) := pub (p +:+ "/text_sensor/running_config_hash/state")%string hash o in
      let '(m5, o) := pub (p +:+ "/sensor/boot_count/state")%string (pretty boots) o in
      let '(m6, o) := relay o in
      (m1 ++ m2 ++ m3 ++ m4 ++ m5 ++ m6, o, gws).

(** The wait before the first report, in fleet time. *)
Definition stagger (o : organism) : Duration * organism :=
  let '(x, o) := draw o in
  (f_to_int64 (f_mul x (f_of_Z (Or (dv_ReportEvery (og_dev o)) (30 * Second)))), o).

(** The pause after a tick; an interval that is not set is half a minute. *)
Definition next_wait (o : organism) : Duration * organism :=
  let interval := Or (dv_ReportEvery (og_dev o)) (30 * Second) in
  let j := bh_Jitter (dv_Behaviour (og_dev o)) in
  if f_lt (f_of_Z 0) j then
    let '(x, o) := draw o in
    (scale_by f_mul interval
       (f_add (f_of_Z 1) (f_mul (f_sub (f_mul x (f_of_Z 2)) (f_of_Z 1)) j)), o)
  else (interval, o).

(** ** Definitions: commands and flashes *)

(** [payload[:strings.Index(payload, "|")]], [None] without a bar. *)
Fixpoint before_bar (payload : string) : option string :=
  match payload with
  | EmptyString => None
  | String c s' => if byte_code c =? 124 then Some EmptyString
                   else String c <$> before_bar s'
  end.

Record Flash := mkFlash { fs_want : string; fs_mode : FailureMode; fs_delay : Duration }.

(** How the flash will end: the device's own way, its cohort's for a hash it cannot
    run, or well after all if a draw exceeds the chance of failing. *)
Definition choose_mode (want : string) (o : organism) : FailureMode * organism :=
  let mode := bh_OnFirmware (dv_Behaviour (og_dev o)) in
  let mode := match og_cohort o with
              | Some c => fold_left (fun m h => if str_eq h want then co_FailureMode c else m)
                            (co_FirmwareFailsFor c) mode
              | None => mode
              end in
  let chance := bh_FailChance (dv_Behaviour (og_dev o)) in
  if f_lt (f_of_Z 0) chance then
    let '(x, o) := draw o in (if f_lt chance x then FailNone else mode, o)
  else (mode, o).

(** [onCommand]: the echo, and the flash it starts. *)
Definition onCommand (topic payload : string) (o : organism)
  : list Message * option Flash * organism :=
  if negb (Contains "firmware_url" topic) then ([], None, o)
  else
    let echo := pubAs o (topicPrefix o +:+ "/text/firmware_url/state")%string payload in
    match before_bar payload with
    | None => (echo, None, o)
    | Some want =>
        if og_bricked o || str_eq want (og_runningHash o) then (echo, None, o)
        else
          let '(mode, o) := choose_mode want o in
          (echo, Some (mkFlash want mode
                         (Or (bh_FirmwareDelay (dv_Behaviour (og_dev o))) (2 * Second))), o)
    end.

(** The goroutine, once its delay is over. *)
Definition land (now : Time) (f : Flash) (o : organism) : list Message * organism :=
  let want := fs_want f in
  if str_eq (fs_mode f) FailIgnores then ([], o)
  else if str_eq (fs_mode f) FailBricks then
    let o := brick o in
    if og_connected o
    then ([(topicPrefix o +:+ "/status", "offline")%string], with_connection false true o)
    else ([], o)
  else if str_eq (fs_mode f) FailReportsWithoutRunning
  then ([], with_hashes (og_runningHash o) want o)
  else if str_eq (fs_mode f) FailWrongHash then ([], with_hashes "corrupt" "corrupt" o)
  else if str_eq (fs_mode f) FailBootLoop
  then ([], with_boots (wrap64 (og_bootCount o + 5)) (with_hashes want want o))
  else if str_eq (fs_mode f) FailIntermittent
  then ([], with_silence (add_time now (30 * Minute)) (with_hashes want want o))
  else ([], with_boots (wrap64 (og_bootCount o + 1)) (with_hashes want want o)).

(** ** Definitions: connecting

    The handler of [connect]: a retained birth message, and an announcement. *)
Definition announcement (wall : Time) (o : organism) : string :=
  let d := og_dev o in
  (quoted "{'device':" +:+ quote (dv_Name d) +:+ quoted ",'model':'vivarium','gateway':" +:+
   quote (dv_Gateway d) +:+ quoted ",'nodeID':" +:+ pretty (dv_NodeID d) +:+
   quoted ",'topicPrefix':" +:+ quote (topicPrefix o) +:+ quoted ",'configHash':" +:+
   quote (og_runningHash o) +:+ quoted ",'firmwareVersion':'vivarium','buildTime':" +:+
   quote (format_RFC3339 UTC wall) +:+ "}")%string.

Definition on_connect (wall : Time) (o : organism) : list Message :=
  [((topicPrefix o +:+ "/status")%string, "online"%string);
   (("torpor/announce/" +:+ dv_Name (og_dev o))%string, announcement wall o)].

(** ** Definitions: ground truth *)

Record Snapshot := mkSnapshot {
  sn_Device : string; sn_Running : string; sn_Reported : string; sn_Lying : bool;
  sn_Battery : float64; sn_Bricked : bool; sn_BootCount : Z; sn_GatewayDown : bool
}.

Definition snapshot_step (now : Time) (s : list Snapshot * gmap string gatewayState) (o : organism)
  : list Snapshot * gmap string gatewayState :=
  let '(out, gws) := s in
  let '(down, gws) :=
    match gws !! dv_Gateway (og_dev o) with
    | Some g => let '(down, g') := isDown now g in (down, <[dv_Gateway (og_dev o) := g']> gws)
    | None => (false, gws)
    end in
  (out ++ [mkSnapshot (dv_Name (og_dev o)) (og_runningHash o) (og_reportedHash o)
             (negb (str_eq (og_runningHash o) (og_reportedHash o))) (og_battery o) (og_bricked o)
             (og_bootCount o) down], gws).

Definition TakeSnapshot (wall : Time) (e : Enclosure) : list Snapshot * Enclosure :=
  let now := clock_now (en_clock e) wall in
  let '(out, gws) := fold_left (snapshot_step now) (en_organs e) ([], en_gws e) in
  (out, mkEnclosure (en_clock e) (en_organs e) gws).

(** ** Definitions: the life of one organism

    What can happen next, whatever the gateways, the broker and the scheduler do. *)

Record Life := mkLife { lf_self : organism; lf_pending : list Flash }.

Inductive live_step (start : Time) : Life -> list Message -> Life -> Prop :=
| live_tick now gws msgs o o' gws' pending :
    tick now start o gws = (msgs, o', gws') ->
    live_step start (mkLife o pending) msgs (mkLife o' pending)
| live_wait o d o' pending :
    stagger o = (d, o') \/ next_wait o = (d, o') ->
    live_step start (mkLife o pending) [] (mkLife o' pending)
| live_command topic payload msgs f o o' pending :
    onCommand topic payload o = (msgs, f, o') ->
    live_step start (mkLife o pending) msgs
      (mkLife o' (match f with Some f => pending ++ [f] | None => pending end))
| live_land now l1 f l2 msgs o o' :
    land now f o = (msgs, o') ->
    live_step start (mkLife o (l1 ++ f :: l2)) msgs (mkLife o' (l1 ++ l2))
| live_connected wall o pending :
    og_stopped o = false ->
    live_step start (mkLife o pending) (on_connect wall o)
      (mkLife (with_connection true false o) pending)
| live_lost o pending :
    og_stopped o = false ->
    live_step start (mkLife o pending) [] (mkLife (with_connection false false o) pending)
| live_closed o pending :
    og_connected o = true ->
    live_step start (mkLife o pending) [] (mkLife (with_connection false true o) pending).

Inductive lives (start : Time) (l : Life) : list Message -> Life -> Prop :=
| lives_refl : lives start l [] l
| lives_step m1 m2 l' l'' :
    lives start l m1 l' -> live_step start l' m2 l'' -> lives start l (m1 ++ m2) l''.
End Organism.

(** ** Lemmas: what reporting leaves alone *)

Section Lemmas.
Context `{RandSource} `{StrconvQuote}.

(** Only the generator and the battery differ. *)
Definition steady (o o' : organism) : Prop :=
  og_dev o' = og_dev o /\ og_cohort o' = og_cohort o /\ og_connected o' = og_connected o /\
  og_stopped o' = og_stopped o /\ og_runningHash o' = og_runningHash o /\
  og_reportedHash o' = og_reportedHash o /\ og_bootCount o' = og_bootCount o /\
  og_silentUntil o' = og_silentUntil o /\ og_bricked o' = og_bricked o.

#[export] Instance steady_preorder : PreOrder steady.
Proof.
  split; [done|]. intros o1 o2 o3 H1 H2. unfold steady in *. intuition congruence.
Qed.

Lemma draw_steady o : steady o (snd (draw o)).
Proof. unfold draw. by destruct (Float64 (og_rng o)). Qed.

Lemma pub_steady topic val o : steady o (snd (pub topic val o)).
Proof.
  unfold pub. case_match; [|done]. pose proof (draw_steady o) as Hd. by destruct (draw o).
Qed.

Lemma pub_reading_steady topic prec base range o : steady o (snd (pub_reading topic prec base range o)).
Proof.
  unfold pub_reading. pose proof (draw_steady o) as Hd. destruct (draw o) as [x o1].
  etrans; [exact Hd|apply pub_steady].
Qed.

Lemma relay_steady o : steady o (snd (relay o)).
Proof.
  unfold relay. case_match; [done|].
  pose proof (draw_steady o) as H1'. destruct (draw o) as [x1 o1].
  pose proof (draw_steady o1) as H2'. destruct (draw o1) as [x2 o2].
  pose proof (draw_steady o2) as H3'. destruct (draw o2) as [x3 o3].
  pose proof (draw_steady o3) as H4'. destruct (draw o3) as [x4 o4].
  simpl in *. by rewrite H1', H2', H3'.
Qed.

Lemma drain_steady now start o : steady o (drain now start o).
Proof. unfold drain. by case_match. Qed.

Lemma next_wait_steady o : steady o (snd (next_wait o)).
Proof.
  unfold next_wait. case_match; [|done]. pose proof (draw_steady o) as Hd. by destruct (draw o).
Qed.

Lemma wait_steady o d o' : stagger o = (d, o') \/ next_wait o = (d, o') -> steady o o'.
Proof.
  intros [E|E].
  - unfold stagger in E. pose proof (draw_steady o) as Hd. destruct (draw o). by injection E as <- <-.
  - pose proof (next_wait_steady o) as Hst. by rewrite E in Hst.
Qed.

Lemma choose_mode_steady want o : steady o (snd (choose_mode want o)).
Proof.
  unfold choose_mode. case_match; [|done]. pose proof (draw_steady o) as Hd. by destruct (draw o).
Qed.

Lemma onCommand_steady topic payload o : steady o (onCommand topic payload o).2.
Proof.
  unfold onCommand. case_match; [done|]. destruct (before_bar payload) as [want|]; [|done].
  case_match; [done|]. pose proof (choose_mode_steady want o). by destruct (choose_mode want o).
Qed.

(** The reports of a tick, one after the other. *)
Lemma tick_steady now start o gws : steady o (tick now start o gws).1.2.
Proof.
  unfold tick. destruct (og_bricked o); [done|]. destruct (Before now _); [done|].
  pose proof (drain_steady now start o) as H0'. set (o0 := drain now start o) in *.
  cbv beta iota zeta. destruct (gateway_down now o0 gws) as [[] gws']; [done|].
  pose proof (pub_reading_steady (topicPrefix o0 +:+ "/sensor/temperature/state") 2 20 10 o0) as H1'.
  destruct (pub_reading _ 2 20 10 o0) as [m1 o1].
  pose proof (pub_reading_steady (topicPrefix o0 +:+ "/sensor/humidity/state") 2 35 15 o1) as H2'.
  destruct (pub_reading _ 2 35 15 o1) as [m2 o2].
  pose proof (pub_steady (topicPrefix o0 +:+ "/sensor/battery_percent/state")
    (FormatFixed 0 (og_battery o0)) o2) as H3'. destruct (pub _ _ o2) as [m3 o3].
  pose proof (pub_steady (topicPrefix o0 +:+ "/text_sensor/running_config_hash/state")
    (og_reportedHash o0) o3) as H4'. destruct (pub _ _ o3) as [m4 o4].
  pose proof (pub_steady (topicPrefix o0 +:+ "/sensor/boot_count/state")
    (pretty (og_bootCount o0)) o4) as H5'. destruct (pub _ _ o4) as [m5 o5].
  pose proof (relay_steady o5) as H6'. destruct (relay o5) as [m6 o6].
  simpl in *. by rewrite H0', H1', H2', H3', H4', H5'.
Qed.

(** How a flash a command starts will end. *)
Definition intended_mode (want : string) (o : organism) : FailureMode :=
  match og_cohort o with
  | Some c => if existsb (fun h => str_eq h want) (co_FirmwareFailsFor c) then co_FailureMode c
              else bh_OnFirmware (dv_Behaviour (og_dev o))
  | None => bh_OnFirmware (dv_Behaviour (og_dev o))
  end.

Lemma last_match_mode (mode : FailureMode) want (hashes : list string) (dflt : FailureMode) :
  fold_left (fun m h => if str_eq h want then mode else m) hashes dflt
  = if existsb (fun h => str_eq h want) hashes then mode else dflt.
Proof.
  revert dflt. induction hashes as [|h hashes IH]; intros dflt; simpl; [done|].
  rewrite IH. by destruct (str_eq h want), (existsb _ hashes).
Qed.

Lemma choose_mode_spec want o :
  choose_mode want o =
  let m := intended_mode want o in
  if f_lt (f_of_Z 0) (bh_FailChance (dv_Behaviour (og_dev o))) then
    (if f_lt (bh_FailChance (dv_Behaviour (og_dev o))) (draw o).1 then FailNone else m, (draw o).2)
  else (m, o).
Proof.
  unfold choose_mode, intended_mode.
  assert (forall c, fold_left (fun m h => if str_eq h want then co_FailureMode c else m)
    (co_FirmwareFailsFor c) (bh_OnFirmware (dv_Behaviour (og_dev o))) =
    if existsb (fun h => str_eq h want) (co_FirmwareFailsFor c) then co_FailureMode c
    else bh_OnFirmware (dv_Behaviour (og_dev o))) as E by (intros; apply last_match_mode).
  destruct (og_cohort o) as [c|]; rewrite ?E; case_match; try done; by destruct (draw o).
Qed.

(** ** Lemmas: gateways *)

(** A gateway whose configuration makes sense, seen at a time past the zero time. *)
Definition cyclic (g : gatewayState) : Prop :=
  0 < gw_OutageEvery (gs_cfg g) /\ 0 <= gw_OutageFor (gs_cfg g) /\
  (gs_nextAt g = 0 -> gs_down g = false).

Lemma outage_positive g : cyclic g -> 0 < Or (gw_OutageFor (gs_cfg g)) (10 * Minute).
Proof.
  intros (_ & Hf & _). unfold Or. destruct (Z.eqb_spec (gw_OutageFor (gs_cfg g)) 0); [done|lia].
Qed.

(** The three adjustments, as one case analysis. *)
Lemma isDown_cases now g :
  cyclic g -> 0 < now ->
  let e := gw_OutageEvery (gs_cfg g) in
  let f := Or (gw_OutageFor (gs_cfg g)) (10 * Minute) in
  isDown now g =
  if gs_down g then
    if gs_until g <? now then (false, mkgatewayState (gs_cfg g) false (now + e) (gs_until g))
    else (true, g)
  else if gs_nextAt g =? 0 then (false, mkgatewayState (gs_cfg g) false (now + e) (gs_until g))
  else if gs_nextAt g <? now then (true, mkgatewayState (gs_cfg g) true (gs_nextAt g) (now + f))
  else (false, g).
Proof.
  intros (He & Hf & Hz) Hn. destruct g as [cfg down nextAt until]. simpl in *.
  unfold isDown, After, IsZero, add_time, zero_time. simpl.
  destruct (Z.eqb_spec (gw_OutageEvery cfg) 0); [lia|].
  destruct down; simpl.
  - destruct (Z.ltb_spec until now); simpl.
    + destruct (Z.eqb_spec (now + gw_OutageEvery cfg) 0); [lia|]. simpl.
      destruct (Z.ltb_spec (now + gw_OutageEvery cfg) now); [lia|]. simpl.
      destruct (Z.eqb_spec (now + gw_OutageEvery cfg) 0); [lia|done].
    + destruct (Z.eqb_spec nextAt 0) as [->|]; [by specialize (Hz eq_refl)|done].
  - destruct (Z.eqb_spec nextAt 0) as [->|Hne]; simpl; [done|].
    destruct (Z.ltb_spec nextAt now); simpl; destruct (Z.eqb_spec nextAt 0); done.
Qed.

Lemma isDown_cyclic now g : cyclic g -> 0 < now -> cyclic (isDown now g).2.
Proof.
  intros Hg Hn. rewrite isDown_cases by done. destruct Hg as (He & Hf & Hz).
  repeat case_match; simpl; unfold cyclic; simpl; split_and!; try done; try lia.
Qed.
End Lemmas.

(** ** Properties *)

Section Theorems.
Context `{RandSource} `{StrconvQuote}.

(** An outage is one thing, not forty: however often a gateway is asked in the same
    instant it gives one answer; once it goes down it stays down for the whole outage
    and nobody asking within it gets through; and after it is back it stays up for
    the whole interval. *)
Theorem isDown_outage now g :
  cyclic g -> 0 < now ->
  let '(down, g') := isDown now g in
  isDown now g' = (down, g') /\
  (down = true -> now <= gs_until g' /\
     forall t, now <= t <= gs_until g' -> isDown t g' = (true, g')) /\
  (down = false -> now <= gs_nextAt g' /\
     forall t, now <= t <= gs_nextAt g' -> isDown t g' = (false, g')) /\
  (gs_down g = false -> down = true ->
     gs_until g' = now + Or (gw_OutageFor (gs_cfg g)) (10 * Minute)) /\
  (gs_down g = true -> down = false -> gs_nextAt g' = now + gw_OutageEvery (gs_cfg g)).
Proof.
  intros Hg Hn. pose proof (isDown_cyclic now g Hg Hn) as Hg'.
  pose proof (outage_positive g Hg) as Hf. pose proof (isDown_cases now g Hg Hn) as E.
  destruct Hg as (He & _ & Hz). cbv zeta in E.
  destruct (isDown now g) as [down g']. simpl in Hg'.
  assert ((down = true -> gs_down g' = true /\ now <= gs_until g') /\
          (down = false -> gs_down g' = false /\ gs_nextAt g' <> 0 /\ now <= gs_nextAt g') /\
          (gs_down g = false -> down = true ->
             gs_until g' = now + Or (gw_OutageFor (gs_cfg g)) (10 * Minute)) /\
          (gs_down g = true -> down = false -> gs_nextAt g' = now + gw_OutageEvery (gs_cfg g)))
    as (Hd & Hu & H3 & H4).
  { destruct (gs_down g) eqn:Ed.
    - destruct (Z.ltb_spec (gs_until g) now); injection E as -> ->; simpl; split_and!;
        intros; try done; split_and!; try done; try lia.
    - destruct (Z.eqb_spec (gs_nextAt g) 0); [|destruct (Z.ltb_spec (gs_nextAt g) now)];
        injection E as -> ->; simpl; split_and!; intros; try done; split_and!; try done; try lia. }
  assert (forall t, now <= t -> (down = true -> t <= gs_until g') ->
    (down = false -> t <= gs_nextAt g') -> isDown t g' = (down, g')) as Hstay.
  { intros t Ht Htu Htn. rewrite isDown_cases by (done || lia). cbv zeta.
    destruct down.
    - destruct (Hd eq_refl) as [-> _]. specialize (Htu eq_refl).
      destruct (Z.ltb_spec (gs_until g') t); [lia|done].
    - destruct (Hu eq_refl) as (-> & Hnz & _). specialize (Htn eq_refl).
      destruct (Z.eqb_spec (gs_nextAt g') 0); [done|].
      destruct (Z.ltb_spec (gs_nextAt g') t); [lia|done]. }
  split_and!; [|naive_solver..].
  apply Hstay; [lia|naive_solver..].
Qed.

(** How a command is taken, on the branch that starts a flash. *)
Lemma onCommand_flash topic payload o msgs f o' :
  onCommand topic payload o = (msgs, Some f, o') ->
  let chance := bh_FailChance (dv_Behaviour (og_dev o)) in
  let want := fs_want f in
  Contains "firmware_url" topic = true /\ before_bar payload = Some want /\
  og_bricked o = false /\ want <> og_runningHash o /\
  msgs = pubAs o (topicPrefix o +:+ "/text/firmware_url/state")%string payload /\
  steady o o' /\
  (if f_lt (f_of_Z 0) chance
   then fs_mode f = if f_lt chance (Float64 (og_rng o)).1 then FailNone else intended_mode want o
   else fs_mode f = intended_mode want o /\ o' = o).
Proof.
  intros Hc. pose proof (onCommand_steady topic payload o) as Hsteady. rewrite Hc in Hsteady.
  unfold onCommand in Hc. destruct (Contains "firmware_url" topic) eqn:Et; [|done].
  simpl negb in Hc. cbv iota in Hc. destruct (before_bar payload) as [want|]; [|done].
  destruct (og_bricked o) eqn:Eb; [done|]. simpl orb in Hc.
  destruct (str_eq want (og_runningHash o)) eqn:Ew; [done|].
  rewrite choose_mode_spec in Hc. cbv zeta in Hc.
  assert ((draw o).1 = (Float64 (og_rng o)).1) as Edraw
    by (unfold draw; by destruct (Float64 (og_rng o))).
  destruct (f_lt (f_of_Z 0) _) eqn:Ef; injection Hc as <- <- <-;
    cbv zeta; cbn [fs_mode fs_want]; rewrite ?Ef, ?Edraw; apply str_eq_false in Ew;
    split_and!; done.
Qed.

(** A cohort's incompatibility is what it says, unless the device is also given a
    chance of failing: without one, a command always ends the way its hash and its
    cohort decide, and no randomness is used; with one, it may also end well. *)
Theorem onCommand_decides topic payload o msgs f o' :
  onCommand topic payload o = (msgs, Some f, o') ->
  let chance := bh_FailChance (dv_Behaviour (og_dev o)) in
  let want := fs_want f in
  Contains "firmware_url" topic = true /\ before_bar payload = Some want /\
  og_bricked o = false /\ want <> og_runningHash o /\
  msgs = pubAs o (topicPrefix o +:+ "/text/firmware_url/state")%string payload /\
  steady o o' /\
  (if f_lt (f_of_Z 0) chance
   then fs_mode f = if f_lt chance (Float64 (og_rng o)).1 then FailNone else intended_mode want o
   else fs_mode f = intended_mode want o /\ o' = o).
Proof. apply onCommand_flash. Qed.

(** The invariant of an organism none of whose failures is a lie. *)
Definition honest (d : Device) (c : option Cohort) (l : Life) : Prop :=
  og_dev (lf_self l) = d /\ og_cohort (lf_self l) = c /\
  og_runningHash (lf_self l) = og_reportedHash (lf_self l) /\
  Forall (fun f => fs_mode f <> FailReportsWithoutRunning) (lf_pending l).

Lemma honest_steady d c o o' pending :
  steady o o' -> honest d c (mkLife o pending) -> honest d c (mkLife o' pending).
Proof.
  intros (E1 & E2 & _ & _ & E5 & E6 & _) (H1 & H2 & H3 & H4). unfold honest in *. simpl in *.
  by rewrite E1, E2, E5, E6.
Qed.

Lemma land_honest d c now f o pending :
  fs_mode f <> FailReportsWithoutRunning -> honest d c (mkLife o pending) ->
  honest d c (mkLife (land now f o).2 pending).
Proof.
  intros Hf (H1 & H2 & H3 & H4). unfold honest in *. simpl in *.
  assert (str_eq (fs_mode f) FailReportsWithoutRunning = false) as E by by apply str_eq_false.
  unfold land. rewrite E. repeat case_match; simpl in *; simplify_eq; simpl; auto.
Qed.

Lemma honest_step start d c l msgs l' :
  bh_OnFirmware (dv_Behaviour d) <> FailReportsWithoutRunning ->
  (forall co, c = Some co -> co_FailureMode co <> FailReportsWithoutRunning) ->
  honest d c l -> live_step start l msgs l' -> honest d c l'.
Proof.
  intros Hd Hc Hh Hs.
  destruct Hs as [now gws msgs o o' gws' pending E|o dur o' pending E|topic payload msgs f o o' pending E
    |now l1 f l2 msgs o o' E|wall o pending|o pending|o pending]; try exact Hh.
  - eapply honest_steady; [|exact Hh]. pose proof (tick_steady now start o gws) as Hst.
    by rewrite E in Hst.
  - eapply honest_steady; [by eapply wait_steady|exact Hh].
  - assert (steady o o') as Hst
      by (pose proof (onCommand_steady topic payload o) as Hst; by rewrite E in Hst).
    destruct f as [f|]; [|by eapply honest_steady].
    pose proof (honest_steady _ _ _ _ _ Hst Hh) as (H1 & H2 & H3 & H4).
    destruct Hh as (E1 & E2 & _ & _). split_and!; try done.
    apply Forall_app. split; [done|]. constructor; [|constructor].
    apply onCommand_flash in E as (_ & _ & _ & _ & _ & _ & Hm).
    simpl in E1, E2.
    assert (intended_mode (fs_want f) o <> FailReportsWithoutRunning) as Hi.
    { unfold intended_mode. rewrite E1, E2. destruct c as [co|]; [|done].
      destruct (existsb _ _); [by apply Hc|done]. }
    destruct (f_lt (f_of_Z 0) _); [|by destruct Hm as [-> _]]. rewrite Hm.
    by destruct (f_lt _ (Float64 (og_rng o)).1).
  - destruct Hh as (H1 & H2 & H3 & H4). simpl in *.
    apply Forall_app in H4 as [Hl1 [Hf Hl2]%Forall_cons].
    pose proof (land_honest d c now f o (l1 ++ l2) Hf) as Hland. rewrite E in Hland.
    apply Hland. split_and!; try done. by apply Forall_app.
Qed.

(** Lying takes a reason: a device that is not itself configured to report what it
    does not run, and whose cohort is not either, reports what it runs, always,
    whatever it is sent, however it is rebooted and in whatever order its flashes
    land. *)
Theorem lives_honest start seed cohorts d msgs l :
  let c := cohort_of cohorts (dv_Cohort d) in
  bh_OnFirmware (dv_Behaviour d) <> FailReportsWithoutRunning ->
  (forall co, c = Some co -> co_FailureMode co <> FailReportsWithoutRunning) ->
  lives start (mkLife (hatch seed cohorts d) []) msgs l ->
  og_runningHash (lf_self l) = og_reportedHash (lf_self l).
Proof.
  intros c Hd Hc Hl.
  enough (honest d c l) as (_ & _ & E & _) by exact E.
  remember (mkLife (hatch seed cohorts d) []) as l0 eqn:E0.
  induction Hl as [|m1 m2 l' l'' Hl IH Hs].
  - rewrite E0. by split_and!.
  - eapply honest_step; [done..| |exact Hs]. by apply IH.
Qed.

(** The truck roll: bricked, and its client gone for good. *)
Definition dead (o : organism) : Prop :=
  og_bricked o = true /\ og_stopped o = true /\ og_connected o = false.

Lemma dead_steady o o' : steady o o' -> dead o -> dead o'.
Proof. intros (_ & _ & E3 & E4 & _ & _ & _ & _ & E9). unfold dead. by rewrite E3, E4, E9. Qed.

Lemma land_dead now f o : dead o -> (land now f o).1 = [] /\ dead (land now f o).2.
Proof.
  intros (H1 & H2 & H3). unfold land. cbv zeta. change (og_connected (brick o)) with (og_connected o).
  rewrite H3. by repeat case_match.
Qed.

Lemma dead_step start l msgs l' :
  dead (lf_self l) -> live_step start l msgs l' -> msgs = [] /\ dead (lf_self l').
Proof.
  intros Hdead Hs. pose proof Hdead as (Hb & Hst & Hc).
  destruct Hs as [now gws msgs o o' gws' pending E|o dur o' pending E|topic payload msgs f o o' pending E
    |now l1 f l2 msgs o o' E|wall o pending Hno|o pending Hno|o pending Hno]; simpl in *; try congruence.
  - unfold tick in E. rewrite Hb in E. injection E as <- <- <-. done.
  - split; [done|]. eapply dead_steady; [by eapply wait_steady|done].
  - unfold onCommand, pubAs in E. rewrite Hb, Hc in E.
    destruct (Contains _ _); [destruct (before_bar payload)|]; simpl in E; by injection E as <- <- <-.
  - destruct (land_dead now f o Hdead) as [E1 E2]. rewrite E in E1, E2. done.
Qed.

(** C18. Bricked is for ever: the flash that bricks a connected device says "offline"
    and closes its client, and after that nothing the device does, nothing it is sent
    and no flash still pending makes it say another word. *)
Theorem bricked_is_silent start now f o pending :
  fs_mode f = FailBricks -> og_connected o = true ->
  (land now f o).1 = [((topicPrefix o +:+ "/status")%string, "offline"%string)] /\
  forall msgs l, lives start (mkLife (land now f o).2 pending) msgs l ->
    msgs = [] /\ og_bricked (lf_self l) = true.
Proof.
  intros Hf Hc.
  assert (land now f o = ([((topicPrefix o +:+ "/status")%string, "offline"%string)],
    with_connection false true (brick o))) as El by (unfold land; rewrite Hf; simpl; by rewrite Hc).
  rewrite El. split; [done|]. intros msgs l Hl.
  enough (msgs = [] /\ dead (lf_self l)) as [-> [Hb _]] by done.
  remember (mkLife _ pending) as l0 eqn:E0.
  induction Hl as [|m1 m2 l' l'' Hl IH Hs]; [by rewrite E0|].
  destruct IH as [-> Hd]. by apply dead_step in Hs as [-> Hd'].
Qed.

Lemma steady_topicPrefix o o' : steady o o' -> topicPrefix o' = topicPrefix o.
Proof. intros (E & _). unfold topicPrefix. by rewrite E. Qed.

(** One message of an organism that differs from [o] in its draws only. *)
Definition spoken (o : organism) (topic val : string) (msgs : list Message) : Prop :=
  if og_connected o then
    f_lt (f_of_Z 0) (bh_PacketLoss (dv_Behaviour (og_dev o))) = false -> msgs = [(topic, val)]
  else msgs = [].

Lemma pub_spec o topic val o1 msgs o2 :
  steady o o1 -> pub topic val o1 = (msgs, o2) -> steady o o2 /\ spoken o topic val msgs.
Proof.
  intros Hst E. split.
  { etrans; [exact Hst|]. pose proof (pub_steady topic val o1) as Hp. by rewrite E in Hp. }
  pose proof Hst as (E1 & _ & E3 & _). unfold pub, pubAs in E. rewrite E1 in E. unfold spoken.
  destruct (f_lt (f_of_Z 0) _).
  - pose proof (draw_steady o1) as (_ & _ & Ec & _). destruct (draw o1) as [x o3]. simpl in Ec.
    rewrite Ec, E3 in E. destruct (og_connected o); [done|].
    injection E as <- <-. by destruct (f_lt x _).
  - rewrite E3 in E. injection E as <- <-. by destruct (og_connected o).
Qed.

Lemma pub_reading_spec o topic prec base range o1 msgs o2 :
  steady o o1 -> pub_reading topic prec base range o1 = (msgs, o2) ->
  steady o o2 /\ exists val, spoken o topic val msgs.
Proof.
  intros Hst E. unfold pub_reading in E. pose proof (draw_steady o1) as Hd.
  destruct (draw o1) as [x o3]. eapply pub_spec in E as [? ?]; [eauto|by etrans].
Qed.

Lemma relay_spec o o1 msgs o2 :
  steady o o1 -> relay o1 = (msgs, o2) ->
  if is_empty (dv_Gateway (og_dev o)) then msgs = []
  else if og_connected o
       then exists v, msgs = [((dv_Gateway (og_dev o) +:+ "/lora/rx")%string, v)] else msgs = [].
Proof.
  intros Hst E. unfold relay in E. rewrite (proj1 Hst) in E.
  destruct (is_empty (dv_Gateway (og_dev o))); [by injection E as <- <-|].
  pose proof (draw_steady o1) as H1'. destruct (draw o1) as [x1 o3].
  pose proof (draw_steady o3) as H2'. destruct (draw o3) as [x2 o4].
  pose proof (draw_steady o4) as H3'. destruct (draw o4) as [x3 o5].
  pose proof (draw_steady o5) as H4'. destruct (draw o5) as [x4 o6].
  assert (steady o o6) as (Ed & _ & Ec & _) by (simpl in *; by rewrite Hst, H1', H2', H3').
  unfold pubAs in E. rewrite Ec, Ed in E. injection E as <- <-.
  destruct (og_connected o); [eexists; reflexivity|done].
Qed.

(** What a tick says: nothing from a device that is bricked, silent, cut off by its
    gateway or not connected; otherwise, unless packets are lost, its five readings
    in order, among them the hash it claims to run and its boots, and then its frame
    on the stream of its gateway. *)
Theorem tick_reports now start o gws :
  let msgs := (tick now start o gws).1.1 in
  let p := topicPrefix o in
  if og_bricked o || Before now (og_silentUntil o) || (gateway_down now o gws).1 || negb (og_connected o)
  then msgs = []
  else f_lt (f_of_Z 0) (bh_PacketLoss (dv_Behaviour (og_dev o))) = false ->
    exists temp hum frames,
      msgs = [(p +:+ "/sensor/temperature/state", temp); (p +:+ "/sensor/humidity/state", hum);
              (p +:+ "/sensor/battery_percent/state", FormatFixed 0 (og_battery (drain now start o)));
              (p +:+ "/text_sensor/running_config_hash/state", og_reportedHash o);
              (p +:+ "/sensor/boot_count/state", pretty (og_bootCount o))]%string ++ frames /\
      (if is_empty (dv_Gateway (og_dev o)) then frames = []
       else exists v, frames = [((dv_Gateway (og_dev o) +:+ "/lora/rx")%string, v)]).
Proof.
  cbv zeta. unfold tick. destruct (og_bricked o); [done|]. destruct (Before now _); [done|].
  simpl orb. pose proof (drain_steady now start o) as Hst0.
  set (o0 := drain now start o) in *. cbv beta iota zeta.
  assert (gateway_down now o0 gws = gateway_down now o gws) as ->
    by (unfold gateway_down; by rewrite (proj1 Hst0)).
  destruct (gateway_down now o gws) as [[] gws']; [done|]. simpl fst at 1. simpl orb.
  rewrite (steady_topicPrefix o o0 Hst0). pose proof Hst0 as (Ed & _ & _ & _ & _ & Er & Eb & _).
  rewrite Er, Eb. set (p := topicPrefix o).
  destruct (pub_reading (p +:+ "/sensor/temperature/state") 2 20 10 o0) as [m1 o1] eqn:E1.
  apply (pub_reading_spec o) in E1 as [Hst1 [v1 E1]]; [|done].
  destruct (pub_reading (p +:+ "/sensor/humidity/state") 2 35 15 o1) as [m2 o2] eqn:E2.
  apply (pub_reading_spec o) in E2 as [Hst2 [v2 E2]]; [|done].
  destruct (pub (p +:+ "/sensor/battery_percent/state") (FormatFixed 0 (og_battery o0)) o2)
    as [m3 o3] eqn:E3. apply (pub_spec o) in E3 as [Hst3 E3]; [|done].
  destruct (pub (p +:+ "/text_sensor/running_config_hash/state") (og_reportedHash o) o3)
    as [m4 o4] eqn:E4. apply (pub_spec o) in E4 as [Hst4 E4]; [|done].
  destruct (pub (p +:+ "/sensor/boot_count/state") (pretty (og_bootCount o)) o4)
    as [m5 o5] eqn:E5. apply (pub_spec o) in E5 as [Hst5 E5]; [|done].
  destruct (relay o5) as [m6 o6] eqn:E6. apply (relay_spec o) in E6; [|done].
  unfold spoken in *. cbn [fst]. destruct (og_connected o); cbn [negb].
  - intros Hl. exists v1, v2, m6. rewrite (E1 Hl), (E2 Hl), (E3 Hl), (E4 Hl), (E5 Hl). done.
  - subst. by destruct (is_empty _).
Qed.
End Theorems.

(** ** Concrete organisms *)

(** A generator that always draws one half. *)
Definition half : float64 := f_div (f_of_Z 1) (f_of_Z 2).
#[local] Instance half_rand : RandSource :=
  {| Rand := Z; NewSource s := s; Float64 r := (half, r + 1) |}.
#[local] Instance bare_quote : StrconvQuote := fun s => quoted ("'" +:+ s +:+ "'")%string.

Definition calm : Behaviour := mkBehaviour (f_of_Z 0) (f_of_Z 0) FailNone 0 (f_of_Z 0).
Definition specimen (cohort : string) (b : Behaviour) (drain : Z) : Device :=
  mkDevice "ridge-01" "ridge-01" "" 0 cohort (30 * Second) "v1" (f_of_Z 0) (f_of_Z drain) b.
Definition rev_b : Cohort := mkCohort "rev-b" ["v2"%string] FailBricks.
Definition young (b : Behaviour) (drain : Z) : organism :=
  with_connection true false (hatch 7 [rev_b] (specimen "rev-b" b drain)).
Definition awake : Time := UnixMilli 1700000000000.

Example fnv_examples :
  map fnv [""; "a"; "ridge-01"]%string
  = [14695981039346656037; 12638187200555641996; fnv "ridge-01"].
Proof. vm_compute. reflexivity. Qed.

Example rune_examples :
  (runes "aé€" , runes (String "195" (String "040" "")))%string = ([97; 233; 8364], [65533; 40]).
Proof. vm_compute. reflexivity. Qed.

Definition gateway_sample : gatewayState :=
  mkgatewayState (mkGateway "w10-a" Hour 0) false awake 0.

Lemma isDown_outage_witness :
  let later := awake + 1 in
  isDown later gateway_sample
    = (true, mkgatewayState (mkGateway "w10-a" Hour 0) true awake (later + 10 * Minute)) /\
  isDown (later + 9 * Minute) (isDown later gateway_sample).2 = (true, (isDown later gateway_sample).2).
Proof.
  cbv zeta.
  assert (isDown (awake + 1) gateway_sample =
    (true, mkgatewayState (mkGateway "w10-a" Hour 0) true awake (awake + 1 + 10 * Minute))) as E
    by (vm_compute; reflexivity).
  split; [exact E|].
  assert (cyclic gateway_sample) as Hc
    by (unfold cyclic; vm_compute; split; [reflexivity|split; discriminate]).
  pose proof (isDown_outage (awake + 1) gateway_sample Hc ltac:(vm_compute; reflexivity)) as H.
  rewrite E in H |- *. destruct H as (_ & Hd & _). destruct (Hd eq_refl) as [_ Hall].
  apply Hall. vm_compute. split; discriminate.
Defined.

Definition flash_topic : string := "ridge-01/text/firmware_url/command".

Lemma onCommand_decides_witness :
  onCommand flash_topic "v2|pkg" (young calm 0)
    = ([("ridge-01/text/firmware_url/state", "v2|pkg")%string],
       Some (mkFlash "v2" FailBricks (2 * Second)), young calm 0) /\
  intended_mode "v2" (young calm 0) = FailBricks.
Proof.
  assert (onCommand flash_topic "v2|pkg" (young calm 0)
    = ([("ridge-01/text/firmware_url/state", "v2|pkg")%string],
       Some (mkFlash "v2" FailBricks (2 * Second)), young calm 0)) as E by (vm_compute; reflexivity).
  split; [exact E|].
  destruct (onCommand_decides _ _ _ _ _ _ E) as (_ & _ & _ & _ & _ & _ & Hm).
  assert (f_lt (f_of_Z 0) (bh_FailChance (dv_Behaviour (og_dev (young calm 0)))) = false) as Hc
    by (vm_compute; reflexivity).
  rewrite Hc in Hm. symmetry. exact (proj1 Hm).
Defined.

(** Given a chance of failing, the cohort's certain failure becomes a matter of luck. *)
Definition flaky : Behaviour := mkBehaviour (f_of_Z 0) (f_of_Z 0) FailNone 0 (f_div (f_of_Z 1) (f_of_Z 4)).
Example cohort_by_luck :
  intended_mode "v2" (young flaky 0) = FailBricks /\
  (fs_mode <$> (onCommand flash_topic "v2|pkg" (young flaky 0)).1.2) = Some FailNone.
Proof. vm_compute. done. Qed.

Definition honest_device : Device := specimen "" calm 0.
Lemma lives_honest_witness :
  exists l, lives awake (mkLife (hatch 7 [] honest_device) [])
      [("ridge-01/status", "online")%string;
       ("torpor/announce/ridge-01"%string, announcement awake (hatch 7 [] honest_device))] l /\
    og_runningHash (lf_self l) = og_reportedHash (lf_self l).
Proof.
  exists (mkLife (with_connection true false (hatch 7 [] honest_device)) []).
  assert (lives awake (mkLife (hatch 7 [] honest_device) [])
    ([] ++ on_connect awake (hatch 7 [] honest_device))
    (mkLife (with_connection true false (hatch 7 [] honest_device)) [])) as Hl.
  { eapply lives_step; [apply lives_refl|apply live_connected; reflexivity]. }
  split; [exact Hl|].
  eapply (lives_honest awake 7 [] honest_device); [discriminate|discriminate|exact Hl].
Defined.

Lemma bricked_is_silent_witness :
  forallb (fun m => str_eq m.1 "ridge-01/status"%string)
    (land awake (mkFlash "v2" FailBricks 0) (young calm 0)).1 = true /\
  forall msgs l, lives awake (mkLife (land awake (mkFlash "v2" FailBricks 0) (young calm 0)).2 []) msgs l ->
    msgs = [].
Proof.
  destruct (bricked_is_silent awake awake (mkFlash "v2" FailBricks 0) (young calm 0) []
    eq_refl eq_refl) as [E Hall].
  split; [vm_compute; reflexivity|]. intros msgs l Hl. exact (proj1 (Hall msgs l Hl)).
Defined.

(** A device whose battery is left out starts full and is empty at its first tick. *)
Example default_battery_drains_at_once :
  FormatFixed 0 (og_battery (young calm 1)) = "100"%string /\
  map snd (filter (fun m => m.1 = "ridge-01/sensor/battery_percent/state"%string)
    (tick (awake + Second) awake (young calm 1) ∅).1.1) = ["0"%string].
Proof. vm_compute. done. Qed.

Lemma tick_reports_witness :
  exists temp hum, (tick (awake + Second) awake (young calm 0) ∅).1.1 =
    [("ridge-01/sensor/temperature/state", temp); ("ridge-01/sensor/humidity/state", hum);
     ("ridge-01/sensor/battery_percent/state", "100");
     ("ridge-01/text_sensor/running_config_hash/state", "v1");
     ("ridge-01/sensor/boot_count/state", "0")]%string.
Proof.
  pose proof (tick_reports (awake + Second) awake (young calm 0) ∅) as H.
  cbv zeta in H.
  assert (og_bricked (young calm 0) || Before (awake + Second) (og_silentUntil (young calm 0)) ||
    (gateway_down (awake + Second) (young calm 0) ∅).1 || negb (og_connected (young calm 0)) = false)
    as E by (vm_compute; reflexivity).
  rewrite E in H. destruct H as (temp & hum & frames & Em & Hf); [vm_compute; reflexivity|].
  exists temp, hum. rewrite Em.
  assert (is_empty (dv_Gateway (og_dev (young calm 0))) = true) as Eg by (vm_compute; reflexivity).
  rewrite Eg in Hf. rewrite Hf. vm_compute. reflexivity.
Defined.
