(* ===== verification/Habitat.v ===== *)
(** * A whole enclosure: Enclosure.Run of controller/internal/vivarium

    [Vivarium] has the life of one organism; here all of them live at once, behind
    gateways that they share, from [Run] connecting them one after the other to its
    disconnecting them when its context ends. Whoever comes next, a tick, a command, a
    flash, a reconnection, a look at the ground truth, is up to the scheduler; a tick
    and a look ask the shared gateways. *)

From S2P Require Import Prelude GoTime GoFloat GoStrings GoParseFloat Vivarium.
Local Open Scope Z_scope.

(** ** Definitions *)

Section Habitat.
Context `{RandSource} `{StrconvQuote}.

(** Where [Run] is: at the organism it connects (at their number, it waits for its
    context to end), or returned. *)
Inductive Stage := AtOrganism (i : nat) | Returned (e : option string).

(** [hb_clients] counts the clients [connect] has made, [hb_living] has the organisms
    whose goroutine is in its loop. *)
Record Habitat := mkHabitat {
  hb_clock : Clock;
  hb_lives : list Life;
  hb_gws : gmap string gatewayState;
  hb_stage : Stage;
  hb_clients : nat;
  hb_living : gset nat;
  hb_cancelled : bool
}.

(** An enclosure that is about to [Run]. *)
Definition settle (e : Enclosure) : Habitat :=
  mkHabitat (en_clock e) (map (fun o => mkLife o []) (en_organs e)) (en_gws e) (AtOrganism 0) 0 ∅ false.

Definition enclosure_of (s : Habitat) : Enclosure :=
  mkEnclosure (hb_clock s) (map lf_self (hb_lives s)) (hb_gws s).

Definition set_life (i : nat) (l : Life) (s : Habitat) : Habitat :=
  mkHabitat (hb_clock s) (<[i := l]> (hb_lives s)) (hb_gws s) (hb_stage s) (hb_clients s)
    (hb_living s) (hb_cancelled s).
Definition set_gws (gws : gmap string gatewayState) (s : Habitat) : Habitat :=
  mkHabitat (hb_clock s) (hb_lives s) gws (hb_stage s) (hb_clients s) (hb_living s) (hb_cancelled s).
Definition set_stage (st : Stage) (clients : nat) (living : gset nat) (s : Habitat) : Habitat :=
  mkHabitat (hb_clock s) (hb_lives s) (hb_gws s) st clients living (hb_cancelled s).
Definition cancelled (s : Habitat) : Habitat :=
  mkHabitat (hb_clock s) (hb_lives s) (hb_gws s) (hb_stage s) (hb_clients s) (hb_living s) true.

(** The end of [Run]: every client that is connected is disconnected. *)
Definition disconnect (l : Life) : Life :=
  if og_connected (lf_self l) then mkLife (with_connection false true (lf_self l)) (lf_pending l) else l.
Definition disconnect_all (s : Habitat) : Habitat :=
  mkHabitat (hb_clock s) (map disconnect (hb_lives s)) (hb_gws s) (Returned None) (hb_clients s)
    (hb_living s) (hb_cancelled s).

(** What can be seen: an organism saying something at a tick, with the fleet's time of
    it, or otherwise; the rows of the ground truth. *)
Inductive Event :=
| Ticked (i : nat) (now : Time) (msgs : list Message)
| Said (i : nat) (msgs : list Message)
| Looked (now : Time) (rows : list Snapshot)
| Unseen.

Inductive habitat_step : Habitat -> Event -> Habitat -> Prop :=
(** [Run], and [connect] *)
| step_client s i :
    hb_stage s = AtOrganism i -> hb_clients s = i -> (i < length (hb_lives s))%nat ->
    habitat_step s Unseen (set_stage (AtOrganism i) (S i) (hb_living s) s)
| step_connected s i l wall :
    (i < hb_clients s)%nat -> hb_lives s !! i = Some l -> og_stopped (lf_self l) = false ->
    habitat_step s (Said i (on_connect wall (lf_self l)))
      (set_life i (mkLife (with_connection true false (lf_self l)) (lf_pending l)) s)
| step_lives_on s i :
    hb_stage s = AtOrganism i -> hb_clients s = S i ->
    habitat_step s Unseen (set_stage (AtOrganism (S i)) (S i) ({[i]} ∪ hb_living s) s)
| step_refused s i l err :
    hb_stage s = AtOrganism i -> hb_clients s = S i -> hb_lives s !! i = Some l ->
    habitat_step s Unseen
      (set_stage (Returned (Some (dv_Name (og_dev (lf_self l)) +:+ ": " +:+ err)%string)) (S i) (hb_living s) s)
| step_cancel s : habitat_step s Unseen (cancelled s)
| step_close s :
    hb_stage s = AtOrganism (length (hb_lives s)) -> hb_cancelled s = true ->
    habitat_step s Unseen (disconnect_all s)
(** [live] *)
| step_tick s i l wall msgs o gws :
    i ∈ hb_living s -> hb_lives s !! i = Some l ->
    tick (clock_now (hb_clock s) wall) (ck_start (hb_clock s)) (lf_self l) (hb_gws s) = (msgs, o, gws) ->
    habitat_step s (Ticked i (clock_now (hb_clock s) wall) msgs)
      (set_gws gws (set_life i (mkLife o (lf_pending l)) s))
| step_wait s i l d o :
    i ∈ hb_living s -> hb_lives s !! i = Some l ->
    stagger (lf_self l) = (d, o) \/ next_wait (lf_self l) = (d, o) ->
    habitat_step s Unseen (set_life i (mkLife o (lf_pending l)) s)
| step_leave s i :
    hb_cancelled s = true -> i ∈ hb_living s ->
    habitat_step s Unseen (set_stage (hb_stage s) (hb_clients s) (hb_living s ∖ {[i]}) s)
(** the handlers and the goroutines of an organism *)
| step_command s i l topic payload msgs f o :
    (i < hb_clients s)%nat -> hb_lives s !! i = Some l ->
    onCommand topic payload (lf_self l) = (msgs, f, o) ->
    habitat_step s (Said i msgs)
      (set_life i (mkLife o (match f with Some f => lf_pending l ++ [f] | None => lf_pending l end)) s)
| step_land s i o l1 f l2 wall msgs o' :
    hb_lives s !! i = Some (mkLife o (l1 ++ f :: l2)) ->
    land (clock_now (hb_clock s) wall) f o = (msgs, o') ->
    habitat_step s (Said i msgs) (set_life i (mkLife o' (l1 ++ l2)) s)
| step_lost s i l :
    (i < hb_clients s)%nat -> hb_lives s !! i = Some l -> og_stopped (lf_self l) = false ->
    habitat_step s Unseen (set_life i (mkLife (with_connection false false (lf_self l)) (lf_pending l)) s)
(** [Snapshot] *)
| step_look s wall rows e :
    TakeSnapshot wall (enclosure_of s) = (rows, e) ->
    habitat_step s (Looked (clock_now (hb_clock s) wall) rows) (set_gws (en_gws e) s).

Inductive habitat_runs (s : Habitat) : list Event -> Habitat -> Prop :=
| runs_refl : habitat_runs s [] s
| runs_step es s' e s'' :
    habitat_runs s es s' -> habitat_step s' e s'' -> habitat_runs s (es ++ [e]) s''.

(** What one organism said. *)
Definition said (i : nat) (e : Event) : list Message :=
  match e with
  | Ticked j _ msgs | Said j msgs => if (i =? j)%nat then msgs else []
  | _ => []
  end.

(** The moments at which the clock was read for the gateways. *)
Definition asked_at (e : Event) : option Time :=
  match e with Ticked _ now _ | Looked now _ => Some now | _ => None end.
End Habitat.

(** ** Lemmas: the life of one organism among the others *)

Section Lemmas.
Context `{RandSource} `{StrconvQuote}.

Definition start_of (s : Habitat) : Time := ck_start (hb_clock s).

Lemma set_life_lookup i j l s lj :
  hb_lives s !! j = Some lj ->
  hb_lives (set_life i l s) !! j = Some (if (j =? i)%nat then l else lj).
Proof.
  intros Hj. simpl. destruct (Nat.eqb_spec j i) as [->|Hne].
  - apply list_lookup_insert_eq. by eapply lookup_lt_Some.
  - by rewrite list_lookup_insert_ne.
Qed.

(** What a step is for one organism: nothing, or a step of its life. *)
Lemma step_projects s e s' i l :
  habitat_step s e s' -> hb_lives s !! i = Some l ->
  exists l', hb_lives s' !! i = Some l' /\
    ((l' = l /\ said i e = []) \/ live_step (start_of s) l (said i e) l').
Proof.
  intros Hs Hi.
  destruct Hs as [s j _ _ _|s j lj wall _ Hj Hst|s j _ _|s j lj err _ _ _|s|s _ _
    |s j lj wall msgs o gws _ Hj E|s j lj d o _ Hj E|s j _ _|s j lj topic payload msgs f o _ Hj E
    |s j o l1 f l2 wall msgs o' Hj E|s j lj _ Hj Hst|s wall rows e' E];
    try (exists l; split; [exact Hi|by left]).
  - eexists. split; [by apply set_life_lookup|]. simpl. destruct (Nat.eqb_spec i j) as [->|]; [|by left].
    right. rewrite Hi in Hj. injection Hj as <-. destruct l. by apply live_connected.
  - exists (disconnect l). split; [simpl; by rewrite list_lookup_fmap, Hi|]. unfold disconnect.
    destruct (og_connected (lf_self l)) eqn:Ec; [|by left]. right. destruct l. by apply live_closed.
  - eexists. split; [by apply (set_life_lookup j i)|]. simpl. destruct (Nat.eqb_spec i j) as [->|]; [|by left].
    right. rewrite Hi in Hj. injection Hj as <-. destruct l. by eapply live_tick.
  - eexists. split; [by apply set_life_lookup|]. simpl. destruct (Nat.eqb_spec i j) as [->|]; [|by left].
    right. rewrite Hi in Hj. injection Hj as <-. destruct l. by eapply live_wait.
  - eexists. split; [by apply set_life_lookup|]. simpl. destruct (Nat.eqb_spec i j) as [->|]; [|by left].
    right. rewrite Hi in Hj. injection Hj as <-. destruct l. by eapply live_command.
  - eexists. split; [by apply set_life_lookup|]. simpl. destruct (Nat.eqb_spec i j) as [->|]; [|by left].
    right. rewrite Hi in Hj. injection Hj as ->. by eapply live_land.
  - eexists. split; [by apply set_life_lookup|]. simpl. destruct (Nat.eqb_spec i j) as [->|]; [|by left].
    right. rewrite Hi in Hj. injection Hj as <-. destruct l. by apply live_lost.
Qed.

Lemma step_clock s e s' : habitat_step s e s' -> hb_clock s' = hb_clock s.
Proof. by destruct 1. Qed.

Lemma runs_clock s es s' : habitat_runs s es s' -> hb_clock s' = hb_clock s.
Proof. induction 1 as [|es s' e s'' _ IH Hs]; [done|]. by rewrite (step_clock _ _ _ Hs). Qed.

(** Among the others, an organism lives one of its lives. *)
Lemma runs_project s es s' i l :
  habitat_runs s es s' -> hb_lives s !! i = Some l ->
  exists l', hb_lives s' !! i = Some l' /\ lives (start_of s) l (concat (map (said i) es)) l'.
Proof.
  induction 1 as [|es s' e s'' Hr IH Hs]; intros Hi; [exists l; split; [done|constructor]|].
  destruct (IH Hi) as (l' & Hl' & Hlives).
  destruct (step_projects s' e s'' i l' Hs Hl') as (l'' & Hl'' & Hstep).
  exists l''. split; [done|]. rewrite map_app, concat_app. simpl. rewrite app_nil_r.
  destruct Hstep as [[-> ->]|Hstep]; [by rewrite app_nil_r|].
  unfold start_of in Hstep. rewrite (runs_clock _ _ _ Hr) in Hstep. by eapply lives_step.
Qed.

(** Nothing in a life makes it another device's. *)
Lemma live_step_dev start l msgs l' :
  live_step start l msgs l' ->
  og_dev (lf_self l') = og_dev (lf_self l) /\ og_cohort (lf_self l') = og_cohort (lf_self l).
Proof.
  intros Hs. destruct Hs as [now gws msgs o o' gws' pending E|o d o' pending E|topic payload msgs f o o' pending E
    |now l1 f l2 msgs o o' E|wall o pending _|o pending _|o pending _]; try done; simpl.
  - pose proof (tick_steady now start o gws) as (Ed & Ec & _). by rewrite E in Ed, Ec.
  - by apply wait_steady in E as (Ed & Ec & _).
  - pose proof (onCommand_steady topic payload o) as (Ed & Ec & _). by rewrite E in Ed, Ec.
  - unfold land in E. repeat case_match; by simplify_eq.
Qed.

Lemma lives_dev start l msgs l' :
  lives start l msgs l' ->
  og_dev (lf_self l') = og_dev (lf_self l) /\ og_cohort (lf_self l') = og_cohort (lf_self l).
Proof.
  induction 1 as [|m1 m2 l' l'' _ [IH1 IH2] Hs]; [done|].
  apply live_step_dev in Hs as [E1 E2]. by rewrite E1, E2.
Qed.

(** ** Lemmas: the ground truth *)

Definition row_of (o : organism) (down : bool) : Snapshot :=
  mkSnapshot (dv_Name (og_dev o)) (og_runningHash o) (og_reportedHash o)
    (negb (str_eq (og_runningHash o) (og_reportedHash o))) (og_battery o) (og_bricked o)
    (og_bootCount o) down.

(** A row for every organism, in order. *)
Lemma snapshot_rows now os : forall out gws,
  exists downs gws', fold_left (snapshot_step now) os (out, gws)
    = (out ++ zip_with row_of os downs, gws') /\ length downs = length os.
Proof.
  induction os as [|o os IH]; intros out gws; cbn [fold_left].
  { exists [], gws. by rewrite app_nil_r. }
  set (down := match gws !! dv_Gateway (og_dev o) with
               | Some g => (isDown now g).1 | None => false end).
  assert (exists gws1, snapshot_step now (out, gws) o = (out ++ [row_of o down], gws1)) as [gws1 ->].
  { unfold snapshot_step, down. destruct (gws !! _) as [g|]; [|by eexists].
    destruct (isDown now g). by eexists. }
  destruct (IH (out ++ [row_of o down]) gws1) as (downs & gws' & -> & Hl).
  exists (down :: downs), gws'. rewrite <- app_assoc. simpl. by rewrite Hl.
Qed.

(** ** Lemmas: a gateway between two changes *)

Section Gateway.
Context (G : string) (HG : is_empty G = false) (g : gatewayState) (b : bool).

Lemma asked_unchanged now name (gws : gmap string gatewayState) g0 :
  isDown now g = (b, g) -> gws !! G = Some g -> gws !! name = Some g0 ->
  <[name := (isDown now g0).2]> gws !! G = Some g /\ (name = G -> (isDown now g0).1 = b).
Proof.
  intros Hd Hg Hn. destruct (decide (name = G)) as [->|Hne].
  - rewrite Hg in Hn. injection Hn as <-. rewrite Hd, lookup_insert_eq. done.
  - rewrite lookup_insert_ne by done. done.
Qed.

Lemma snapshot_gateway now os : isDown now g = (b, g) -> forall out gws, gws !! G = Some g ->
  let r := fold_left (snapshot_step now) os (out, gws) in
  r.2 !! G = Some g /\
  (forall i o row, os !! i = Some o -> r.1 !! (length out + i)%nat = Some row ->
     dv_Gateway (og_dev o) = G -> sn_GatewayDown row = b) /\
  take (length out) r.1 = out.
Proof using G HG g b.
  intros Hd. induction os as [|o os IH]; intros out gws Hg; cbn [fold_left]; [by rewrite take_ge|].
  set (r1 := snapshot_step now (out, gws) o).
  assert (r1.2 !! G = Some g /\ exists row, r1.1 = out ++ [row] /\
    (dv_Gateway (og_dev o) = G -> sn_GatewayDown row = b)) as (Hg1 & row & Eo & Hrow).
  { unfold r1, snapshot_step. destruct (gws !! dv_Gateway (og_dev o)) as [g0|] eqn:E0.
    - destruct (asked_unchanged now _ gws g0 Hd Hg E0) as [E1 E2].
      destruct (isDown now g0) as [down g1]. simpl in *. split; [done|]. by eexists.
    - split; [done|]. eexists. split; [done|]. simpl. intros E1. rewrite E1 in E0. congruence. }
  destruct r1 as [out1 gws1]. simpl in *. subst out1.
  destruct (IH (out ++ [row]) gws1 Hg1) as (H1' & H2' & H3').
  rewrite length_app in *. simpl in *.
  assert (take (length out) (fold_left (snapshot_step now) os (out ++ [row], gws1)).1 = out) as Htake.
  { replace (length out) with (length out `min` (length out + 1))%nat by lia.
    rewrite <- take_take, H3', take_app_length. done. }
  split_and!; [done| |done]. intros [|i] o' row' Ho' Hrow' Hgw.
  - injection Ho' as <-. rewrite Nat.add_0_r in Hrow'.
    assert (take (length out + 1) (fold_left (snapshot_step now) os (out ++ [row], gws1)).1 !! length out
      = Some row') as Ht by (rewrite lookup_take_lt by lia; exact Hrow').
    rewrite H3', list_lookup_middle in Ht by done. injection Ht as <-. by apply Hrow.
  - apply (H2' i o' row' Ho'); [|done]. by replace (length out + 1 + i)%nat with (length out + S i)%nat by lia.
Qed.

Lemma tick_gateway now start o gws msgs o' gws' :
  isDown now g = (b, g) -> gws !! G = Some g -> tick now start o gws = (msgs, o', gws') ->
  gws' !! G = Some g /\ (b = true -> dv_Gateway (og_dev o) = G -> msgs = []).
Proof using G HG g b.
  intros Hd Hg E. unfold tick in E.
  destruct (og_bricked o); [by injection E as <- _ <-|].
  destruct (Before now _); [by injection E as <- _ <-|].
  pose proof (drain_steady now start o) as (Edev & _). set (o0 := drain now start o) in *.
  cbv beta iota zeta in E.
  assert (exists down gws1, gateway_down now o0 gws = (down, gws1) /\ gws1 !! G = Some g /\
    (dv_Gateway (og_dev o) = G -> down = b)) as (down & gws1 & Ed & Hg1 & Hb).
  { unfold gateway_down. rewrite Edev. destruct (is_empty (dv_Gateway (og_dev o))) eqn:Ee.
    - do 2 eexists. split_and!; [done|done|]. intros E1. rewrite E1 in Ee. congruence.
    - destruct (gws !! dv_Gateway (og_dev o)) as [g0|] eqn:E0.
      + destruct (asked_unchanged now _ gws g0 Hd Hg E0) as [E1 E2].
        destruct (isDown now g0) as [down g1]. by do 2 eexists.
      + do 2 eexists. split_and!; [done|done|]. intros E1. congruence. }
  rewrite Ed in E. destruct down; [by injection E as <- _ <-|].
  split; [|intros -> Hgw; by specialize (Hb Hgw)].
  repeat match type of E with context [let '(_, _) := ?x in _] => destruct x end.
  by injection E as _ _ <-.
Qed.

(** One step, at a moment when asking the gateway changes nothing. *)
Lemma step_gateway s e s' :
  habitat_step s e s' -> hb_gws s !! G = Some g ->
  (forall now, asked_at e = Some now -> isDown now g = (b, g)) ->
  hb_gws s' !! G = Some g /\
  match e with
  | Ticked i _ msgs => forall l, hb_lives s !! i = Some l ->
      dv_Gateway (og_dev (lf_self l)) = G -> b = true -> msgs = []
  | Looked _ rows => forall i l row, hb_lives s !! i = Some l ->
      dv_Gateway (og_dev (lf_self l)) = G -> rows !! i = Some row -> sn_GatewayDown row = b
  | _ => True
  end.
Proof using G HG g b.
  intros Hs Hg Ha. destruct Hs as [| | | | | |s i l wall msgs o gws _ Hi E| | | | | |s wall rows e E];
    try (split; [exact Hg|exact I]).
  - destruct (tick_gateway _ _ _ _ _ _ _ (Ha _ eq_refl) Hg E) as [E1 E2]. split; [exact E1|].
    intros l' Hl' Hgw Hb. rewrite Hi in Hl'. injection Hl' as <-. auto.
  - unfold TakeSnapshot in E. simpl in E.
    destruct (snapshot_gateway _ (map lf_self (hb_lives s)) (Ha _ eq_refl) [] (hb_gws s) Hg) as (E1 & E2 & _).
    destruct (fold_left _ _ _) as [out gws]. injection E as <- <-. split; [exact E1|].
    intros i l row Hl Hgw Hrow. apply (E2 i (lf_self l) row); [|exact Hrow|exact Hgw].
    change (map lf_self (hb_lives s)) with (lf_self <$> hb_lives s). by rewrite list_lookup_fmap, Hl.
Qed.
End Gateway.
End Lemmas.

(** ** Theorems *)

Section Theorems.
Context `{RandSource} `{StrconvQuote}.

(** C20. An outage is one thing for the whole enclosure. Whoever asked the gateway last,
    from then on and until its outage (or the interval before the next one) is over,
    whatever the scheduler runs, every device behind it gets the same answer: during an
    outage none of them says anything at its ticks, and the ground truth calls the
    gateway of every one of them down, or up; and nobody's asking makes the outage
    longer or shorter. An outage that has just begun lasts as long as configured. *)
Theorem outage_is_shared s es s' G t0 g0 b g :
  is_empty G = false -> cyclic g0 -> 0 < t0 -> isDown t0 g0 = (b, g) -> hb_gws s !! G = Some g ->
  habitat_runs s es s' ->
  (forall e now, In e es -> asked_at e = Some now ->
     t0 <= now <= (if b then gs_until g else gs_nextAt g)) ->
  hb_gws s' !! G = Some g /\
  (forall i l now msgs, In (Ticked i now msgs) es -> hb_lives s !! i = Some l ->
     dv_Gateway (og_dev (lf_self l)) = G -> b = true -> msgs = []) /\
  (forall i l now rows row, In (Looked now rows) es -> hb_lives s !! i = Some l ->
     dv_Gateway (og_dev (lf_self l)) = G -> rows !! i = Some row -> sn_GatewayDown row = b) /\
  (gs_down g0 = false -> b = true ->
     gs_until g = t0 + Or (gw_OutageFor (gs_cfg g0)) (10 * Minute)).
Proof.
  intros HG Hc Ht0 Hd Hg Hr Hwhen.
  pose proof (isDown_outage t0 g0 Hc Ht0) as Hout. rewrite Hd in Hout.
  destruct Hout as (_ & Hdown & Hup & Hlong & _).
  assert (forall t, t0 <= t <= (if b then gs_until g else gs_nextAt g) -> isDown t g = (b, g)) as Hstay.
  { intros t Ht. destruct b; [by apply (Hdown eq_refl)|by apply (Hup eq_refl)]. }
  enough (hb_gws s' !! G = Some g /\
    (forall i l now msgs, In (Ticked i now msgs) es -> hb_lives s !! i = Some l ->
       dv_Gateway (og_dev (lf_self l)) = G -> b = true -> msgs = []) /\
    (forall i l now rows row, In (Looked now rows) es -> hb_lives s !! i = Some l ->
       dv_Gateway (og_dev (lf_self l)) = G -> rows !! i = Some row -> sn_GatewayDown row = b))
    as (E1 & E2 & E3) by (split_and!; [exact E1|exact E2|exact E3|by apply Hlong]).
  induction Hr as [|es s' e s'' Hr IH Hs]; [by split_and!|].
  destruct IH as (Hg' & IH1 & IH2).
  { intros. eapply Hwhen; [apply in_or_app; by left|done]. }
  assert (forall now, asked_at e = Some now -> isDown now g = (b, g)) as Ha
    by (intros now Hn; apply Hstay; eapply Hwhen; [apply in_or_app; right; by left|exact Hn]).
  destruct (step_gateway G HG g b s' e s'' Hs Hg' Ha) as [Hg'' Hlast].
  assert (forall i l, hb_lives s !! i = Some l -> exists l', hb_lives s' !! i = Some l' /\
    og_dev (lf_self l') = og_dev (lf_self l)) as Hdev.
  { intros i l Hi. destruct (runs_project s es s' i l Hr Hi) as (l' & Hl' & Hl).
    exists l'. split; [done|]. by apply lives_dev in Hl as [E _]. }
  split_and!; [exact Hg''| |].
  - intros i l now msgs [Hin|[->|[]]]%in_app_or Hi Hgw; [by eapply IH1|].
    destruct (Hdev i l Hi) as (l' & Hl' & Edev). apply (Hlast l' Hl'). by rewrite Edev.
  - intros i l now rows row [Hin|[->|[]]]%in_app_or Hi Hgw; [by eapply IH2|].
    destruct (Hdev i l Hi) as (l' & Hl' & Edev). apply (Hlast i l' row Hl'). by rewrite Edev.
Qed.

(** The devices of the file, hatched. *)
Lemma settled_lives wall f i d :
  fl_Devices f !! i = Some d ->
  hb_lives (settle (New wall f)) !! i = Some (mkLife (hatch (fl_Seed f) (fl_Cohorts f) d) []).
Proof.
  intros Hd. unfold settle, New. cbn [hb_lives en_organs].
  rewrite (fold_left_snoc_map (hatch (fl_Seed f) (fl_Cohorts f)) (fl_Devices f) []). simpl.
  change (map (fun o => mkLife o [])) with (fmap (M := list) (fun o => mkLife o [])).
  change (map (hatch _ _) (fl_Devices f)) with (hatch (fl_Seed f) (fl_Cohorts f) <$> fl_Devices f).
  by rewrite !list_lookup_fmap, Hd.
Qed.

(** C19. The ground truth of a whole fleet is no lie, and neither is the fleet, unless it
    is told to: at whatever moment of whatever run of the enclosure, while it connects,
    lives or closes, one looks, there is a row for every device of the file, in its
    order and with its name; and a device that is not configured to report what it does
    not run, nor its cohort, is shown as running what it reports. *)
Theorem fleet_honest wall f es s looked rows e :
  habitat_runs (settle (New wall f)) es s -> TakeSnapshot looked (enclosure_of s) = (rows, e) ->
  forall i d, fl_Devices f !! i = Some d ->
  exists row, rows !! i = Some row /\ sn_Device row = dv_Name d /\
    (bh_OnFirmware (dv_Behaviour d) <> FailReportsWithoutRunning ->
     (forall c, cohort_of (fl_Cohorts f) (dv_Cohort d) = Some c ->
        co_FailureMode c <> FailReportsWithoutRunning) ->
     sn_Lying row = false /\ sn_Running row = sn_Reported row).
Proof.
  intros Hr Hlook i d Hd.
  destruct (runs_project _ es s i _ Hr (settled_lives wall f i d Hd)) as (l & Hl & Hlives).
  unfold TakeSnapshot in Hlook. simpl in Hlook.
  destruct (snapshot_rows (clock_now (hb_clock s) looked) (map lf_self (hb_lives s)) [] (hb_gws s))
    as (downs & gws & E & Hlen). rewrite E in Hlook. injection Hlook as <- _. simpl.
  assert (map lf_self (hb_lives s) !! i = Some (lf_self l)) as Hi
    by (change (map lf_self (hb_lives s)) with (lf_self <$> hb_lives s); by rewrite list_lookup_fmap, Hl).
  destruct (lookup_lt_is_Some_2 downs i) as [down Hdown];
    [rewrite Hlen; by eapply lookup_lt_Some|].
  exists (row_of (lf_self l) down). split; [by rewrite lookup_zip_with, Hi, Hdown|].
  pose proof (lives_dev _ _ _ _ Hlives) as [Edev _]. simpl in Edev.
  split; [simpl; by rewrite Edev|]. intros Hb Hc.
  assert (og_runningHash (lf_self l) = og_reportedHash (lf_self l)) as Eh
    by (eapply (lives_honest (start_of (settle (New wall f))) (fl_Seed f) (fl_Cohorts f) d);
        [exact Hb|exact Hc|exact Hlives]).
  simpl. split; [by rewrite Eh, str_eq_refl|exact Eh].
Qed.
End Theorems.

(** ** A concrete enclosure *)

(** A generator that always draws zero. *)
#[local] Instance still_rand : RandSource :=
  {| Rand := unit; NewSource _ := tt; Float64 r := (f_of_Z 0, r) |}.
#[local] Instance bare_quote : StrconvQuote := fun s => s.

Definition node (name : string) : Device :=
  mkDevice name name "ridge-gw" 7 "" (30 * Second) "v1" (f_of_Z 80) (f_of_Z 0)
    (mkBehaviour (f_of_Z 0) (f_of_Z 0) FailNone 0 (f_of_Z 0)).
Definition ridge : Fleet :=
  mkFleet 7 (f_of_Z 1) [] [mkGateway "ridge-gw" Hour (5 * Minute)] [node "a"; node "b"].
Definition dawn : Time := UnixMilli 1700000000000.
Definition ridge_gateway : Gateway := mkGateway "ridge-gw" Hour (5 * Minute).

(** Both devices live, and the gateway is about to go down. *)
Definition evening : Habitat :=
  mkHabitat (mkClock dawn (f_of_Z 1))
    (map (fun d => mkLife (with_connection true false (hatch 7 [] d)) []) [node "a"; node "b"])
    {[ "ridge-gw"%string := mkgatewayState ridge_gateway false (dawn + Hour) 0 ]} (AtOrganism 2) 2
    {[0%nat; 1%nat]} false.

Definition dusk : Time := dawn + Hour + 1.
Definition down_gateway : gatewayState := mkgatewayState ridge_gateway true (dawn + Hour) (dusk + 5 * Minute).
Definition outage : Habitat := set_gws {[ "ridge-gw"%string := down_gateway ]} evening.

(** The second device at its tick, four minutes into the outage that the first one met. *)
Lemma outage_tick :
  habitat_step outage (Ticked 1 (dusk + 4 * Minute) [])
    (set_gws (<["ridge-gw"%string := down_gateway]> (hb_gws outage))
       (set_life 1 (mkLife (with_connection true false (hatch 7 [] (node "b"))) []) outage)).
Proof.
  eapply (step_tick outage 1 (mkLife (with_connection true false (hatch 7 [] (node "b"))) [])
    (dusk + 4 * Minute)).
  - simpl. set_solver.
  - reflexivity.
  - vm_compute. reflexivity.
Defined.

Lemma outage_is_shared_witness :
  isDown dusk (mkgatewayState ridge_gateway false (dawn + Hour) 0) = (true, down_gateway) /\
  gs_until down_gateway = dusk + 5 * Minute /\
  forall msgs s', habitat_step outage (Ticked 1 (dusk + 4 * Minute) msgs) s' -> msgs = [].
Proof.
  assert (isDown dusk (mkgatewayState ridge_gateway false (dawn + Hour) 0) = (true, down_gateway)) as Hd
    by (vm_compute; reflexivity).
  split; [exact Hd|]. split; [reflexivity|]. intros msgs s' Hs.
  assert (habitat_runs outage ([] ++ [Ticked 1 (dusk + 4 * Minute) msgs]) s') as Hr
    by (eapply runs_step; [apply runs_refl|exact Hs]).
  destruct (outage_is_shared outage ([] ++ [Ticked 1 (dusk + 4 * Minute) msgs]) s' "ridge-gw" dusk
    (mkgatewayState ridge_gateway false (dawn + Hour) 0) true down_gateway eq_refl) as (_ & H1 & _).
  - unfold cyclic. vm_compute. split; [reflexivity|]. split; discriminate.
  - vm_compute. reflexivity.
  - exact Hd.
  - reflexivity.
  - exact Hr.
  - intros e now [<-|[]] [= <-]. vm_compute. split; discriminate.
  - apply (H1 1%nat (mkLife (with_connection true false (hatch 7 [] (node "b"))) []) (dusk + 4 * Minute) msgs);
      [left; reflexivity|reflexivity|reflexivity|reflexivity].
Defined.

Lemma fleet_honest_witness :
  exists row, (TakeSnapshot dawn (enclosure_of (cancelled (settle (New dawn ridge))))).1 !! 1%nat = Some row /\
    sn_Device row = "b"%string /\ sn_Lying row = false.
Proof.
  assert (habitat_runs (settle (New dawn ridge)) ([] ++ [Unseen]) (cancelled (settle (New dawn ridge)))) as Hr
    by (eapply runs_step; [apply runs_refl|apply step_cancel]).
  destruct (TakeSnapshot dawn (enclosure_of (cancelled (settle (New dawn ridge))))) as [rows e] eqn:E.
  destruct (fleet_honest dawn ridge _ _ dawn rows e Hr E 1%nat (node "b") eq_refl)
    as (row & Hrow & Hname & Hh).
  exists row. split; [exact Hrow|]. split; [exact Hname|].
  apply Hh; [discriminate|]. intros c Hc. vm_compute in Hc. discriminate Hc.
Defined.

Definition liar : organism :=
  (land dawn (mkFlash "v2" FailReportsWithoutRunning 0)
     (with_connection true false (hatch 7 [] (node "a")))).2.

(** What a device that flashed without running it says at its next tick is what a
    device says that did flash; what it announces when it reconnects is the truth. *)
Example lie_told_and_untold :
  map snd (filter (fun m => m.1 = "a/text_sensor/running_config_hash/state"%string)
    (tick (dawn + Second) dawn liar ∅).1.1) = ["v2"%string] /\
  og_runningHash liar = "v1"%string /\
  Contains "v1" (announcement dawn liar) = true /\ Contains "v2" (announcement dawn liar) = false.
Proof. vm_compute. done. Qed.

(** A device that is bricked while its client is reconnecting is back, and says so. *)
Example bricked_comes_back :
  let o := (land dawn (mkFlash "v2" FailBricks 0) (with_connection false false (hatch 7 [] (node "a")))).2 in
  og_bricked o = true /\ og_stopped o = false /\
  map fst (on_connect dawn o) = ["a/status"; "torpor/announce/a"]%string.
Proof. vm_compute. done. Qed.
