(* ===== verification/Keeper.v ===== *)
(** * Keeping a vivarium: durations of the fleet file, notes, ground truth

    What surrounds the organisms of [Vivarium]: the durations a fleet is described
    with (types.go), the note a command is logged with (enclosure.go), and the ground
    truth that cmd/vivarium prints, as text. The decoder that finds the durations in
    the file and the broker are left out. *)

From Stdlib Require Import Ascii SpecFloat.
From S2P Require Import Prelude GoTime GoFloat GoStrings GoParseFloat GoDuration Vivarium.
Local Open Scope Z_scope.

(** ** Definitions: [Duration.UnmarshalJSON] *)

(** The text before a suffix, [None] when it is not one: [strings.HasSuffix] and
    [strings.TrimSuffix]. *)
Fixpoint before_suffix (suffix s : string) : option string :=
  if str_eq s suffix then Some EmptyString
  else match s with
       | EmptyString => None
       | String c s' => String c <$> before_suffix suffix s'
       end.

Fixpoint but_last (s : string) : string :=
  match s with
  | EmptyString | String _ EmptyString => EmptyString
  | String c s' => String c (but_last s')
  end.

(** The text between the quotes, which is looked at as it is, escapes and all. *)
Definition unquoted (b : string) : string :=
  match b with
  | String q (String _ _ as rest) => if byte_code q =? 34 then but_last rest else b
  | _ => b
  end.

Record BadDuration := mkBadDuration { bad_text : string; bad_cause : DurationError }.

(** [time.Duration(days * 24 * float64(time.Hour))]. *)
Definition days_long (days : float64) : Duration :=
  f_to_int64 (f_mul (f_mul days (f_of_Z 24)) (f_of_Z Hour)).

(** The number of days, when the text ends in [d] and starts with a positive number. *)
Definition as_days (s : string) : option float64 :=
  t ← before_suffix "d" s;
  days ← Sscanf_f t;
  if f_lt (f_of_Z 0) days then Some days else None.

(** The duration as the JSON of the fleet leaves it. *)
Definition UnmarshalJSON (b : string) (d : Duration) : result Duration BadDuration :=
  let s := unquoted b in
  if is_empty s || str_eq s "null" then Ok d
  else match as_days s with
       | Some days => Ok (days_long days)
       | None =>
           match ParseDuration s with
           | Err e => Err (mkBadDuration s e)
           | Ok v => Ok v
           end
       end.

(** ** Definitions: the note of a command (enclosure.go) *)

Definition escape (code text : string) : string :=
  (String "027" "[" +:+ code +:+ "m" +:+ text +:+ String "027" "[0m")%string.
Definition red : string -> string := escape "31".
Definition yellow : string -> string := escape "33".

Definition modeNote (m : FailureMode) : string :=
  (if str_eq m FailNone then ""
  else if str_eq m FailReportsWithoutRunning then "  " +:+ red "(will report it without running it)"
  else if str_eq m FailBootLoop then "  " +:+ red "(will boot loop)"
  else if str_eq m FailBricks then "  " +:+ red "(will brick)"
  else if str_eq m FailIgnores then "  " +:+ yellow "(will ignore)"
  else if str_eq m FailIntermittent then "  " +:+ yellow "(will go quiet)"
  else "  (" +:+ m +:+ ")")%string.

(** ** Definitions: ground truth (cmd/vivarium) *)

(** [%-<w>s]: spaces up to a width, which fmt counts in runes. *)
Definition align_left (w : nat) (s : string) : string :=
  (s +:+ Nat.iter (w - length (runes s)) (String " ") EmptyString)%string.

Definition truth_note (s : Snapshot) : string :=
  if sn_Bricked s then red "BRICKED"
  else if sn_Lying s then red "REPORTS A HASH IT IS NOT RUNNING"
  else if sn_GatewayDown s then yellow "gateway down"
  else if sn_BootCount s >? 3 then yellow "boot looping"
  else "".

Definition newline : string := String "010" EmptyString.

Definition truth_line (s : Snapshot) : string :=
  ("  " +:+ align_left 11 (sn_Device s) +:+ " " +:+ align_left 9 (sn_Running s) +:+ " " +:+
   align_left 9 (sn_Reported s) +:+ " " +:+ align_left 6 (FormatFixed 0 (sn_Battery s)) +:+ " " +:+
   align_left 6 (pretty (sn_BootCount s)) +:+ " " +:+ truth_note s +:+ newline)%string.

Definition by_device (a b : Snapshot) : bool := str_lt (sn_Device a) (sn_Device b).

(** [printTruth], at a wall clock that is read once for the snapshot and once for the
    heading. *)
Definition printTruth `{RandSource} `{SliceSort} (loc : Location) (wall heading : Time) (e : Enclosure)
  : string * Enclosure :=
  let '(snap, e) := TakeSnapshot wall e in
  ((newline +:+ escape "1" ("── ground truth " +:+ format_clock loc heading +:+ ":" +:+
                            pad 2 (time_SecondOf loc heading)) +:+ newline +:+
    "  " +:+ align_left 11 "DEVICE" +:+ " " +:+ align_left 9 "RUNNING" +:+ " " +:+ align_left 9 "REPORTED" +:+ " " +:+
    align_left 6 "BATT" +:+ " " +:+ align_left 6 "BOOTS" +:+ " NOTE" +:+ newline +:+
    String.concat "" (map truth_line (slice_sort by_device snap)) +:+ newline)%string, e).

(** The lines [main] greets with. *)
Definition fleet_banner (f : Fleet) (broker : string) : string :=
  let speed := if f_le (fl_Speed f) (f_of_Z 0) then f_of_Z 1 else fl_Speed f in
  ("  " +:+ pretty (Z.of_nat (length (fl_Devices f))) +:+ " devices, " +:+
   pretty (Z.of_nat (length (fl_Cohorts f))) +:+ " cohorts, " +:+
   pretty (Z.of_nat (length (fl_Gateways f))) +:+ " gateways, seed=" +:+ pretty (fl_Seed f) +:+
   ", speed=" +:+ FormatFixed 0 speed +:+ "x" +:+ newline +:+
   "  point the mapper at " +:+ broker +:+ newline +:+ newline)%string.

(** ** Lemmas: text with a unit after it *)

Section Lemmas.

Lemma but_last_snoc s c : but_last (s +:+ String c "")%string = s.
Proof.
  induction s as [|x s IH]; [done|]. rewrite str_app_cons. cbn [but_last].
  rewrite IH. destruct s; done.
Qed.

Lemma before_suffix_app suffix s : before_suffix suffix (s +:+ suffix)%string = Some s.
Proof.
  induction s as [|c s IH].
  - change ("" +:+ suffix)%string with suffix. destruct suffix; cbn [before_suffix]; by rewrite str_eq_refl.
  - rewrite str_app_cons. cbn [before_suffix]. rewrite IH.
    rewrite (proj2 (str_eq_false _ _)); [done|]. intros E. apply (f_equal String.length) in E.
    revert E. cbn [String.length].
    rewrite length_str_app. lia.
Qed.

(** A suffix of one byte is decided by the last byte. *)
Lemma before_suffix_unit (x : ascii) s u :
  u <> EmptyString -> before_suffix (String x "") u = None ->
  before_suffix (String x "") (s +:+ u)%string = None.
Proof.
  intros Hu Hn. induction s as [|c s IH]; [done|]. rewrite str_app_cons. cbn [before_suffix].
  rewrite IH. rewrite (proj2 (str_eq_false _ _)); [done|]. intros [= _ E].
  destruct s; [|done]. by apply Hu.
Qed.

(** A digit is itself, and no byte of any other set. *)
Lemma digit_cases c : is_digit c = true -> In c ["0"; "1"; "2"; "3"; "4"; "5"; "6"; "7"; "8"; "9"]%char.
Proof. destruct c as [[] [] [] [] [] [] [] []]; intros H; try discriminate H; simpl; tauto. Qed.

Lemma leadingInt_pretty n : forall s, Z.of_N n <= two63 ->
  leadingInt 0 (pretty_N_go n s) = leadingInt (Z.of_N n) s.
Proof.
  induction n as [n IH] using (well_founded_induction N.lt_wf_0). intros s Hn.
  destruct (decide (n = 0)%N) as [->|Hz]; [by rewrite pretty_N_go_0|].
  rewrite pretty_N_go_step by lia.
  pose proof (N.div_mod n 10 ltac:(done)) as Hd.
  pose proof (N.mod_upper_bound n 10 ltac:(done)) as Hm.
  pose proof (N.div_lt n 10 ltac:(lia) ltac:(done)) as Hlt.
  set (q := (n / 10)%N) in *. set (r := (n mod 10)%N) in *. clearbody q r. rewrite IH by lia.
  destruct (pretty_N_char_digit r Hm) as [Hi Hv]. cbn [leadingInt]. rewrite Hi, Hv.
  destruct (Z.ltb_spec (two63 / 10) (Z.of_N q)) as [H1|H1].
  { change (two63 / 10) with 922337203685477580 in H1. unfold two63 in *. lia. }
  replace (Z.of_N q * 10 + Z.of_N r) with (Z.of_N n) by lia.
  by destruct (Z.ltb_spec two63 (Z.of_N n)); [lia|].
Qed.

Lemma pretty_go_app n : forall s t,
  (pretty_N_go n s +:+ t)%string = pretty_N_go n (s +:+ t)%string.
Proof.
  induction n as [n IH] using (well_founded_induction N.lt_wf_0). intros s t.
  destruct (decide (n = 0)%N) as [->|Hz]; [by rewrite !pretty_N_go_0|].
  rewrite !(pretty_N_go_step n) by lia. rewrite IH by (apply N.div_lt; lia). by rewrite str_app_cons.
Qed.

(** The units, and the text of each. *)
Definition units : list (string * Z) :=
  [("ns", Nanosecond); ("us", 1000); (micro_sign, 1000); (greek_mu, 1000); ("ms", Millisecond);
   ("s", Second); ("m", Minute); ("h", Hour)]%string.

Lemma units_spelt u unit : In (u, unit) units ->
  (exists c t, u = String c t /\ is_digit c = false /\ byte_code c <> 46) /\ take_unit u = (u, ""%string) /\
  unitMap u = Some unit /\ before_suffix "d" u = None /\ 0 < unit /\ is_empty u = false.
Proof.
  intros H. repeat destruct H as [[= <- <-]|H]; [..|done];
    (split; [do 2 eexists; split; [reflexivity|by split]|done]).
Qed.

Lemma count_cons n u : 0 < n -> exists c t,
  (pretty n +:+ u)%string = String c t /\ is_digit c = true /\ pretty n <> ""%string /\
  (pretty n +:+ u)%string = pretty_N_go (Z.to_N n) u.
Proof.
  intros Hn. rewrite pretty_Z_pos, pretty_go_app by lia. change ("" +:+ u)%string with u.
  destruct (pretty_go_cons (Z.to_N n) "" ltac:(lia)) as (c & t & E).
  pose proof (pretty_digits (Z.to_N n) "" eq_refl) as Hd. rewrite E in Hd.
  apply andb_true_iff in Hd as [Hd _].
  exists c, (t +:+ u)%string. rewrite <- str_app_cons, <- E, pretty_go_app. by rewrite E.
Qed.

Lemma parse_term_count n u unit :
  In (u, unit) units -> 0 < n -> n * unit <= MaxInt64 ->
  parse_term (pretty n +:+ u)%string = Ok (n * unit, ""%string).
Proof.
  intros Hu Hn Hmax. destruct (units_spelt u unit Hu) as ((x & u' & Eu & Hx & Hp) & Ht & Hm & _ & Hpos & He).
  assert (n <= MaxInt64) as Hn2 by nia.
  destruct (count_cons n u Hn) as (c & t & E & Hc & Hne & Hgo).
  assert (leadingInt 0 (pretty n +:+ u)%string = Some (n, u)) as Hl.
  { rewrite Hgo, leadingInt_pretty, Z2N.id by (unfold two63, MaxInt64 in *; lia).
    rewrite Eu. cbn [leadingInt]. by rewrite Hx. }
  assert (negb (String.length (pretty n +:+ u) =? String.length u)%nat = true) as Hpre.
  { rewrite length_str_app. destruct (pretty n); [done|]. cbn [String.length].
    apply negb_true_iff, Nat.eqb_neq. lia. }
  unfold parse_term. rewrite Hl, Hpre, E, Hc, orb_true_r. cbn [negb andb].
  assert (match u with String "."%char s1' => let '(f, scale, s2) := leadingFraction 0 (f_of_Z 1) false s1' in
            (f, scale, s2, negb (String.length s1' =? String.length s2)%nat)
          | _ => (0, f_of_Z 1, u, false) end = (0, f_of_Z 1, u, false)) as ->.
  { rewrite Eu. destruct x as [[] [] [] [] [] [] [] []]; try reflexivity. by destruct Hp. }
  rewrite Ht, He, Hm. cbn [negb andb].
  destruct (Z.ltb_spec (two63 / unit) n) as [Hlt|_]; [|done].
  pose proof (Z.mul_succ_div_gt two63 unit Hpos) as Hgt.
  assert (unit * Z.succ (two63 / unit) <= n * unit)
    by (rewrite (Z.mul_comm n); apply Z.mul_le_mono_nonneg_l; lia).
  unfold two63, MaxInt64 in *. lia.
Qed.

Lemma count_unsigned n u : 0 < n ->
  split_sign (pretty n +:+ u)%string = (false, false, (pretty n +:+ u)%string) /\
  is_empty (pretty n +:+ u)%string = false.
Proof.
  intros Hn. destruct (count_cons n u Hn) as (c & t & -> & Hc & _).
  apply digit_cases in Hc. simpl in Hc. intuition (subst; done).
Qed.

Lemma ParseDuration_count n u unit :
  In (u, unit) units -> 0 < n -> n * unit <= MaxInt64 ->
  ParseDuration (pretty n +:+ u)%string = Ok (n * unit).
Proof.
  intros Hu Hn Hmax. destruct (count_unsigned n u Hn) as [Hs He].
  pose proof (parse_term_count n u unit Hu Hn Hmax) as Ht.
  destruct (units_spelt u unit Hu) as ((x & u' & Eu & _) & _ & _ & _ & Hpos & _).
  unfold ParseDuration. rewrite Hs, He. rewrite (proj2 (str_eq_false _ _)).
  2:{ intros E. apply (f_equal String.length) in E. rewrite length_str_app, Eu in E.
      destruct (count_cons n u Hn) as (_ & _ & _ & _ & Hne & _).
      destruct (pretty n); [done|]. simpl in E. lia. }
  set (s := (pretty n +:+ u)%string) in *.
  assert (exists k, String.length s = S k) as [k ->] by (destruct s; [done|by eexists]).
  cbn [parse_terms]. rewrite He, Ht. unfold wrapU64.
  rewrite Z.mod_small, Z.add_0_l by (unfold MaxInt64 in *; nia).
  destruct (Z.ltb_spec two63 (n * unit)); [unfold two63, MaxInt64 in *; lia|].
  replace (parse_terms k (n * unit) "") with (@Ok Z DurationError (n * unit)) by (by destruct k).
  destruct (Z.ltb_spec (two63 - 1) (n * unit)); [unfold two63, MaxInt64 in *; lia|done].
Qed.

(** ** Lemmas: days *)

Lemma accept_all_digits codes s : forall buf,
  (forall c, is_digit c = true -> in_codes codes c = true) -> all_bytes is_digit s = true ->
  accept_all codes buf s = ((buf +:+ s)%string, ""%string).
Proof.
  induction s as [|c s IH]; intros buf Hc Hd; cbn [accept_all]; [by rewrite str_app_nil_r|].
  simpl in Hd. apply andb_true_iff in Hd as [Hd Hs]. rewrite (Hc c Hd), IH by done.
  by rewrite str_app_assoc.
Qed.

Lemma decimal_accepted c : is_digit c = true -> in_codes (decimal_codes ++ [underscore_code]) c = true.
Proof. intros H%digit_cases. simpl in H. intuition (subst; done). Qed.

(** A text of digits is one token. *)
Lemma floatToken_digits s : all_bytes is_digit s = true -> floatToken s = (s, ""%string).
Proof.
  intros Hs. destruct s as [|c t]; [done|].
  pose proof Hs as Hd. simpl in Hd. apply andb_true_iff in Hd as [Hc Ht].
  assert (forall codes, (forall x, is_digit x = true -> in_codes codes x = false) ->
    accept codes (""%string, String c t) = (false, (""%string, String c t))) as Hno.
  { intros codes H. unfold accept. cbn [snd]. by rewrite (H c Hc). }
  unfold floatToken. cbn [accept_word].
  rewrite !Hno by (intros x Hx%digit_cases; simpl in Hx; intuition (subst; done)).
  assert (accept_all (decimal_codes ++ [underscore_code]) "" (String c t)
    = (String c t, ""%string)) as Hall
    by (rewrite accept_all_digits; [done|apply decimal_accepted|done]).
  destruct (accept [48] (""%string, String c t)) as [[] t1] eqn:E0.
  - unfold accept in E0. cbn [snd fst] in E0. destruct (in_codes [48] c) eqn:E1; [|done].
    injection E0 as <-. change ("" +:+ String c "")%string with (String c "").
    assert (accept [120; 88] (String c "", t) = (false, (String c "", t))) as ->.
    { destruct t as [|d t]; [done|]. simpl in Ht. apply andb_true_iff in Ht as [Hd _].
      unfold accept. cbn [snd]. apply digit_cases in Hd. simpl in Hd. intuition (subst; done). }
    cbn [fst snd]. rewrite accept_all_digits; [done|apply decimal_accepted|done].
  - assert (t1 = (""%string, String c t)) as ->.
    { unfold accept in E0. cbn [snd fst] in E0. by destruct (in_codes [48] c); injection E0. }
    cbn [fst snd]. by rewrite Hall.
Qed.

Lemma digits_no_letters s : all_bytes is_digit s = true -> split_p s = None /\ hasX s = false.
Proof.
  induction s as [|c s IH]; [done|]. intros H. simpl in H. apply andb_true_iff in H as [Hc Hs].
  destruct (IH Hs) as [IH1 IH2]. cbn [split_p hasX]. rewrite IH1, IH2.
  apply digit_cases in Hc. simpl in Hc. intuition (subst; done).
Qed.

Lemma Sscanf_f_count n :
  0 < n <= 2 ^ 53 -> exists f, Sscanf_f (pretty n) = Some f /\ exactly n f.
Proof.
  intros Hn. destruct (ParseFloat_exactly n Hn) as (f & Hp & Hf). exists f. split; [|done].
  assert (all_bytes is_digit (pretty n) = true) as Hd
    by (rewrite pretty_Z_pos by lia; by apply pretty_digits).
  assert (skip_blanks 0 (pretty n) = Some (pretty n) /\ pretty n <> ""%string) as [Hb Hne].
  { destruct (count_cons n "" ltac:(lia)) as (c & t & E & Hc & Hne & _). rewrite str_app_nil_r in E.
    split; [|done]. rewrite E. apply digit_cases in Hc. simpl in Hc. intuition (subst; done). }
  unfold Sscanf_f. rewrite Hb. destruct (digits_no_letters _ Hd) as [H1 H2].
  assert (convertFloat (floatToken (pretty n)).1 = Some f) as Hc.
  { rewrite floatToken_digits by done. unfold convertFloat. cbn [fst]. by rewrite H1, H2. }
  by destruct (pretty n).
Qed.

Lemma exactly_24 : exactly 24 (f_of_Z 24).
Proof. do 2 eexists. split; [vm_compute; reflexivity|]. vm_compute. intuition congruence. Qed.
Lemma exactly_hour : exactly Hour (f_of_Z Hour).
Proof. do 2 eexists. split; [vm_compute; reflexivity|]. vm_compute. intuition congruence. Qed.

(** The longest whole number of days an int64 holds. *)
Definition most_days : Z := 106751.

Lemma days_long_exact n f : 0 < n <= most_days -> exactly n f -> days_long f = n * (24 * Hour).
Proof.
  unfold most_days. intros Hn Hf. unfold days_long.
  destruct (holds_small (n * 24) ltac:(lia)) as (q1 & e1 & H1 & _).
  pose proof (f_mul_exact _ _ _ _ _ _ Hf exactly_24 H1) as H24.
  destruct (holds_small (n * 24 * 439453125) ltac:(lia)) as (q2 & e2 & H2 & He2).
  assert (n * 24 * Hour = n * 24 * 439453125 * 2 ^ 13) as E
    by (change Hour with (439453125 * 2 ^ 13); ring).
  assert (e2 + 13 <= 11) as Hle.
  { destruct H2 as (Hq & He & Hh). destruct (Z_le_gt_dec (e2 + 13) 11) as [|Hgt]; [done|].
    exfalso. assert (2 ^ (52 + -1) <= 2 ^ (52 + e2)) by (apply Z.pow_le_mono_r; lia).
    assert (2 ^ 52 * 2 ^ 51 <= Zpos q2 * 2 ^ (52 + e2)) by (apply Z.mul_le_mono_nonneg; lia).
    simpl in *. lia. }
  pose proof (holds_shift _ _ _ 13 H2 ltac:(lia) Hle) as H3. rewrite <- E in H3.
  pose proof (f_mul_exact _ _ _ _ _ _ H24 exactly_hour H3) as Hd.
  unfold f_to_int64. rewrite (f_trunc_exactly _ _ Hd).
  destruct ((MinInt64 <=? n * 24 * Hour) && (n * 24 * Hour <=? MaxInt64)) eqn:Eb; [by rewrite Z.mul_assoc|].
  unfold MinInt64, MaxInt64, Hour, Minute, Second in Eb. lia.
Qed.

Lemma exactly_positive n f : exactly n f -> f_lt (f_of_Z 0) f = true.
Proof. intros (q & e & -> & _). reflexivity. Qed.

Lemma as_days_count n :
  0 < n <= most_days -> exists f, as_days (pretty n +:+ "d")%string = Some f /\ exactly n f.
Proof.
  intros Hn. destruct (Sscanf_f_count n) as (f & Hs & Hf); [unfold most_days in *; lia|].
  exists f. split; [|done]. unfold as_days. rewrite before_suffix_app. cbn [mbind option_bind].
  rewrite Hs. cbn [mbind option_bind]. by rewrite (exactly_positive n f).
Qed.

Lemma as_days_other (n : Z) u unit : In (u, unit) units -> as_days (pretty n +:+ u)%string = None.
Proof.
  intros Hu. destruct (units_spelt u unit Hu) as (_ & _ & _ & Hb & _ & He).
  unfold as_days. rewrite before_suffix_unit; [done| |done]. by intros ->.
Qed.

(** What the JSON of a fleet holds between quotes. *)
Definition json_text (s : string) : string := String "034" (s +:+ String "034" "")%string.

Lemma unquoted_json s : unquoted (json_text s) = s.
Proof.
  unfold json_text, unquoted. destruct s as [|c s]; [done|]. rewrite str_app_cons.
  change (byte_code "034" =? 34) with true. cbv iota. rewrite <- str_app_cons. apply but_last_snoc.
Qed.

Lemma UnmarshalJSON_text s d :
  is_empty s = false -> str_eq s "null" = false ->
  UnmarshalJSON (json_text s) d =
  match as_days s with
  | Some days => Ok (days_long days)
  | None => match ParseDuration s with Err e => Err (mkBadDuration s e) | Ok v => Ok v end
  end.
Proof. intros H1 H2. unfold UnmarshalJSON. rewrite unquoted_json. by rewrite H1, H2. Qed.

Lemma count_not_null (n : Z) u : 0 < n -> str_eq (pretty n +:+ u)%string "null" = false.
Proof.
  intros Hn. destruct (count_cons n u Hn) as (c & t & -> & Hc & _). apply str_eq_false.
  intros [= -> _]. discriminate Hc.
Qed.

(** A number without a unit. *)
Lemma before_suffix_digits s : all_bytes is_digit s = true -> before_suffix "d" s = None.
Proof.
  induction s as [|c s IH]; [done|]. intros H. simpl in H. apply andb_true_iff in H as [Hc Hs].
  cbn [before_suffix]. rewrite (IH Hs), (proj2 (str_eq_false _ _)); [done|].
  intros [= -> _]. discriminate Hc.
Qed.

Lemma bare_number_refused n d :
  0 < n <= MaxInt64 ->
  UnmarshalJSON (json_text (pretty n)) d = Err (mkBadDuration (pretty n) MissingUnit).
Proof.
  intros Hn. destruct (count_unsigned n "" ltac:(lia)) as [Hs He].
  pose proof (count_not_null n "" ltac:(lia)) as Hnn.
  destruct (count_cons n "" ltac:(lia)) as (c & t & E & Hc & _ & Hgo).
  rewrite str_app_nil_r in Hs, He, Hnn, E, Hgo.
  assert (all_bytes is_digit (pretty n) = true) as Hd
    by (rewrite pretty_Z_pos by lia; by apply pretty_digits).
  rewrite UnmarshalJSON_text by done. unfold as_days. rewrite before_suffix_digits by done.
  cbn [mbind option_bind]. unfold ParseDuration. rewrite Hs, He.
  rewrite (proj2 (str_eq_false _ _)).
  2:{ intros E0. assert (pretty n = pretty 0) as E1 by exact E0. apply (inj pretty) in E1. lia. }
  assert (parse_term (pretty n) = Err MissingUnit) as Ht.
  { assert (leadingInt 0 (pretty n) = Some (n, ""%string)) as Hl
      by (rewrite Hgo, leadingInt_pretty, Z2N.id by (unfold two63, MaxInt64 in *; lia); reflexivity).
    unfold parse_term. rewrite Hl, E, Hc, orb_true_r. reflexivity. }
  assert (exists k, String.length (pretty n) = S k) as [k ->] by (rewrite E; by eexists).
  cbn [parse_terms]. by rewrite He, Ht.
Qed.
End Lemmas.

(** ** Theorems *)

(** C31. The durations of a fleet file are read as they are written: a positive number
    with a unit is that many units for every unit of Go and for the day that the file
    adds (through a float64, and exactly), up to what an int64 of nanoseconds holds;
    and a number without a unit is refused, whatever the field held before. *)
Theorem UnmarshalJSON_counts u unit n d :
  In (u, unit) (("d"%string, 24 * Hour) :: units) -> 0 < n -> n * unit <= MaxInt64 ->
  UnmarshalJSON (json_text (pretty n +:+ u)%string) d = Ok (n * unit) /\
  UnmarshalJSON (json_text (pretty n)) d = Err (mkBadDuration (pretty n) MissingUnit).
Proof.
  intros Hu Hn Hmax.
  assert (0 < unit) as Hpos by (destruct Hu as [[= _ <-]|Hu]; [done|by apply (units_spelt u unit Hu)]).
  split; [|apply bare_number_refused; nia].
  rewrite UnmarshalJSON_text by (apply count_unsigned || apply count_not_null; done).
  destruct Hu as [[= <- <-]|Hu].
  - assert (0 < n <= most_days) as Hd
      by (unfold most_days, MaxInt64, Hour, Minute, Second in *; lia).
    destruct (as_days_count n Hd) as (f & -> & Hf). by rewrite (days_long_exact n f Hd Hf).
  - rewrite (as_days_other n u unit Hu). by rewrite (ParseDuration_count n u unit Hu Hn Hmax).
Qed.

(** After a flash that is reported without being run, the ground truth says that the
    device lies, whatever its gateway does. *)
Theorem truth_exposes_lie `{RandSource} (now : Time) (f : Flash) (o : organism) gws out :
  fs_mode f = FailReportsWithoutRunning -> og_bricked o = false -> og_runningHash o <> fs_want f ->
  exists s, (snapshot_step now (out, gws) (land now f o).2).1 = out ++ [s] /\
    sn_Running s = og_runningHash o /\ sn_Reported s = fs_want f /\
    truth_note s = red "REPORTS A HASH IT IS NOT RUNNING".
Proof.
  intros Hm Hb Hw.
  assert (land now f o = ([], with_hashes (og_runningHash o) (fs_want f) o)) as ->
    by (unfold land; by rewrite Hm).
  unfold snapshot_step. cbn [og_dev with_hashes].
  destruct (match gws !! _ with Some g => _ | None => _ end) as [down gws'].
  eexists. split; [reflexivity|]. unfold truth_note. cbn. rewrite Hb.
  rewrite (proj2 (str_eq_false _ _)) by done. done.
Qed.

(** ** On concrete input *)

Lemma UnmarshalJSON_counts_witness :
  UnmarshalJSON (json_text "5m") 7 = Ok (5 * Minute) /\
  UnmarshalJSON (json_text "4d") 7 = Ok (4 * (24 * Hour)) /\
  UnmarshalJSON (json_text "30") 7 = Err (mkBadDuration "30" MissingUnit).
Proof.
  destruct (UnmarshalJSON_counts "m" Minute 5 7 ltac:(simpl; tauto) ltac:(lia)
    ltac:(vm_compute; discriminate)) as [H1 _].
  destruct (UnmarshalJSON_counts "d" (24 * Hour) 4 7 ltac:(simpl; tauto) ltac:(lia)
    ltac:(vm_compute; discriminate)) as [H2 _].
  destruct (UnmarshalJSON_counts "s" Second 30 7 ltac:(simpl; tauto) ltac:(lia)
    ltac:(vm_compute; discriminate)) as [_ H3].
  split; [exact H1|]. split; [exact H2|exact H3].
Defined.

(** Only the number in front of a text that ends in [d] is read. *)
Example rest_before_d_ignored :
  map (fun s => UnmarshalJSON (json_text s) 0) ["1h2d"; "12h1d"; "1.5d"; "0d"; "-2d"]%string
  = [Ok (24 * Hour); Ok (12 * (24 * Hour)); Ok (36 * Hour);
     Err (mkBadDuration "0d" (UnknownUnit "d")); Err (mkBadDuration "-2d" (UnknownUnit "d"))].
Proof. vm_compute. reflexivity. Qed.

(** Too many days are not refused, as too many hours are. *)
Example too_many_days :
  UnmarshalJSON (json_text "106752d") 0 = Ok MinInt64 /\
  UnmarshalJSON (json_text "2562048h") 0 = Err (mkBadDuration "2562048h" InvalidDuration).
Proof. vm_compute. done. Qed.

(** Nothing between the quotes, and [null], leave the field as it was. *)
Example absent_durations :
  map (fun s => UnmarshalJSON s 42) [json_text ""; "null"; ""]%string = [Ok 42; Ok 42; Ok 42].
Proof. vm_compute. reflexivity. Qed.

(** A generator that always draws zero. *)
#[local] Instance still_rand : RandSource :=
  {| Rand := unit; NewSource _ := tt; Float64 r := (f_of_Z 0, r) |}.

Definition sound : Device :=
  mkDevice "ridge-01" "ridge-01" "" 0 "" (30 * Second) "v1" (f_of_Z 80) (f_of_Z 0)
    (mkBehaviour (f_of_Z 0) (f_of_Z 0) FailNone 0 (f_of_Z 0)).

Definition updated (wants : list string) : organism :=
  fold_left (fun o want => (land 0 (mkFlash want FailNone 0) o).2) wants (hatch 7 [] sound).

Definition small_world (os : list organism) : Enclosure :=
  mkEnclosure (mkClock 0 (f_of_Z 1)) os ∅.

(** A sound device is called boot looping from its fourth update on. *)
Example updated_device_called_looping :
  map truth_note (TakeSnapshot 0 (small_world
    [updated ["v2"; "v3"; "v4"]; updated ["v2"; "v3"; "v4"; "v5"]]%string)).1
  = [""%string; yellow "boot looping"].
Proof. vm_compute. reflexivity. Qed.

(** The whole print of one device. *)
Example truth_printed :
  (printTruth UTC 0 (instant 2026 8 30 9 5 7) (small_world [updated ["v2"]%string])).1 =
  (newline +:+ escape "1" "── ground truth 09:05:07" +:+ newline +:+
   "  DEVICE      RUNNING   REPORTED  BATT   BOOTS  NOTE" +:+ newline +:+
   "  ridge-01    v2        v2        80     1      " +:+ newline +:+ newline)%string.
Proof. vm_compute. reflexivity. Qed.
