(* ===== verification/Panel.v ===== *)
(** * The mapper's device panel: mapper/esphome/device

    The panel keeps the devices of a node, a worker goroutine for each, and one mutex
    that every entry point of the mapper's servers takes. A device is a shared object
    (the panel's map and its worker hold the same pointer), so devices live in a heap.
    An operation returns, panics or blocks; a mutex that is not reentrant blocks for
    ever whoever locks it twice. The loop that starts the devices runs beside the servers
    and without the mutex, so the process is a step relation in which it, the workers and
    the brokers come between the statements of a call. That Go may notice the loop and a
    call in one map at once, and end the process, is no step of it. What the KubeEdge
    mapper framework provides (conversions, decoders of its messages) is an interface. *)

From S2P Require Import Prelude GoTime GoFloat GoStrings GoParseFloat Driver.
Local Open Scope Z_scope.

(** ** Definitions: devices, as far as the panel looks at them *)

(** A property of a device instance, with its entry in the device model. *)
Record DeviceProperty := mkDeviceProperty {
  dp_Name : string;
  dp_PropertyName : string;
  dp_Visitors : string;
  dp_DataType : string;
  dp_AccessMode : string;
  dp_CollectCycle : Z;
  dp_ReportToCloud : bool
}.

(** [tw_Property] is a pointer that may be nil. *)
Record Twin := mkTwin {
  tw_PropertyName : string;
  tw_Property : option DeviceProperty;
  tw_Desired : string;
  tw_DesiredType : string;
  tw_Reported : string
}.

Record DeviceMethod := mkDeviceMethod { me_Name : string; me_PropertyNames : list string }.

Record DeviceInstance := mkDeviceInstance {
  in_ID : string;
  in_Name : string;
  in_Model : string;
  in_ConfigData : string;
  in_ReportToCloud : bool;
  in_ReportCycle : Z;
  in_Twins : list Twin;
  in_Properties : list DeviceProperty;
  in_Methods : list DeviceMethod
}.

Definition with_Twins (twins : list Twin) (i : DeviceInstance) : DeviceInstance :=
  mkDeviceInstance (in_ID i) (in_Name i) (in_Model i) (in_ConfigData i) (in_ReportToCloud i)
    (in_ReportCycle i) twins (in_Properties i) (in_Methods i).

Definition with_ConfigData (raw : string) (i : DeviceInstance) : DeviceInstance :=
  mkDeviceInstance (in_ID i) (in_Name i) (in_Model i) raw (in_ReportToCloud i)
    (in_ReportCycle i) (in_Twins i) (in_Properties i) (in_Methods i).

Definition with_DataType (type : string) (p : DeviceProperty) : DeviceProperty :=
  mkDeviceProperty (dp_Name p) (dp_PropertyName p) (dp_Visitors p) type (dp_AccessMode p)
    (dp_CollectCycle p) (dp_ReportToCloud p).

Definition with_Property (p : option DeviceProperty) (t : Twin) : Twin :=
  mkTwin (tw_PropertyName t) p (tw_Desired t) (tw_DesiredType t) (tw_Reported t).

Definition with_Reported (v : string) (t : Twin) : Twin :=
  mkTwin (tw_PropertyName t) (tw_Property t) (tw_Desired t) (tw_DesiredType t) v.

(** The framework: [json.Unmarshal] into this repository's types, its conversions and
    its messages. *)
Class MapperFramework := {
  DeviceModel : Type;
  ModelID : DeviceModel -> string;
  zeroModel : DeviceModel;
  DmiDevice : Type;
  dmi_Namespace : DmiDevice -> string;
  dmi_ModelReference : DmiDevice -> string;
  DmiModel : Type;
  dmm_Namespace : DmiModel -> string;
  dmm_Name : DmiModel -> string;
  GetDeviceModelFromGrpc : DmiModel -> DeviceModel;
  GetResourceID : string -> string -> string;
  BuildProtocolFromGrpc : DmiDevice -> result string string;
  GetDeviceFromGrpc : DmiDevice -> DeviceModel -> result DeviceInstance string;
  UnmarshalProtocol : string -> option ConfigData;
  UnmarshalVisitor : string -> option VisitorConfig;
  Convert : string -> string -> result Datum string;
  ConvertToString : Datum -> result string string;
  TopicTwinUpdate : string -> string;
  CreateMessageTwinUpdate : string -> string -> string -> string -> result string string;
  CreateMessageData : string -> string -> string -> result string string;
  DefaultCollectCycle : Duration;
  DefaultReportCycle : Duration
}.

Inductive PanelError :=
| EmptyData
| NotFound (id : string)
| NoMux (id : string)
| NoMethod (name : string)
| NotInMethod (property : string)
| NoProperty (property : string)
| ConversionFailed (dataType data : string)
| BadVisitor
| BadModel (err : string)
| WriteFailed (e : WriteError)
| SetFailed (property : string) (e : WriteError)
| ReadFailed (e : ReadError)
| MessageFailed (err : string).

(** ** Definitions: the panel and its worker goroutines *)

Section Panel.
Context `{MapperFramework} `{DeviceStatuses}.

(** [CustomizedDev]: the instance, the client once it is there, and whether the client
    holds a connection to its broker. *)
Record CustomizedDev := mkCustomizedDev {
  de_Instance : DeviceInstance;
  de_Client : option CustomizedClient;
  de_Connected : bool
}.

(** What a worker is about to do: make the client, connect it, serve, nothing. *)
Inductive Phase := Spawned | Connecting | Serving | Ended.

Record Worker := mkWorker { wk_dev : nat; wk_phase : Phase }.

(** What a serving device reports to the cloud. *)
Inductive Report := ReportStates | ReportTwin (name : string).

(** Contexts and devices are numbered as they are made; [pn_sent] is what has gone to
    the brokers, [pn_reporters] the tickers that report to the cloud, by context. *)
Record Panel := mkPanel {
  pn_locked : bool;
  pn_devices : gmap string nat;
  pn_deviceMuxs : gmap string nat;
  pn_models : gmap string DeviceModel;
  pn_heap : gmap nat CustomizedDev;
  pn_workers : gmap nat Worker;
  pn_cancelled : gset nat;
  pn_next : nat;
  pn_sent : list Publication;
  pn_reporters : list (nat * Report * Duration)
}.

Definition NewDevPanel : Panel := mkPanel false ∅ ∅ ∅ ∅ ∅ ∅ 0 [] [].

Definition set_locked (b : bool) (s : Panel) : Panel :=
  mkPanel b (pn_devices s) (pn_deviceMuxs s) (pn_models s) (pn_heap s) (pn_workers s)
    (pn_cancelled s) (pn_next s) (pn_sent s) (pn_reporters s).
Definition set_devices (m : gmap string nat) (s : Panel) : Panel :=
  mkPanel (pn_locked s) m (pn_deviceMuxs s) (pn_models s) (pn_heap s) (pn_workers s)
    (pn_cancelled s) (pn_next s) (pn_sent s) (pn_reporters s).
Definition set_models (m : gmap string DeviceModel) (s : Panel) : Panel :=
  mkPanel (pn_locked s) (pn_devices s) (pn_deviceMuxs s) m (pn_heap s) (pn_workers s)
    (pn_cancelled s) (pn_next s) (pn_sent s) (pn_reporters s).
Definition set_heap (h : gmap nat CustomizedDev) (s : Panel) : Panel :=
  mkPanel (pn_locked s) (pn_devices s) (pn_deviceMuxs s) (pn_models s) h (pn_workers s)
    (pn_cancelled s) (pn_next s) (pn_sent s) (pn_reporters s).
Definition set_phase (ctx : nat) (p : Phase) (s : Panel) : Panel :=
  mkPanel (pn_locked s) (pn_devices s) (pn_deviceMuxs s) (pn_models s) (pn_heap s)
    (alter (fun w => mkWorker (wk_dev w) p) ctx (pn_workers s))
    (pn_cancelled s) (pn_next s) (pn_sent s) (pn_reporters s).
Definition cancel (ctx : nat) (s : Panel) : Panel :=
  mkPanel (pn_locked s) (pn_devices s) (pn_deviceMuxs s) (pn_models s) (pn_heap s) (pn_workers s)
    ({[ctx]} ∪ pn_cancelled s) (pn_next s) (pn_sent s) (pn_reporters s).
Definition send (p : option Publication) (s : Panel) : Panel :=
  mkPanel (pn_locked s) (pn_devices s) (pn_deviceMuxs s) (pn_models s) (pn_heap s) (pn_workers s)
    (pn_cancelled s) (pn_next s) (pn_sent s ++ option_list p) (pn_reporters s).
Definition add_reporter (ctx : nat) (what : Report) (cycle : Duration) (s : Panel) : Panel :=
  mkPanel (pn_locked s) (pn_devices s) (pn_deviceMuxs s) (pn_models s) (pn_heap s) (pn_workers s)
    (pn_cancelled s) (pn_next s) (pn_sent s) (pn_reporters s ++ [(ctx, what, cycle)]).

(** [new(driver.CustomizedDev)] with its instance, under an identifier. *)
Definition store_device (i : DeviceInstance) (s : Panel) : Panel :=
  mkPanel (pn_locked s) (<[in_ID i := pn_next s]> (pn_devices s)) (pn_deviceMuxs s) (pn_models s)
    (<[pn_next s := mkCustomizedDev i None false]> (pn_heap s)) (pn_workers s)
    (pn_cancelled s) (S (pn_next s)) (pn_sent s) (pn_reporters s).

(** [context.WithCancel], its cancel function under an identifier, and [go d.start]. *)
Definition spawn (id : string) (a : nat) (s : Panel) : Panel :=
  mkPanel (pn_locked s) (pn_devices s) (<[id := pn_next s]> (pn_deviceMuxs s)) (pn_models s)
    (pn_heap s) (<[pn_next s := mkWorker a Spawned]> (pn_workers s))
    (pn_cancelled s) (S (pn_next s)) (pn_sent s) (pn_reporters s).

(** *** Operations *)

Inductive Outcome (A : Type) := Returns (a : A) | Panics | Blocks.
Arguments Returns {A} _.
Arguments Panics {A}.
Arguments Blocks {A}.

Definition Op (A : Type) : Type := Panel -> Outcome A * Panel.
Definition ret {A} (a : A) : Op A := fun s => (Returns a, s).
Definition panics {A} : Op A := fun s => (Panics, s).
Definition get : Op Panel := fun s => (Returns s, s).
Definition modify (f : Panel -> Panel) : Op unit := fun s => (Returns tt, f s).
Definition bind {A B} (m : Op A) (f : A -> Op B) : Op B := fun s =>
  match m s with
  | (Returns a, s') => f a s'
  | (Panics, s') => (Panics, s')
  | (Blocks, s') => (Blocks, s')
  end.
#[local] Notation "x <~ m ;; k" := (bind m (fun x => k))
  (at level 20, m at level 99, k at level 200, right associativity).

(** [serviceMutex.Lock] with its deferred unlock, which a panic runs as well. *)
Definition locked {A} (body : Op A) : Op A := fun s =>
  if pn_locked s then (Blocks, s)
  else match body (set_locked true s) with
       | (Blocks, s') => (Blocks, s')
       | (r, s') => (r, set_locked false s')
       end.

(** What the world answers during a call. *)
Record Env := mkEnv {
  ev_publish : Publication -> Token;
  ev_connect : Connection -> Token;
  ev_now : Time
}.
Context (ev : Env).

Definition client_of (a : nat) (s : Panel) : option CustomizedClient :=
  pn_heap s !! a ≫= de_Client.
Definition instance_of (a : nat) (s : Panel) : option DeviceInstance :=
  de_Instance <$> pn_heap s !! a.
Definition update_dev (a : nat) (f : CustomizedDev -> CustomizedDev) (s : Panel) : Panel :=
  set_heap (alter f a (pn_heap s)) s.

(** Methods of a client that may be nil: the first field they read panics then. *)
Definition client_write (a : nat) (v : VisitorConfig) (name : string) (d : Datum)
  : Op (option WriteError) :=
  s <~ get ;;
  if is_empty (vc_CommandTopic v) then ret (Some (ReadOnly name))
  else match client_of a s with
       | None => panics
       | Some c => let '(p, e) := DeviceDataWrite (ev_publish ev) (ev_now ev) c v name d in
                   _ <~ modify (send p) ;; ret e
       end.

Definition client_read (a : nat) (v : VisitorConfig) : Op (result Datum PanelError) :=
  s <~ get ;;
  match client_of a s with
  | None => panics
  | Some c => ret (match GetDeviceData c v with Ok d => Ok d | Err e => Err (ReadFailed e) end)
  end.

(** *** Twins *)

(** [setVisitor]: a property that is not read-only is written its desired value, also
    when that is empty. *)
Definition setVisitor (v : VisitorConfig) (t : Twin) (a : nat) : Op (option PanelError) :=
  match tw_Property t with
  | None => panics
  | Some p =>
      if str_eq (dp_AccessMode p) "ReadOnly" then ret None
      else
        let value := if is_empty (tw_Desired t) then Ok (DString (tw_Desired t))
                     else Convert (dp_DataType p) (tw_Desired t) in
        match value with
        | Err _ => ret (Some (ConversionFailed (dp_DataType p) (tw_Desired t)))
        | Ok d => e <~ client_write a v "" d ;;
                  ret (SetFailed (tw_PropertyName t) <$> e)
        end
  end.

(** [GetPayLoad] of a [TwinData]: its client, name, type, expected value and topic. *)
Definition GetPayLoad (a : nat) (v : VisitorConfig) (name type expected topic : string)
  : Op (result string PanelError) :=
  let v := mkVisitorConfig (ToLower (vc_DataType v)) (vc_Topic v) (vc_CommandTopic v)
             (vc_AbsoluteTopic v) (vc_RequiresTransport v) (vc_MinBytes v) (vc_Retain v) (vc_QoS v) in
  r <~ client_read a v ;;
  ret (match r with
       | Err e => Err e
       | Ok d =>
           match ConvertToString d with
           | Err e => Err (MessageFailed e)
           | Ok sData =>
               match (if Contains "$hw" topic
                      then CreateMessageTwinUpdate name type sData expected
                      else CreateMessageData name type sData) with
               | Err e => Err (MessageFailed e)
               | Ok payload => Ok payload
               end
           end
       end).

(** [getTwinData]: the expected value is left out of the message. *)
Definition getTwinData (deviceID : string) (t : Twin) (a : nat) : Op (result string PanelError) :=
  match tw_Property t with
  | None => panics
  | Some p =>
      match UnmarshalVisitor (dp_Visitors p) with
      | None => ret (Err BadVisitor)
      | Some v =>
          e <~ setVisitor v t a ;;
          match e with
          | Some e => ret (Err e)
          | None => GetPayLoad a v (tw_PropertyName t) (tw_DesiredType t) ""
                      (TopicTwinUpdate deviceID)
          end
      end
  end.

(** The loop of [DealDeviceTwinGet]: every item is named as the query is. *)
Fixpoint twin_items (deviceID twinName : string) (a : nat) (twins : list Twin)
    (res : list (string * string)) : Op (result (list (string * string)) PanelError) :=
  match twins with
  | [] => ret (Ok res)
  | t :: twins' =>
      if negb (is_empty twinName) && negb (str_eq (tw_PropertyName t) twinName)
      then twin_items deviceID twinName a twins' res
      else
        r <~ getTwinData deviceID t a ;;
        match r with
        | Err e => ret (Err e)
        | Ok payload => twin_items deviceID twinName a twins' (res ++ [(twinName, payload)])
        end
  end.

(** The twins of the instance at an address; panics where Go would. *)
Definition twins_of (a : nat) : Op (list Twin) :=
  s <~ get ;; match instance_of a s with Some i => ret (in_Twins i) | None => panics end.

Definition DealDeviceTwinGet (deviceID twinName : string)
  : Op (result (list (string * string)) PanelError) :=
  locked (
    s <~ get ;;
    match pn_devices s !! deviceID with
    | None => ret (Err (NotFound deviceID))
    | Some a => twins <~ twins_of a ;; twin_items deviceID twinName a twins []
    end).

(** The loop of [GetDevice], which fills in the reported values of the shared object. *)
Fixpoint report_twins (deviceID : string) (a i : nat) (twins : list Twin)
  : Op (option PanelError) :=
  match twins with
  | [] => ret None
  | t :: twins' =>
      r <~ getTwinData deviceID t a ;;
      match r with
      | Err e => ret (Some e)
      | Ok payload =>
          _ <~ modify (update_dev a (fun d =>
                 mkCustomizedDev
                   (with_Twins (alter (with_Reported payload) i (in_Twins (de_Instance d))) (de_Instance d))
                   (de_Client d) (de_Connected d))) ;;
          report_twins deviceID a (S i) twins'
      end
  end.

Definition GetDevice (deviceID : string) : Op (result nat PanelError) :=
  locked (
    s <~ get ;;
    match pn_devices s !! deviceID with
    | None => ret (Err (NotFound deviceID))
    | Some a => twins <~ twins_of a ;;
                e <~ report_twins deviceID a 0 twins ;;
                ret (match e with Some e => Err e | None => Ok a end)
    end).

(** The loop of [GetTwinResult]: what became of the write is forgotten. *)
Fixpoint twin_result (twinName : string) (a : nat) (twins : list Twin) (res dataType : string)
  : Op (result (string * string) PanelError) :=
  match twins with
  | [] => ret (Ok (res, dataType))
  | t :: twins' =>
      if negb (is_empty twinName) && negb (str_eq (tw_PropertyName t) twinName)
      then twin_result twinName a twins' res dataType
      else
        match tw_Property t with
        | None => panics
        | Some p =>
            match UnmarshalVisitor (dp_Visitors p) with
            | None => ret (Err BadVisitor)
            | Some v =>
                _ <~ setVisitor v t a ;;
                r <~ client_read a v ;;
                match r with
                | Err e => ret (Err e)
                | Ok d => match ConvertToString d with
                          | Err e => ret (Err (MessageFailed e))
                          | Ok res => twin_result twinName a twins' res (dp_DataType p)
                          end
                end
            end
        end
  end.

Definition GetTwinResult (deviceID twinName : string) : Op (result (string * string) PanelError) :=
  locked (
    s <~ get ;;
    match pn_devices s !! deviceID with
    | None => ret (Err (NotFound deviceID))
    | Some a => twins <~ twins_of a ;; twin_result twinName a twins "" ""
    end).

(** *** Commands *)

(** [StopDevice], of a client that may be nil. *)
Definition StopDevice (a : nat) : Op unit :=
  s <~ get ;;
  match client_of a s with
  | None => panics
  | Some _ => modify (update_dev a (fun d => mkCustomizedDev (de_Instance d) (de_Client d) false))
  end.

(** [stopDev], of a device that may be nil. *)
Definition stopDev (dev : option nat) (id : string) : Op (option PanelError) :=
  s <~ get ;;
  match pn_deviceMuxs s !! id with
  | None => ret (Some (NoMux id))
  | Some ctx =>
      match dev with
      | None => panics
      | Some a =>
          _ <~ StopDevice a ;;
          _ <~ modify (cancel ctx) ;;
          ret None
      end
  end.

Definition UpdateDev_body (model : DeviceModel) (device : DeviceInstance) : Op unit :=
  s <~ get ;;
  _ <~ match pn_devices s !! in_ID device with
       | Some a => stopDev (Some a) (in_ID device)
       | None => ret None
       end ;;
  s <~ get ;;
  let a := pn_next s in
  _ <~ modify (store_device device) ;;
  _ <~ modify (fun s => set_models (<[ModelID model := model]> (pn_models s)) s) ;;
  modify (spawn (in_ID device) a).

Definition UpdateDev (model : DeviceModel) (device : DeviceInstance) : Op unit :=
  locked (UpdateDev_body model device).

Definition UpdateDevTwins (deviceID : string) (twins : list Twin) : Op (option PanelError) :=
  locked (
    s <~ get ;;
    match pn_devices s !! deviceID with
    | None => ret (Some (NotFound deviceID))
    | Some a =>
        _ <~ modify (update_dev a (fun d =>
               mkCustomizedDev (with_Twins twins (de_Instance d)) (de_Client d) (de_Connected d))) ;;
        s <~ get ;;
        match instance_of a s with
        | None => panics
        | Some i => _ <~ UpdateDev (default zeroModel (pn_models s !! in_Model i)) i ;; ret None
        end
    end).

Definition RemoveDevice (deviceID : string) : Op (option PanelError) :=
  locked (
    s <~ get ;;
    let dev := pn_devices s !! deviceID in
    _ <~ modify (fun s => set_devices (delete deviceID (pn_devices s)) s) ;;
    stopDev dev deviceID).

(** The map of methods: those of one name are one. *)
Definition method_map (ms : list DeviceMethod) : gmap string (list string) :=
  fold_left (fun m x => <[me_Name x := default [] (m !! me_Name x) ++ me_PropertyNames x]> m) ms ∅.

Definition WriteDevice (deviceMethodName deviceID propertyName data : string)
  : Op (option PanelError) :=
  locked (
    s <~ get ;;
    match pn_devices s !! deviceID with
    | None => ret (Some (NotFound deviceID))
    | Some a =>
        match instance_of a s with
        | None => panics
        | Some i =>
            match method_map (in_Methods i) !! deviceMethodName with
            | None => ret (Some (NoMethod deviceMethodName))
            | Some propertyNames =>
                if negb (existsb (fun name => str_eq name propertyName) propertyNames)
                then ret (Some (NotInMethod propertyName))
                else
                  match find (fun p => str_eq (dp_PropertyName p) propertyName) (in_Properties i) with
                  | None => ret (Some (NoProperty propertyName))
                  | Some p =>
                      match Convert (ToLower (dp_DataType p)) data with
                      | Err _ => ret (Some (ConversionFailed (ToLower (dp_DataType p)) data))
                      | Ok writeData =>
                          match UnmarshalVisitor (dp_Visitors p) with
                          | None => ret (Some BadVisitor)
                          | Some v => e <~ client_write a v propertyName writeData ;;
                                      ret (WriteFailed <$> e)
                          end
                      end
                  end
            end
        end
    end).

Definition GetModel (modelID : string) : Op (option DeviceModel) :=
  locked (s <~ get ;; ret (pn_models s !! modelID)).
Definition UpdateModel (model : DeviceModel) : Op unit :=
  locked (modify (fun s => set_models (<[ModelID model := model]> (pn_models s)) s)).
Definition RemoveModel (modelID : string) : Op unit :=
  locked (modify (fun s => set_models (delete modelID (pn_models s)) s)).

Definition GetDeviceMethod (deviceID : string)
  : Op (result (gmap string (list string) * gmap string string) PanelError) :=
  locked (
    s <~ get ;;
    match pn_devices s !! deviceID with
    | None => ret (Err (NotFound deviceID))
    | Some a =>
        match instance_of a s with
        | None => panics
        | Some i =>
            ret (Ok (method_map (in_Methods i),
                     fold_left (fun m p => <[dp_Name p := ToLower (dp_DataType p)]> m)
                       (in_Properties i) ∅))
        end
    end).

(** *** Starting *)

(** [DevInit], before anything runs: models first, then devices up to the first that
    does not decode. *)
Fixpoint init_devices (l : list DmiDevice) : Op (option PanelError) :=
  match l with
  | [] => ret None
  | device :: l' =>
      s <~ get ;;
      let modelID := GetResourceID (dmi_Namespace device) (dmi_ModelReference device) in
      let commonModel := default zeroModel (pn_models s !! modelID) in
      match BuildProtocolFromGrpc device with
      | Err e => ret (Some (BadModel e))
      | Ok protocol =>
          match GetDeviceFromGrpc device commonModel with
          | Err e => ret (Some (BadModel e))
          | Ok instance => _ <~ modify (store_device (with_ConfigData protocol instance)) ;;
                           init_devices l'
          end
      end
  end.

Definition DevInit (deviceList : list DmiDevice) (deviceModelList : list DmiModel)
  : Op (option PanelError) :=
  if is_nil (head deviceList) || is_nil (head deviceModelList) then ret (Some EmptyData)
  else
    _ <~ modify (fun s => set_models
           (fold_left (fun m model => <[GetResourceID (dmm_Namespace model) (dmm_Name model)
                                        := GetDeviceModelFromGrpc model]> m)
              deviceModelList (pn_models s)) s) ;;
    init_devices deviceList.

(** [DevStart]: a worker per device, without the mutex. *)
Definition DevStart `{MapRange} : Op unit :=
  s <~ get ;;
  modify (fun s => fold_left (fun s '(id, a) => spawn id a s) (map_range 0 (pn_devices s)) s).

(** The tickers of [Run]: none without reporting, a default for no interval, and
    [time.NewTicker] panics for one that is not positive. *)
Definition start_ticker (ctx : nat) (what : Report) (report : bool) (millis : Z) (dflt : Duration)
  : Op unit :=
  if negb report then ret tt
  else
    let cycle := wrap64 (Millisecond * millis) in
    let cycle := if cycle =? 0 then dflt else cycle in
    if cycle <=? 0 then panics else modify (add_reporter ctx what cycle).

(** One twin of [dataHandler]: what it does before it goes on to the next. *)
Definition handle_twin (ctx a i : nat) (t : Twin) : Op unit :=
  match tw_Property t with
  | None => ret tt
  | Some p =>
      let p := with_DataType (ToLower (dp_DataType p)) p in
      let t := with_Property (Some p) t in
      _ <~ modify (update_dev a (fun d =>
             mkCustomizedDev
               (with_Twins (alter (with_Property (Some p)) i (in_Twins (de_Instance d))) (de_Instance d))
               (de_Client d) (de_Connected d))) ;;
      match UnmarshalVisitor (dp_Visitors p) with
      | None => ret tt
      | Some v =>
          e <~ setVisitor v t a ;;
          match e with
          | Some _ => ret tt
          | None =>
              if str_eq (dp_DataType p) "stream" then ret tt
              else start_ticker ctx (ReportTwin (tw_PropertyName t)) (dp_ReportToCloud p)
                     (dp_CollectCycle p) DefaultCollectCycle
          end
      end
  end.

Fixpoint handle_twins (ctx a i : nat) (twins : list Twin) : Op unit :=
  match twins with
  | [] => ret tt
  | t :: twins' => _ <~ handle_twin ctx a i t ;; handle_twins ctx a (S i) twins'
  end.

Definition dataHandler (ctx a : nat) : Op unit :=
  s <~ get ;;
  match instance_of a s with
  | None => panics
  | Some i =>
      _ <~ start_ticker ctx ReportStates (in_ReportToCloud i) (in_ReportCycle i) DefaultReportCycle ;;
      handle_twins ctx a 0 (in_Twins i)
  end.

(** [start] up to the client: the connection may still be refused, and takes time. *)
Definition start_client (ctx a : nat) : Op unit :=
  s <~ get ;;
  match instance_of a s with
  | None => panics
  | Some i =>
      match UnmarshalProtocol (in_ConfigData i) with
      | None => modify (set_phase ctx Ended)
      | Some cfg =>
          _ <~ modify (update_dev a (fun d =>
                 mkCustomizedDev (de_Instance d) (Some (NewClient cfg)) (de_Connected d))) ;;
          modify (set_phase ctx Connecting)
      end
  end.

(** The rest of [start]: connecting, whether or not the worker has been cancelled
    meanwhile, and serving. *)
Definition start_serving (ctx a : nat) : Op unit :=
  s <~ get ;;
  match client_of a s with
  | None => panics
  | Some c =>
      match InitDevice (ev_connect ev) c with
      | Err _ => modify (set_phase ctx Ended)
      | Ok _ =>
          _ <~ modify (update_dev a (fun d => mkCustomizedDev (de_Instance d) (de_Client d) true)) ;;
          _ <~ modify (set_phase ctx Serving) ;;
          dataHandler ctx a
      end
  end.
End Panel.

Arguments Returns {A} _.
Arguments Panics {A}.
Arguments Blocks {A}.

(** ** Definitions: everything that can happen to a panel *)

Section Steps.
Context `{MapperFramework} `{DeviceStatuses}.

(** The entry points the mapper's servers call. *)
Inductive Request :=
| CallUpdateDev (model : DeviceModel) (device : DeviceInstance)
| CallUpdateDevTwins (deviceID : string) (twins : list Twin)
| CallDealDeviceTwinGet (deviceID twinName : string)
| CallGetDevice (deviceID : string)
| CallRemoveDevice (deviceID : string)
| CallWriteDevice (deviceMethodName deviceID propertyName data : string)
| CallGetModel (modelID : string)
| CallUpdateModel (model : DeviceModel)
| CallRemoveModel (modelID : string)
| CallGetTwinResult (deviceID twinName : string)
| CallGetDeviceMethod (deviceID : string).

Definition forget {A} (m : Op A) : Op unit := bind m (fun _ => ret tt).

Definition serve (ev : Env) (c : Request) : Op unit :=
  match c with
  | CallUpdateDev model device => UpdateDev model device
  | CallUpdateDevTwins id twins => forget (UpdateDevTwins id twins)
  | CallDealDeviceTwinGet id name => forget (DealDeviceTwinGet ev id name)
  | CallGetDevice id => forget (GetDevice ev id)
  | CallRemoveDevice id => forget (RemoveDevice id)
  | CallWriteDevice m id p data => forget (WriteDevice ev m id p data)
  | CallGetModel id => forget (GetModel id)
  | CallUpdateModel model => UpdateModel model
  | CallRemoveModel id => RemoveModel id
  | CallGetTwinResult id name => forget (GetTwinResult ev id name)
  | CallGetDeviceMethod id => forget (GetDeviceMethod id)
  end.

(** *** The calls that change the tables, statement by statement

    [DevStart] does not take the mutex, so what it does may come between any two
    statements of a call that holds it. *)

(** What is left to do: nothing, or a statement that says what comes after it. *)
Inductive Code := Done | Do (m : Op Code).

(** All of it in one go. *)
Fixpoint run (c : Code) : Op unit := fun s =>
  match c with
  | Done => (Returns tt, s)
  | Do m =>
      match m s with
      | (Returns c', s') => run c' s'
      | (Panics, s') => (Panics, s')
      | (Blocks, s') => (Blocks, s')
      end
  end.

#[local] Notation "x <~ m ;; k" := (bind m (fun x => k))
  (at level 20, m at level 99, k at level 200, right associativity).

Definition stopDev_code (dev : option nat) (id : string) (rest : Code) : Code :=
  Do (s <~ get ;;
      match pn_deviceMuxs s !! id with
      | None => ret rest
      | Some ctx =>
          match dev with
          | None => panics
          | Some a => ret (Do (_ <~ StopDevice a ;; ret (Do (_ <~ modify (cancel ctx) ;; ret rest))))
          end
      end).

(** The new device is in the map before it is looked up there to be started. *)
Definition restart_code (model : DeviceModel) (device : DeviceInstance) : Code :=
  Do (_ <~ modify (store_device device) ;;
      ret (Do (_ <~ modify (fun s => set_models (<[ModelID model := model]> (pn_models s)) s) ;;
               ret (Do (s <~ get ;;
                        match pn_devices s !! in_ID device with
                        | None => panics
                        | Some a => _ <~ modify (spawn (in_ID device) a) ;; ret Done
                        end))))).

Definition UpdateDev_code (model : DeviceModel) (device : DeviceInstance) : Code :=
  Do (s <~ get ;;
      match pn_devices s !! in_ID device with
      | Some a => ret (stopDev_code (Some a) (in_ID device) (restart_code model device))
      | None => ret (restart_code model device)
      end).

Definition RemoveDevice_code (id : string) : Code :=
  Do (s <~ get ;;
      let dev := pn_devices s !! id in
      _ <~ modify (fun s => set_devices (delete id (pn_devices s)) s) ;;
      ret (stopDev_code dev id Done)).

(** The calls of this kind, with the device they are about. *)
Definition command (q : Request) : option (string * Code) :=
  match q with
  | CallUpdateDev model device => Some (in_ID device, UpdateDev_code model device)
  | CallRemoveDevice id => Some (id, RemoveDevice_code id)
  | _ => None
  end.

(** *** The process

    The loop of [DevStart] while it runs: the devices that were listed when it began,
    and those it has come to. *)
Record Range := mkRange { rg_initial : gset string; rg_seen : gset string }.

(** The panel; the loop; the entry that the loop has taken and not yet started; and
    what is left of the call that holds the mutex. *)
Record Node := mkNode {
  nd_panel : Panel;
  nd_range : option Range;
  nd_turn : option (string * nat);
  nd_call : option Code
}.

(** Go forgets that it has come to an entry when the entry is removed: one that is made
    again may be come to again, or not. *)
Definition still_listed (s : Panel) (r : Range) : Range :=
  mkRange (rg_initial r ∩ dom (pn_devices s)) (rg_seen r ∩ dom (pn_devices s)).

(** What the workers do, and what comes from the brokers: neither takes the mutex. *)
Inductive background_step : Panel -> Panel -> Prop :=
| step_client ctx w s s' :
    pn_workers s !! ctx = Some w -> wk_phase w = Spawned ->
    start_client ctx (wk_dev w) s = (Returns tt, s') -> background_step s s'
| step_serving ev ctx w s s' :
    pn_workers s !! ctx = Some w -> wk_phase w = Connecting ->
    start_serving ev ctx (wk_dev w) s = (Returns tt, s') -> background_step s s'
| step_done ctx w s :
    pn_workers s !! ctx = Some w -> wk_phase w = Serving -> ctx ∈ pn_cancelled s ->
    background_step s (set_phase ctx Ended s)
| step_message a decode now sub topic payload s :
    background_step s (update_dev a (fun d =>
      mkCustomizedDev (de_Instance d) (deliver decode now sub topic payload <$> de_Client d)
        (de_Connected d)) s).

Inductive NodeEvent :=
| Background | Called (q : Request) | Inside | Returned
| Picked (id : string) | Started (id : string) | LoopDone.

(** A call that leaves the tables alone is one step, however it ends: by returning, by
    blocking for good, by a panic that its server recovers from. Elsewhere a panic ends
    the process, so it is no step; a call that waits for the mutex is none either. *)
Inductive node_step : Node -> NodeEvent -> Node -> Prop :=
| node_background s s' r t c :
    background_step s s' -> node_step (mkNode s r t c) Background (mkNode s' r t c)
| node_call ev q o s s' r t c :
    command q = None -> serve ev q s = (o, s') ->
    node_step (mkNode s r t c) (Called q) (mkNode s' r t c)
| node_begin q id code s r t :
    command q = Some (id, code) -> pn_locked s = false ->
    node_step (mkNode s r t None) (Called q) (mkNode (set_locked true s) r t (Some code))
| node_inside m c s s' r t :
    m s = (Returns c, s') ->
    node_step (mkNode s r t (Some (Do m))) Inside (mkNode s' (still_listed s' <$> r) t (Some c))
| node_return s r t :
    node_step (mkNode s r t (Some Done)) Returned (mkNode (set_locked false s) r t None)
| node_pick id a s r c :
    pn_devices s !! id = Some a -> id ∉ rg_seen r ->
    node_step (mkNode s (Some r) None c) (Picked id)
      (mkNode s (Some (mkRange (rg_initial r) ({[id]} ∪ rg_seen r))) (Some (id, a)) c)
| node_start id a s r c :
    node_step (mkNode s r (Some (id, a)) c) (Started id) (mkNode (spawn id a s) r None c)
| node_loop_done s r c :
    rg_initial r ⊆ rg_seen r -> node_step (mkNode s (Some r) None c) LoopDone (mkNode s None None c).

Inductive node_runs (n : Node) : list NodeEvent -> Node -> Prop :=
| runs_nothing : node_runs n [] n
| runs_on es n1 e n2 : node_runs n es n1 -> node_step n1 e n2 -> node_runs n (es ++ [e]) n2.

(** What [main] has when its servers start: the panel of [DevInit], and [DevStart] about to
    run beside them. *)
Definition boot_node (s : Panel) : Node := mkNode s (Some (mkRange (dom (pn_devices s)) ∅)) None None.

Definition booted (devices : list DmiDevice) (models : list DmiModel) (n : Node) : Prop :=
  exists e s, DevInit devices models NewDevPanel = (Returns e, s) /\
    (e = None \/ e = Some EmptyData) /\ n = boot_node s.

Definition reachable (n : Node) : Prop :=
  exists devices models n0 es, booted devices models n0 /\ node_runs n0 es n.

(** [DevStart] starts this device after no call that updates or removes it. *)
Definition unraced (id : string) (es : list NodeEvent) : Prop :=
  forall es1 es2 q code, es = es1 ++ Called q :: es2 -> command q = Some (id, code) -> ~ In (Started id) es2.
End Steps.

(** ** Lemmas: what an operation leaves alone *)

Section Lemmas.
Context `{MapperFramework} `{DeviceStatuses}.
#[local] Notation "x <~ m ;; k" := (bind m (fun x => k))
  (at level 20, m at level 99, k at level 200, right associativity).

(** The identifier of the device at an address, and the device a context is of. *)
Definition dev_id (a : nat) (s : Panel) : option string := in_ID <$> instance_of a s.
Definition worker_of (ctx : nat) (s : Panel) : option nat := wk_dev <$> pn_workers s !! ctx.

(** The tables are the same, and so are the identifiers of the devices. *)
Definition frame (s s' : Panel) : Prop :=
  pn_devices s' = pn_devices s /\ pn_deviceMuxs s' = pn_deviceMuxs s /\
  (forall ctx, worker_of ctx s' = worker_of ctx s) /\ pn_cancelled s' = pn_cancelled s /\
  pn_next s' = pn_next s /\ (forall a, dev_id a s' = dev_id a s).

#[export] Instance frame_preorder : PreOrder frame.
Proof.
  split; [done|]. intros s1 s2 s3 (A1 & A2 & A3 & A4 & A5 & A6) (B1 & B2 & B3 & B4 & B5 & B6).
  unfold frame. split_and!; try congruence; intros; by rewrite ?B3, ?B6.
Qed.

(** A body that leaves the tables and the mutex alone, and does not block. *)
Definition framed {A} (m : Op A) : Prop :=
  forall s, frame s (m s).2 /\ pn_locked (m s).2 = pn_locked s /\ (m s).1 <> Blocks.

Lemma framed_ret {A} (a : A) : framed (ret a).
Proof. done. Qed.
Lemma framed_panics {A} : framed (@panics _ A).
Proof. done. Qed.
Lemma framed_get : framed get.
Proof. done. Qed.
Lemma framed_bind {A B} (m : Op A) (f : A -> Op B) :
  framed m -> (forall a, framed (f a)) -> framed (bind m f).
Proof.
  intros Hm Hf s. unfold bind. destruct (Hm s) as (F1 & L1 & N1).
  destruct (m s) as [[a| |] s1]; simpl in *; [|done|done].
  destruct (Hf a s1) as (F2 & L2 & N2). split; [by etrans|split; [congruence|done]].
Qed.
Lemma framed_modify f :
  (forall s, frame s (f s)) -> (forall s, pn_locked (f s) = pn_locked s) -> framed (modify f).
Proof. intros Hf Hl s. split; [apply Hf|split; [apply Hl|done]]. Qed.

Lemma framed_if {A} (b : bool) (m1 m2 : Op A) :
  framed m1 -> framed m2 -> framed (if b then m1 else m2).
Proof. by destruct b. Qed.

Lemma send_frame p s : frame s (send p s).
Proof. done. Qed.
Lemma add_reporter_frame ctx what cycle s : frame s (add_reporter ctx what cycle s).
Proof. done. Qed.
Lemma set_models_frame f s : frame s (set_models (f (pn_models s)) s).
Proof. done. Qed.

Lemma set_phase_frame ctx p s : frame s (set_phase ctx p s).
Proof.
  unfold frame. split_and!; try done. intros ctx'. unfold worker_of. simpl.
  destruct (decide (ctx = ctx')) as [<-|Hne].
  - rewrite lookup_alter_eq. by destruct (pn_workers s !! ctx).
  - by rewrite lookup_alter_ne.
Qed.

Lemma update_dev_frame a f s :
  (forall d, in_ID (de_Instance (f d)) = in_ID (de_Instance d)) -> frame s (update_dev a f s).
Proof.
  intros Hf. unfold frame. split_and!; try done. intros a'. unfold dev_id, instance_of. simpl.
  destruct (decide (a = a')) as [<-|Hne].
  - rewrite lookup_alter_eq. destruct (pn_heap s !! a); [|done]. simpl. by rewrite Hf.
  - by rewrite lookup_alter_ne.
Qed.

Lemma framed_update_dev a f :
  (forall d, in_ID (de_Instance (f d)) = in_ID (de_Instance d)) -> framed (modify (update_dev a f)).
Proof. intros Hf. apply framed_modify; [intros; by apply update_dev_frame|done]. Qed.
End Lemmas.

Create HintDb framed.
#[export] Hint Resolve framed_ret framed_panics framed_get framed_bind framed_if framed_update_dev
  send_frame add_reporter_frame set_models_frame set_phase_frame : framed.
#[export] Hint Extern 1 (framed (modify _)) => (apply framed_modify; [intros|done]) : framed.

(** Splits an operation into its pieces. *)
Ltac framed :=
  repeat first
    [ apply framed_bind; [|intros ?]
    | progress (auto with framed)
    | match goal with
      | |- framed (match ?x with _ => _ end) => destruct x
      | |- framed (let '(_, _) := ?x in _) => destruct x
      end ].

Section Frames.
Context `{MapperFramework} `{DeviceStatuses}.

Lemma client_write_framed ev a v name d : framed (client_write ev a v name d).
Proof. unfold client_write. framed. Qed.
Lemma client_read_framed a v : framed (client_read a v).
Proof. unfold client_read. framed. Qed.
#[local] Hint Resolve client_write_framed client_read_framed : framed.
Lemma setVisitor_framed ev v t a : framed (setVisitor ev v t a).
Proof. unfold setVisitor. framed. Qed.
#[local] Hint Resolve setVisitor_framed : framed.
Lemma getTwinData_framed ev id t a : framed (getTwinData ev id t a).
Proof. unfold getTwinData, GetPayLoad. framed. Qed.
#[local] Hint Resolve getTwinData_framed : framed.
Lemma twins_of_framed a : framed (twins_of a).
Proof. unfold twins_of. framed. Qed.
#[local] Hint Resolve twins_of_framed : framed.
Lemma twin_items_framed ev id name a twins res : framed (twin_items ev id name a twins res).
Proof. revert res. induction twins; intros; simpl; framed. Qed.
Lemma report_twins_framed ev id a i twins : framed (report_twins ev id a i twins).
Proof. revert i. induction twins; intros; simpl; framed. Qed.
Lemma twin_result_framed ev name a twins res ty : framed (twin_result ev name a twins res ty).
Proof. revert res ty. induction twins; intros; simpl; framed. Qed.
#[local] Hint Resolve twin_items_framed report_twins_framed twin_result_framed : framed.
Lemma start_ticker_framed ctx what report millis dflt :
  framed (start_ticker ctx what report millis dflt).
Proof. unfold start_ticker. framed. Qed.
#[local] Hint Resolve start_ticker_framed : framed.
Lemma handle_twins_framed ev ctx a i twins : framed (handle_twins ev ctx a i twins).
Proof. revert i. induction twins; intros; simpl; unfold handle_twin; framed. Qed.
#[local] Hint Resolve handle_twins_framed : framed.
Lemma start_client_framed ctx a : framed (start_client ctx a).
Proof. unfold start_client. framed. Qed.
Lemma start_serving_framed ev ctx a : framed (start_serving ev ctx a).
Proof. unfold start_serving, dataHandler. framed. Qed.
End Frames.

(** ** Lemmas: one worker per device *)

Section OneWorker.
Context `{MapperFramework} `{DeviceStatuses}.
#[local] Hint Resolve twins_of_framed twin_items_framed report_twins_framed twin_result_framed
  client_write_framed : framed.

(** A call under the mutex: the tables stay, and only an unavailable mutex blocks. *)
Definition call_framed {A} (m : Op A) : Prop :=
  forall s, frame s (m s).2 /\ ((m s).1 = Blocks -> pn_locked s = true /\ (m s).2 = s).

Lemma locked_frame {A} (body : Op A) : framed body -> call_framed (locked body).
Proof.
  intros Hb s. unfold locked. destruct (pn_locked s) eqn:El; [done|].
  destruct (Hb (set_locked true s)) as (F & L & N).
  destruct (body (set_locked true s)) as [[a| |] s1]; simpl in *; [|done|done].
  by split.
Qed.

Lemma forget_frame {A} (m : Op A) : call_framed m -> call_framed (forget m).
Proof.
  intros Hm s. destruct (Hm s) as [F B]. unfold forget, bind.
  destruct (m s) as [[a| |] s1]; (split; [exact F|]); [done|done|by intros _; apply B].
Qed.

Definition reading_call (c : Request) : bool :=
  match c with CallUpdateDev _ _ | CallUpdateDevTwins _ _ | CallRemoveDevice _ => false | _ => true end.

Lemma serve_frame ev c : reading_call c = true -> call_framed (serve ev c).
Proof.
  intros Hc.
  destruct c; try done; simpl; try apply forget_frame; apply locked_frame; framed.
Qed.

(** A worker that has not been told to stop. *)
Definition live (s : Panel) (ctx a : nat) : Prop :=
  worker_of ctx s = Some a /\ ctx ∉ pn_cancelled s.

(** The tables make sense: a device is listed under its identifier, a worker has a
    device, and what is yet to be made is not there. *)
Record sane (s : Panel) : Prop := {
  sn_listed : forall id a, pn_devices s !! id = Some a -> dev_id a s = Some id;
  sn_worker : forall ctx a, worker_of ctx s = Some a -> is_Some (dev_id a s);
  sn_fresh : forall n, (pn_next s <= n)%nat -> dev_id n s = None
}.

(** No worker serves this device; or those that do can be cancelled, so that there is one
    at most; or it is moreover the listed object that it serves. *)
Definition idle (id : string) (s : Panel) : Prop :=
  forall ctx a, live s ctx a -> dev_id a s <> Some id.
Definition held (id : string) (s : Panel) : Prop :=
  forall ctx a, live s ctx a -> dev_id a s = Some id -> pn_deviceMuxs s !! id = Some ctx.
Definition kept (id : string) (s : Panel) : Prop :=
  forall ctx a, live s ctx a -> dev_id a s = Some id ->
    pn_deviceMuxs s !! id = Some ctx /\ pn_devices s !! id = Some a.

Lemma idle_kept id s : idle id s -> kept id s.
Proof. intros Hi ctx a Hl E. by destruct (Hi ctx a Hl). Qed.
Lemma kept_held id s : kept id s -> held id s.
Proof. intros Hk ctx a Hl E. by destruct (Hk ctx a Hl E). Qed.
Lemma idle_held id s : idle id s -> held id s.
Proof. intros Hi. by apply kept_held, idle_kept. Qed.

(** What does not concern a device: its entries stay, and no worker of it appears. *)
Definition elsewhere (id : string) (s s' : Panel) : Prop :=
  pn_devices s' !! id = pn_devices s !! id /\ pn_deviceMuxs s' !! id = pn_deviceMuxs s !! id /\
  forall ctx a, live s' ctx a -> dev_id a s' = Some id -> live s ctx a /\ dev_id a s = Some id.

#[export] Instance elsewhere_preorder id : PreOrder (elsewhere id).
Proof.
  split; [by intros s|]. intros s1 s2 s3 (A1 & A2 & A3) (B1 & B2 & B3). unfold elsewhere.
  split_and!; [congruence..|]. intros ctx a Hl E. destruct (B3 ctx a Hl E). by apply A3.
Qed.

(** What stays so whatever happens elsewhere. *)
Definition stable (id : string) (P : Panel -> Prop) : Prop :=
  forall s s', elsewhere id s s' -> P s -> P s'.

Lemma idle_stable id : stable id (idle id).
Proof. intros s s' (_ & _ & E) Hi ctx a Hl Ha. destruct (E ctx a Hl Ha) as [Hl' Ha']. by apply (Hi ctx a Hl'). Qed.
Lemma kept_stable id : stable id (kept id).
Proof.
  intros s s' (E1 & E2 & E) Hk ctx a Hl Ha. destruct (E ctx a Hl Ha) as [Hl' Ha'].
  rewrite E1, E2. by apply Hk.
Qed.
Lemma held_stable id : stable id (held id).
Proof.
  intros s s' (E1 & E2 & E) Hk ctx a Hl Ha. destruct (E ctx a Hl Ha) as [Hl' Ha'].
  rewrite E2. by apply (Hk ctx a).
Qed.
Lemma stable_and id P Q : stable id P -> stable id Q -> stable id (fun s => P s /\ Q s).
Proof. intros HP HQ s s' E [? ?]. split; [by apply (HP s)|by apply (HQ s)]. Qed.
Lemma muxs_stable id ctx : stable id (fun s => pn_deviceMuxs s !! id = Some ctx).
Proof. intros s s' (_ & E & _). by rewrite E. Qed.

Lemma frame_live s s' ctx a : frame s s' -> live s' ctx a <-> live s ctx a.
Proof. intros (_ & _ & F3 & F4 & _ & _). unfold live. by rewrite F3, F4. Qed.

Lemma frame_elsewhere id s s' : frame s s' -> elsewhere id s s'.
Proof.
  intros F. pose proof F as (F1 & F2 & _ & _ & _ & F6). unfold elsewhere. rewrite F1, F2.
  split_and!; [done..|]. intros ctx a Hl%(frame_live s s' ctx a F). by rewrite F6.
Qed.

Lemma frame_sane s s' : frame s s' -> sane s -> sane s'.
Proof.
  intros (F1 & _ & F3 & _ & F5 & F6) [W1 W2 W3]. split.
  - intros id a. rewrite F1, F6. apply W1.
  - intros ctx a. rewrite F3, F6. apply W2.
  - intros n. rewrite F5, F6. apply W3.
Qed.

(** Identifiers stay with their addresses. *)
Definition ids_grow (s s' : Panel) : Prop := forall a id, dev_id a s = Some id -> dev_id a s' = Some id.

Lemma frame_ids s s' : frame s s' -> ids_grow s s'.
Proof. intros (_ & _ & _ & _ & _ & F6) a id. by rewrite F6. Qed.

(** What every statement keeps. *)
Definition onward (s s' : Panel) : Prop := sane s' /\ ids_grow s s' /\ pn_locked s' = pn_locked s.

Lemma frame_onward s s' : frame s s' -> pn_locked s' = pn_locked s -> sane s -> onward s s'.
Proof. intros F Hl Hs. split_and!; [by eapply frame_sane|by apply frame_ids|done]. Qed.

(** *** Statement by statement *)

Lemma cancel_live s ctx ctx' a : live (cancel ctx s) ctx' a <-> live s ctx' a /\ ctx' <> ctx.
Proof. unfold live. simpl. change (worker_of ctx' (cancel ctx s)) with (worker_of ctx' s). set_solver. Qed.

Lemma cancel_elsewhere id s ctx : elsewhere id s (cancel ctx s).
Proof. split_and!; [done..|]. by intros ctx' a [Hl _]%cancel_live. Qed.

Lemma cancel_idle id s ctx : held id s -> pn_deviceMuxs s !! id = Some ctx -> idle id (cancel ctx s).
Proof.
  intros Hh Em ctx' a [Hl Hne]%cancel_live E. change (dev_id a s = Some id) in E.
  specialize (Hh ctx' a Hl E). congruence.
Qed.

Lemma delete_onward s id : sane s -> onward s (set_devices (delete id (pn_devices s)) s).
Proof.
  intros [W1 W2 W3]. split_and!; [|by intros ? ?|done]. split; [|exact W2|exact W3]. intros id' a Hin. apply W1.
  change (delete id (pn_devices s) !! id' = Some a) in Hin. by apply lookup_delete_Some in Hin as [_ ?].
Qed.

Lemma delete_elsewhere id id' s : id' <> id -> elsewhere id s (set_devices (delete id' (pn_devices s)) s).
Proof. intros Hne. split_and!; [|done..]. cbn [pn_devices set_devices]. by apply lookup_delete_ne. Qed.

(** The device that is made has a new address. *)
Lemma store_device_id s i a :
  sane s -> dev_id a (store_device i s) = if decide (a = pn_next s) then Some (in_ID i) else dev_id a s.
Proof.
  intros Hs. unfold dev_id, instance_of. simpl. case_decide as Ha.
  - subst a. by rewrite lookup_insert_eq.
  - by rewrite lookup_insert_ne.
Qed.

Lemma store_device_sane s i : sane s -> sane (store_device i s).
Proof.
  intros Hs. pose proof Hs as [W1 W2 W3]. split.
  - intros id a. simpl. destruct (decide (in_ID i = id)) as [<-|Hne].
    + rewrite lookup_insert_eq. intros [= <-]. by rewrite store_device_id, decide_True.
    + rewrite lookup_insert_ne by done. intros E%W1. rewrite store_device_id by done.
      rewrite decide_False; [done|]. intros ->. by rewrite W3 in E by lia.
  - intros ctx a E. rewrite store_device_id by done. case_decide; [by eexists|]. by apply (W2 ctx).
  - intros n Hn. simpl in Hn. rewrite store_device_id, decide_False by (done || lia). apply W3. lia.
Qed.

Lemma store_device_onward s i : sane s -> onward s (store_device i s).
Proof.
  intros Hs. split_and!; [by apply store_device_sane| |done]. intros a id E.
  rewrite store_device_id by done. case_decide as Ha; [|done]. subst a.
  by rewrite (sn_fresh s Hs) in E.
Qed.

(** No worker has it yet. *)
Lemma store_device_live s i ctx a id :
  sane s -> live (store_device i s) ctx a -> dev_id a (store_device i s) = Some id ->
  live s ctx a /\ dev_id a s = Some id.
Proof.
  intros Hs Hl E. change (live s ctx a) in Hl. split; [done|].
  rewrite store_device_id in E by done. case_decide as Ha; [|done]. subst a. exfalso.
  destruct Hl as [Hw _]. destruct (sn_worker s Hs ctx _ Hw) as [x Hx]. by rewrite (sn_fresh s Hs) in Hx.
Qed.

Lemma store_device_elsewhere id s i : sane s -> in_ID i <> id -> elsewhere id s (store_device i s).
Proof.
  intros Hs Hne. split_and!; [|done|].
  - simpl. by rewrite lookup_insert_ne.
  - intros ctx a. by apply store_device_live.
Qed.

Lemma store_device_idle id s i : sane s -> idle id s -> idle id (store_device i s).
Proof. intros Hs Hi ctx a Hl E. destruct (store_device_live _ _ _ _ _ Hs Hl E) as [Hl' E']. by apply (Hi ctx a). Qed.

Lemma spawn_live s id a ctx a' :
  live (spawn id a s) ctx a' -> (ctx = pn_next s /\ a' = a) \/ (ctx <> pn_next s /\ live s ctx a').
Proof.
  intros [Hw Hc]. unfold worker_of in Hw. simpl in Hw. destruct (decide (pn_next s = ctx)) as [<-|Hne].
  - rewrite lookup_insert_eq in Hw. injection Hw as <-. by left.
  - rewrite lookup_insert_ne in Hw by done. right. split; [done|]. by split.
Qed.

Lemma spawn_onward s id a : sane s -> is_Some (dev_id a s) -> onward s (spawn id a s).
Proof.
  intros [W1 W2 W3] Ha. split_and!; [|by intros ? ?|done]. split; [exact W1| |].
  - intros ctx a' E. unfold worker_of in E. simpl in E. destruct (decide (pn_next s = ctx)) as [<-|Hne].
    + rewrite lookup_insert_eq in E. by injection E as <-.
    + rewrite lookup_insert_ne in E by done. by apply (W2 ctx).
  - intros n Hn. apply W3. simpl in Hn. lia.
Qed.

Lemma spawn_elsewhere id id' a s : dev_id a s = Some id' -> id' <> id -> elsewhere id s (spawn id' a s).
Proof.
  intros Ha Hne. split_and!; [done|simpl; by rewrite lookup_insert_ne|].
  intros ctx a' [[-> ->]|[_ Hl]]%spawn_live E; [|done]. change (dev_id a s = Some id) in E. congruence.
Qed.

Lemma spawn_kept id a s : idle id s -> pn_devices s !! id = Some a -> kept id (spawn id a s).
Proof.
  intros Hi Ha ctx a' [[-> ->]|[_ Hl]]%spawn_live E.
  - split; [simpl; by rewrite lookup_insert_eq|done].
  - by destruct (Hi ctx a' Hl).
Qed.

Lemma StopDevice_frame a s s' : StopDevice a s = (Returns tt, s') -> frame s s' /\ pn_locked s' = pn_locked s.
Proof.
  unfold StopDevice, bind, get, modify, panics. destruct (client_of a s); [|done].
  intros [= <-]. split; [by apply update_dev_frame|done].
Qed.
End OneWorker.

(** ** Lemmas: the calls that are interrupted *)

Section Commands.
Context `{MapperFramework} `{DeviceStatuses}.

(** In one go, they are the calls. *)
Lemma stopDev_code_run dev id rest s :
  run (stopDev_code dev id rest) s =
  match stopDev dev id s with
  | (Returns _, s') => run rest s'
  | (Panics, s') => (Panics, s')
  | (Blocks, s') => (Blocks, s')
  end.
Proof.
  unfold stopDev, stopDev_code, bind, get, modify, ret, panics. simpl. unfold bind, get. simpl.
  destruct (pn_deviceMuxs s !! id); [|done]. destruct dev as [a|]; [|done]. simpl.
  destruct (StopDevice a s) as [[[]| |] s1]; done.
Qed.

Lemma restart_code_run model device s :
  run (restart_code model device) s =
  (Returns tt, spawn (in_ID device) (pn_next s)
    (set_models (<[ModelID model := model]> (pn_models s)) (store_device device s))).
Proof.
  unfold restart_code, bind, get, modify, ret, panics. simpl. unfold bind, get. simpl.
  by rewrite lookup_insert_eq.
Qed.

Lemma UpdateDev_code_run model device s : run (UpdateDev_code model device) s = UpdateDev_body model device s.
Proof.
  unfold UpdateDev_code, UpdateDev_body. simpl. unfold bind at 1, get, ret. unfold bind at 1, bind at 1.
  destruct (pn_devices s !! in_ID device) as [a|].
  - rewrite stopDev_code_run. destruct (stopDev (Some a) (in_ID device) s) as [[e| |] s1]; [|done|done].
    by rewrite restart_code_run.
  - by rewrite restart_code_run.
Qed.

Lemma command_serve ev q id code s : command q = Some (id, code) -> serve ev q s = locked (run code) s.
Proof.
  destruct q; try done; cbn [command]; intros [= <- <-]; cbn [serve].
  - unfold UpdateDev, locked. by rewrite UpdateDev_code_run.
  - unfold RemoveDevice, RemoveDevice_code, forget, bind at 1, locked. destruct (pn_locked s); [done|].
    cbn [run]. unfold bind, get, modify, ret. cbv zeta. cbn beta iota. rewrite stopDev_code_run.
    by destruct (stopDev _ _ _) as [[e| |] s1].
Qed.

(** Every statement of them goes onward. *)
Inductive code_sane : Code -> Prop :=
| sane_done : code_sane Done
| sane_do m :
    (forall s c' s', sane s -> m s = (Returns c', s') -> onward s s' /\ code_sane c') ->
    code_sane (Do m).

(** What those about other devices keep. *)
Inductive code_elsewhere (id : string) : Code -> Prop :=
| elsewhere_done : code_elsewhere id Done
| elsewhere_do m :
    (forall s c' s', sane s -> m s = (Returns c', s') -> elsewhere id s s' /\ code_elsewhere id c') ->
    code_elsewhere id (Do m).

(** What those about this device do to it: an outline, with what holds before each
    statement, which nothing that happens elsewhere meanwhile can change. *)
Inductive code_ok (id : string) : (Panel -> Prop) -> Code -> Prop :=
| ok_done (P : Panel -> Prop) : (forall s, P s -> kept id s) -> code_ok id P Done
| ok_do (P : Panel -> Prop) m :
    (forall s, P s -> held id s) ->
    (forall s c' s', sane s -> P s -> m s = (Returns c', s') ->
       exists P', stable id P' /\ P' s' /\ code_ok id P' c') -> code_ok id P (Do m).

Lemma code_ok_held id P c s : code_ok id P c -> P s -> held id s.
Proof. intros [Q HQ|Q m HQ _] Hs; [by apply kept_held, HQ|by apply HQ]. Qed.

Lemma code_elsewhere_ok id c : code_elsewhere id c -> code_ok id (kept id) c.
Proof.
  revert c. fix IH 2. intros c [|m Hm]; [by constructor|]. constructor; [apply kept_held|].
  intros s c' s' Hs Hk E. destruct (Hm s c' s' Hs E) as [He Hc]. exists (kept id).
  split_and!; [apply kept_stable|by apply (kept_stable id s)|by apply IH].
Qed.

Ltac statement H :=
  unfold bind, get, modify, ret, panics in H; simpl in H.

Lemma stopDev_code_sane dev id rest : code_sane rest -> code_sane (stopDev_code dev id rest).
Proof.
  intros Hr. constructor. intros s c' s' Hs E. statement E.
  destruct (pn_deviceMuxs s !! id) as [ctx|]; [|injection E as <- <-; split; [by apply frame_onward|done]].
  destruct dev as [a|]; [|done]. injection E as <- <-. split; [by apply frame_onward|].
  constructor. intros s1 c1 s1' Hs1 E1. statement E1.
  destruct (StopDevice a s1) as [[[]| |] s2] eqn:E2; [|done|done]. injection E1 as <- <-.
  apply StopDevice_frame in E2 as [F Hl]. split; [by apply frame_onward|].
  constructor. intros s3 c3 s3' Hs3 E3. statement E3. injection E3 as <- <-.
  split; [|done]. split_and!; [by destruct Hs3; split|by intros ? ?|done].
Qed.

Lemma restart_code_sane model device : code_sane (restart_code model device).
Proof.
  constructor. intros s c' s' Hs E. statement E. injection E as <- <-.
  split; [by apply store_device_onward|].
  constructor. intros s1 c1 s1' Hs1 E1. statement E1. injection E1 as <- <-.
  split; [by apply (frame_onward s1)|].
  constructor. intros s2 c2 s2' Hs2 E2. statement E2.
  destruct (pn_devices s2 !! in_ID device) as [a|] eqn:Ea; [|done]. injection E2 as <- <-.
  split; [|constructor]. apply spawn_onward; [done|]. by rewrite (sn_listed s2 Hs2 _ _ Ea).
Qed.

Lemma command_sane q id code : command q = Some (id, code) -> code_sane code.
Proof.
  destruct q; try done; cbn [command]; intros [= <- <-]; constructor; intros s c' s' Hs E; statement E.
  - destruct (pn_devices s !! in_ID device) as [a|]; injection E as <- <-;
      (split; [by apply frame_onward|]); [apply stopDev_code_sane|]; apply restart_code_sane.
  - injection E as <- <-. split; [by apply delete_onward|]. apply stopDev_code_sane. constructor.
Qed.

Lemma stopDev_code_elsewhere id dev id' rest :
  code_elsewhere id rest -> code_elsewhere id (stopDev_code dev id' rest).
Proof.
  intros Hr. constructor. intros s c' s' Hs E. statement E.
  destruct (pn_deviceMuxs s !! id') as [ctx|]; [|injection E as <- <-; by split].
  destruct dev as [a|]; [|done]. injection E as <- <-. split; [done|].
  constructor. intros s1 c1 s1' Hs1 E1. statement E1.
  destruct (StopDevice a s1) as [[[]| |] s2] eqn:E2; [|done|done]. injection E1 as <- <-.
  apply StopDevice_frame in E2 as [F Hl]. split; [by apply frame_elsewhere|].
  constructor. intros s3 c3 s3' Hs3 E3. statement E3. injection E3 as <- <-.
  split; [apply cancel_elsewhere|done].
Qed.

Lemma restart_code_elsewhere id model device :
  in_ID device <> id -> code_elsewhere id (restart_code model device).
Proof.
  intros Hne. constructor. intros s c' s' Hs E. statement E. injection E as <- <-.
  split; [by apply store_device_elsewhere|].
  constructor. intros s1 c1 s1' Hs1 E1. statement E1. injection E1 as <- <-. split; [done|].
  constructor. intros s2 c2 s2' Hs2 E2. statement E2.
  destruct (pn_devices s2 !! in_ID device) as [a|] eqn:Ea; [|done]. injection E2 as <- <-.
  split; [|constructor]. apply spawn_elsewhere; [by apply sn_listed|done].
Qed.

Lemma command_elsewhere q id' code id : command q = Some (id', code) -> id' <> id -> code_elsewhere id code.
Proof.
  destruct q; try done; cbn [command]; intros [= <- <-] Hne; constructor; intros s c' s' Hs E; statement E.
  - destruct (pn_devices s !! in_ID device) as [a|]; injection E as <- <-; (split; [done|]);
      [apply stopDev_code_elsewhere|]; by apply restart_code_elsewhere.
  - injection E as <- <-. split; [by apply delete_elsewhere|]. apply stopDev_code_elsewhere. constructor.
Qed.

(** Whoever stops a device leaves no worker for it. *)
Lemma stopDev_code_ok id dev rest : code_ok id (idle id) rest -> code_ok id (held id) (stopDev_code dev id rest).
Proof.
  intros Hr. constructor; [done|]. intros s c' s' Hs Hh E. statement E.
  destruct (pn_deviceMuxs s !! id) as [ctx|] eqn:Em.
  2: { injection E as <- <-. exists (idle id). split_and!; [apply idle_stable| |done].
       intros ctx a Hl Ha. specialize (Hh ctx a Hl Ha). congruence. }
  destruct dev as [a|]; [|done]. injection E as <- <-.
  set (P := fun s => held id s /\ pn_deviceMuxs s !! id = Some ctx).
  assert (stable id P) as HP by (apply stable_and; [apply held_stable|apply muxs_stable]).
  exists P. split_and!; [done|done|]. constructor; [by intros ? [? _]|].
  intros s1 c1 s1' Hs1 HP1 E1. statement E1.
  destruct (StopDevice a s1) as [[[]| |] s2] eqn:E2; [|done|done]. injection E1 as <- <-.
  apply StopDevice_frame in E2 as [F _]. exists P.
  split_and!; [done|by apply (HP s1), HP1; apply frame_elsewhere|]. constructor; [by intros ? [? _]|].
  intros s3 c3 s3' Hs3 [Hh3 Em3] E3. statement E3. injection E3 as <- <-.
  exists (idle id). split_and!; [apply idle_stable|by apply cancel_idle|done].
Qed.

Lemma restart_code_ok model device : code_ok (in_ID device) (idle (in_ID device)) (restart_code model device).
Proof.
  set (id := in_ID device). constructor; [apply idle_held|]. intros s c' s' Hs Hi E. statement E.
  injection E as <- <-. exists (idle id). split_and!; [apply idle_stable|by apply store_device_idle|].
  constructor; [apply idle_held|]. intros s1 c1 s1' Hs1 Hi1 E1. statement E1. injection E1 as <- <-.
  exists (idle id). split_and!; [apply idle_stable|exact Hi1|].
  constructor; [apply idle_held|]. intros s2 c2 s2' Hs2 Hi2 E2. statement E2. fold id in E2.
  destruct (pn_devices s2 !! id) as [a|] eqn:Ea; [|done]. injection E2 as <- <-.
  exists (kept id). split_and!; [apply kept_stable|by apply spawn_kept|by constructor].
Qed.

Lemma command_ok q id code : command q = Some (id, code) -> code_ok id (kept id) code.
Proof.
  destruct q; try done; cbn [command]; intros [= <- <-]; (constructor; [apply kept_held|]);
    intros s c' s' Hs Hk E; statement E.
  - destruct (pn_devices s !! in_ID device) as [a|] eqn:Ea; injection E as <- <-.
    + exists (held (in_ID device)). split_and!; [apply held_stable|by apply kept_held|].
      apply stopDev_code_ok, restart_code_ok.
    + exists (idle (in_ID device)). split_and!; [apply idle_stable| |apply restart_code_ok].
      intros ctx a Hl Ha. destruct (Hk ctx a Hl Ha). congruence.
  - injection E as <- <-. exists (held deviceID). split_and!; [apply held_stable|exact (kept_held _ _ Hk)|].
    apply stopDev_code_ok. constructor. apply idle_kept.
Qed.

(** *** The other steps *)

Lemma background_frame s s' : background_step s s' -> frame s s'.
Proof.
  intros [ctx w s1 s1' _ _ E|ev ctx w s1 s1' _ _ E|ctx w s1 _ _ _|a decode now sub topic payload s1].
  - pose proof (start_client_framed ctx (wk_dev w) s1) as [F _]. by rewrite E in F.
  - pose proof (start_serving_framed ev ctx (wk_dev w) s1) as [F _]. by rewrite E in F.
  - apply set_phase_frame.
  - by apply update_dev_frame.
Qed.

Lemma background_locked s s' : background_step s s' -> pn_locked s' = pn_locked s.
Proof.
  intros [ctx w s1 s1' _ _ E|ev ctx w s1 s1' _ _ E| |]; [| |done|done].
  - pose proof (start_client_framed ctx (wk_dev w) s1) as (_ & L & _). by rewrite E in L.
  - pose proof (start_serving_framed ev ctx (wk_dev w) s1) as (_ & L & _). by rewrite E in L.
Qed.

(** The second lock of [UpdateDevTwins], which its own first one holds. *)
Lemma UpdateDevTwins_blocks id twins a s :
  pn_locked s = false -> pn_devices s !! id = Some a -> is_Some (pn_heap s !! a) ->
  UpdateDevTwins id twins s =
  (Blocks, update_dev a (fun d => mkCustomizedDev (with_Twins twins (de_Instance d)) (de_Client d)
             (de_Connected d)) (set_locked true s)).
Proof.
  intros Hl Ha [d Hd]. unfold UpdateDevTwins, locked, UpdateDev, bind, get, modify. rewrite Hl. simpl.
  rewrite Ha. unfold instance_of. simpl. rewrite lookup_alter_eq, Hd. done.
Qed.

Lemma sane_heap s id a : sane s -> pn_devices s !! id = Some a -> is_Some (pn_heap s !! a).
Proof.
  intros Hs Ha. apply (sn_listed s Hs) in Ha. unfold dev_id, instance_of in Ha.
  by destruct (pn_heap s !! a).
Qed.

Lemma UpdateDevTwins_frame id twins s : sane s -> frame s (UpdateDevTwins id twins s).2.
Proof.
  intros Hs. destruct (pn_locked s) eqn:Hl; [unfold UpdateDevTwins, locked; by rewrite Hl|].
  destruct (pn_devices s !! id) as [a|] eqn:Ha.
  - rewrite (UpdateDevTwins_blocks id twins a s Hl Ha) by (by eapply sane_heap). simpl.
    by apply (update_dev_frame a _ (set_locked true s)).
  - unfold UpdateDevTwins, locked, bind, get, ret. rewrite Hl. simpl. by rewrite Ha.
Qed.

Lemma call_frame ev q o s s' : command q = None -> sane s -> serve ev q s = (o, s') -> frame s s'.
Proof.
  intros Hq Hs E. destruct (reading_call q) eqn:Hc.
  - pose proof (serve_frame ev q Hc s) as [F _]. by rewrite E in F.
  - destruct q; try done; simpl in E. pose proof (UpdateDevTwins_frame deviceID twins s Hs) as F.
    unfold forget, bind, ret in E. by destruct (UpdateDevTwins _ _ _) as [[e| |] s1]; injection E as _ <-.
Qed.

(** A mutex nobody will unlock. *)
Lemma serve_blocked ev c s : pn_locked s = true -> serve ev c s = (Blocks, s).
Proof.
  intros Hl.
  assert (forall A (body : Op A), locked body s = (Blocks, s)) as Hb
    by (intros; unfold locked; by rewrite Hl).
  assert (forall A (body : Op A), forget (locked body) s = (Blocks, s)) as Hf
    by (intros; unfold forget, bind; by rewrite Hb).
  destruct c; simpl; apply Hb || apply Hf.
Qed.

(** *** Every state of the process *)

(** The tables make sense, the entry the loop has taken is of the device it is taken
    for, and a call under way holds the mutex. *)
Record node_sane (n : Node) : Prop := {
  ns_panel : sane (nd_panel n);
  ns_turn : forall id a, nd_turn n = Some (id, a) -> dev_id a (nd_panel n) = Some id;
  ns_call : forall c, nd_call n = Some c -> pn_locked (nd_panel n) = true /\ code_sane c
}.

Lemma onward_sane s s' r r' t c c' :
  onward s s' -> node_sane (mkNode s r t c) ->
  (forall k, c' = Some k -> pn_locked s' = true /\ code_sane k) -> node_sane (mkNode s' r' t c').
Proof.
  intros (O1 & O2 & _) [_ N2 _] Hc. split; [done| |exact Hc].
  intros id a E. by apply O2, N2.
Qed.

Lemma node_step_sane n e n' : node_step n e n' -> node_sane n -> node_sane n'.
Proof.
  intros Hst Hn. pose proof Hn as [N1 N2 N3].
  destruct Hst as [s s' r t c Hb|ev q o s s' r t c Hq E|q id code s r t Hq Hl|m c s s' r t E|s r t
    |id a s r c Ha Hr|id a s r c|s r c Hr]; simpl in *.
  - pose proof (background_locked s s' Hb) as Hl.
    eapply onward_sane; [by apply frame_onward; [apply background_frame| |]|exact Hn|]. simpl. by rewrite Hl.
  - destruct (pn_locked s) eqn:Hl.
    { rewrite serve_blocked in E by done. injection E as _ <-. exact Hn. }
    split; [by eapply frame_sane; [eapply call_frame|]| |].
    + intros id a Ht. eapply frame_ids; [by eapply call_frame|by apply N2].
    + intros k Hk. by destruct (N3 k Hk).
  - split; [by apply (frame_sane s)|exact N2|]. intros k [= <-]. split; [done|by eapply command_sane].
  - destruct (N3 _ eq_refl) as [Hl Hc]. inversion Hc as [|? Hm]; subst.
    destruct (Hm s c s' N1 E) as [Ho Hc']. eapply onward_sane; [exact Ho|exact Hn|].
    intros k [= <-]. split; [|done]. destruct Ho as (_ & _ & ->). done.
  - split; [by apply (frame_sane s)|exact N2|done].
  - split; [done| |done]. intros id' a' [= <- <-]. by apply sn_listed.
  - assert (onward s (spawn id a s)) as (O1 & _ & O3)
      by (apply spawn_onward; [done|by rewrite (N2 id a)]).
    split; [done|done|]. intros k Hk. by destruct (N3 k Hk).
  - by split.
Qed.

Lemma init_devices_sane l s :
  sane s -> sane (init_devices l s).2 /\ pn_workers (init_devices l s).2 = pn_workers s.
Proof.
  revert s. induction l as [|d l IH]; intros s Hs; [done|]. simpl. unfold bind, get, modify, ret.
  destruct (BuildProtocolFromGrpc d) as [raw|]; [|done].
  destruct (GetDeviceFromGrpc d _) as [i|]; [|done].
  apply (IH (store_device (with_ConfigData raw i) s)). by apply store_device_sane.
Qed.

Lemma DevInit_sane devices models :
  sane (DevInit devices models NewDevPanel).2 /\ pn_workers (DevInit devices models NewDevPanel).2 = ∅.
Proof.
  assert (sane NewDevPanel) as Hs0 by (split; intros *; done).
  unfold DevInit. destruct (is_nil _ || is_nil _); [done|]. unfold bind at 1, modify.
  match goal with |- context [init_devices devices ?s] => set (s0 := s) end.
  apply (init_devices_sane devices s0). by apply (frame_sane NewDevPanel).
Qed.

Lemma booted_sane devices models n : booted devices models n -> node_sane n.
Proof.
  intros (e & s & E & _ & ->). pose proof (DevInit_sane devices models) as [Hs _].
  rewrite E in Hs. by split.
Qed.

Lemma runs_sane n es n' : node_runs n es n' -> node_sane n -> node_sane n'.
Proof. induction 1; [done|]. intros Hn. eapply node_step_sane; [done|auto]. Qed.

Lemma reachable_sane n : reachable n -> node_sane n.
Proof. intros (ds & ms & n0 & es & Hb & Hr). eapply runs_sane; [exact Hr|by eapply booted_sane]. Qed.

(** *** One device, from the start of the process *)

(** The loop has come to it. *)
Definition come_to (id : string) (n : Node) : Prop :=
  forall r, nd_range n = Some r -> id ∈ rg_seen r /\ is_Some (pn_devices (nd_panel n) !! id).

(** No call is about it so far: the loop has not come to it, is about to start it, or is
    through with it. *)
Inductive startup (id : string) (n : Node) : Prop :=
| before_start r :
    nd_range n = Some r -> id ∉ rg_seen r -> (forall a, nd_turn n <> Some (id, a)) ->
    idle id (nd_panel n) -> startup id n
| at_start a :
    nd_turn n = Some (id, a) -> come_to id n -> pn_devices (nd_panel n) !! id = Some a ->
    idle id (nd_panel n) -> startup id n
| after_start :
    (forall a, nd_turn n <> Some (id, a)) -> come_to id n -> kept id (nd_panel n) -> startup id n.

Definition uncalled (id : string) (n : Node) : Prop :=
  startup id n /\ forall c, nd_call n = Some c -> code_elsewhere id c.

(** Some call has been about it: what the one under way has come to holds. *)
Definition called (id : string) (n : Node) : Prop :=
  match nd_call n with
  | None => kept id (nd_panel n)
  | Some c => exists P, stable id P /\ P (nd_panel n) /\ code_ok id P c
  end.

Definition in_order (id : string) (es : list NodeEvent) (n : Node) : Prop :=
  uncalled id n \/
  called id n /\ exists q code, In (Called q) es /\ command q = Some (id, code).

Lemma startup_kept id n : startup id n -> kept id (nd_panel n).
Proof. intros [|a|]; [by apply idle_kept|by apply idle_kept|done]. Qed.

Lemma startup_elsewhere id s s' r t c c' :
  elsewhere id s s' -> startup id (mkNode s r t c) -> startup id (mkNode s' r t c').
Proof.
  intros He. pose proof He as (E1 & _ & _).
  intros [r' Hr Hs Ht Hi|a Ht Hc Ha Hi|Ht Hc Hk]; simpl in *.
  - by eapply before_start; [done..|by eapply idle_stable].
  - eapply at_start; [done| |simpl; by rewrite E1|by eapply idle_stable].
    intros r' Hr. simpl. rewrite E1. by apply Hc.
  - eapply after_start; [done| |by eapply kept_stable].
    intros r' Hr. simpl. rewrite E1. by apply Hc.
Qed.

Lemma startup_still_listed id s r t c :
  startup id (mkNode s r t c) -> startup id (mkNode s (still_listed s <$> r) t c).
Proof.
  assert (come_to id (mkNode s r t c) -> come_to id (mkNode s (still_listed s <$> r) t c)) as Hct.
  { intros Hc r' Hr. simpl in *. apply fmap_Some in Hr as (r0 & -> & ->).
    destruct (Hc r0 eq_refl) as [Hs Hl]. split; [|done]. simpl. rewrite elem_of_intersection, elem_of_dom. done. }
  intros [r' Hr Hs Ht Hi|a Ht Hc Ha Hi|Ht Hc Hk]; simpl in *.
  - subst r. eapply before_start; [done| |done..]. simpl. set_solver.
  - eapply at_start; [done|by apply Hct|done..].
  - by apply after_start; [|apply Hct|].
Qed.

Lemma called_elsewhere id s s' r r' t t' c :
  elsewhere id s s' -> called id (mkNode s r t c) -> called id (mkNode s' r' t' c).
Proof.
  intros He. unfold called. simpl. destruct c as [c|]; [|by apply kept_stable].
  intros (P & HP & Hs & Hc). exists P. split_and!; [done|by apply (HP s)|done].
Qed.

(** Nothing but a call about it, or the loop that comes to it, matters. *)
Lemma in_order_elsewhere id es e s s' r t c :
  elsewhere id s s' -> in_order id es (mkNode s r t c) -> in_order id (es ++ [e]) (mkNode s' r t c).
Proof.
  intros He [[Hs Hc]|[Hc (q & code & Hq & Hid)]].
  - left. split; [by eapply startup_elsewhere|done].
  - right. split; [by eapply called_elsewhere|]. exists q, code. rewrite in_app_iff. auto.
Qed.

Lemma in_order_begin id id' q code es s r t :
  command q = Some (id', code) -> in_order id es (mkNode s r t None) ->
  in_order id (es ++ [Called q]) (mkNode (set_locked true s) r t (Some code)).
Proof.
  intros Hq Ho.
  assert (kept id (set_locked true s)) as Hk.
  { destruct Ho as [[Hs _]|[Hc _]]; [|exact Hc]. exact (startup_kept id _ Hs). }
  destruct (decide (id' = id)) as [->|Hne].
  - right. split; [|exists q, code; rewrite in_app_iff; simpl; auto].
    exists (kept id). split_and!; [apply kept_stable|done|by eapply command_ok].
  - pose proof (command_elsewhere q id' code id Hq Hne) as He. destruct Ho as [[Hs _]|[_ (q' & c' & Hin & Hq')]].
    + left. split; [by apply (startup_elsewhere id s _ r t None)|]. by intros c [= <-].
    + right. split; [|exists q', c'; rewrite in_app_iff; auto].
      exists (kept id). split_and!; [apply kept_stable|done|by apply code_elsewhere_ok].
Qed.

Lemma in_order_inside id es m c s s' r t :
  sane s -> m s = (Returns c, s') -> in_order id es (mkNode s r t (Some (Do m))) ->
  in_order id (es ++ [Inside]) (mkNode s' (still_listed s' <$> r) t (Some c)).
Proof.
  intros Hs E [[Hst Hc]|[Hc (q & code & Hin & Hq)]].
  - left. specialize (Hc _ eq_refl). inversion Hc as [|? Hm]; subst.
    destruct (Hm s c s' Hs E) as [He Hc']. split; [|by intros k [= <-]].
    apply (startup_still_listed id s' r). by eapply startup_elsewhere.
  - right. split; [|exists q, code; rewrite in_app_iff; auto].
    destruct Hc as (P & _ & HP & Hc). inversion Hc as [|? ? _ Hm]; subst.
    by apply (Hm s c s' Hs HP E).
Qed.

Lemma in_order_return id es s r t :
  in_order id es (mkNode s r t (Some Done)) ->
  in_order id (es ++ [Returned]) (mkNode (set_locked false s) r t None).
Proof.
  intros [[Hst Hc]|[(P & _ & HP & Hc) (q & code & Hin & Hq)]].
  - left. split; [|done]. by apply (startup_elsewhere id s _ r t (Some Done)).
  - right. split; [|exists q, code; rewrite in_app_iff; auto]. inversion Hc as [? Hk|]; subst.
    exact (Hk s HP).
Qed.

Lemma in_order_pick id id' a es s r c :
  pn_devices s !! id' = Some a -> id' ∉ rg_seen r -> in_order id es (mkNode s (Some r) None c) ->
  in_order id (es ++ [Picked id'])
    (mkNode s (Some (mkRange (rg_initial r) ({[id']} ∪ rg_seen r))) (Some (id', a)) c).
Proof.
  intros Ha Hr [[Hst Hc]|[Hc (q & code & Hin & Hq)]].
  2: { right. split; [exact Hc|]. exists q, code. rewrite in_app_iff. auto. }
  left. split; [|exact Hc]. destruct Hst as [r' Hr' Hs Ht Hi|a' Ht _ _ _|Ht Hct Hk]; [|done|].
  - injection Hr' as <-. simpl in *. destruct (decide (id' = id)) as [->|Hne].
    + eapply at_start; [done| |done|done]. intros r' [= <-]. simpl. split; [set_solver|by eexists].
    + eapply before_start; [done|simpl; set_solver| |done]. intros a' [= ->]. done.
  - destruct (Hct r eq_refl) as [Hs Hl]. simpl in *.
    apply after_start; [|intros r' [= <-]; simpl; split; [set_solver|done]|done].
    intros a' [= -> _]. done.
Qed.

Lemma in_order_start id id' a es s r c :
  dev_id a s = Some id' -> unraced id (es ++ [Started id']) ->
  in_order id es (mkNode s r (Some (id', a)) c) ->
  in_order id (es ++ [Started id']) (mkNode (spawn id' a s) r None c).
Proof.
  intros Ha Hu Ho. destruct (decide (id' = id)) as [->|Hne].
  - destruct Ho as [[Hst Hc]|[_ (q & code & Hin & Hq)]].
    + left. split; [|exact Hc]. destruct Hst as [r' _ _ Ht _|a' [= <-] Hct Hl Hi|Ht _ _];
        [by destruct (Ht a)| |by destruct (Ht a)].
      apply after_start; [done|exact Hct|by apply spawn_kept].
    + exfalso. apply in_split in Hin as (es1 & es2 & ->).
      apply (Hu es1 (es2 ++ [Started id]) q code); [by rewrite <- app_assoc|done|].
      apply in_app_iff. simpl. auto.
  - pose proof (spawn_elsewhere id id' a s Ha Hne) as He.
    destruct Ho as [[Hst Hc]|[Hc (q & code & Hin & Hq)]].
    2: { right. split; [by eapply called_elsewhere|]. exists q, code. rewrite in_app_iff. auto. }
    left. split; [|exact Hc]. apply (startup_elsewhere id s _ r None c c); [done|].
    destruct Hst as [r' Hr Hs _ Hi|a' Ht _ _ _|_ Hct Hk]; simpl in *.
    + by eapply before_start.
    + injection Ht as -> _. done.
    + by apply after_start.
Qed.

Lemma in_order_loop_done id es s r c :
  in_order id es (mkNode s (Some r) None c) -> in_order id (es ++ [LoopDone]) (mkNode s None None c).
Proof.
  intros [[Hst Hc]|[Hc (q & code & Hin & Hq)]].
  - left. split; [|exact Hc]. apply after_start; [done|done|]. exact (startup_kept id _ Hst).
  - right. split; [exact Hc|]. exists q, code. rewrite in_app_iff. auto.
Qed.

Lemma in_order_step id es n e n' :
  node_sane n -> node_step n e n' -> unraced id (es ++ [e]) -> in_order id es n ->
  in_order id (es ++ [e]) n'.
Proof.
  intros [Hs Ht _] Hst Hu Ho. destruct Hst; simpl in *.
  - eapply in_order_elsewhere; [by apply frame_elsewhere, background_frame|done].
  - eapply in_order_elsewhere; [by eapply frame_elsewhere, call_frame|done].
  - by eapply in_order_begin.
  - by eapply in_order_inside.
  - by apply in_order_return.
  - by apply in_order_pick.
  - apply in_order_start; [by apply Ht|done|done].
  - by eapply in_order_loop_done.
Qed.

Lemma unraced_before id es e : unraced id (es ++ [e]) -> unraced id es.
Proof.
  intros Hu es1 es2 q code -> Hq Hin. apply (Hu es1 (es2 ++ [e]) q code); [by rewrite <- app_assoc|done|].
  apply in_app_iff. auto.
Qed.

Lemma boot_in_order id devices models n : booted devices models n -> in_order id [] n.
Proof.
  intros (e & s & E & _ & ->). pose proof (DevInit_sane devices models) as [_ Hw].
  rewrite E in Hw. simpl in Hw. left. split; [|done].
  eapply before_start; [done|simpl; set_solver|done|].
  intros ctx a [Hl _]. unfold worker_of in Hl. simpl in Hl. by rewrite Hw in Hl.
Qed.

Lemma runs_in_order id devices models n0 es n :
  booted devices models n0 -> node_runs n0 es n -> unraced id es -> in_order id es n.
Proof.
  intros Hb Hr. induction Hr as [|es n1 e n2 Hr IH Hst]; intros Hu.
  - by eapply boot_in_order.
  - eapply in_order_step; [|exact Hst|exact Hu|by apply IH; eapply unraced_before].
    eapply runs_sane; [exact Hr|by eapply booted_sane].
Qed.

(** At any time there is one worker at most; between two calls, it serves what is listed. *)
Lemma in_order_held id es n : in_order id es n -> held id (nd_panel n).
Proof.
  intros [[Hs _]|[Hc _]]; [by apply kept_held, startup_kept|]. unfold called in Hc.
  destruct (nd_call n) as [c|]; [|by apply kept_held]. destruct Hc as (P & _ & HP & Hc).
  by eapply code_ok_held.
Qed.
Lemma in_order_kept id es n : in_order id es n -> nd_call n = None -> kept id (nd_panel n).
Proof. intros [[Hs _]|[Hc _]] Hn; [by apply startup_kept|]. unfold called in Hc. by rewrite Hn in Hc. Qed.
(** *** Runs without interruption *)

Lemma runs_app n1 es n2 es' n3 : node_runs n1 es n2 -> node_runs n2 es' n3 -> node_runs n1 (es ++ es') n3.
Proof.
  intros H12. induction 1 as [|es' n3 e n4 _ IH Hst]; [by rewrite app_nil_r|].
  rewrite app_assoc. by eapply runs_on.
Qed.

Lemma runs_one n1 e n2 : node_step n1 e n2 -> node_runs n1 [e] n2.
Proof. intros Hst. apply (runs_on n1 [] n1 e n2); [constructor|done]. Qed.

Lemma runs_cons n1 e n2 es n3 : node_step n1 e n2 -> node_runs n2 es n3 -> node_runs n1 (e :: es) n3.
Proof. intros Hst Hr. eapply (runs_app n1 [e]); [by apply runs_one|exact Hr]. Qed.

Lemma code_runs c s s' r t :
  run c s = (Returns tt, s') ->
  exists k r', node_runs (mkNode s r t (Some c)) (replicate k Inside) (mkNode s' r' t (Some Done)) /\
    (r = None -> r' = None).
Proof.
  revert c s r. fix IH 1. intros [|m] s r E; simpl in E.
  - injection E as ->. exists 0%nat, r. split; [constructor|done].
  - destruct (m s) as [[c'| |] s1] eqn:Em; [|done|done].
    destruct (IH c' s1 (still_listed s1 <$> r) E) as (k & r' & Hr & Hn).
    exists (S k), r'. split; [by eapply runs_cons; [apply node_inside|]|]. intros ->. by apply Hn.
Qed.

(** A call that nothing comes between is the call. *)
Lemma call_runs ev q id code s s' r t :
  command q = Some (id, code) -> serve ev q s = (Returns tt, s') ->
  exists k r', node_runs (mkNode s r t None) (Called q :: replicate k Inside ++ [Returned])
    (mkNode s' r' t None) /\ (r = None -> r' = None).
Proof.
  intros Hq E. rewrite (command_serve ev q id code s Hq) in E. unfold locked in E.
  destruct (pn_locked s) eqn:Hl; [done|].
  destruct (run code (set_locked true s)) as [[[]| |] s1] eqn:Er; [|done|done]. injection E as <-.
  destruct (code_runs code _ s1 r t Er) as (k & r' & Hr & Hn). exists k, r'. split; [|exact Hn].
  eapply runs_cons; [by eapply node_begin|]. eapply runs_app; [exact Hr|]. apply runs_one. constructor.
Qed.

(** And a loop that nothing comes between is [DevStart]. *)
Lemma loop_runs s initial l :
  NoDup (map fst l) -> (forall id a, In (id, a) l -> pn_devices s !! id = Some a) ->
  exists es, node_runs (mkNode s (Some (mkRange initial ∅)) None None) es
    (mkNode (fold_left (fun s '(id, a) => spawn id a s) l s)
       (Some (mkRange initial (list_to_set (map fst l)))) None None) /\
    pn_devices (fold_left (fun s '(id, a) => spawn id a s) l s) = pn_devices s.
Proof.
  induction l as [|[id a] l IH] using rev_ind; intros Hnd Hin.
  - exists []. split; [constructor|done].
  - rewrite map_app in Hnd. apply NoDup_app in Hnd as (Hnd & Hni & _).
    destruct IH as (es & Hr & Hd); [done|intros; apply Hin, in_app_iff; auto|].
    rewrite fold_left_app, map_app. simpl. exists ((es ++ [Picked id]) ++ [Started id]). split; [|exact Hd].
    rewrite list_to_set_app_L, union_comm_L. simpl. rewrite union_empty_r_L.
    eapply runs_on; [eapply runs_on; [exact Hr|]|].
    + apply (node_pick id a); [rewrite Hd; apply Hin, in_app_iff; simpl; auto|]. simpl.
      rewrite elem_of_list_to_set. intros Hid. apply (Hni id Hid). simpl. set_solver.
    + apply node_start.
Qed.

Lemma DevStart_runs `{MapRange} s s' :
  DevStart s = (Returns tt, s') -> exists es, node_runs (boot_node s) es (mkNode s' None None None).
Proof.
  unfold DevStart, bind, get, modify. intros [= <-].
  pose proof (map_range_perm 0 (pn_devices s)) as Hp.
  destruct (loop_runs s (dom (pn_devices s)) (map_range 0 (pn_devices s))) as (es & Hr & _).
  - rewrite Hp. apply NoDup_fst_map_to_list.
  - intros id a. apply map_range_elem.
  - exists (es ++ [LoopDone]). eapply runs_on; [exact Hr|]. constructor. simpl. intros id Hid.
    apply elem_of_dom in Hid as [a Ha]. rewrite elem_of_list_to_set. apply list_elem_of_In, in_map_iff.
    exists (id, a). split; [done|]. by apply map_range_elem.
Qed.

(** Nothing is raced when nothing is updated or removed before the loop is over. *)
Lemma unraced_app id es1 es2 :
  (forall q, In (Called q) es1 -> command q = None) -> ~ In (Started id) es2 -> unraced id (es1 ++ es2).
Proof.
  intros H1 H2 l1 l2 q code E Hq Hin. destruct (app_eq_app es1 es2 l1 (Called q :: l2) E) as (l & [[-> E2]|[-> ->]]).
  - destruct l as [|x l]; simpl in E2.
    + subst es2. apply H2. by right.
    + injection E2 as <- _. rewrite H1 in Hq; [done|]. apply in_app_iff. simpl. auto.
  - apply H2, in_app_iff. right. by right.
Qed.
End Commands.

(** ** Properties *)

Section Theorems.
Context `{MapperFramework} `{DeviceStatuses}.

(** The two ways a worker can be seen. *)
Lemma live_dev_id s ctx w i :
  pn_workers s !! ctx = Some w -> ctx ∉ pn_cancelled s -> instance_of (wk_dev w) s = Some i ->
  live s ctx (wk_dev w) /\ dev_id (wk_dev w) s = Some (in_ID i).
Proof. intros Hw Hc Hi. unfold live, worker_of, dev_id. by rewrite Hw, Hi. Qed.

(** C21. One device, one worker. [DevStart] runs beside the servers, calls come from
    the start and are interrupted anywhere by what does not take the mutex; a device that
    [DevStart] does not start after a call has begun to update or remove it never has two
    workers that have not been told to stop, not even in the middle of a call. Between
    the calls that update or remove, such a worker serves the very object the panel
    lists under the identifier, and its cancel function is the one the panel holds; so
    none serves a device that was removed. Every worker has its device. *)
Theorem one_worker_per_device devices models n0 es n id :
  booted devices models n0 -> node_runs n0 es n -> unraced id es ->
  let s := nd_panel n in
  (forall ctx w, pn_workers s !! ctx = Some w -> is_Some (instance_of (wk_dev w) s)) /\
  (forall ctx1 ctx2 w1 w2 i1 i2,
     pn_workers s !! ctx1 = Some w1 -> ctx1 ∉ pn_cancelled s ->
     pn_workers s !! ctx2 = Some w2 -> ctx2 ∉ pn_cancelled s ->
     instance_of (wk_dev w1) s = Some i1 -> instance_of (wk_dev w2) s = Some i2 ->
     in_ID i1 = id -> in_ID i2 = id -> ctx1 = ctx2) /\
  (nd_call n = None -> forall ctx w i,
     pn_workers s !! ctx = Some w -> ctx ∉ pn_cancelled s ->
     instance_of (wk_dev w) s = Some i -> in_ID i = id ->
     pn_devices s !! id = Some (wk_dev w) /\ pn_deviceMuxs s !! id = Some ctx).
Proof.
  intros Hb Hr Hu s. pose proof (runs_in_order id _ _ _ _ _ Hb Hr Hu) as Ho.
  pose proof (runs_sane _ _ _ Hr (booted_sane _ _ _ Hb)) as [Hs _ _]. fold s in Hs. split_and!.
  - intros ctx w Hw. destruct (sn_worker s Hs ctx (wk_dev w)) as [x Hx]; [unfold worker_of; by rewrite Hw|].
    unfold dev_id in Hx. by destruct (instance_of (wk_dev w) s).
  - intros ctx1 ctx2 w1 w2 i1 i2 Hw1 Hc1 Hw2 Hc2 Hi1 Hi2 <- E2. apply in_order_held in Ho. fold s in Ho.
    destruct (live_dev_id s _ _ _ Hw1 Hc1 Hi1) as [L1 D1]. destruct (live_dev_id s _ _ _ Hw2 Hc2 Hi2) as [L2 D2].
    rewrite E2 in D2. pose proof (Ho _ _ L1 D1). pose proof (Ho _ _ L2 D2). congruence.
  - intros Hn ctx w i Hw Hc Hi <-. destruct (live_dev_id s _ _ _ Hw Hc Hi) as [L D].
    by apply and_comm, (in_order_kept _ _ _ Ho Hn).
Qed.

(** Once the mutex is held and nobody is in a call, it stays so. *)
Lemma node_runs_wedged n es n' :
  node_runs n es n' -> nd_call n = None -> pn_locked (nd_panel n) = true ->
  nd_call n' = None /\ pn_locked (nd_panel n') = true.
Proof.
  induction 1 as [|es n1 e n2 _ IH Hst]; intros Hn Hl; [done|]. specialize (IH Hn Hl) as [Hn1 Hl1].
  destruct Hst as [s s' r t c Hb|ev q o s s' r t c Hq E|q id code s r t Hq Hf|m c s s' r t E|s r t
    |id a s r c Ha Hr|id a s r c|s r c Hr]; simpl in *; try done.
  - by rewrite (background_locked s s' Hb).
  - rewrite serve_blocked in E by done. by injection E as _ <-.
  - congruence.
Qed.

(** C22. Changing the twins of a device stops the whole panel: [UpdateDevTwins] takes
    the mutex and calls [UpdateDev], which takes it again. The twins are changed, the
    device is not restarted with them, the call never returns, and neither does any
    later call about any device, whatever else happens, [DevStart] included. *)
Theorem UpdateDevTwins_wedges n id twins a :
  reachable n -> pn_locked (nd_panel n) = false -> pn_devices (nd_panel n) !! id = Some a ->
  exists s', UpdateDevTwins id twins (nd_panel n) = (Blocks, s') /\
    in_Twins <$> instance_of a s' = Some twins /\
    pn_workers s' = pn_workers (nd_panel n) /\ pn_cancelled s' = pn_cancelled (nd_panel n) /\
    forall es n' ev c,
      node_runs (mkNode s' (nd_range n) (nd_turn n) (nd_call n)) es n' ->
      serve ev c (nd_panel n') = (Blocks, nd_panel n').
Proof.
  intros [Hs _ Hc]%reachable_sane Hl Ha. destruct (sane_heap _ _ _ Hs Ha) as [d Hd].
  rewrite (UpdateDevTwins_blocks id twins a _ Hl Ha) by eauto.
  eexists. split_and!; [done| |done|done|].
  - unfold instance_of. simpl. rewrite lookup_alter_eq, Hd. done.
  - intros es n' ev c Hr. apply serve_blocked. apply (node_runs_wedged _ _ _ Hr); [|done].
    simpl. destruct (nd_call n) as [k|]; [|done]. destruct (Hc k eq_refl). congruence.
Qed.

Lemma method_map_In ms m names x :
  method_map ms !! m = Some names -> In x names ->
  exists me, In me ms /\ me_Name me = m /\ In x (me_PropertyNames me).
Proof.
  unfold method_map. revert names. induction ms as [|me ms IH] using rev_ind; intros names E Hx; [done|].
  rewrite fold_left_app in E. simpl in E. destruct (decide (me_Name me = m)) as [<-|Hne].
  - rewrite lookup_insert_eq in E. injection E as <-. apply in_app_iff in Hx as [Hx|Hx].
    + destruct (fold_left _ ms ∅ !! me_Name me) as [names'|]; [|done].
      destruct (IH names' eq_refl Hx) as (me' & ? & ? & ?). exists me'. rewrite in_app_iff. auto.
    + exists me. rewrite in_app_iff. simpl. auto.
  - rewrite lookup_insert_ne in E by done.
    destruct (IH names E Hx) as (me' & ? & ? & ?). exists me'. rewrite in_app_iff. auto.
Qed.

(** C23. Nothing goes out by [WriteDevice] that was not declared: if a call sends
    anything, the panel was free, the device is one it lists and its client is there,
    the method called is one of the device's and names the property, the property is
    one of the device's and the data converts to its type; and then what is sent, and
    the answer, are those of the driver's write. *)
Theorem WriteDevice_authorised ev m id prop data s r s' :
  WriteDevice ev m id prop data s = (r, s') ->
  pn_sent s' = pn_sent s \/
  exists a i c me p d v,
    pn_locked s = false /\ pn_devices s !! id = Some a /\ instance_of a s = Some i /\
    client_of a s = Some c /\
    In me (in_Methods i) /\ me_Name me = m /\ In prop (me_PropertyNames me) /\
    In p (in_Properties i) /\ dp_PropertyName p = prop /\
    Convert (ToLower (dp_DataType p)) data = Ok d /\ UnmarshalVisitor (dp_Visitors p) = Some v /\
    let '(pub, e) := DeviceDataWrite (ev_publish ev) (ev_now ev) c v prop d in
    pn_sent s' = pn_sent s ++ option_list pub /\ r = Returns (WriteFailed <$> e).
Proof.
  unfold WriteDevice, locked. destruct (pn_locked s) eqn:Hl; [intros [= _ <-]; by left|].
  unfold bind, get, ret, panics. simpl.
  destruct (pn_devices s !! id) as [a|] eqn:Ha; [|intros [= _ <-]; by left].
  change (instance_of a (set_locked true s)) with (instance_of a s).
  destruct (instance_of a s) as [i|] eqn:Hi; [|intros [= _ <-]; by left].
  destruct (method_map (in_Methods i) !! m) as [names|] eqn:Hm; [|intros [= _ <-]; by left].
  destruct (existsb _ names) eqn:Hn; [|intros [= _ <-]; by left]. simpl.
  destruct (find _ (in_Properties i)) as [p|] eqn:Hp; [|intros [= _ <-]; by left].
  destruct (Convert _ data) as [d|] eqn:Hd; [|intros [= _ <-]; by left].
  destruct (UnmarshalVisitor _) as [v|] eqn:Hv; [|intros [= _ <-]; by left].
  unfold client_write, bind, get, ret, panics, modify.
  destruct (is_empty _) eqn:Hc; [intros [= _ <-]; by left|].
  change (client_of a (set_locked true s)) with (client_of a s).
  destruct (client_of a s) as [c|] eqn:Hcl; [|intros [= _ <-]; by left].
  destruct (DeviceDataWrite _ _ c v prop d) as [pub e] eqn:Hw. intros [= <- <-]. right.
  apply existsb_exists in Hn as (x & Hx & ->%str_eq_true).
  destruct (method_map_In _ _ _ _ Hm Hx) as (me & ? & ? & ?).
  apply find_some in Hp as [? ?%str_eq_true].
  exists a, i, c, me, p, d, v. rewrite Hw. by split_and!.
Qed.
End Theorems.

(** ** A concrete panel *)

#[local] Existing Instance plain_statuses.
#[local] Instance plain_framework : MapperFramework := {|
  DeviceModel := string; ModelID m := m; zeroModel := ""%string;
  DmiDevice := DeviceInstance; dmi_Namespace _ := "default"%string; dmi_ModelReference := in_Model;
  DmiModel := string; dmm_Namespace _ := "default"%string; dmm_Name m := m;
  GetDeviceModelFromGrpc m := m; GetResourceID ns name := (ns +:+ "/" +:+ name)%string;
  BuildProtocolFromGrpc i := Ok (in_ConfigData i); GetDeviceFromGrpc i _ := Ok i;
  UnmarshalProtocol raw :=
    if is_empty raw then None
    else Some (mkConfigData "tcp://broker:1883" raw "" "" "" "" [] "" 0 30 3 10);
  UnmarshalVisitor raw :=
    if is_empty raw then None
    else Some (mkVisitorConfig "string" (raw +:+ "/state") (raw +:+ "/command") false "" 0 false 0);
  Convert _ data := Ok (DString data);
  ConvertToString d := match d with DString s => Ok s | _ => Err "not text"%string end;
  TopicTwinUpdate id := ("$hw/events/device/" +:+ id +:+ "/twin/update")%string;
  CreateMessageTwinUpdate name _ v _ := Ok (name +:+ "=" +:+ v)%string;
  CreateMessageData name _ v := Ok (name +:+ "=" +:+ v)%string;
  DefaultCollectCycle := Second; DefaultReportCycle := Second
|}.

Definition bulb : DeviceModel := "bulb"%string.
Definition fair : Env := mkEnv (fun _ => TokenDone) (fun _ => TokenDone) noon.

Definition level : DeviceProperty :=
  mkDeviceProperty "level" "level" "light/level" "STRING" "ReadWrite" 0 true.
Definition lamp_with (twins : list Twin) : DeviceInstance :=
  mkDeviceInstance "lamp" "lamp" "bulb" "lamp-1" false 0 twins [level]
    [mkDeviceMethod "set" ["level"%string]].
Definition level_twin : Twin := mkTwin "level" (Some level) "" "string" "".
(** A twin of a property the device model does not declare. *)
Definition mistyped_twin : Twin := mkTwin "levle" None "" "string" "".

Definition boot (d : DeviceInstance) : Panel :=
  (DevStart (DevInit [d] ["bulb"%string] NewDevPanel).2).2.
(** Its worker has context 1 and the object at address 0. *)
Definition connecting (d : DeviceInstance) : Panel := (start_client 1 0 (boot d)).2.
Definition running (d : DeviceInstance) : Panel := (start_serving fair 1 0 (connecting d)).2.
Definition with_value (s : Panel) : Panel :=
  update_dev 0 (fun d => mkCustomizedDev (de_Instance d)
    (deliver (fun _ => None) noon (Direct "lamp-1/#" (mkTransportConfig "wifi" "lamp-1" "" 0 true true 0 0))
       "lamp-1/light/level/state" "40" <$> de_Client d) (de_Connected d)) s.

Definition lamps : list DmiDevice := [lamp_with [level_twin]].
Definition bulbs : list DmiModel := ["bulb"%string].

Definition lamp : DeviceInstance := lamp_with [level_twin].
Definition initial : Panel := (DevInit lamps bulbs NewDevPanel).2.

Lemma initial_booted : booted lamps bulbs (boot_node initial).
Proof. exists None, initial. split_and!; [vm_compute; reflexivity|by left|done]. Qed.

Definition starting : list NodeEvent :=
  [Picked "lamp"; Started "lamp"; LoopDone; Background; Background].

Lemma running_runs : node_runs (boot_node initial) starting (mkNode (running lamp) None None None).
Proof.
  eapply runs_cons; [apply (node_pick "lamp" 0); [vm_compute; reflexivity|set_solver]|].
  eapply runs_cons; [apply node_start|].
  eapply runs_cons; [apply node_loop_done, (bool_decide_unpack _); vm_compute; exact I|].
  eapply runs_cons; [apply node_background, (step_client 1 (mkWorker 0 Spawned) _ (connecting lamp));
    vm_compute; reflexivity|].
  apply runs_one, node_background, (step_serving fair 1 (mkWorker 0 Connecting)); vm_compute; reflexivity.
Qed.

Lemma running_reachable : reachable (mkNode (running lamp) None None None).
Proof. exists lamps, bulbs, (boot_node initial), starting. split; [apply initial_booted|apply running_runs]. Qed.

Definition updated : Panel := (UpdateDev bulb lamp (running lamp)).2.

Lemma updated_runs :
  exists es, node_runs (boot_node initial) es (mkNode updated None None None) /\ unraced "lamp" es.
Proof.
  destruct (call_runs fair (CallUpdateDev bulb lamp) "lamp" (UpdateDev_code bulb lamp) (running lamp) updated
    None None) as (k & r' & Hr & Hn); [done|vm_compute; reflexivity|].
  rewrite (Hn eq_refl) in Hr. eexists. split; [exact (runs_app _ _ _ _ _ running_runs Hr)|].
  apply unraced_app.
  - intros q Hq. exfalso. unfold starting in Hq. simpl in Hq. intuition discriminate.
  - intros [Hq|Hq]; [done|]. apply in_app_iff in Hq as [Hq|[Hq|[]]]; [|done].
    apply list_elem_of_In, elem_of_replicate in Hq as [Hq _]. done.
Qed.

Lemma one_worker_per_device_witness :
  pn_workers updated !! 3%nat = Some (mkWorker 2 Spawned) /\
  pn_devices updated !! "lamp"%string = Some 2%nat /\ pn_deviceMuxs updated !! "lamp"%string = Some 3%nat.
Proof.
  destruct updated_runs as (es & Hr & Hu).
  destruct (one_worker_per_device lamps bulbs _ es _ "lamp" initial_booted Hr Hu) as (_ & _ & Hk).
  assert (pn_workers updated !! 3%nat = Some (mkWorker 2 Spawned)) as Hw by (vm_compute; reflexivity).
  split; [exact Hw|].
  apply (Hk eq_refl 3%nat (mkWorker 2 Spawned) lamp); [exact Hw|vm_compute; discriminate|vm_compute; reflexivity|done].
Defined.

Lemma UpdateDevTwins_wedges_witness :
  exists s', UpdateDevTwins "lamp" [] (running lamp) = (Blocks, s') /\
    serve fair (CallGetDevice "toaster") s' = (Blocks, s').
Proof.
  destruct (UpdateDevTwins_wedges (mkNode (running lamp) None None None) "lamp" [] 0 running_reachable)
    as (s' & E & _ & _ & _ & Hall); [vm_compute; reflexivity|vm_compute; reflexivity|].
  exists s'. split; [exact E|]. apply (Hall [] (mkNode s' None None None)), runs_nothing.
Defined.

Lemma WriteDevice_authorised_witness :
  let s := running (lamp_with [level_twin]) in
  let s' := (WriteDevice fair "set" "lamp" "level" "75" s).2 in
  pn_sent s' = pn_sent s ++ [mkPublication "lamp-1/light/level/command" 0 false "75"] /\
  exists i me, instance_of 0 s = Some i /\ In me (in_Methods i) /\ In "level"%string (me_PropertyNames me).
Proof.
  cbv zeta. set (s := running _).
  destruct (WriteDevice fair "set" "lamp" "level" "75" s) as [r s'] eqn:E.
  assert (pn_sent s' = pn_sent s ++ [mkPublication "lamp-1/light/level/command" 0 false "75"]) as Es.
  { change s' with (snd (r, s')). rewrite <- E. vm_compute. reflexivity. }
  split; [exact Es|].
  destruct (WriteDevice_authorised fair "set" "lamp" "level" "75" s r s' E)
    as [Hn|(a & i & c & me & p & d & v & _ & Ha & Hi & _ & Hme & _ & Hx & _)].
  - rewrite Hn in Es. exfalso. apply (f_equal length) in Es. rewrite length_app in Es. simpl in Es. lia.
  - assert (a = 0%nat) as -> by (vm_compute in Ha; congruence).
    exists i, me. auto.
Defined.

(** Reading a twin that may be written writes it first, here with nothing. *)
Example reading_writes :
  let s := with_value (running (lamp_with [level_twin])) in
  (GetTwinResult fair "lamp" "level" s).1 = Returns (Ok ("40", "string")%string) /\
  skipn (length (pn_sent s)) (pn_sent (GetTwinResult fair "lamp" "level" s).2)
    = [mkPublication "lamp-1/light/level/command" 0 false ""].
Proof. vm_compute. done. Qed.

(** All twins of a device are asked for by the empty name, which then names them. *)
Example all_twins_nameless :
  (DealDeviceTwinGet fair "lamp" "" (with_value (running (lamp_with [level_twin])))).1
  = Returns (Ok [("", "level=40")]%string).
Proof. vm_compute. reflexivity. Qed.

(** Serving skips a twin its model does not declare; asking for the device dies of it. *)
Example undeclared_twin_kills_reads :
  let s := running (lamp_with [mistyped_twin]) in
  wk_phase <$> pn_workers s !! 1%nat = Some Serving /\ (GetDevice fair "lamp" s).1 = Panics /\
  (GetTwinResult fair "lamp" "" s).1 = Panics.
Proof. vm_compute. done. Qed.

(** A second removal finds the cancel function of the first, and no device. *)
Example removed_twice :
  let s := (RemoveDevice "lamp" (running (lamp_with []))).2 in
  (RemoveDevice "lamp" (running (lamp_with []))).1 = Returns None /\
  (RemoveDevice "lamp" s).1 = Panics.
Proof. vm_compute. done. Qed.

(** An update before the worker has made its client, and one after a start that failed. *)
Example update_before_client :
  (UpdateDev bulb (lamp_with []) (boot (lamp_with []))).1 = Panics.
Proof. vm_compute. reflexivity. Qed.

(** Removed while its connection is being made, a device is connected all the same. *)
Example removed_while_connecting :
  let s := (RemoveDevice "lamp" (connecting (lamp_with []))).2 in
  let s' := (start_serving fair 1 0 s).2 in
  pn_devices s !! "lamp"%string = None /\ bool_decide (1%nat ∈ pn_cancelled s) = true /\
  (de_Connected <$> pn_heap s' !! 0%nat) = Some true.
Proof. vm_compute. done. Qed.

(** [main] runs [DevStart] beside the servers: a device updated before it comes to be
    started has two workers. *)
Example started_twice :
  let s := (DevStart (UpdateDev bulb (lamp_with [])
              (DevInit [lamp_with []] ["bulb"%string] NewDevPanel).2).2).2 in
  map (fun '(_, w) => wk_dev w) (map_to_list (pn_workers s)) = [1; 1]%nat /\ pn_cancelled s = ∅.
Proof. vm_compute. done. Qed.

(** Updated between the loop's coming to it and its start, it is served as it was and as
    it is; the cancel function that the panel holds is that of the old one's worker. *)
Example start_overtaken :
  let s := spawn "lamp" 0 (UpdateDev bulb lamp initial).2 in
  (exists es r, node_runs (boot_node initial) es (mkNode s r None None)) /\
  wk_dev <$> pn_workers s !! 2%nat = Some 1%nat /\ wk_dev <$> pn_workers s !! 3%nat = Some 0%nat /\
  pn_cancelled s = ∅ /\ pn_devices s !! "lamp"%string = Some 1%nat /\
  pn_deviceMuxs s !! "lamp"%string = Some 3%nat.
Proof.
  cbv zeta. split; [|vm_compute; done].
  destruct (call_runs fair (CallUpdateDev bulb lamp) "lamp" (UpdateDev_code bulb lamp) initial
    (UpdateDev bulb lamp initial).2 (Some (mkRange (dom (pn_devices initial)) ({["lamp"%string]} ∪ ∅)))
    (Some ("lamp"%string, 0%nat))) as (k & r & Hr & _); [done|vm_compute; reflexivity|].
  eexists _, r. eapply runs_cons; [apply (node_pick "lamp" 0); [vm_compute; reflexivity|set_solver]|].
  eapply runs_app; [exact Hr|]. apply runs_one, node_start.
Qed.
