(* ===== verification/Mapper.v ===== *)
(** * The mapper as a process: mapper/esphome/cmd and the end of device.go's DevStart

    What [main] brings up before the servers answer, beside which it leaves [DevStart]
    to run, and what an interrupt does to the panel: it stops the client of every device the panel lists and exits, without the
    panel's mutex, so that a panel that hangs can still be ended. *)

From S2P Require Import Prelude GoTime GoFloat GoStrings GoParseFloat Driver Panel.
Local Open Scope Z_scope.

(** ** Definitions *)

Section Mapper.
Context `{MapperFramework} `{DeviceStatuses} `{MapRange}.
#[local] Notation "x <~ m ;; k" := (bind m (fun x => k))
  (at level 20, m at level 99, k at level 200, right associativity).

(** The loop of the handler: the error of [StopDevice] is always nil. *)
Fixpoint stop_devices (l : list (string * nat)) : Op unit :=
  match l with
  | [] => ret tt
  | (_, device) :: l' => _ <~ StopDevice device ;; stop_devices l'
  end.

(** The handler, up to [os.Exit(1)]. *)
Definition on_interrupt : Op Z :=
  s <~ get ;; _ <~ stop_devices (map_range 1 (pn_devices s)) ;; ret 1.

(** How [main] goes: it logs an error and exits, it panics or hangs, or its servers
    answer, with [DevStart] about to run beside them. *)
Inductive Startup := Fatal (err : string) | Died | Serving_panel (n : Node).

Definition mapper_main {Config} (ErrorText : PanelError -> string) (parsed : result Config string)
    (registered : result (list DmiDevice * list DmiModel) string) : Startup :=
  match parsed with
  | Err err => Fatal err
  | Ok _ =>
      match registered with
      | Err err => Fatal err
      | Ok (deviceList, deviceModelList) =>
          match DevInit deviceList deviceModelList NewDevPanel with
          | (Returns e, s) =>
              match e with
              | None | Some EmptyData => Serving_panel (boot_node s)
              | Some e => Fatal (ErrorText e)
              end
          | _ => Died
          end
      end
  end.

(** ** Lemmas *)

(** What stopping devices leaves alone, and whose connections it closes. *)
Definition stopped (l : list (string * nat)) (s s' : Panel) : Prop :=
  s' = set_heap (pn_heap s') s /\
  (forall a, client_of a s' = client_of a s /\ instance_of a s' = instance_of a s) /\
  (forall a, ~ In a (map snd l) -> pn_heap s' !! a = pn_heap s !! a).

Lemma StopDevice_spec a s :
  match client_of a s with
  | None => StopDevice a s = (Panics, s)
  | Some _ => exists s', StopDevice a s = (Returns tt, s') /\ stopped [(""%string, a)] s s' /\
      de_Connected <$> pn_heap s' !! a = Some false
  end.
Proof.
  unfold StopDevice, bind, get, modify, panics.
  destruct (client_of a s) as [c|] eqn:Ec; [|done].
  eexists. split; [done|]. unfold client_of in Ec.
  destruct (pn_heap s !! a) as [d|] eqn:Ed; [|done].
  split; [|by cbn; rewrite lookup_alter_eq, Ed].
  split; [by destruct s|]. split.
  - intros b. unfold client_of, instance_of. cbn. destruct (decide (a = b)) as [->|Hne].
    + by rewrite lookup_alter_eq, Ed.
    + by rewrite lookup_alter_ne.
  - intros b Hb. cbn. rewrite lookup_alter_ne; [done|]. intros ->. apply Hb. by left.
Qed.

Lemma stopped_trans l1 l2 s1 s2 s3 :
  stopped l1 s1 s2 -> stopped l2 s2 s3 -> stopped (l1 ++ l2) s1 s3.
Proof.
  intros (E1 & C1 & R1) (E2 & C2 & R2). split_and!.
  - rewrite E2, E1. by destruct s1.
  - intros a. destruct (C1 a) as [<- <-]. apply C2.
  - intros a Ha. rewrite map_app in Ha. rewrite R2, R1; [done|..]; intros Hin; apply Ha, in_or_app; auto.
Qed.

(** Stopping them one after the other, up to the first that has no client. *)
Lemma stop_devices_spec l : forall s,
  exists r s', stop_devices l s = (r, s') /\ stopped l s s' /\
    (r = Returns tt -> forall id a, In (id, a) l ->
       client_of a s <> None /\ de_Connected <$> pn_heap s' !! a = Some false) /\
    (r <> Returns tt -> r = Panics /\ exists id a, In (id, a) l /\ client_of a s = None).
Proof.
  induction l as [|[id a] l IH]; intros s.
  { exists (Returns tt), s. split; [done|]. split; [by split; [destruct s|]|]. by split. }
  cbn [stop_devices]. unfold bind. pose proof (StopDevice_spec a s) as Ha.
  destruct (client_of a s) as [c|] eqn:Ec.
  - destruct Ha as (s1 & -> & Hs1 & Hc1). destruct (IH s1) as (r & s' & -> & Hs' & Hok & Hbad).
    assert (forall b, client_of b s1 = client_of b s) as Hcl by (intros b; apply Hs1).
    exists r, s'. split; [done|]. split.
    { destruct (stopped_trans _ _ _ _ _ Hs1 Hs') as (T1 & T2 & T3). by split_and!. }
    split.
    + intros -> id' b [[= -> ->]|Hin].
      * split; [congruence|]. destruct (in_dec Nat.eq_dec b (map snd l)) as [Hb|Hb].
        -- apply in_map_iff in Hb as ([id2 b2] & E2 & Hin). simpl in E2. subst b2.
           by destruct (Hok eq_refl id2 b Hin).
        -- destruct Hs' as (_ & _ & Hrest). by rewrite Hrest.
      * rewrite <- Hcl. by apply (Hok eq_refl id').
    + intros Hr. destruct (Hbad Hr) as (-> & id' & b & Hin & Hb). split; [done|].
      exists id', b. rewrite <- Hcl. split; [by right|done].
  - exists Panics, s. rewrite Ha. split; [done|]. split; [by split; [destruct s|]|]. split; [done|].
    intros _. split; [done|]. exists id, a. split; [by left|done].
Qed.

(** [main] that comes to serve has booted the panel; should [DevStart] come to its end
    before anything else happens, the panel is that of [DevStart]. *)
Lemma mapper_main_boots {Config} text (parsed : result Config string) registered n :
  mapper_main text parsed registered = Serving_panel n ->
  exists c devices models, parsed = Ok c /\ registered = Ok (devices, models) /\
    booted devices models n /\ reachable n /\
    forall s', DevStart (nd_panel n) = (Returns tt, s') -> reachable (mkNode s' None None None).
Proof.
  unfold mapper_main. destruct parsed as [c|]; [|done]. destruct registered as [[ds ms]|]; [|done].
  destruct (DevInit ds ms NewDevPanel) as [[e| |] s1] eqn:Ei; [|done..].
  intros Hm. assert ((e = None \/ e = Some EmptyData) /\ n = boot_node s1) as [He ->].
  { destruct e as [[]|]; try done; (split; [by auto|]); congruence. }
  assert (booted ds ms (boot_node s1)) as Hb by (exists e, s1; by split_and!).
  exists c, ds, ms. split_and!; [done|done|done|exists ds, ms, (boot_node s1), []; split; [done|constructor]|].
  intros s' (es & Hr)%DevStart_runs. by exists ds, ms, (boot_node s1), es.
Qed.
End Mapper.

(** ** Theorems *)

Section Theorems.
Context `{MapperFramework} `{DeviceStatuses} `{MapRange}.

(** C24. An interrupt ends the mapper, whatever its panel is doing, with or without the
    mutex and in whatever order the map of devices is iterated. If every listed device
    has its client, all of them are disconnected, nothing else is touched, and the exit
    status is 1. It is a panic instead exactly when some listed device has no client,
    because its worker has not come to make it or could not; then the devices after it
    in the order of the map are left connected. *)
Theorem interrupt_stops_all s :
  exists r s', on_interrupt s = (r, s') /\
    (r = Returns 1 \/ r = Panics) /\
    (r = Panics <-> exists id a, pn_devices s !! id = Some a /\ client_of a s = None) /\
    (r = Returns 1 -> forall id a, pn_devices s !! id = Some a ->
       de_Connected <$> pn_heap s' !! a = Some false) /\
    (forall a, (forall id, pn_devices s !! id <> Some a) -> pn_heap s' !! a = pn_heap s !! a) /\
    s' = set_heap (pn_heap s') s.
Proof.
  unfold on_interrupt, bind at 1, get. unfold bind.
  destruct (stop_devices_spec (map_range 1 (pn_devices s)) s) as (r & s' & -> & (E1 & _ & E3) & Hok & Hbad).
  assert (forall a, (forall id, pn_devices s !! id <> Some a) -> pn_heap s' !! a = pn_heap s !! a) as Hrest.
  { intros a Ha. apply E3. intros ([id b] & Eb & Hin)%in_map_iff. simpl in Eb. subst b.
    apply map_range_elem in Hin. by apply (Ha id). }
  destruct r as [[]| |].
  - specialize (Hok eq_refl). exists (Returns 1), s'. split_and!; [done|by left| |..|done|done].
    + split; [done|]. intros (id & a & Ha & Hn). apply map_range_elem with (tick := 1%nat) in Ha.
      by destruct (Hok id a Ha).
    + intros _ id a Ha%(map_range_elem 1). by apply (Hok id a).
  - destruct Hbad as (_ & id & a & Hin%map_range_elem & Hn); [done|].
    exists Panics, s'. split_and!; [done|by right| |done|done|done]. split; [|done].
    intros _. by exists id, a.
  - by destruct Hbad.
Qed.
End Theorems.

(** ** A concrete mapper *)

#[local] Existing Instance plain_statuses.
#[local] Existing Instance plain_framework.

(** A lamp without a protocol configuration: its worker never makes a client. *)
Definition dark_lamp : DeviceInstance := mkDeviceInstance "unlit" "unlit" "bulb" "" false 0 [] [] [].
Definition booted_panel (devices : list DmiDevice) : Panel := (DevStart (DevInit devices bulbs NewDevPanel).2).2.

(** The panel that hangs for good is ended all the same. *)
Example wedged_still_interrupted :
  let s := (UpdateDevTwins "lamp" [] (running (lamp_with [level_twin]))).2 in
  pn_locked s = true /\ (on_interrupt s).1 = Returns 1 /\
  (de_Connected <$> pn_heap (on_interrupt s).2 !! 0%nat) = Some false.
Proof. vm_compute. done. Qed.

(** A mapper that has just started, or has one device that does not decode, panics of an
    interrupt; here it leaves the lamp connected, which comes after it. *)
Example misconfigured_panics :
  let s0 := booted_panel [lamp_with []; dark_lamp] in
  let s2 := (start_serving fair 3 0 (start_client 3 0 s0).2).2 in
  (on_interrupt s0).1 = Panics /\ (on_interrupt s2).1 = Panics /\
  (de_Connected <$> pn_heap (on_interrupt s2).2 !! 0%nat) = Some true.
Proof. vm_compute. done. Qed.

(** What a removal left connected, because it came while the device was connecting, is
    not stopped by an interrupt either. *)
Example leaked_connection_survives :
  let s := (start_serving fair 1 0 (RemoveDevice "lamp" (connecting (lamp_with []))).2).2 in
  (on_interrupt s).1 = Returns 1 /\ (de_Connected <$> pn_heap (on_interrupt s).2 !! 0%nat) = Some true.
Proof. vm_compute. done. Qed.

(** Models without devices, or devices without models, are no error, and no device. *)
Example nothing_to_serve :
  match mapper_main (fun _ => "")%string (Ok tt) (Ok ([lamp_with []] : list DmiDevice, [] : list DmiModel)) with
  | Serving_panel n => bool_decide (pn_devices (nd_panel n) = ∅)
  | _ => false
  end = true.
Proof. vm_compute. reflexivity. Qed.
