(* ===== verification/DryRun.v ===== *)
(** * The dry run: controller/cmd/plan

    The tool reads manifests, derives the livenesses the controller would write, and
    reports what every policy object decides. The text of the manifests is decoded by a
    library ([YamlDecoder]); what is printed is here a record per line, without its
    columns and colours. *)

From Stdlib Require Import Ascii.
From S2P Require Import Prelude GoTime GoFloat GoStrings Types Capability Planner Window Query Drift.
From S2P Require Import Template Decommission Cluster Unstructured Liveness Compose Rollout Delivery.
Local Open Scope Z_scope.
Local Open Scope torpor_scope.

(** ** Definitions: what the tool reads *)

(** An object of which the tool reads the name and the specification. *)
Record Manifest (Spec : Type) := mkManifest { mf_Name : string; mf_Spec : Spec }.
Arguments mkManifest {Spec}.
Arguments mf_Name {Spec}.
Arguments mf_Spec {Spec}.

(** What stands in for the reports of a device. *)
Record ObservedState := mkObservedState {
  os_Name : string; os_LastSeen : string; os_CertExpiry : string;
  os_Reported : gmap string string
}.

(** [sigs.k8s.io/yaml]: the kind of a document, and the document as one. *)
Class YamlDecoder := {
  probe_kind : string -> option string;
  decode_Device : string -> result Unstructured string;
  decode_FirmwareRollout : string -> result FirmwareRollout string;
  decode_MaintenanceWindow : string -> result MaintenanceWindow string;
  decode_FleetDrift : string -> result (Manifest FleetDriftSpec) string;
  decode_FleetQuery : string -> result (Manifest FleetQuerySpec) string;
  decode_CredentialExpiry : string -> result (Manifest CredentialExpirySpec) string;
  decode_DeviceDecommission : string -> result DeviceDecommission string;
  decode_DeviceTemplate : string -> result (Manifest DeviceTemplateSpec) string;
  decode_ObservedState : string -> result ObservedState string
}.

Record fleet := mkfleet {
  fl_devices : list Unstructured;
  fl_reported : gmap string (gmap string string);
  fl_lastSeen : gmap string Time;
  fl_rollouts : list FirmwareRollout;
  fl_windows : list MaintenanceWindow;
  fl_drifts : list (Manifest FleetDriftSpec);
  fl_queries : list (Manifest FleetQuerySpec);
  fl_expiries : list (Manifest CredentialExpirySpec);
  fl_decoms : list DeviceDecommission;
  fl_templates : list (Manifest DeviceTemplateSpec);
  fl_certExpiry : gmap string Time
}.

Definition empty_fleet : fleet := mkfleet [] ∅ ∅ [] [] [] [] [] [] [] ∅.

(** ** Definitions: small helpers *)

Definition labelOr (m : gmap string string) (k def : string) : string :=
  match m !! k with Some v => if negb (is_empty v) then v else def | None => def end.

Definition atoiSafe (s : string) : Z := default 0 (Sscanf_d s).

Definition toI64 (v : option Value) : option Z :=
  match v with
  | Some (VInt64 n) => Some n
  | Some (VFloat64 f) => Some (f_to_int64 f)
  | Some (VString s) => Sscanf_d s
  | _ => None
  end.

Definition short (d : Duration) : string :=
  let seconds := int_units d Second in
  let minutes := int_units d Minute in
  let hours := int_units d Hour in
  if d <? Minute then (pretty seconds +:+ "s")%string
  else if d <? Hour then (pretty minutes +:+ "m")%string
  else if d <? 24 * Hour then
    (pretty hours +:+ "h" +:+ pretty (Z.rem minutes 60) +:+ "m")%string
  else
    (pretty (Z.quot hours 24) +:+ "d" +:+ pretty (Z.rem hours 24) +:+ "h")%string.

(** ** Definitions: loading *)

Section Load.
Context `{YamlDecoder}.

Definition set_phase_complete (d : DeviceDecommission) : DeviceDecommission :=
  let s := dc_Status d in
  mkDeviceDecommission (dc_Meta d) (dc_Spec d)
    (mkDeviceDecommissionStatus DecomComplete (dst_DecommissionedAt s) (dst_LastSeenAlive s)
       (dst_ServiceLife s) (dst_FinalConfigHash s) (dst_CredentialsRevoked s)
       (dst_ExcludedFromQueries s) (dst_Conditions s)).

Definition put_time (raw name : string) (m : gmap string Time) : gmap string Time :=
  match ParseRFC3339 raw with Some (t, _) => <[name := t]> m | None => m end.

(** [add]: a document that does not decode changes nothing; a kind the tool does not
    know is passed over. *)
Definition add (kind doc : string) (f : fleet) : result fleet string :=
  let '(mkfleet ds re se ro wi dr qu ex de te ce) := f in
  if str_eq kind "Device" then
    u <-? decode_Device doc; Ok (mkfleet (ds ++ [u]) re se ro wi dr qu ex de te ce)
  else if str_eq kind "FirmwareRollout" then
    o <-? decode_FirmwareRollout doc; Ok (mkfleet ds re se (ro ++ [o]) wi dr qu ex de te ce)
  else if str_eq kind "MaintenanceWindow" then
    o <-? decode_MaintenanceWindow doc; Ok (mkfleet ds re se ro (wi ++ [o]) dr qu ex de te ce)
  else if str_eq kind "FleetDrift" then
    o <-? decode_FleetDrift doc; Ok (mkfleet ds re se ro wi (dr ++ [o]) qu ex de te ce)
  else if str_eq kind "FleetQuery" then
    o <-? decode_FleetQuery doc; Ok (mkfleet ds re se ro wi dr (qu ++ [o]) ex de te ce)
  else if str_eq kind "CredentialExpiry" then
    o <-? decode_CredentialExpiry doc; Ok (mkfleet ds re se ro wi dr qu (ex ++ [o]) de te ce)
  else if str_eq kind "DeviceDecommission" then
    o <-? decode_DeviceDecommission doc;
    Ok (mkfleet ds re se ro wi dr qu ex (de ++ [set_phase_complete o]) te ce)
  else if str_eq kind "DeviceTemplate" then
    o <-? decode_DeviceTemplate doc; Ok (mkfleet ds re se ro wi dr qu ex de (te ++ [o]) ce)
  else if str_eq kind "ObservedState" then
    o <-? decode_ObservedState doc;
    let n := os_Name o in
    Ok (mkfleet ds (<[n := os_Reported o]> re) (put_time (os_LastSeen o) n se) ro wi dr qu ex de te
          (put_time (os_CertExpiry o) n ce))
  else Ok f.

(** One document of a file; what is said on stderr is kept. *)
Definition load_doc (s : fleet * list string) (doc : string) : fleet * list string :=
  let '(f, warnings) := s in
  if is_empty (TrimSpace doc) then s
  else match probe_kind doc with
       | None => s
       | Some kind =>
           if is_empty kind then s
           else match add kind doc f with
                | Ok f' => (f', warnings)
                | Err e => (f, warnings ++ [(kind +:+ ": " +:+ e)%string])
                end
       end.

Definition separator : string := String "010"%char "---".

(** A file is its path and what reading it gave; a file that cannot be read ends it. *)
Fixpoint load_files (files : list (string * result string string)) (s : fleet * list string)
  : result (fleet * list string) string :=
  match files with
  | [] => Ok s
  | (_, raw) :: files' =>
      raw <-? raw; load_files files' (fold_left load_doc (Split separator raw) s)
  end.

(** [load]: [glob] is what [filepath.Glob] found. *)
Definition load (dir : string) (glob : result (list (string * result string string)) string)
  : result (fleet * list string) string :=
  match glob with
  | Ok (f :: fs) => load_files (f :: fs) (empty_fleet, [])
  | _ => Err ("no yaml in " +:+ dir)%string
  end.
End Load.

(** ** Definitions: deriving livenesses *)

Section Build.
Context `{Accessors} `{SliceSort}.

Definition observed_capability (f : fleet) (name : string) (cap : DeviceCapability)
  : DeviceCapability :=
  match fl_reported f !! name with
  | None => cap
  | Some props =>
      let get k := default ""%string (props !! k) in
      mkDeviceCapability (cap_Transports cap)
        (if is_empty (get "reachable_via"%string) then cap_ReachableVia cap
         else Split "," (get "reachable_via"%string))
        (wrap32 (atoiSafe (get "battery_percent"%string))) (cap_BatteryMah cap)
        (get "running_config_hash"%string)
  end.

(** The interval and multiplier of a device. *)
Definition dry_thresholds (cfg : gmap string Value) : Duration * Z :=
  (match toI64 (cfg !! "expectedIntervalSeconds"%string) with
   | Some v => if v >? 0 then wrap64 (v * Second) else 60 * Second
   | None => 60 * Second
   end,
   match toI64 (cfg !! "staleMultiplier"%string) with
   | Some v => if v >? 0 then v else 3
   | None => 3
   end).

Definition dry_judge (silent interval : Duration) (mult : Z) : LivenessState * string :=
  if silent <=? interval then (StateOnline, "ReportingOnSchedule"%string)
  else if silent <=? wrap64 (interval * mult) then
    (StateSleeping, "WithinExpectedWakeInterval"%string)
  else (StateUnreachable, ("NoReportFor" +:+ short silent)%string).

Definition dry_liveness (f : fleet) (now : Time) (d : Unstructured) : DeviceLiveness :=
  let name := u_Name d in
  let cfg := map_at (u_Object d) config_path in
  let cap := observed_capability f name (DeriveCapabilityFrom cfg (u_Labels d)) in
  let transport := labelOr (u_Labels d) "transport" "wifi" in
  let gateway := match cfg !! "gateway"%string with Some (VString gw) => gw | _ => ""%string end in
  mkDeviceLiveness (mkObjectMeta name (u_Namespace d) 0 ∅) (mkDeviceLivenessSpec "" 0 0 "")
    match fl_lastSeen f !! name with
    | Some seen =>
        let silent := sub_time now seen in
        let '(interval, mult) := dry_thresholds cfg in
        let '(state, assessment) := dry_judge silent interval mult in
        mkDeviceLivenessStatus state transport (Some seen) (short silent) None assessment gateway
          (Some cap) [] 0
    | None =>
        mkDeviceLivenessStatus StateUnknown transport None "" None "NeverReported" gateway
          (Some cap) [] 0
    end.

Definition buildLiveness (f : fleet) (now : Time) : list DeviceLiveness :=
  slice_sort by_name
    (fold_left (fun out d => out ++ [dry_liveness f now d]) (fl_devices f) []).
End Build.

(** ** Definitions: the reports *)

Section Reports.
Context `{LabelSelectors} (LoadLocation : string -> option Location) (Local : Location).

(** The selector of an object; [nil] when it does not parse. *)
Definition selector_or_nil (s : option LabelSelector) : option Selector :=
  match LabelSelectorAsSelector s with Ok sel => Some sel | Err _ => None end.

(** The devices of a rollout: livenesses against the devices of their name. *)
Definition dry_scope (sel : option Selector) (live : list DeviceLiveness)
    (devices : list Unstructured) : list (DeviceLiveness * gmap string string) :=
  flat_map (fun l => flat_map (fun d =>
    if negb (str_eq (u_Name d) (dl_Name l)) then []
    else if match sel with None => true | Some s => Matches s (u_Labels d) end
         then [(l, u_Labels d)] else []) devices) live.

Definition dry_window_step (devLabels : list (gmap string string)) (now : Time)
    (wdec : WindowDecision) (w : MaintenanceWindow) : WindowDecision :=
  let hit := is_nil (mws_Selector (mw_Spec w)) ||
             match selector_or_nil (mws_Selector (mw_Spec w)) with
             | Some wsel => existsb (Matches wsel) devLabels
             | None => false
             end in
  if negb hit then wdec
  else
    let st := EvaluateWindow LoadLocation (mw_Spec w) now in
    if negb (ws_Open st)
    then mkWindowDecision false (om_Name (mw_Meta w)) (ws_Reason st) (ws_NextOpen st) 0
    else wdec.

Definition dry_windows (windows : list MaintenanceWindow) (devLabels : list (gmap string string))
    (now : Time) : WindowDecision :=
  fold_left (dry_window_step devLabels now) windows (mkWindowDecision true "" "" None 0).

Inductive Forecast :=
| WouldProceed
| IsBlocked (window reason : string)
| NothingEligible.

Record RolloutReport := mkRolloutReport {
  rr_Name : string;
  rr_Target : Z;
  rr_Plan : Plan;
  rr_Phase : Forecast;
  rr_Steps : list (Z * Z);
  rr_Canary : option string
}.

(** [PlanRollout] reads the wall clock, whatever time the tool was asked about. *)
Definition reportRollout (f : fleet) (live : list DeviceLiveness) (now wall : Time)
    (ro : FirmwareRollout) : RolloutReport :=
  let scoped := dry_scope (selector_or_nil (fr_Selector (ro_Spec ro))) live (fl_devices f) in
  let plan := PlanRollout Local wall ro (map fst scoped) in
  let wdec := dry_windows (fl_windows f) (map snd scoped) now in
  let phase := if negb (wd_Open wdec) then IsBlocked (wd_Window wdec) (wd_Reason wdec)
               else match plan_Eligible plan with [] => NothingEligible | _ => WouldProceed end in
  let eligible := Z.of_nat (length (plan_Eligible plan)) in
  let steps := match strat_Steps (fr_Strategy (ro_Spec ro)) with [] => [100] | s => s end in
  mkRolloutReport (om_Name (ro_Meta ro)) (Z.of_nat (length scoped)) plan phase
    (match plan_Eligible plan with
     | [] => [] | _ => map (fun pct => (pct, StepSize eligible pct)) steps end)
    (head (plan_Eligible plan)).

Definition reportRollouts (f : fleet) (live : list DeviceLiveness) (now wall : Time)
  : list RolloutReport := map (reportRollout f live now wall) (fl_rollouts f).

Definition reportTemplates `{MapRange} `{StrconvQuote} (f : fleet) : list (string * Z * list TemplateError) :=
  map (fun t => let '(devs, errs) := RenderTemplate (mf_Spec t) in
                (mf_Name t, Z.of_nat (length devs), errs)) (fl_templates f).

(** Device, transport, state, silence and assessment. *)
Definition reportLiveness (live : list DeviceLiveness)
  : list (string * string * LivenessState * string * string) :=
  map (fun l => (dl_Name l, st_Transport (dl_Status l), st_State (dl_Status l),
                 st_SilentFor (dl_Status l), st_Assessment (dl_Status l))) live.

Definition reportWindows (f : fleet) (now : Time) : list (string * WindowState) :=
  map (fun w => (om_Name (mw_Meta w), EvaluateWindow LoadLocation (mw_Spec w) now)) (fl_windows f).

Definition reportDrift (f : fleet) (live : list DeviceLiveness) (now : Time)
  : list (string * FleetDriftStatus) :=
  map (fun d => (mf_Name d, AssessDrift (mf_Spec d) live now)) (fl_drifts f).

(** Query, matches, how many of them actionable, and their names. *)
Definition reportQueries (f : fleet) (live : list DeviceLiveness) (now : Time)
  : list (string * Z * Z * list string) :=
  map (fun q =>
    let st := EvaluateQuery (mf_Spec q) live now in
    (mf_Name q, fqs_Matched st, default 0 (fqs_Summary st !! "actionable"%string),
     map qr_Device (fqs_Devices st))) (fl_queries f).

(** The rows of devices that are not healthy. *)
Definition reportExpiry (f : fleet) (live : list DeviceLiveness) (now : Time)
  : list (string * CredentialExpiryStatus * list CredentialStatus) :=
  map (fun e =>
    let st := AssessCredentials Local (mf_Spec e) live (fl_certExpiry f) now in
    (mf_Name e, st,
     List.filter (fun c => negb (str_eq (cs_State c) CredHealthy)) (ces_Devices st))) (fl_expiries f).

Record Report := mkReport {
  rp_At : Time;
  rp_Live : list DeviceLiveness;
  rp_Excluded : Z;
  rp_Templates : list (string * Z * list TemplateError);
  rp_Windows : list (string * WindowState);
  rp_Rollouts : list RolloutReport;
  rp_Drift : list (string * FleetDriftStatus);
  rp_Queries : list (string * Z * Z * list string);
  rp_Credentials : list (string * CredentialExpiryStatus * list CredentialStatus)
}.

(** What [main] makes of a loaded fleet. *)
Definition report `{Accessors} `{SliceSort} `{MapRange} `{StrconvQuote} (f : fleet) (at_ wall : Time) : Report :=
  let livenesses := buildLiveness f at_ in
  let live := Filter (NewDecommissionSet (fl_decoms f)) livenesses in
  mkReport at_ live (Z.of_nat (length livenesses) - Z.of_nat (length live))
    (reportTemplates f) (reportWindows f at_) (reportRollouts f live at_ wall)
    (reportDrift f live at_) (reportQueries f live at_) (reportExpiry f live at_).

(** [main], up to printing: the flags, and what is read. *)
Definition plan_main `{YamlDecoder} `{Accessors} `{SliceSort} `{MapRange} `{StrconvQuote} (dir now : string)
    (glob : result (list (string * result string string)) string) (wall : Time)
  : result (Report * list string) string :=
  let at_ := if is_empty now then Ok wall
             else match ParseRFC3339 now with
                  | Some (t, _) => Ok t
                  | None => Err ("bad --now: " +:+ now)%string
                  end in
  at_ <-? at_;
  fw <-? load dir glob;
  Ok (report fw.1 at_ wall, fw.2).
End Reports.

(** ** Lemmas: the dry run's windows are the controller's *)

Section Windows.
Context `{LabelSelectors} (LoadLocation : string -> option Location).

(** One verdict about a window: whether it selects the devices, and whether it is open. *)
Lemma dry_window_step_unfold labels now d w :
  dry_window_step LoadLocation labels now d w =
  if blocks LoadLocation labels now w
  then let st := EvaluateWindow LoadLocation (mw_Spec w) now in
       mkWindowDecision false (om_Name (mw_Meta w)) (ws_Reason st) (ws_NextOpen st) 0
  else d.
Proof.
  unfold dry_window_step, blocks, windowSelectsAny, selector_or_nil.
  destruct (mws_Selector (mw_Spec w)) as [s|]; simpl.
  - destruct (LabelSelectorAsSelector (Some s)) as [sel|]; simpl; [|done].
    destruct (existsb _ labels); simpl; [|done]. by destruct (ws_Open _).
  - by destruct (ws_Open _).
Qed.

(** The two decisions, as far as the dry run shows them. *)
Definition same_verdict (d c : WindowDecision) : Prop :=
  wd_Open d = wd_Open c /\
  (wd_Open d = false -> wd_Window d = wd_Window c /\ wd_Reason d = wd_Reason c).

Lemma window_steps_agree labels now d s w :
  same_verdict d s.1 ->
  same_verdict (dry_window_step LoadLocation labels now d w)
    (window_step LoadLocation labels now s w).1.
Proof.
  intros [Ho Hn]. destruct s as [c e]. rewrite dry_window_step_unfold. unfold blocks, window_step.
  simpl in *. destruct (windowSelectsAny w labels); simpl; [|done].
  destruct (ws_Open (EvaluateWindow LoadLocation (mw_Spec w) now)); simpl; [|done].
  destruct (wd_Open c) eqn:Ec; split; simpl; [done|congruence|congruence|done].
Qed.

Lemma dry_windows_same windows labels now :
  same_verdict (dry_windows LoadLocation windows labels now)
    (combine_windows LoadLocation windows labels now).
Proof.
  destruct windows as [|w0 windows0] eqn:E; [done|]. rewrite <- E.
  assert (combine_windows LoadLocation windows labels now =
    (fold_left (window_step LoadLocation labels now) windows
       (mkWindowDecision true "" "no window selects these devices" None 0, None)).1) as ->
    by (by rewrite E).
  unfold dry_windows. clear E.
  set (d := mkWindowDecision true "" "" None 0).
  set (s := (_, _)). assert (same_verdict d s.1) as Hs by done.
  clearbody d s. revert d s Hs.
  induction windows as [|w windows IH]; intros d s Hs; simpl; [done|].
  apply IH. by apply window_steps_agree.
Qed.

Lemma dry_windows_blocked windows labels now :
  wd_Open (dry_windows LoadLocation windows labels now) = negb (existsb (blocks LoadLocation labels now) windows).
Proof.
  rewrite (proj1 (dry_windows_same windows labels now)).
  destruct windows as [|w windows]; [done|]. unfold combine_windows. by rewrite combine_fold.
Qed.

(** A window that blocks some devices blocks more devices, as long as its verdict stays. *)
Lemma blocks_mono labels labels' now now' w :
  incl labels labels' ->
  ws_Open (EvaluateWindow LoadLocation (mw_Spec w) now') = ws_Open (EvaluateWindow LoadLocation (mw_Spec w) now) ->
  blocks LoadLocation labels now w = true -> blocks LoadLocation labels' now' w = true.
Proof.
  intros Hi Hv. unfold blocks, windowSelectsAny. rewrite Hv.
  rewrite !andb_true_iff. intros [Hsel Hc]. split; [|done].
  destruct (mws_Selector (mw_Spec w)) as [s|]; [|done].
  destruct (LabelSelectorAsSelector (Some s)) as [sel|]; [|done].
  apply existsb_exists in Hsel as (l & Hl & Hm). apply existsb_exists. eauto.
Qed.

(** The dry run's labels are labels of the devices the controller selects. *)
Lemma dry_scope_labels sel live devices l :
  In l (map snd (dry_scope (Some sel) live devices)) ->
  exists d, In d devices /\ Matches sel (u_Labels d) = true /\ l = u_Labels d.
Proof.
  intros ([dl lab] & <- & Hin)%in_map_iff. unfold dry_scope in Hin.
  apply in_flat_map in Hin as (x & _ & Hin). apply in_flat_map in Hin as (d & Hd & Hin).
  destruct (negb _); [done|]. destruct (Matches sel (u_Labels d)) eqn:Em; [|done].
  destruct Hin as [[= <- <-]|[]]. by exists d.
Qed.

Lemma matching_labels_In sel devs d :
  In d devs -> Matches sel (u_Labels d) = true -> In (u_Labels d) (matching_labels sel devs).
Proof.
  intros Hin Hm. unfold matching_labels.
  rewrite (fold_left_snoc_filter (fun d => Matches sel (u_Labels d)) u_Labels). simpl.
  apply in_map, filter_In. auto.
Qed.
End Windows.

(** ** Lemmas: the dry run's livenesses are the controller's *)

(** A number, or nothing: what both tools read alike. *)
Definition numeric (v : option Value) : Prop :=
  match v with Some (VString _) => False | _ => True end.

Lemma toI64_numeric v : numeric v -> toI64 v = toInt64 v.
Proof. by destruct v as [[]|]. Qed.

(** The settings of a device are numbers that do not overflow. *)
Definition sane_config (cfg : gmap string Value) : Prop :=
  numeric (cfg !! "expectedIntervalSeconds"%string) /\ numeric (cfg !! "staleMultiplier"%string) /\
  (forall v, toInt64 (cfg !! "expectedIntervalSeconds"%string) = Some v -> v * Second <= MaxInt64) /\
  (forall m, toInt64 (cfg !! "staleMultiplier"%string) = Some m -> m <= MaxInt32).

Lemma dry_thresholds_agree `{Accessors} live d :
  dls_ExpectedInterval (dl_Spec live) = 0 -> dls_StaleMultiplier (dl_Spec live) = 0 ->
  sane_config (map_at (u_Object d) config_path) ->
  dry_thresholds (map_at (u_Object d) config_path) = thresholds live d.
Proof.
  intros Hi Hm (N1 & N2 & B1 & B2). unfold dry_thresholds, thresholds. rewrite Hi, Hm. cbv zeta.
  rewrite (toI64_numeric _ N1), (toI64_numeric _ N2). simpl.
  set (cfg := map_at _ _) in *. f_equal.
  - destruct (toInt64 (cfg !! "expectedIntervalSeconds"%string)) as [v|] eqn:Ev; [|done].
    specialize (B1 v eq_refl). rewrite Z.gtb_ltb. destruct (Z.ltb_spec 0 v); [|done].
    rewrite wrap64_id by (unfold Second, MinInt64 in *; lia).
    destruct (Z.eqb_spec (v * Second) 0); [unfold Second in *; lia|done].
  - destruct (toInt64 (cfg !! "staleMultiplier"%string)) as [m|] eqn:Em; [|done].
    specialize (B2 m eq_refl). rewrite Z.gtb_ltb. destruct (Z.ltb_spec 0 m); [|done].
    rewrite wrap32_id by (unfold MinInt32; lia). destruct (Z.eqb_spec m 0); [lia|done].
Qed.

Lemma dry_judge_state silent interval mult :
  (dry_judge silent interval mult).1 = (judge silent interval mult).1.
Proof. unfold dry_judge, judge. by repeat case_match. Qed.

Lemma labelOr_transport labels :
  labelOr labels "transport" "wifi" =
  (let label := default ""%string (labels !! "transport"%string) in
   if is_empty label then "wifi"%string else label).
Proof. unfold labelOr. destruct (labels !! _) as [v|]; simpl; [by destruct (is_empty v)|done]. Qed.

Lemma observed_transports f name cap :
  cap_Transports (observed_capability f name cap) = cap_Transports cap.
Proof. unfold observed_capability. by destruct (fl_reported f !! name). Qed.

Lemma deriveCapability_transports `{Accessors} key dev t cap :
  runs (deriveCapability key dev) t cap ->
  cap_Transports cap =
    cap_Transports (DeriveCapabilityFrom (map_at (u_Object dev) config_path) (u_Labels dev)).
Proof.
  unfold deriveCapability. intros Hr.
  apply runs_bind_inv in Hr as (t1 & h & t2 & -> & _ & Hr).
  apply runs_bind_inv in Hr as (t3 & p & t4 & -> & _ & Hr).
  apply runs_bind_inv in Hr as (t5 & m & t6 & -> & _ & Hr).
  by apply runs_ret_inv in Hr as [_ ->].
Qed.

(** ** Properties *)

(** C32. What the dry run calls blocked, the controller does not touch: if the dry run
    says that a rollout is blocked, no pass of the controller over that rollout writes
    a device, whatever the API server answers, as long as the cluster has the devices
    and windows the dry run was shown and none of those windows has opened or closed
    meanwhile. *)
Theorem blocked_dry_run_stops_passes `{Accessors} `{SliceSort} `{LabelSelectors}
    LoadLocation Local key ro t out f live now wall window reason :
  runs (ReconcileRollout LoadLocation Local key) (Event (GetRollout key) (Ok ro) :: t) out ->
  rr_Phase (reportRollout LoadLocation Local f live now wall ro) = IsBlocked window reason ->
  (forall devs, In (Event (ListDevices (om_Namespace (ro_Meta ro))) (Ok devs)) t ->
     incl (fl_devices f) devs) ->
  (forall items, In (Event (ListWindows (om_Namespace (ro_Meta ro))) (Ok items)) t ->
     incl (fl_windows f) items) ->
  (forall w now', In w (fl_windows f) -> In (Event Now now') t ->
     ws_Open (EvaluateWindow LoadLocation (mw_Spec w) now') =
     ws_Open (EvaluateWindow LoadLocation (mw_Spec w) now)) ->
  writes t = 0%nat.
Proof.
  intros Hr Hph Hdevs Hwins Hsame.
  apply writes_quiet, Forall_forall. intros ev Hev%list_elem_of_In. destruct ev as [R [] r]; try done.
  exfalso. apply ReconcileRollout_runs in Hr as [Hs|(ro' & t0 & s & e & Et & Ht & He)].
  { eapply (silent_no_device_write (Event (GetRollout key) (Ok ro) :: t)); [exact Hs|].
    right. exact Hev. }
  assert (ro = ro' /\ t = t0 ++ [Event (UpdateRolloutStatus (set_status ro' s)) e]) as [<- ->].
  { split; [|by injection Et]. pose proof (f_equal (fun t => rollout_read (hd_error t)) Et) as E'.
    by injection E'. }
  apply in_app_iff in Hev as [Hev|[[=]|[]]].
  destruct (pass_end_write _ _ _ _ _ _ _ He Hev) as (? & ? & wd & ? & ? & t1 & t2 & t3 & _ & _ & -> & Hadv & _).
  pose proof (adv_window _ _ _ _ _ _ _ _ _ _ Hadv) as Hwo.
  apply (window_open_mono _ _ _ (t1 ++ t2 ++ t3)) in Hwo; [|by apply incl_appl, incl_refl].
  set (t0 := t1 ++ t2 ++ t3) in *.
  destruct Hwo as (sel & devs & items & now' & Esel & Hld & Hlw & Hnow & -> & Hopen).
  assert (forall ev, In ev t0 -> In ev (t0 ++ [Event (UpdateRolloutStatus (set_status ro s)) e])) as Hi
    by (intros; apply in_app_iff; auto).
  specialize (Hdevs devs (Hi _ Hld)). specialize (Hwins items (Hi _ Hlw)).
  unfold reportRollout in Hph. simpl in Hph. unfold selector_or_nil in Hph. rewrite Esel in Hph.
  rewrite dry_windows_blocked, negb_involutive in Hph.
  destruct (existsb (blocks LoadLocation _ now) (fl_windows f)) eqn:Eb; [|by destruct (plan_Eligible _)].
  apply existsb_exists in Eb as (w & Hw & Hb).
  assert (existsb (blocks LoadLocation (matching_labels sel devs) now') items = true) as Eb'.
  { apply existsb_exists. exists w. split; [by apply Hwins|].
    eapply blocks_mono; [|by apply Hsame, Hi|exact Hb].
    intros l Hl. apply dry_scope_labels in Hl as (dv & Hd & Hm & ->).
    apply matching_labels_In; [by apply Hdevs|done]. }
  destruct items as [|w0 items]; [by apply Hwins in Hw|].
  unfold combine_windows in Hopen. rewrite combine_fold, Eb' in Hopen. done.
Qed.

(** The dry run judges a device as the controller would: given the same last report
    and the same clock, and settings that are numbers in range and not overridden in
    the liveness object, they give it the same state, transport, gateway and declared
    transports. *)
Theorem dry_liveness_agrees `{Accessors} key d live t st f now :
  runs (assess key d live (thresholds live d).1 (thresholds live d).2) t st ->
  dls_ExpectedInterval (dl_Spec live) = 0 -> dls_StaleMultiplier (dl_Spec live) = 0 ->
  sane_config (map_at (u_Object d) config_path) ->
  fl_lastSeen f !! u_Name d = st_LastSeen st ->
  (forall now', In (Event Now now') t -> now' = now) ->
  let dry := dl_Status (dry_liveness f now d) in
  st_State dry = st_State st /\ st_Transport dry = st_Transport st /\
  st_Gateway dry = st_Gateway st /\ st_LastSeen dry = st_LastSeen st /\
  cap_Transports <$> st_Capability dry = cap_Transports <$> st_Capability st.
Proof.
  intros Hr Hi Hm Hsane Hseen Hnow dry. unfold assess in Hr. cbv zeta in Hr.
  rewrite <- labelOr_transport in Hr.
  apply runs_bind_inv in Hr as (t1 & cap & t2 & -> & Hcap & Hr).
  apply deriveCapability_transports in Hcap.
  apply runs_bind_inv in Hr as (t3 & last & t4 & -> & _ & Hr).
  subst dry. unfold dry_liveness. cbv zeta. cbn [dl_Status].
  rewrite (dry_thresholds_agree live d Hi Hm Hsane).
  destruct (thresholds live d) as [interval mult]. simpl in Hr.
  destruct last as [last|].
  - apply runs_call_bind in Hr as (now' & t5 & -> & Hr).
    assert (now' = now) as -> by (apply Hnow; rewrite !in_app_iff; right; right; by left).
    pose proof (dry_judge_state (sub_time now last) interval mult) as Ej.
    destruct (judge (sub_time now last) interval mult) as [state assessment].
    apply runs_ret_inv in Hr as [_ ->]. simpl in Hseen. rewrite Hseen.
    destruct (dry_judge _ _ _) as [state' assessment']. simpl in *.
    by rewrite observed_transports, Hcap, Ej.
  - apply runs_ret_inv in Hr as [_ ->]. simpl in Hseen. rewrite Hseen. simpl.
    by rewrite observed_transports, Hcap.
Qed.

(** ** Loading, accounted for *)

Section Loading.
Context `{YamlDecoder}.

(** What becomes of a document, whatever was read before it. *)
Inductive Fate := Skipped | Stored | Observation | Refused.
#[export] Instance Fate_eq_dec : EqDecision Fate.
Proof. solve_decision. Defined.

Definition stored_kinds : list string :=
  ["Device"; "FirmwareRollout"; "MaintenanceWindow"; "FleetDrift"; "FleetQuery"; "CredentialExpiry";
   "DeviceDecommission"; "DeviceTemplate"]%string.

Definition decodes (kind doc : string) : bool :=
  match add kind doc empty_fleet with Ok _ => true | Err _ => false end.

Definition fate (doc : string) : Fate :=
  if is_empty (TrimSpace doc) then Skipped
  else match probe_kind doc with
       | None => Skipped
       | Some kind =>
           if is_empty kind then Skipped
           else if negb (decodes kind doc) then Refused
           else if existsb (str_eq kind) stored_kinds then Stored
           else if str_eq kind "ObservedState" then Observation else Skipped
       end.

Definition fleet_size (f : fleet) : nat :=
  length (fl_devices f) + length (fl_rollouts f) + length (fl_windows f) + length (fl_drifts f) +
  length (fl_queries f) + length (fl_expiries f) + length (fl_decoms f) + length (fl_templates f).

Definition count_fate (x : Fate) (docs : list string) : nat :=
  length (List.filter (fun d => bool_decide (fate d = x)) docs).

Lemma add_size kind doc f :
  match add kind doc f with
  | Ok f' => decodes kind doc = true /\
             fleet_size f' = (fleet_size f + if existsb (str_eq kind) stored_kinds then 1 else 0)%nat
  | Err _ => decodes kind doc = false
  end.
Proof.
  unfold decodes, add, stored_kinds, fleet_size. destruct f. simpl.
  repeat match goal with
  | |- context [if str_eq kind ?k then _ else _] => destruct (str_eq kind k); simpl
  end;
  repeat match goal with
  | |- context [result_bind ?r _] => destruct r; simpl
  end; rewrite ?length_app; simpl; try split; try done; lia.
Qed.

Lemma load_doc_counts s doc :
  fleet_size (load_doc s doc).1 = (fleet_size s.1 + count_fate Stored [doc])%nat /\
  length (load_doc s doc).2 = (length s.2 + count_fate Refused [doc])%nat.
Proof.
  destruct s as [f w]. unfold load_doc, count_fate, fate. cbn [fst snd List.filter].
  destruct (is_empty (TrimSpace doc)); [simpl; lia|].
  destruct (probe_kind doc) as [kind|]; [|simpl; lia].
  destruct (is_empty kind); [simpl; lia|].
  pose proof (add_size kind doc f) as Ha. destruct (add kind doc f) as [f'|e].
  - destruct Ha as [Hd Hs]. rewrite Hd. cbn [fst snd negb]. rewrite Hs.
    destruct (existsb (str_eq kind) stored_kinds); [simpl; lia|].
    destruct (str_eq kind "ObservedState"); simpl; lia.
  - rewrite Ha. simpl. rewrite length_app. simpl. lia.
Qed.

Lemma count_fate_cons x doc docs :
  count_fate x (doc :: docs) = (count_fate x [doc] + count_fate x docs)%nat.
Proof. unfold count_fate. simpl. by destruct (bool_decide _). Qed.

Lemma load_docs_counts docs s :
  fleet_size (fold_left load_doc docs s).1 = (fleet_size s.1 + count_fate Stored docs)%nat /\
  length (fold_left load_doc docs s).2 = (length s.2 + count_fate Refused docs)%nat.
Proof.
  revert s. induction docs as [|doc docs IH]; intros s; simpl; [unfold count_fate; simpl; lia|].
  destruct (IH (load_doc s doc)) as [E1 E2]. destruct (load_doc_counts s doc) as [F1 F2].
  rewrite (count_fate_cons Stored), (count_fate_cons Refused). lia.
Qed.

Definition documents (files : list (string * result string string)) : list string :=
  flat_map (fun '(_, raw) => match raw with Ok raw => Split separator raw | Err _ => [] end) files.

Lemma load_files_spec files s :
  match load_files files s with
  | Ok s' => Forall (fun '(_, raw) => exists text, raw = Ok text) files /\
             s' = fold_left load_doc (documents files) s
  | Err e => exists path, In (path, Err e) files
  end.
Proof.
  revert s. induction files as [|[path raw] files IH]; intros s; simpl; [done|].
  destruct raw as [raw|e]; simpl; [|exists path; by left].
  specialize (IH (fold_left load_doc (Split separator raw) s)).
  destruct (load_files files _) as [s'|e].
  - destruct IH as [Hf ->]. split; [constructor; [by eexists|done]|]. by rewrite fold_left_app.
  - destruct IH as [p Hp]. exists p. by right.
Qed.

(** Nothing is lost in loading: the tool fails only when it finds no file or cannot
    read one, and says which; otherwise every document of every file is either an
    object of the fleet, or one complaint, or an observation, or blank or of a kind
    the tool does not know, and no document keeps another from being read. *)
Theorem load_accounts dir glob :
  match load dir glob with
  | Ok (f, warnings) => exists files,
      glob = Ok files /\ files <> [] /\
      Forall (fun '(_, raw) => exists text, raw = Ok text) files /\
      fleet_size f = count_fate Stored (documents files) /\
      length warnings = count_fate Refused (documents files)
  | Err e =>
      (e = ("no yaml in " +:+ dir)%string /\ forall files, glob = Ok files -> files = []) \/
      exists files path, glob = Ok files /\ In (path, Err e) files
  end.
Proof.
  unfold load. destruct glob as [[|f fs]|e]; [left; split; [done|by intros ? [= <-]]| |by left].
  pose proof (load_files_spec (f :: fs) (empty_fleet, [])) as Hl.
  destruct (load_files (f :: fs) (empty_fleet, [])) as [[fl w]|e].
  - destruct Hl as [Hf E].
    destruct (load_docs_counts (documents (f :: fs)) (empty_fleet, [])) as [E1 E2].
    rewrite <- E in E1, E2. exists (f :: fs). by split_and!.
  - right. destruct Hl as [path Hp]. eauto.
Qed.
End Loading.

(** ** Concrete runs

    The fleet of [Delivery], in a namespace whose one window denies every instant. *)

Definition shut_window : MaintenanceWindow :=
  mkMaintenanceWindow (mkObjectMeta "audit" "default" 1 ∅)
    (mkMaintenanceWindowSpec None [] [mkWindowPeriod "" None (Some 0) None "audit"] "" None 0).

Definition shut_answers (R : Type) (e : Effect R) : R :=
  match e in Effect R return R with
  | GetDevice k => Ok (fleet_device "" (key_Name k))
  | GetDeviceStatus k => Ok (fleet_status "" (key_Name k))
  | GetLiveness k => Ok (fleet_liveness k)
  | GetRollout _ => Ok (fleet_rollout "")
  | ListDevices _ => Ok (map (fleet_device "") ["c"; "a"; "b"]%string)
  | ListWindows _ => Ok [shut_window]
  | CreateLiveness l _ => Ok l
  | UpdateLivenessStatus _ | UpdateRolloutStatus _ | UpdateDevice _ => None
  | Now => UnixMilli 1700000000000
  end.

Definition shut_pass : list event * Outcome := exec shut_answers fleet_program.

Definition shut_fleet : fleet :=
  mkfleet (map (fleet_device "") ["c"; "a"; "b"]%string) ∅
    (list_to_map (map (fun n => (n, UnixMilli 1700000000000)) ["a"; "b"; "c"]%string))
    [fleet_rollout ""] [shut_window] [] [] [] [] [] ∅.

Definition plan_for (f : fleet) : list RolloutReport :=
  rp_Rollouts (report (H := equality_LabelSelectors) (H0 := tree_Accessors) (H3 := fun s => s)
    (fun _ => None) UTC f (UnixMilli 1700000000000) (UnixMilli 1700000000000)).

Example shut_forecast : map rr_Phase (plan_for shut_fleet) = [IsBlocked "audit" "audit"].
Proof. vm_compute. reflexivity. Qed.

(** What a pass read: the devices, the windows, the clock. *)
Definition devices_read (ev : event) : option (list Unstructured) :=
  match ev with Event (ListDevices _) (Ok devs) => Some devs | _ => None end.
Definition windows_read (ev : event) : option (list MaintenanceWindow) :=
  match ev with Event (ListWindows _) (Ok items) => Some items | _ => None end.
Definition clock_read (ev : event) : option Time :=
  match ev with Event Now now => Some now | _ => None end.

Lemma read_In {A} (f : event -> option A) t ev x : In ev t -> f ev = Some x -> In x (omap f t).
Proof.
  intros Hin Hf. rewrite <- list_elem_of_In, list_elem_of_omap.
  exists ev. by rewrite list_elem_of_In.
Qed.

Lemma blocked_dry_run_stops_passes_witness :
  length (tl (fst shut_pass)) = 12%nat /\ writes (tl (fst shut_pass)) = 0%nat.
Proof.
  split; [vm_compute; reflexivity|].
  assert (fst shut_pass = Event (GetRollout (mkKey "default" "fw")) (Ok (fleet_rollout "")) ::
    tl (fst shut_pass)) as E by (vm_compute; reflexivity).
  assert (runs fleet_program (fst shut_pass) (snd shut_pass)) as Hr by apply exec_runs.
  rewrite E in Hr.
  apply (blocked_dry_run_stops_passes (H := tree_Accessors) (H1 := equality_LabelSelectors)
    (fun _ => None) UTC (mkKey "default" "fw") (fleet_rollout "") (tl (fst shut_pass)) (snd shut_pass)
    shut_fleet (buildLiveness (H := tree_Accessors) shut_fleet (UnixMilli 1700000000000))
    (UnixMilli 1700000000000) (UnixMilli 1700000000000) "audit" "audit" Hr).
  - vm_compute. reflexivity.
  - intros devs Hin. pose proof (read_In devices_read _ _ devs Hin eq_refl) as Hread.
    assert (Forall (eq (fl_devices shut_fleet)) (omap devices_read (tl (fst shut_pass)))) as Hall
      by (vm_compute; repeat constructor).
    rewrite List.Forall_forall in Hall. rewrite <- (Hall _ Hread). apply incl_refl.
  - intros items Hin. pose proof (read_In windows_read _ _ items Hin eq_refl) as Hread.
    assert (Forall (eq (fl_windows shut_fleet)) (omap windows_read (tl (fst shut_pass)))) as Hall
      by (vm_compute; repeat constructor).
    rewrite List.Forall_forall in Hall. rewrite <- (Hall _ Hread). apply incl_refl.
  - intros w now' _ Hin. pose proof (read_In clock_read _ _ now' Hin eq_refl) as Hread.
    assert (Forall (eq (UnixMilli 1700000000000)) (omap clock_read (tl (fst shut_pass)))) as Hall
      by (vm_compute; repeat constructor).
    rewrite List.Forall_forall in Hall. rewrite <- (Hall _ Hread). reflexivity.
Defined.

(** A device of which the dry run was told what [Liveness] reads. *)
Definition seen_fleet : fleet :=
  mkfleet [sample_device] ∅ {[ "field-01"%string := UnixMilli 1700000000000 ]} [] [] [] [] [] [] [] ∅.

Definition sample_live : DeviceLiveness := new_liveness (mkKey "default" "field-01").
Definition sample_assess : list event * DeviceLivenessStatus :=
  exec sample_answers (assess (H := tree_Accessors) (mkKey "default" "field-01") sample_device sample_live
    (thresholds (H := tree_Accessors) sample_live sample_device).1
    (thresholds (H := tree_Accessors) sample_live sample_device).2).

Lemma dry_liveness_agrees_witness :
  st_State (dl_Status (dry_liveness (H := tree_Accessors) seen_fleet (UnixMilli 1700000120000) sample_device))
    = StateSleeping /\
  st_State (snd sample_assess) = StateSleeping.
Proof.
  destruct (dry_liveness_agrees (H := tree_Accessors) (mkKey "default" "field-01") sample_device
    sample_live (fst sample_assess) (snd sample_assess) seen_fleet (UnixMilli 1700000120000))
    as [E _].
  - apply exec_runs.
  - reflexivity.
  - reflexivity.
  - split_and!; [vm_compute; exact I..| |]; intros v Hv; vm_compute in Hv; discriminate Hv.
  - vm_compute. reflexivity.
  - intros now' Hin. pose proof (read_In clock_read _ _ now' Hin eq_refl) as Hread.
    assert (Forall (eq (UnixMilli 1700000120000)) (omap clock_read (fst sample_assess))) as Hall
      by (vm_compute; repeat constructor).
    rewrite List.Forall_forall in Hall. rewrite <- (Hall _ Hread). reflexivity.
  - rewrite <- E. split; vm_compute; reflexivity.
Defined.

(** ** Where the dry run and the controller part *)

Definition open_fleet (ro : FirmwareRollout) : fleet :=
  mkfleet (map (fleet_device "") ["c"; "a"; "b"]%string) ∅
    (list_to_map (map (fun n => (n, UnixMilli 1700000000000)) ["a"; "b"; "c"]%string))
    [ro] [] [] [] [] [] [] ∅.

Definition paused (ro : FirmwareRollout) : FirmwareRollout :=
  let s := ro_Spec ro in
  mkFirmwareRollout (ro_Meta ro)
    (mkFirmwareRolloutSpec (fr_Selector s) (fr_Source s) (fr_Requires s) (fr_Strategy s) true)
    (ro_Status ro).

(** A paused rollout "would proceed". *)
Example paused_would_proceed :
  map rr_Phase (plan_for (open_fleet (paused (fleet_rollout "")))) = [WouldProceed].
Proof. vm_compute. reflexivity. Qed.

(** A selector that does not parse: an error of the controller, every device here. *)
Definition broken_LabelSelectors : LabelSelectors := {|
  Selector := unit;
  LabelSelectorAsSelector _ := Err (OtherError "bad operator");
  Matches _ _ := false |}.
Example broken_selector_scopes_all :
  map rr_Target (rp_Rollouts (report (H := broken_LabelSelectors) (H0 := tree_Accessors)
    (H3 := fun s => s) (fun _ => None) UTC (open_fleet (fleet_rollout ""))
    (UnixMilli 1700000000000) (UnixMilli 1700000000000))) = [3].
Proof. vm_compute. reflexivity. Qed.

(** A window that selects decommissioned devices only: it blocks the controller, whose
    devices are all that match, and not the dry run. *)
Definition retired : Unstructured :=
  mkUnstructured "old" "default" "uid-old" {[ "site"%string := "barn"%string ]} ∅.
Definition barn_window : MaintenanceWindow :=
  mkMaintenanceWindow (mkObjectMeta "barn" "default" 1 ∅)
    (mkMaintenanceWindowSpec (Some (mkLabelSelector {[ "site"%string := "barn"%string ]} [])) []
       [mkWindowPeriod "" None (Some 0) None "audit"] "" None 0).
Definition barn_fleet (decoms : list DeviceDecommission) : fleet :=
  mkfleet [retired; fleet_device "" "a"] ∅ {[ "a"%string := UnixMilli 1700000000000 ]}
    [fleet_rollout ""] [barn_window] [] [] [] decoms [] ∅.
Definition retirement : DeviceDecommission :=
  set_phase_complete (mkDeviceDecommission (mkObjectMeta "bye" "default" 1 ∅)
    (mkDeviceDecommissionSpec "old" ReasonRetired "" None None false "")
    (mkDeviceDecommissionStatus DecomPending None None "" "" false false [])).
Example window_over_retired :
  map rr_Phase (plan_for (barn_fleet [])) = [IsBlocked "barn" "audit"] /\
  map rr_Phase (plan_for (barn_fleet [retirement])) = [WouldProceed] /\
  wd_Open (combine_windows (H := equality_LabelSelectors) (fun _ => None) [barn_window]
    (map u_Labels (fl_devices (barn_fleet [retirement]))) (UnixMilli 1700000000000)) = false.
Proof. vm_compute. done. Qed.

(** Silence is rounded to its largest unit here. *)
Example silence_texts :
  short (312 * Second) = "5m"%string /\ shortDuration (312 * Second) = "5m12s"%string.
Proof. vm_compute. done. Qed.

(** A setting with a unit is a number here, and not one to the controller. *)
Example setting_texts :
  toI64 (Some (VString "30s")) = Some 30 /\ toInt64 (Some (VString "30s")) = None.
Proof. vm_compute. done. Qed.

(** The capacity of the battery is never read. *)
Lemma observed_mah f name cap : cap_BatteryMah (observed_capability f name cap) = cap_BatteryMah cap.
Proof. unfold observed_capability. by destruct (fl_reported f !! name). Qed.
