(* ===== verification/Bridge.v ===== *)
(** * The serial bridge: controller/cmd/bridge

    Lines read from a serial port become publications, commands become lines. The
    scanner of [bufio] is modelled with its buffer, since where it gives up decides
    when a device is declared unreachable; the port is whatever answers a read. *)

From Stdlib Require Import Ascii.
From S2P Require Import Prelude GoTime GoFloat GoParseFloat GoStrings Types Driver.
Local Open Scope Z_scope.
Local Open Scope torpor_scope.

(** ** Definitions: [bufio.Scanner] over lines *)

Inductive PortError := EOF | ReadFailed (err : string).
Inductive ScanError := ErrTooLong | ErrBadReadCount | ErrNoProgress | ErrRead (e : PortError).

(** The [i]-th read of a port, given room for so many bytes. *)
Definition Port := nat -> nat -> string * option PortError.

(** [sc.Buffer(make([]byte, 0, 4096), 4096)]. *)
Definition bufferSize : nat := 4096.
Definition maxConsecutiveEmptyReads : nat := 100.

(** The bytes held, where they start in the buffer, and the error that ended reading. *)
Record Scanner := mkScanner {
  sc_start : nat; sc_data : string; sc_err : option ScanError }.
Definition NewScanner : Scanner := mkScanner 0 "" None.

Definition newline : ascii := "010"%char.

(** The line before the first newline, and what follows it. *)
Fixpoint cut_line (data : string) : option (string * string) :=
  match data with
  | EmptyString => None
  | String c data' =>
      if Ascii.eqb c newline then Some (""%string, data')
      else match cut_line data' with
           | Some (line, rest) => Some (String c line, rest)
           | None => None
           end
  end.

Fixpoint dropCR (line : string) : string :=
  match line with
  | EmptyString => EmptyString
  | String c EmptyString => if Ascii.eqb c "013"%char then EmptyString else line
  | String c line' => String c (dropCR line')
  end.

(** [bufio.ScanLines]: the token, and what is left. *)
Definition ScanLines (data : string) (atEOF : bool) : option (string * string) :=
  match cut_line data with
  | Some (line, rest) => Some (dropCR line, rest)
  | None => if atEOF && negb (is_empty data) then Some (dropCR data, ""%string) else None
  end.

(** One reading into the buffer: reads that bring nothing are repeated. *)
Fixpoint fill (port : Port) (tries room pos : nat) : string * option ScanError * nat :=
  match tries with
  | O => (""%string, Some ErrNoProgress, pos)
  | S k =>
      let '(bytes, err) := port pos room in
      if (room <? String.length bytes)%nat then (""%string, Some ErrBadReadCount, S pos)
      else match err with
           | Some e => (bytes, Some (ErrRead e), S pos)
           | None => if is_empty bytes then fill port k room (S pos) else (bytes, None, S pos)
           end
  end.

(** The start of the data once it has been shifted to make room. *)
Definition shifted (s : Scanner) : nat :=
  let n := sc_start s in
  if (0 <? n)%nat && ((n + String.length (sc_data s) =? bufferSize)%nat || (bufferSize / 2 <? n)%nat)
  then 0%nat else n.

(** [Scan]: a token or the end, the scanner, the next read, and the bytes that were read. *)
Record Scanned := mkScanned {
  sn_token : option string; sn_scanner : Scanner; sn_pos : nat; sn_read : string }.

Fixpoint Scan (port : Port) (fuel : nat) (s : Scanner) (pos : nat) (read : string) : option Scanned :=
  match ScanLines (sc_data s) (negb (is_nil (sc_err s))) with
  | Some (token, rest) =>
      Some (mkScanned (Some token)
        (mkScanner (sc_start s + (String.length (sc_data s) - String.length rest)) rest (sc_err s))
        pos read)
  | None =>
      if negb (is_nil (sc_err s)) then Some (mkScanned None (mkScanner 0 "" (sc_err s)) pos read)
      else
        let start := shifted s in
        let used := (start + String.length (sc_data s))%nat in
        if (bufferSize <=? used)%nat
        then Some (mkScanned None (mkScanner start (sc_data s) (Some ErrTooLong)) pos read)
        else
          let '(bytes, err, pos') := fill port (S maxConsecutiveEmptyReads) (bufferSize - used) pos in
          match fuel with
          | O => None
          | S k => Scan port k (mkScanner start (sc_data s +:+ bytes) err) pos' (read +:+ bytes)
          end
  end.

(** ** Definitions: device to MQTT *)

Record bridge := mkbridge { br_device : string; br_up : Z; br_down : Z; br_dropped : Z }.

Definition newBridge (device : string) : bridge := mkbridge device 0 0 0.

(** Everything the bridge publishes is of quality 0. *)
Definition publish (topic : string) (retain : bool) (payload : string) : Publication :=
  mkPublication topic 0 retain payload.

Definition offline (device : string) : Publication :=
  publish (device +:+ "/status")%string true "offline".

(** [strings.IndexByte(rest, ' ')], and what is before and after it. *)
Fixpoint cut_space (s : string) : option (string * string) :=
  match s with
  | EmptyString => None
  | String c s' =>
      if Ascii.eqb c " " then Some (""%string, s')
      else match cut_space s' with
           | Some (suffix, value) => Some (String c suffix, value)
           | None => None
           end
  end.

(** The body of the loop: blank lines and diagnostics, noise, and publications. *)
Definition read_line (b : bridge) (text : string) : bridge * option Publication :=
  let line := TrimSpace text in
  let dropped := mkbridge (br_device b) (br_up b) (br_down b) (wrap64 (br_dropped b + 1)) in
  if is_empty line then (b, None)
  else if String.prefix "#" line then (b, None)
  else if negb (String.prefix "PUB " line) then (dropped, None)
  else match cut_space (String.substring 4 (String.length line - 4) line) with
       | None => (dropped, None)
       | Some (suffix, value) =>
           let topic := if str_eq suffix "announce" then ("torpor/announce/" +:+ br_device b)%string
                        else (br_device b +:+ "/" +:+ suffix)%string in
           let retain := str_eq suffix "announce" || str_eq suffix "status" in
           (mkbridge (br_device b) (wrap64 (br_up b + 1)) (br_down b) (br_dropped b),
            Some (publish topic retain value))
       end.

(** How reading ended: the bridge, what it published, the scanner's error, and the reads
    and bytes it took. *)
Record Closed := mkClosed {
  cl_bridge : bridge; cl_out : list Publication; cl_err : option ScanError;
  cl_pos : nat; cl_read : string }.

Fixpoint read_from (port : Port) (fuel : nat) (s : Scanner) (pos : nat) (b : bridge)
    (out : list Publication) (read : string) : option Closed :=
  match Scan port bufferSize s pos read with
  | None => None
  | Some r =>
      match sn_token r with
      | None => Some (mkClosed b (out ++ [offline (br_device b)]) (sc_err (sn_scanner r))
                        (sn_pos r) (sn_read r))
      | Some text =>
          let '(b', p) := read_line b text in
          match fuel with
          | O => None
          | S k => read_from port k (sn_scanner r) (sn_pos r) b' (out ++ option_list p) (sn_read r)
          end
      end
  end.

(** [readLoop], for at most [fuel] lines. *)
Definition readLoop (port : Port) (fuel : nat) (b : bridge) : option Closed :=
  read_from port fuel NewScanner 0 b [] "".

(** ** Definitions: MQTT to device *)

(** [strings.TrimPrefix]. *)
Definition TrimPrefix (prefix s : string) : string :=
  if String.prefix prefix s
  then String.substring (String.length prefix) (String.length s - String.length prefix) s else s.

Definition command_line (b : bridge) (topic payload : string) : string :=
  ("SUB " +:+ TrimPrefix (br_device b +:+ "/") topic +:+ " " +:+ payload +:+ String newline "")%string.

(** [onCommand]: the bytes written to the port, which may refuse them. *)
Definition onCommand (write : string -> option string) (b : bridge) (topic payload : string)
  : string * bridge :=
  let line := command_line b topic payload in
  (line, match write line with
         | Some _ => b
         | None => mkbridge (br_device b) (br_up b) (wrap64 (br_down b + 1)) (br_dropped b)
         end).

(** What [main] arranges with the broker: the will, the subscriptions. *)
Definition will (device : string) : Publication := offline device.
Definition filters (device : string) : list string :=
  [(device +:+ "/+/+/command"); (device +:+ "/+/command")]%string.

Definition trunc (s : string) (n : nat) : string :=
  if (String.length s <=? n)%nat then s
  else (String.substring 0 (n - 1) s +:+ "…")%string.

(** ** Lemmas: lines of a text *)

(** The finished lines of a text, and the line that is not. *)
Fixpoint whole_lines (text : string) : list string * string :=
  match text with
  | EmptyString => ([], ""%string)
  | String c text' =>
      let '(ls, rest) := whole_lines text' in
      if Ascii.eqb c newline then (""%string :: ls, rest)
      else match ls with
           | [] => ([], String c rest)
           | l :: ls' => (String c l :: ls', rest)
           end
  end.

Lemma cut_line_lines data :
  whole_lines data = match cut_line data with
                     | Some (line, rest) => (line :: (whole_lines rest).1, (whole_lines rest).2)
                     | None => ([], data)
                     end.
Proof.
  induction data as [|c data IH]; [done|]. simpl.
  destruct (Ascii.eqb c newline); rewrite IH; by destruct (cut_line data) as [[l r]|].
Qed.

Lemma cut_line_length data line rest :
  cut_line data = Some (line, rest) -> (String.length rest < String.length data)%nat.
Proof.
  revert line rest. induction data as [|c data IH]; intros line rest; [done|]. simpl.
  destruct (Ascii.eqb c newline); [intros [= _ <-]; lia|].
  destruct (cut_line data) as [[l r]|]; [|done]. intros [= _ <-]. specialize (IH l r eq_refl). lia.
Qed.

Lemma cut_line_app data more line rest :
  cut_line data = Some (line, rest) -> cut_line (data +:+ more) = Some (line, rest +:+ more)%string.
Proof.
  revert line rest. induction data as [|c data IH]; intros line rest; [done|].
  rewrite str_app_cons. simpl. destruct (Ascii.eqb c newline); [by intros [= <- <-]|].
  destruct (cut_line data) as [[l r]|]; [|done]. intros [= <- <-]. by rewrite (IH l r eq_refl).
Qed.


Lemma is_empty_length s : is_empty s = true <-> String.length s = 0%nat.
Proof. unfold is_empty. rewrite str_eq_true. by destruct s. Qed.

(** ** Lemmas: the scanner *)

Section Reading.
Context (port : Port).

(** What one reading brings. *)
Lemma fill_spec tries room pos :
  let '(bytes, err, pos') := fill port tries room pos in
  (String.length bytes <= room)%nat /\ (pos <= pos' <= pos + tries)%nat /\
  err <> Some ErrTooLong /\ (err = None -> 1 <= String.length bytes)%nat.
Proof.
  revert pos. induction tries as [|k IH]; intros pos; simpl; [by split_and!; try lia|].
  destruct (port pos room) as [bytes e].
  destruct (Nat.ltb_spec room (String.length bytes)); [by split_and!; simpl; try lia|].
  destruct e as [e|]; [by split_and!; try lia|].
  destruct (is_empty bytes) eqn:Eb.
  - specialize (IH (S pos)). destruct (fill port k room (S pos)) as [[b e] p]. split_and!; naive_solver lia.
  - assert (String.length bytes <> 0%nat) by (rewrite <- is_empty_length; congruence).
    split_and!; try lia. done.
Qed.

(** The port brings nothing during a hundred and one reads. *)
Definition silent_at (n : nat) : Prop :=
  forall i room, (n <= i <= n + maxConsecutiveEmptyReads)%nat -> (port i room).1 = ""%string.

Lemma fill_silent n k room pos :
  silent_at n -> (pos <= n)%nat -> (k <= S maxConsecutiveEmptyReads)%nat ->
  let '(bytes, err, pos') := fill port k room pos in
  (pos' <= n + S maxConsecutiveEmptyReads)%nat /\ (err = None -> pos < pos' <= n)%nat /\
  (pos = n -> bytes = ""%string).
Proof.
  intros Hs. revert k. remember (n - pos)%nat as d eqn:Ed. revert pos Ed.
  induction d as [|d IH]; intros pos Ed k Hp Hk.
  - assert (pos = n) as -> by lia. clear Ed Hp.
    assert (forall j i, (n <= i)%nat -> (i + j <= n + S maxConsecutiveEmptyReads)%nat ->
      let '(bytes, err, pos') := fill port j room i in
      (pos' <= n + S maxConsecutiveEmptyReads)%nat /\ err <> None /\ bytes = ""%string) as Hq.
    { induction j as [|j IHj]; intros i Hi Hj; simpl; [split; [lia|done]|].
      pose proof (Hs i room) as Hb. destruct (port i room) as [bytes e]. simpl in Hb.
      rewrite Hb by lia. simpl. destruct e as [e|]; [split; [lia|done]|]. apply IHj; lia. }
    specialize (Hq k n). destruct (fill port k room n) as [[b e] p]. naive_solver lia.
  - destruct k as [|k]; simpl; [split_and!; [lia|done|done]|].
    destruct (port pos room) as [bytes e].
    destruct (Nat.ltb room (String.length bytes)); [split_and!; [lia|done|lia]|].
    destruct e as [e|]; [split_and!; [lia|done|lia]|].
    destruct (is_empty bytes); [|split_and!; lia].
    specialize (IH (S pos) ltac:(lia) k ltac:(lia) ltac:(lia)).
    destruct (fill port k room (S pos)) as [[b e] p]. naive_solver lia.
Qed.

#[local] Opaque fill maxConsecutiveEmptyReads bufferSize.

(** The data lies within the buffer. *)
Definition fits (s : Scanner) : Prop :=
  (sc_start s + String.length (sc_data s) <= bufferSize)%nat.

Lemma shifted_fits s : fits s -> (shifted s + String.length (sc_data s) <= bufferSize)%nat.
Proof. unfold fits, shifted. destruct (_ && _); lia. Qed.

Lemma shifted_full s :
  fits s -> (bufferSize <= shifted s + String.length (sc_data s))%nat ->
  String.length (sc_data s) = bufferSize.
Proof.
  unfold fits, shifted. intros Hf. destruct (Nat.ltb_spec 0 (sc_start s)); [|simpl; lia].
  rewrite andb_true_l.
  destruct (Nat.eqb_spec (sc_start s + String.length (sc_data s)) bufferSize); [simpl; lia|].
  rewrite orb_false_l. destruct (bufferSize / 2 <? sc_start s)%nat; simpl; lia.
Qed.

(** One round of [Scan]. *)
Lemma Scan_unfold fuel s pos read :
  Scan port fuel s pos read =
  match ScanLines (sc_data s) (negb (is_nil (sc_err s))) with
  | Some (token, rest) =>
      Some (mkScanned (Some token)
        (mkScanner (sc_start s + (String.length (sc_data s) - String.length rest)) rest (sc_err s))
        pos read)
  | None =>
      match sc_err s with
      | Some e => Some (mkScanned None (mkScanner 0 "" (Some e)) pos read)
      | None =>
          if (bufferSize <=? shifted s + String.length (sc_data s))%nat
          then Some (mkScanned None (mkScanner (shifted s) (sc_data s) (Some ErrTooLong)) pos read)
          else
            let '(bytes, err, pos') := fill port (S maxConsecutiveEmptyReads)
              (bufferSize - (shifted s + String.length (sc_data s))) pos in
            match fuel with
            | O => None
            | S k => Scan port k (mkScanner (shifted s) (sc_data s +:+ bytes) err) pos' (read +:+ bytes)
            end
      end
  end.
Proof. destruct fuel; cbn [Scan]; cbv zeta; destruct (sc_err s); reflexivity. Qed.

(** [Scan] always comes back. *)
Lemma Scan_total fuel s pos read :
  (sc_err s = None -> bufferSize <= fuel + String.length (sc_data s))%nat ->
  exists r, Scan port fuel s pos read = Some r.
Proof.
  revert s pos read. induction fuel as [|k IH]; intros s pos read Hf; rewrite Scan_unfold;
    (destruct (ScanLines _ _) as [[token rest]|]; [eauto|]);
    (destruct (sc_err s) as [e|] eqn:Ee; [eauto|specialize (Hf eq_refl)]);
    destruct (Nat.leb_spec bufferSize (shifted s + String.length (sc_data s))); [eauto|lia|eauto|].
  pose proof (fill_spec (S maxConsecutiveEmptyReads)
    (bufferSize - (shifted s + String.length (sc_data s))) pos) as Hfill.
  destruct (fill port _ _ pos) as [[bytes err] pos'].
  apply IH. cbn [sc_err sc_data]. rewrite length_str_app. intros ->.
  destruct Hfill as (_ & _ & _ & Hb). specialize (Hb eq_refl). lia.
Qed.

(** What the loop keeps of its scanner between two lines. *)
Definition sound (s : Scanner) : Prop := fits s /\ sc_err s <> Some ErrTooLong.

Lemma sound_filled s pos bytes err pos' :
  sound s -> (shifted s + String.length (sc_data s) < bufferSize)%nat ->
  fill port (S maxConsecutiveEmptyReads)
    (bufferSize - (shifted s + String.length (sc_data s))) pos = (bytes, err, pos') ->
  sound (mkScanner (shifted s) (sc_data s +:+ bytes) err).
Proof.
  intros _ Hlt Hf. pose proof (fill_spec (S maxConsecutiveEmptyReads)
    (bufferSize - (shifted s + String.length (sc_data s))) pos) as Hfs. rewrite Hf in Hfs.
  destruct Hfs as (Hlen & _ & Hne & _). split; [|done].
  unfold fits. simpl. rewrite length_str_app. lia.
Qed.

(** What a scan makes of the bytes it holds and the [more] it reads: the next line, the
    last one, the end, or a line that does not fit. *)
Inductive ScanSpec (s : Scanner) (more : string) : Scanned -> Prop :=
| ScanToken line s' pos' read :
    cut_line (sc_data s +:+ more) = Some (line, sc_data s') -> sound s' ->
    ScanSpec s more (mkScanned (Some (dropCR line)) s' pos' read)
| ScanLast e s' pos' read :
    cut_line (sc_data s +:+ more) = None -> (sc_data s +:+ more)%string <> ""%string ->
    sc_data s' = ""%string -> sc_err s' = Some e -> sound s' ->
    ScanSpec s more (mkScanned (Some (dropCR (sc_data s +:+ more))) s' pos' read)
| ScanStop e s' pos' read :
    (sc_data s +:+ more)%string = ""%string -> sc_err s' = Some e -> e <> ErrTooLong ->
    ScanSpec s more (mkScanned None s' pos' read)
| ScanLong s' pos' read :
    cut_line (sc_data s +:+ more) = None -> String.length (sc_data s +:+ more) = bufferSize ->
    sc_err s' = Some ErrTooLong ->
    ScanSpec s more (mkScanned None s' pos' read).

Lemma ScanSpec_more start data err bytes more r s :
  data = sc_data s ->
  ScanSpec (mkScanner start (data +:+ bytes) err) more r -> ScanSpec s (bytes +:+ more) r.
Proof.
  intros ->. destruct 1; simpl in *; rewrite str_app_assoc in *; by econstructor.
Qed.

(** A round ends the scan, or fills the buffer and goes on. *)
Lemma Scan_round fuel s pos read r :
  sound s -> Scan port fuel s pos read = Some r ->
  (sn_read r = read /\ sn_pos r = pos /\ ScanSpec s "" r /\
   (forall e, sc_err s = Some e -> sc_err (sn_scanner r) = Some e) /\
   (sn_token r <> None -> sc_err (sn_scanner r) = sc_err s)) \/
  exists k bytes err pos', fuel = S k /\ sc_err s = None /\ cut_line (sc_data s) = None /\
    (shifted s + String.length (sc_data s) < bufferSize)%nat /\
    fill port (S maxConsecutiveEmptyReads)
      (bufferSize - (shifted s + String.length (sc_data s))) pos = (bytes, err, pos') /\
    Scan port k (mkScanner (shifted s) (sc_data s +:+ bytes) err) pos' (read +:+ bytes) = Some r.
Proof.
  intros [Hfit Herr]. rewrite Scan_unfold. unfold ScanLines.
  destruct (cut_line (sc_data s)) as [[line rest]|] eqn:Ec.
  { intros [= <-]. left. split_and!; [done..| |done|done]. constructor; simpl.
    - by rewrite str_app_nil_r.
    - apply cut_line_length in Ec. split; [unfold fits in *; simpl; lia|done]. }
  destruct (sc_err s) as [e|] eqn:Ee; simpl.
  - left. destruct (is_empty (sc_data s)) eqn:Es; simpl in *.
    + apply str_eq_true in Es. injection H as <-. split_and!; [done..| |done|done].
      apply (ScanStop _ _ e); simpl; [by rewrite Es|done|congruence].
    + apply str_eq_false in Es. injection H as <-. split_and!; [done..| |done|done].
      rewrite <- (str_app_nil_r (sc_data s)) at 1.
      apply (ScanLast _ _ e); simpl; rewrite ?str_app_nil_r; try done.
      split; [unfold fits in *; simpl; lia|simpl; congruence].
  - destruct (Nat.leb_spec bufferSize (shifted s + String.length (sc_data s))).
    + intros [= <-]. left. split_and!; [done..| |done|done].
      apply ScanLong; simpl; rewrite ?str_app_nil_r; [done|by apply shifted_full|done].
    + destruct (fill port _ _ pos) as [[bytes err] pos']. destruct fuel as [|k]; [done|].
      intros Hs. right. by exists k, bytes, err, pos'.
Qed.

Lemma Scan_spec fuel s pos read r :
  sound s -> Scan port fuel s pos read = Some r ->
  exists more, sn_read r = (read +:+ more)%string /\ ScanSpec s more r /\
    (forall e, sc_err s = Some e -> more = ""%string /\ sc_err (sn_scanner r) = Some e).
Proof.
  revert s pos read. induction fuel as [fuel IH] using lt_wf_ind; intros s pos read Hs Hr.
  apply Scan_round in Hr as [(-> & _ & Hsp & He & _)|(k & bytes & err & pos' & -> & En & _ & Hlt & Hf & Hr)];
    [| |done].
  { exists ""%string. rewrite str_app_nil_r. by split_and!; auto. }
  apply IH in Hr as (more & Hread & Hsp & _); [|lia|].
  - exists (bytes +:+ more)%string. rewrite Hread, str_app_assoc. split_and!; [done| |congruence].
    by eapply ScanSpec_more.
  - by apply (sound_filled s pos bytes err pos').
Qed.

(** ** Lemmas: the end of reading *)

Context (n : nat) (Hsilent : silent_at n).

(** The bytes that can still come. *)
Definition pending (s : Scanner) (pos : nat) : nat :=
  String.length (sc_data s) + match sc_err s with None => (n - pos) * bufferSize | Some _ => 0 end.

(** Reading has not gone past the silence. *)
Definition awake (s : Scanner) (pos : nat) : Prop :=
  (pos <= n + S maxConsecutiveEmptyReads)%nat /\ (sc_err s = None -> pos <= n)%nat.

Lemma Scan_progress fuel s pos read r :
  sound s -> awake s pos -> Scan port fuel s pos read = Some r ->
  (sn_pos r <= n + S maxConsecutiveEmptyReads)%nat /\
  (sn_token r <> None ->
   awake (sn_scanner r) (sn_pos r) /\ pending (sn_scanner r) (sn_pos r) < pending s pos)%nat.
Proof.
  revert s pos read. induction fuel as [fuel IH] using lt_wf_ind; intros s pos read Hs [Hp Hn] Hr.
  pose proof Hr as Hr0.
  apply Scan_round in Hr as [(_ & Ep & Hsp & _ & Ee)|(k & bytes & err & pos' & -> & En & _ & Hlt & Hf & Hr)];
    [| |done].
  - rewrite Ep. split; [done|]. intros Ht. specialize (Ee Ht).
    split; [by split; rewrite ?Ee|]. unfold pending. rewrite Ee.
    destruct Hsp as [line s' ? ? Hc _|e s' ? ? Hc Hne Hd _ _|?|?]; simpl in *; try done;
      rewrite str_app_nil_r in *.
    + apply cut_line_length in Hc. lia.
    + rewrite Hd. destruct (sc_data s); [done|]. simpl. lia.
  - specialize (Hn En). pose proof (sound_filled s pos bytes err pos' Hs Hlt Hf) as Hs'.
    pose proof (fill_silent n (S maxConsecutiveEmptyReads)
      (bufferSize - (shifted s + String.length (sc_data s))) pos Hsilent Hn ltac:(lia)) as Hq.
    pose proof (fill_spec (S maxConsecutiveEmptyReads)
      (bufferSize - (shifted s + String.length (sc_data s))) pos) as Hfs.
    rewrite Hf in Hq, Hfs. destruct Hq as (Hq1 & Hq2 & Hq3). destruct Hfs as (Hlen & _ & _ & _).
    apply IH in Hr as [Hr1 Hr2]; [|lia|done|split; simpl; [done|intros E; specialize (Hq2 E); lia]].
    split; [done|]. intros Ht. destruct (Hr2 Ht) as [Ha Hpe]. split; [done|].
    assert (pending (mkScanner (shifted s) (sc_data s +:+ bytes) err) pos' <= pending s pos)%nat; [|lia].
    unfold pending. rewrite En. cbn [sc_data sc_err]. rewrite length_str_app.
    destruct (decide (pos = n)) as [->|Hpn].
    + rewrite Hq3 by done. destruct err; [simpl; lia|specialize (Hq2 eq_refl); lia].
    + assert (bufferSize <= (n - pos) * bufferSize)%nat by nia.
      destruct err; [lia|]. specialize (Hq2 eq_refl).
      assert ((n - pos') * bufferSize + bufferSize <= (n - pos) * bufferSize)%nat by nia. lia.
Qed.
End Reading.

(** ** Lemmas: the loop *)

(** The lines a text amounts to, by what ended it: the last one need not be finished,
    unless it is too long. *)
Definition heard (text : string) (err : option ScanError) : list string :=
  let '(ls, rest) := whole_lines text in
  map dropCR (ls ++ match err with
                    | Some ErrTooLong => []
                    | _ => if is_empty rest then [] else [rest]
                    end).

(** What a line has published, and whether it counts as dropped. *)
Definition said (device text : string) : option Publication := (read_line (newBridge device) text).2.
Definition dropped (text : string) : bool :=
  negb (br_dropped (read_line (newBridge "") text).1 =? 0).

Lemma read_line_said b text :
  read_line b text =
  (mkbridge (br_device b)
     (if is_nil (said (br_device b) text) then br_up b else wrap64 (br_up b + 1)) (br_down b)
     (if dropped text then wrap64 (br_dropped b + 1) else br_dropped b), said (br_device b) text).
Proof.
  destruct b. unfold said, dropped, read_line. cbn [br_device br_up br_down br_dropped newBridge].
  repeat case_match; simpl in *; done.
Qed.

Definition hear (b : bridge) (text : string) : bridge := (read_line b text).1.

Lemma hear_counts texts b u d :
  br_up b = wrap64 u -> br_dropped b = wrap64 d ->
  fold_left hear texts b =
  mkbridge (br_device b) (wrap64 (u + Z.of_nat (length (omap (said (br_device b)) texts)))) (br_down b)
    (wrap64 (d + Z.of_nat (length (List.filter dropped texts)))).
Proof.
  revert b u d. induction texts as [|text texts IH]; intros b u d Hu Hd.
  { simpl. rewrite !Z.add_0_r, <- Hu, <- Hd. by destruct b. }
  change (fold_left hear (text :: texts) b) with (fold_left hear texts (hear b text)).
  unfold hear at 2. rewrite read_line_said. cbn [fst].
  assert (forall z, wrap64 (wrap64 z + 1) = wrap64 (z + 1)) as Hw
    by (intros; apply Int.wrap_wrap_add; lia).
  rewrite (IH _ (if is_nil (said (br_device b) text) then u else u + 1)
                (if dropped text then d + 1 else d)); cbn [br_device br_up br_down br_dropped omap list_omap List.filter].
  - f_equal; f_equal; [destruct (said _ text)|destruct (dropped text)]; simpl; lia.
  - rewrite Hu. by destruct (is_nil _); rewrite ?Hw.
  - rewrite Hd. by destruct (dropped text); rewrite ?Hw.
Qed.

Lemma heard_line text line rest err :
  cut_line text = Some (line, rest) -> heard text err = dropCR line :: heard rest err.
Proof. intros E. unfold heard. rewrite cut_line_lines, E. by destruct (whole_lines rest). Qed.

Lemma read_from_unfold port fuel s pos b out read :
  read_from port fuel s pos b out read =
  match Scan port bufferSize s pos read with
  | None => None
  | Some r =>
      match sn_token r with
      | None => Some (mkClosed b (out ++ [offline (br_device b)]) (sc_err (sn_scanner r))
                        (sn_pos r) (sn_read r))
      | Some text =>
          match fuel with
          | O => None
          | S k => read_from port k (sn_scanner r) (sn_pos r) (hear b text)
                     (out ++ option_list (said (br_device b) text)) (sn_read r)
          end
      end
  end.
Proof.
  destruct fuel; cbn [read_from]; destruct (Scan _ _ _ _ _) as [r|]; try done;
    destruct (sn_token r) as [text|]; try done; unfold hear; by rewrite read_line_said.
Qed.

Lemma hear_device b text : br_device (hear b text) = br_device b.
Proof. unfold hear. by rewrite read_line_said. Qed.

Lemma read_from_spec port fuel s pos b out read c :
  sound s -> read_from port fuel s pos b out read = Some c ->
  exists more, cl_read c = (read +:+ more)%string /\ cl_err c <> None /\
    (forall e, sc_err s = Some e -> more = ""%string /\ cl_err c = Some e) /\
    cl_out c = out ++ omap (said (br_device b)) (heard (sc_data s +:+ more) (cl_err c))
                   ++ [offline (br_device b)] /\
    cl_bridge c = fold_left hear (heard (sc_data s +:+ more) (cl_err c)) b /\
    (cl_err c = Some ErrTooLong -> String.length (whole_lines (sc_data s +:+ more)).2 = bufferSize).
Proof.
  revert s pos b out read. induction fuel as [fuel IH] using lt_wf_ind; intros s pos b out read Hs.
  rewrite read_from_unfold.
  destruct (Scan port bufferSize s pos read) as [r|] eqn:Er; [|done].
  apply Scan_spec in Er as (more & Hread & Hsp & He); [|done].
  destruct Hsp as [line s' pos' rd Hc Hs'|e s' pos' rd Hc Hne Hd Ee Hs'|e s' pos' rd Hc Ee Hl|s' pos' rd Hc Hl Ee];
    cbn [sn_token sn_scanner sn_pos sn_read] in *; subst rd.
  - destruct fuel as [|k]; [done|]. intros Hr.
    apply IH in Hr as (more' & -> & Hnn & He' & -> & -> & Hlong); [|lia|done].
    rewrite hear_device. apply (cut_line_app _ more') in Hc. rewrite str_app_assoc in Hc.
    exists (more +:+ more')%string. rewrite str_app_assoc, (heard_line _ _ _ _ Hc).
    split_and!; [done|done| |cbn [omap list_omap]|done|].
    + intros e Es. destruct (He e Es) as [-> Es']. by destruct (He' e Es') as [-> ?].
    + rewrite <- !app_assoc. f_equal. by destruct (said _ (dropCR line)).
    + rewrite cut_line_lines, Hc. done.
  - destruct fuel as [|k]; [done|]. intros Hr.
    apply IH in Hr as (more' & -> & Hnn & He' & -> & -> & Hlong); [|lia|done].
    destruct (He' e Ee) as [-> Ee']. rewrite Hd, Ee', hear_device. exists more.
    rewrite str_app_nil_r. assert (heard ("" +:+ "") (Some e) = []) as -> by (by destruct e).
    assert (heard (sc_data s +:+ more) (Some e) = [dropCR (sc_data s +:+ more)]) as ->.
    { unfold heard. rewrite cut_line_lines, Hc. rewrite (proj2 (str_eq_false _ _) Hne : is_empty _ = _).
      destruct e; try done. by destruct Hs' as [_ []]. }
    split_and!; [done|done| |cbn [omap list_omap]|done|].
    + intros e' Es. destruct (He e' Es) as [-> ?]. split; congruence.
    + rewrite <- app_assoc. by destruct (said _ _).
    + intros [= ->]. by destruct Hs' as [_ []].
  - intros [= <-]. exists more. cbn [cl_read cl_err cl_out cl_bridge]. rewrite Hc, Ee.
    assert (heard "" (Some e) = []) as -> by (by destruct e).
    split_and!; try done; [|congruence]. intros e' Es. destruct (He e' Es). split; congruence.
  - intros [= <-]. exists more. cbn [cl_read cl_err cl_out cl_bridge]. rewrite Ee.
    assert (heard (sc_data s +:+ more) (Some ErrTooLong) = []) as ->
      by (unfold heard; by rewrite cut_line_lines, Hc).
    split_and!; try done; [|by rewrite cut_line_lines, Hc].
    intros e' Es. destruct (He e' Es). split; congruence.
Qed.

Lemma read_from_ends port n fuel s pos b out read :
  silent_at port n -> sound s -> awake n s pos -> (pending n s pos <= fuel)%nat ->
  exists c, read_from port fuel s pos b out read = Some c /\
    (cl_pos c <= n + S maxConsecutiveEmptyReads)%nat.
Proof.
  intros Hn. revert s pos b out read. induction fuel as [fuel IH] using lt_wf_ind.
  intros s pos b out read Hs Ha Hf. rewrite read_from_unfold.
  destruct (Scan_total port bufferSize s pos read ltac:(lia)) as [r Er]. rewrite Er.
  pose proof (Scan_progress port n Hn _ _ _ _ _ Hs Ha Er) as [Hp Hnext].
  apply Scan_spec in Er as (more & _ & Hsp & _); [|done].
  destruct (sn_token r) as [text|] eqn:Et; [|eexists; split; [done|exact Hp]].
  destruct (Hnext ltac:(done)) as [Ha' Hlt]. destruct fuel as [|k]; [lia|].
  apply IH; [lia| |done|lia].
  by destruct Hsp; simpl in *.
Qed.

(** ** Lemmas: framing *)

Fixpoint no_byte (c : ascii) (s : string) : bool :=
  match s with EmptyString => true | String d s' => negb (Ascii.eqb d c) && no_byte c s' end.

Lemma cut_space_app suffix value :
  no_byte " " suffix = true -> cut_space (suffix +:+ String " " value) = Some (suffix, value).
Proof.
  induction suffix as [|c suffix IH]; [done|]. rewrite str_app_cons. simpl.
  rewrite andb_true_iff, negb_true_iff. intros [-> Hs]. by rewrite IH.
Qed.

Lemma cut_space_inv s suffix value :
  cut_space s = Some (suffix, value) ->
  s = (suffix +:+ String " " value)%string /\ no_byte " " suffix = true.
Proof.
  revert suffix. induction s as [|c s IH]; intros suffix; [done|]. simpl.
  destruct (Ascii.eqb c " ") eqn:Ec.
  - apply Ascii.eqb_eq in Ec as ->. by intros [= <- <-].
  - destruct (cut_space s) as [[x v]|]; [|done]. intros [= <- <-].
    destruct (IH x eq_refl) as [-> Hx]. rewrite str_app_cons. simpl. by rewrite Ec, Hx.
Qed.

Lemma substring_all s n : (String.length s <= n)%nat -> String.substring 0 n s = s.
Proof.
  revert n. induction s as [|c s IH]; intros [|n]; simpl; try done; [lia|].
  intros H. rewrite IH by lia. done.
Qed.

Lemma substring_app p t :
  String.substring (String.length p) (String.length (p +:+ t) - String.length p) (p +:+ t) = t.
Proof.
  induction p as [|c p IH].
  { apply substring_all. change ("" +:+ t)%string with t. simpl. lia. }
  rewrite str_app_cons. exact IH.
Qed.

Lemma prefix_inv p s :
  String.prefix p s = true ->
  s = (p +:+ String.substring (String.length p) (String.length s - String.length p) s)%string.
Proof.
  revert s. induction p as [|c p IH]; intros s.
  - intros _. symmetry. apply substring_all. simpl. lia.
  - destruct s as [|d s]; [done|]. simpl. destruct (ascii_dec c d) as [<-|]; [|done].
    intros H. rewrite str_app_cons. f_equal. by apply IH.
Qed.

Lemma prefix_app p t : String.prefix p (p +:+ t) = true.
Proof. induction p as [|c p IH]; [by destruct t|]. rewrite str_app_cons. simpl. by destruct (ascii_dec c c). Qed.

(** A line that publishes is a word, a topic without spaces and a value. *)
Lemma said_iff device text p :
  said device text = Some p <->
  exists suffix value, TrimSpace text = ("PUB " +:+ suffix +:+ String " " value)%string /\
    no_byte " " suffix = true /\
    p = publish (if str_eq suffix "announce" then ("torpor/announce/" +:+ device)%string
                 else (device +:+ "/" +:+ suffix)%string)
                (str_eq suffix "announce" || str_eq suffix "status") value.
Proof.
  unfold said, read_line. cbn [br_device newBridge]. split.
  - destruct (is_empty (TrimSpace text)); [done|].
    destruct (String.prefix "#" (TrimSpace text)); [done|].
    destruct (String.prefix "PUB " (TrimSpace text)) eqn:Ep; [|done]. simpl negb. cbv iota.
    destruct (cut_space _) as [[suffix value]|] eqn:Ec; [|done].
    intros [= <-]. apply prefix_inv in Ep. apply cut_space_inv in Ec as [Ec Hn].
    exists suffix, value. split; [|done]. rewrite Ep at 1. f_equal. exact Ec.
  - intros (suffix & value & -> & Hn & ->).
    set (rest := (suffix +:+ String " " value)%string).
    assert (is_empty ("PUB " +:+ rest) = false) as -> by done.
    assert (String.prefix "#" ("PUB " +:+ rest) = false) as -> by done.
    rewrite prefix_app. simpl negb. cbv iota.
    pose proof (substring_app "PUB " rest) as Esub. change (String.length "PUB ") with 4%nat in Esub.
    rewrite Esub. unfold rest. by rewrite cut_space_app.
Qed.

(** ** Properties *)

(** C33. A cable that falls out is noticed: whatever a port has brought before, once it
    brings nothing during a hundred and one reads, the loop ends after them, and the
    last thing it publishes is the retained [offline] of the device. *)
Theorem readLoop_ends port n b :
  silent_at port n ->
  exists c, readLoop port (n * bufferSize) b = Some c /\
    (cl_pos c <= n + S maxConsecutiveEmptyReads)%nat /\
    last (cl_out c) = Some (offline (br_device b)).
Proof.
  intros Hs. assert (sound NewScanner) as Hsound by (split; [unfold fits; simpl; lia|done]).
  destruct (read_from_ends port n (n * bufferSize) NewScanner 0 b [] "" Hs Hsound) as (c & Hr & Hp).
  - split; simpl; [lia|lia].
  - unfold pending. simpl. rewrite Nat.sub_0_r. lia.
  - exists c. split_and!; [done|done|].
    apply read_from_spec in Hr as (more & _ & _ & _ & -> & _); [|done].
    by rewrite app_assoc, last_snoc.
Qed.

(** What does not count: blank lines, comments, and what is said. *)
Lemma dropped_iff text :
  dropped text = true <->
  TrimSpace text <> ""%string /\ String.prefix "#" (TrimSpace text) = false /\ forall device, said device text = None.
Proof.
  unfold dropped, said, read_line. cbn [br_device br_up br_down br_dropped newBridge].
  destruct (is_empty (TrimSpace text)) eqn:Ee.
  { apply str_eq_true in Ee. rewrite Ee. split; [done|]. by intros [[] _]. }
  apply str_eq_false in Ee.
  destruct (String.prefix "#" (TrimSpace text)); [split; [done|by intros (_ & ? & _)]|].
  destruct (String.prefix "PUB " (TrimSpace text)); [|by split; [|intros _]].
  simpl negb. cbv iota. destruct (cut_space _) as [[suffix value]|]; [|by split; [|intros _]].
  split; [done|]. intros (_ & _ & Hn). by specialize (Hn ""%string).
Qed.

(** C34. The bridge repeats what the device says and nothing else: however the bytes of
    the port arrive, it publishes exactly what their lines say, in order, and then the
    [offline]; it has counted every publication and every line dropped; and only a
    line that fills the buffer is lost with what follows it. A line says something when
    it is [PUB], a topic without spaces and a value, and only the announcement and the
    status are retained. *)
Theorem readLoop_faithful port fuel device c :
  readLoop port fuel (newBridge device) = Some c ->
  let texts := heard (cl_read c) (cl_err c) in
  cl_out c = omap (said device) texts ++ [offline device] /\
  cl_bridge c = mkbridge device (wrap64 (Z.of_nat (length (omap (said device) texts)))) 0
                  (wrap64 (Z.of_nat (length (List.filter dropped texts)))) /\
  cl_err c <> None /\
  (cl_err c = Some ErrTooLong -> String.length (whole_lines (cl_read c)).2 = bufferSize) /\
  (forall text p, said device text = Some p <->
    exists suffix value, TrimSpace text = ("PUB " +:+ suffix +:+ String " " value)%string /\
      no_byte " " suffix = true /\
      p = mkPublication (if str_eq suffix "announce" then ("torpor/announce/" +:+ device)%string
                         else (device +:+ "/" +:+ suffix)%string) 0
            (str_eq suffix "announce" || str_eq suffix "status") value) /\
  (forall text, dropped text = true <->
    TrimSpace text <> ""%string /\ String.prefix "#" (TrimSpace text) = false /\
    forall device', said device' text = None).
Proof.
  intros Hr. assert (sound NewScanner) as Hsound by (split; [unfold fits; simpl; lia|done]).
  apply read_from_spec in Hr as (more & Hread & Hne & _ & Hout & Hb & Hlong); [|done].
  change ("" +:+ more)%string with more in Hread. simpl in Hout, Hb, Hlong. subst more.
  split_and!; [done| |done|done|apply said_iff|apply dropped_iff].
  by rewrite Hb, (hear_counts _ _ 0 0).
Qed.

(** ** Concrete runs *)

Definition crlf : string := String "013"%char (String newline "").

(** Two reads that split a line, then nothing; or more, much later. *)
Definition wire (later : string) : Port := fun i _ =>
  match i with
  | O => ("PUB status online" +:+ crlf +:+ "# booting" +:+ crlf +:+ "PUB sensor/t", None)%string
  | S O => ("/state 21.50" +:+ crlf +:+ "garbage" +:+ crlf +:+ "PUB announce {}" +:+ crlf, None)%string
  | _ => if (i =? 103)%nat then (later, None) else (""%string, None)
  end.

Definition wire_run (later : string) : option Closed := readLoop (wire later) 10 (newBridge "nrf-01").
Definition wire_closed : Closed := default (mkClosed (newBridge "") [] None 0 "") (wire_run "").

Example wire_says :
  cl_out wire_closed =
    [publish "nrf-01/status" true "online"; publish "nrf-01/sensor/t/state" false "21.50";
     publish "torpor/announce/nrf-01" true "{}"; offline "nrf-01"]%string /\
  cl_bridge wire_closed = mkbridge "nrf-01" 3 0 1.
Proof. vm_compute. done. Qed.

(** A device that is quiet for a hundred and one reads is gone for good, whatever it
    says next. *)
Example quiet_is_gone :
  cl_out <$> wire_run ("PUB status online" +:+ crlf) = Some (cl_out wire_closed) /\
  cl_err wire_closed = Some ErrNoProgress.
Proof. vm_compute. done. Qed.

(** Noise without a newline fills the buffer and ends the bridge. *)
Definition noisy : Port := fun _ room => (String.concat "" (repeat "~"%string room), None).
Example noise_ends_the_bridge :
  (fun c => (cl_out c, cl_err c, br_dropped (cl_bridge c))) <$> readLoop noisy 10 (newBridge "nrf-01")
  = Some ([offline "nrf-01"], Some ErrTooLong, 0).
Proof. vm_compute. reflexivity. Qed.

(** A newline in a payload is a second command on the wire. *)
Example payload_injects :
  (onCommand (fun _ => None) (newBridge "nrf-01") "nrf-01/text/note/command"
     ("hi" +:+ String newline "SUB text/firmware_url/command x|y")).1
  = ("SUB text/note/command hi" +:+ String newline "SUB text/firmware_url/command x|y" +:+
     String newline "")%string.
Proof. vm_compute. reflexivity. Qed.

Lemma readLoop_ends_witness :
  exists c, readLoop (wire "") (2 * bufferSize) (newBridge "nrf-01") = Some c /\
    last (cl_out c) = Some (offline "nrf-01").
Proof.
  destruct (readLoop_ends (wire "") 2 (newBridge "nrf-01")) as (c & Hr & _ & Hl).
  - intros [|[|i]] room Hi; [exfalso; lia..|]. cbn [wire]. destruct (S (S i) =? 103)%nat; reflexivity.
  - exists c. split; [exact Hr|exact Hl].
Defined.

Lemma readLoop_faithful_witness :
  br_up (cl_bridge wire_closed) = 3 /\ length (cl_out wire_closed) = 4%nat.
Proof.
  destruct (readLoop_faithful (wire "") 10 "nrf-01" wire_closed) as (Ho & Hb & _).
  - vm_compute. reflexivity.
  - rewrite Ho, Hb. vm_compute. split; reflexivity.
Defined.
