(* ===== verification/BridgeRun.v ===== *)
(** * The bridge as a process: main of controller/cmd/bridge

    [Bridge] has the reading of the port and the writing of commands; here is the
    process around them: its start, the session with the broker and its will, the
    goroutine of the signal handler beside the one that reads, and every way to end.
    What the broker keeps for the device is what the rest of the fleet believes of it. *)

From S2P Require Import Prelude GoStrings Driver Bridge.
Local Open Scope Z_scope.

(** ** Definitions: starting *)

(** [die]: what is printed, with exit status 1. *)
Definition bridge_die (text : string) : string := ("torpor-bridge: " +:+ text)%string.

(** [main] up to the loop: the flags, the port, the broker. *)
Definition bridge_start (device portName broker : string) (open : option string) (connect : Token)
  : result bridge string :=
  if is_empty device || is_empty portName then Err (bridge_die "--device and --port are required")
  else match open with
       | Some err => Err (bridge_die ("open " +:+ portName +:+ ": " +:+ err))
       | None =>
           match connect with
           | TokenDone => Ok (newBridge device)
           | TokenTimeout => Err (bridge_die ("broker " +:+ broker +:+ ": <nil>"))
           | TokenError err => Err (bridge_die ("broker " +:+ broker +:+ ": " +:+ err))
           end
       end%string.

(** What an interrupt prints. *)
Definition counters (b : bridge) : string :=
  (String newline "  " +:+ pretty (br_up b) +:+ " up, " +:+ pretty (br_down b) +:+ " down, " +:+
   pretty (br_dropped b) +:+ " dropped" +:+ String newline "")%string.

(** ** Definitions: the process and its broker *)

(** The goroutine of [main]. *)
Inductive Stage := Reading | Returning | Exited (status : Z).

(** The goroutine of the signal handler. *)
Inductive Handler := Waiting | Signalled | SaidOffline | LeftBroker.

(** [rn_session]: the broker holds a session of the bridge, with its will. [rn_kept] is
    the message the broker retains for the status of the device. *)
Record Running := mkRunning {
  rn_bridge : bridge;
  rn_scanner : Scanner;
  rn_pos : nat;
  rn_read : string;
  rn_stage : Stage;
  rn_handler : Handler;
  rn_session : bool;
  rn_kept : option string
}.

Definition set_stage (st : Stage) (s : Running) : Running :=
  mkRunning (rn_bridge s) (rn_scanner s) (rn_pos s) (rn_read s) st (rn_handler s) (rn_session s) (rn_kept s).
Definition set_handler (h : Handler) (s : Running) : Running :=
  mkRunning (rn_bridge s) (rn_scanner s) (rn_pos s) (rn_read s) (rn_stage s) h (rn_session s) (rn_kept s).
Definition set_session (b : bool) (s : Running) : Running :=
  mkRunning (rn_bridge s) (rn_scanner s) (rn_pos s) (rn_read s) (rn_stage s) (rn_handler s) b (rn_kept s).
Definition set_kept (k : option string) (s : Running) : Running :=
  mkRunning (rn_bridge s) (rn_scanner s) (rn_pos s) (rn_read s) (rn_stage s) (rn_handler s) (rn_session s) k.
Definition set_bridge (b : bridge) (s : Running) : Running :=
  mkRunning b (rn_scanner s) (rn_pos s) (rn_read s) (rn_stage s) (rn_handler s) (rn_session s) (rn_kept s).
Definition set_reading (r : Scanned) (s : Running) : Running :=
  mkRunning (rn_bridge s) (sn_scanner r) (sn_pos r) (sn_read r) (rn_stage s) (rn_handler s) (rn_session s)
    (rn_kept s).

(** Entering the loop, with whatever the broker kept from before. *)
Definition running (b : bridge) (kept : option string) : Running :=
  mkRunning b NewScanner 0 "" Reading Waiting true kept.

Definition status_topic (device : string) : string := (device +:+ "/status")%string.

(** What the broker keeps for the status of the device once a publication has reached it:
    the last retained one, and none after an empty one. *)
Definition keep (device : string) (p : Publication) (kept : option string) : option string :=
  if str_eq (pub_Topic p) (status_topic device) && pub_Retain p
  then if is_empty (pub_Payload p) then None else Some (pub_Payload p)
  else kept.

(** [cli.Publish], at quality 0: what is published without a session is lost. *)
Definition tell (p : option Publication) (s : Running) : Running :=
  match p with
  | Some p => if rn_session s then set_kept (keep (br_device (rn_bridge s)) p (rn_kept s)) s else s
  | None => s
  end.

(** The end of a session without a farewell: the broker publishes the will. *)
Definition drop_session (s : Running) : Running :=
  if rn_session s
  then set_session false
         (set_kept (keep (br_device (rn_bridge s)) (will (br_device (rn_bridge s))) (rn_kept s)) s)
  else s.

Definition alive (s : Running) : bool := match rn_stage s with Exited _ => false | _ => true end.

Inductive Event :=
| Heard (text : string)
| Farewell
| Commanded (topic payload : string)
| Other.

Inductive bridge_step : Running -> Event -> Running -> Prop :=
(** [readLoop], on whatever the port brings next *)
| step_line s port r text b p :
    rn_stage s = Reading -> Scan port bufferSize (rn_scanner s) (rn_pos s) (rn_read s) = Some r ->
    sn_token r = Some text -> read_line (rn_bridge s) text = (b, p) ->
    bridge_step s (Heard text) (tell p (set_bridge b (set_reading r s)))
| step_end s port r :
    rn_stage s = Reading -> Scan port bufferSize (rn_scanner s) (rn_pos s) (rn_read s) = Some r ->
    sn_token r = None ->
    bridge_step s Other
      (set_stage Returning (tell (Some (offline (br_device (rn_bridge s)))) (set_reading r s)))
| step_return s :
    rn_stage s = Returning -> bridge_step s Other (set_stage (Exited 0) (drop_session s))
(** the signal handler *)
| step_signal s :
    alive s = true -> rn_handler s = Waiting -> bridge_step s Other (set_handler Signalled s)
| step_farewell s :
    alive s = true -> rn_handler s = Signalled ->
    bridge_step s Farewell (set_handler SaidOffline (tell (Some (offline (br_device (rn_bridge s)))) s))
| step_leave s :
    alive s = true -> rn_handler s = SaidOffline ->
    bridge_step s Other (set_handler LeftBroker (set_session false s))
| step_exit s :
    alive s = true -> rn_handler s = LeftBroker -> bridge_step s Other (set_stage (Exited 0) s)
(** the handler of commands *)
| step_command s write topic payload :
    alive s = true -> rn_session s = true ->
    bridge_step s (Commanded topic payload)
      (set_bridge (onCommand write (rn_bridge s) topic payload).2 s)
(** the client, the network, and any other death *)
| step_lost s : alive s = true -> bridge_step s Other (drop_session s)
| step_reconnect s :
    alive s = true -> rn_handler s <> LeftBroker -> bridge_step s Other (set_session true s)
| step_killed s status :
    alive s = true -> bridge_step s Other (set_stage (Exited status) (drop_session s)).

Inductive bridge_runs (s : Running) : list Event -> Running -> Prop :=
| runs_refl : bridge_runs s [] s
| runs_step es s' e s'' :
    bridge_runs s es s' -> bridge_step s' e s'' -> bridge_runs s (es ++ [e]) s''.

(** One particular step, to run the process by a schedule. *)
Inductive Turn := OfReader (port : Port) | OfHandler | OfMain | Signal | Lost | Reconnect | Kill (status : Z).

Definition take_turn (t : Turn) (s : Running) : option (Event * Running) :=
  if negb (alive s) then None
  else match t with
       | OfReader port =>
           match rn_stage s, Scan port bufferSize (rn_scanner s) (rn_pos s) (rn_read s) with
           | Reading, Some r =>
               match sn_token r with
               | Some text => let '(b, p) := read_line (rn_bridge s) text in
                              Some (Heard text, tell p (set_bridge b (set_reading r s)))
               | None => Some (Other, set_stage Returning
                           (tell (Some (offline (br_device (rn_bridge s)))) (set_reading r s)))
               end
           | _, _ => None
           end
       | OfMain => match rn_stage s with
                   | Returning => Some (Other, set_stage (Exited 0) (drop_session s))
                   | _ => None
                   end
       | Signal => match rn_handler s with Waiting => Some (Other, set_handler Signalled s) | _ => None end
       | OfHandler =>
           match rn_handler s with
           | Waiting => None
           | Signalled => Some (Farewell, set_handler SaidOffline
                            (tell (Some (offline (br_device (rn_bridge s)))) s))
           | SaidOffline => Some (Other, set_handler LeftBroker (set_session false s))
           | LeftBroker => Some (Other, set_stage (Exited 0) s)
           end
       | Lost => Some (Other, drop_session s)
       | Reconnect => match rn_handler s with LeftBroker => None | _ => Some (Other, set_session true s) end
       | Kill status => Some (Other, set_stage (Exited status) (drop_session s))
       end.

Fixpoint take_turns (ts : list Turn) (es : list Event) (s : Running) : option (list Event * Running) :=
  match ts with
  | [] => Some (es, s)
  | t :: ts' => match take_turn t s with
                | Some (e, s') => take_turns ts' (es ++ [e]) s'
                | None => None
                end
  end.

(** ** Lemmas *)

Lemma take_turn_step t s e s' : take_turn t s = Some (e, s') -> bridge_step s e s'.
Proof.
  unfold take_turn. destruct (alive s) eqn:Ha; [cbn [negb]|done].
  destruct t as [port| | | | | |status].
  - destruct (rn_stage s) eqn:Est; [|done..]. destruct (Scan _ _ _ _ _) as [r|] eqn:Er; [|done].
    destruct (sn_token r) as [text|] eqn:Et.
    + destruct (read_line (rn_bridge s) text) as [b p] eqn:El. intros [= <- <-].
      exact (step_line s port r text b p Est Er Et El).
    + intros [= <- <-]. exact (step_end s port r Est Er Et).
  - destruct (rn_handler s) eqn:Eh; intros [= <- <-]; by constructor.
  - destruct (rn_stage s) eqn:Est; [done| |done]. intros [= <- <-]. by constructor.
  - destruct (rn_handler s) eqn:Eh; [|done..]. intros [= <- <-]. by constructor.
  - intros [= <- <-]. by constructor.
  - destruct (rn_handler s) eqn:Eh; [| | |done]; intros [= <- <-]; constructor; congruence.
  - intros [= <- <-]. by constructor.
Qed.

Lemma take_turns_run s0 ts : forall es s es' s',
  bridge_runs s0 es s -> take_turns ts es s = Some (es', s') -> bridge_runs s0 es' s'.
Proof.
  induction ts as [|t ts IH]; intros es s es' s' Hr; simpl; [by intros [= <- <-]|].
  destruct (take_turn t s) as [[e s1]|] eqn:E; [|done]. apply IH.
  eapply runs_step; [exact Hr|]. by eapply take_turn_step.
Qed.

(** What the device said of its own status, in a line. *)
Definition status_in (device text v : string) : Prop :=
  exists p, said device text = Some p /\ pub_Topic p = status_topic device /\ pub_Payload p = v.

(** The device had something to say of its status between the farewell of the handler and
    its leaving the broker. *)
Definition overtaken (device : string) (es : list Event) (v : string) : Prop :=
  exists es1 text es2, es = es1 ++ Heard text :: es2 /\ In Farewell es1 /\ status_in device text v.

Lemma overtaken_snoc device es e v : overtaken device es v -> overtaken device (es ++ [e]) v.
Proof.
  intros (es1 & text & es2 & -> & Hf & Ht). exists es1, text, (es2 ++ [e]).
  by rewrite <- app_assoc.
Qed.


(** What a broker makes of a retained payload. *)
Definition kept_of (v : string) : option string := if is_empty v then None else Some v.

(** What the broker keeps is that the device is offline, unless the farewell was overtaken. *)
Definition known_gone (es : list Event) (s : Running) : Prop :=
  rn_kept s = Some "offline"%string \/
  exists v, overtaken (br_device (rn_bridge s)) es v /\ rn_kept s = kept_of v.

Record wary (es : list Event) (s : Running) : Prop := {
  wy_gone : rn_session s = false \/ rn_handler s = SaidOffline -> known_gone es s;
  wy_left : rn_handler s = LeftBroker \/ alive s = false -> rn_session s = false;
  wy_farewell : rn_handler s = SaidOffline -> In Farewell es
}.

Lemma keep_offline device kept : keep device (offline device) kept = Some "offline"%string.
Proof. unfold keep, offline, publish, status_topic. simpl. by rewrite str_eq_refl. Qed.

Lemma known_gone_snoc es e s s' :
  rn_kept s' = rn_kept s -> br_device (rn_bridge s') = br_device (rn_bridge s) ->
  known_gone es s -> known_gone (es ++ [e]) s'.
Proof.
  unfold known_gone. intros -> ->. intros [?|(v & Ho & ?)]; [by left|right].
  exists v. split; [by apply overtaken_snoc|done].
Qed.

(** A farewell, or the will, over a session. *)
Lemma offline_known es s :
  rn_kept s = Some "offline"%string -> known_gone es s.
Proof. by left. Qed.

Lemma tell_offline es s e :
  (rn_session s = false -> known_gone es s) ->
  known_gone (es ++ [e]) (tell (Some (offline (br_device (rn_bridge s)))) s).
Proof.
  intros H. unfold tell. destruct (rn_session s) eqn:E.
  - left. simpl. apply keep_offline.
  - by eapply known_gone_snoc; [| |apply H].
Qed.

Lemma drop_session_known es s e :
  (rn_session s = false -> known_gone es s) ->
  rn_session (drop_session s) = false /\ known_gone (es ++ [e]) (drop_session s) /\
  rn_handler (drop_session s) = rn_handler s /\ rn_stage (drop_session s) = rn_stage s /\
  rn_bridge (drop_session s) = rn_bridge s.
Proof.
  intros H. unfold drop_session. destruct (rn_session s) eqn:E.
  - split_and!; try done. left. simpl. apply keep_offline.
  - split_and!; try done. by eapply known_gone_snoc; [| |apply H].
Qed.

(** Whatever is published with a line is retained for the status or not kept. *)
Lemma tell_line es s text p r :
  said (br_device (rn_bridge s)) text = p -> wary es s ->
  let s' := tell p (set_bridge (hear (rn_bridge s) text) (set_reading r s)) in
  rn_session s' = false \/ rn_handler s' = SaidOffline -> known_gone (es ++ [Heard text]) s'.
Proof.
  intros Hp [Hg _ Hf]. assert (br_device (hear (rn_bridge s) text) = br_device (rn_bridge s)) as Ed
    by apply hear_device.
  assert (rn_session s = false \/ rn_handler s = SaidOffline ->
    known_gone (es ++ [Heard text]) (set_bridge (hear (rn_bridge s) text) (set_reading r s))) as Hsame
    by (intros H; eapply known_gone_snoc; [| |by apply Hg]; done).
  destruct p as [p|]; simpl; [|exact Hsame].
  destruct (rn_session s) eqn:Es; simpl; [|rewrite Es; exact Hsame].
  rewrite Es. intros [?|Hh]; [done|]. unfold keep. rewrite Ed.
  destruct (str_eq (pub_Topic p) _ && pub_Retain p) eqn:Ek; [|by apply Hsame; right].
  apply andb_true_iff in Ek as [Et%str_eq_true _]. right. exists (pub_Payload p).
  split; [|done]. exists es, text, []. split_and!; [done|by apply Hf|].
  exists p. cbn [rn_bridge set_kept set_bridge]. by rewrite Ed.
Qed.

(** [tell] changes what the broker keeps and nothing else. *)
Lemma tell_same p s :
  rn_session (tell p s) = rn_session s /\ rn_handler (tell p s) = rn_handler s /\
  rn_stage (tell p s) = rn_stage s /\ rn_bridge (tell p s) = rn_bridge s.
Proof. unfold tell. destruct p; [|done]. by destruct (rn_session s) eqn:E. Qed.

Lemma wary_same es e s s' :
  rn_kept s' = rn_kept s -> br_device (rn_bridge s') = br_device (rn_bridge s) ->
  rn_session s' = rn_session s -> rn_handler s' = rn_handler s -> rn_stage s' = rn_stage s ->
  wary es s -> wary (es ++ [e]) s'.
Proof.
  intros Ek Eb Es Eh Est [Hg Hl Hf]. split; unfold alive; rewrite ?Es, ?Eh, ?Est.
  - intros H. eapply known_gone_snoc; [done|done|by apply Hg].
  - exact Hl.
  - intros H. apply in_or_app. left. by apply Hf.
Qed.

Lemma wary_dropped es e s st :
  wary es s -> wary (es ++ [e]) (set_stage st (drop_session s)).
Proof.
  intros [Hg Hl Hf]. destruct (drop_session_known es s e) as (E1 & E2 & E3 & _ & _); [auto|].
  split; cbn [rn_session rn_handler set_stage]; rewrite ?E1, ?E3; [intros _; exact E2|done|].
  intros H. apply in_or_app. left. by apply Hf.
Qed.

Lemma bridge_step_wary es s e s' : wary es s -> bridge_step s e s' -> wary (es ++ [e]) s'.
Proof.
  intros Hw Hs. pose proof Hw as [Hg Hl Hf].
  assert (rn_session s = false -> known_gone es s) as Hg' by auto.
  destruct Hs as [s port r text b p Hst _ _ E|s port r Hst _ _|s Hst|s Ha Hh|s Ha Hh|s Ha Hh|s Ha Hh
    |s write topic payload Ha Hses|s Ha|s Ha Hh|s status Ha].
  - assert (b = hear (rn_bridge s) text) as -> by (unfold hear; by rewrite E).
    assert (said (br_device (rn_bridge s)) text = p) as Hp
      by (rewrite read_line_said in E; congruence).
    pose proof (tell_line es s text p r Hp Hw) as Ht.
    destruct (tell_same p (set_bridge (hear (rn_bridge s) text) (set_reading r s))) as (E1 & E2 & E3 & _).
    split; [exact Ht|..]; unfold alive; rewrite ?E1, ?E2, ?E3; [exact Hl|].
    intros H. apply in_or_app. left. by apply Hf.
  - change (rn_bridge s) with (rn_bridge (set_reading r s)).
    destruct (tell_same (Some (offline (br_device (rn_bridge (set_reading r s))))) (set_reading r s))
      as (E1 & E2 & _ & _).
    split; unfold alive; cbn [rn_session rn_handler rn_stage set_stage]; rewrite ?E1, ?E2.
    + intros _. apply (tell_offline es (set_reading r s) Other). exact Hg'.
    + intros [H|H]; [|done]. apply Hl. by left.
    + intros H. apply in_or_app. left. by apply Hf.
  - by apply wary_dropped.
  - split; unfold alive; cbn.
    + intros [H|H]; [|done]. eapply known_gone_snoc; [| |by apply Hg']; done.
    + intros [H|H]; [done|]. apply Hl. by right.
    + done.
  - destruct (tell_same (Some (offline (br_device (rn_bridge s)))) s) as (E1 & E2 & E3 & _).
    split; unfold alive; cbn [rn_session rn_handler rn_stage set_handler]; rewrite ?E1, ?E3.
    + intros _. by apply tell_offline.
    + intros [H|H]; [done|]. apply Hl. by right.
    + intros _. apply in_or_app. right. by left.
  - split; [|done|done]. intros _. eapply known_gone_snoc; [| |apply Hg; by right]; done.
  - split; unfold alive; cbn.
    + intros _. eapply known_gone_snoc; [| |apply Hg; left; apply Hl; by left]; done.
    + intros _. apply Hl. by left.
    + congruence.
  - eapply wary_same; [..|exact Hw]; try done. unfold onCommand. cbn. by destruct (write _).
  - assert (drop_session s = set_stage (rn_stage s) (drop_session s)) as ->
      by (unfold drop_session; by destruct (rn_session s); destruct s).
    by apply wary_dropped.
  - split; cbn.
    + intros [H|H]; [done|]. eapply known_gone_snoc; [| |apply Hg; by right]; done.
    + intros [H|H]; [done|]. unfold alive in Ha, H. cbn in H. destruct (rn_stage s); done.
    + intros H. apply in_or_app. left. by apply Hf.
  - by apply wary_dropped.
Qed.

Lemma bridge_runs_wary b kept es s : bridge_runs (running b kept) es s -> wary es s.
Proof.
  intros Hr. remember (running b kept) as s0 eqn:E0.
  induction Hr as [|es s' e s'' _ IH Hs]; subst; [|by eapply bridge_step_wary; [apply IH|]].
  split; cbn; [by intros [?|?]|by intros [?|?]|done].
Qed.

(** The device of a process is the one it was started for. *)
Lemma bridge_step_device s e s' :
  bridge_step s e s' -> br_device (rn_bridge s') = br_device (rn_bridge s).
Proof.
  assert (forall p s, rn_bridge (tell p s) = rn_bridge s) as Ht by apply tell_same.
  assert (forall s, rn_bridge (drop_session s) = rn_bridge s) as Hd
    by (intros s0; unfold drop_session; by destruct (rn_session s0)).
  intros []; cbn [rn_bridge set_stage set_handler set_session set_reading]; rewrite ?Ht, ?Hd; try done.
  - cbn. match goal with H : read_line _ _ = _ |- _ => rewrite read_line_said in H; by injection H as <- _ end.
  - unfold onCommand. cbn. by destruct (write _).
Qed.

Lemma bridge_runs_device s0 es s :
  bridge_runs s0 es s -> br_device (rn_bridge s) = br_device (rn_bridge s0).
Proof. intros Hr. induction Hr as [|es s' e s'' _ IH Hs]; [done|]. by rewrite (bridge_step_device _ _ _ Hs). Qed.

(** ** Theorems *)

(** C37. No device outlives its bridge. However a bridge that was started comes to its
    end (its port closes, it is interrupted, it is killed), whatever came over the wire
    and from the network before and in whatever order its goroutines ran, the broker no
    longer holds a session of it, and what it keeps for the status of the device is that
    it is offline; the one exception is an interrupt whose farewell the device itself
    overtook, by something it said of its status before the handler had left the broker.
    A bridge that could not start has said nothing. *)
Theorem bridge_last_word device port broker open connect kept b es s status :
  bridge_start device port broker open connect = Ok b ->
  bridge_runs (running b kept) es s -> rn_stage s = Exited status ->
  rn_session s = false /\
  (rn_kept s = Some "offline"%string \/
   exists v, overtaken device es v /\ rn_kept s = kept_of v) /\
  (~ In Farewell es -> rn_kept s = Some "offline"%string).
Proof.
  intros Hb Hr Hst.
  assert (b = newBridge device) as ->.
  { unfold bridge_start in Hb. destruct (_ || _); [done|]. destruct open; [done|].
    by destruct connect; [injection Hb as <-|..]. }
  destruct (bridge_runs_wary _ kept es s Hr) as [Hg Hl _].
  assert (rn_session s = false) as Hs by (apply Hl; right; unfold alive; by rewrite Hst).
  assert (known_gone es s) as Hk by auto.
  unfold known_gone in Hk. rewrite (bridge_runs_device _ _ _ Hr) in Hk. simpl in Hk.
  split_and!; [done|done|]. intros Hn. destruct Hk as [?|(v & (es1 & text & es2 & -> & Hf & _) & _)]; [done|].
  destruct Hn. apply in_or_app. by left.
Qed.

(** ** Concrete runs *)

Definition online_line : Port := fun _ _ => ("PUB status online" +:+ crlf, None)%string.
Definition unplugged : Port := fun _ _ => (""%string, Some EOF).
Definition nrf_bridge : Running := running (newBridge "nrf-01") None.

(** The device is heard, and its cable pulled. *)
Definition unplugged_schedule : list Turn := [OfReader online_line; OfReader unplugged; OfMain].

Lemma bridge_last_word_witness :
  exists es s, take_turns unplugged_schedule [] nrf_bridge = Some (es, s) /\
    rn_stage s = Exited 0 /\ rn_session s = false /\ rn_kept s = Some "offline"%string.
Proof.
  destruct (take_turns unplugged_schedule [] nrf_bridge) as [[es s]|] eqn:E; [|vm_compute in E; discriminate E].
  assert (rn_stage s = Exited 0 /\ es = [Heard "PUB status online"; Other; Other]) as [Hst Hes]
    by (vm_compute in E; injection E as <- <-; split; reflexivity).
  exists es, s. split; [reflexivity|]. split; [exact Hst|].
  destruct (bridge_last_word "nrf-01" "/dev/ttyACM0" "tcp://127.0.0.1:1883" None TokenDone None
    (newBridge "nrf-01") es s 0 eq_refl) as (H1 & _ & H2).
  - eapply take_turns_run; [apply runs_refl|exact E].
  - exact Hst.
  - split; [exact H1|]. apply H2. rewrite Hes. intros [H|[H|[H|[]]]]; discriminate H.
Defined.

(** Interrupted while the device is heard, and its cable pulled. *)
Example interrupted :
  (fun '(_, s) => (rn_stage s, rn_session s, rn_kept s)) <$>
    take_turns [OfReader online_line; Signal; OfHandler; OfReader unplugged; OfHandler; OfHandler] [] nrf_bridge
  = Some (Exited 0, false, Some "offline"%string).
Proof. vm_compute. reflexivity. Qed.

(** A device that reports while the bridge is being interrupted stays online for good. *)
Example farewell_overtaken :
  (fun '(_, s) => (rn_stage s, rn_session s, rn_kept s)) <$>
    take_turns [Signal; OfHandler; OfReader online_line; OfHandler; OfHandler] [] nrf_bridge
  = Some (Exited 0, false, Some "online"%string).
Proof. vm_compute. reflexivity. Qed.

(** After the broker was away, a device that goes on talking is offline until it next
    reports its status: the bridge says nothing when it is back. *)
Example back_but_offline :
  (fun '(_, s) => (rn_stage s, rn_session s, rn_kept s)) <$>
    take_turns [OfReader online_line; Lost; Reconnect;
                OfReader (fun _ _ => ("PUB sensor/t/state 21.50" +:+ crlf, None)%string)] [] nrf_bridge
  = Some (Reading, true, Some "offline"%string).
Proof. vm_compute. reflexivity. Qed.
