(* ===== verification/Nrf.v ===== *)
(** * The device at the other end of the bridge: firmware/nrf9160

    What the firmware says over the serial line and what it does with what it is told,
    byte by byte, with its buffers at their sizes. A [None] is a read past the end of a
    buffer. The two threads of the firmware share the line; each is modelled by itself. *)

From Stdlib Require Import Ascii.
From S2P Require Import Prelude GoTime GoFloat GoParseFloat GoStrings Types Driver Bridge.
Local Open Scope Z_scope.
Local Open Scope torpor_scope.

(** ** Definitions: what is baked into the image *)

Record Image := mkImage {
  DEVICE_ID : string; FIRMWARE_HASH : string; DEVICE_MODEL : string; BUILD_TIME : string }.

(** ** Definitions: C strings *)

Definition nul : ascii := "000"%char.

(** The bytes before the first NUL. *)
Fixpoint c_string (s : string) : string :=
  match s with
  | EmptyString => EmptyString
  | String c s' => if Ascii.eqb c nul then EmptyString else String c (c_string s')
  end.

(** [snprintf] into a buffer of [n] bytes. *)
Definition snprintf (n : nat) (s : string) : string := String.substring 0 (n - 1) s.

(** [strchr], and what is before and after the byte it finds. *)
Fixpoint strchr (b : ascii) (s : string) : option (string * string) :=
  match s with
  | EmptyString => None
  | String c s' =>
      if Ascii.eqb c b then Some (""%string, s')
      else match strchr b s' with
           | Some (before, after) => Some (String c before, after)
           | None => None
           end
  end.

(** ** Definitions: device to host *)

Definition lineSize : nat := 192.

(** [pub]: [snprintf] returns what it would have written, and the loop sends as many
    bytes from the buffer. *)
Definition pub (suffix value : string) : option string :=
  let line := ("PUB " +:+ suffix +:+ " " +:+ value +:+ crlf)%string in
  if (String.length line <? lineSize)%nat then Some line
  else if (String.length line =? lineSize)%nat
  then Some (snprintf lineSize line +:+ String nul "")%string else None.

Definition printk (text : string) : string := (text +:+ String newline "")%string.

Section Firmware.
Context (image : Image).

(** ** Definitions: host to device *)

(** [on_firmware_url]: what is sent, and [last_firmware_token] afterwards. The comparison
    is over 64 bytes, the copy over 63. *)
Definition on_firmware_url (value last : string) : option (string * string) :=
  echo ← pub "text/firmware_url/state" value;
  if str_eq (String.substring 0 64 value) last then Some (echo, last)
  else
    let last' := String.substring 0 63 value in
    Some (echo +:+ match strchr "|" value with
                   | None => printk "# firmware_url malformed, want <hash>|<url>"
                   | Some (hash, url) =>
                       if str_eq hash (FIRMWARE_HASH image)
                       then printk ("# already running " +:+ FIRMWARE_HASH image +:+ ", nothing to do")
                       else printk ("# would flash " +:+ url +:+
                              " — MCUmgr not implemented, staying on " +:+ FIRMWARE_HASH image)
                   end, last')%string.

Definition handle_line (line last : string) : option (string * string) :=
  if negb (String.prefix "SUB " line) then Some (""%string, last)
  else match strchr " " (String.substring 4 (String.length line - 4) line) with
       | None => Some (""%string, last)
       | Some (suffix, value) =>
           let len := String.length suffix in
           if str_eq suffix "text/firmware_url/command" then on_firmware_url value last
           else if (8 <? len)%nat && str_eq (String.substring (len - 8) 8 suffix) "/command"
           then out ← pub (snprintf 128 (String.substring 0 (len - 8) suffix +:+ "/state")) value;
                Some (out, last)
           else Some (""%string, last)
       end.

(** The receiving thread: the bytes of the line so far, and the last token. *)
Record Rx := mkRx { rx_buf : string; rx_last : string }.

Definition rx_byte (st : Rx) (ch : ascii) : option (string * Rx) :=
  if Ascii.eqb ch newline || Ascii.eqb ch "013" then
    if is_empty (rx_buf st) then Some (""%string, st)
    else '(out, last) ← handle_line (c_string (rx_buf st)) (rx_last st);
         Some (out, mkRx "" last)
  else if (String.length (rx_buf st) <? lineSize - 1)%nat
  then Some (""%string, mkRx (rx_buf st +:+ String ch "") (rx_last st))
  else Some (""%string, mkRx "" (rx_last st)).

Fixpoint rx_thread (st : Rx) (bytes : string) : option (string * Rx) :=
  match bytes with
  | EmptyString => Some (""%string, st)
  | String ch bytes' =>
      '(out, st') ← rx_byte st ch;
      '(out', st'') ← rx_thread st' bytes';
      Some ((out +:+ out')%string, st'')
  end.

(** ** Definitions: the reporting thread *)

Definition announcement : string :=
  (let q := String "034"%char "" in
   let field name value := q +:+ name +:+ q +:+ ":" +:+ q +:+ value +:+ q in
   snprintf 256 ("{" +:+ field "device" (DEVICE_ID image) +:+ "," +:+ field "model" (DEVICE_MODEL image) +:+
     "," +:+ field "topicPrefix" (DEVICE_ID image) +:+ "," +:+ field "configHash" (FIRMWARE_HASH image) +:+
     "," +:+ field "firmwareVersion" "zephyr" +:+ "," +:+ field "buildTime" (BUILD_TIME image) +:+ "}"))%string.

(** [%d.%02d] of thousandths. *)
Definition hundredths (milli : Z) : string :=
  let n := (milli mod 1000) / 10 in
  (pretty (milli / 1000) +:+ "." +:+ (if (n <? 10)%Z then "0" else "") +:+ pretty n)%string.

(** One turn of the loop of [main], for two random words and an uptime in seconds. *)
Definition report_cycle (r1 r2 uptime : Z) : list (string * string) :=
  [("sensor/temperature/state", hundredths (20000 + r1 mod 10000));
   ("sensor/humidity/state", hundredths (35000 + r2 mod 15000));
   ("text_sensor/running_config_hash/state", FIRMWARE_HASH image);
   ("sensor/uptime/state", snprintf 32 (pretty uptime));
   ("status", "online"); ("announce", announcement)]%string.

Definition greeting : list (string * string) :=
  [("status", "online"); ("announce", announcement)]%string.

Fixpoint pub_all (l : list (string * string)) : option string :=
  match l with
  | [] => Some ""%string
  | (suffix, value) :: l' => out ← pub suffix value; rest ← pub_all l'; Some (out +:+ rest)%string
  end.
End Firmware.

Definition nrf_01 : Image := mkImage "nrf-01" "a1b2c3d" "nrf9160dk" "Aug 30 2026 12:00:00".

Example cycle_fits : pub_all (greeting nrf_01 ++ report_cycle nrf_01 4294967295 0 86400) <> None.
Proof. vm_compute. discriminate. Qed.

(** ** Lemmas: buffers *)

#[local] Opaque lineSize.

Lemma length_substring s n m : (String.length (String.substring n m s) <= m)%nat.
Proof.
  revert n m. induction s as [|c s IH]; intros [|n] [|m]; simpl; try lia.
  - specialize (IH 0%nat m). lia.
  - specialize (IH n 0%nat). lia.
  - specialize (IH n (S m)). lia.
Qed.

Lemma length_substring_le s n m : (String.length (String.substring n m s) <= String.length s)%nat.
Proof.
  revert n m. induction s as [|c s IH]; intros [|n] [|m]; simpl; try lia.
  - specialize (IH 0%nat m). lia.
  - specialize (IH n 0%nat). lia.
  - specialize (IH n (S m)). lia.
Qed.

Lemma length_c_string s : (String.length (c_string s) <= String.length s)%nat.
Proof. induction s as [|c s IH]; simpl; [lia|]. destruct (Ascii.eqb c nul); simpl; lia. Qed.

Lemma strchr_length b s before after :
  strchr b s = Some (before, after) ->
  String.length s = (String.length before + S (String.length after))%nat.
Proof.
  revert before. induction s as [|c s IH]; intros before; [done|]. simpl.
  destruct (Ascii.eqb c b); [by intros [= <- <-]|].
  destruct (strchr b s) as [[x y]|]; [|done]. intros [= <- <-]. simpl. by rewrite (IH x eq_refl).
Qed.

Lemma pub_exact suffix value :
  (String.length suffix + String.length value + 7 < lineSize)%nat ->
  pub suffix value = Some ("PUB " +:+ suffix +:+ " " +:+ value +:+ crlf)%string.
Proof.
  intros H. unfold pub. rewrite (proj2 (Nat.ltb_lt _ lineSize)); [done|].
  rewrite !length_str_app. simpl. lia.
Qed.

Lemma substring_cut s n : String.length (String.substring n (String.length s - n) s) = (String.length s - n)%nat.
Proof.
  revert s. induction n as [|n IH]; intros s.
  - rewrite Nat.sub_0_r. by rewrite substring_all.
  - destruct s as [|c s]; [done|]. apply IH.
Qed.

Lemma handle_line_total image line last :
  (String.length line < lineSize)%nat -> exists r, handle_line image line last = Some r.
Proof.
  intros Hl. unfold handle_line. destruct (String.prefix "SUB " line) eqn:Ep; [|by eexists].
  simpl negb. cbv iota. apply prefix_inv in Ep. apply (f_equal String.length) in Ep.
  destruct (strchr " " _) as [[suffix value]|] eqn:Es; [|by eexists].
  apply strchr_length in Es. rewrite substring_cut in Es.
  assert (4 <= String.length line)%nat.
  { rewrite Ep, length_str_app. simpl. lia. }
  assert (String.length suffix + String.length value + 5 = String.length line)%nat as Hsum by lia.
  cbv zeta. destruct (str_eq suffix _) eqn:E1.
  - apply str_eq_true in E1. subst suffix. unfold on_firmware_url.
    rewrite pub_exact by (simpl in *; lia). simpl. by destruct (str_eq _ _); eexists.
  - destruct (Nat.ltb_spec 8 (String.length suffix)); simpl; [|by eexists].
    destruct (str_eq _ "/command"); [|by eexists].
    rewrite pub_exact; [by eexists|].
    pose proof (length_substring (String.substring 0 (String.length suffix - 8) suffix +:+ "/state") 0 (128 - 1)).
    pose proof (length_substring_le (String.substring 0 (String.length suffix - 8) suffix +:+ "/state") 0 (128 - 1)) as Hle.
    rewrite length_str_app in Hle. pose proof (length_substring suffix 0 (String.length suffix - 8)).
    unfold snprintf. simpl (String.length "/state") in Hle. lia.
Qed.

(** ** Properties *)

(** C36. The device survives whatever it is sent: no sequence of bytes makes the receiving
    thread read or write past a buffer, and the line it is collecting always leaves room
    for the byte that ends it. *)
Theorem rx_thread_bounded image st bytes :
  (String.length (rx_buf st) < lineSize)%nat ->
  exists out st', rx_thread image st bytes = Some (out, st') /\
    (String.length (rx_buf st') < lineSize)%nat.
Proof.
  revert st. induction bytes as [|ch bytes IH]; intros st Hb; simpl; [by eexists _, _|].
  assert (exists out st', rx_byte image st ch = Some (out, st') /\
    (String.length (rx_buf st') < lineSize)%nat) as (out & st' & -> & Hb').
  { unfold rx_byte. destruct (_ || _).
    - destruct (is_empty (rx_buf st)); [by eexists _, _|].
      destruct (handle_line_total image (c_string (rx_buf st)) (rx_last st)) as [[out last] ->].
      + pose proof (length_c_string (rx_buf st)). lia.
      + eexists _, _. split; [done|]. simpl. lia.
    - destruct (Nat.ltb_spec (String.length (rx_buf st)) (lineSize - 1)); eexists _, _; (split; [done|]);
        simpl; [rewrite length_str_app; simpl; lia|lia]. }
  simpl. destruct (IH st' Hb') as (out' & st'' & -> & Hb''). by eexists _, _.
Qed.

(** ** Lemmas: spaces at the end of a line *)

Lemma starts_with_stops codes r c p :
  byte_code c < 128 -> starts_with codes (r +:+ String c p) = true -> Forall (fun k => 128 <= k) codes ->
  (length codes <= String.length r)%nat.
Proof.
  intros Hc. revert r. induction codes as [|k codes IH]; intros r; simpl; [lia|].
  intros Hs Hf. inversion Hf as [|? ? Hk Hf']; subst. destruct r as [|d r].
  - change ("" +:+ String c p)%string with (String c p) in Hs. cbn [starts_with] in Hs.
    destruct (Z.eqb_spec (byte_code c) k); [lia|done].
  - rewrite str_app_cons in Hs. apply andb_true_iff in Hs as [_ Hs]. specialize (IH r Hs Hf'). simpl. lia.
Qed.

Lemma wide_space_codes : Forall (Forall (fun k => 128 <= k)) wide_spaces.
Proof. unfold wide_spaces. repeat constructor; discriminate. Qed.

Lemma space_width_stops d r c p :
  byte_code c < 128 -> (space_width (String d (r +:+ String c p)) <= S (String.length r))%nat.
Proof.
  intros Hc. unfold space_width. destruct (is_ascii_space d); [lia|].
  destruct (find _ wide_spaces) as [codes|] eqn:Ef; [|lia].
  apply find_some in Ef as [Hin Hs]. rewrite <- str_app_cons in Hs.
  apply starts_with_stops in Hs; [exact Hs|done|].
  pose proof wide_space_codes as Hw. rewrite List.Forall_forall in Hw. by apply Hw.
Qed.

(** An ASCII byte is not within a longer space. *)
Lemma all_spaces_tail k r c p :
  byte_code c < 128 -> (k <= String.length r)%nat ->
  all_spaces k (r +:+ String c p) = true -> all_spaces 0 (String c p) = true.
Proof.
  intros Hc. revert k. induction r as [|d r IH]; intros k Hk.
  - simpl in Hk. assert (k = 0%nat) as -> by lia. done.
  - rewrite str_app_cons. cbn [all_spaces]. simpl in Hk.
    destruct k as [|k]; [|apply IH; lia].
    destruct (space_width _) as [|k] eqn:Ew; [done|].
    pose proof (space_width_stops d r c p Hc) as Hw. rewrite Ew in Hw. apply IH. lia.
Qed.

Lemma trim_right_keeps r c p :
  byte_code c < 128 -> all_spaces 0 (String c p) = false -> trim_right (String c p) = String c p ->
  trim_right (r +:+ String c p) = (r +:+ String c p)%string.
Proof.
  intros Hc Hs E. induction r as [|d r IH]; [exact E|]. rewrite str_app_cons. cbn [trim_right]. rewrite IH.
  destruct (all_spaces 0 (String d (r +:+ String c p))) eqn:Ea; [|done].
  rewrite <- str_app_cons in Ea. apply all_spaces_tail in Ea; [congruence|done|lia].
Qed.

Lemma trim_right_spaces p : p <> ""%string -> trim_right p = p -> all_spaces 0 p = false.
Proof.
  intros Hne Ht. destruct p as [|c p]; [done|]. cbn [trim_right] in Ht.
  by destruct (all_spaces 0 (String c p)).
Qed.

Lemma trim_right_app r p :
  p <> ""%string -> trim_right p = p ->
  trim_right (r +:+ String " " p) = (r +:+ String " " p)%string.
Proof.
  intros Hne Ht. pose proof (trim_right_spaces p Hne Ht) as Hs.
  apply trim_right_keeps; [done|exact Hs|].
  cbn [trim_right]. change (all_spaces 0 (String " " p)) with (all_spaces 0 p). by rewrite Hs, Ht.
Qed.

Definition no_breaks (s : string) : bool := no_byte newline s && no_byte "013" s && no_byte nul s.

(** Bytes one can see. *)
Definition visible (c : ascii) : bool := (32 <? byte_code c) && (byte_code c <? 127).

Lemma visible_width c s : visible c = true -> space_width (String c s) = 0%nat.
Proof. intros H. destruct c as [[] [] [] [] [] [] [] []]; try discriminate H; reflexivity. Qed.

Lemma visible_breaks c : visible c = true ->
  Ascii.eqb c newline = false /\ Ascii.eqb c "013" = false /\ Ascii.eqb c nul = false.
Proof. intros H. destruct c as [[] [] [] [] [] [] [] []]; try discriminate H; done. Qed.

Lemma trim_right_visible r c :
  visible c = true -> trim_right (r +:+ String c "") = (r +:+ String c "")%string.
Proof.
  intros Hc. pose proof (visible_width c "" Hc) as Hw. apply trim_right_keeps.
  - unfold visible in Hc. apply andb_true_iff in Hc as [_ Hc]. lia.
  - cbn [all_spaces]. by rewrite Hw.
  - cbn [trim_right all_spaces]. by rewrite Hw.
Qed.

Lemma all_visible v : all_bytes visible v = true -> trim_right v = v /\ no_breaks v = true.
Proof.
  intros H. split.
  - induction v as [|c v IH]; [done|]. simpl in H. apply andb_true_iff in H as [Hc Hv].
    cbn [trim_right all_spaces]. by rewrite visible_width, IH.
  - unfold no_breaks. induction v as [|c v IH]; [done|]. simpl in *. apply andb_true_iff in H as [Hc Hv].
    destruct (visible_breaks c Hc) as (-> & -> & ->). by apply IH.
Qed.

(** A line of the firmware whose value has no space at its end is read as it is. *)
Lemma TrimSpace_pub suffix value :
  value <> ""%string -> trim_right value = value ->
  TrimSpace ("PUB " +:+ suffix +:+ String " " value) = ("PUB " +:+ suffix +:+ String " " value)%string.
Proof.
  intros Hne Ht. unfold TrimSpace.
  change (drop_spaces 0 ("PUB " +:+ suffix +:+ String " " value)) with ("PUB " +:+ suffix +:+ String " " value)%string.
  rewrite <- str_app_assoc. by apply trim_right_app.
Qed.

(** ** Lemmas: one line each way *)

Lemma no_byte_app c s t : no_byte c (s +:+ t) = no_byte c s && no_byte c t.
Proof. induction s as [|d s IH]; [done|]. rewrite str_app_cons. simpl. by rewrite IH, andb_assoc. Qed.

Lemma no_breaks_app s t : no_breaks (s +:+ t) = no_breaks s && no_breaks t.
Proof. unfold no_breaks. rewrite !no_byte_app. by destruct (no_byte _ s), (no_byte _ s), (no_byte _ s), (no_byte _ t), (no_byte _ t), (no_byte _ t). Qed.

Lemma c_string_id s : no_byte nul s = true -> c_string s = s.
Proof.
  induction s as [|c s IH]; [done|]. simpl. destruct (Ascii.eqb c nul); [done|]. intros H.
  by rewrite IH.
Qed.

Lemma strchr_space s : strchr " " s = cut_space s.
Proof. induction s as [|c s IH]; [done|]. simpl. by rewrite IH. Qed.

(** The bytes of a line are collected. *)
Lemma rx_collect image line buf last rest :
  no_breaks line = true -> (String.length buf + String.length line < lineSize)%nat ->
  rx_thread image (mkRx buf last) (line +:+ rest) = rx_thread image (mkRx (buf +:+ line) last) rest.
Proof.
  revert buf. induction line as [|c line IH]; intros buf Hn Hl.
  { by rewrite str_app_nil_r. }
  rewrite str_app_cons. cbn [rx_thread]. unfold no_breaks in Hn. simpl in Hn, Hl.
  rewrite !andb_true_iff, !negb_true_iff in Hn. destruct Hn as [[[H1 H2] [H3 H4]] [_ H5]].
  unfold rx_byte. rewrite H1, H3. cbn [orb rx_buf rx_last].
  rewrite (proj2 (Nat.ltb_lt _ _)) by lia. simpl. rewrite IH.
  - rewrite str_app_assoc. change (String c "" +:+ line)%string with (String c line).
    by destruct (rx_thread image _ rest) as [[out st']|].
  - unfold no_breaks. by rewrite H2, H4, H5.
  - rewrite length_str_app. simpl. lia.
Qed.

Lemma rx_line image line last :
  no_breaks line = true -> line <> ""%string -> (String.length line < lineSize)%nat ->
  rx_thread image (mkRx "" last) (line +:+ String newline "") =
  ('(out, last') ← handle_line image line last; Some (out, mkRx "" last')).
Proof.
  intros Hn Hne Hl. rewrite rx_collect by done. change ("" +:+ line)%string with line.
  cbn [rx_thread]. unfold rx_byte. cbn [orb rx_buf rx_last Ascii.eqb].
  change (Ascii.eqb newline newline) with true. cbn [orb].
  rewrite (proj2 (str_eq_false line "") Hne : is_empty line = false).
  unfold no_breaks in Hn. rewrite !andb_true_iff in Hn. rewrite c_string_id by tauto.
  destruct (handle_line image line last) as [[out last']|]; simpl; [|done]. by rewrite str_app_nil_r.
Qed.

Lemma cut_line_end line rest :
  no_byte newline line = true -> cut_line (line +:+ String newline rest) = Some (line, rest).
Proof.
  induction line as [|c line IH]; [done|]. rewrite str_app_cons. simpl.
  rewrite andb_true_iff, negb_true_iff. intros [-> Hn]. by rewrite IH.
Qed.

Lemma dropCR_crlf line : dropCR (line +:+ String "013" "") = line.
Proof.
  induction line as [|c line IH]; [done|]. rewrite str_app_cons.
  cbn [dropCR]. destruct (line +:+ String "013" "")%string eqn:E; [by destruct line|]. by rewrite IH.
Qed.

Lemma heard_pub line rest err :
  no_byte newline line = true -> heard (line +:+ crlf +:+ rest) err = line :: heard rest err.
Proof.
  intros Hn. rewrite (heard_line _ (line +:+ String "013" "") rest).
  - by rewrite dropCR_crlf.
  - rewrite <- (cut_line_end (line +:+ String "013" "") rest).
    + by rewrite !str_app_assoc.
    + rewrite no_byte_app, Hn. done.
Qed.

(** What [printk] adds is a comment to the bridge. *)
Definition comment (text : string) : Prop :=
  text = ""%string \/
  exists line, text = printk (String "#" line) /\ no_byte newline line = true.

Lemma said_comment device line : said device (String "#" line) = None.
Proof.
  unfold said, read_line. assert (exists s, TrimSpace (String "#" line) = String "#" s) as [s ->].
  { by exists (trim_right line). }
  assert (is_empty (String "#" s) = false) as -> by done.
  change (String "#" s) with ("#" +:+ s)%string. by rewrite prefix_app.
Qed.

Lemma dropCR_comment line : dropCR (String "#" line) = String "#" (dropCR line).
Proof. by destruct line. Qed.

Lemma comment_unsaid device text err :
  comment text -> omap (said device) (heard text err) = [].
Proof.
  intros [->|(line & -> & Hn)].
  - unfold heard. by destruct err as [[]|].
  - unfold printk. rewrite (heard_line _ (String "#" line) ""); [|by apply cut_line_end].
    rewrite dropCR_comment. cbn [omap list_omap]. rewrite said_comment.
    unfold heard. by destruct err as [[]|].
Qed.

Lemma strchr_inv b s before after :
  strchr b s = Some (before, after) -> s = (before +:+ String b after)%string.
Proof.
  revert before. induction s as [|c s IH]; intros before; [done|]. simpl.
  destruct (Ascii.eqb c b) eqn:Ec; [apply Ascii.eqb_eq in Ec as ->; by intros [= <- <-]|].
  destruct (strchr b s) as [[x y]|]; [|done]. intros [= <- <-]. by rewrite (IH x eq_refl).
Qed.

(** A firmware URL is echoed, whatever else is done with it. *)
Lemma on_firmware_url_echo image value last :
  (String.length value + 30 < lineSize)%nat -> no_byte newline value = true ->
  no_byte newline (FIRMWARE_HASH image) = true ->
  exists tail last', comment tail /\ on_firmware_url image value last =
    Some ("PUB text/firmware_url/state " +:+ value +:+ crlf +:+ tail, last')%string.
Proof.
  intros Hl Hv Hh. unfold on_firmware_url. rewrite pub_exact by (simpl; lia). simpl.
  destruct (str_eq _ last).
  { exists ""%string, last. rewrite str_app_nil_r. split; [by left|done]. }
  set (tail := match strchr "|" value with None => _ | Some _ => _ end).
  exists tail, (String.substring 0 63 value). rewrite !str_app_assoc. split; [|done].
  subst tail. destruct (strchr "|" value) as [[hash url]|] eqn:Es; [|right; by eexists].
  apply strchr_inv in Es as ->. rewrite no_byte_app in Hv. apply andb_true_iff in Hv as [_ Hv].
  simpl in Hv. destruct (str_eq hash _); right.
  - exists (" already running " +:+ FIRMWARE_HASH image +:+ ", nothing to do")%string.
    split; [done|]. by rewrite !no_byte_app, Hh.
  - exists (" would flash " +:+ url +:+ " — MCUmgr not implemented, staying on " +:+ FIRMWARE_HASH image)%string.
    split; [done|]. by rewrite !no_byte_app, Hh, Hv.
Qed.

Lemma substring_head s t : String.substring 0 (String.length s) (s +:+ t) = s.
Proof. induction s as [|c s IH]; [by destruct t|]. rewrite str_app_cons. simpl. by rewrite IH. Qed.

(** A command is answered on the state topic next to it. *)
Lemma handle_command image name payload last :
  name <> ""%string -> no_byte " " name = true ->
  (String.length name <= 121)%nat -> (String.length name + String.length payload + 13 < lineSize)%nat ->
  no_byte newline payload = true -> no_byte newline (FIRMWARE_HASH image) = true ->
  exists tail last', comment tail /\
    handle_line image ("SUB " +:+ (name +:+ "/command") +:+ " " +:+ payload) last =
    Some ("PUB " +:+ (name +:+ "/state") +:+ " " +:+ payload +:+ crlf +:+ tail, last')%string.
Proof.
  intros Hne Hsp Hlen Hl Hp Hh. unfold handle_line. rewrite prefix_app. simpl negb. cbv iota.
  pose proof (substring_app "SUB " ((name +:+ "/command") +:+ " " +:+ payload)) as Esub.
  change (String.length "SUB ") with 4%nat in Esub. rewrite Esub.
  rewrite strchr_space. change (" " +:+ payload)%string with (String " " payload).
  rewrite cut_space_app by (by rewrite no_byte_app, Hsp). cbv zeta.
  destruct (str_eq (name +:+ "/command") _) eqn:E.
  - apply str_eq_true in E. assert (name = "text/firmware_url"%string) as ->.
    { pose proof (substring_head name "/command") as En. rewrite E in En.
      assert (String.length name = 17)%nat as El.
      { apply (f_equal String.length) in E. rewrite length_str_app in E. simpl in E. lia. }
      by rewrite El in En. }
    destruct (on_firmware_url_echo image payload last) as (tail & last' & Ht & ->); [simpl in *; lia|done|done|].
    exists tail, last'. split; [done|]. done.
  - rewrite length_str_app. simpl (String.length "/command").
    assert (String.length name <> 0)%nat by (by destruct name).
    rewrite (proj2 (Nat.ltb_lt _ _)) by lia. rewrite Nat.add_sub.
    assert (String.substring (String.length name) 8 (name +:+ "/command") = "/command"%string) as ->.
    { pose proof (substring_app name "/command") as Es. rewrite length_str_app in Es.
      by replace (String.length name + String.length "/command" - String.length name)%nat with 8%nat in Es by (simpl; lia). }
    rewrite str_eq_refl, substring_head. simpl andb. cbv iota.
    unfold snprintf. rewrite substring_all by (rewrite length_str_app; simpl; lia).
    rewrite pub_exact by (rewrite length_str_app; simpl; lia).
    exists ""%string, last. rewrite str_app_nil_r. split; [by left|done].
Qed.

Lemma TrimPrefix_app p t : TrimPrefix p (p +:+ t) = t.
Proof. unfold TrimPrefix. by rewrite prefix_app, substring_app. Qed.

Lemma state_topic name :
  name <> ""%string ->
  str_eq (name +:+ "/state") "announce" = false /\ str_eq (name +:+ "/state") "status" = false.
Proof.
  intros Hne. split; apply str_eq_false; intros E; pose proof (f_equal String.length E) as El;
    rewrite length_str_app in El; simpl in El; destruct name as [|a [|b [|c name]]]; simpl in El; try lia;
    try done; discriminate E.
Qed.

(** One command, there and back. *)
Lemma command_round_trip image b name payload last err :
  name <> ""%string -> no_byte " " name = true -> no_breaks name = true ->
  payload <> ""%string -> no_breaks payload = true -> trim_right payload = payload ->
  (String.length name <= 121)%nat ->
  (String.length name + String.length payload + 13 < lineSize)%nat ->
  no_byte newline (FIRMWARE_HASH image) = true ->
  exists out last',
    rx_thread image (mkRx "" last)
      (command_line b (br_device b +:+ "/" +:+ name +:+ "/command") payload)
    = Some (out, mkRx "" last') /\
    omap (said (br_device b)) (heard out err)
    = [publish (br_device b +:+ "/" +:+ name +:+ "/state") false payload].
Proof.
  intros Hne Hsp Hn Hpe Hp Ht Hlen Hl Hh. unfold command_line.
  rewrite <- (str_app_assoc (br_device b) "/"), TrimPrefix_app.
  assert (no_byte newline name = true /\ no_byte newline payload = true) as [Hnn Hpn].
  { unfold no_breaks in Hn, Hp. rewrite !andb_true_iff in Hn, Hp. tauto. }
  destruct (handle_command image name payload last) as (tail & last' & Hc & Hh'); try done.
  set (line := ("SUB " +:+ (name +:+ "/command") +:+ " " +:+ payload)%string) in *.
  assert (("SUB " +:+ (name +:+ "/command") +:+ " " +:+ payload +:+ String newline "")%string
          = (line +:+ String newline "")%string) as ->.
  { unfold line. by rewrite !str_app_assoc. }
  rewrite rx_line, Hh'; [|unfold line; by rewrite !no_breaks_app, Hn, Hp|done|].
  2: { unfold line. rewrite !length_str_app. simpl. lia. }
  cbv [mbind option_bind]. eexists _, last'. split; [done|].
  set (said_line := ("PUB " +:+ (name +:+ "/state") +:+ String " " payload)%string).
  assert (("PUB " +:+ (name +:+ "/state") +:+ " " +:+ payload +:+ crlf +:+ tail)%string
          = (said_line +:+ crlf +:+ tail)%string) as ->.
  { unfold said_line. change (String " " payload) with (" " +:+ payload)%string. by rewrite !str_app_assoc. }
  rewrite heard_pub.
  2: { unfold said_line. change (String " " payload) with (" " +:+ payload)%string.
       by rewrite !no_byte_app, Hnn, Hpn. }
  cbn [omap list_omap]. rewrite (comment_unsaid _ _ _ Hc).
  assert (said (br_device b) said_line = Some (publish (br_device b +:+ "/" +:+ name +:+ "/state") false payload)) as ->.
  { apply said_iff. exists (name +:+ "/state")%string, payload. unfold said_line.
    destruct (state_topic name Hne) as [-> ->]. rewrite TrimSpace_pub by done.
    rewrite no_byte_app, Hsp. by split_and!. }
  done.
Qed.

(** C35. A command makes the round trip: what the mapper writes to a command topic of a
    bridged device comes back, byte for byte and once, on the state topic next to it,
    whether the firmware acts on it or not. It has to fit the buffers of the firmware,
    must not be empty, break the line or end in a space. *)
Theorem command_echoed image b name payload last err :
  name <> ""%string -> no_byte " " name = true -> no_breaks name = true ->
  payload <> ""%string -> no_breaks payload = true -> trim_right payload = payload ->
  (String.length name <= 121)%nat ->
  (String.length name + String.length payload + 13 < lineSize)%nat ->
  no_byte newline (FIRMWARE_HASH image) = true ->
  exists out last',
    rx_thread image (mkRx "" last)
      (onCommand (fun _ => None) b (br_device b +:+ "/" +:+ name +:+ "/command") payload).1
    = Some (out, mkRx "" last') /\
    omap (said (br_device b)) (heard out err)
    = [publish (br_device b +:+ "/" +:+ name +:+ "/state") false payload].
Proof. intros. unfold onCommand. cbn [fst]. by apply command_round_trip. Qed.

(** ** The reporting thread, heard *)

(** What the bridge makes of a suffix and a value. *)
Definition relayed (device : string) (sv : string * string) : Publication :=
  publish (if str_eq sv.1 "announce" then ("torpor/announce/" +:+ device)%string
           else (device +:+ "/" +:+ sv.1)%string)
    (str_eq sv.1 "announce" || str_eq sv.1 "status") sv.2.

(** A suffix and a value that survive the line. *)
Definition sendable (sv : string * string) : Prop :=
  no_byte " " sv.1 = true /\ no_byte newline sv.1 = true /\ no_byte newline sv.2 = true /\
  sv.2 <> ""%string /\ trim_right sv.2 = sv.2 /\
  (String.length sv.1 + String.length sv.2 + 7 < lineSize)%nat.

Lemma pub_all_heard device l err :
  Forall sendable l ->
  exists text, pub_all l = Some text /\ omap (said device) (heard text err) = map (relayed device) l.
Proof.
  induction 1 as [|[suffix value] l (H1 & H2 & H3 & H4 & H5 & H6) _ (text & IH & Ih)].
  { exists ""%string. split; [done|]. unfold heard. by destruct err as [[]|]. }
  simpl in *. rewrite pub_exact, IH by done. simpl. eexists. split; [done|].
  set (line := ("PUB " +:+ suffix +:+ String " " value)%string).
  transitivity (omap (said device) (heard (line +:+ crlf +:+ text) err)).
  { f_equal. f_equal. unfold line. change (String " " value) with (" " +:+ value)%string.
    by rewrite !str_app_assoc. }
  rewrite heard_pub.
  2: { unfold line. change (String " " value) with (" " +:+ value)%string. by rewrite !no_byte_app, H2, H3. }
  cbn [omap list_omap]. rewrite Ih.
  assert (said device line = Some (relayed device (suffix, value))) as ->; [|done].
  apply said_iff. exists suffix, value. split_and!; [by apply TrimSpace_pub|done|done].
Qed.

(** The hash survives the line, and so does the announcement. *)
Record conformant (image : Image) : Prop := {
  hash_plain : no_breaks (FIRMWARE_HASH image) = true;
  hash_given : FIRMWARE_HASH image <> ""%string;
  hash_trimmed : trim_right (FIRMWARE_HASH image) = FIRMWARE_HASH image;
  hash_short : (String.length (FIRMWARE_HASH image) <= 80)%nat;
  announcement_sendable : sendable ("announce"%string, announcement image)
}.

Lemma number_visible v : all_bytes number_byte v = true -> all_bytes visible v = true.
Proof.
  apply all_bytes_weaken. intros c Hc.
  destruct c as [[] [] [] [] [] [] [] []]; try discriminate Hc; reflexivity.
Qed.

Lemma pretty_nonempty (z : Z) : pretty z <> ""%string.
Proof.
  destruct (Z_dec z 0) as [[H|H]| ->]; [by rewrite pretty_Z_neg| |done].
  rewrite pretty_Z_pos by lia. destruct (pretty_go_cons (Z.to_N z) "" ltac:(lia)) as (c & t & ->). done.
Qed.

(** A visible value on a topic that is not too long. *)
Lemma sendable_visible suffix value :
  all_bytes visible suffix = true -> all_bytes visible value = true -> value <> ""%string ->
  (String.length suffix + String.length value + 7 < lineSize)%nat -> sendable (suffix, value).
Proof.
  intros Hs Hv Hne Hl. destruct (all_visible _ Hs) as [_ Hbs]. destruct (all_visible _ Hv) as [Ht Hbv].
  unfold no_breaks in Hbs, Hbv. rewrite !andb_true_iff in Hbs, Hbv.
  split_and!; simpl; try tauto. clear -Hs. induction suffix as [|c suffix IH]; [done|].
  simpl in *. apply andb_true_iff in Hs as [Hc Hs]. rewrite IH by done.
  destruct c as [[] [] [] [] [] [] [] []]; try discriminate Hc; reflexivity.
Qed.

Lemma pretty_short (n : Z) : 0 <= n < 100 -> (String.length (pretty n) <= 2)%nat.
Proof.
  intros Hn. assert (forallb (fun k => String.length (pretty (Z.of_nat k)) <=? 2)%nat (seq 0 100) = true) as H
    by (vm_compute; reflexivity).
  rewrite forallb_forall in H. specialize (H (Z.to_nat n)). rewrite Z2Nat.id in H by lia.
  apply Nat.leb_le, H, in_seq. lia.
Qed.

Lemma hundredths_plain milli : 0 <= milli < 100000 ->
  all_bytes visible (hundredths milli) = true /\ hundredths milli <> ""%string /\
  (String.length (hundredths milli) <= 6)%nat.
Proof.
  intros Hm. unfold hundredths. cbv zeta.
  pose proof (Z.mod_pos_bound milli 1000 ltac:(lia)) as Hmod.
  assert (0 <= milli / 1000 < 100) as H1 by (split; [apply Z.div_pos; lia|apply Z.div_lt_upper_bound; lia]).
  assert (0 <= milli mod 1000 / 10 < 100) as H2 by (split; [apply Z.div_pos; lia|apply Z.div_lt_upper_bound; lia]).
  pose proof (pretty_short _ H1) as L1. pose proof (pretty_short _ H2) as L2. split_and!.
  - rewrite !all_bytes_app, !(number_visible _ (pretty_number _)). by destruct (_ <? 10).
  - destruct (pretty (milli / 1000)); done.
  - destruct (Z.ltb_spec (milli mod 1000 / 10) 10) as [H|H]; rewrite !length_str_app; simpl in *; [|lia].
    assert (String.length (pretty (milli mod 1000 / 10)%Z) <= 1)%nat; [|lia].
    assert (forallb (fun k => String.length (pretty (Z.of_nat k)) <=? 1)%nat (seq 0 10) = true) as Hf
      by (vm_compute; reflexivity).
    rewrite forallb_forall in Hf. specialize (Hf (Z.to_nat (milli mod 1000 / 10))).
    rewrite Z2Nat.id in Hf by lia. apply Nat.leb_le, Hf, in_seq. lia.
Qed.

Lemma all_bytes_substring p n m s : all_bytes p s = true -> all_bytes p (String.substring n m s) = true.
Proof.
  revert n m. induction s as [|c s IH]; intros [|n] [|m]; simpl; try done; rewrite andb_true_iff; intros [Hc Hs].
  - by rewrite Hc, IH.
  - by apply IH.
  - by apply IH.
Qed.

(** Whatever it measures, the firmware's lines survive. *)
Lemma report_sendable image r1 r2 uptime :
  conformant image -> Forall sendable (greeting image ++ report_cycle image r1 r2 uptime).
Proof.
  intros [Hp Hg Ht Hs Ha]. unfold greeting, report_cycle. cbn [app].
  pose proof (hundredths_plain (20000 + r1 mod 10000)) as (V1 & E1 & L1).
  { pose proof (Z.mod_pos_bound r1 10000). lia. }
  pose proof (hundredths_plain (35000 + r2 mod 15000)) as (V2 & E2 & L2).
  { pose proof (Z.mod_pos_bound r2 15000). lia. }
  assert (200 <= 8 + lineSize)%nat as Hline by (apply Nat.leb_le; vm_compute; reflexivity).
  assert (sendable ("status", "online")%string) as Hon.
  { apply sendable_visible; [done..|]. simpl. lia. }
  repeat (apply Forall_cons; split); try done.
  - apply sendable_visible; [done..|]. simpl. lia.
  - apply sendable_visible; [done..|]. simpl. lia.
  - unfold no_breaks in Hp. rewrite !andb_true_iff in Hp. split_and!; simpl; try tauto. lia.
  - apply sendable_visible; [done|..].
    + apply all_bytes_substring, number_visible, pretty_number.
    + pose proof (pretty_nonempty uptime). by destruct (pretty uptime).
    + unfold snprintf. pose proof (length_substring (pretty uptime) 0 (32 - 1)).
      change (String.length "sensor/uptime/state") with 19%nat. lia.
Qed.

(** ** Concrete runs *)

Definition dashes (n : nat) : string := String.concat "" (repeat "-"%string n).

Lemma nrf_01_conformant : conformant nrf_01.
Proof.
  constructor; try done; [apply Nat.leb_le; vm_compute; reflexivity|].
  split_and!; try done. apply Nat.ltb_lt. vm_compute. reflexivity.
Qed.

(** The echo of a firmware URL, and what the firmware says besides. *)
Example firmware_url_run :
  match rx_thread nrf_01 (mkRx "" "") (command_line (newBridge "nrf-01")
          "nrf-01/text/firmware_url/command" "a1b2c3d|http://torpor.invalid/verify-probe.bin") with
  | Some (out, _) => heard out None
  | None => []
  end = ["PUB text/firmware_url/state a1b2c3d|http://torpor.invalid/verify-probe.bin";
         "# already running a1b2c3d, nothing to do"]%string.
Proof. vm_compute. reflexivity. Qed.

(** The end of a line that is too long is read as a line of its own. *)
Example overlong_line_is_a_command :
  match rx_thread nrf_01 (mkRx "" "")
          (dashes 192 +:+ "SUB text/firmware_url/command b|u" +:+ String newline "") with
  | Some (out, _) => heard out None
  | None => []
  end = ["PUB text/firmware_url/state b|u";
         "# would flash u — MCUmgr not implemented, staying on a1b2c3d"]%string.
Proof. vm_compute. reflexivity. Qed.

(** A token of 64 bytes or more is never the last one: it is acted on every time. *)
Lemma long_token_acts_again value last :
  (64 <= String.length value)%nat -> (String.length last <= 63)%nat ->
  str_eq (String.substring 0 64 value) last = false.
Proof.
  intros Hv Hl. apply str_eq_false. intros E. apply (f_equal String.length) in E.
  assert (forall n s, (n <= String.length s)%nat -> String.length (String.substring 0 n s) = n) as Hs.
  { induction n as [|n IH]; intros [|c s]; simpl; try done; [lia|]. intros. by rewrite IH by lia. }
  rewrite Hs in E by done. lia.
Qed.

Definition acts (value : string) : list nat :=
  let say st := rx_thread nrf_01 st ("SUB text/firmware_url/command " +:+ value +:+ String newline "") in
  match say (mkRx "" "") with
  | Some (out, st) => match say st with
                      | Some (out', _) => [length (heard out None); length (heard out' None)]
                      | None => []
                      end
  | None => []
  end.
Example deduplication :
  acts ("b|" +:+ dashes 61) = [2; 1]%nat /\ acts ("b|" +:+ dashes 62) = [2; 2]%nat.
Proof. vm_compute. done. Qed.

(** A long enough name overruns the line of the announcement. *)
Example long_name_overruns :
  pub_all (greeting (mkImage (dashes 24) "a1b2c3d" "nrf9160dk" "Aug 30 2026 12:00:00")) = None.
Proof. vm_compute. reflexivity. Qed.

(** An empty payload is not echoed: the bridge takes the space for the end of the line. *)
Example empty_payload_unheard :
  match rx_thread nrf_01 (mkRx "" "") (command_line (newBridge "nrf-01") "nrf-01/text/note/command" "") with
  | Some (out, _) => (heard out None, omap (said "nrf-01") (heard out None))
  | None => ([], [])
  end = (["PUB text/note/state "]%string, []).
Proof. vm_compute. reflexivity. Qed.

Lemma rx_thread_bounded_witness :
  exists out st', rx_thread nrf_01 (mkRx "" "") (dashes 200) = Some (out, st') /\
    (String.length (rx_buf st') < lineSize)%nat.
Proof. apply (rx_thread_bounded nrf_01 (mkRx "" "") (dashes 200)). vm_compute. lia. Defined.

Lemma command_echoed_witness :
  exists out last',
    rx_thread nrf_01 (mkRx "" "") ("SUB text/note/command hello" +:+ String newline "")
      = Some (out, mkRx "" last') /\
    omap (said "nrf-01") (heard out None) = [publish "nrf-01/text/note/state" false "hello"].
Proof.
  apply (command_echoed nrf_01 (newBridge "nrf-01") "text/note" "hello" "" None);
    try discriminate; try reflexivity; apply Nat.leb_le; vm_compute; reflexivity.
Defined.
