(* ===== verification/Verify.v ===== *)
(** * The contract check: controller/cmd/verify

    What the tool hears on MQTT while it watches, the five checks it makes of it, and
    the verdict. What arrives, and when, is given; the order in which a map is walked is
    [MapRange]. The announcement is decoded by an interface, like every JSON text. *)

From Stdlib Require Import Ascii.
From S2P Require Import Prelude GoTime GoFloat GoParseFloat GoStrings Types Driver Bridge Nrf.
Local Open Scope Z_scope.
Local Open Scope torpor_scope.

(** ** Definitions: the observer *)

Record observer := mkobserver {
  ob_seen : gmap string string; ob_seenAt : gmap string Time; ob_retained : gmap string bool }.
Definition newObserver : observer := mkobserver ∅ ∅ ∅.

Definition record (o : observer) (now : Time) (topic payload : string) (retained : bool) : observer :=
  mkobserver (<[topic := payload]> (ob_seen o)) (<[topic := now]> (ob_seenAt o))
    (if retained then <[topic := true]> (ob_retained o) else ob_retained o).

(** [strings.HasSuffix]. *)
Definition HasSuffix (suffix s : string) : bool :=
  (String.length suffix <=? String.length s)%nat &&
  str_eq (String.substring (String.length s - String.length suffix) (String.length suffix) s) suffix.

(** A message, when it came, and whether the subscription to the gateways brought it. *)
Record Arrival := mkArrival {
  ar_Topic : string; ar_Payload : string; ar_Retained : bool; ar_At : Time; ar_Lora : bool }.

(** The handlers of the three subscriptions. *)
Definition arrive (Local : Location) (o : observer) (a : Arrival) : observer :=
  if ar_Lora a then
    let key := (ar_Topic a +:+ "#" +:+ pad 2 (time_Hour Local (ar_At a)) +:+
                pad 2 (time_Minute Local (ar_At a)) +:+ pad 2 (time_SecondOf Local (ar_At a)) +:+ "." +:+
                pad 3 (ar_At a / Millisecond mod 1000))%string in
    record o (ar_At a) key (ar_Payload a) false
  else record o (ar_At a) (ar_Topic a) (ar_Payload a) (ar_Retained a).

(** The topics subscribed to. *)
Definition subscriptions (device : string) : list string :=
  [device +:+ "/#"; "torpor/announce/" +:+ device; "+/lora/rx"]%string.

(** ** Definitions: watching *)

(** The loop of [main]: [clock i] is the [i]-th reading of the clock, the result how many
    times it slept. *)
Fixpoint watch (clock : nat -> Time) (deadline : Time) (fuel i : nat) : option nat :=
  if Before (clock i) deadline then
    match fuel with O => None | S k => watch clock deadline k (S i) end
  else Some i.

(** ** Definitions: the checks *)

Definition in_quotes (s : string) : string := (String "034" s +:+ String "034" "")%string.

Record check_result := mkcheck_result {
  cr_Name : string; cr_Required : bool; cr_OK : bool; cr_Detail : string; cr_Hint : string;
  cr_Unlocks : string }.

(** What is read of an announcement. *)
Record Announcement := mkAnnouncement {
  an_Model : string; an_NodeID : Z; an_Gateway : string; an_BuildTime : string }.
Class AnnouncementDecoder := UnmarshalAnnouncement : string -> option Announcement.

(** [strings.EqualFold] against a word of letters that fold among ASCII only. *)
Fixpoint lower_bytes (s : string) : string :=
  match s with EmptyString => EmptyString | String c s' => String (shift_letter 65 90 32 c) (lower_bytes s') end.
Definition EqualFold (s word : string) : bool := str_eq (lower_bytes s) (lower_bytes word).

Section Checks.
Context `{MapRange} `{StrconvQuote} `{AnnouncementDecoder}.

(** [tick] tells the walks over the maps apart. *)
Definition get (tick : nat) (o : observer) (suffix : string) : option (string * string) :=
  find (fun '(t, _) => HasSuffix suffix t) (map_range tick (ob_seen o)).

Definition sawSince (tick : nat) (o : observer) (suffix : string) (since : Time) : option string :=
  match find (fun '(t, at_) => HasSuffix suffix t && After at_ since) (map_range tick (ob_seenAt o)) with
  | Some (t, _) => Some (default ""%string (ob_seen o !! t))
  | None => None
  end.

Definition checkStatus (tick : nat) (o : observer) (dev : string) : check_result :=
  let r ok detail hint := mkcheck_result "publishes a retained status" false ok detail hint
                            "DeviceLiveness can tell gone from quiet" in
  match get tick o "/status" with
  | None => r false ("nothing on " +:+ dev +:+ "/status")%string
              ("publish " +:+ in_quotes "online" +:+ " retained on connect, and set it as the MQTT will with " +:+
               in_quotes "offline")%string
  | Some (topic, payload) =>
      if negb (default false (ob_retained o !! topic))
      then r false (topic +:+ " = " +:+ quote payload +:+ ", but NOT retained")%string
             "set the retain flag — otherwise a controller that starts later sees nothing"%string
      else if negb (EqualFold (TrimSpace payload) "online")
      then r false (topic +:+ " = " +:+ quote payload +:+ "; expected " +:+ in_quotes "online")%string ""%string
      else r true (topic +:+ " = online (retained)")%string ""%string
  end.
(** The name of a sensor: the part of the topic before the last. *)
Definition sensor_name (t : string) : string :=
  let parts := Split "/" t in nth (length parts - 2) parts ""%string.

Definition checkSensors (tick : nat) (o : observer) (dev : string) : check_result :=
  let r ok detail hint := mkcheck_result "publishes sensor values" true ok detail hint "the point" in
  let found := fold_left (fun found '(t, _) =>
    if Contains "/sensor/" t && HasSuffix "/state" t then found ++ [sensor_name t] else found)
    (map_range tick (ob_seen o)) [] in
  match found with
  | [] => r false "no <prefix>/sensor/<name>/state topics seen"%string
            "topics are per-device config, not code — any layout works, but the Device manifest's visitors.topic must match it"%string
  | _ =>
      let n := Z.of_nat (length found) in
      let shown := if n >? 4 then firstn 4 found ++ ["+" +:+ pretty (n - 4) +:+ " more"]%string else found in
      r true (Join ", " shown) ""%string
  end.

Definition hash_topic : string := "running_config_hash/state".

Definition checkRunningHash (tick : nat) (o : observer) (dev : string) : check_result :=
  let r ok detail hint := mkcheck_result "reports what firmware it is RUNNING" true ok detail hint
                            "FleetDrift, and the rollout health gate" in
  match get tick o hash_topic with
  | None => r false "no running_config_hash reported"%string
              "publish a build-time constant, or better, an image hash computed from the running image (MCUboot's header). A value echoed back from the last instruction proves nothing"%string
  | Some (_, payload) =>
      if is_empty (TrimSpace payload) then r false "running_config_hash is empty"%string ""%string
      else r true (quote payload) ""%string
  end.

Definition checkAnnounce (tick : nat) (o : observer) (dev : string) : check_result :=
  let r ok detail hint := mkcheck_result "announces itself" false ok detail hint
                            "DeviceEnrollment — no hand-written manifests" in
  match get tick o ("torpor/announce/" +:+ dev) with
  | None => r false ("nothing retained on torpor/announce/" +:+ dev)%string
              "one retained publish on connect. Without it, somebody types a Device manifest by hand, and transcription is where node ids get swapped"%string
  | Some (_, payload) =>
      match UnmarshalAnnouncement payload with
      | None => r false "announcement is not valid JSON"%string ""%string
      | Some a =>
          let bits :=
            (if is_empty (an_Model a) then [] else ["model " +:+ an_Model a]) ++
            (if is_empty (an_Gateway a) then []
             else ["node " +:+ pretty (an_NodeID a) +:+ " via " +:+ an_Gateway a]) ++
            (if is_empty (an_BuildTime a) then [] else ["built " +:+ an_BuildTime a]) in
          r true (Join ", " bits%string)
            (if is_empty (an_BuildTime a)
             then "consider adding buildTime — it catches a device flashed from a stale cache before it joins and starts drifting"%string
             else ""%string)
      end
  end.

(** What the probe asks for: the hash the device reports, if it does. *)
Definition probe_hash (tick : nat) (o : observer) : string :=
  let current := match get tick o hash_topic with Some (_, current) => current | None => ""%string end in
  if is_empty current then "verify-noop"%string else current.

Definition probe (dev current : string) : Publication :=
  publish (dev +:+ "/text/firmware_url/command") false (current +:+ "|http://torpor.invalid/verify-probe.bin").

(** The seconds of waiting for the echo, and the observer after each. *)
Fixpoint await (tick : nat) (seconds : list observer) (before : Time) : option string :=
  match seconds with
  | [] => None
  | o :: seconds' =>
      match sawSince tick o "firmware_url/state" before with
      | Some v => Some v
      | None => await (S tick) seconds' before
      end
  end.

Definition checkFirmware (tick : nat) (o : observer) (dev : string) (before : Time)
    (seconds : list observer) : list Publication * check_result :=
  let r ok detail hint := mkcheck_result "accepts a firmware URL and pulls" false ok detail hint
                            "FirmwareRollout — without it, monitoring only" in
  let current := probe_hash tick o in
  let p := probe dev current in
  ([p], match await (S tick) (firstn 15 seconds) before with
        | Some v =>
            r true ("echoed " +:+ quote v +:+ " — subscribed and responding")%string
              (if negb (String.prefix current v)
               then "echoed a different value than commanded; check the set action"%string else ""%string)
        | None =>
            r false ("wrote to " +:+ pub_Topic p +:+ " and saw no state echo within 15s")%string
              "subscribe to <prefix>/text/firmware_url/command, publish the value straight back on .../state, then pull. Deduplicate on the token — the mapper writes on every collect cycle, not on change"%string
        end).

Definition skipped : check_result :=
  mkcheck_result "accepts a firmware URL and pulls" false false "skipped (--test-ota=false)" "" "FirmwareRollout".

(** ** Definitions: the report *)

Inductive Verdict := CannotBeManaged | FullyConformant | WithGaps.
#[export] Instance Verdict_eq_dec : EqDecision Verdict.
Proof. solve_decision. Defined.

(** How many checks are green, of how many, and the line that matters. *)
Definition report_checks (rs : list check_result) : Z * Z * Verdict :=
  let '(green, missingRequired) := fold_left (fun '(green, missing) r =>
    (if cr_OK r then green + 1 else green, missing || (cr_Required r && negb (cr_OK r)))) rs (0, false) in
  let total := Z.of_nat (length rs) in
  (green, total,
   if missingRequired then CannotBeManaged else if green =? total then FullyConformant else WithGaps).

Definition exit_code (v : Verdict) : Z := match v with CannotBeManaged => 1 | _ => 0 end.

Definition wrap_hint (s : string) (width : Z) (indent : string) : string :=
  let '(out, line) := fold_left (fun '(out, line) w =>
    let over := Z.of_nat (String.length line) + Z.of_nat (String.length w) + 1 >? width in
    let out := if over then out +:+ line +:+ String newline indent else out in
    let line := if over then ""%string else line in
    (out, (if is_empty line then line else line +:+ " ") +:+ w))%string (Fields s) (""%string, ""%string) in
  (out +:+ line)%string.

(** What the tool does with what arrives: before each of the five checks, and in each
    second of the last. *)
Definition verify_run (Local : Location) (dev : string) (testOTA : bool) (arrivals : nat -> list Arrival)
    (before : Time) : list Publication * list check_result :=
  let hear o i := fold_left (arrive Local) (arrivals i) o in
  let o0 := hear newObserver 0%nat in
  let o1 := hear o0 1%nat in
  let o2 := hear o1 2%nat in
  let o3 := hear o2 3%nat in
  let o4 := hear o3 4%nat in
  let seconds := map (fun n => fold_left hear (seq 5 n) o4) (seq 1 15) in
  let checks := [checkStatus 0 o0 dev; checkSensors 1 o1 dev; checkRunningHash 2 o2 dev;
                 checkAnnounce 3 o3 dev] in
  if testOTA then let '(sent, r) := checkFirmware 4 o4 dev before seconds in (sent, checks ++ [r])
  else ([], checks ++ [skipped]).

(** [main], once connected: the probes sent, the checks, and the verdict. *)
Definition verify_main (Local : Location) (dev : string) (testOTA : bool) (arrivals : nat -> list Arrival)
    (before : Time) : result (list Publication * list check_result * (Z * Z * Verdict)) string :=
  if is_empty dev then Err "--device is required"%string
  else let '(sent, rs) := verify_run Local dev testOTA arrivals before in Ok (sent, rs, report_checks rs).
End Checks.

(** ** Lemmas: suffixes *)

Lemma substring_tail r s :
  String.substring (String.length r) (String.length s) (r +:+ s) = s.
Proof.
  pose proof (substring_app r s) as E. rewrite length_str_app in E.
  by replace (String.length r + String.length s - String.length r)%nat with (String.length s) in E by lia.
Qed.

Lemma substring_split s n :
  (n <= String.length s)%nat ->
  s = (String.substring 0 n s +:+ String.substring n (String.length s - n) s)%string.
Proof.
  revert n. induction s as [|c s IH]; intros [|n] Hn; [done|simpl in Hn; lia| |].
  - change (String c s = String.substring 0 (String.length (String c s)) (String c s)).
    symmetry. by apply substring_all.
  - simpl. rewrite str_app_cons. f_equal. apply IH. simpl in Hn. lia.
Qed.

Lemma HasSuffix_iff suffix s : HasSuffix suffix s = true <-> exists r, s = (r +:+ suffix)%string.
Proof.
  unfold HasSuffix. rewrite andb_true_iff, Nat.leb_le, str_eq_true. split.
  - intros [Hl E]. exists (String.substring 0 (String.length s - String.length suffix) s).
    rewrite (substring_split s (String.length s - String.length suffix)) at 1 by lia.
    f_equal. rewrite <- E at 3. f_equal. lia.
  - intros [r ->]. rewrite length_str_app. split; [lia|].
    replace (String.length r + String.length suffix - String.length suffix)%nat with (String.length r) by lia.
    apply substring_tail.
Qed.

Lemma str_app_cancel_length r r' s s' :
  (r +:+ s)%string = (r' +:+ s')%string -> (String.length s' <= String.length s)%nat ->
  exists m, s = (m +:+ s')%string.
Proof.
  revert r'. induction r as [|c r IH]; intros r' E Hl.
  - exists r'. exact E.
  - destruct r' as [|c' r'].
    + change ("" +:+ s')%string with s' in E. subst s'. rewrite length_str_app in Hl. simpl in Hl. lia.
    + rewrite !str_app_cons in E. injection E as _ E. by apply (IH r').
Qed.

(** Only the end of a text matters. *)
Lemma HasSuffix_app suffix p t :
  (String.length suffix <= String.length t)%nat -> HasSuffix suffix (p +:+ t) = HasSuffix suffix t.
Proof.
  intros Hl. destruct (HasSuffix suffix t) eqn:E.
  - apply HasSuffix_iff in E as [r ->]. apply HasSuffix_iff. exists (p +:+ r)%string. by rewrite str_app_assoc.
  - apply not_true_iff_false. intros [r Hr]%HasSuffix_iff. apply not_true_iff_false in E. apply E.
    apply HasSuffix_iff. by apply (str_app_cancel_length p r).
Qed.

Lemma HasSuffix_longer suffix p t :
  (String.length t <= String.length suffix)%nat -> HasSuffix suffix (p +:+ t) = true ->
  HasSuffix t suffix = true.
Proof.
  intros Hl [r Hr]%HasSuffix_iff. apply HasSuffix_iff. by apply (str_app_cancel_length r p).
Qed.

(** Two texts that end alike after their last slash. *)
Lemma last_segment x y a b :
  no_byte "/" a = true -> no_byte "/" b = true ->
  (x +:+ String "/" a)%string = (y +:+ String "/" b)%string -> a = b.
Proof.
  intros Ha Hb E. destruct (le_lt_dec (String.length b) (String.length a)) as [Hl|Hl].
  - apply str_app_cancel_length in E as [m E]; [|simpl; lia]. destruct m as [|c m]; [by injection E|].
    rewrite str_app_cons in E. injection E as _ E. rewrite E, no_byte_app in Ha. simpl in Ha.
    by rewrite andb_false_r in Ha.
  - symmetry in E. apply str_app_cancel_length in E as [m E]; [|simpl; lia].
    destruct m as [|c m]; [by injection E|].
    rewrite str_app_cons in E. injection E as _ E. rewrite E, no_byte_app in Hb. simpl in Hb.
    by rewrite andb_false_r in Hb.
Qed.

(** ** Lemmas: what the observer holds *)

(** The topic a message is filed under. *)
Definition ar_key (Local : Location) (a : Arrival) : string :=
  if ar_Lora a
  then (ar_Topic a +:+ "#" +:+ pad 2 (time_Hour Local (ar_At a)) +:+
        pad 2 (time_Minute Local (ar_At a)) +:+ pad 2 (time_SecondOf Local (ar_At a)) +:+ "." +:+
        pad 3 (ar_At a / Millisecond mod 1000))%string
  else ar_Topic a.

Lemma arrive_record Local o a :
  arrive Local o a =
  record o (ar_At a) (ar_key Local a) (ar_Payload a) (ar_Retained a && negb (ar_Lora a)).
Proof. unfold arrive, ar_key. destruct (ar_Lora a); [by rewrite andb_false_r|by rewrite andb_true_r]. Qed.

Section Observed.
Context (Local : Location).
Abbreviation listen := (fold_left (arrive Local)).
Abbreviation key := (ar_key Local).

(** Payloads and times are of the same message, the last on its topic. *)
Lemma seen_arrival (arrs : list Arrival) (t p : string) :
  ob_seen (listen arrs newObserver) !! t = Some p <->
  exists before a after, arrs = before ++ a :: after /\ key a = t /\ ar_Payload a = p /\
    Forall (fun b => key b <> t) after.
Proof.
  revert p. induction arrs as [|a arrs IH] using rev_ind; intros p; simpl.
  { split; [done|]. intros (? & ? & ? & E & _). by destruct (app_cons_not_nil _ _ _ E). }
  rewrite fold_left_app. cbn [fold_left]. rewrite arrive_record. cbn [ob_seen record].
  destruct (decide (key a = t)) as [E|E].
  - rewrite E, lookup_insert_eq. split.
    + intros [= <-]. by exists arrs, a, [].
    + intros (before & b & after & Ea & Hk & <- & Hf). destruct after as [|c after _] using rev_ind.
      * apply app_inj_tail in Ea as [_ ->]. done.
      * rewrite app_comm_cons, app_assoc in Ea. apply app_inj_tail in Ea as [_ <-].
        apply Forall_app in Hf as [_ Hf]. by inversion Hf.
  - rewrite lookup_insert_ne by done. rewrite IH. split.
    + intros (before & b & after & -> & Hk & Hp & Hf). exists before, b, (after ++ [a]).
      rewrite <- app_assoc. split_and!; try done. apply Forall_app. by split; [|constructor].
    + intros (before & b & after & Ea & Hk & Hp & Hf). destruct after as [|c after _] using rev_ind.
      * apply app_inj_tail in Ea as [_ ->]. done.
      * rewrite app_comm_cons, app_assoc in Ea. apply app_inj_tail in Ea as [-> <-].
        apply Forall_app in Hf as [Hf _]. by exists before, b, after.
Qed.

Lemma seen_In (arrs : list Arrival) (t p : string) :
  ob_seen (listen arrs newObserver) !! t = Some p ->
  exists a, In a arrs /\ key a = t /\ ar_Payload a = p.
Proof.
  intros (before & a & after & -> & Hk & Hp & _)%seen_arrival. exists a. split; [|done].
  apply in_app_iff. right. by left.
Qed.

Lemma seen_topic arrs a :
  In a arrs -> exists p, ob_seen (listen arrs newObserver) !! key a = Some p.
Proof.
  induction arrs as [|b arrs IH] using rev_ind; [done|]. intros Hin.
  rewrite fold_left_app. cbn [fold_left]. rewrite arrive_record. cbn [ob_seen record].
  destruct (decide (key b = key a)) as [->|E]; [rewrite lookup_insert_eq; eauto|].
  rewrite lookup_insert_ne by done. apply IH. apply in_app_iff in Hin as [|[->|[]]]; done.
Qed.

Lemma retained_once arrs a :
  In a arrs -> ar_Retained a = true -> ar_Lora a = false ->
  ob_retained (listen arrs newObserver) !! key a = Some true.
Proof.
  induction arrs as [|b arrs IH] using rev_ind; [done|]. intros Hin Hr Hl.
  rewrite fold_left_app. cbn [fold_left]. rewrite arrive_record. cbn [ob_retained record].
  apply in_app_iff in Hin as [Hin|[->|[]]].
  - destruct (_ && _); [|by apply IH].
    destruct (decide (key b = key a)) as [->|E]; [by rewrite lookup_insert_eq|].
    rewrite lookup_insert_ne by done. by apply IH.
  - rewrite Hr, Hl. cbn [andb negb]. by rewrite lookup_insert_eq.
Qed.

Context `{MapRange}.

Lemma get_some tick o suffix (t p : string) :
  get tick o suffix = Some (t, p) -> ob_seen o !! t = Some p /\ HasSuffix suffix t = true.
Proof.
  unfold get. intros Hf. apply find_some in Hf as [Hin Hs]. by apply map_range_elem in Hin.
Qed.

Lemma get_none tick o suffix (t p : string) :
  get tick o suffix = None -> ob_seen o !! t = Some p -> HasSuffix suffix t = false.
Proof.
  unfold get. intros Hf Hp. apply (find_none _ _ Hf (t, p)). by apply map_range_elem.
Qed.

(** When one topic has the suffix, the order of the walk does not matter. *)
Lemma get_unique tick o suffix (t p : string) :
  ob_seen o !! t = Some p -> HasSuffix suffix t = true ->
  (forall t' p', ob_seen o !! t' = Some p' -> HasSuffix suffix t' = true -> t' = t) ->
  get tick o suffix = Some (t, p).
Proof.
  intros Hp Hs Hu. destruct (get tick o suffix) as [[t' p']|] eqn:E.
  - apply get_some in E as [Hp' Hs']. pose proof (Hu t' p' Hp' Hs') as ->. congruence.
  - rewrite (get_none _ _ _ _ _ E Hp) in Hs. done.
Qed.
End Observed.

(** ** Lemmas: a device that says everything *)

(** What the broker delivers: the retain flag is for messages kept from before the
    subscription. *)
Definition delivered (live : bool) (at_ : Time) (p : Publication) : Arrival :=
  mkArrival (pub_Topic p) (pub_Payload p) (pub_Retain p && negb live) at_ false.

Section Conforming.
Context `{MapRange} (Local : Location).

(** One topic has the suffix, always with the same payload. *)
Definition only (suffix t p : string) (a : Arrival) : Prop :=
  HasSuffix suffix (ar_key Local a) = true -> ar_key Local a = t /\ ar_Payload a = p.

Lemma get_only tick suffix t p arrs :
  Forall (only suffix t p) arrs -> (exists a, In a arrs /\ ar_key Local a = t) -> HasSuffix suffix t = true ->
  get tick (fold_left (arrive Local) arrs newObserver) suffix = Some (t, p).
Proof.
  intros Hall (a & Ha & <-) Hs. rewrite List.Forall_forall in Hall.
  destruct (seen_topic Local arrs a Ha) as [p' Hp'].
  assert (p' = p) as ->.
  { apply seen_In in Hp' as (b & Hb & Hk & <-). apply (Hall b Hb). by rewrite Hk. }
  apply get_unique; [done|done|]. intros t' p'' Ht' Hs'.
  apply seen_In in Ht' as (b & Hb & <- & _). by apply (Hall b Hb).
Qed.

Lemma seenAt_In (arrs : list Arrival) (t : string) (at_ : Time) :
  ob_seenAt (fold_left (arrive Local) arrs newObserver) !! t = Some at_ ->
  exists a, In a arrs /\ ar_key Local a = t /\ ar_At a = at_.
Proof.
  induction arrs as [|a arrs IH] using rev_ind; [done|].
  rewrite fold_left_app. cbn [fold_left]. rewrite arrive_record. cbn [ob_seenAt record].
  destruct (decide (ar_key Local a = t)) as [E|E].
  - rewrite E, lookup_insert_eq. intros [= <-]. exists a. split; [|done]. apply in_app_iff. right. by left.
  - rewrite lookup_insert_ne by done. intros (b & Hb & ?)%IH. exists b. split; [|done].
    apply in_app_iff. by left.
Qed.

Lemma sawSince_none tick suffix since arrs :
  Forall (fun a => HasSuffix suffix (ar_key Local a) = false) arrs ->
  sawSince tick (fold_left (arrive Local) arrs newObserver) suffix since = None.
Proof.
  intros Hall. unfold sawSince. destruct (find _ _) as [[t at_]|] eqn:Ef; [|done].
  apply find_some in Ef as [Hin Hs]. apply map_range_elem, seenAt_In in Hin as (a & Ha & <- & _).
  rewrite List.Forall_forall in Hall. by rewrite (Hall a Ha) in Hs.
Qed.

(** The echo, heard after everything else. *)
Lemma sawSince_last tick suffix since arrs a :
  Forall (fun a => HasSuffix suffix (ar_key Local a) = false) arrs ->
  HasSuffix suffix (ar_key Local a) = true -> since < ar_At a ->
  sawSince tick (fold_left (arrive Local) (arrs ++ [a]) newObserver) suffix since = Some (ar_Payload a).
Proof.
  intros Hall Hs Hat. unfold sawSince. rewrite fold_left_app. cbn [fold_left]. rewrite arrive_record.
  set (o := fold_left _ _ _). cbn [ob_seen ob_seenAt record].
  destruct (find _ _) as [[t at_]|] eqn:Ef.
  - apply find_some in Ef as [Hin Hst]. apply map_range_elem in Hin.
    destruct (decide (ar_key Local a = t)) as [<-|E]; [by rewrite lookup_insert_eq|].
    rewrite lookup_insert_ne in Hin by done. apply seenAt_In in Hin as (b & Hb & <- & _).
    rewrite List.Forall_forall in Hall. by rewrite (Hall b Hb) in Hst.
  - pose proof (find_none _ _ Ef (ar_key Local a, ar_At a)) as Hn. simpl in Hn.
    rewrite map_range_elem, lookup_insert_eq in Hn. specialize (Hn eq_refl).
    rewrite Hs in Hn. unfold After in Hn. simpl in Hn. lia.
Qed.

Lemma await_at i tick seconds before v :
  (forall j o tick', (j < i)%nat -> nth_error seconds j = Some o ->
     sawSince tick' o "firmware_url/state" before = None) ->
  (exists o, nth_error seconds i = Some o /\
     forall tick', sawSince tick' o "firmware_url/state" before = Some v) ->
  await tick seconds before = Some v.
Proof.
  revert tick seconds. induction i as [|i IH]; intros tick seconds Hno (o & Ho & Hv).
  - destruct seconds as [|o' seconds]; [done|]. injection Ho as ->. simpl. by rewrite Hv.
  - destruct seconds as [|o' seconds]; [done|]. simpl.
    rewrite (Hno 0%nat o') by (done || lia). apply IH; [|eauto].
    intros j o'' tick' Hj Hn. apply (Hno (S j)); [lia|exact Hn].
Qed.

Lemma seq_quiet (arrivals : nat -> list Arrival) n o :
  (forall j, (j < n)%nat -> arrivals (5 + j)%nat = []) ->
  fold_left (fun o i => fold_left (arrive Local) (arrivals i) o) (seq 5 n) o = o.
Proof.
  induction n as [|n IH]; intros Hq; [done|].
  rewrite seq_S, fold_left_app, IH by (intros; apply Hq; lia). cbn [fold_left].
  by rewrite (Hq n) by lia.
Qed.
End Conforming.

(** ** Lemmas: the checks *)

Definition sensor_topic (t : string) : bool := Contains "/sensor/" t && HasSuffix "/state" t.
Definition blank (s : string) : bool := is_empty (TrimSpace s).

Section Verdicts.
Context `{MapRange} `{StrconvQuote} `{AnnouncementDecoder}.

Lemma sensors_found (l : list (string * string)) acc :
  fold_left (fun found '(t, _) =>
    if Contains "/sensor/" t && HasSuffix "/state" t then found ++ [sensor_name t] else found) l acc =
  acc ++ map (fun tp => sensor_name tp.1) (List.filter (fun tp => sensor_topic tp.1) l).
Proof.
  revert acc. induction l as [|[t p] l IH]; intros acc; simpl; [by rewrite app_nil_r|].
  rewrite IH. unfold sensor_topic. cbn [fst]. destruct (_ && _); [|done]. by rewrite <- app_assoc.
Qed.

Lemma sensors_ok tick o dev :
  cr_OK (checkSensors tick o dev) = true <->
  exists t p, ob_seen o !! t = Some p /\ sensor_topic t = true.
Proof.
  unfold checkSensors. cbv zeta. rewrite sensors_found. simpl. split.
  - destruct (List.filter _ _) as [|[t p] l] eqn:E; [done|]. intros _. exists t, p.
    assert (In (t, p) (List.filter (fun tp => sensor_topic tp.1) (map_range tick (ob_seen o)))) as Hin
      by (rewrite E; by left).
    apply filter_In in Hin as [Hin Hs]. by apply map_range_elem in Hin.
  - intros (t & p & Hp & Hs). assert (In (t, p) (List.filter (fun tp => sensor_topic tp.1) (map_range tick (ob_seen o)))) as Hin.
    { apply filter_In. by rewrite map_range_elem. }
    by destruct (List.filter _ _).
Qed.

Lemma hash_ok tick o dev :
  (cr_OK (checkRunningHash tick o dev) = true ->
   exists t p, ob_seen o !! t = Some p /\ HasSuffix hash_topic t = true /\ blank p = false) /\
  ((exists t p, ob_seen o !! t = Some p /\ HasSuffix hash_topic t = true) ->
   (forall t p, ob_seen o !! t = Some p -> HasSuffix hash_topic t = true -> blank p = false) ->
   cr_OK (checkRunningHash tick o dev) = true).
Proof.
  unfold checkRunningHash, blank. destruct (get tick o hash_topic) as [[t p]|] eqn:E.
  - apply get_some in E as [Hp Hs]. split.
    + destruct (is_empty (TrimSpace p)) eqn:Eb; [done|]. by exists t, p.
    + intros _ Hall. by rewrite (Hall t p Hp Hs).
  - split; [done|]. intros (t & p & Hp & Hs) _. by rewrite (get_none _ _ _ _ _ E Hp) in Hs.
Qed.

(** The required checks decide whether a device can be managed. *)
Lemma verdict_missing (rs : list check_result) :
  (report_checks rs).2 = CannotBeManaged <-> existsb (fun r => cr_Required r && negb (cr_OK r)) rs = true.
Proof.
  unfold report_checks.
  assert (forall rs g m, snd (fold_left (fun '(green, missing) r =>
    (if cr_OK r then green + 1 else green, missing || (cr_Required r && negb (cr_OK r)))) rs (g, m)) =
    m || existsb (fun r => cr_Required r && negb (cr_OK r)) rs) as Hm.
  { clear rs. induction rs as [|r rs IH]; intros g m; simpl; [by rewrite orb_false_r|].
    by rewrite IH, orb_assoc. }
  specialize (Hm rs 0 false). destruct (fold_left _ rs (0, false)) as [green missing]. simpl in *.
  rewrite <- Hm. destruct missing; [done|]. by destruct (green =? _).
Qed.

Lemma status_optional tick o dev : cr_Required (checkStatus tick o dev) = false.
Proof. unfold checkStatus. cbv zeta. by repeat case_match. Qed.
Lemma announce_optional tick o dev : cr_Required (checkAnnounce tick o dev) = false.
Proof. unfold checkAnnounce. cbv zeta. by repeat case_match. Qed.
Lemma firmware_optional tick o dev before seconds :
  cr_Required (checkFirmware tick o dev before seconds).2 = false.
Proof. unfold checkFirmware. cbv zeta. simpl. by case_match. Qed.
Lemma sensors_required tick o dev : cr_Required (checkSensors tick o dev) = true.
Proof. unfold checkSensors. cbv zeta. by case_match. Qed.
Lemma hash_required tick o dev : cr_Required (checkRunningHash tick o dev) = true.
Proof. unfold checkRunningHash. cbv zeta. by repeat case_match. Qed.

(** What had arrived before the check [k]. *)
Definition so_far (arrivals : nat -> list Arrival) (k : nat) : list Arrival :=
  flat_map arrivals (seq 0 (S k)).

Lemma verdict_of_run Local dev testOTA arrivals before :
  (report_checks (verify_run Local dev testOTA arrivals before).2).2 <> CannotBeManaged <->
  cr_OK (checkSensors 1 (fold_left (arrive Local) (so_far arrivals 1) newObserver) dev) = true /\
  cr_OK (checkRunningHash 2 (fold_left (arrive Local) (so_far arrivals 2) newObserver) dev) = true.
Proof.
  assert (forall rs, (report_checks rs).2 <> CannotBeManaged <->
    existsb (fun r => cr_Required r && negb (cr_OK r)) rs = false) as Hv.
  { intros rs. rewrite verdict_missing. apply not_true_iff_false. }
  unfold so_far. cbn [seq flat_map]. rewrite !app_nil_r, !fold_left_app.
  unfold verify_run. cbv zeta. destruct testOTA.
  - destruct (checkFirmware _ _ _ _ _) as [sent r] eqn:Ef. pose proof (f_equal snd Ef) as Er. cbn [snd] in Er.
    cbn [snd app]. rewrite Hv. cbn [existsb]. rewrite status_optional, announce_optional, sensors_required, hash_required.
    rewrite <- Er, firmware_optional. cbn [andb orb].
    destruct (cr_OK (checkSensors _ _ _)), (cr_OK (checkRunningHash _ _ _)); simpl; naive_solver.
  - cbn [snd app]. rewrite Hv. cbn [existsb]. rewrite status_optional, announce_optional, sensors_required, hash_required.
    cbn [andb orb]. destruct (cr_OK (checkSensors _ _ _)), (cr_OK (checkRunningHash _ _ _)); simpl; naive_solver.
Qed.

(** ** Properties *)

(** The tool gives up on a device for one reason only: a device is declared
    manageable only if it was heard to publish a sensor value and a hash that is not
    blank; and it is, if it was heard to publish a sensor value and some hash, and no
    hash of it was blank. What else it does or fails to do does not matter. *)
Theorem manageable_is_heard Local dev testOTA arrivals before :
  let verdict := (report_checks (verify_run Local dev testOTA arrivals before).2).2 in
  let sensor a := sensor_topic (ar_key Local a) = true in
  let hash a := HasSuffix hash_topic (ar_key Local a) = true in
  (verdict <> CannotBeManaged ->
   (exists a, In a (so_far arrivals 1) /\ sensor a) /\
   (exists a, In a (so_far arrivals 2) /\ hash a /\ blank (ar_Payload a) = false)) /\
  ((exists a, In a (so_far arrivals 1) /\ sensor a) ->
   (exists a, In a (so_far arrivals 2) /\ hash a) ->
   (forall a, In a (so_far arrivals 2) -> hash a -> blank (ar_Payload a) = false) ->
   verdict <> CannotBeManaged).
Proof.
  cbv zeta. rewrite verdict_of_run, sensors_ok.
  destruct (hash_ok 2 (fold_left (arrive Local) (so_far arrivals 2) newObserver) dev) as [Hh Hh'].
  split.
  - intros [(t & p & Hp & Hs) Hok]. apply seen_In in Hp as (a & Ha & <- & _).
    split; [by exists a|]. destruct (Hh Hok) as (t' & p' & Hp' & Hs' & Hb').
    apply seen_In in Hp' as (a' & Ha' & <- & <-). by exists a'.
  - intros (a & Ha & Hs) (a' & Ha' & Hs') Hall. split.
    + apply (seen_topic Local) in Ha as [p Hp]. eauto.
    + apply Hh'; [apply (seen_topic Local) in Ha' as [p Hp]; eauto|].
      intros t p Hp Hsuf. apply seen_In in Hp as (b & Hb & <- & <-). by apply Hall.
Qed.
End Verdicts.

(** ** A device over the bridge *)

Section Bridged.
Context `{MapRange} `{StrconvQuote} `{AnnouncementDecoder}.
Context (Local : Location) (image : Image) (dev : string).
Context (Himage : conformant image) (Hslash : no_byte "/" dev = true) (Hname : dev <> "status"%string).

(** A topic below the device ends as its last parts do. *)
Lemma below_device suffix t :
  (String.length suffix <= String.length t)%nat ->
  HasSuffix suffix (dev +:+ "/" +:+ t) = HasSuffix suffix t.
Proof. intros Hl. rewrite <- str_app_assoc. by apply HasSuffix_app. Qed.

(** Where the announcement can be taken for something else, the device has its name. *)
Lemma announced_suffix x w :
  no_byte "/" w = true -> HasSuffix (x +:+ String "/" w) ("torpor/announce/" +:+ dev) = true -> dev = w.
Proof.
  intros Hw [r Hr]%HasSuffix_iff. apply (last_segment "torpor/announce" (r +:+ x)); [done|done|].
  change ("torpor/announce" +:+ String "/" dev)%string with ("torpor/announce/" +:+ dev)%string.
  by rewrite Hr, str_app_assoc.
Qed.

(** What is heard of the device before the probe. *)
Definition messages (t0 t1 : Time) (r1 r2 uptime : Z) : list Arrival :=
  map (fun sv => delivered false t0 (relayed dev sv)) (greeting image) ++
  map (fun sv => delivered true t1 (relayed dev sv)) (report_cycle image r1 r2 uptime).

Context (t0 t1 : Time) (r1 r2 uptime : Z).
Abbreviation heard_all := (messages t0 t1 r1 r2 uptime).

(** One goal for each message, with its topic in sight. *)
Ltac each_message :=
  unfold messages, greeting, report_cycle; cbn [map app];
  repeat (apply Forall_cons; split); try apply Forall_nil;
  unfold only, ar_key;
  cbn [ar_Lora ar_Topic ar_Payload delivered relayed publish pub_Topic pub_Payload fst snd];
  repeat match goal with
  | |- context [str_eq ?a "announce"] =>
      let v := eval vm_compute in (str_eq a "announce") in change (str_eq a "announce") with v
  end; cbv iota.

(** No topic below the device has the suffix. *)
Ltac not_below :=
  let Hs := fresh in intros Hs; exfalso;
  first [rewrite below_device in Hs by (simpl; lia); vm_compute in Hs; discriminate Hs
        |rewrite <- str_app_assoc in Hs; apply HasSuffix_longer in Hs; [|simpl; lia];
         vm_compute in Hs; discriminate Hs].

Lemma messages_status : Forall (only Local "/status" (dev +:+ "/status") "online") heard_all.
Proof.
  each_message; try done; try not_below;
    intros Hs; by destruct (Hname (announced_suffix "" "status" eq_refl Hs)).
Qed.

Lemma hash_announced : HasSuffix hash_topic ("torpor/announce/" +:+ dev) = false.
Proof.
  apply not_true_iff_false. intros Hs.
  rewrite (announced_suffix "running_config_hash" "state" eq_refl Hs) in Hs. by vm_compute in Hs.
Qed.

Lemma messages_hash :
  Forall (only Local hash_topic (dev +:+ "/text_sensor/running_config_hash/state") (FIRMWARE_HASH image)) heard_all.
Proof. each_message; try done; try not_below; try (by rewrite hash_announced). Qed.

Lemma echo_announced : HasSuffix "firmware_url/state" ("torpor/announce/" +:+ dev) = false.
Proof.
  apply not_true_iff_false. intros Hs.
  rewrite (announced_suffix "firmware_url" "state" eq_refl Hs) in Hs. by vm_compute in Hs.
Qed.

Lemma messages_echo : Forall (fun a => HasSuffix "firmware_url/state" (ar_key Local a) = false) heard_all.
Proof. each_message; try done; try apply echo_announced; apply not_true_iff_false; not_below. Qed.

(** Nor can a topic below the device be taken for its announcement. *)
Lemma below_announced x w :
  no_byte "/" w = true ->
  HasSuffix ("torpor/announce/" +:+ dev) (dev +:+ x +:+ String "/" w) = true -> dev = w.
Proof.
  intros Hw [r Hr]%HasSuffix_iff.
  apply (last_segment (r +:+ "torpor/announce") (dev +:+ x)); [done|done|].
  rewrite !str_app_assoc. by rewrite Hr.
Qed.

Ltac not_announced x w :=
  let Hs := fresh in intros Hs; exfalso;
  let E := fresh in pose proof (below_announced x w eq_refl Hs) as E;
  first [by apply Hname | rewrite E in Hs; vm_compute in Hs; discriminate Hs].

Lemma messages_announce :
  Forall (only Local ("torpor/announce/" +:+ dev) ("torpor/announce/" +:+ dev) (announcement image)) heard_all.
Proof.
  each_message; try done;
    first [not_announced ""%string "status"%string
          |not_announced "/sensor/temperature"%string "state"%string
          |not_announced "/sensor/humidity"%string "state"%string
          |not_announced "/text_sensor/running_config_hash"%string "state"%string
          |not_announced "/sensor/uptime"%string "state"%string].
Qed.

(** What reaches the broker of a text the firmware sent. *)
Definition relayed_text (text : string) : list Publication := omap (said dev) (heard text None).

Lemma hash_spoken : blank (FIRMWARE_HASH image) = false.
Proof.
  destruct Himage as [_ Hg Ht _ _]. apply trim_right_spaces in Ht; [|done].
  unfold blank, TrimSpace. revert Ht. generalize (FIRMWARE_HASH image) as h. intros h.
  generalize 0%nat at 1 2 as k. revert Hg. clear. intros _. induction h as [|c h IH]; intros k; [done|].
  cbn [all_spaces drop_spaces]. destruct k as [|k]; [|apply IH].
  destruct (space_width (String c h)) as [|k] eqn:Ew; [|apply IH]. intros _.
  cbn [trim_right all_spaces]. by rewrite Ew.
Qed.

(** The probe fits the firmware's line, and comes back. *)
Lemma probe_echoed last :
  exists out last',
    rx_thread image (mkRx "" last)
      (command_line (newBridge dev) (pub_Topic (probe dev (FIRMWARE_HASH image)))
         (pub_Payload (probe dev (FIRMWARE_HASH image)))) = Some (out, mkRx "" last') /\
    relayed_text out = [publish (dev +:+ "/text/firmware_url/state") false
                          (FIRMWARE_HASH image +:+ "|http://torpor.invalid/verify-probe.bin")].
Proof.
  destruct Himage as [Hp Hg Ht Hs _].
  assert (no_byte newline (FIRMWARE_HASH image) = true) as Hn.
  { unfold no_breaks in Hp. rewrite !andb_true_iff in Hp. tauto. }
  apply (command_round_trip image (newBridge dev) "text/firmware_url"
    (FIRMWARE_HASH image +:+ "|http://torpor.invalid/verify-probe.bin") last None); try done.
  - destruct (FIRMWARE_HASH image); done.
  - by rewrite no_breaks_app, Hp.
  - change "|http://torpor.invalid/verify-probe.bin"%string
      with ("|http://torpor.invalid/verify-probe.bi" +:+ String "n" "")%string.
    rewrite <- str_app_assoc. by apply trim_right_visible.
  - simpl. lia.
  - assert (200 <= 8 + lineSize)%nat as Hline by (apply Nat.leb_le; vm_compute; reflexivity).
    rewrite length_str_app. simpl. lia.
Qed.

Lemma nth_seconds (F : nat -> observer) i :
  (i < 15)%nat -> nth_error (firstn 15 (map F (seq 1 15))) i = Some (F (S i)).
Proof.
  intros Hi. rewrite nth_error_firstn, (proj2 (Nat.ltb_lt i 15) Hi), nth_error_map, nth_error_seq.
  by rewrite (proj2 (Nat.ltb_lt i 15) Hi).
Qed.

Lemma all_green r0 r1' r2' r3 name detail hint unlocks :
  cr_OK r0 = true /\ cr_OK r1' = true /\ cr_OK r2' = true /\ cr_OK r3 = true ->
  report_checks ([r0; r1'; r2'; r3] ++ [mkcheck_result name false true detail hint unlocks])
  = (5, 5, FullyConformant).
Proof.
  intros (C0 & C1 & C2 & C3). unfold report_checks. simpl. rewrite C0, C1, C2, C3. simpl.
  by rewrite !andb_false_r.
Qed.

(** The first four checks are green. *)
Lemma messages_checked a :
  UnmarshalAnnouncement (announcement image) = Some a ->
  let o := fold_left (arrive Local) heard_all newObserver in
  cr_OK (checkStatus 0 o dev) = true /\ cr_OK (checkSensors 1 o dev) = true /\
  cr_OK (checkRunningHash 2 o dev) = true /\ cr_OK (checkAnnounce 3 o dev) = true.
Proof.
  intros Hann o. split_and!.
  - unfold checkStatus. unfold o at 1. cbv zeta.
    rewrite (get_only Local 0 "/status" (dev +:+ "/status") "online").
    + pose proof (retained_once Local heard_all (delivered false t0 (relayed dev ("status", "online")%string))
        (or_introl eq_refl) eq_refl eq_refl) as Hret.
      unfold o. change (ar_key Local (delivered false t0 (relayed dev ("status", "online")%string)))
        with (dev +:+ "/status")%string in Hret. by rewrite Hret.
    + apply messages_status.
    + eexists. split; [by left|done].
    + apply HasSuffix_iff. by exists dev.
  - apply sensors_ok. unfold o.
    destruct (seen_topic Local heard_all (delivered true t1
      (relayed dev ("sensor/temperature/state"%string, hundredths (20000 + r1 mod 10000))))) as [p Hp].
    { do 2 right. by left. }
    eexists _, p. split; [exact Hp|]. unfold sensor_topic, ar_key.
    cbn [ar_Lora ar_Topic delivered relayed publish pub_Topic fst]. 
    change (str_eq "sensor/temperature/state" "announce") with false. cbv iota.
    apply andb_true_iff. split; [|by rewrite below_device by (simpl; lia)].
    clear. change ("/" +:+ "sensor/temperature/state")%string with "/sensor/temperature/state"%string.
    induction dev as [|c d IH]; [done|]. rewrite str_app_cons. cbn [Contains]. rewrite IH. by rewrite orb_true_r.
  - unfold checkRunningHash. cbv zeta. unfold o.
    rewrite (get_only Local 2 hash_topic (dev +:+ "/text_sensor/running_config_hash/state") (FIRMWARE_HASH image)).
    + pose proof hash_spoken as Hb. unfold blank in Hb. by rewrite Hb.
    + apply messages_hash.
    + eexists. split; [do 4 right; by left|done].
    + apply HasSuffix_iff. exists (dev +:+ "/text_sensor/")%string. by rewrite str_app_assoc.
  - unfold checkAnnounce. cbv zeta. unfold o.
    rewrite (get_only Local 3 ("torpor/announce/" +:+ dev) ("torpor/announce/" +:+ dev) (announcement image)).
    + by rewrite Hann.
    + apply messages_announce.
    + eexists. split; [right; by left|done].
    + apply HasSuffix_iff. by exists ""%string.
Qed.

Lemma messages_probe_hash :
  probe_hash 4 (fold_left (arrive Local) heard_all newObserver) = FIRMWARE_HASH image.
Proof.
  unfold probe_hash. cbv zeta.
  rewrite (get_only Local 4 hash_topic (dev +:+ "/text_sensor/running_config_hash/state") (FIRMWARE_HASH image)).
  - pose proof (hash_given image Himage) as Hg. apply str_eq_false in Hg. unfold is_empty. by rewrite Hg.
  - apply messages_hash.
  - eexists. split; [do 4 right; by left|done].
  - apply HasSuffix_iff. exists (dev +:+ "/text_sensor/")%string. by rewrite str_app_assoc.
Qed.

(** C38. A wired device is a fleet device: when a conformant image reports over the serial
    line and the bridge, [verify] sees the retained birth, the readings, the running hash
    and the announcement; its probe reaches the firmware and the echo comes back; all five
    checks are green, whatever was measured and whenever within the fifteen seconds the
    echo arrives. *)
Theorem bridged_device_conforms text0 text1 last out st (arrivals : nat -> list Arrival) i t2 before a :
  UnmarshalAnnouncement (announcement image) = Some a ->
  pub_all (greeting image) = Some text0 ->
  pub_all (report_cycle image r1 r2 uptime) = Some text1 ->
  arrivals 0%nat = map (delivered false t0) (relayed_text text0) ++
                   map (delivered true t1) (relayed_text text1) ->
  (forall k, (1 <= k < 5 + i)%nat -> arrivals k = []) ->
  let p := probe dev (FIRMWARE_HASH image) in
  rx_thread image (mkRx "" last) (command_line (newBridge dev) (pub_Topic p) (pub_Payload p)) = Some (out, st) ->
  arrivals (5 + i)%nat = map (delivered true t2) (relayed_text out) ->
  (i < 15)%nat -> before < t2 ->
  let '(sent, rs) := verify_run Local dev true arrivals before in
  sent = [p] /\ report_checks rs = (5, 5, FullyConformant).
Proof.
  intros Hann Ht0 Ht1 Ha0 Hquiet p Hrx Hecho Hi Hbefore.
  pose proof (report_sendable image r1 r2 uptime Himage) as Hsend. apply Forall_app in Hsend as [Hs0 Hs1].
  destruct (pub_all_heard dev _ None Hs0) as (x0 & Ex0 & Hh0). rewrite Ht0 in Ex0. injection Ex0 as <-.
  destruct (pub_all_heard dev _ None Hs1) as (x1 & Ex1 & Hh1). rewrite Ht1 in Ex1. injection Ex1 as <-.
  assert (arrivals 0%nat = heard_all) as E0.
  { rewrite Ha0. unfold relayed_text, messages. by rewrite Hh0, Hh1, !map_map. }
  destruct (probe_echoed last) as (out' & last' & Hrx' & Hout). fold p in Hrx'.
  rewrite Hrx in Hrx'. injection Hrx' as -> ->. rewrite Hout in Hecho. cbn [map] in Hecho.
  set (echo := delivered true t2 _) in Hecho.
  destruct (messages_checked a Hann) as (C0 & C1 & C2 & C3).
  unfold verify_run. rewrite !(Hquiet _) by lia. cbn [fold_left]. rewrite E0.
  set (o := fold_left (arrive Local) heard_all newObserver) in *.
  unfold checkFirmware. cbv zeta. unfold o at 1 4. rewrite messages_probe_hash. fold p o.
  rewrite (await_at i 5 _ before (ar_Payload echo)).
  - split; [done|]. by apply all_green.
  - intros j ob tick Hj Hnth. rewrite nth_seconds in Hnth by lia. apply (inj Some) in Hnth as <-.
    rewrite (seq_quiet Local); [apply sawSince_none, messages_echo|]. intros k Hk. apply Hquiet. lia.
  - eexists. split; [by apply nth_seconds|]. intros tick. rewrite seq_S, fold_left_app.
    rewrite (seq_quiet Local) by (intros; apply Hquiet; lia). cbn [fold_left]. rewrite Hecho.
    change (fold_left (arrive Local) [echo] o) with (fold_left (arrive Local) [echo] (fold_left (arrive Local) heard_all newObserver)).
    rewrite <- fold_left_app. apply sawSince_last; [apply messages_echo| |done].
    apply HasSuffix_iff. exists (dev +:+ "/text/")%string. by rewrite str_app_assoc.
Qed.
End Bridged.

(** ** Lemmas: the watch *)

(** Each turn sleeps two seconds, so the watch ends, no earlier than it should. *)
Lemma watch_ends clock deadline :
  (forall i, clock i + 2 * Second <= clock (S i)) ->
  exists n, watch clock deadline (Z.to_nat ((deadline - clock 0%nat) / (2 * Second) + 1)) 0 = Some n /\
    deadline <= clock n /\ forall m, (m < n)%nat -> clock m < deadline.
Proof.
  intros Hc. assert (forall fuel i, deadline - clock i <= Z.of_nat fuel * (2 * Second) ->
    exists n, watch clock deadline fuel i = Some n /\ deadline <= clock n /\
      forall m, (i <= m < n)%nat -> clock m < deadline) as Hw.
  { induction fuel as [|k IH]; intros i Hf; simpl; unfold Before; destruct (Z.ltb_spec (clock i) deadline);
      [lia|exists i; split_and!; [done|lia|lia]| |exists i; split_and!; [done|lia|lia]].
    destruct (IH (S i)) as (n & Hn & Hd & Hm); [specialize (Hc i); lia|].
    exists n. split_and!; [done|done|]. intros m Hmi. destruct (decide (m = i)) as [->|]; [done|].
    apply Hm. lia. }
  destruct (Hw (Z.to_nat ((deadline - clock 0%nat) / (2 * Second) + 1)) 0%nat) as (n & Hn & Hd & Hm).
  - assert (0 < 2 * Second) as Hpos by done.
    pose proof (Z.mod_pos_bound (deadline - clock 0%nat) (2 * Second) Hpos).
    pose proof (Z.div_mod (deadline - clock 0%nat) (2 * Second) ltac:(lia)). nia.
  - exists n. split_and!; [done|done|]. intros m Hmn. apply Hm. lia.
Qed.

(** ** Concrete runs *)

#[local] Instance bare_quote : StrconvQuote := fun s => s.
#[local] Instance any_announcement : AnnouncementDecoder :=
  fun _ => Some (mkAnnouncement "nrf9160dk" 0 "" "Aug 30 2026 12:00:00").

Definition nrf_arrivals (out : string) (k : nat) : list Arrival :=
  match k with
  | O => map (delivered false 0) (relayed_text "nrf-01" (default ""%string (pub_all (greeting nrf_01)))) ++
         map (delivered true 0) (relayed_text "nrf-01" (default ""%string (pub_all (report_cycle nrf_01 7 9 86400))))
  | _ => if (k =? 7)%nat then map (delivered true (3 * Second)) (relayed_text "nrf-01" out) else []
  end.

Definition nrf_probe : Publication := probe "nrf-01" (FIRMWARE_HASH nrf_01).
Definition nrf_answer : string * Rx :=
  default (""%string, mkRx "" "")
    (rx_thread nrf_01 (mkRx "" "") (command_line (newBridge "nrf-01") (pub_Topic nrf_probe) (pub_Payload nrf_probe))).

Lemma bridged_device_conforms_witness :
  report_checks (verify_run UTC "nrf-01" true (nrf_arrivals nrf_answer.1) Second).2 = (5, 5, FullyConformant).
Proof.
  pose proof (bridged_device_conforms UTC nrf_01 "nrf-01" nrf_01_conformant eq_refl ltac:(discriminate)
    0 0 7 9 86400 _ _ "" nrf_answer.1 nrf_answer.2 (nrf_arrivals nrf_answer.1) 2 (3 * Second) Second _
    eq_refl eq_refl eq_refl eq_refl) as Hall.
  destruct (verify_run UTC "nrf-01" true (nrf_arrivals nrf_answer.1) Second) as [sent rs].
  apply Hall; try reflexivity; [|lia].
  intros [|[|[|[|[|[|[|k]]]]]]] Hk; reflexivity || lia.
Defined.

(** What the check cannot know: the device that passes it has no way to take firmware. *)
Example conformant_but_not_updatable :
  heard (match rx_thread nrf_01 (mkRx "" "") ("SUB text/firmware_url/command new|http://host/fw.bin" +:+ String newline "") with
         | Some (out, _) => out | None => ""%string end) None
  = ["PUB text/firmware_url/state new|http://host/fw.bin";
     "# would flash http://host/fw.bin — MCUmgr not implemented, staying on a1b2c3d"]%string.
Proof. vm_compute. reflexivity. Qed.

(** A device that starts while the tool watches: its birth is retained, and arrives
    without the flag. *)
Example live_birth_not_retained :
  let p := publish "nrf-01/status" true "online" in
  cr_OK (checkStatus 0 (arrive UTC newObserver (delivered false 0 p)) "nrf-01") = true /\
  cr_Detail (checkStatus 0 (arrive UTC newObserver (delivered true 0 p)) "nrf-01")
  = "nrf-01/status = online, but NOT retained"%string.
Proof. vm_compute. done. Qed.

(** A relayed device has nothing but its gateway's frames, which no check reads. *)
Example relayed_cannot_be_managed :
  (report_checks (verify_run UTC "field-01" true
     (fun k => match k with O => [mkArrival "w10-a/lora/rx" "frame" false 0 true] | _ => [] end) 0).2).2
  = CannotBeManaged.
Proof. vm_compute. reflexivity. Qed.

(** A device that has not said what it runs is told to fetch an image. *)
Example probe_without_hash :
  pub_Payload (probe "nrf-01" (probe_hash 0 newObserver)) = "verify-noop|http://torpor.invalid/verify-probe.bin"%string /\
  heard (match rx_thread nrf_01 (mkRx "" "") ("SUB text/firmware_url/command verify-noop|http://torpor.invalid/verify-probe.bin"
           +:+ String newline "") with Some (out, _) => out | None => ""%string end) None
  = ["PUB text/firmware_url/state verify-noop|http://torpor.invalid/verify-probe.bin";
     "# would flash http://torpor.invalid/verify-probe.bin — MCUmgr not implemented, staying on a1b2c3d"]%string.
Proof. vm_compute. done. Qed.
