(* ===== verification/Sinks.v ===== *)
(** * Where the readings go: the data handlers of the mapper

    [data/dbmethod] and [data/publish], and the two functions of [device.go] that start
    them. The connections are objects; the package variables that hold them are what they
    are in Go, one for the whole process. A [None] is a panic, which ends the process.
    What a database or an endpoint answers is an interface. *)

From Stdlib Require Import Ascii.
From S2P Require Import Prelude GoTime GoFloat GoParseFloat GoStrings Types Driver Panel.
Local Open Scope Z_scope.
Local Open Scope torpor_scope.

(** ** Definitions: what is stored *)

Record DataModel := mkDataModel {
  dm_DeviceName : string; dm_PropertyName : string; dm_Namespace : string; dm_Type : string;
  dm_Value : string; dm_TimeStamp : Z
}.

Definition with_reading (v : string) (ms : Z) (m : DataModel) : DataModel :=
  mkDataModel (dm_DeviceName m) (dm_PropertyName m) (dm_Namespace m) (dm_Type m) v ms.

(** ** Definitions: configurations *)

Record MySQLClientConfig := mkMySQLClientConfig { my_Addr : string; my_Database : string; my_UserName : string }.
Record RedisClientConfig := mkRedisClientConfig {
  rd_Addr : string; rd_DB : Z; rd_PoolSize : Z; rd_MinIdleConns : Z }.
Record TDEngineClientConfig := mkTDEngineClientConfig { td_Addr : string; td_DBName : string }.
Record Influxdb2Config := mkInfluxdb2Config {
  in2_Url : string; in2_Org : string; in2_Bucket : string;
  in2_Measurement : string; in2_Tag : gmap string string; in2_FieldKey : string }.
Record HTTPConfig := mkHTTPConfig { hc_HostName : string; hc_Port : Z; hc_RequestPath : string }.
Record MQTTConfig := mkMQTTConfig { mq_Address : string; mq_Topic : string; mq_QoS : Z; mq_Retained : bool }.

(** [json.Unmarshal] and [json.Marshal]; Influx has two texts. The names of the push
    methods are the framework's. *)
Class SinkDecoder := {
  UnmarshalMySQL : string -> option MySQLClientConfig;
  UnmarshalRedis : string -> option RedisClientConfig;
  UnmarshalTDEngine : string -> option TDEngineClientConfig;
  UnmarshalInflux : string -> string -> option Influxdb2Config;
  UnmarshalHTTP : string -> option HTTPConfig;
  UnmarshalMQTT : string -> option MQTTConfig;
  UnmarshalEndpoint : string -> option string;
  MarshalDataModel : DataModel -> string;
  PushMethodHTTP : string;
  PushMethodMQTT : string;
  PushMethodOTEL : string
}.

(** ** Definitions: connections *)

Inductive Source :=
| MySQLSource (dsn : string)
| RedisSource (cfg : RedisClientConfig) (password : string)
| TaosSource (dsn : string)
| InfluxSource (url token : string).

Record Conn := mkConn { cn_Source : Source; cn_open : bool }.

Inductive Command :=
| Exec (text : string)
| Query (text : string)
| Prepare (text : string)
| ExecStmt (text : string) (args : list string)
| ZAdd (key : string) (score : Z) (member : string)
| WritePoint (org bucket measurement : string) (tag : gmap string string) (field value : string).

(** The services: [n] counts what has been asked, so that answers may change. *)
Class Backend := {
  Getenv : string -> string;
  sql_Open : string -> string -> option string;
  Ping : nat -> Source -> option string;
  answer : nat -> Source -> Command -> option string;
  has_rows : nat -> Source -> string -> result bool string
}.

(** The connections, the package variables, and what each writer has had executed. *)
Record World := mkWorld {
  wo_conns : list Conn;
  wo_mysql : option nat;
  wo_redis : option nat;
  wo_tdengine : option nat;
  wo_log : list (nat * nat * Command)
}.
Definition newWorld : World := mkWorld [] None None None [].

Section Sinks.
Context `{MapperFramework} `{SinkDecoder} `{Backend} (Local : Location).

Definition set_conns (conns : list Conn) (w : World) : World :=
  mkWorld conns (wo_mysql w) (wo_redis w) (wo_tdengine w) (wo_log w).
Definition set_mysql (v : option nat) (w : World) : World :=
  mkWorld (wo_conns w) v (wo_redis w) (wo_tdengine w) (wo_log w).
Definition set_redis (v : option nat) (w : World) : World :=
  mkWorld (wo_conns w) (wo_mysql w) v (wo_tdengine w) (wo_log w).
Definition set_tdengine (v : option nat) (w : World) : World :=
  mkWorld (wo_conns w) (wo_mysql w) (wo_redis w) v (wo_log w).
Definition logged (i c : nat) (cmd : Command) (w : World) : World :=
  mkWorld (wo_conns w) (wo_mysql w) (wo_redis w) (wo_tdengine w) (wo_log w ++ [(i, c, cmd)]).

Definition connect (s : Source) (w : World) : World * nat :=
  (set_conns (wo_conns w ++ [mkConn s true]) w, length (wo_conns w)).
Definition close (c : nat) (w : World) : World :=
  set_conns (alter (fun k => mkConn (cn_Source k) false) c (wo_conns w)) w.

(** A command of writer [i] on connection [c]: nothing is executed on a closed one. *)
Definition run (i c : nat) (cmd : Command) (w : World) : World * option string :=
  match wo_conns w !! c with
  | Some k => if cn_open k then (logged i c cmd w, answer (length (wo_log w)) (cn_Source k) cmd)
              else (w, Some "database is closed"%string)
  | None => (w, Some "database is closed"%string)
  end.

Definition query (i c : nat) (text : string) (w : World) : World * result bool string :=
  match wo_conns w !! c with
  | Some k => if cn_open k then (logged i c (Query text) w, has_rows (length (wo_log w)) (cn_Source k) text)
              else (w, Err "database is closed"%string)
  | None => (w, Err "database is closed"%string)
  end.

(** [time.Unix(ms/1e3, 0).Format("2006-01-02 15:04:05")]. *)
Definition format_seconds (ms : Z) : string :=
  let t := unix_epoch + Z.quot ms 1000 * Second in
  (format_date Local t +:+ " " +:+ format_clock Local t +:+ ":" +:+ pad 2 (time_SecondOf Local t))%string.

(** ** Definitions: MySQL *)

Definition mysql_dsn (cfg : MySQLClientConfig) : string :=
  (my_UserName cfg +:+ ":" +:+ Getenv "PASSWORD" +:+ "@tcp(" +:+ my_Addr cfg +:+ ")/" +:+ my_Database cfg)%string.

(** [InitDbClient]: [sql.Open] gives a nil handle with its error. *)
Definition mysql_InitDbClient (cfg : MySQLClientConfig) (w : World) : World * option string :=
  match sql_Open "mysql" (mysql_dsn cfg) with
  | Some e => (set_mysql None w, Some ("connection to " +:+ my_Database cfg +:+ " of mysql faild with err:" +:+ e)%string)
  | None => let '(w, c) := connect (MySQLSource (mysql_dsn cfg)) w in (set_mysql (Some c) w, None)
  end.

Definition mysql_table (m : DataModel) : string :=
  (dm_Namespace m +:+ "/" +:+ dm_DeviceName m +:+ "/" +:+ dm_PropertyName m)%string.
Definition mysql_create (m : DataModel) : string :=
  ("CREATE TABLE IF NOT EXISTS `" +:+ mysql_table m +:+
   "` (id INT AUTO_INCREMENT PRIMARY KEY, ts  DATETIME NOT NULL,field TEXT)")%string.
Definition mysql_insert (m : DataModel) : string :=
  ("INSERT INTO `" +:+ mysql_table m +:+ "` (ts,field) VALUES (?,?)")%string.

Definition mysql_AddData (i : nat) (m : DataModel) (w : World) : option (World * option string) :=
  match wo_mysql w with
  | None => None
  | Some c =>
      let '(w, e) := run i c (Exec (mysql_create m)) w in
      match e with
      | Some e => Some (w, Some ("create tabe into mysql failed with err:" +:+ e)%string)
      | None =>
          let '(w, e) := run i c (Prepare (mysql_insert m)) w in
          match e with
          | Some e => Some (w, Some ("prepare parament failed with err:" +:+ e)%string)
          | None =>
              let '(w, e) := run i c (ExecStmt (mysql_insert m) [format_seconds (dm_TimeStamp m); dm_Value m]) w in
              match e with
              | Some e => Some (w, Some ("insert data into msyql failed with err:" +:+ e)%string)
              | None => Some (w, None)
              end
          end
      end
  end.

(** ** Definitions: Redis *)

Definition redis_InitDbClient (cfg : RedisClientConfig) (w : World) : World * option string :=
  let s := RedisSource cfg (Getenv "PASSWORD") in
  let n := length (wo_log w) in
  let '(w, c) := connect s w in
  (set_redis (Some c) w, Ping n s).

Definition redis_AddData (i : nat) (m : DataModel) (w : World) : option (World * option string) :=
  match wo_redis w with
  | None => None
  | Some c => Some (run i c (ZAdd (dm_DeviceName m) (dm_TimeStamp m) (MarshalDataModel m)) w)
  end.

(** ** Definitions: TDengine *)

(** [strings.Replace(s, "-", "_", -1)]. *)
Fixpoint underscored (s : string) : string :=
  match s with
  | EmptyString => EmptyString
  | String c s' => String (if Ascii.eqb c "-" then "_"%char else c) (underscored s')
  end.

Definition tdengine_dsn (cfg : TDEngineClientConfig) : string :=
  (Getenv "USERNAME" +:+ ":" +:+ Getenv "PASSWORD" +:+ "@http(" +:+ td_Addr cfg +:+ ")/" +:+ td_DBName cfg)%string.

(** The error of [sql.Open] is logged, and success is reported. *)
Definition tdengine_InitDbClient (cfg : TDEngineClientConfig) (w : World) : World * option string :=
  match sql_Open "taosRestful" (tdengine_dsn cfg) with
  | Some e => (set_tdengine None w, None)
  | None => let '(w, c) := connect (TaosSource (tdengine_dsn cfg)) w in (set_tdengine (Some c) w, None)
  end.

Definition tdengine_name (m : DataModel) : string := (dm_Namespace m +:+ "/" +:+ dm_DeviceName m)%string.
Definition tdengine_show (m : DataModel) : string :=
  ("SHOW STABLES LIKE '" +:+ underscored (tdengine_name m) +:+ "'")%string.
Definition tdengine_create (m : DataModel) : string :=
  ("CREATE STABLE " +:+ underscored (tdengine_name m) +:+
   " (ts timestamp, deviceid binary(64), propertyname binary(64), data binary(64),type binary(64)) TAGS (localtion binary(64));")%string.
Definition tdengine_insert (m : DataModel) : string :=
  let tag := underscored (dm_PropertyName m) in
  ("INSERT INTO " +:+ tag +:+ " USING " +:+ underscored (tdengine_name m) +:+ " TAGS ('" +:+ tag +:+
   "') VALUES('" +:+ format_seconds (dm_TimeStamp m) +:+ "','" +:+ tdengine_name m +:+ "', '" +:+
   dm_PropertyName m +:+ "', '" +:+ dm_Value m +:+ "', '" +:+ dm_Type m +:+ "');")%string.

(** The error of [Query] is dropped with the rows it comes instead of. *)
Definition tdengine_AddData (i : nat) (m : DataModel) (w : World) : option (World * option string) :=
  match wo_tdengine w with
  | None => None
  | Some c =>
      let '(w, rows) := query i c (tdengine_show m) w in
      match rows with
      | Err _ => None
      | Ok next =>
          let w := if next then w else (run i c (Exec (tdengine_create m)) w).1 in
          Some ((run i c (Exec (tdengine_insert m)) w).1, None)
      end
  end.

(** The queries of what has been stored; a TDengine table is asked for by its name. *)
Definition tdengine_by_device (deviceID : string) : string :=
  ("SELECT ts, deviceid, propertyname, data, type FROM " +:+ deviceID)%string.

Definition tdengine_by_range (deviceID : string) (start end_ : Z) : string :=
  let utc s := (format_date UTC (unix_epoch + s * Second) +:+ " " +:+
                format_clock UTC (unix_epoch + s * Second) +:+ ":" +:+
                pad 2 (time_SecondOf UTC (unix_epoch + s * Second)))%string in
  ("SELECT ts, deviceid, propertyname, data, type FROM " +:+ underscored deviceID +:+
   " WHERE ts >= '" +:+ utc start +:+ "' AND ts <= '" +:+ utc end_ +:+ "'")%string.

(** The rows of an answer: time, device, property, value, type; [None] does not scan. *)
Definition Row : Type := option (Time * (string * string * string * string)).
Definition row_model (ms : Z) (r : string * string * string * string) : DataModel :=
  let '(device, prop, value, type) := r in mkDataModel device prop "" type value ms.

(** A row that does not scan ends the answer of the one, and is left out by the other;
    the times are seconds in the one, and missing in the other. *)
Fixpoint tdengine_GetDataByDeviceID (rows : list Row) : result (list DataModel) string :=
  match rows with
  | [] => Ok []
  | None :: _ => Err "scan"%string
  | Some (ts, r) :: rows' =>
      l <-? tdengine_GetDataByDeviceID rows';
      Ok (row_model ((ts - unix_epoch) / Second) r :: l)
  end.
Definition tdengine_GetDataByTimeRange (rows : list Row) : list DataModel :=
  map (fun '(_, r) => row_model 0 r) (omap id rows).

(** The members of the ordered set that decode; an error is an empty answer. *)
Definition redis_GetDataByDeviceID (unmarshal : string -> option DataModel) (reply : result (list string) string)
  : list DataModel :=
  match reply with Ok members => omap unmarshal members | Err _ => [] end.

(** ** Definitions: Influx *)

(** The client is kept by the writer. *)
Definition influx_InitDbClient (cfg : Influxdb2Config) (w : World) : World * nat :=
  connect (InfluxSource (in2_Url cfg) (Getenv "TOKEN")) w.

Definition influx_point (cfg : Influxdb2Config) (m : DataModel) : Command :=
  WritePoint (in2_Org cfg) (in2_Bucket cfg) (in2_Measurement cfg) (in2_Tag cfg) (in2_FieldKey cfg) (dm_Value m).

Definition influx_AddData (i c : nat) (cfg : Influxdb2Config) (m : DataModel) (w : World)
  : World * option string := run i c (influx_point cfg m) w.

(** ** Definitions: the writers *)

Inductive Session := SMySQL | SRedis | STDengine | SInflux (cfg : Influxdb2Config) (client : nat).

(** The goroutine of a writer: what it has been given, and whether it still runs. *)
Record Writer := mkWriter { wr_session : Session; wr_model : DataModel; wr_alive : bool }.

Definition AddData (i : nat) (s : Session) (m : DataModel) (w : World) : option (World * option string) :=
  match s with
  | SMySQL => mysql_AddData i m w
  | SRedis => redis_AddData i m w
  | STDengine => tdengine_AddData i m w
  | SInflux cfg c => Some (influx_AddData i c cfg m w)
  end.

Definition CloseSession (s : Session) (w : World) : option World :=
  match s with
  | SMySQL => c ← wo_mysql w; Some (close c w)
  | SRedis => c ← wo_redis w; Some (close c w)
  | STDengine => c ← wo_tdengine w; Some (close c w)
  | SInflux _ c => Some (close c w)
  end.

(** The ticker: [None] when [time.NewTicker] panics. *)
Definition ticker_cycle (millis : Z) : option Duration :=
  let cycle := wrap64 (Millisecond * millis) in
  let cycle := if cycle =? 0 then DefaultReportCycle else cycle in
  if cycle <=? 0 then None else Some cycle.

(** What a [DataHandler] does after [InitDbClient]: the world, and the session of its
    goroutine if there is one. *)
Definition started (millis : Z) (r : World * option string) (s : Session) : option (World * option Session) :=
  match r with
  | (w, Some _) => Some (w, None)
  | (w, None) => _ ← ticker_cycle millis; Some (w, Some s)
  end.

Definition influx_DataHandler (raw data_raw : string) (millis : Z) (w : World) : option (World * option Session) :=
  match UnmarshalInflux raw data_raw with
  | None => Some (w, None)
  | Some cfg => let '(w, c) := influx_InitDbClient cfg w in started millis (w, None) (SInflux cfg c)
  end.

Definition redis_DataHandler (raw : string) (millis : Z) (w : World) : option (World * option Session) :=
  match UnmarshalRedis raw with
  | None => Some (w, None)
  | Some cfg => started millis (redis_InitDbClient cfg w) SRedis
  end.

Definition tdengine_DataHandler (raw : string) (millis : Z) (w : World) : option (World * option Session) :=
  match UnmarshalTDEngine raw with
  | None => Some (w, None)
  | Some cfg => started millis (tdengine_InitDbClient cfg w) STDengine
  end.

Definition mysql_DataHandler (raw : string) (millis : Z) (w : World) : option (World * option Session) :=
  match UnmarshalMySQL raw with
  | None => Some (w, None)
  | Some cfg => started millis (mysql_InitDbClient cfg w) SMySQL
  end.

Definition dbHandler (method raw data_raw : string) (millis : Z) (w : World)
  : option (World * option Session) :=
  if str_eq method "influx" then influx_DataHandler raw data_raw millis w
  else if str_eq method "redis" then redis_DataHandler raw millis w
  else if str_eq method "tdengine" then tdengine_DataHandler raw millis w
  else if str_eq method "mysql" then mysql_DataHandler raw millis w
  else Some (w, None).

(** One tick of a writer: what the device gave, and the time. An error of the database
    ends the goroutine; one of the device does not. *)
Definition write_tick (i : nat) (wr : Writer) (read : result Datum ReadError) (ms : Z) (w : World)
  : option (World * Writer) :=
  if negb (wr_alive wr) then Some (w, wr)
  else match read with
       | Err _ => Some (w, wr)
       | Ok d =>
           match ConvertToString d with
           | Err _ => Some (w, wr)
           | Ok v =>
               let m := with_reading v ms (wr_model wr) in
               '(w, e) ← AddData i (wr_session wr) m w;
               Some (w, mkWriter (wr_session wr) m (is_nil e))
           end
       end.

(** The context of a writer is cancelled; one that has ended is past that. *)
Definition write_stop (wr : Writer) (w : World) : option (World * Writer) :=
  if negb (wr_alive wr) then Some (w, wr)
  else w ← CloseSession (wr_session wr) w; Some (w, mkWriter (wr_session wr) (wr_model wr) false).

(** ** Definitions: the mapper's writers together *)

Record Sinks := mkSinks { sk_world : World; sk_writers : list Writer }.
Definition newSinks : Sinks := mkSinks newWorld [].

Inductive SinkEvent :=
| StartDB (method raw data_raw : string) (millis : Z) (m : DataModel)
| TickDB (i : nat) (read : result Datum ReadError) (ms : Z)
| StopDB (i : nat).

Definition sink_step (e : SinkEvent) (s : Sinks) : option Sinks :=
  match e with
  | StartDB method raw data_raw millis m =>
      '(w, session) ← dbHandler method raw data_raw millis (sk_world s);
      Some (mkSinks w (sk_writers s ++ match session with
                                       | Some session => [mkWriter session m true]
                                       | None => []
                                       end))
  | TickDB i read ms =>
      match sk_writers s !! i with
      | None => Some s
      | Some wr => '(w, wr) ← write_tick i wr read ms (sk_world s);
                   Some (mkSinks w (<[i := wr]> (sk_writers s)))
      end
  | StopDB i =>
      match sk_writers s !! i with
      | None => Some s
      | Some wr => '(w, wr) ← write_stop wr (sk_world s); Some (mkSinks w (<[i := wr]> (sk_writers s)))
      end
  end.

Fixpoint sink_run (es : list SinkEvent) (s : Sinks) : option Sinks :=
  match es with
  | [] => Some s
  | e :: es' => s ← sink_step e s; sink_run es' s
  end.

(** ** Definitions: publishing *)

(** [http.Post]: the response is nil with its error, and its body is closed all the same. *)
Definition http_Push (post : string -> string -> result string string) (cfg : HTTPConfig) (m : DataModel)
  : option (string * string) :=
  let url := (hc_HostName cfg +:+ ":" +:+ pretty (hc_Port cfg) +:+ hc_RequestPath cfg)%string in
  let payload := (dm_PropertyName m +:+ "=" +:+ dm_Value m +:+ "&time=" +:+ format_seconds (dm_TimeStamp m))%string in
  match post url payload with Ok _ => Some (url, payload) | Err _ => None end.

(** A client for every message; nothing is published when it does not connect. *)
Definition mqtt_Push (connects : string -> bool) (cfg : MQTTConfig) (m : DataModel) : option Publication :=
  if connects (mq_Address cfg)
  then Some (mkPublication (mq_Topic cfg) (mq_QoS cfg mod 256) (mq_Retained cfg)
         ("time is " +:+ format_seconds (dm_TimeStamp m) +:+ "  " +:+ mq_Topic cfg +:+ ": " +:+ dm_Value m)%string)
  else None.

Inductive DataPanel := PanelHTTP (cfg : HTTPConfig) | PanelMQTT (cfg : MQTTConfig) | PanelOTEL (endpoint : string) (interval : Duration).

(** [NewConfig] and the interval of [InitProvider]. *)
Definition otel_start (raw : string) (reportCycle : Z) : option DataPanel :=
  match UnmarshalEndpoint raw with
  | None => None
  | Some url => if is_empty url then None
                else Some (PanelOTEL url (if reportCycle =? 0 then DefaultReportCycle else reportCycle))
  end.

(** [pushHandler] up to the goroutine. *)
Definition pushHandler (method raw : string) (reportCycle : Z) : option (option DataPanel) :=
  let started (p : option DataPanel) : option (option DataPanel) :=
    match p with
    | None => Some None
    | Some p => _ ← ticker_cycle reportCycle; Some (Some p)
    end in
  if str_eq method PushMethodOTEL then Some (otel_start raw reportCycle)
  else if str_eq method PushMethodHTTP then started (PanelHTTP <$> UnmarshalHTTP raw)
  else if str_eq method PushMethodMQTT then started (PanelMQTT <$> UnmarshalMQTT raw)
  else Some None.

(** What [dataHandler] starts for a twin: the model is shared by the two. *)
Definition start_handlers (push db : string * string) (data_raw : string) (has_config : bool)
    (reportCycle : Z) (w : World) : option (option DataPanel * (World * option Session)) :=
  p ← (if has_config && negb (is_empty push.1) then pushHandler push.1 push.2 reportCycle else Some None);
  r ← (if negb (is_empty db.1) then dbHandler db.1 db.2 data_raw reportCycle w else Some (w, None));
  Some (p, r).

(** The callback of the OTEL gauge. *)
Definition otel_observe (read : result Datum ReadError) : option float64 :=
  match read with
  | Err _ => None
  | Ok d => match ConvertToString d with
            | Err _ => None
            | Ok v => ParseFloat v
            end
  end.

(** [StreamHandler]: the mapper is generated without streaming. *)
Definition StreamHandler : result unit string :=
  Err "need to add the stream flag when make generate if you want to enable stream data processing."%string.

(** ** Lemmas: what the operations keep *)

Ltac sink_simpl := cbn [set_conns set_mysql set_redis set_tdengine logged wo_conns wo_mysql wo_redis wo_tdengine wo_log
                        sk_world sk_writers cn_Source cn_open] in *.

(** Where the commands of a writer go: the connection of its package, or its own. *)
Definition session_conn (s : Session) (w : World) : option nat :=
  match s with
  | SMySQL => wo_mysql w
  | SRedis => wo_redis w
  | STDengine => wo_tdengine w
  | SInflux _ c => Some c
  end.

(** What a writer may have executed, as far as its own configuration says. *)
Definition own_command (s : Session) (cmd : Command) : Prop :=
  match s with SInflux cfg _ => exists m, cmd = influx_point cfg m | _ => True end.

(** A tick of writer [i] changes nothing but the log, and that by commands of its own on
    its connection. *)
Record on_conn (i : nat) (s : Session) (w w' : World) : Prop := {
  same_conns : wo_conns w' = wo_conns w;
  same_vars : wo_mysql w' = wo_mysql w /\ wo_redis w' = wo_redis w /\ wo_tdengine w' = wo_tdengine w;
  log_grows : exists more, wo_log w' = wo_log w ++ more /\
    Forall (fun '(j, c, cmd) => j = i /\ session_conn s w = Some c /\ own_command s cmd) more
}.

Lemma on_conn_refl i s w : on_conn i s w w.
Proof. split; [done|done|]. exists []. by rewrite app_nil_r. Qed.

Lemma session_conn_same i s w w' : on_conn i s w w' -> session_conn s w' = session_conn s w.
Proof. intros [_ (V1 & V2 & V3) _]. by destruct s; simpl. Qed.

Lemma on_conn_trans i s w1 w2 w3 : on_conn i s w1 w2 -> on_conn i s w2 w3 -> on_conn i s w1 w3.
Proof.
  intros H12 H23. pose proof (session_conn_same _ _ _ _ H12) as Es.
  destruct H12 as [C1 (V1 & V2 & V3) (l1 & E1 & F1)]. destruct H23 as [C2 (V4 & V5 & V6) (l2 & E2 & F2)].
  split; [congruence|split_and!; congruence|].
  exists (l1 ++ l2). rewrite E2, E1, app_assoc. split; [done|].
  apply Forall_app. split; [done|]. by rewrite Es in F2.
Qed.

Lemma run_on i s c cmd w :
  session_conn s w = Some c -> own_command s cmd -> on_conn i s w (run i c cmd w).1.
Proof.
  intros Hc Ho. unfold run. destruct (wo_conns w !! c) as [k|]; [|apply on_conn_refl].
  destruct (cn_open k); [|apply on_conn_refl]. split; [done|done|]. exists [(i, c, cmd)].
  split; [done|]. by repeat constructor.
Qed.

Lemma query_on i s c text w :
  session_conn s w = Some c -> own_command s (Query text) -> on_conn i s w (query i c text w).1.
Proof.
  intros Hc Ho. unfold query. destruct (wo_conns w !! c) as [k|]; [|apply on_conn_refl].
  destruct (cn_open k); [|apply on_conn_refl]. split; [done|done|]. exists [(i, c, Query text)].
  split; [done|]. by repeat constructor.
Qed.

Lemma run_on_eq i s c cmd w w' e :
  run i c cmd w = (w', e) -> session_conn s w = Some c -> own_command s cmd -> on_conn i s w w'.
Proof. intros E Hc Ho. pose proof (run_on i s c cmd w Hc Ho) as Hr. by rewrite E in Hr. Qed.

Lemma mysql_AddData_on i m w w' e :
  mysql_AddData i m w = Some (w', e) -> on_conn i SMySQL w w'.
Proof.
  unfold mysql_AddData. destruct (wo_mysql w) as [c|] eqn:Ec; [|done].
  destruct (run i c (Exec _) w) as [w1 e1] eqn:E1. apply (run_on_eq i SMySQL) in E1; [|done|done].
  destruct e1; [by intros [= <- _]|].
  destruct (run i c (Prepare _) w1) as [w2 e2] eqn:E2.
  apply (run_on_eq i SMySQL) in E2; [|by rewrite (session_conn_same _ _ _ _ E1)|done].
  pose proof (on_conn_trans _ _ _ _ _ E1 E2) as E12. destruct e2; [by intros [= <- _]|].
  destruct (run i c (ExecStmt _ _) w2) as [w3 e3] eqn:E3.
  apply (run_on_eq i SMySQL) in E3; [|by rewrite (session_conn_same _ _ _ _ E12)|done].
  pose proof (on_conn_trans _ _ _ _ _ E12 E3). by destruct e3; intros [= <- _].
Qed.

Lemma tdengine_AddData_on i m w w' e :
  tdengine_AddData i m w = Some (w', e) -> on_conn i STDengine w w'.
Proof.
  unfold tdengine_AddData. destruct (wo_tdengine w) as [c|] eqn:Ec; [|done].
  pose proof (query_on i STDengine c (tdengine_show m) w Ec I) as Hq.
  destruct (query i c (tdengine_show m) w) as [w1 rows]. cbn [fst] in Hq.
  destruct rows as [next|]; [|done]. intros [= <- _].
  assert (on_conn i STDengine w (if next then w1 else (run i c (Exec (tdengine_create m)) w1).1)) as Hx.
  { destruct next; [done|]. eapply on_conn_trans; [exact Hq|]. apply run_on; [|done].
    by rewrite (session_conn_same _ _ _ _ Hq). }
  eapply on_conn_trans; [exact Hx|]. apply run_on; [|done]. by rewrite (session_conn_same _ _ _ _ Hx).
Qed.

Lemma AddData_on i s m w w' e : AddData i s m w = Some (w', e) -> on_conn i s w w'.
Proof.
  destruct s as [| | |cfg c]; simpl.
  - apply mysql_AddData_on.
  - unfold redis_AddData. destruct (wo_redis w) as [c|] eqn:Ec; [|done]. intros [= E].
    by apply (run_on_eq i SRedis) in E.
  - apply tdengine_AddData_on.
  - intros [= E]. apply (run_on_eq i (SInflux cfg c)) in E; [done|done|]. by exists m.
Qed.

Lemma write_tick_on i wr read ms w w' wr' :
  write_tick i wr read ms w = Some (w', wr') ->
  on_conn i (wr_session wr) w w' /\ wr_session wr' = wr_session wr /\
  (wr_alive wr' = true -> wr_alive wr = true).
Proof.
  unfold write_tick. destruct (wr_alive wr) eqn:Ea; simpl.
  2: { intros [= <- <-]. split_and!; [apply on_conn_refl|done|congruence]. }
  destruct read as [d|]; [|intros [= <- <-]; split_and!; [apply on_conn_refl|done|done]].
  destruct (ConvertToString d) as [v|]; [|intros [= <- <-]; split_and!; [apply on_conn_refl|done|done]].
  destruct (AddData i (wr_session wr) (with_reading v ms (wr_model wr)) w) as [[w1 e]|] eqn:E; [|done].
  simpl. intros [= <- <-]. split_and!; [by eapply AddData_on|done|done].
Qed.

(** ** Lemmas: the state of the writers *)

(** Every connection a writer or a package holds is there and of its kind; a writer of
    Influx has one of its own, open while it runs; and whatever was executed on it was
    its own. *)
Definition is_influx (s : Source) : bool := match s with InfluxSource _ _ => true | _ => false end.
Definition influx_conn (w : World) (c : nat) : Prop :=
  exists k, wo_conns w !! c = Some k /\ is_influx (cn_Source k) = true.
Definition package_conn (w : World) (v : option nat) : Prop :=
  forall c, v = Some c -> exists k, wo_conns w !! c = Some k /\ is_influx (cn_Source k) = false.

Record sinks_wf (s : Sinks) : Prop := {
  packages : package_conn (sk_world s) (wo_mysql (sk_world s)) /\
             package_conn (sk_world s) (wo_redis (sk_world s)) /\
             package_conn (sk_world s) (wo_tdengine (sk_world s));
  own_client : forall i cfg c m alive,
    sk_writers s !! i = Some (mkWriter (SInflux cfg c) m alive) ->
    exists open, wo_conns (sk_world s) !! c = Some (mkConn (InfluxSource (in2_Url cfg) (Getenv "TOKEN")) open) /\
      (alive = true -> open = true);
  clients_apart : forall i j cfg cfg' c m m' a a',
    sk_writers s !! i = Some (mkWriter (SInflux cfg c) m a) ->
    sk_writers s !! j = Some (mkWriter (SInflux cfg' c) m' a') -> i = j;
  log_valid : forall i c cmd, In (i, c, cmd) (wo_log (sk_world s)) ->
    (i < length (sk_writers s))%nat /\ is_Some (wo_conns (sk_world s) !! c);
  log_own : forall i c cmd, In (i, c, cmd) (wo_log (sk_world s)) -> influx_conn (sk_world s) c ->
    exists cfg m a, sk_writers s !! i = Some (mkWriter (SInflux cfg c) m a) /\ exists m', cmd = influx_point cfg m'
}.

Lemma package_conn_add w w' v extra :
  wo_conns w' = wo_conns w ++ extra -> package_conn w v -> package_conn w' v.
Proof.
  intros E Hp c Hc. destruct (Hp c Hc) as (k & Hk & Hi). exists k. split; [|done].
  rewrite E. by apply lookup_app_l_Some.
Qed.

Lemma package_conn_new w src :
  is_influx src = false -> package_conn (set_conns (wo_conns w ++ [mkConn src true]) w) (Some (length (wo_conns w))).
Proof.
  intros Hs c [= <-]. exists (mkConn src true). split; [|done]. sink_simpl. by apply list_lookup_middle.
Qed.

(** What starting a writer does to the world. *)
Record opened (w w' : World) (session : option Session) : Prop := {
  same_log : wo_log w' = wo_log w;
  more_conns : exists extra, wo_conns w' = wo_conns w ++ extra;
  packages_kept :
    package_conn w (wo_mysql w) /\ package_conn w (wo_redis w) /\ package_conn w (wo_tdengine w) ->
    package_conn w' (wo_mysql w') /\ package_conn w' (wo_redis w') /\ package_conn w' (wo_tdengine w');
  new_client : forall cfg c, session = Some (SInflux cfg c) ->
    c = length (wo_conns w) /\
    wo_conns w' = wo_conns w ++ [mkConn (InfluxSource (in2_Url cfg) (Getenv "TOKEN")) true]
}.

Lemma opened_refl w : opened w w None.
Proof. split; [done|exists []; by rewrite app_nil_r|done|done]. Qed.

(** One package has opened a connection, or has lost the one it had. *)
Lemma opened_package w (set : option nat -> World -> World) src session :
  is_influx src = false -> (forall cfg c, session <> Some (SInflux cfg c)) ->
  set = set_mysql \/ set = set_redis \/ set = set_tdengine ->
  opened w (set None w) session /\
  opened w (set (Some (length (wo_conns w))) (set_conns (wo_conns w ++ [mkConn src true]) w)) session.
Proof.
  intros Hsrc Hne Hset. pose proof (package_conn_new w src Hsrc) as Hnew.
  assert (forall v, package_conn w v -> package_conn (set_conns (wo_conns w ++ [mkConn src true]) w) v) as Hold
    by (intros v; by eapply package_conn_add).
  assert (forall w1, package_conn w1 None) as Hnone by (by intros ? ? [=]).
  split; split; try (intros cfg c E; by destruct (Hne cfg c)); destruct Hset as [->|[->| ->]]; sink_simpl;
    try done; try (exists []; by rewrite app_nil_r); try (by eexists);
    intros (P1 & P2 & P3); split_and!; try done; try (by intros c [=]); by apply Hold.
Qed.

Lemma dbHandler_opened method raw data_raw millis w w' session :
  dbHandler method raw data_raw millis w = Some (w', session) -> opened w w' session.
Proof.
  unfold dbHandler, influx_DataHandler, redis_DataHandler, tdengine_DataHandler, mysql_DataHandler, started.
  destruct (str_eq method "influx").
  { destruct (UnmarshalInflux raw data_raw) as [cfg|]; [|intros [= <- <-]; apply opened_refl].
    unfold influx_InitDbClient, connect. destruct (ticker_cycle millis); [|done]. simpl.
    intros [= <- <-]. split; sink_simpl; [done|by eexists| |].
    - intros (P1 & P2 & P3). split_and!; by eapply package_conn_add.
    - by intros cfg' c [= <- <-]. }
  destruct (str_eq method "redis").
  { destruct (UnmarshalRedis raw) as [cfg|]; [|intros [= <- <-]; apply opened_refl].
    unfold redis_InitDbClient, connect. destruct (Ping _ _); [|destruct (ticker_cycle millis); [|done]; simpl];
      intros [= <- <-]; by apply (opened_package w set_redis (RedisSource cfg (Getenv "PASSWORD"))); auto. }
  destruct (str_eq method "tdengine").
  { destruct (UnmarshalTDEngine raw) as [cfg|]; [|intros [= <- <-]; apply opened_refl].
    unfold tdengine_InitDbClient, connect.
    destruct (sql_Open _ _); (destruct (ticker_cycle millis); [|done]); simpl; intros [= <- <-];
      by apply (opened_package w set_tdengine (TaosSource (tdengine_dsn cfg))); auto. }
  destruct (str_eq method "mysql"); [|intros [= <- <-]; apply opened_refl].
  destruct (UnmarshalMySQL raw) as [cfg|]; [|intros [= <- <-]; apply opened_refl].
  unfold mysql_InitDbClient, connect.
  destruct (sql_Open _ _); [|destruct (ticker_cycle millis); [|done]; simpl]; intros [= <- <-];
    by apply (opened_package w set_mysql (MySQLSource (mysql_dsn cfg))); auto.
Qed.

Lemma start_wf method raw data_raw millis m s s' :
  sinks_wf s -> sink_step (StartDB method raw data_raw millis m) s = Some s' -> sinks_wf s'.
Proof.
  intros [Hp Ho Ha Hv Hl]. simpl.
  destruct (dbHandler _ _ _ _ _) as [[w session]|] eqn:E; [|done]. simpl. intros [= <-].
  apply dbHandler_opened in E as [El [extra Ee] Hk Hn].
  assert (forall i wr, (sk_writers s ++ match session with Some session => [mkWriter session m true] | None => [] end) !! i = Some wr ->
    sk_writers s !! i = Some wr \/ i = length (sk_writers s) /\ exists session', session = Some session' /\ wr = mkWriter session' m true) as Hcases.
  { intros i wr Hi. apply lookup_app_Some in Hi as [Hi|[Hge Hi]]; [by left|right].
    destruct session as [session|]; [|done]. apply list_lookup_singleton_Some in Hi as [Hi <-].
    split; [lia|by eexists]. }
  assert (forall i cfg c m' a, sk_writers s !! i = Some (mkWriter (SInflux cfg c) m' a) -> (c < length (wo_conns (sk_world s)))%nat) as Hlt.
  { intros i cfg c m' a Hi. destruct (Ho i cfg c m' a Hi) as (op & Hc & _). by apply lookup_lt_Some in Hc. }
  split; sink_simpl.
  - by apply Hk.
  - intros i cfg c m' a Hi. destruct (Hcases i _ Hi) as [Hi'|(-> & session' & Es & [= <- <- ->])].
    + destruct (Ho i cfg c m' a Hi') as (op & Hc & Hal). exists op. split; [|done].
      rewrite Ee. by apply lookup_app_l_Some.
    + destruct (Hn cfg c Es) as [-> ->]. exists true. split; [by apply list_lookup_middle|done].
  - intros i j cfg cfg' c m1 m2 a1 a2 Hi Hj.
    destruct (Hcases i _ Hi) as [Hi'|(-> & s1 & Es1 & [= <- _ _])];
      destruct (Hcases j _ Hj) as [Hj'|(-> & s2 & Es2 & [= <- _ _])]; [by eapply Ha| | |done].
    + apply Hlt in Hi'. destruct (Hn _ _ Es2) as [-> _]. lia.
    + apply Hlt in Hj'. destruct (Hn _ _ Es1) as [-> _]. lia.
  - intros i c cmd. rewrite El. intros Hin. destruct (Hv i c cmd Hin) as [Hlen [k Hc]].
    rewrite length_app. split; [lia|]. exists k. rewrite Ee. by apply lookup_app_l_Some.
  - intros i c cmd. rewrite El. intros Hin (k & Hc & Hik). destruct (Hv i c cmd Hin) as [Hlen [k' Hc']].
    rewrite Ee, (lookup_app_l_Some _ _ _ _ Hc') in Hc. injection Hc as ->.
    destruct (Hl i c cmd Hin) as (cfg & m' & a & Hi & Hm); [by exists k|].
    exists cfg, m', a. split; [by apply lookup_app_l_Some|done].
Qed.

(** Replacing a writer by one with the same session, that runs no longer than before. *)
Lemma update_writer (ws : list Writer) i wr wr' j w0 :
  ws !! i = Some wr -> wr_session wr' = wr_session wr -> (wr_alive wr' = true -> wr_alive wr = true) ->
  <[i := wr']> ws !! j = Some w0 ->
  exists w1, ws !! j = Some w1 /\ wr_session w1 = wr_session w0 /\ (wr_alive w0 = true -> wr_alive w1 = true).
Proof.
  intros Hi Hs Ha Hj. destruct (decide (j = i)) as [->|Hne].
  - rewrite list_lookup_insert_eq in Hj by by eapply lookup_lt_Some. injection Hj as <-. by exists wr.
  - rewrite list_lookup_insert_ne in Hj by done. by exists w0.
Qed.

Lemma update_writer_fwd (ws : list Writer) i wr wr' j cfg c m a :
  ws !! i = Some wr -> wr_session wr' = wr_session wr ->
  ws !! j = Some (mkWriter (SInflux cfg c) m a) ->
  exists m' a', <[i := wr']> ws !! j = Some (mkWriter (SInflux cfg c) m' a').
Proof.
  intros Hi Hs Hj. destruct (decide (j = i)) as [->|Hne].
  - rewrite list_lookup_insert_eq by by eapply lookup_lt_Some. rewrite Hi in Hj. injection Hj as ->.
    destruct wr' as [s' m' a']. simpl in Hs. subst s'. by exists m', a'.
  - rewrite list_lookup_insert_ne by done. by exists m, a.
Qed.

(** The connection of a writer is there, and of its kind. *)
Lemma session_conn_valid s i wr c :
  sinks_wf s -> sk_writers s !! i = Some wr -> session_conn (wr_session wr) (sk_world s) = Some c ->
  exists k, wo_conns (sk_world s) !! c = Some k /\
    is_influx (cn_Source k) = match wr_session wr with SInflux _ _ => true | _ => false end.
Proof.
  intros [(P1 & P2 & P3) Ho _ _ _] Hi Hc. destruct wr as [[| | |cfg c'] m a]; simpl in *;
    [by apply P1|by apply P2|by apply P3|]. injection Hc as <-.
  destruct (Ho i cfg c' m a Hi) as (op & Hc & _). by eexists.
Qed.

Lemma tick_wf i read ms s s' :
  sinks_wf s -> sink_step (TickDB i read ms) s = Some s' -> sinks_wf s'.
Proof.
  intros Hwf. simpl. destruct (sk_writers s !! i) as [wr|] eqn:Hi; [|by intros [= <-]].
  destruct (write_tick i wr read ms (sk_world s)) as [[w wr']|] eqn:E; [|done]. simpl. intros [= <-].
  apply write_tick_on in E as ([Ec (V1 & V2 & V3) (more & El & Hm)] & Hs & Hal).
  pose proof (session_conn_valid s i wr) as Hval. pose proof Hwf as [(P1 & P2 & P3) Ho Ha Hv Hl].
  split; sink_simpl.
  - unfold package_conn. rewrite Ec, V1, V2, V3. done.
  - intros j cfg c m a Hj. rewrite Ec.
    destruct (update_writer _ _ _ _ _ _ Hi Hs Hal Hj) as ([s1 m1 a1] & Hj' & Es & Hal'). simpl in *. subst s1.
    destruct (Ho j cfg c m1 a1 Hj') as (op & Hc & Hop). exists op. auto.
  - intros j k cfg cfg' c m m' a a' Hj Hk.
    destruct (update_writer _ _ _ _ _ _ Hi Hs Hal Hj) as ([s1 m1 a1] & Hj' & Es & _). simpl in Es. subst s1.
    destruct (update_writer _ _ _ _ _ _ Hi Hs Hal Hk) as ([s2 m2 a2] & Hk' & Es & _). simpl in Es. subst s2.
    by eapply Ha.
  - intros j c cmd. rewrite El, Ec, length_insert. intros [Hin|Hin]%in_app_iff; [by apply (Hv j c cmd)|].
    rewrite List.Forall_forall in Hm. apply Hm in Hin as (-> & Hc & _).
    destruct (Hval c Hwf Hi Hc) as (k & Hk & _). split; [by eapply lookup_lt_Some|by exists k].
  - intros j c cmd. rewrite El. unfold influx_conn. sink_simpl. rewrite Ec. intros [Hin|Hin]%in_app_iff Hic.
    + destruct (Hl j c cmd Hin Hic) as (cfg & m & a & Hj & Hm').
      destruct (update_writer_fwd _ _ _ _ _ _ _ _ _ Hi Hs Hj) as (m1 & a1 & Hj'). eauto 10.
    + rewrite List.Forall_forall in Hm. apply Hm in Hin as (-> & Hc & Hown).
      destruct (Hval c Hwf Hi Hc) as (k & Hk & Hik). destruct Hic as (k' & Hk' & Hik').
      rewrite Hk in Hk'. injection Hk' as <-. rewrite Hik in Hik'.
      destruct wr as [[| | |cfg c'] m a]; try done. simpl in Hc, Hown. injection Hc as ->.
      destruct (update_writer_fwd _ _ _ _ _ _ _ _ _ Hi Hs Hi) as (m1 & a1 & Hj'). eauto 10.
Qed.

Lemma close_lookup c w c' :
  wo_conns (close c w) !! c' =
  if decide (c = c') then (fun k => mkConn (cn_Source k) false) <$> wo_conns w !! c' else wo_conns w !! c'.
Proof.
  unfold close. sink_simpl. destruct (decide (c = c')) as [->|Hne]; [by rewrite list_lookup_alter_eq|].
  by rewrite list_lookup_alter_ne.
Qed.

Lemma close_source c w c' k :
  wo_conns (close c w) !! c' = Some k ->
  exists k', wo_conns w !! c' = Some k' /\ cn_Source k' = cn_Source k.
Proof.
  rewrite close_lookup. destruct (decide _); [|by eexists].
  destruct (wo_conns w !! c') as [k'|]; [|done]. intros [= <-]. by exists k'.
Qed.

Lemma close_source_fwd c w c' k :
  wo_conns w !! c' = Some k ->
  exists k', wo_conns (close c w) !! c' = Some k' /\ cn_Source k' = cn_Source k.
Proof. intros Hk. rewrite close_lookup, Hk. destruct (decide _); by eexists. Qed.

Lemma CloseSession_closes s w w' :
  CloseSession s w = Some w' -> exists c, session_conn s w = Some c /\ w' = close c w.
Proof.
  destruct s; simpl; [destruct (wo_mysql w)|destruct (wo_redis w)|destruct (wo_tdengine w)|];
    simpl; try done; intros [= <-]; by eexists.
Qed.

Lemma stop_wf i s s' : sinks_wf s -> sink_step (StopDB i) s = Some s' -> sinks_wf s'.
Proof.
  intros Hwf. simpl. destruct (sk_writers s !! i) as [wr|] eqn:Hi; [|by intros [= <-]].
  unfold write_stop. destruct (wr_alive wr) eqn:Eal; simpl.
  2: { intros [= <-]. rewrite list_insert_id by done. by destruct s. }
  destruct (CloseSession (wr_session wr) (sk_world s)) as [w|] eqn:E; [|done]. simpl. intros [= <-].
  apply CloseSession_closes in E as (c0 & Hc0 & ->).
  destruct (session_conn_valid s i wr c0 Hwf Hi Hc0) as (k0 & Hk0 & Hik0).
  pose proof Hwf as [(P1 & P2 & P3) Ho Ha Hv Hl].
  set (wr' := mkWriter _ _ _). assert (wr_session wr' = wr_session wr) as Hs by done.
  assert (wr_alive wr' = true -> wr_alive wr = true) as Hal by done.
  split; sink_simpl.
  - assert (forall v, package_conn (sk_world s) v -> package_conn (close c0 (sk_world s)) v) as Hp.
    { intros v Hv' c Hc. destruct (Hv' c Hc) as (k & Hk & Hik).
      destruct (close_source_fwd c0 _ _ _ Hk) as (k' & Hk' & Es). exists k'. by rewrite Es. }
    split_and!; by apply Hp.
  - intros j cfg c m a Hj.
    destruct (update_writer _ _ _ _ _ _ Hi Hs Hal Hj) as ([s1 m1 a1] & Hj' & Es & Hal'). simpl in Es, Hal'. subst s1.
    destruct (Ho j cfg c m1 a1 Hj') as (op & Hc & Hop). rewrite close_lookup.
    destruct (decide (c0 = c)) as [->|Hne]; [|exists op; auto].
    rewrite Hc. exists false. split; [done|]. intros ->.
    rewrite Hc in Hk0. injection Hk0 as <-. simpl in Hik0.
    destruct wr as [[| | |cfg' c'] m' a']; try done. simpl in Hc0. injection Hc0 as ->.
    rewrite (Ha j i cfg cfg' c m1 m' a1 a' Hj' Hi), list_lookup_insert_eq in Hj by by eapply lookup_lt_Some.
    done.
  - intros j k cfg cfg' c m m' a a' Hj Hk.
    destruct (update_writer _ _ _ _ _ _ Hi Hs Hal Hj) as ([s1 m1 a1] & Hj' & Es & _). simpl in Es. subst s1.
    destruct (update_writer _ _ _ _ _ _ Hi Hs Hal Hk) as ([s2 m2 a2] & Hk' & Es & _). simpl in Es. subst s2.
    by eapply Ha.
  - intros j c cmd Hin. rewrite length_insert. destruct (Hv j c cmd Hin) as [Hlen [k Hk]].
    destruct (close_source_fwd c0 _ _ _ Hk) as (k' & Hk' & _). split; [done|by exists k'].
  - intros j c cmd Hin (k & Hk & Hik). apply close_source in Hk as (k' & Hk' & Es).
    destruct (Hl j c cmd Hin) as (cfg & m & a & Hj & Hm'); [exists k'; by rewrite Es|].
    destruct (update_writer_fwd _ _ _ _ _ _ _ _ _ Hi Hs Hj) as (m1 & a1 & Hj'). eauto 10.
Qed.

Lemma run_wf es s s' : sinks_wf s -> sink_run es s = Some s' -> sinks_wf s'.
Proof.
  revert s. induction es as [|e es IH]; intros s Hs; cbn [sink_run]; [by intros [= <-]|].
  destruct (sink_step e s) as [s1|] eqn:E; [|done]. cbn [mbind option_bind]. apply IH.
  destruct e; [by eapply start_wf|by eapply tick_wf|by eapply stop_wf].
Qed.

Lemma newSinks_wf : sinks_wf newSinks.
Proof. split; simpl; try done. Qed.

(** ** Properties *)

(** C39. A writer of Influx stands alone: whatever other writers are started, fail, write
    or stop, as long as it runs its connection is open and leads to its own server;
    everything it has had executed went there, as a point of its own bucket, and nothing
    else was ever executed on it. *)
Theorem influx_isolated es s i cfg c m alive :
  sink_run es newSinks = Some s ->
  sk_writers s !! i = Some (mkWriter (SInflux cfg c) m alive) ->
  (exists open, wo_conns (sk_world s) !! c = Some (mkConn (InfluxSource (in2_Url cfg) (Getenv "TOKEN")) open) /\
     (alive = true -> open = true)) /\
  (forall j cmd, In (j, c, cmd) (wo_log (sk_world s)) ->
     j = i /\ exists m', cmd = influx_point cfg m').
Proof.
  intros Hr Hi. pose proof (run_wf es newSinks s newSinks_wf Hr) as [_ Ho Ha _ Hl].
  split; [by apply (Ho i cfg c m alive)|]. intros j cmd Hin.
  destruct (Ho i cfg c m alive Hi) as (op & Hc & _).
  destruct (Hl j c cmd Hin) as (cfg' & m' & a' & Hj & Hm'); [by eexists|].
  pose proof (Ha j i cfg' cfg c m' m a' alive Hj Hi) as ->. rewrite Hi in Hj. injection Hj as -> _ _. done.
Qed.

(** The handle of a session is closed. *)
Definition shut (sess : Session) (w : World) : Prop :=
  exists c k, session_conn sess w = Some c /\ wo_conns w !! c = Some k /\ cn_open k = false.

(** The database of a session, and the starts of a writer of that database. *)
Definition database (sess : Session) : string :=
  match sess with SMySQL => "mysql" | SRedis => "redis" | STDengine => "tdengine" | SInflux _ _ => "influx" end.
Definition starts (sess : Session) (e : SinkEvent) : bool :=
  match e with StartDB method _ _ _ _ => str_eq method (database sess) | _ => false end.

(** Whose handle is kept in a package variable. *)
Definition shares (sess : Session) : bool := match sess with SInflux _ _ => false | _ => true end.

Lemma shut_run sess i c cmd w :
  shut sess w -> session_conn sess w = Some c -> run i c cmd w = (w, Some "database is closed"%string).
Proof. intros (c' & k & Hc & Hk & Ho) Hc'. rewrite Hc in Hc'. injection Hc' as <-. unfold run. by rewrite Hk, Ho. Qed.

Lemma shut_query sess i c text w :
  shut sess w -> session_conn sess w = Some c -> query i c text w = (w, Err "database is closed"%string).
Proof. intros (c' & k & Hc & Hk & Ho) Hc'. rewrite Hc in Hc'. injection Hc' as <-. unfold query. by rewrite Hk, Ho. Qed.

(** A reading of a writer whose handle is closed. *)
Lemma shut_AddData sess i m w :
  shares sess = true -> shut sess w ->
  match sess with
  | STDengine => AddData i sess m w = None
  | _ => exists e, AddData i sess m w = Some (w, Some e)
  end.
Proof.
  intros Hsh Hs. pose proof Hs as (c & k & Hc & _). destruct sess as [| | |cfg c']; [| | |done].
  - simpl. unfold mysql_AddData. simpl in Hc. rewrite Hc, (shut_run SMySQL) by done. by eexists.
  - simpl. unfold redis_AddData. simpl in Hc. rewrite Hc, (shut_run SRedis) by done. by eexists.
  - simpl. unfold tdengine_AddData. simpl in Hc. by rewrite Hc, (shut_query STDengine) by done.
Qed.

Lemma shut_tick sess i wr read ms w w' wr' :
  shares sess = true -> shut sess w -> wr_session wr = sess ->
  write_tick i wr read ms w = Some (w', wr') -> w' = w.
Proof.
  intros Hsh Hs <-. unfold write_tick. destruct (wr_alive wr); [|by intros [= <- _]]. simpl.
  destruct read as [d|]; [|by intros [= <- _]]. destruct (ConvertToString d) as [v|]; [|by intros [= <- _]].
  pose proof (shut_AddData _ i (with_reading v ms (wr_model wr)) w Hsh Hs) as Ha. revert Ha.
  destruct (wr_session wr) as [| | |cfg c']; [| | |done]; first [intros [e ->]|intros ->];
    simpl; try done; by intros [= <- _].
Qed.

(** Starting a writer of another database leaves the handle as it is. *)
Lemma dbHandler_others sess method raw data_raw millis w w' session :
  shares sess = true -> str_eq method (database sess) = false ->
  dbHandler method raw data_raw millis w = Some (w', session) ->
  session_conn sess w' = session_conn sess w.
Proof.
  intros Hsh Hm.
  unfold dbHandler, influx_DataHandler, redis_DataHandler, tdengine_DataHandler, mysql_DataHandler, started.
  destruct (str_eq method "influx").
  { destruct (UnmarshalInflux raw data_raw) as [cfg|]; [|by intros [= <- _]].
    unfold influx_InitDbClient, connect. destruct (ticker_cycle millis); [|done]. simpl.
    intros [= <- _]. by destruct sess. }
  destruct (str_eq method "redis") eqn:E1.
  { destruct (UnmarshalRedis raw) as [cfg|]; [|by intros [= <- _]].
    unfold redis_InitDbClient, connect. destruct (Ping _ _); [|destruct (ticker_cycle millis); [|done]]; simpl;
      intros [= <- _]; destruct sess; try done; simpl in Hm; congruence. }
  destruct (str_eq method "tdengine") eqn:E2.
  { destruct (UnmarshalTDEngine raw) as [cfg|]; [|by intros [= <- _]].
    unfold tdengine_InitDbClient, connect.
    destruct (sql_Open _ _); (destruct (ticker_cycle millis); [|done]); simpl; intros [= <- _];
      destruct sess; try done; simpl in Hm; congruence. }
  destruct (str_eq method "mysql") eqn:E3; [|by intros [= <- _]].
  destruct (UnmarshalMySQL raw) as [cfg|]; [|by intros [= <- _]].
  unfold mysql_InitDbClient, connect.
  destruct (sql_Open _ _); [|destruct (ticker_cycle millis); [|done]]; simpl; intros [= <- _];
    destruct sess; try done; simpl in Hm; congruence.
Qed.

Lemma session_conn_close sess c w : session_conn sess (close c w) = session_conn sess w.
Proof. by destruct sess. Qed.

Lemma shut_close sess c w : shut sess w -> shut sess (close c w).
Proof.
  intros (c0 & k & Hc & Hk & Ho). rewrite <- (session_conn_close sess c) in Hc.
  destruct (decide (c = c0)) as [->|Hne].
  - exists c0, (mkConn (cn_Source k) false). split_and!; [done| |done].
    by rewrite close_lookup, decide_True, Hk.
  - exists c0, k. split_and!; [done| |done]. by rewrite close_lookup, decide_False.
Qed.

(** Nobody opens a closed handle but a start of that database, and nothing that a writer
    of the database does is executed meanwhile. *)
Lemma shut_step sess e s s' :
  shares sess = true -> shut sess (sk_world s) -> starts sess e = false -> sink_step e s = Some s' ->
  shut sess (sk_world s') /\
  exists more, wo_log (sk_world s') = wo_log (sk_world s) ++ more /\
    forall i c cmd, In (i, c, cmd) more ->
      exists wr, sk_writers s !! i = Some wr /\ wr_session wr <> sess.
Proof.
  intros Hsh Hs He. destruct e as [method raw data_raw millis m|i read ms|i]; simpl in He |- *.
  - destruct (dbHandler _ _ _ _ _) as [[w session]|] eqn:E; [|done]. simpl. intros [= <-]. sink_simpl.
    pose proof (dbHandler_others _ _ _ _ _ _ _ _ Hsh He E) as Ec. apply dbHandler_opened in E as [El [extra Ee] _ _].
    split; [|exists []; rewrite app_nil_r; by split].
    destruct Hs as (c & k & Hc & Hk & Ho). exists c, k. rewrite Ec, Ee. split_and!; [done| |done].
    by apply lookup_app_l_Some.
  - destruct (sk_writers s !! i) as [wr|] eqn:Hi.
    2: { intros [= <-]. split; [done|]. exists []. rewrite app_nil_r. by split. }
    destruct (write_tick i wr read ms (sk_world s)) as [[w wr']|] eqn:E; [|done]. simpl. intros [= <-]. sink_simpl.
    assert (wr_session wr = sess \/ wr_session wr <> sess) as [Es|Hne]
      by (destruct sess, (wr_session wr); try done; (by left) || by right).
    + apply (shut_tick sess) in E as ->; [|done..]. split; [done|]. exists []. rewrite app_nil_r. by split.
    + apply write_tick_on in E as ([Ec (V1 & V2 & V3) (more & El & Hm)] & _ & _). split.
      * destruct Hs as (c & k & Hc & Hk & Ho). exists c, k. rewrite Ec. split_and!; [|done|done].
        destruct sess; simpl in *; congruence.
      * exists more. split; [done|]. intros j c cmd Hin. rewrite List.Forall_forall in Hm.
        apply Hm in Hin as (-> & _). by exists wr.
  - destruct (sk_writers s !! i) as [wr|] eqn:Hi.
    2: { intros [= <-]. split; [done|]. exists []. rewrite app_nil_r. by split. }
    unfold write_stop. destruct (wr_alive wr); simpl.
    2: { intros [= <-]. split; [done|]. exists []. rewrite app_nil_r. by split. }
    destruct (CloseSession (wr_session wr) (sk_world s)) as [w|] eqn:E; [|done]. simpl. intros [= <-]. sink_simpl.
    apply CloseSession_closes in E as (c & _ & ->). split; [by apply shut_close|].
    exists []. rewrite app_nil_r. by split.
Qed.

(** The session of a writer never changes. *)
Lemma writer_session_step e s s' i wr :
  sink_step e s = Some s' -> sk_writers s !! i = Some wr ->
  exists wr', sk_writers s' !! i = Some wr' /\ wr_session wr' = wr_session wr.
Proof.
  intros Hs Hi. destruct e as [method raw data_raw millis m|j read ms|j]; simpl in Hs.
  - destruct (dbHandler _ _ _ _ _) as [[w session]|]; [|done]. injection Hs as <-. sink_simpl.
    exists wr. split; [by apply lookup_app_l_Some|done].
  - destruct (sk_writers s !! j) as [wr0|] eqn:Hj; [|injection Hs as <-; by exists wr].
    destruct (write_tick _ _ _ _ _) as [[w wr']|] eqn:E; [|done]. injection Hs as <-. sink_simpl.
    apply write_tick_on in E as (_ & Es & _).
    destruct (decide (j = i)) as [->|Hne].
    + rewrite list_lookup_insert_eq by by eapply lookup_lt_Some. rewrite Hi in Hj. injection Hj as ->. by exists wr'.
    + rewrite list_lookup_insert_ne by done. by exists wr.
  - destruct (sk_writers s !! j) as [wr0|] eqn:Hj; [|injection Hs as <-; by exists wr].
    unfold write_stop in Hs. destruct (wr_alive wr0); simpl in Hs;
      [destruct (CloseSession _ _); [|done]|]; injection Hs as <-; sink_simpl;
      (destruct (decide (j = i)) as [->|Hne];
       [rewrite list_lookup_insert_eq by (by eapply lookup_lt_Some); rewrite Hi in Hj; injection Hj as ->; by eexists
       |rewrite list_lookup_insert_ne by done; by exists wr]).
Qed.

Lemma shut_run_events sess es s s' :
  shares sess = true -> shut sess (sk_world s) -> List.Forall (fun e => starts sess e = false) es ->
  sink_run es s = Some s' ->
  shut sess (sk_world s') /\
  (forall i wr, sk_writers s !! i = Some wr ->
     exists wr', sk_writers s' !! i = Some wr' /\ wr_session wr' = wr_session wr) /\
  exists more, wo_log (sk_world s') = wo_log (sk_world s) ++ more /\
    forall i c cmd, In (i, c, cmd) more ->
      exists wr, sk_writers s' !! i = Some wr /\ wr_session wr <> sess.
Proof.
  intros Hsh Hs Hes. revert s Hs. induction Hes as [|e es He _ IH]; intros s Hs; cbn [sink_run].
  { intros [= <-]. split_and!; [done|by eauto|]. exists []. rewrite app_nil_r. by split. }
  destruct (sink_step e s) as [s1|] eqn:E; [|done]. cbn [mbind option_bind]. intros Hr.
  destruct (shut_step sess e s s1 Hsh Hs He E) as (Hs1 & more1 & El1 & Hm1).
  destruct (IH s1 Hs1 Hr) as (Hs' & Hw & more2 & El2 & Hm2). split_and!; [done| |].
  - intros i wr Hi. destruct (writer_session_step _ _ _ _ _ E Hi) as (wr1 & Hi1 & Es1).
    destruct (Hw i wr1 Hi1) as (wr2 & Hi2 & Es2). exists wr2. split; [done|congruence].
  - exists (more1 ++ more2). rewrite El2, El1, app_assoc. split; [done|].
    intros i c cmd [Hin|Hin]%in_app_iff; [|by apply Hm2 in Hin].
    destruct (Hm1 i c cmd Hin) as (wr & Hi & Hne).
    destruct (writer_session_step _ _ _ _ _ E Hi) as (wr1 & Hi1 & Es1).
    destruct (Hw i wr1 Hi1) as (wr2 & Hi2 & Es2). exists wr2. split; [done|congruence].
Qed.

(** C40. The other databases share one handle: once any writer of MySQL, Redis or TDengine
    is stopped, nothing of any writer of that database is stored any more, until another
    writer of the same database is started (which gives all that are left its own handle,
    as [started_again] shows). Whatever is started, read and stopped meanwhile, nothing
    that such a writer does is executed, and the next reading of each that still runs is
    refused and ends it for good, or, with TDengine, panics and ends the mapper. The stop
    is the moment at which the goroutine closes its session, which may be long after it
    was cancelled, and after the start of its successor. *)
Theorem stop_ends_all earlier i s s1 later s2 wr :
  sink_run earlier newSinks = Some s ->
  sk_writers s !! i = Some wr -> wr_alive wr = true -> shares (wr_session wr) = true ->
  sink_step (StopDB i) s = Some s1 ->
  List.Forall (fun e => starts (wr_session wr) e = false) later -> sink_run later s1 = Some s2 ->
  (exists more, wo_log (sk_world s2) = wo_log (sk_world s1) ++ more /\
     forall j c cmd, In (j, c, cmd) more ->
       exists wr', sk_writers s2 !! j = Some wr' /\ wr_session wr' <> wr_session wr) /\
  (forall j wr' d v ms,
     sk_writers s2 !! j = Some wr' -> wr_session wr' = wr_session wr -> wr_alive wr' = true ->
     ConvertToString d = Ok v ->
     match wr_session wr with
     | STDengine => sink_step (TickDB j (Ok d) ms) s2 = None
     | _ => exists m, sink_step (TickDB j (Ok d) ms) s2 =
              Some (mkSinks (sk_world s2) (<[j := mkWriter (wr_session wr) m false]> (sk_writers s2)))
     end).
Proof.
  intros Hr Hi Hal Hsh Hstop Hes Hlater. apply run_wf in Hr as Hwf; [|apply newSinks_wf].
  cbn [sink_step] in Hstop. rewrite Hi in Hstop.
  unfold write_stop in Hstop. rewrite Hal in Hstop. cbn [negb] in Hstop.
  destruct (CloseSession (wr_session wr) (sk_world s)) as [w|] eqn:E; [|done]. injection Hstop as <-.
  apply CloseSession_closes in E as (c & Hc & ->).
  destruct (session_conn_valid s i wr c Hwf Hi Hc) as (k & Hk & _).
  assert (shut (wr_session wr) (close c (sk_world s))) as Hs1.
  { exists c, (mkConn (cn_Source k) false). rewrite session_conn_close. split_and!; [done| |done].
    by rewrite close_lookup, decide_True, Hk. }
  apply (shut_run_events (wr_session wr)) in Hlater as (Hs2 & _ & Hmore); [|done..].
  split; [exact Hmore|]. intros j wr' d v ms Hj Hsess Hal' Hv.
  cbn [sink_step]. rewrite Hj. unfold write_tick. rewrite Hal', Hv, Hsess. cbn [negb].
  pose proof (shut_AddData _ j (with_reading v ms (wr_model wr')) (sk_world s2) Hsh Hs2) as Ha.
  destruct (wr_session wr) as [| | |cfg c']; [| | |done].
  - destruct Ha as [e ->]. by eexists.
  - destruct Ha as [e ->]. by eexists.
  - by rewrite Ha.
Qed.
End Sinks.

(** ** Reports to the edge core (devicetwin.go, devicestatus.go) *)

Section EdgeCore.
Context `{MapperFramework} `{DeviceStatuses} {Twins : Type} (ConvMsgTwin : string -> option Twins).

(** [PushToEdgeCore]: the request, if the payload can be made and read back. *)
Definition PushToEdgeCore (a : nat) (v : VisitorConfig) (name type expected topic device ns : string)
  : Op (option (string * string * Twins)) :=
  bind (GetPayLoad a v name type expected topic) (fun payload =>
    ret match payload with
        | Err _ => None
        | Ok payload => twins ← ConvMsgTwin payload; Some (device, ns, twins)
        end).

(** [PushStatesToEdgeCore]: its client always has a state. *)
Definition PushStatesToEdgeCore (connected : bool) (now : Time) (c : CustomizedClient) (device ns : string)
  : string * string * string := (device, ns, GetDeviceStates connected now c).

(** Reporting a twin reads and changes nothing; it needs a client. *)
Lemma PushToEdgeCore_reads a v name type expected topic device ns s r s' :
  PushToEdgeCore a v name type expected topic device ns s = (r, s') ->
  s' = s /\ (r = Panics <-> client_of a s = None) /\ r <> Blocks.
Proof.
  unfold PushToEdgeCore, GetPayLoad, client_read, bind, get, ret, panics.
  destruct (client_of a s) as [c|]; intros [= <- <-]; split_and!; try done.
Qed.
End EdgeCore.

(** ** Concrete runs *)

#[local] Existing Instance plain_framework.
(** A configuration is its address; a text without one does not open. *)
#[local] Instance plain_decoder : SinkDecoder := {|
  UnmarshalMySQL raw := Some (mkMySQLClientConfig raw "fleet" "mapper");
  UnmarshalRedis raw := Some (mkRedisClientConfig raw 0 0 0);
  UnmarshalTDEngine raw := Some (mkTDEngineClientConfig raw "fleet");
  UnmarshalInflux raw data := Some (mkInfluxdb2Config raw "org" data "m" ∅ "value");
  UnmarshalHTTP raw := Some (mkHTTPConfig raw 80 "/in");
  UnmarshalMQTT raw := Some (mkMQTTConfig raw "out" 0 false);
  UnmarshalEndpoint raw := Some raw;
  MarshalDataModel m := dm_Value m;
  PushMethodHTTP := "http"; PushMethodMQTT := "mqtt"; PushMethodOTEL := "otel"
|}.
#[local] Instance plain_backend : Backend := {|
  Getenv name := name;
  sql_Open _ dsn := if Contains "bad" dsn then Some "invalid DSN"%string else None;
  Ping _ _ := None; answer _ _ _ := None; has_rows _ _ _ := Ok false
|}.

Definition model_of (ns device prop : string) : DataModel := mkDataModel device prop ns "string" "" 0.
Definition reading_of (v : string) (i : nat) : SinkEvent := TickDB i (Ok (DString v)) 1700000000000.
Definition starting (method raw : string) (m : DataModel) : SinkEvent := StartDB method raw "bucket" 1000 m.

(** Which writer had something executed where. *)
Definition executed (s : Sinks) : list (nat * Source * Command) :=
  omap (fun '(i, c, cmd) => k ← wo_conns (sk_world s) !! c; Some (i, cn_Source k, cmd)) (wo_log (sk_world s)).
Definition after (es : list SinkEvent) : option Sinks := sink_run UTC es newSinks.

Definition barn : DataModel := model_of "default" "barn" "temperature".
Definition mill : DataModel := model_of "default" "mill" "temperature".

(** The readings of the barn go to the database of the mill, which was opened last. *)
Example last_opened_takes_all :
  (fun s => map (fun x => (x.1.1, x.1.2)) (executed s)) <$>
    after [starting "mysql" "barn-db" barn; starting "mysql" "mill-db" mill; reading_of "21" 0]
  = Some (replicate 3 (0%nat, MySQLSource "mapper:PASSWORD@tcp(mill-db)/fleet")).
Proof. vm_compute. reflexivity. Qed.

(** A configuration that does not open takes the handle away from everybody. *)
Example bad_source_panics_others :
  after [starting "mysql" "barn-db" barn; starting "mysql" "bad-db" mill; reading_of "21" 0] = None.
Proof. vm_compute. reflexivity. Qed.

(** One key for all devices of a name, one table for all properties of a name. *)
Example redis_key_without_namespace :
  (fun s => map snd (executed s)) <$>
    after [starting "redis" "r" (model_of "north" "barn" "t"); starting "redis" "r" (model_of "south" "barn" "t");
           reading_of "21" 0; reading_of "22" 1]
  = Some [ZAdd "barn" 1700000000000 "21"; ZAdd "barn" 1700000000000 "22"]%string.
Proof. vm_compute. reflexivity. Qed.

Example tdengine_table_without_device :
  String.prefix "INSERT INTO temperature USING default/barn" (tdengine_insert UTC barn) = true /\
  String.prefix "INSERT INTO temperature USING default/mill" (tdengine_insert UTC mill) = true.
Proof. vm_compute. done. Qed.

(** Inserted at local time, asked for at universal time. *)
Example tdengine_times :
  format_seconds (fun _ => 2 * Hour) 1700000000000 = "2023-11-15 00:13:20"%string /\
  tdengine_by_range "barn" 1700000000 1700000000 =
    "SELECT ts, deviceid, propertyname, data, type FROM barn WHERE ts >= '2023-11-14 22:13:20' AND ts <= '2023-11-14 22:13:20'"%string.
Proof. vm_compute. done. Qed.

(** What was stored at a time comes back in seconds, or without its time. *)
Example tdengine_times_back :
  let row := Some (UnixMilli 1700000000000, ("barn", "t", "21", "string"))%string in
  (map dm_TimeStamp <$> match tdengine_GetDataByDeviceID [row] with Ok l => Some l | Err _ => None end,
   map dm_TimeStamp (tdengine_GetDataByTimeRange [row])) = (Some [1700000000], [0]).
Proof. vm_compute. reflexivity. Qed.

(** An endpoint that does not answer ends the mapper. *)
Example http_refused :
  http_Push UTC (fun _ _ => Err "connection refused"%string) (mkHTTPConfig "host" 80 "/in") barn = None.
Proof. reflexivity. Qed.

(** A second is a thousand nanoseconds to OTEL. *)
Example otel_interval :
  pushHandler "otel" "http://collector" 1000 = Some (Some (PanelOTEL "http://collector" 1000)) /\
  ticker_cycle 1000 = Some Second.
Proof. vm_compute. done. Qed.

(** A negative report cycle ends the mapper. *)
Example negative_cycle : after [StartDB "influx" "i" "b" (-1) barn] = None.
Proof. vm_compute. reflexivity. Qed.

Definition two_influx : list SinkEvent :=
  [starting "influx" "barn-db" barn; starting "mysql" "m" mill; starting "influx" "mill-db" mill;
   reading_of "21" 0; reading_of "22" 2; StopDB 2; reading_of "23" 0].
Definition two_influx_end : Sinks := default newSinks (after two_influx).

Lemma influx_isolated_witness :
  length (wo_log (sk_world two_influx_end)) = 3%nat /\
  forall j cmd, In (j, 0%nat, cmd) (wo_log (sk_world two_influx_end)) -> j = 0%nat.
Proof.
  split; [vm_compute; reflexivity|]. intros j cmd Hin.
  apply (influx_isolated UTC two_influx two_influx_end 0%nat
    (mkInfluxdb2Config "barn-db" "org" "bucket" "m" ∅ "value") 0%nat
    (mkDataModel "barn" "temperature" "default" "string" "23" 1700000000000) true) in Hin as [E _];
    [exact E|vm_compute; reflexivity|vm_compute; reflexivity].
Defined.

Definition two_mysql : list SinkEvent := [starting "mysql" "barn-db" barn; starting "mysql" "mill-db" mill].
Definition meanwhile : list SinkEvent := [starting "influx" "barn-db" barn; reading_of "20" 2].
Definition sinks_after (es : list SinkEvent) : Sinks := default newSinks (after es).

Lemma stop_ends_all_witness :
  let s := sinks_after (two_mysql ++ [StopDB 0] ++ meanwhile) in
  length (wo_log (sk_world s)) = 1%nat /\
  exists m, sink_step UTC (reading_of "21" 1) s =
    Some (mkSinks (sk_world s) (<[1%nat := mkWriter SMySQL m false]> (sk_writers s))).
Proof.
  cbv zeta. split; [vm_compute; reflexivity|].
  destruct (stop_ends_all UTC two_mysql 0%nat (sinks_after two_mysql) (sinks_after (two_mysql ++ [StopDB 0]))
    meanwhile (sinks_after (two_mysql ++ [StopDB 0] ++ meanwhile)) (mkWriter SMySQL barn true)) as [_ Hall];
    [vm_compute; reflexivity|vm_compute; reflexivity|done|done|vm_compute; reflexivity|by repeat constructor
    |vm_compute; reflexivity|].
  by apply (Hall 1%nat (mkWriter SMySQL mill true) (DString "21") "21"); try (vm_compute; reflexivity).
Defined.

(** Started again before its next reading, a database stores for those that are left
    through the handle of the newcomer. *)
Example started_again :
  (fun s => (map (fun x => (x.1.1, x.1.2)) (executed s), wr_alive <$> sk_writers s !! 1%nat)) <$>
    after (two_mysql ++ [StopDB 0; starting "mysql" "byre-db" barn; reading_of "21" 1])
  = Some (replicate 3 (1%nat, MySQLSource "mapper:PASSWORD@tcp(byre-db)/fleet"), Some true).
Proof. vm_compute. reflexivity. Qed.
