(* ===== verification/Telemetry.v ===== *)
(** * Readings as a metric: mapper/esphome/data/publish/otel

    [Sinks] has what a push method is started with; here is what OpenTelemetry is
    started with and what becomes of it: an exporter to the host of a URL, a provider
    that exports at an interval, a gauge that reads the device when it is collected, and
    a goroutine that shuts the provider down when the device is stopped. Parsing a URL
    and the answers of the OpenTelemetry library are an interface. *)

From S2P Require Import Prelude GoTime GoFloat GoParseFloat GoStrings Types Driver Panel Sinks.
Local Open Scope Z_scope.

(** ** Definitions *)

Record URL := mkURL { url_Scheme : string; url_Host : string; url_Path : string }.

Inductive otlp_Option := WithEndpoint (host : string) | WithURLPath (path : string) | WithInsecure.

(** [url.Parse], and the errors of what the library is asked for. *)
Class Telemetry := {
  ParseURL : string -> option URL;
  NewExporter : list otlp_Option -> option string;
  MergeResource : string -> option string;
  Float64ObservableGauge : string -> option string;
  RegisterCallback : string -> option string
}.

(** A provider: whether the gauge has its callback, whether it has been shut down, and
    what it has exported. *)
Record Provider := mkProvider {
  pv_options : list otlp_Option;
  pv_device : string;
  pv_interval : Duration;
  pv_gauge : option string;
  pv_running : bool;
  pv_exported : list (string * float64)
}.

Section Telemetry.
Context `{MapperFramework} `{SinkDecoder} `{Telemetry}.

Definition WithEndpointURL (v : string) : list otlp_Option :=
  match ParseURL v with
  | None => []
  | Some u => [WithEndpoint (url_Host u); WithURLPath (url_Path u)] ++
              (if str_eq (url_Scheme u) "https" then [] else [WithInsecure])
  end.

Definition NewConfig (raw : string) : result string string :=
  match UnmarshalEndpoint raw with
  | None => Err "bad configuration"%string
  | Some url => if is_empty url then Err "endpointURL is required"%string else Ok url
  end.

Definition InitProvider (EndpointURL : string) (reportCycle : Duration) (m : DataModel)
  : result Provider string :=
  let opts := WithEndpointURL EndpointURL in
  match NewExporter opts with
  | Some err => Err err
  | None =>
      let reportCycle := if reportCycle =? 0 then DefaultReportCycle else reportCycle in
      let id := (dm_Namespace m +:+ "/" +:+ dm_DeviceName m)%string in
      match MergeResource id with
      | Some err => Err err
      | None => Ok (mkProvider opts id reportCycle None true [])
      end
  end.

Definition with_gauge (name : string) (p : Provider) : Provider :=
  mkProvider (pv_options p) (pv_device p) (pv_interval p) (Some name) (pv_running p) (pv_exported p).

(** [DataHandler]: a provider without a callback goes on, and exports nothing. *)
Definition otel_DataHandler (raw : string) (reportCycle : Z) (m : DataModel) : option Provider :=
  match NewConfig raw with
  | Err _ => None
  | Ok url =>
      match InitProvider url reportCycle m with
      | Err _ => None
      | Ok p =>
          match Float64ObservableGauge (dm_PropertyName m) with
          | Some _ => Some p
          | None => match RegisterCallback (dm_PropertyName m) with
                    | Some _ => Some p
                    | None => Some (with_gauge (dm_PropertyName m) p)
                    end
          end
      end
  end.

(** What happens to a provider: it collects, with what the client answers then, or the
    context of its device is done. *)
Inductive ProviderEvent := Collect (read : result Datum ReadError) | ContextDone.

Definition export (v : option float64) (p : Provider) : Provider :=
  match pv_gauge p, v with
  | Some name, Some v =>
      mkProvider (pv_options p) (pv_device p) (pv_interval p) (pv_gauge p) (pv_running p)
        (pv_exported p ++ [(name, v)])
  | _, _ => p
  end.

Definition provider_step (p : Provider) (e : ProviderEvent) : Provider :=
  match e with
  | Collect read => if pv_running p then export (otel_observe read) p else p
  | ContextDone =>
      mkProvider (pv_options p) (pv_device p) (pv_interval p) (pv_gauge p) false (pv_exported p)
  end.

(** ** Lemmas *)

(** The readings before the device was stopped. *)
Fixpoint collected (es : list ProviderEvent) : list (result Datum ReadError) :=
  match es with
  | Collect read :: es' => read :: collected es'
  | ContextDone :: _ | [] => []
  end.

Lemma stopped_provider es p :
  pv_running p = false -> pv_exported (fold_left provider_step es p) = pv_exported p.
Proof.
  revert p. induction es as [|[read|] es IH]; intros p Hr; simpl; [done| |].
  - rewrite Hr. by apply IH.
  - by rewrite IH.
Qed.

Lemma provider_exports es : forall p name,
  pv_running p = true -> pv_gauge p = Some name ->
  pv_exported (fold_left provider_step es p) =
  pv_exported p ++ map (fun v => (name, v)) (omap otel_observe (collected es)).
Proof.
  induction es as [|[read|] es IH]; intros p name Hr Hg; cbn [fold_left provider_step collected].
  - by rewrite app_nil_r.
  - rewrite Hr. unfold export. rewrite Hg. cbn [omap list_omap].
    destruct (otel_observe read) as [v|]; [|by apply IH].
    rewrite (IH _ name) by done. simpl. by rewrite <- app_assoc.
  - rewrite stopped_provider by done. by rewrite app_nil_r.
Qed.

(** A handler that started exports, under the name of its property and until its device is
    stopped, exactly the readings that are numbers, to what its URL says if it says
    anything. *)
Lemma otel_DataHandler_exports raw reportCycle m p es :
  otel_DataHandler raw reportCycle m = Some p ->
  otel_start raw reportCycle = Some (PanelOTEL (default ""%string (UnmarshalEndpoint raw)) (pv_interval p)) /\
  pv_device p = (dm_Namespace m +:+ "/" +:+ dm_DeviceName m)%string /\
  pv_options p = WithEndpointURL (default ""%string (UnmarshalEndpoint raw)) /\
  (pv_gauge p = Some (dm_PropertyName m) ->
     pv_exported (fold_left provider_step es p) =
     map (fun v => (dm_PropertyName m, v)) (omap otel_observe (collected es))) /\
  (pv_gauge p = None -> pv_exported (fold_left provider_step es p) = []).
Proof.
  unfold otel_DataHandler, NewConfig, otel_start, InitProvider.
  destruct (UnmarshalEndpoint raw) as [url|]; [|done]. destruct (is_empty url); [done|].
  destruct (NewExporter _); [done|]. destruct (MergeResource _); [done|]. simpl.
  assert (forall es q, pv_gauge q = None -> pv_exported q = [] ->
    pv_exported (fold_left provider_step es q) = []) as Hnone.
  { clear es. induction es as [|[read|] es IH]; intros q Hg He; simpl; [done| |by apply IH].
    destruct (pv_running q); [|by apply IH]. unfold export. rewrite Hg. by apply IH. }
  assert (forall q, pv_running q = true -> pv_exported q = [] -> pv_gauge q = Some (dm_PropertyName m) ->
    pv_exported (fold_left provider_step es q) =
    map (fun v => (dm_PropertyName m, v)) (omap otel_observe (collected es))) as Hsome
    by (intros q Hr He Hg; by rewrite (provider_exports es q _ Hr Hg), He).
  destruct (Float64ObservableGauge _); [|destruct (RegisterCallback _)]; intros [= <-]; simpl;
    split_and!; try done; intros _; first [by apply Hnone|by apply Hsome].
Qed.
End Telemetry.

(** ** A concrete endpoint *)

#[local] Existing Instance plain_framework.
#[local] Existing Instance plain_decoder.
(** Only texts with this scheme parse. *)
#[local] Instance plain_telemetry : Telemetry := {|
  ParseURL v := if String.prefix "http://" v
                then Some (mkURL "http" (String.substring 7 (String.length v - 7) v) "") else None;
  NewExporter _ := None; MergeResource _ := None; Float64ObservableGauge _ := None;
  RegisterCallback _ := None
|}.

Example exported :
  (fun p => (pv_options p, pv_device p,
             map fst (pv_exported (fold_left provider_step
               [Collect (Ok (DString "21.5")); Collect (Ok (DString "on")); ContextDone; Collect (Ok (DString "22"))]
               p)))) <$> otel_DataHandler "http://collector:4318" 1000 barn
  = Some ([WithEndpoint "collector:4318"; WithURLPath ""; WithInsecure], "default/barn", ["temperature"])%string.
Proof. vm_compute. reflexivity. Qed.

(** An endpoint that does not parse is no error: the exporter is left to its defaults. *)
Example unparsed_endpoint :
  pv_options <$> otel_DataHandler "http//collector" 1000 barn = Some [].
Proof. vm_compute. reflexivity. Qed.
