(* ===== verification/Startup.v ===== *)
(** * Starting: cmd/main.go, the scheme of api/v1alpha1, and cmd/vivarium's main

    The registration of the API's kinds, which of the controllers a manager runs and on
    what, every way the controller process ends, and what the vivarium's process does
    around an enclosure. The scheme, the manager, the file system, the decoder of the
    fleet file and the embedded broker are interfaces. *)

From S2P Require Import Prelude GoTime GoFloat GoStrings Types GoHeap DeepCopy Cluster Unstructured Liveness Compose Rollout Vivarium Habitat Keeper.
Local Open Scope Z_scope.

(** ** Definitions: the scheme *)

Record GroupVersionKind := mkGVK { gvk_Group : string; gvk_Version : string; gvk_Kind : string }.

#[export] Instance GroupVersionKind_eq_dec : EqDecision GroupVersionKind.
Proof. solve_decision. Defined.

(** [runtime.Scheme] and controller-runtime's [scheme.Builder]. *)
Class SchemeLib := {
  Scheme : Type;
  NewScheme : Scheme;
  recognizes : Scheme -> GroupVersionKind -> bool;
  clientgo_AddToScheme : Scheme -> result Scheme string;
  Builder : Type;
  NewBuilder : string -> string -> Builder;
  Register : list string -> Builder -> Builder;
  AddToScheme : Builder -> Scheme -> result Scheme string
}.

(** What they document: a builder adds the kinds that were registered with it, under its
    group and version, and takes nothing away. *)
Class SchemeLaws `{SchemeLib} := {
  registered : Builder -> list GroupVersionKind;
  registered_new group version : registered (NewBuilder group version) = [];
  group_version : Builder -> string * string;
  group_version_new group version : group_version (NewBuilder group version) = (group, version);
  group_version_Register kinds b : group_version (Register kinds b) = group_version b;
  registered_Register kinds b :
    registered (Register kinds b) =
    registered b ++ map (mkGVK (group_version b).1 (group_version b).2) kinds;
  AddToScheme_recognizes b s s' k :
    AddToScheme b s = Ok s' ->
    recognizes s' k = recognizes s k || existsb (fun k' => bool_decide (k = k')) (registered b)
}.

(** The kinds of api/v1alpha1, as the [init] functions register them, file by file. *)
Definition decommission_kinds : list string := ["DeviceDecommission"; "DeviceDecommissionList"]%string.
Definition liveness_kinds : list string := ["DeviceLiveness"; "DeviceLivenessList"]%string.
Definition template_kinds : list string := ["DeviceTemplate"; "DeviceTemplateList"]%string.
Definition enrollment_kinds : list string := ["DeviceEnrollment"; "DeviceEnrollmentList"]%string.
Definition rollout_kinds : list string := ["FirmwareRollout"; "FirmwareRolloutList"]%string.
Definition drift_kinds : list string :=
  ["FleetDrift"; "FleetDriftList"; "CredentialExpiry"; "CredentialExpiryList"]%string.
Definition query_kinds : list string := ["FleetQuery"; "FleetQueryList"]%string.
Definition window_kinds : list string := ["MaintenanceWindow"; "MaintenanceWindowList"]%string.

(** Go runs the [init] functions of a package in the order of its files. *)
Definition api_inits : list (list string) :=
  [decommission_kinds; liveness_kinds; template_kinds; enrollment_kinds; rollout_kinds; drift_kinds;
   query_kinds; window_kinds].

Section Scheme.
Context `{SchemeLib}.

Definition GroupVersion : string * string := ("fleet.torpor.io", "v1alpha1")%string.
Definition SchemeBuilder : Builder :=
  fold_left (fun b kinds => Register kinds b) api_inits (NewBuilder GroupVersion.1 GroupVersion.2).

(** The [init] of cmd/main.go; [utilruntime.Must] panics of an error. *)
Definition controller_scheme : option Scheme :=
  match clientgo_AddToScheme NewScheme with
  | Err _ => None
  | Ok s => match AddToScheme SchemeBuilder s with Ok s => Some s | Err _ => None end
  end.
End Scheme.

(** ** Definitions: the manager and its controllers *)

Definition deviceGVK : GroupVersionKind := mkGVK "devices.kubeedge.io" "v1beta1" "Device".
Definition deviceStatusGVK : GroupVersionKind := mkGVK "devices.kubeedge.io" "v1beta1" "DeviceStatus".

Inductive Reconciler := LivenessReconciler | RolloutReconciler.

(** What a controller is built with: what it watches, as an untyped object or as a type
    of the scheme, and its name. *)
Record Setup := mkSetup {
  su_For : GroupVersionKind; su_typed : bool; su_Named : string; su_Reconciler : Reconciler }.

Definition liveness_setup : Setup := mkSetup deviceGVK false "deviceliveness" LivenessReconciler.
Definition rollout_setup : Setup :=
  mkSetup (mkGVK GroupVersion.1 GroupVersion.2 "FirmwareRollout") true "firmwarerollout" RolloutReconciler.

Record Options := mkOptions { op_metrics : string; op_probe : string; op_leaderElect : bool; op_id : string }.

Definition manager_options (metricsAddr probeAddr : string) (leaderElect : bool) : Options :=
  mkOptions metricsAddr probeAddr leaderElect "liveness.fleet.torpor.io".

(** [Start] returns when it is told to stop, or with an error. *)
Class ManagerLib `{SchemeLib} := {
  Manager : Type;
  NewManager : Options -> Scheme -> result Manager string;
  Complete : Setup -> Manager -> result Manager string;
  AddHealthzCheck : string -> Manager -> Manager;
  AddReadyzCheck : string -> Manager -> Manager;
  Start : Manager -> option string
}.

(** How the process ends: its status and what it logged. *)
Inductive Ended := Panicked | Exit (status : Z) (log : list string).

Section Manager.
Context `{SchemeLib} `{!ManagerLib}.

Definition SetupWithManager (su : Setup) (mgr : Manager) : result Manager string := Complete su mgr.

Definition controller_main (opts : Options) : Ended :=
  match controller_scheme with
  | None => Panicked
  | Some scheme =>
      match NewManager opts scheme with
      | Err _ => Exit 1 ["unable to start manager"%string]
      | Ok mgr =>
          match SetupWithManager liveness_setup mgr with
          | Err _ => Exit 1 ["unable to create controller: DeviceLiveness"%string]
          | Ok mgr =>
              match SetupWithManager rollout_setup mgr with
              | Err _ => Exit 1 ["unable to create controller: FirmwareRollout"%string]
              | Ok mgr =>
                  let mgr := AddReadyzCheck "readyz" (AddHealthzCheck "healthz" mgr) in
                  match Start mgr with
                  | Some _ => Exit 1 ["starting liveness controller"; "manager exited"]%string
                  | None => Exit 0 ["starting liveness controller"%string]
                  end
              end
          end
      end
  end.
End Manager.

(** A request of the manager to a controller: a pass of its reconciler. *)
Definition reconcile `{Accessors} `{SliceSort} `{LabelSelectors}
    (LoadLocation : string -> option Location) (Local : Location) (r : Reconciler) (key : Key) : prog Outcome :=
  match r with
  | LivenessReconciler => ReconcileLiveness key
  | RolloutReconciler => ReconcileRollout LoadLocation Local key
  end.

(** The type of the scheme that a request to the API server goes by, if it is typed. *)
Definition typed_kind {R} (e : Effect R) : option string :=
  match e with
  | GetLiveness _ | CreateLiveness _ _ | UpdateLivenessStatus _ => Some "DeviceLiveness"%string
  | GetRollout _ | UpdateRolloutStatus _ => Some "FirmwareRollout"%string
  | ListWindows _ => Some "MaintenanceWindowList"%string
  | GetDevice _ | GetDeviceStatus _ | ListDevices _ | UpdateDevice _ | Now => None
  end.

(** ** Definitions: the process of a vivarium *)

Section VivariumMain.
Context `{RandSource} `{StrconvQuote}.

(** The file, its decoder, the embedded broker's listener and the clock. *)
Record VivariumWorld := mkVivariumWorld {
  vw_ReadFile : string -> result string string;
  vw_Unmarshal : string -> result Fleet string;
  vw_AddListener : string -> option string;
  vw_Now : Time
}.

Definition vivarium_die (text : string) : string := ("vivarium: " +:+ text)%string.

(** How [main] goes: it dies, the goroutine of the ground truth panics of an interval
    that is not positive, or the enclosure runs on a broker. *)
Inductive VivariumStart :=
| VivariumDies (err : string)
| VivariumPanics (printed : string)
| VivariumRuns (printed broker : string) (s : Habitat).

Definition embedded_broker (addr : string) : string := ("tcp://127.0.0.1" +:+ addr)%string.

Definition vivarium_main (w : VivariumWorld) (fleetPath addr external : string) (every : Duration)
  : VivariumStart :=
  match vw_ReadFile w fleetPath with
  | Err err => VivariumDies (vivarium_die err)
  | Ok raw =>
      match vw_Unmarshal w raw with
      | Err err => VivariumDies (vivarium_die (fleetPath +:+ ": " +:+ err)%string)
      | Ok f =>
          let start (printed broker : string) :=
            let printed := (printed +:+ fleet_banner f broker)%string in
            if every <=? 0 then VivariumPanics printed
            else VivariumRuns printed broker (settle (New (vw_Now w) f)) in
          if is_empty external then
            match vw_AddListener w addr with
            | Some err => VivariumDies (vivarium_die ("listener: " +:+ err)%string)
            | None =>
                start (escape "1" "vivarium" +:+ "  embedded broker on " +:+
                       embedded_broker addr +:+ newline)%string (embedded_broker addr)
            end
          else start ""%string external
      end
  end.

(** What [main] prints and exits with once [Run] has returned. *)
Definition vivarium_end (st : Stage) : option (string * Z) :=
  match st with
  | Returned None => Some ((newline +:+ "vivarium closed" +:+ newline)%string, 0)
  | Returned (Some err) => Some (vivarium_die err, 1)
  | AtOrganism _ => None
  end.
End VivariumMain.

(** ** Lemmas *)

Section Facts.
Context `{SchemeLaws}.

Lemma registered_inits inits b :
  group_version (fold_left (fun b kinds => Register kinds b) inits b) = group_version b /\
  registered (fold_left (fun b kinds => Register kinds b) inits b) =
  registered b ++ map (mkGVK (group_version b).1 (group_version b).2) (concat inits).
Proof.
  revert b. induction inits as [|kinds inits IH]; intros b; simpl; [by rewrite app_nil_r|].
  destruct (IH (Register kinds b)) as [-> ->].
  by rewrite group_version_Register, registered_Register, map_app, app_assoc.
Qed.

(** The kinds that the builder of the API holds. *)
Lemma SchemeBuilder_registered :
  registered SchemeBuilder = map (mkGVK "fleet.torpor.io" "v1alpha1") (concat api_inits).
Proof.
  destruct (registered_inits api_inits (NewBuilder GroupVersion.1 GroupVersion.2)) as [_ E].
  unfold SchemeBuilder. rewrite E, registered_new, group_version_new. done.
Qed.

Lemma controller_scheme_recognizes s kind :
  controller_scheme = Some s -> In kind (concat api_inits) ->
  recognizes s (mkGVK "fleet.torpor.io" "v1alpha1" kind) = true.
Proof.
  unfold controller_scheme. destruct (clientgo_AddToScheme _) as [s0|]; [|done].
  destruct (AddToScheme SchemeBuilder s0) as [s1|] eqn:E; [|done]. intros [= <-] Hin.
  rewrite (AddToScheme_recognizes _ _ _ _ E). apply orb_true_iff. right. apply existsb_exists.
  exists (mkGVK "fleet.torpor.io" "v1alpha1" kind). split; [|by apply bool_decide_eq_true].
  rewrite SchemeBuilder_registered. by apply (in_map (mkGVK "fleet.torpor.io" "v1alpha1")).
Qed.
End Facts.

(** Every object of the API is registered once, with its list, and can be copied as an
    object; nothing else is registered. *)
Lemma registered_are_objects `{MetaV1} depth :
  concat api_inits ≡ₚ map fst (deep_copy_objects depth) /\ NoDup (concat api_inits).
Proof.
  split; [|apply (bool_decide_unpack _); vm_compute; exact I].
  unfold deep_copy_objects. cbn [map fst].
  apply (bool_decide_unpack _). vm_compute. exact I.
Qed.

(** Whatever a pass of either controller asks of the API server by type is of a kind the
    scheme recognizes and the library can copy. *)
Lemma requests_are_registered `{SchemeLaws} `{MetaV1} depth s kind {R} (e : Effect R) :
  controller_scheme = Some s -> typed_kind e = Some kind ->
  recognizes s (mkGVK "fleet.torpor.io" "v1alpha1" kind) = true /\
  exists f, In (kind, f) (deep_copy_objects depth).
Proof.
  intros Hs Hk. assert (In kind (concat api_inits)) as Hin
    by (destruct e; simplify_eq/=; simpl; tauto).
  split; [by apply controller_scheme_recognizes|].
  destruct (registered_are_objects depth) as [Hp _].
  assert (In kind (map fst (deep_copy_objects depth))) as ([k f] & E & Hf)%in_map_iff
    by (by rewrite <- Hp). simpl in E. subst k. by exists f.
Qed.

(** The process ends well only if the manager ran both controllers and was told to stop. *)
Lemma controller_main_status `{SchemeLib} `{!ManagerLib} opts :
  controller_main opts = Panicked /\ controller_scheme = None \/
  (exists status log, controller_main opts = Exit status log /\ (status = 0 \/ status = 1)) /\
  ((exists log, controller_main opts = Exit 0 log) <->
   exists s m0 m1 m2, controller_scheme = Some s /\ NewManager opts s = Ok m0 /\
     Complete liveness_setup m0 = Ok m1 /\ Complete rollout_setup m1 = Ok m2 /\
     Start (AddReadyzCheck "readyz" (AddHealthzCheck "healthz" m2)) = None).
Proof.
  unfold controller_main, SetupWithManager.
  destruct controller_scheme as [s|]; [right|by left].
  destruct (NewManager opts s) as [m0|] eqn:E0;
    [destruct (Complete liveness_setup m0) as [m1|] eqn:E1;
      [destruct (Complete rollout_setup m1) as [m2|] eqn:E2; [destruct (Start _) as [err|] eqn:E3|]|]|].
  all: split; [do 2 eexists; split; [done|by auto]|].
  2: by split; [intros _; exists s, m0, m1, m2; split_and!|intros _; eexists].
  all: split; [by intros [? ?]|intros (s' & m0' & m1' & m2' & [= <-] & ? & ? & ? & ?); congruence].
Qed.

(** A vivarium that starts runs the enclosure of its file, whose runs are those of
    [Habitat]. *)
Lemma vivarium_main_runs `{RandSource} `{StrconvQuote} w path addr external every printed broker s :
  vivarium_main w path addr external every = VivariumRuns printed broker s ->
  exists raw f, vw_ReadFile w path = Ok raw /\ vw_Unmarshal w raw = Ok f /\ 0 < every /\
    s = settle (New (vw_Now w) f) /\ broker = (if is_empty external then embedded_broker addr else external).
Proof.
  unfold vivarium_main. destruct (vw_ReadFile w path) as [raw|]; [|done].
  destruct (vw_Unmarshal w raw) as [f|] eqn:Ef; [|done]. intros Hs. exists raw, f.
  destruct (is_empty external); [destruct (vw_AddListener w addr); [done|]|];
    (destruct (Z.leb_spec every 0); [done|]); injection Hs as _ <- <-; by split_and!.
Qed.

(** ** Concrete starts *)

(** A listener with a host makes an address of the embedded broker that is none. *)
Example listen_with_a_host :
  embedded_broker ":1883" = "tcp://127.0.0.1:1883"%string /\
  embedded_broker "0.0.0.0:1883" = "tcp://127.0.0.10.0.0.0:1883"%string.
Proof. done. Qed.

(** A scheme that is the list of its kinds, and a manager that takes every controller
    whose type its scheme knows and runs until it is told to stop. *)
#[local] Instance list_scheme : SchemeLib := {|
  Scheme := list GroupVersionKind; NewScheme := [];
  recognizes s k := existsb (fun k' => bool_decide (k = k')) s;
  clientgo_AddToScheme s := Ok (mkGVK "" "v1" "Pod" :: s);
  Builder := (string * string) * list GroupVersionKind;
  NewBuilder group version := ((group, version), []);
  Register kinds b := (b.1, b.2 ++ map (mkGVK b.1.1 b.1.2) kinds);
  AddToScheme b s := Ok (s ++ b.2)
|}.

#[local] Instance list_scheme_laws : SchemeLaws.
Proof.
  refine {| registered := (snd : Builder -> _); group_version := (fst : Builder -> _) |}; [done..|].
  intros b s s' k [= <-]. apply existsb_app.
Defined.

#[local] Instance strict_manager : ManagerLib := {|
  Manager := list GroupVersionKind; NewManager _ s := Ok s;
  Complete su s :=
    if negb (su_typed su) || recognizes s (su_For su) then Ok s else Err "no kind is registered"%string;
  AddHealthzCheck _ m := m; AddReadyzCheck _ m := m; Start _ := None
|}.

(** The controllers start on the scheme that the process makes; without its
    registrations the rollout controller would not. *)
Example controllers_start :
  controller_main (manager_options ":8080" ":8081" false) = Exit 0 ["starting liveness controller"%string] /\
  Complete rollout_setup (NewScheme : Manager) = Err "no kind is registered"%string.
Proof. vm_compute. done. Qed.
